(* ===== verification/_CoqProject ===== *)
-Q . S2P
Prelude.v
Exceptions.v
Values.v
Text.v
PyOps.v
Digests.v
Enums.v
Dag.v
Definitions.v
Config.v
Instance.v
Events.v
EventCodec.v
Fold.v
Samples.v
FoldTheory.v
Tables.v
ModelCodec.v
Schema.v
SchemaTheory.v
EventStore.v
EventStoreTheory.v
Leasing.v
Outbox.v
Ports.v
SideEffects.v
SideEffectsTheory.v
Cost.v
Observability.v
LlmClient.v
LlmProviders.v
Runners.v
Evals.v
ModelFiles.v
Journal.v
Integrations.v
Driver.v
PlanTheory.v
DriverTheory.v
DriverProps.v
WaveTheory.v
Completion.v
Escalation.v
Control.v
DeadLetter.v
Instances.v
RegistryTheory.v
Operators.v
World.v
Worker.v
RunOnce.v
Heartbeats.v
Auth.v
Cli.v
Api.v
ApiTheory.v
Scenarios.v
CompletionRuns.v
ApiRuns.v
Agents.v
Live.v
CoreAgents.v
Sales.v
SalesModels.v
SalesAgents.v
Bootstrap.v
Runtime.v
Deployment.v
Lifecycle.v
SalesRuns.v
BootstrapRuns.v
