(* ===== verification/Prelude.v ===== *)
(** * AgentForge: a verification development of the durable execution engine

    The program ([src/src/agentforge/], Python) runs workflows of agent steps
    durably.  Every fact about an instance is an event; the state of an instance is
    the fold of its events; workers lease instances, drive them step by step, and
    append what happened under optimistic concurrency and a lease guard; effects on
    the outside world go through an idempotency outbox; operators, an HTTP API and a
    recovery scan act on the same log.  The development models that program component
    by component, each definition after the function it translates, and proves what
    makes the components, and their composition, correct.

    ** Files, and the code they model

    Foundations
    - [Prelude]: results of code that may raise, the state-and-exception monad
      [M W E] (a function of the world), [triple] for reasoning about it, generic
      lemmas and tactics.
    - [Exceptions] ([exceptions.py]): the class hierarchy, [isinstance], the retry
      flags.
    - [Values], [Text], [PyOps]: Python values as the code uses them: binary64 floats
      that round as CPython's do, JSON, timestamps, formatting, strings, [==], [in],
      [float(x)].
    - [Digests] ([core/hashing.py]): the digest of a value's canonical JSON.

    Domain
    - [Enums] ([core/domain/enums.py]), [Dag] and [Definitions]
      ([core/domain/dag.py], [definition.py]), [Instance] ([core/domain/instance.py]),
      [Events] ([core/events/]): vocabularies, transition tables, definitions and
      their validation, the projection, the twenty-three events, snapshots.
    - [EventCodec] ([core/events/types.py]): the field tables of the event classes,
      [dump_event] and [parse_event] over JSON.
    - [Fold] ([core/events/fold.py]) and [FoldTheory]: every handler, and an abstract
      machine (guarded updates) that the fold refines.

    Persistence
    - [Tables] ([core/persistence/tables.py]): the database as a record of tables.
    - [ModelCodec] ([core/domain/instance.py], [definition.py]): instances and definitions
      as JSON, validated with every constraint of their classes; the database's codec
      made of them.
    - [Schema], [SchemaTheory] ([migrations/versions/], [tables.py]): the migrations as
      data-definition statements over a catalogue, the tables the ORM declares, the
      row-level security policies.
    - [EventStore] ([core/persistence/event_store.py]) and [EventStoreTheory]:
      append, guard, projections, snapshots, reads, over an explicit database with
      rollback; concurrent transactions are an explicit interference.
    - [Leasing] ([core/leasing.py]), [Outbox] ([core/outbox.py]),
      [Journal] ([core/persistence/protocols.py]): claims and fences; both outboxes;
      the interfaces the engine is written against, as type classes with laws that
      the database discharges.
    - [Ports] ([core/ports.py]): clock and ids.

    Execution
    - [SideEffects], [SideEffectsTheory] ([core/side_effects.py]): the guard over any
      outbox and any provider.
    - [Cost] ([core/cost/]), [LlmClient] ([core/llm_client.py]), [LlmProviders]
      ([integrations/llm/]): estimation, routing, budgets, fallback, the two vendors.
    - [Runners] ([core/runners.py], [core/executor.py]): the step context; user code
      is the tree of what it asks of it.
    - [Driver] ([core/driver.py]), with [PlanTheory], [DriverTheory], [DriverProps]:
      planning, waves, retries, reviews, failure policies, rollback, recovery, the
      main loop; [WaveTheory] and [Completion]: what a wave does to the steps, and
      drives that run to completion.
    - [Integrations] ([integrations/actions/], [integrations/notifications/]): n8n,
      plain webhooks, the dry-run provider, notifiers, over an arbitrary HTTP client.
    - [Evals] ([evals/]): scorers and the harness.
    - [ModelFiles] ([core/cost/registry.py], [evals/]): the model registry and the eval
      suites read from YAML, reports written as JSON.

    Operation
    - [Escalation], [Control], [DeadLetter], [Instances] (the modules of the same names
      under [core/], and [definition_repo.py]), [Operators]: what operators do;
      [RegistryTheory]: the registry of definitions as a map from versions.
    - [World]: the database with one process, on which every interface is
      instantiated; [Worker] ([worker.py], [core/recovery.py]): the loops cut at
      their awaits and interleaved as a step relation; [RunOnce]: a pass from the
      claim to the released lease; [Heartbeats]: leases kept by beating in time;
      [Lifecycle]: [Worker.run] from its loops to the end of the drain.
    - [Config] ([config.py]), [Bootstrap] ([bootstrap.py]), [Cli] ([cli.py],
      [evals/report.py]): settings, what they wire together, the commands that mint
      keys and run suites; [Runtime] ([api/app.py], [db.py], [redis_client.py],
      [worker.py]): the clients of a process, the lifespan of the application, and the
      [worker] and [eval] commands up to the loops and scores they run.
    - [Observability] ([observability/], [logging.py]): metrics, spans, trace ids on log
      lines.  The engine's own calls to them are left out of its model.
    - [Auth] ([core/auth.py]), [Api], [ApiTheory] ([api/]): credentials, scopes,
      routes, errors; [Live] ([core/pubsub.py]): updates from an append to a socket.

    Agents
    - [Agents], [CoreAgents] ([agents/]): agents as coroutines over state graphs.
    - [Sales], [SalesModels], [SalesAgents] ([use_cases/sales_intelligence/]): the
      reference workflow, its models, agents, provider and tools.

    [Samples], [Scenarios], [CompletionRuns], [ApiRuns], [Deployment], [SalesRuns] and
    [BootstrapRuns] run the engine on concrete databases: they instantiate the
    theorems and exhibit behaviours that only the composition has.

    ** What the theorems show

    - The log is the truth.  The fold refines the guarded machine, follows the two
      transition tables, keeps instances well formed, and may start from a snapshot
      of any prefix ([FoldTheory]).  Appends are atomic, sequential and version
      checked; every reader sees the fold of the log; other tenants see nothing
      ([EventStoreTheory]).  Every valid event is read back from its dump, and nothing
      ill-typed is read ([EventCodec]); exactly the valid definitions are admitted
      ([ModelCodec]), and the registry keeps what was registered ([RegistryTheory]).
      The migrations build the tables the ORM declares, each downgrade undoes its
      upgrade ([SchemaTheory]).
    - Nobody acts without the lease.  Claims are exclusive while they last and fences
      only grow ([Leasing]); a worker that beats in time never loses one
      ([Heartbeats]); a worker that drives on after its lease was lost writes nothing
      ([RunOnce]); what a drive writes keeps its local copy equal to the fold of the
      log ([DriverProps]).
    - Steps run when they may.  Plans dispatch only cleared steps, within the limits,
      and idle only when blocked ([PlanTheory]); a drive starts only steps cleared by
      the leased definition at the time they start; a recovered instance has no running
      step ([DriverProps]); while no attempt fails and the lease is held, a drive
      completes every step ([Completion]), and a pass of a worker completes everything
      it claims and releases it ([RunOnce]).
    - Effects happen at most once across crashes and retries, given a provider that
      dedupes or reconciles ([SideEffectsTheory]), as the n8n adapter does for
      idempotent effects, and for the others exactly when no status request fails
      ([Integrations]); a rollback undoes them newest first ([SideEffectsTheory]); the
      outbox table refines the in-memory one ([Outbox]).
    - Models are chosen within budget, replaced on transient failures only, and a
      replayed step repeats its run ([Cost], [LlmProviders], [Runners]).
    - Operators' decisions are exact, workers hold at most their concurrency, the
      recovery scan converges, a stopped worker runs nothing, tenants are kept apart
      through the API, a key minted on the command line opens its own scopes, an open
      socket relays every update published after it subscribed ([Operators], [Worker],
      [Lifecycle], [ApiTheory], [Cli], [Live]).
    - Dependencies are layered, or refused for a reason, on every input ([Dag]).
    - Agents stop within their limits of model calls and effects ([CoreAgents],
      [SalesAgents]; [SalesRuns] has sample runs); an eval report says what happened
      ([Evals]).
    - Behaviours the code does not intend, as theorems: an instance that was only
      created cannot be driven, a second escalation of a wave is stranded, a long
      failure reason never reaches the queue, a lease stolen between guard and commit
      still writes, an effect that landed is repeated when its status request fails
      ([DriverProps], [Scenarios], [RunOnce], [Integrations]); and, in sample runs, a
      reworded effect fires again, a drain outlasts its lease, the engine built from the
      settings cannot run the reference workflow ([SalesRuns], [Lifecycle],
      [BootstrapRuns]).

    ** Conventions and bounds

    - Code that may raise is [result exn]; code with effects is [M W exn A].  A
      rolled-back transaction leaves the tables as they were ([transaction]).
    - Loops that are not structural carry fuel, and a lemma says it is enough: Kahn's
      layering has as much as there are steps ([layers_loop_fuel], and
      [layers_loop_stuck]: it fails only on steps that are stuck), class lookup four
      levels ([mro_complete]), operators retry [_RETRIES] times and a drive iterates
      [_MAX_DRIVE_ITERATIONS] times because the source does; state graphs stop at the
      recursion limit of the library, which the bounded agents never reach.
    - Strings are byte strings, read as ASCII where the code looks inside (so lengths
      count bytes, where pydantic counts characters); integers are [Z], as Python's;
      columns with a width that matters ([reason]) check it.  A float is its own JSON
      dump, NaN and the infinities included.
    - [asyncio.gather] runs its attempts one after the other; dicts whose order the
      code observes are lists, the others finite maps.

    ** Parameters

    Code outside the repository is an argument of the definitions that use it, with
    its documented behaviour as a class of laws or named hypotheses where a theorem
    needs it: orjson's encoding and SHA-256 ([Hashing]), number and
    object formatting ([PyStr]), [pow] ([CMath]), LangGraph ([LangGraph]), orjson
    ([Orjson]), PyJWT and the secrets ([Jwt], [Secrets]), Redis ([RateRedis]), httpx
    ([Httpx]), the vendors' SDKs, [re.search] ([EvalText]), pydantic's reading of JSON
    scalars ([Lax]), the file system and PyYAML ([Files], [Disk]), the clients of the
    composition root and its host ([Clients], [JsonLoads], [Pools], [Host], [Os]),
    [prometheus_client] ([Prometheus]), OpenTelemetry ([Otel]).  The event store is
    written over a codec ([Codec]) whose laws speak of valid events and definitions
    only; [json_codec] satisfies them.  What PostgreSQL does with a statement is written
    out in [Tables], [EventStore] and [Schema].  Each such theorem has a witness on a
    concrete instance.

    ** Not modelled

    - The ASGI server, FastAPI's routing, dependency injection and instrumentation:
      frameworks, with no state of their own.
    - The log lines and counter increments inside the engine: they do not affect its
      state ([Observability] models the helpers).
    - Reading the environment and the command line; YAML documents with keys that are
      not strings; the order of the keys of a JSON report; the creation and closing of
      HTTP clients by the action providers.
    - Wall-clock scheduling: timers and timeouts are events that may happen at any
      time; [Heartbeats] states what a bound on the heartbeat period gives. *)

From stdpp Require Import base strings list gmap pretty sorting relations.
From Stdlib Require Import ZArith Lia.

(** ** Fallible computations

    Python code that may raise is modelled by [result E A]: [Ok a] for a normal
    return, [Err e] for a raised exception [e]. *)
Inductive result (E A : Type) : Type :=
| Ok (a : A)
| Err (e : E).
Arguments Ok {E A} a.
Arguments Err {E A} e.

Global Instance result_ret {E} : MRet (result E) := fun A a => Ok a.
Global Instance result_bind {E} : MBind (result E) := fun A B k m =>
  match m with Ok a => k a | Err e => Err e end.
Global Instance result_fmap {E} : FMap (result E) := fun A B f m =>
  match m with Ok a => Ok (f a) | Err e => Err e end.

Definition is_ok {E A} (r : result E A) : bool :=
  match r with Ok _ => true | Err _ => false end.

Section result_lemmas.
Context {E A B : Type}.

Lemma bind_Ok (m : result E A) (k : A -> result E B) b :
  mbind k m = Ok b <-> exists a, m = Ok a /\ k a = Ok b.
Proof. destruct m; cbn; naive_solver. Qed.

Lemma bind_Err (m : result E A) (k : A -> result E B) e :
  mbind k m = Err e <-> m = Err e \/ exists a, m = Ok a /\ k a = Err e.
Proof. destruct m; cbn; naive_solver. Qed.

Lemma is_ok_true (m : result E A) : is_ok m = true <-> exists a, m = Ok a.
Proof. destruct m; cbn; naive_solver. Qed.
End result_lemmas.

(** A left fold whose step may raise: a Python [for] loop that updates an
    accumulator and propagates the first exception. *)
Fixpoint foldM {E A B} (f : A -> B -> result E A) (a : A) (l : list B) : result E A :=
  match l with
  | [] => Ok a
  | b :: l' => a' ← f a b; foldM f a' l'
  end.

Section foldM_lemmas.
Context {E A B : Type} (f : A -> B -> result E A).

Lemma foldM_app a l1 l2 :
  foldM f a (l1 ++ l2) = (a' ← foldM f a l1; foldM f a' l2).
Proof.
  revert a; induction l1 as [|b l1 IH]; intros a; [done|].
  cbn. destruct (f a b) as [a'|e]; cbn; [apply IH|done].
Qed.

Lemma foldM_cons_Ok a b l a' :
  foldM f a (b :: l) = Ok a' <-> exists a1, f a b = Ok a1 /\ foldM f a1 l = Ok a'.
Proof. cbn. apply bind_Ok. Qed.

Lemma foldM_app_Ok a l1 l2 a' :
  foldM f a (l1 ++ l2) = Ok a' <->
  exists a1, foldM f a l1 = Ok a1 /\ foldM f a1 l2 = Ok a'.
Proof. rewrite foldM_app. apply bind_Ok. Qed.

(** Rule induction over a successful fold: a reflexive, transitive relation
    established by every successful step holds of the whole fold. *)
Lemma foldM_rel (R : A -> A -> Prop) `{!Reflexive R, !Transitive R} a l a' :
  (forall x b x', b ∈ l -> f x b = Ok x' -> R x x') ->
  foldM f a l = Ok a' -> R a a'.
Proof.
  revert a; induction l as [|b l IH]; intros a Hstep.
  - intros [= ->]. reflexivity.
  - intros (a1 & H1 & H2)%foldM_cons_Ok.
    transitivity a1; [eapply Hstep; [constructor|done]|].
    eapply IH; [|done]. intros x b' x' Hin. apply Hstep. by constructor.
Qed.

(** An invariant kept by every successful step is kept by the fold. *)
Lemma foldM_inv (P : A -> Prop) a l a' :
  (forall x b x', b ∈ l -> P x -> f x b = Ok x' -> P x') ->
  P a -> foldM f a l = Ok a' -> P a'.
Proof.
  intros Hstep Ha Hf.
  refine (foldM_rel (fun x y => P x -> P y) a l a' _ Hf Ha); try naive_solver.
Qed.

(** If the invariant guarantees that no step raises, the fold is total. *)
Lemma foldM_total (P : A -> Prop) a l :
  (forall x b, b ∈ l -> P x -> exists x', f x b = Ok x' /\ P x') ->
  P a -> exists a', foldM f a l = Ok a' /\ P a'.
Proof.
  revert a; induction l as [|b l IH]; intros a Hstep Ha; [by eexists|].
  destruct (Hstep a b ltac:(constructor) Ha) as (a1 & H1 & HP1).
  destruct (IH a1) as (a2 & H2 & HP2); [|done|].
  { intros x b' Hin. apply Hstep. by constructor. }
  exists a2. split; [|done]. cbn. by rewrite H1.
Qed.
End foldM_lemmas.

(** ** Stateful, fallible computations

    [M W E A] is a Python coroutine over the state [W]: it returns or raises,
    and in both cases leaves a state behind (an exception does not undo the
    writes made before it; a database transaction does, see [transaction]). *)
Definition M (W E A : Type) : Type := W -> result E A * W.

Global Instance M_ret {W E} : MRet (M W E) := fun A a w => (Ok a, w).
Global Instance M_bind {W E} : MBind (M W E) := fun A B k m w =>
  match m w with
  | (Ok a, w') => k a w'
  | (Err e, w') => (Err e, w')
  end.

Section M_operations.
Context {W E : Type}.

Definition raise {A} (e : E) : M W E A := fun w => (Err e, w).

(** A pure, possibly raising expression evaluated in the coroutine. *)
Definition lift {A} (r : result E A) : M W E A := fun w => (r, w).

Definition gets {A} (f : W -> A) : M W E A := fun w => (Ok (f w), w).

Definition modify (f : W -> W) : M W E unit := fun w => (Ok tt, f w).

(** [try: m  except e if it matches: handler e]. *)
Definition try_catch {A} (m : M W E A) (handler : E -> option (M W E A)) : M W E A :=
  fun w => match m w with
           | (Ok a, w') => (Ok a, w')
           | (Err e, w') => match handler e with
                            | Some h => h w'
                            | None => (Err e, w')
                            end
           end.

(** [async with session.begin():] commits on a normal return and rolls back
    when an exception leaves the block. *)
Definition transaction {A} (m : M W E A) : M W E A :=
  fun w => match m w with
           | (Ok a, w') => (Ok a, w')
           | (Err e, _) => (Err e, w)
           end.

(** Run [m] and look at how it ended, whichever way it did. *)
Definition observe {A} (m : M W E A) : M W E (result E A) :=
  fun w => let '(r, w') := m w in (Ok r, w').

(** [except Exception as exc: ...] runs [handler] on the exceptions that
    [catches] accepts. *)
Definition try_except {A} (m : M W E A) (catches : E -> bool) (handler : E -> M W E A)
    : M W E A :=
  try_catch m (fun e => if catches e then Some (handler e) else None).

(** [for x in l: await f(x)], collecting the results. *)
Fixpoint mapM_ {A B} (f : A -> M W E B) (l : list A) : M W E (list B) :=
  match l with
  | [] => mret []
  | a :: l' => b ← f a; bs ← mapM_ f l'; mret (b :: bs)
  end.
End M_operations.

Section M_lemmas.
Context {W E : Type}.

Lemma M_bind_Ok {A B} (m : M W E A) (k : A -> M W E B) w b w' :
  mbind k m w = (Ok b, w') <->
  exists a w1, m w = (Ok a, w1) /\ k a w1 = (Ok b, w').
Proof.
  unfold mbind, M_bind. destruct (m w) as [[a|e] w1].
  - split; [by eauto|]. intros (a' & w1' & [= -> ->] & H). exact H.
  - split; [done|]. intros (a' & w1' & [=] & H).
Qed.

Lemma M_bind_step {A B} (m : M W E A) (k : A -> M W E B) w a w1 :
  m w = (Ok a, w1) -> mbind k m w = k a w1.
Proof. intros H. unfold mbind, M_bind. by rewrite H. Qed.

Lemma M_bind_raise {A B} (m : M W E A) (k : A -> M W E B) w e w1 :
  m w = (Err e, w1) -> mbind k m w = (Err e, w1).
Proof. intros H. unfold mbind, M_bind. by rewrite H. Qed.

Lemma transaction_err {A} (m : M W E A) w e w' :
  transaction m w = (Err e, w') -> w' = w.
Proof. unfold transaction. destruct (m w) as [[a|e'] w1]; naive_solver. Qed.

Lemma transaction_ok {A} (m : M W E A) w a w' :
  transaction m w = (Ok a, w') <-> m w = (Ok a, w').
Proof. unfold transaction. destruct (m w) as [[a'|e'] w1]; naive_solver. Qed.
End M_lemmas.

(** A computation on one component of a larger state. *)
Definition on_fst {A B E R} (m : M A E R) : M (A * B) E R := fun w =>
  let '(r, a) := m (fst w) in (r, (a, snd w)).

Lemma on_fst_snd {A B E R} (m : M A E R) (w : A * B) : snd (snd (on_fst m w)) = snd w.
Proof. unfold on_fst. by destruct (m (fst w)). Qed.

(** [m] leaves the observation [obs] of the state as it found it, whether it
    returns or raises. *)
Definition preserves {W E A O} (obs : W -> O) (m : M W E A) : Prop :=
  forall w, obs (snd (m w)) = obs w.

Section preserves_lemmas.
Context {W E O : Type} (obs : W -> O).

Lemma preserves_ret {A} (a : A) : preserves obs (mret a : M W E A).
Proof. done. Qed.

Lemma preserves_bind {A B} (m : M W E A) (k : A -> M W E B) :
  preserves obs m -> (forall a, preserves obs (k a)) -> preserves obs (mbind k m).
Proof.
  intros Hm Hk w. unfold mbind, M_bind. specialize (Hm w).
  destruct (m w) as [[a|e] w1]; cbn in *; [|done]. by rewrite Hk.
Qed.

Lemma preserves_raise {A} (e : E) : preserves obs (raise e : M W E A).
Proof. done. Qed.

Lemma preserves_lift {A} (r : result E A) : preserves obs (lift r : M W E A).
Proof. done. Qed.

Lemma preserves_gets {A} (f : W -> A) : preserves obs (gets f : M W E A).
Proof. done. Qed.

Lemma preserves_try {A} (m : M W E A) h :
  preserves obs m -> (forall e m', h e = Some m' -> preserves obs m') ->
  preserves obs (try_catch m h).
Proof.
  intros Hm Hh w. unfold try_catch. specialize (Hm w).
  destruct (m w) as [[a|e] w1]; cbn in *; [done|].
  destruct (h e) as [m'|] eqn:Hhe; [|done]. by rewrite (Hh _ _ Hhe).
Qed.

Lemma preserves_mapM {A B} (f : A -> M W E B) (l : list A) :
  (forall a, preserves obs (f a)) -> preserves obs (mapM_ f l).
Proof.
  intros Hf. induction l as [|a l IH]; [apply preserves_ret|]. cbn.
  apply preserves_bind; [done|]. intros b.
  apply preserves_bind; [done|]. intros bs. apply preserves_ret.
Qed.
End preserves_lemmas.

(** ** Triples

    [triple P R m Q]: from a state satisfying [P], [m] moves the state along the
    relation [R] however it ends, and if it returns a value that value and the
    final state satisfy [Q]. *)
Definition triple {W E A} (P : W -> Prop) (R : W -> W -> Prop) (m : M W E A)
    (Q : A -> W -> Prop) : Prop :=
  forall w, P w -> R w (snd (m w)) /\
    match fst (m w) with Ok a => Q a (snd (m w)) | Err _ => True end.

Section triple_rules.
Context {W E : Type} (R : W -> W -> Prop) `{!PreOrder R}.

Lemma triple_weaken {A} (P P' : W -> Prop) (m : M W E A) (Q Q' : A -> W -> Prop) :
  triple P R m Q -> (forall w, P' w -> P w) -> (forall a w, Q a w -> Q' a w) ->
  triple P' R m Q'.
Proof.
  intros Hm HP HQ w Hw. destruct (Hm w (HP w Hw)) as [H1 H2]. split; [done|].
  destruct (fst (m w)); auto.
Qed.

Lemma triple_ret {A} (P : W -> Prop) (a : A) : triple P R (mret a : M W E A) (fun x w => P w /\ x = a).
Proof. intros w Hw. by split. Qed.

Lemma triple_ret_post {A} (P : W -> Prop) (a : A) (Q : A -> W -> Prop) :
  (forall w, P w -> Q a w) -> triple P R (mret a : M W E A) Q.
Proof. intros HQ w Hw. split; [reflexivity|]. by apply HQ. Qed.

Lemma triple_raise {A} (P : W -> Prop) (e : E) (Q : A -> W -> Prop) :
  triple P R (raise e) Q.
Proof. intros w Hw. by split. Qed.

Lemma triple_lift {A} (P : W -> Prop) (r : result E A) :
  triple P R (lift r) (fun a w => P w /\ r = Ok a).
Proof. intros w Hw. split; [reflexivity|]. by destruct r. Qed.

Lemma triple_gets {A} (P : W -> Prop) (f : W -> A) :
  triple P R (gets f : M W E A) (fun a w => P w /\ a = f w).
Proof. intros w Hw. by split. Qed.

Lemma triple_bind {A B} (P : W -> Prop) (m : M W E A) (k : A -> M W E B)
    (Q : A -> W -> Prop) (Q' : B -> W -> Prop) :
  triple P R m Q -> (forall a, triple (Q a) R (k a) Q') -> triple P R (mbind k m) Q'.
Proof.
  intros Hm Hk w Hw. destruct (Hm w Hw) as [H1 H2]. unfold mbind, M_bind.
  destruct (m w) as [[a|e] w1]; cbn in *; [|done].
  destruct (Hk a w1 H2) as [H3 H4]. split; [by etransitivity|done].
Qed.

(** A pure fact in the precondition may be used to prove the triple. *)
Lemma triple_pure {A} (P : W -> Prop) (phi : Prop) (m : M W E A) (Q : A -> W -> Prop) :
  (phi -> triple P R m Q) -> triple (fun w => P w /\ phi) R m Q.
Proof. intros Hm w [Hw Hphi]. by apply Hm. Qed.

Lemma triple_mapM {A B} (P : W -> Prop) (f : A -> M W E B) (phi : A -> B -> Prop) (l : list A) :
  (forall a, a ∈ l -> triple P R (f a) (fun b w => P w /\ phi a b)) ->
  triple P R (mapM_ f l) (fun bs w => P w /\ Forall2 phi l bs).
Proof.
  induction l as [|a l IH]; intros Hf; cbn [mapM_].
  { apply triple_ret_post. by split; [|constructor]. }
  eapply triple_bind; [apply Hf; left|]. intros b. apply triple_pure. intros Hb.
  eapply triple_bind; [apply IH; intros a' Ha; apply Hf; by right|]. intros bs.
  apply triple_pure. intros Hbs. apply triple_ret_post. intros w Hw. by split; [|constructor].
Qed.

Lemma triple_observe {A} (P : W -> Prop) (m : M W E A) (Q : A -> W -> Prop) :
  triple P R m Q -> (forall w w', P w -> R w w' -> P w') ->
  triple P R (observe m) (fun r w => P w /\ match r with Ok a => Q a w | Err _ => True end).
Proof.
  intros Hm Hst w Hw. destruct (Hm w Hw) as [H1 H2]. pose proof (Hst w _ Hw H1) as HP.
  unfold observe. destruct (m w) as [[a|e] w1]; cbn in *; auto.
Qed.

Lemma triple_try {A} (P : W -> Prop) (m : M W E A) c h (Q : A -> W -> Prop) :
  triple P R m Q -> (forall e, triple (fun w => exists w0, P w0 /\ R w0 w) R (h e) Q) ->
  triple P R (try_except m c h) Q.
Proof.
  intros Hm Hh w Hw. destruct (Hm w Hw) as [H1 H2]. unfold try_except, try_catch.
  destruct (m w) as [[a|e] w1]; cbn in *; [done|].
  destruct (c e); [|done]. destruct (Hh e w1) as [H3 H4]; [by eexists|].
  split; [by etransitivity|done].
Qed.
End triple_rules.

(** Rule induction on reachability: what every step keeps, every run keeps. *)
Lemma rtc_keeps {A} (R : relation A) (P : A -> Prop) a b :
  (forall x y, P x -> R x y -> P y) -> rtc R a b -> P a -> P b.
Proof. intros Hstep. induction 1; eauto. Qed.

Create HintDb forge.
#[export] Hint Resolve preserves_ret preserves_bind preserves_raise preserves_lift
  preserves_gets preserves_try preserves_mapM : forge.

(** ** Tactics *)

(** Split every successful bind among the hypotheses and solve the impossible
    ones. *)
Ltac simplify_res :=
  repeat match goal with
  | H : Ok _ = Ok _ |- _ => injection H; clear H; intros; subst
  | H : Err _ = Err _ |- _ => injection H; clear H; intros; subst
  | H : Ok _ = Err _ |- _ => discriminate H
  | H : Err _ = Ok _ |- _ => discriminate H
  | H : mret _ = Ok _ |- _ => unfold mret, result_ret in H
  | H : @mbind (result _) _ _ _ _ _ = Ok _ |- _ =>
      let a := fresh "a" in let H1 := fresh "Hm" in
      apply bind_Ok in H as (a & H1 & H)
  end; simplify_eq/=.

(** Case split on the scrutinee of the first conditional of hypothesis [H]. *)
Ltac case_if_in H :=
  match type of H with
  | context [if ?b then _ else _] => let E := fresh "Hb" in destruct b eqn:E
  end.

(** ** Generic list lemmas *)

Section list_lemmas.
Context {A : Type}.

Lemma filter_all_false (P : A -> Prop) `{forall x, Decision (P x)} (l : list A) :
  (forall x, x ∈ l -> ~ P x) -> filter P l = [].
Proof.
  intros Hf. destruct (filter P l) as [|x l'] eqn:Heq; [done|].
  assert (x ∈ filter P l) as Hx by (rewrite Heq; constructor).
  apply list_elem_of_filter in Hx as [HP Hin]. by apply Hf in Hin.
Qed.

Lemma filter_all_true (P : A -> Prop) `{forall x, Decision (P x)} (l : list A) :
  (forall x, x ∈ l -> P x) -> filter P l = l.
Proof.
  induction l as [|x l IH]; intros Hf; [done|].
  rewrite filter_cons_True; [|apply Hf; constructor].
  f_equal. apply IH. intros y Hy. apply Hf. by constructor.
Qed.

Lemma filter_ext_in (P Q : A -> Prop) `{forall x, Decision (P x), forall x, Decision (Q x)}
    (l : list A) :
  (forall x, x ∈ l -> P x <-> Q x) -> filter P l = filter Q l.
Proof.
  induction l as [|x l IH]; intros Hf; [done|].
  assert (filter P l = filter Q l) as Hl by (apply IH; intros y Hy; apply Hf; by right).
  destruct (decide (P x)) as [HP|HP].
  - rewrite (filter_cons_True P), (filter_cons_True Q), Hl; [done| |done]. apply Hf; [left|done].
  - rewrite (filter_cons_False P), (filter_cons_False Q), Hl; [done| |done].
    intros HQ. apply HP, Hf; [left|done].
Qed.
End list_lemmas.

(** ", ".join(parts) *)
Fixpoint str_join (sep : string) (parts : list string) : string :=
  match parts with
  | [] => ""
  | [p] => p
  | p :: rest => p +:+ sep +:+ str_join sep rest
  end.

(** The numbers [n+1 .. n+len]: what [enumerate(..., start=1)] adds to [n]. *)
Fixpoint seqZ_from (n : Z) (len : nat) : list Z :=
  match len with
  | O => []
  | S len' => (n + 1)%Z :: seqZ_from (n + 1) len'
  end.

Lemma length_seqZ_from n len : length (seqZ_from n len) = len.
Proof. revert n; induction len; intros; cbn; auto. Qed.

Lemma seqZ_from_app n a b :
  seqZ_from n (a + b) = seqZ_from n a ++ seqZ_from (n + Z.of_nat a) b.
Proof.
  revert n; induction a as [|a IH]; intros n; [by rewrite Z.add_0_r|].
  cbn. f_equal. rewrite IH. do 2 f_equal. lia.
Qed.

Lemma elem_of_seqZ_from z n len :
  z ∈ seqZ_from n len <-> (n < z <= n + Z.of_nat len)%Z.
Proof.
  revert n; induction len as [|len IH]; intros n; cbn.
  - split; [by intros ?%not_elem_of_nil|lia].
  - rewrite elem_of_cons, IH. lia.
Qed.
