(* ===== verification/Exceptions.v ===== *)
(** Exceptions: the hierarchy of [exceptions.py] plus the Python built-ins and
    library exceptions that the engine raises or tests for.  An exception is a
    class and a message; [isinstance] is reachability in the class hierarchy. *)

From stdpp Require Import base strings list.
From S2P Require Import Prelude.

(** Every class of [exceptions.py]; [PyExc name] is any class defined outside
    it, identified by its [__name__]. *)
Inductive exn_class :=
| AgentForgeError
| ConfigurationError | WorkflowDefinitionError | CyclicDependencyError
| EventStreamError | InvalidStateTransition
| ConflictError | LeaseLostError
| StepExecutionError | StepTimeoutError | MaxRetriesExceededError
| BudgetExceededError
| LLMError | LLMTimeoutError | RateLimitError | MalformedOutputError | NoEligibleModelError
| SideEffectError | CompensationError
| EscalationTimeout
| PyExc (name : string).

Global Instance exn_class_eq_dec : EqDecision exn_class.
Proof. solve_decision. Defined.

Record exn := Exn { exn_cls : exn_class; exn_msg : string }.

Abbreviation res := (result exn).

(** [type(exc).__name__] *)
Definition class_name (c : exn_class) : string :=
  match c with
  | AgentForgeError => "AgentForgeError"
  | ConfigurationError => "ConfigurationError"
  | WorkflowDefinitionError => "WorkflowDefinitionError"
  | CyclicDependencyError => "CyclicDependencyError"
  | EventStreamError => "EventStreamError"
  | InvalidStateTransition => "InvalidStateTransition"
  | ConflictError => "ConflictError"
  | LeaseLostError => "LeaseLostError"
  | StepExecutionError => "StepExecutionError"
  | StepTimeoutError => "StepTimeoutError"
  | MaxRetriesExceededError => "MaxRetriesExceededError"
  | BudgetExceededError => "BudgetExceededError"
  | LLMError => "LLMError"
  | LLMTimeoutError => "LLMTimeoutError"
  | RateLimitError => "RateLimitError"
  | MalformedOutputError => "MalformedOutputError"
  | NoEligibleModelError => "NoEligibleModelError"
  | SideEffectError => "SideEffectError"
  | CompensationError => "CompensationError"
  | EscalationTimeout => "EscalationTimeout"
  | PyExc name => name
  end.

(** The base class named in the class statement; [None] for classes outside
    [exceptions.py] and for the root. *)
Definition base_class (c : exn_class) : option exn_class :=
  match c with
  | AgentForgeError | PyExc _ => None
  | ConfigurationError | EventStreamError | ConflictError | StepExecutionError
  | BudgetExceededError | LLMError | SideEffectError | EscalationTimeout =>
      Some AgentForgeError
  | WorkflowDefinitionError => Some ConfigurationError
  | CyclicDependencyError => Some WorkflowDefinitionError
  | InvalidStateTransition => Some EventStreamError
  | LeaseLostError => Some ConflictError
  | StepTimeoutError | MaxRetriesExceededError => Some StepExecutionError
  | LLMTimeoutError | RateLimitError | MalformedOutputError | NoEligibleModelError =>
      Some LLMError
  | CompensationError => Some SideEffectError
  end.

(** The class and its bases, most derived first.  No class is more than three
    levels below [AgentForgeError], so four unfoldings reach the root. *)
Fixpoint mro_fuel (fuel : nat) (c : exn_class) : list exn_class :=
  c :: match fuel, base_class c with
       | S n, Some b => mro_fuel n b
       | _, _ => []
       end.
Definition mro (c : exn_class) : list exn_class := mro_fuel 4 c.

(** [isinstance(exc, cls)] *)
Definition isinstance (e : exn) (c : exn_class) : bool :=
  bool_decide (c ∈ mro (exn_cls e)).

(** The [retryable] class attribute written in the class body, if any. *)
Definition declared_retryable (c : exn_class) : option bool :=
  match c with
  | AgentForgeError => Some false
  | ConflictError | StepTimeoutError | LLMTimeoutError | RateLimitError
  | MalformedOutputError => Some true
  | MaxRetriesExceededError | BudgetExceededError | NoEligibleModelError
  | CompensationError | EscalationTimeout => Some false
  | _ => None
  end.

(** Attribute lookup walks the bases. *)
Definition retryable_attr (c : exn_class) : bool :=
  match head (omap declared_retryable (mro c)) with Some b => b | None => false end.

Definition RETRYABLE_BY_NAME : list string :=
  ["LLMTimeoutError"; "RateLimitError"; "MalformedOutputError"; "StepTimeoutError";
   "ConflictError"; "ConnectionError"; "TimeoutError"].

(** [except Exception]: everything but the classes that derive from
    [BaseException] directly. *)
Definition is_Exception (e : exn) : bool :=
  bool_decide (class_name (exn_cls e)
               ∉ ["CancelledError"; "KeyboardInterrupt"; "SystemExit"; "GeneratorExit"]).

(** Shorthands for exceptions of the language and its libraries. *)
Definition KeyError (k : string) : exn := Exn (PyExc "KeyError") k.
Definition RuntimeError (msg : string) : exn := Exn (PyExc "RuntimeError") msg.
Definition IndexError : exn := Exn (PyExc "IndexError") "list index out of range".
Definition IntegrityError (msg : string) : exn := Exn (PyExc "IntegrityError") msg.
Definition AssertionError : exn := Exn (PyExc "AssertionError") "".

(** The base chain always ends: four unfoldings are enough for every class. *)
Lemma mro_complete c : mro_fuel 10 c = mro c.
Proof. by destruct c. Qed.

(** Every class of [exceptions.py], and no other, is an [AgentForgeError]. *)
Lemma isinstance_root e :
  isinstance e AgentForgeError = match exn_cls e with PyExc _ => false | _ => true end.
Proof. destruct e as [[] msg]; reflexivity. Qed.
