(* ===== verification/Values.v ===== *)
(** Python values: binary64 floats, JSON-like data, timestamps, formatting.

    - [float] is the Standard Library's executable specification of IEEE 754
      arithmetic ([SpecFloat]) at binary64 precision, so that every sum, product
      and comparison rounds exactly as CPython's [float] does.
    - [json] is the data the engine carries without looking inside
      ([dict[str, Any]], stored as JSONB).  Objects are [gmap]s: two dicts with
      the same items are equal in Python, and JSONB keeps no key order.
    - timestamps ([datetime], always UTC-aware) are microseconds since the epoch. *)

From Corelib Require Import SpecFloat.
From stdpp Require Import base strings list gmap pretty.
From Stdlib Require Import ZArith Lia.
From S2P Require Import Prelude Exceptions.

(** ** binary64 *)

Definition float : Type := spec_float.
Definition prec : Z := 53.
Definition emax : Z := 1024.

Definition fadd : float -> float -> float := SFadd prec emax.
Definition fsub : float -> float -> float := SFsub prec emax.
Definition fmul : float -> float -> float := SFmul prec emax.
Definition fdiv : float -> float -> float := SFdiv prec emax.
Definition fltb : float -> float -> bool := SFltb.
Definition fleb : float -> float -> bool := SFleb.
Definition fzero : float := S754_zero false.
Definition fone : float := S754_finite false 4503599627370496 (-52).

(** The correctly rounded quotient of two integers: the value of a decimal
    literal and of Python's [int / int]. *)
Definition fratio (n : Z) (d : positive) : float :=
  match n with
  | Z0 => fzero
  | Zpos p => fdiv (S754_finite false p 0) (S754_finite false d 0)
  | Zneg p => fdiv (S754_finite true p 0) (S754_finite false d 0)
  end.

(** [float(n)] *)
Definition float_of_Z (n : Z) : float := fratio n 1.

(** [min(a, b)]: the first argument unless the second is smaller. *)
Definition fmin (a b : float) : float := if fltb b a then b else a.

(** [max(a, b)] *)
Definition fmax (a b : float) : float := if fltb a b then b else a.

(** One step of the compensated summation of CPython 3.12's [sum]: the running
    total and the accumulated rounding error. *)
Definition sum_step (acc : float * float) (x : float) : float * float :=
  let '(t, c) := acc in
  let t' := fadd t x in
  let err := if SFleb (SFabs x) (SFabs t)
             then fadd (fsub t t') x
             else fadd (fsub x t') t in
  (t', fadd c err).

(** [sum(xs)] of a list of floats on CPython 3.12 (the deployed interpreter):
    the first item is added to the integer 0, the rest with error compensation,
    and a finite non-zero compensation is added at the end. *)
Definition fsum (xs : list float) : float :=
  match xs with
  | [] => fzero
  | x :: rest =>
      let '(t, c) := foldl sum_step (fadd fzero x, fzero) rest in
      match c with
      | S754_finite _ _ _ => fadd t c
      | _ => t
      end
  end.

Definition is_nan (x : float) : bool :=
  match x with S754_nan => true | _ => false end.

(** The comparison of two floats is the lexicographic comparison of these keys. *)
Definition fkey (x : float) : Z * Z * Z :=
  match x with
  | S754_zero _ => (0, 0, 0)
  | S754_infinity true => (-2, 0, 0)
  | S754_infinity false => (2, 0, 0)
  | S754_nan => (3, 0, 0)
  | S754_finite true m e => (-1, - e, Z.neg m)
  | S754_finite false m e => (1, e, Z.pos m)
  end%Z.

Definition key_le (a b : Z * Z * Z) : Prop :=
  let '(c1, e1, m1) := a in let '(c2, e2, m2) := b in
  (c1 < c2 \/ (c1 = c2 /\ (e1 < e2 \/ (e1 = e2 /\ m1 <= m2))))%Z.

Lemma key_le_trans a b c : key_le a b -> key_le b c -> key_le a c.
Proof. destruct a as [[]], b as [[]], c as [[]]; cbn; lia. Qed.

Lemma key_le_total a b : key_le a b \/ key_le b a.
Proof. destruct a as [[]], b as [[]]; cbn; lia. Qed.

Lemma fleb_key x y :
  is_nan x = false -> is_nan y = false -> (fleb x y = true <-> key_le (fkey x) (fkey y)).
Proof.
  unfold fleb, SFleb.
  destruct x as [s1|[]| |[] m1 e1]; destruct y as [s2|[]| |[] m2 e2];
    intros Hx Hy; cbn in *; try discriminate;
    try (split; intros; (done || lia)).
  all: fold (Pos.compare m1 m2); destruct (Z.compare_spec e1 e2), (Pos.compare_spec m1 m2);
    cbn; split; intros; (done || lia).
Qed.

Lemma fltb_key x y :
  is_nan x = false -> is_nan y = false -> (fltb x y = true <-> ~ key_le (fkey y) (fkey x)).
Proof.
  unfold fltb, SFltb.
  destruct x as [s1|[]| |[] m1 e1]; destruct y as [s2|[]| |[] m2 e2];
    intros Hx Hy; cbn in *; try discriminate;
    try (split; intros; (done || lia)).
  all: fold (Pos.compare m1 m2); destruct (Z.compare_spec e1 e2), (Pos.compare_spec m1 m2);
    cbn; split; intros; (done || lia).
Qed.

Lemma fleb_trans x y z :
  is_nan x = false -> is_nan y = false -> is_nan z = false ->
  fleb x y = true -> fleb y z = true -> fleb x z = true.
Proof.
  intros Hx Hy Hz. rewrite !fleb_key by done. apply key_le_trans.
Qed.

Lemma fltb_negb_fleb x y :
  is_nan x = false -> is_nan y = false -> fltb x y = negb (fleb y x).
Proof.
  intros Hx Hy. pose proof (fltb_key x y Hx Hy) as H1.
  pose proof (fleb_key y x Hy Hx) as H2.
  destruct (fltb x y), (fleb y x); cbn; intuition congruence.
Qed.

Lemma fleb_total x y :
  is_nan x = false -> is_nan y = false -> fleb x y = true \/ fleb y x = true.
Proof. intros Hx Hy. rewrite !fleb_key by done. apply key_le_total. Qed.

Lemma fleb_refl x : is_nan x = false -> fleb x x = true.
Proof. intros Hx. by destruct (fleb_total x x Hx Hx). Qed.

Lemma fltb_fleb x y : fltb x y = true -> fleb x y = true.
Proof. unfold fltb, fleb, SFltb, SFleb. destruct (SFcompare x y) as [[]|]; done. Qed.

Lemma fltb_nan_l x y : is_nan x = true -> fltb x y = false.
Proof. by destruct x. Qed.

(** [min] is a lower bound of both arguments. *)
Lemma fmin_le_r a b : is_nan a = false -> is_nan b = false -> fleb (fmin a b) b = true.
Proof.
  intros Ha Hb. unfold fmin. destruct (fltb b a) eqn:E; [by apply fleb_refl|].
  rewrite fltb_negb_fleb in E by done. by destruct (fleb a b).
Qed.

Lemma fmin_le_l a b : is_nan a = false -> is_nan b = false -> fleb (fmin a b) a = true.
Proof.
  intros Ha Hb. unfold fmin. destruct (fltb b a) eqn:E; [by apply fltb_fleb|by apply fleb_refl].
Qed.

(** ** Timestamps *)

Definition time : Type := Z.
Bind Scope Z_scope with time.

(** [timedelta(seconds=n)] for an integer. *)
Definition seconds (n : Z) : Z := (n * 1000000)%Z.

(** [math.modf]: integral part (towards zero) and the fraction, exactly. *)
Definition modf (x : float) : Z * float :=
  match x with
  | S754_finite s m e =>
      let p := Z.pos m in
      let i := if (0 <=? e)%Z then Z.shiftl p e else Z.shiftr p (- e) in
      let f := if (0 <=? e)%Z then 0%Z else (p - Z.shiftl i (- e))%Z in
      (if s then (- i)%Z else i,
       match f with
       | Zpos q => binary_round prec emax s q e
       | _ => S754_zero s
       end)
  | _ => (0%Z, x)
  end.

(** Round to the nearest integer, ties to even. *)
Definition round_half_even (x : float) : Z :=
  let '(i, f) := modf x in
  match f with
  | S754_finite s _ _ =>
      let a := SFabs f in
      let half := fratio 1 2 in
      let up := if fltb half a then true
                else if fltb a half then false else Z.odd i in
      if up then (if s then i - 1 else i + 1)%Z else i
  | _ => i
  end.

(** [timedelta(seconds=x)] for a float, in microseconds: the integral seconds
    are exact, the fraction is scaled in floating point and rounded half to
    even.  Non-finite arguments raise. *)
Definition timedelta_seconds (x : float) : res Z :=
  match x with
  | S754_nan => Err (Exn (PyExc "ValueError") "cannot convert float NaN to integer")
  | S754_infinity _ =>
      Err (Exn (PyExc "OverflowError") "cannot convert float infinity to integer")
  | _ => let '(i, f) := modf x in
         Ok (i * 1000000 + round_half_even (fmul (float_of_Z 1000000) f))%Z
  end.

(** The UTC calendar day of a timestamp, as a day number. *)
Definition date_of (t : time) : Z := (t / 86400000000)%Z.

(** ** Formatting *)

Definition digit_pad (width : nat) (n : Z) : string :=
  let s := pretty n in
  String.concat "" (replicate (width - String.length s) "0") +:+ s.

(** [m * 2 ^ e * scale], rounded half to even: the exact binary value at the
    decimals of [scale]. *)
Definition round_scaled (scale : Z) (m : positive) (e : Z) : Z :=
  let n := (Z.pos m * scale)%Z in
  if (0 <=? e)%Z then Z.shiftl n e
  else let q := Z.shiftr n (- e) in
       match Z.compare (2 * (n - Z.shiftl q (- e)))%Z (Z.shiftl 1 (- e)) with
       | Lt => q
       | Gt => (q + 1)%Z
       | Eq => if Z.odd q then (q + 1)%Z else q
       end.

(** [f"{x:.<k>f}"] for [k] above zero. *)
Definition fmt_fixed (k : nat) (x : float) : string :=
  let scale := (10 ^ Z.of_nat k)%Z in
  let shown (s : bool) (r : Z) :=
    (if s then "-" else "") +:+ pretty (r / scale)%Z +:+ "." +:+ digit_pad k (r mod scale)%Z in
  match x with
  | S754_nan => "nan"
  | S754_infinity s => if s then "-inf" else "inf"
  | S754_zero s => shown s 0%Z
  | S754_finite s m e => shown s (round_scaled scale m e)
  end.

(** [f"{x:.4f}"] *)
Definition fmt_4f : float -> string := fmt_fixed 4.

Definition hex_digit (n : nat) : Ascii.ascii :=
  Ascii.ascii_of_nat (if (n <? 10)%nat then 48 + n else 87 + n).

(** One character of [repr(str)] inside quotes [q]. *)
Definition repr_char (q c : Ascii.ascii) : string :=
  let n := Ascii.nat_of_ascii c in
  if Ascii.eqb c q || (n =? 92)%nat then String (Ascii.ascii_of_nat 92) (String c "")
  else if (n =? 10)%nat then "\n"
  else if (n =? 13)%nat then "\r"
  else if (n =? 9)%nat then "\t"
  else if (n <? 32)%nat || (n =? 127)%nat
       then "\x" +:+ String (hex_digit (n / 16)) (String (hex_digit (n mod 16)) "")
       else String c "".

(** [repr(s)] of an ASCII string: single quotes unless the string has a single
    quote and no double quote. *)
Definition py_repr (s : string) : string :=
  let cs := String.list_ascii_of_string s in
  let dq := Ascii.ascii_of_nat 34 in
  let sq := Ascii.ascii_of_nat 39 in
  let q := if bool_decide (sq ∈ cs) && negb (bool_decide (dq ∈ cs)) then dq else sq in
  String q (String.concat "" (repr_char q <$> cs) +:+ String q "").

(** Examples checked against CPython. *)
Example py_repr_ex : py_repr "step_1" = "'step_1'".
Proof. vm_compute. reflexivity. Qed.
Example fmt_fixed_ex : fmt_4f (fratio 1 8) = "0.1250" /\ fmt_fixed 2 (fratio (-5) 2) = "-2.50".
Proof. vm_compute. done. Qed.
Example fadd_ex : fadd (fratio 1 10) (fratio 2 10) = fratio 30000000000000004 100000000000000000.
Proof. vm_compute. reflexivity. Qed.
Example fmt_4f_ex : fmt_4f (fratio 12345 100000) = "0.1235" /\ fmt_4f (fratio (-3) 2) = "-1.5000".
Proof. vm_compute. done. Qed.
Example timedelta_ex : timedelta_seconds (fratio 3 2) = Ok 1500000%Z.
Proof. vm_compute. reflexivity. Qed.
Example fsum_ex : fsum (replicate 10 (fratio 1 10)) = fone.
Proof. vm_compute. reflexivity. Qed.

(** ** JSON-like data *)

Inductive json :=
| JNull
| JBool (b : bool)
| JInt (z : Z)
| JFloat (f : float)
| JStr (s : string)
| JArr (l : list json)
| JObj (o : gmap string json).

Abbreviation dict := (gmap string json).

(** [a.update(b)] and [{**a, **b}]: the right operand wins. *)
Definition dict_update (a b : dict) : dict := b ∪ a.

(** [bool(v)] *)
Definition truthy (v : json) : bool :=
  match v with
  | JNull => false
  | JBool b => b
  | JInt z => negb (z =? 0)%Z
  | JFloat f => match f with SpecFloat.S754_zero _ => false | _ => true end
  | JStr s => negb (bool_decide (s = ""))
  | JArr l => match l with [] => false | _ => true end
  | JObj o => match map_to_list o with [] => false | _ => true end
  end.

(** [x or d], for a value that may be absent ([d.get(k) or d]). *)
Definition or_else (d : json) (v : option json) : json :=
  match v with Some v => if truthy v then v else d | None => d end.

(** [type(v).__name__] *)
Definition type_name (v : json) : string :=
  match v with
  | JNull => "NoneType" | JBool _ => "bool" | JInt _ => "int" | JFloat _ => "float"
  | JStr _ => "str" | JArr _ => "list" | JObj _ => "dict"
  end.

(** Iteration over a value: the elements of a list, the characters of a string,
    the keys of a dict. *)
Definition py_iter (v : json) : res (list json) :=
  match v with
  | JArr l => Ok l
  | JStr s => Ok ((fun c => JStr (String c "")) <$> String.list_ascii_of_string s)
  | JObj o => Ok (JStr <$> (map_to_list o).*1)
  | _ => Err (Exn (PyExc "TypeError") (py_repr (type_name v) +:+ " object is not iterable"))
  end.

(** [v.get(key, d)]: only dicts have [get]. *)
Definition py_get (v : json) (key : string) (d : json) : res json :=
  match v with
  | JObj o => Ok (default d (o !! key))
  | _ => Err (Exn (PyExc "AttributeError")
                (py_repr (type_name v) +:+ " object has no attribute 'get'"))
  end.

(** [round(x, 2)]: the exact binary value rounded half to even at two decimals,
    then to the nearest float. *)
Definition round2 (x : float) : float :=
  match x with
  | S754_finite s m e =>
      let y := fdiv (float_of_Z (round_scaled 100 m e)) (float_of_Z 100) in
      if s then SFopp y else y
  | _ => x
  end.
