(* ===== verification/Text.v ===== *)
(** Python string methods the agents use, on ASCII text. *)

From stdpp Require Import base strings list.
From Stdlib Require Import ZArith Lia Ascii.
From S2P Require Import Prelude Exceptions Values.

Abbreviation chars := String.list_ascii_of_string.
Abbreviation of_chars := String.string_of_list_ascii.

Definition nl : string := String (ascii_of_nat 10) "".

(** Text written with backquotes for double quotes. *)
Definition quoted (s : string) : string :=
  of_chars ((fun c => if bool_decide (c = "`"%char) then ascii_of_nat 34 else c) <$> chars s).

(** The white space of [str.strip]: tab to carriage return, the four separators
    and the space. *)
Definition is_space (c : ascii) : bool :=
  let n := nat_of_ascii c in ((9 <=? n) && (n <=? 13) || (28 <=? n) && (n <=? 32))%nat.

Fixpoint lstrip (p : ascii -> bool) (l : list ascii) : list ascii :=
  match l with c :: l' => if p c then lstrip p l' else l | [] => [] end.

Definition rstrip (p : ascii -> bool) (l : list ascii) : list ascii := rev (lstrip p (rev l)).

(** [s.strip()] and [s.strip(chars)]. *)
Definition strip_with (p : ascii -> bool) (s : string) : string :=
  of_chars (rstrip p (lstrip p (chars s))).
Definition strip : string -> string := strip_with is_space.

Definition backquote : ascii := "`"%char.
Definition fence : string := "```".

(** What stands before the first fence. *)
Fixpoint before_fence (l : list ascii) : list ascii :=
  match l with
  | [] => []
  | c :: l' =>
      match l' with
      | c1 :: c2 :: _ =>
          if bool_decide (c = backquote /\ c1 = backquote /\ c2 = backquote) then [] else c :: before_fence l'
      | _ => c :: before_fence l'
      end
  end.

(** [text.split("```", 2)[1]] of a text that starts with a fence: splitting at
    most twice, the second piece ends at the next fence or with the text. *)
Definition fenced_piece (s : string) : string := of_chars (before_fence (drop 3 (chars s))).

(** [s[n:]] *)
Definition drop_str (n : nat) (s : string) : string := of_chars (drop n (chars s)).

(** [s.lower()] *)
Definition lower_char (c : ascii) : ascii :=
  let n := nat_of_ascii c in if ((65 <=? n) && (n <=? 90))%nat then ascii_of_nat (n + 32) else c.
Definition lower (s : string) : string := of_chars (lower_char <$> chars s).

(** [needle in s] *)
Fixpoint contains (needle : string) (s : string) : bool :=
  String.prefix needle s || match s with String _ s' => contains needle s' | EmptyString => false end.

(** [s.split(sep)] for a separator of one character. *)
Fixpoint split_on (sep : ascii) (s : string) : list string :=
  match s with
  | EmptyString => [""]
  | String c s' =>
      if bool_decide (c = sep) then "" :: split_on sep s'
      else match split_on sep s' with
           | part :: parts => String c part :: parts
           | [] => [String c ""]
           end
  end.

(** The value of a decimal digit. *)
Definition digit (c : ascii) : option Z :=
  let n := nat_of_ascii c in
  if ((48 <=? n) && (n <=? 57))%nat then Some (Z.of_nat (n - 48)) else None.

Definition number (ds : list Z) : Z := foldl (fun n d => 10 * n + d)%Z 0%Z ds.

Lemma chars_of l : chars (of_chars l) = l.
Proof. apply String.list_ascii_of_string_of_list_ascii. Qed.

Lemma of_chars_of s : of_chars (chars s) = s.
Proof. apply String.string_of_list_ascii_of_string. Qed.

Lemma chars_app a b : chars (a +:+ b) = chars a ++ chars b.
Proof.
  induction a as [|c a IH]; [done|].
  change (c :: chars (a +:+ b) = c :: chars a ++ chars b). by rewrite IH.
Qed.

Lemma prefix_app a l : String.prefix a (of_chars (chars a ++ l)) = true.
Proof.
  induction a as [|c a IH]; [by destruct l|].
  change (of_chars (chars (String c a) ++ l)) with (String c (of_chars (chars a ++ l))).
  cbn [String.prefix]. by destruct (ascii_dec c c).
Qed.

Lemma lstrip_app p l1 l2 : forallb p l1 = true -> lstrip p (l1 ++ l2) = lstrip p l2.
Proof.
  induction l1 as [|c l1 IH]; [done|]. cbn. intros [Hc H]%andb_true_iff. rewrite Hc. by apply IH.
Qed.

Lemma lstrip_stop p l1 c l2 : p c = false -> lstrip p (l1 ++ c :: l2) = lstrip p (l1 ++ [c]) ++ l2.
Proof.
  intros Hc. induction l1 as [|c1 l1 IH]; cbn; [by rewrite Hc|]. destruct (p c1); [done|].
  cbn. by rewrite <- app_assoc.
Qed.

(** Stripping on the right never reaches past a character that is kept. *)
Lemma rstrip_stop p l1 c l2 : p c = false -> rstrip p (l1 ++ c :: l2) = l1 ++ rstrip p (c :: l2).
Proof.
  intros Hc. unfold rstrip. rewrite rev_app_distr. cbn [rev]. rewrite <- app_assoc. cbn [app].
  rewrite (lstrip_stop p (rev l2) c (rev l1) Hc), rev_app_distr, rev_involutive. done.
Qed.

Lemma rstrip_app p l1 l2 : forallb p l2 = true -> rstrip p (l1 ++ l2) = rstrip p l1.
Proof.
  intros H. unfold rstrip. rewrite rev_app_distr, lstrip_app; [done|].
  apply forallb_forall. intros c Hc%in_rev. rewrite forallb_forall in H. by apply H.
Qed.

(** A text without a fence, followed by something that is not a back quote and
    then a fence, ends at that fence. *)
Lemma before_fence_app l c r :
  before_fence l = l -> c <> backquote ->
  before_fence (l ++ [c] ++ chars fence ++ r) = l ++ [c].
Proof.
  intros Hl Hc. induction l as [|a l IH].
  - cbn. by rewrite bool_decide_false by (intros (? & _); done).
  - cbn [app before_fence] in *. destruct l as [|b [|d l]].
    + cbn. rewrite bool_decide_false by (by intros (_ & ? & _)). f_equal.
      rewrite bool_decide_false by (by intros (? & _)). done.
    + cbn in IH |- *. rewrite bool_decide_false by (by intros (_ & _ & ?)). f_equal. by apply IH.
    + cbn [app] in *. case_bool_decide; [done|]. f_equal. apply IH. by injection Hl.
Qed.

Lemma before_fence_cons c l : c <> backquote -> before_fence l = l -> before_fence (c :: l) = c :: l.
Proof.
  intros Hc Hl. cbn [before_fence]. destruct l as [|c1 [|c2 l]]; [done..|].
  rewrite bool_decide_false by (by intros (? & _)). by rewrite Hl.
Qed.

Lemma rstrip_cons p c l : p c = false -> exists l', rstrip p (c :: l) = c :: l'.
Proof.
  intros Hc. unfold rstrip. cbn [rev]. rewrite lstrip_stop, rev_app_distr by done. revert l.
  enough (forall l, exists l', rev (lstrip p (l ++ [c])) = c :: l') as H.
  { intros l. destruct (H (rev l)) as [l' Hl']. exists l'. by cbn; rewrite Hl'. }
  intros l. induction l as [|a l [l' IH]]; cbn; [rewrite Hc; by exists []|].
  destruct (p a); [by exists l'|]. cbn. exists (rev l ++ [a]).
  rewrite rev_app_distr. done.
Qed.

(** White space around a text is stripped with it. *)
Lemma strip_around p l1 l l2 :
  forallb p l1 = true -> forallb p l2 = true ->
  rstrip p (lstrip p (l1 ++ l ++ l2)) = rstrip p (lstrip p l).
Proof.
  intros H1 H2. rewrite lstrip_app by done. clear l1 H1. induction l as [|c l IH].
  - cbn. rewrite <- (app_nil_r l2), lstrip_app by done. done.
  - cbn. destruct (p c); [done|]. change (c :: l ++ l2) with ((c :: l) ++ l2). by apply rstrip_app.
Qed.

(** Stripping leaves alone a text whose ends are kept. *)
Lemma strip_keeps p c l d :
  p c = false -> p d = false -> rstrip p (lstrip p (c :: l ++ [d])) = c :: l ++ [d].
Proof.
  intros Hc Hd. cbn [lstrip]. rewrite Hc. change (c :: l ++ [d]) with ((c :: l) ++ d :: []).
  rewrite rstrip_stop by done. unfold rstrip. cbn. by rewrite Hd.
Qed.

(** ** Splitting *)

Lemma split_on_cons sep s : exists part parts, split_on sep s = part :: parts.
Proof.
  induction s as [|c s (p & ps & IH)]; cbn [split_on]; [by eauto|].
  case_bool_decide; [by eauto|]. rewrite IH. eauto.
Qed.

Lemma split_on_app sep a b : split_on sep (a +:+ String sep b) = split_on sep a ++ split_on sep b.
Proof.
  induction a as [|c a IH]; [change (split_on sep (String sep b) = "" :: split_on sep b)|
    change (String c a +:+ String sep b) with (String c (a +:+ String sep b))]; cbn [split_on].
  - by rewrite bool_decide_true.
  - rewrite IH. case_bool_decide; [done|]. by destruct (split_on_cons sep a) as (p & ps & ->).
Qed.

Lemma split_on_whole sep p : Forall (fun c => c <> sep) (chars p) -> split_on sep p = [p].
Proof.
  induction p as [|c p IH]; [done|]. intros [Hc Hp]%Forall_cons. cbn [split_on].
  rewrite bool_decide_false by done. by rewrite (IH Hp).
Qed.
