(* ===== verification/PyOps.v ===== *)
(** Python's comparisons of JSON values and its reading of numbers: [==] and [in],
    [<=] between numbers, and [float(x)].

    Numbers are compared exactly, whatever their types: an integer equals a float
    when the float is that integer, and [True] equals 1. *)

From stdpp Require Import base strings list gmap.
From Corelib Require Import SpecFloat.
From Stdlib Require Import ZArith Lia Ascii.
From S2P Require Import Prelude Exceptions Values Text.

(** ** Comparison *)

(** The exact value of a number: [n * 2 ^ e], an infinity, or not a number. *)
Inductive exact_value :=
| Fin (n e : Z)
| Inf (negative : bool)
| NaN.

Definition exact_float (f : float) : exact_value :=
  match f with
  | S754_zero _ => Fin 0 0
  | S754_finite s m e => Fin (if s then Z.neg m else Z.pos m) e
  | S754_infinity s => Inf s
  | S754_nan => NaN
  end.

(** Booleans, integers and floats are the numbers. *)
Definition exact (v : json) : option exact_value :=
  match v with
  | JBool b => Some (Fin (if b then 1 else 0) 0)
  | JInt z => Some (Fin z 0)
  | JFloat f => Some (exact_float f)
  | _ => None
  end.

Definition compare_exact (x y : exact_value) : option comparison :=
  match x, y with
  | NaN, _ | _, NaN => None
  | Inf a, Inf b => Some (if Bool.eqb a b then Eq else if a then Lt else Gt)
  | Inf a, Fin _ _ => Some (if a then Lt else Gt)
  | Fin _ _, Inf b => Some (if b then Gt else Lt)
  | Fin n1 e1, Fin n2 e2 =>
      let e := Z.min e1 e2 in Some (Z.compare (Z.shiftl n1 (e1 - e)) (Z.shiftl n2 (e2 - e)))
  end.

Definition is_eq (c : option comparison) : bool := match c with Some Eq => true | _ => false end.
Definition is_le (c : option comparison) : bool :=
  match c with Some Eq | Some Lt => true | _ => false end.

(** [a == b] *)
Fixpoint py_eq (a b : json) {struct a} : bool :=
  match a, b with
  | JNull, JNull => true
  | JStr s, JStr t => bool_decide (s = t)
  | JArr l, JArr l' =>
      (fix eqs (l l' : list json) {struct l} : bool :=
         match l, l' with
         | [], [] => true
         | x :: l, y :: l' => py_eq x y && eqs l l'
         | _, _ => false
         end) l l'
  | JObj o, JObj o' =>
      bool_decide (size o = size o') &&
      map_fold (fun k v r => r && match o' !! k with Some v' => py_eq v v' | None => false end) true o
  | _, _ => match exact a, exact b with
            | Some x, Some y => is_eq (compare_exact x y)
            | _, _ => false
            end
  end.

Definition TypeError (msg : string) : exn := Exn (PyExc "TypeError") msg.

(** [a <= b] between numbers; the other comparisons the code makes raise. *)
Definition py_le (a b : json) : res bool :=
  match exact a, exact b with
  | Some x, Some y => Ok (is_le (compare_exact x y))
  | _, _ => Err (TypeError ("'<=' not supported between instances of " +:+ py_repr (type_name a)
                            +:+ " and " +:+ py_repr (type_name b)))
  end.

Definition hashable (v : json) : bool :=
  match v with JArr _ | JObj _ => false | _ => true end.

(** [k in o] for a dict: its keys are strings. *)
Definition in_keys (k : json) (o : dict) : res bool :=
  match k with
  | JStr s => Ok (bool_decide (is_Some (o !! s)))
  | _ => if hashable k then Ok false
         else Err (TypeError ("unhashable type: " +:+ py_repr (type_name k)))
  end.

(** [v in container]; [None] is a value equal to nothing but itself. *)
Definition py_in (v : option json) (container : json) : res bool :=
  match container with
  | JArr l => Ok (match v with Some v => existsb (fun x => py_eq x v) l | None => false end)
  | JStr s =>
      match v with
      | Some (JStr needle) => Ok (contains needle s)
      | _ => Err (TypeError "'in <string>' requires string as left operand")
      end
  | JObj o => match v with Some k => in_keys k o | None => Ok false end
  | _ => Err (TypeError ("argument of type " +:+ py_repr (type_name container) +:+ " is not iterable"))
  end.

(** ** Numbers from text *)

(** A run of digits, with single underscores between them, and what follows. *)
Fixpoint digits (l : list ascii) (seen : list Z) : list Z * list ascii :=
  match l with
  | [] => (seen, [])
  | c :: l' =>
      match digit c with
      | Some d => digits l' (seen ++ [d])
      | None =>
          match bool_decide (c = "_"%char) && negb (bool_decide (seen = [])), l' with
          | true, c' :: _ => if digit c' then digits l' seen else (seen, l)
          | _, _ => (seen, l)
          end
      end
  end.

(** A sign, if any: whether it is negative, and what follows. *)
Definition sign (l : list ascii) : bool * list ascii :=
  match l with
  | c :: l' => if bool_decide (c = "-"%char) then (true, l')
               else if bool_decide (c = "+"%char) then (false, l') else (false, l)
  | [] => (false, [])
  end.

(** [mantissa * 10 ^ e], correctly rounded. *)
Definition decimal (mantissa e : Z) : float :=
  if (0 <=? e)%Z then float_of_Z (mantissa * 10 ^ e) else fratio mantissa (Z.to_pos (10 ^ (- e))).

(** The exponent of a literal, to its end. *)
Definition exponent (l : list ascii) : option Z :=
  match l with
  | [] => Some 0%Z
  | c :: l' =>
      if bool_decide (lower_char c = "e"%char) then
        let '(neg, l1) := sign l' in
        match digits l1 [] with
        | (d :: ds, []) => let e := number (d :: ds) in Some (if neg then - e else e)%Z
        | _ => None
        end
      else None
  end.

(** A number without sign. *)
Definition literal (l : list ascii) : option float :=
  let '(whole, l1) := digits l [] in
  let '(frac, l2) := match l1 with
                     | c :: l' => if bool_decide (c = "."%char) then digits l' [] else ([], l1)
                     | [] => ([], [])
                     end in
  match whole ++ frac with
  | [] => None
  | ds => match exponent l2 with
          | Some e => Some (decimal (number ds) (e - Z.of_nat (length frac)))
          | None => None
          end
  end.

(** [float(s)] of text: white space around is allowed. *)
Definition float_of_str (s : string) : option float :=
  let '(neg, l) := sign (chars (strip s)) in
  let word := lower (of_chars l) in
  let v := if bool_decide (word = "inf") || bool_decide (word = "infinity")
           then Some (S754_infinity false)
           else if bool_decide (word = "nan") then Some S754_nan else literal l in
  (fun f => if neg then SFopp f else f) <$> v.

(** [float(x)]; [None] is an object that is no number. *)
Definition py_float_of (v : option json) : res float :=
  match v with
  | Some (JBool b) => Ok (if b then fone else fzero)
  | Some (JInt z) =>
      match float_of_Z z with
      | S754_infinity _ => Err (Exn (PyExc "OverflowError") "int too large to convert to float")
      | f => Ok f
      end
  | Some (JFloat f) => Ok f
  | Some (JStr s) =>
      match float_of_str s with
      | Some f => Ok f
      | None => Err (Exn (PyExc "ValueError") ("could not convert string to float: " +:+ py_repr s))
      end
  | _ => Err (TypeError "float() argument must be a string or a real number")
  end.

(** ** Examples *)

Example py_eq_numbers : py_eq (JBool true) (JFloat fone) = true /\ py_eq (JInt 3) (JFloat (fratio 7 2)) = false.
Proof. vm_compute. done. Qed.

Example py_eq_nested :
  py_eq (JObj {["a" := JArr [JInt 1; JNull]]}) (JObj {["a" := JArr [JFloat fone; JNull]]}) = true.
Proof. vm_compute. done. Qed.

Example float_of_str_ex :
  float_of_str " -1_0.25e1 " = Some (SFopp (fratio 205 2)) /\ float_of_str "1." = Some fone /\
  float_of_str "1e" = None /\ float_of_str "_1" = None /\ float_of_str "-inf" = Some (S754_infinity true).
Proof. vm_compute. done. Qed.

(** ** [==] is reflexive, but for what contains a NaN *)

Lemma compare_exact_refl x : x <> NaN -> compare_exact x x = Some Eq.
Proof.
  destruct x as [n e|[]|]; [|done..]. intros _. cbn. by rewrite Z.compare_refl.
Qed.
