(* ===== verification/Digests.v ===== *)
(** Digests ([core/hashing.py]): SHA-256 over a canonical JSON encoding.

    The encoder (orjson, keys sorted, times in UTC) and the hash (hashlib) are
    parameters. *)

From stdpp Require Import base strings.
From S2P Require Import Prelude Values.

Class Hashing := {
  orjson_dumps : json -> string;
  sha256_hexdigest : string -> string;
}.

Definition canonical_json `{Hashing} (value : json) : string := orjson_dumps value.

Definition digest `{Hashing} (value : json) : string := sha256_hexdigest (canonical_json value).
