(* ===== verification/Enums.v ===== *)
(** State vocabularies and transition tables ([core/domain/enums.py]).

    [WORKFLOW_TRANSITIONS] and [STEP_TRANSITIONS] are the dicts of the source,
    as functions from a status to the set (a list) of its successors. *)

From stdpp Require Import base strings list relations finite.
From S2P Require Import Prelude.

Module WorkflowStatus.
Inductive t :=
| PENDING | RUNNING | PAUSED | WAITING_APPROVAL | RETRYING | FAILED
| DEAD_LETTERED | COMPLETED | ROLLED_BACK.

Definition value (s : t) : string :=
  match s with
  | PENDING => "pending"
  | RUNNING => "running"
  | PAUSED => "paused"
  | WAITING_APPROVAL => "waiting_approval"
  | RETRYING => "retrying"
  | FAILED => "failed"
  | DEAD_LETTERED => "dead_lettered"
  | COMPLETED => "completed"
  | ROLLED_BACK => "rolled_back"
  end.

Global Instance eq_dec : EqDecision t.
Proof. solve_decision. Defined.
End WorkflowStatus.
Abbreviation WorkflowStatus := WorkflowStatus.t.

Module StepStatus.
Inductive t :=
| PENDING | READY | RUNNING | WAITING_APPROVAL | COMPLETED | FAILED | SKIPPED
| COMPENSATED.

Definition value (s : t) : string :=
  match s with
  | PENDING => "pending"
  | READY => "ready"
  | RUNNING => "running"
  | WAITING_APPROVAL => "waiting_approval"
  | COMPLETED => "completed"
  | FAILED => "failed"
  | SKIPPED => "skipped"
  | COMPENSATED => "compensated"
  end.

Global Instance eq_dec : EqDecision t.
Proof. solve_decision. Defined.
End StepStatus.
Abbreviation StepStatus := StepStatus.t.

Module CostTier.
Inductive t := CHEAP | STANDARD | PREMIUM | CRITICAL.

Definition value (c : t) : string :=
  match c with
  | CHEAP => "cheap" | STANDARD => "standard"
  | PREMIUM => "premium" | CRITICAL => "critical"
  end.

Global Instance eq_dec : EqDecision t.
Proof. solve_decision. Defined.
End CostTier.
Abbreviation CostTier := CostTier.t.

Module OnFailure.
Inductive t := PAUSE | ROLLBACK | DEAD_LETTER | ESCALATE.

Definition value (f : t) : string :=
  match f with
  | PAUSE => "pause" | ROLLBACK => "rollback"
  | DEAD_LETTER => "dead_letter" | ESCALATE => "escalate"
  end.

Global Instance eq_dec : EqDecision t.
Proof. solve_decision. Defined.
End OnFailure.
Abbreviation OnFailure := OnFailure.t.

Module TriggerSource.
Inductive t := API | N8N | SCHEDULER | MANUAL | REPLAY.

Definition value (s : t) : string :=
  match s with
  | API => "api" | N8N => "n8n" | SCHEDULER => "scheduler"
  | MANUAL => "manual" | REPLAY => "replay"
  end.
End TriggerSource.
Abbreviation TriggerSource := TriggerSource.t.

Definition TERMINAL_WORKFLOW_STATUSES : list WorkflowStatus :=
  [WorkflowStatus.COMPLETED; WorkflowStatus.ROLLED_BACK].

Definition WORKFLOW_TRANSITIONS (s : WorkflowStatus) : list WorkflowStatus :=
  match s with
  | WorkflowStatus.PENDING =>
      [WorkflowStatus.RUNNING; WorkflowStatus.PAUSED; WorkflowStatus.FAILED;
       WorkflowStatus.ROLLED_BACK]
  | WorkflowStatus.RUNNING =>
      [WorkflowStatus.PAUSED; WorkflowStatus.WAITING_APPROVAL; WorkflowStatus.RETRYING;
       WorkflowStatus.FAILED; WorkflowStatus.COMPLETED; WorkflowStatus.DEAD_LETTERED;
       WorkflowStatus.ROLLED_BACK]
  | WorkflowStatus.RETRYING =>
      [WorkflowStatus.RUNNING; WorkflowStatus.FAILED; WorkflowStatus.DEAD_LETTERED]
  | WorkflowStatus.PAUSED =>
      [WorkflowStatus.RUNNING; WorkflowStatus.ROLLED_BACK; WorkflowStatus.FAILED]
  | WorkflowStatus.WAITING_APPROVAL =>
      [WorkflowStatus.RUNNING; WorkflowStatus.ROLLED_BACK; WorkflowStatus.FAILED;
       WorkflowStatus.DEAD_LETTERED]
  | WorkflowStatus.FAILED =>
      [WorkflowStatus.RUNNING; WorkflowStatus.RETRYING; WorkflowStatus.ROLLED_BACK;
       WorkflowStatus.DEAD_LETTERED]
  | WorkflowStatus.DEAD_LETTERED => [WorkflowStatus.RUNNING]
  | WorkflowStatus.COMPLETED => []
  | WorkflowStatus.ROLLED_BACK => []
  end.

Definition STEP_TRANSITIONS (s : StepStatus) : list StepStatus :=
  match s with
  | StepStatus.PENDING => [StepStatus.READY; StepStatus.SKIPPED]
  | StepStatus.READY =>
      [StepStatus.RUNNING; StepStatus.SKIPPED; StepStatus.WAITING_APPROVAL]
  | StepStatus.RUNNING =>
      [StepStatus.COMPLETED; StepStatus.FAILED; StepStatus.WAITING_APPROVAL;
       StepStatus.READY]
  | StepStatus.WAITING_APPROVAL =>
      [StepStatus.READY; StepStatus.RUNNING; StepStatus.COMPLETED; StepStatus.SKIPPED;
       StepStatus.FAILED]
  | StepStatus.FAILED =>
      [StepStatus.READY; StepStatus.RUNNING; StepStatus.SKIPPED; StepStatus.COMPENSATED;
       StepStatus.WAITING_APPROVAL]
  | StepStatus.COMPLETED => [StepStatus.COMPENSATED; StepStatus.WAITING_APPROVAL]
  | StepStatus.SKIPPED => []
  | StepStatus.COMPENSATED => []
  end.

Definition workflow_transition_allowed (src dst : WorkflowStatus) : bool :=
  bool_decide (dst ∈ WORKFLOW_TRANSITIONS src).

Definition step_transition_allowed (src dst : StepStatus) : bool :=
  bool_decide (src = dst) || bool_decide (dst ∈ STEP_TRANSITIONS src).

(** One edge of the workflow state machine. *)
Definition wf_edge (s d : WorkflowStatus) : Prop := workflow_transition_allowed s d = true.

Lemma rtc_wf_edge_terminal s d :
  s ∈ TERMINAL_WORKFLOW_STATUSES -> rtc wf_edge s d -> d = s.
Proof.
  intros Hs Hr. destruct Hr as [|s m d He Hr]; [done|].
  apply list_elem_of_In in Hs. cbn in Hs.
  destruct Hs as [<-|[<-|[]]]; unfold wf_edge in He; destruct m; discriminate He.
Qed.

Lemma wf_reaches_completed s :
  s ∉ TERMINAL_WORKFLOW_STATUSES -> rtc wf_edge s WorkflowStatus.COMPLETED.
Proof.
  intros Hs. assert (rtc wf_edge WorkflowStatus.RUNNING WorkflowStatus.COMPLETED) as Hrun
    by (eapply rtc_once; reflexivity).
  destruct s; try exact Hrun; try (eapply rtc_l; [|exact Hrun]; reflexivity).
  all: exfalso; apply Hs; set_solver.
Qed.
