(* ===== verification/Dag.v ===== *)
(** Dependency-graph validation and layering ([core/domain/dag.py]).

    A mapping [step_id -> dependencies] is the list of its items, in the dict's
    order.  [topological_layers] is Kahn's algorithm; its [while] loop is run
    with as much fuel as there are steps, which is always enough because every
    round removes at least one of them ([layers_loop_fuel]). *)

From stdpp Require Import base strings list relations sorting gmap.
From S2P Require Import Prelude Exceptions Values.

Module Dag.

Abbreviation deps_map := (list (string * list string)).

(** [sorted(xs)] on strings: code-point order. *)
Definition py_sorted (l : list string) : list string := merge_sort String.le l.

(** [str(list_of_str)] in the error message. *)
Definition show_list (l : list string) : string :=
  "[" +:+ str_join ", " (py_repr <$> l) +:+ "]".

(** [deps <= resolved]: every dependency already placed in a layer. *)
Definition all_resolved (resolved deps : list string) : bool :=
  forallb (fun d => bool_decide (d ∈ resolved)) deps.

Definition ready_steps (remaining : deps_map) (resolved : list string) : list string :=
  py_sorted (filter (fun p => all_resolved resolved p.2 = true) remaining).*1.

Definition remove_steps (ready : list string) (remaining : deps_map) : deps_map :=
  filter (fun p => p.1 ∉ ready) remaining.

Fixpoint layers_loop (fuel : nat) (remaining : deps_map) (resolved : list string)
    : res (list (list string)) :=
  match remaining with
  | [] => Ok []
  | _ =>
      let ready := ready_steps remaining resolved in
      match ready, fuel with
      | [], _ =>
          Err (Exn CyclicDependencyError
                 ("cyclic or unresolvable dependencies among steps: "
                  +:+ show_list (py_sorted remaining.*1)))
      | _, O => Err (RuntimeError "out of fuel")
      | _, S fuel' =>
          rest ← layers_loop fuel' (remove_steps ready remaining) (resolved ++ ready);
          Ok (ready :: rest)
      end
  end.

Definition topological_layers (dependencies : deps_map) : res (list (list string)) :=
  layers_loop (length dependencies) dependencies [].

(** The two checks made on each dependency of a step. *)
Definition check_dep (known : list string) (step_id : string) (_ : unit) (dep : string)
    : res unit :=
  if bool_decide (dep = step_id) then
    Err (Exn WorkflowDefinitionError ("step " +:+ py_repr step_id +:+ " depends on itself"))
  else if bool_decide (dep ∈ known) then Ok tt
  else Err (Exn WorkflowDefinitionError
              ("step " +:+ py_repr step_id +:+ " depends on unknown step " +:+ py_repr dep)).

Definition validate_dependencies (dependencies : deps_map) : res unit :=
  _ ← foldM (fun u '(step_id, deps) => foldM (check_dep dependencies.*1 step_id) u deps)
        tt dependencies;
  _ ← topological_layers dependencies;
  Ok tt.

(** ** Specification *)

(** [s] lists [d] among its dependencies. *)
Definition depends (deps : deps_map) (s d : string) : Prop :=
  exists ds, (s, ds) ∈ deps /\ d ∈ ds.

(** Every dependency names a step. *)
Definition closed (deps : deps_map) : Prop :=
  forall s d, depends deps s d -> d ∈ deps.*1.

Definition acyclic (deps : deps_map) : Prop := forall s, ~ tc (depends deps) s s.

(** ** Lemmas about one round of the loop *)

Lemma elem_of_py_sorted x l : x ∈ py_sorted l <-> x ∈ l.
Proof. unfold py_sorted. by rewrite merge_sort_Permutation. Qed.

Lemma all_resolved_spec res ds : all_resolved res ds = true <-> forall d, d ∈ ds -> d ∈ res.
Proof.
  unfold all_resolved. rewrite forallb_forall. setoid_rewrite bool_decide_eq_true.
  setoid_rewrite list_elem_of_In. done.
Qed.

Lemma elem_of_ready s rem res :
  s ∈ ready_steps rem res <-> exists ds, (s, ds) ∈ rem /\ (forall d, d ∈ ds -> d ∈ res).
Proof.
  unfold ready_steps. rewrite elem_of_py_sorted, list_elem_of_fmap. split.
  - intros ([s' ds] & -> & [Hr Hin]%list_elem_of_filter). exists ds. split; [done|].
    by apply all_resolved_spec.
  - intros (ds & Hin & Hds). exists (s, ds). split; [done|].
    apply list_elem_of_filter. split; [by apply all_resolved_spec|done].
Qed.

Lemma elem_of_remove p ready rem : p ∈ remove_steps ready rem <-> (p.1 ∉ ready) /\ (p ∈ rem).
Proof. unfold remove_steps. by rewrite list_elem_of_filter. Qed.

Lemma fst_inj (rem : deps_map) s ds1 ds2 :
  NoDup rem.*1 -> (s, ds1) ∈ rem -> (s, ds2) ∈ rem -> ds1 = ds2.
Proof.
  intros Hnd (i & Hi)%list_elem_of_lookup (j & Hj)%list_elem_of_lookup.
  assert (i = j) as ->.
  { eapply NoDup_lookup; [done|..]; rewrite list_lookup_fmap; by erewrite ?Hi, ?Hj. }
  congruence.
Qed.

Lemma NoDup_fst_filter (P : string * list string -> Prop) `{forall p, Decision (P p)}
    (rem : deps_map) : NoDup rem.*1 -> NoDup (filter P rem).*1.
Proof. intros Hnd. eapply sublist_NoDup; [done|]. apply fmap_sublist, sublist_filter. Qed.

Lemma remove_ready_perm rem res :
  NoDup rem.*1 ->
  rem.*1 ≡ₚ ready_steps rem res ++ (remove_steps (ready_steps rem res) rem).*1.
Proof.
  intros Hnd. apply NoDup_Permutation; [done|..].
  - apply NoDup_app. split_and!.
    + unfold ready_steps, py_sorted. rewrite merge_sort_Permutation.
      by apply NoDup_fst_filter.
    + intros s Hs (p & -> & Hp)%list_elem_of_fmap. by apply elem_of_remove in Hp as [? _].
    + by apply NoDup_fst_filter.
  - intros s. rewrite elem_of_app, !list_elem_of_fmap. split.
    + intros (p & -> & Hp). destruct (decide (p.1 ∈ ready_steps rem res)); [by left|right].
      exists p. split; [done|]. by apply elem_of_remove.
    + intros [(ds & Hin & _)%elem_of_ready|(p & -> & [_ Hp]%elem_of_remove)].
      * by exists (s, ds).
      * by exists p.
Qed.

Lemma remove_shorter rem res :
  NoDup rem.*1 -> ready_steps rem res <> [] ->
  (length (remove_steps (ready_steps rem res) rem) < length rem)%nat.
Proof.
  intros Hnd Hne. pose proof (remove_ready_perm rem res Hnd) as Hp%Permutation_length.
  rewrite length_app, !length_fmap in Hp.
  destruct (ready_steps rem res); [done|cbn in *; lia].
Qed.

(** One unfolding of the loop. *)
Lemma layers_loop_unfold fuel rem res :
  rem <> [] -> ready_steps rem res <> [] ->
  layers_loop (S fuel) rem res =
    (rest ← layers_loop fuel (remove_steps (ready_steps rem res) rem)
              (res ++ ready_steps rem res);
     Ok (ready_steps rem res :: rest)).
Proof.
  intros Hr Hne. cbn [layers_loop]. destruct rem; [done|].
  destruct (ready_steps _ _); done.
Qed.

(** ** Soundness *)

(** What the loop promises about the layers it returns, relative to the steps
    already placed. *)
Definition layering (rem : deps_map) (res : list string) (ls : list (list string)) : Prop :=
  rem.*1 ≡ₚ mjoin ls /\
  Forall (fun L => L <> [] /\ Sorted String.le L) ls /\
  forall i L s d, ls !! i = Some L -> s ∈ L -> depends rem s d ->
    d ∈ res \/ exists j L', (j < i)%nat /\ ls !! j = Some L' /\ d ∈ L'.

Lemma layers_loop_sound fuel rem res ls :
  NoDup rem.*1 -> layers_loop fuel rem res = Ok ls -> layering rem res ls.
Proof.
  revert rem res ls. induction fuel as [|fuel IH]; intros rem res ls Hnd Hl.
  - destruct rem; [|cbn [layers_loop] in Hl; destruct (ready_steps _ _); done].
    injection Hl as <-. split_and!; [done|constructor|done].
  - destruct (decide (rem = [])) as [->|Hr].
    { injection Hl as <-. split_and!; [done|constructor|done]. }
    destruct (decide (ready_steps rem res = [])) as [He|Hne].
    { cbn [layers_loop] in Hl. destruct rem; [done|]. by rewrite He in Hl. }
    rewrite layers_loop_unfold in Hl by done. simplify_res.
    apply IH in Hm as (Hp & Hs & Hd); [|by apply NoDup_fst_filter].
    split_and!.
    + cbn. rewrite remove_ready_perm at 1 by done. by rewrite Hp.
    + constructor; [|done]. split; [done|]. apply Sorted_merge_sort. apply _.
    + intros [|i] L s d HL Hin (ds & Hin' & Hds); cbn in HL.
      * injection HL as <-. apply elem_of_ready in Hin as (ds' & Hin2 & Hres).
        left. apply Hres. by rewrite (fst_inj rem s ds' ds).
      * assert (s ∈ (remove_steps (ready_steps rem res) rem).*1) as Hsr.
        { rewrite Hp. apply list_elem_of_join. exists L. split; [done|].
          by eapply list_elem_of_lookup_2. }
        apply list_elem_of_fmap in Hsr as ([s' ds'] & Heq & Hrm). cbn in Heq; subst s'.
        assert ((s, ds') ∈ rem) as Hin2 by (by apply elem_of_remove in Hrm as [_ ?]).
        rewrite (fst_inj rem s ds' ds) in Hrm by done.
        destruct (Hd i L s d HL Hin) as [[?|?]%elem_of_app|(j & L' & Hj & HL' & Hd')].
        -- by exists ds.
        -- by left.
        -- right. exists 0%nat, (ready_steps rem res). split_and!; [lia|done|done].
        -- right. exists (S j), L'. split_and!; [lia|done|done].
Qed.

(** ** Completeness *)

Lemma ready_exists rem res :
  rem <> [] -> (forall s d, depends rem s d -> d ∈ res \/ d ∈ rem.*1) ->
  acyclic rem -> ready_steps rem res <> [].
Proof.
  intros Hr Hcl Hac.
  assert (forall s, s ∈ rem.*1 -> exists s', s' ∈ ready_steps rem res) as Hex.
  { intros s. assert (sn (depends rem) s) as Hsn.
    { apply tc_finite_sn; [by intros x; apply Hac|].
      exists (mjoin rem.*2). intros d Hd.
      assert (exists s', depends rem s' d) as (s' & ds & Hin & Hdd).
      { clear -Hd. induction Hd; eauto. }
      apply list_elem_of_join. exists ds. split; [done|].
      apply list_elem_of_fmap. by exists (s', ds). }
    induction Hsn as [s _ IH]. intros ([s' ds] & Heq & Hin)%list_elem_of_fmap.
    cbn in Heq; subst s'. destruct (all_resolved res ds) eqn:Har.
    { exists s. apply elem_of_ready. exists ds. split; [done|]. by apply all_resolved_spec. }
    assert (~ (forall d, d ∈ ds -> d ∈ res)) as Hnot
      by (rewrite <- all_resolved_spec; congruence).
    destruct (decide (Exists (fun d => d ∉ res) ds)) as [Hx|Hnx].
    - apply Exists_exists in Hx as (d & Hd & Hnr).
      assert (depends rem s d) as Hdep by (by exists ds).
      apply (IH d); [exact Hdep|]. by destruct (Hcl s d Hdep).
    - exfalso. apply Hnot. intros d Hd. destruct (decide (d ∈ res)); [done|].
      exfalso. apply Hnx, Exists_exists. eauto. }
  destruct rem as [|p rem']; [done|].
  destruct (Hex p.1 ltac:(left)) as (s' & Hs'). intros He. rewrite He in Hs'.
  by apply not_elem_of_nil in Hs'.
Qed.

Lemma depends_remove ready rem s d : depends (remove_steps ready rem) s d -> depends rem s d.
Proof. intros (ds & [_ Hin]%elem_of_remove & Hd). by exists ds. Qed.

Lemma acyclic_remove ready rem : acyclic rem -> acyclic (remove_steps ready rem).
Proof.
  intros Hac s Htc. apply (Hac s).
  eapply (tc_congruence id); [|exact Htc]. intros x y. apply depends_remove.
Qed.

Lemma layers_loop_complete fuel rem res :
  NoDup rem.*1 -> (length rem <= fuel)%nat ->
  (forall s d, depends rem s d -> d ∈ res \/ d ∈ rem.*1) -> acyclic rem ->
  exists ls, layers_loop fuel rem res = Ok ls.
Proof.
  revert rem res. induction fuel as [|fuel IH]; intros rem res Hnd Hlen Hcl Hac.
  { destruct rem; [by eexists|cbn in *; lia]. }
  destruct (decide (rem = [])) as [->|Hr]; [by eexists|].
  pose proof (ready_exists rem res Hr Hcl Hac) as Hne.
  rewrite layers_loop_unfold by done.
  destruct (IH (remove_steps (ready_steps rem res) rem) (res ++ ready_steps rem res))
    as (ls & ->).
  - by apply NoDup_fst_filter.
  - pose proof (remove_shorter rem res Hnd Hne). lia.
  - intros s d Hd%depends_remove. rewrite elem_of_app.
    destruct (Hcl s d Hd) as [?|Hin]; [by auto|].
    rewrite (remove_ready_perm rem res) in Hin by done. apply elem_of_app in Hin. tauto.
  - by apply acyclic_remove.
  - by eexists.
Qed.

(** ** Termination *)

(** Fuel for every step left is enough: with more, nothing changes. *)
Lemma layers_loop_fuel fuel fuel' rem res :
  NoDup rem.*1 -> (length rem <= fuel)%nat -> (length rem <= fuel')%nat ->
  layers_loop fuel rem res = layers_loop fuel' rem res.
Proof.
  revert fuel' rem res. induction fuel as [|fuel IH]; intros fuel' rem res Hnd Hf Hf'.
  { destruct rem; [by destruct fuel'|cbn in Hf; lia]. }
  destruct (decide (rem = [])) as [->|Hr]; [by destruct fuel'|].
  destruct fuel' as [|fuel']; [by destruct rem; cbn in Hf'; [|lia]|].
  destruct (decide (ready_steps rem res = [])) as [He|Hne].
  { cbn [layers_loop]. destruct rem; [done|]. by rewrite He. }
  rewrite !layers_loop_unfold by done. pose proof (remove_shorter rem res Hnd Hne).
  rewrite (IH fuel'); [done|by apply NoDup_fst_filter|lia|lia].
Qed.

(** The exception for the steps in [stuck]. *)
Definition cyclic_error (stuck : list string) : exn :=
  Exn CyclicDependencyError
    ("cyclic or unresolvable dependencies among steps: " +:+ show_list (py_sorted stuck)).

(** Steps that can never be placed: each waits for another of them, or for no step
    of [keys]. *)
Definition deadlocked (deps : deps_map) (keys stuck : list string) : Prop :=
  stuck <> [] /\ forall s, s ∈ stuck -> s ∈ deps.*1 /\
    exists d, depends deps s d /\ (d ∈ stuck \/ d ∉ keys).

Lemma not_ready rem res s :
  ready_steps rem res = [] -> s ∈ rem.*1 -> exists d, depends rem s d /\ d ∉ res.
Proof.
  intros He ([s' ds] & -> & Hin)%list_elem_of_fmap. cbn.
  destruct (decide (Exists (fun d => d ∉ res) ds)) as [(d & Hd & Hn)%Exists_exists|Hnx].
  { exists d. split; [by exists ds|done]. }
  assert (s' ∈ ready_steps rem res) as Hs.
  { apply elem_of_ready. exists ds. split; [done|]. intros d Hd.
    destruct (decide (d ∈ res)); [done|]. exfalso. apply Hnx, Exists_exists. eauto. }
  rewrite He in Hs. by apply not_elem_of_nil in Hs.
Qed.

(** With enough fuel the loop fails only because steps are deadlocked. *)
Lemma layers_loop_stuck fuel rem res e :
  NoDup rem.*1 -> (length rem <= fuel)%nat -> layers_loop fuel rem res = Err e ->
  exists stuck, e = cyclic_error stuck /\ deadlocked rem (res ++ rem.*1) stuck.
Proof.
  revert rem res. induction fuel as [|fuel IH]; intros rem res Hnd Hf Hl.
  { destruct rem; [done|cbn in Hf; lia]. }
  destruct (decide (rem = [])) as [->|Hr]; [done|].
  destruct (decide (ready_steps rem res = [])) as [He|Hne].
  - exists rem.*1. split.
    { cbn [layers_loop] in Hl. destruct rem; [done|]. rewrite He in Hl. by injection Hl as <-. }
    split; [by destruct rem|]. intros s Hs. split; [done|].
    destruct (not_ready rem res s He Hs) as (d & Hd & Hn). exists d. split; [done|].
    rewrite elem_of_app. destruct (decide (d ∈ rem.*1)); [by left|right]. tauto.
  - rewrite layers_loop_unfold in Hl by done. pose proof (remove_shorter rem res Hnd Hne) as Hlt.
    destruct (layers_loop fuel _ _) as [ls|e'] eqn:Hrec; cbn in Hl; [done|]. injection Hl as ->.
    apply IH in Hrec as (stuck & -> & Hne' & Hst); [|by apply NoDup_fst_filter|lia].
    exists stuck. split; [done|]. split; [done|]. intros s Hs.
    destruct (Hst s Hs) as (Hin & d & Hd%depends_remove & Hcase). split.
    { rewrite (remove_ready_perm rem res) by done. apply elem_of_app. by right. }
    exists d. split; [done|].
    by rewrite <- app_assoc, <- (remove_ready_perm rem res) in Hcase by done.
Qed.

(** ** Layers determine a rank *)

(** The index of the layer that holds a step. *)
Definition in_layer (ls : list (list string)) (i : nat) (s : string) : Prop :=
  exists L, ls !! i = Some L /\ s ∈ L.

Lemma layering_tc deps ls i s d :
  layering deps [] ls -> in_layer ls i s -> tc (depends deps) s d ->
  exists j, (j < i)%nat /\ in_layer ls j d.
Proof.
  intros (_ & _ & Hd) Hi Htc. revert i Hi.
  assert (forall i s d, in_layer ls i s -> depends deps s d ->
            exists j, (j < i)%nat /\ in_layer ls j d) as Hstep.
  { intros i s' d' (L & HL & Hs) Hdep.
    destruct (Hd i L s' d' HL Hs Hdep) as [?%not_elem_of_nil|(j & L' & ? & ? & ?)]; [done|].
    exists j. split; [done|]. by exists L'. }
  induction Htc as [s d Hdep|s m d Hdep Htc IH]; intros i Hi; [by eauto|].
  destruct (Hstep i s m Hi Hdep) as (j & Hj & Hm).
  destruct (IH j Hm) as (k & Hk & Hkd). exists k. split; [lia|done].
Qed.

Lemma in_layer_unique deps ls i j s :
  NoDup deps.*1 -> layering deps [] ls -> in_layer ls i s -> in_layer ls j s -> i = j.
Proof.
  intros Hnd (Hp & _ & _) (L & HL & Hs) (L' & HL' & Hs').
  rewrite Hp in Hnd. clear Hp. revert i j HL HL'.
  induction ls as [|L0 ls IH]; intros i j HL HL'; [done|].
  cbn in Hnd. apply NoDup_app in Hnd as (_ & Hdisj & Hnd).
  destruct i as [|i], j as [|j]; cbn in HL, HL'; simplify_eq; [done|..].
  - exfalso. eapply (Hdisj s); [done|]. apply list_elem_of_join.
    exists L'. split; [done|]. by eapply list_elem_of_lookup_2.
  - exfalso. eapply (Hdisj s); [done|]. apply list_elem_of_join.
    exists L. split; [done|]. by eapply list_elem_of_lookup_2.
  - f_equal. by eapply IH.
Qed.

Lemma in_layer_of_key deps ls s :
  layering deps [] ls -> s ∈ deps.*1 <-> exists i, in_layer ls i s.
Proof.
  intros (Hp & _ & _). rewrite Hp, list_elem_of_join. split.
  - intros (L & Hs & (i & Hi)%list_elem_of_lookup). exists i, L. done.
  - intros (i & L & Hi & Hs). exists L. split; [done|]. by eapply list_elem_of_lookup_2.
Qed.

Lemma layering_closed_acyclic deps ls :
  NoDup deps.*1 -> layering deps [] ls -> closed deps /\ acyclic deps.
Proof.
  intros Hnd Hl. split.
  - intros s d Hdep. destruct Hdep as (ds & Hin & Hd).
    assert (s ∈ deps.*1) as Hs by (apply list_elem_of_fmap; by exists (s, ds)).
    apply (in_layer_of_key deps ls s Hl) in Hs as (i & Hi).
    destruct (layering_tc deps ls i s d Hl Hi) as (j & _ & Hj).
    { apply tc_once. by exists ds. }
    apply (in_layer_of_key deps ls d Hl). by exists j.
  - intros s Htc.
    assert (exists i, in_layer ls i s) as (i & Hi).
    { apply (in_layer_of_key deps ls s Hl), list_elem_of_fmap.
      assert (exists d, depends deps s d) as (d & ds & Hin & _) by (inversion Htc; eauto).
      by exists (s, ds). }
    destruct (layering_tc deps ls i s s Hl Hi Htc) as (j & Hj & Hj').
    pose proof (in_layer_unique deps ls i j s Hnd Hl Hi Hj'). lia.
Qed.

Lemma check_dep_single known s u d u' :
  check_dep known s u d = Ok u' <-> d <> s /\ d ∈ known.
Proof. destruct u'. unfold check_dep. repeat case_bool_decide; naive_solver. Qed.

Lemma check_dep_ok known s u ds u' :
  foldM (check_dep known s) u ds = Ok u' <-> (forall d, d ∈ ds -> d <> s /\ d ∈ known).
Proof.
  destruct u, u'. induction ds as [|d ds IH].
  - split; [by intros _ d ?%not_elem_of_nil|done].
  - rewrite foldM_cons_Ok. setoid_rewrite check_dep_single. split.
    + intros ([] & Hd & Hds) d' [->|Hin]%elem_of_cons; [done|]. by apply IH.
    + intros Hall. exists tt. split; [apply Hall; by left|].
      apply IH. intros d' Hin. apply Hall. by right.
Qed.

Lemma check_all_ok known (deps : deps_map) :
  (exists u, foldM (fun u '(s, ds) => foldM (check_dep known s) u ds) tt deps = Ok u) <->
  (forall s d, depends deps s d -> d <> s /\ d ∈ known).
Proof.
  unfold depends. induction deps as [|[s ds] deps IH].
  - split; [intros _ s d (ds & Hin & _); by apply not_elem_of_nil in Hin|by eexists].
  - cbn. split.
    + intros (u & (a & Ha & Hu)%bind_Ok) s' d' (ds' & [Heq|Hin]%elem_of_cons & Hd).
      * simplify_eq. by apply check_dep_ok with (d := d') in Ha.
      * destruct a. apply (proj1 IH); eauto.
    + intros Hall. assert (foldM (check_dep known s) tt ds = Ok tt) as Hc.
      { apply check_dep_ok. intros d Hd. apply (Hall s d). exists ds. split; [left|done]. }
      destruct (proj2 IH) as (u & Hu).
      { intros s' d' (ds' & Hin & Hd). apply (Hall s' d'). exists ds'. split; [by right|done]. }
      exists u. by rewrite Hc.
Qed.

(** [validate_dependencies] accepts exactly the mappings in which no step
    depends on itself, every dependency names a step, and no step depends on
    itself through any chain of dependencies: the loop terminates on every
    input and the cycle test has neither false alarms nor misses. *)
Lemma validate_dependencies_iff deps :
  NoDup deps.*1 ->
  (validate_dependencies deps = Ok tt <-> closed deps /\ acyclic deps).
Proof.
  intros Hnd. unfold validate_dependencies, topological_layers. split.
  - intros (u & Hc & H)%bind_Ok. destruct u.
    apply bind_Ok in H as (ls & Hl & _).
    eapply layering_closed_acyclic; [done|]. by eapply layers_loop_sound.
  - intros [Hcl Hac].
    assert (exists u, foldM (fun u '(s, ds) => foldM (check_dep deps.*1 s) u ds) tt deps = Ok u)
      as ([] & ->).
    { apply check_all_ok. intros s d Hd. split; [|by eapply Hcl].
      intros ->. apply (Hac s). by apply tc_once. }
    cbn. destruct (layers_loop_complete (length deps) deps []) as (ls & ->); auto.
    intros s d Hd. right. by eapply Hcl.
Qed.

(** ** Properties *)

(** C21: [topological_layers] always comes to a verdict, and it is the right one.  On
    every mapping (its keys being distinct) it either returns layers or raises
    [CyclicDependencyError], and never runs out of rounds.  When it returns, the
    dependencies name only steps and have no cycle, the layers partition the steps
    into non-empty, sorted groups, and every dependency of a step lies in a strictly
    earlier layer.  When it raises, there is a cycle or an unknown dependency, and
    the steps the message lists are stuck: each depends on another of them or on no
    step at all. *)
Theorem topological_layers_sound deps :
  NoDup deps.*1 ->
  match topological_layers deps with
  | Ok ls =>
      closed deps /\ acyclic deps /\ deps.*1 ≡ₚ mjoin ls /\
      Forall (fun L => L <> [] /\ Sorted String.le L) ls /\
      (forall i s d, in_layer ls i s -> depends deps s d ->
         exists j, (j < i)%nat /\ in_layer ls j d)
  | Err e =>
      ~ (closed deps /\ acyclic deps) /\
      exists stuck, e = cyclic_error stuck /\ deadlocked deps deps.*1 stuck
  end.
Proof.
  intros Hnd. unfold topological_layers. destruct (layers_loop _ deps []) as [ls|e] eqn:Hl.
  - pose proof (layers_loop_sound _ _ _ _ Hnd Hl) as Hlay.
    destruct (layering_closed_acyclic _ _ Hnd Hlay) as [Hcl Hac].
    split_and!; [done|done|apply Hlay|apply Hlay|].
    intros i s d Hi Hdep. eapply layering_tc; [done|done|by apply tc_once].
  - split; [|by apply (layers_loop_stuck (length deps) deps []) in Hl].
    intros [Hcl Hac]. destruct (layers_loop_complete (length deps) deps []) as (ls & Hok);
      [done|done| |done|by rewrite Hok in Hl].
    intros s d Hd. right. by eapply Hcl.
Qed.

(** A diamond with an extra root. *)
Definition diamond : deps_map :=
  [("d", ["b"; "c"]); ("b", ["a"]); ("c", ["a"]); ("a", []); ("z", [])].

(** Two steps that wait for each other, and one that waits for them. *)
Definition knot : deps_map := [("a", ["b"]); ("b", ["a"]); ("c", ["b"]); ("z", [])].

Lemma topological_layers_sound_witness :
  topological_layers diamond = Ok [["a"; "z"]; ["b"; "c"]; ["d"]] /\
  diamond.*1 ≡ₚ mjoin [["a"; "z"]; ["b"; "c"]; ["d"]] /\
  topological_layers knot = Err (cyclic_error ["a"; "b"; "c"]) /\ ~ (closed knot /\ acyclic knot).
Proof.
  assert (topological_layers diamond = Ok [["a"; "z"]; ["b"; "c"]; ["d"]]) as E
    by (vm_compute; reflexivity).
  assert (topological_layers knot = Err (cyclic_error ["a"; "b"; "c"])) as E'
    by (vm_compute; reflexivity).
  pose proof (topological_layers_sound diamond
    ltac:(apply (bool_decide_unpack _); vm_compute; exact I)) as H.
  pose proof (topological_layers_sound knot
    ltac:(apply (bool_decide_unpack _); vm_compute; exact I)) as H'.
  rewrite E in H. rewrite E' in H'. destruct H as (_ & _ & H & _), H' as [H' _].
  exact (conj E (conj H (conj E' H'))).
Defined.

End Dag.
