(* ===== verification/Definitions.v ===== *)
(** Workflow definitions ([core/domain/definition.py]): the immutable template
    an instance executes, its field constraints and its graph validation. *)

From Corelib Require Import SpecFloat.
From stdpp Require Import base strings list sorting relations.
From Stdlib Require Import ZArith Lia Ascii.
From S2P Require Import Prelude Exceptions Values Enums Dag.

(** The C library's [pow], behind Python's [float ** int]: it returns a float or
    raises [OverflowError]. *)
Class CMath := { c_pow : float -> Z -> res float }.

Definition _DEFAULT_RETRYABLE : list string :=
  ["LLMTimeoutError"; "RateLimitError"; "MalformedOutputError"].

Record RetryPolicy := {
  max_retries : Z;
  backoff_base_seconds : float;
  backoff_multiplier : float;
  backoff_max_seconds : float;
  jitter : float;
  retry_on : list string;
  fallback_model : option string;
}.

Definition default_retry_policy : RetryPolicy := {|
  max_retries := 3;
  backoff_base_seconds := float_of_Z 1;
  backoff_multiplier := float_of_Z 2;
  backoff_max_seconds := float_of_Z 60;
  jitter := fratio 2 10;
  retry_on := _DEFAULT_RETRYABLE;
  fallback_model := None;
|}.

Definition backoff_delay `{CMath} (p : RetryPolicy) (attempt : Z) : res float :=
  power ← c_pow (backoff_multiplier p) (Z.max (attempt - 1) 0);
  let raw := fmul (backoff_base_seconds p) power in
  Ok (fmin raw (backoff_max_seconds p)).

(** The [Field(...)] constraints of [RetryPolicy]. *)
Definition retry_policy_valid (p : RetryPolicy) : bool :=
  (0 <=? max_retries p)%Z && (max_retries p <=? 20)%Z &&
  fltb fzero (backoff_base_seconds p) &&
  fleb fone (backoff_multiplier p) &&
  fltb fzero (backoff_max_seconds p) &&
  fleb fzero (jitter p) && fleb (jitter p) fone.

Record WorkflowStep := {
  ws_step_id : string;
  ws_name : string;
  ws_agent_type : string;
  ws_input_schema : dict;
  ws_output_schema : dict;
  ws_retry_policy : RetryPolicy;
  ws_timeout_seconds : Z;
  ws_cost_tier : CostTier;
  ws_side_effects : list string;
  ws_compensation_action : option string;
  ws_requires_approval : bool;
  ws_approval_timeout_seconds : option Z;
  ws_approval_auto_action : string;
  ws_dependencies : list string;
}.

(** A step with every optional field at its default. *)
Definition make_step (step_id name agent_type : string) : WorkflowStep := {|
  ws_step_id := step_id;
  ws_name := name;
  ws_agent_type := agent_type;
  ws_input_schema := ∅;
  ws_output_schema := ∅;
  ws_retry_policy := default_retry_policy;
  ws_timeout_seconds := 300;
  ws_cost_tier := CostTier.STANDARD;
  ws_side_effects := [];
  ws_compensation_action := None;
  ws_requires_approval := false;
  ws_approval_timeout_seconds := None;
  ws_approval_auto_action := "abort";
  ws_dependencies := [];
|}.

(** One character of the pattern [^[a-zA-Z0-9_.-]+$]. *)
Definition id_char (c : Ascii.ascii) : bool :=
  let n := Ascii.nat_of_ascii c in
  ((97 <=? n) && (n <=? 122)) || ((65 <=? n) && (n <=? 90)) ||
  ((48 <=? n) && (n <=? 57)) || (n =? 95) || (n =? 46) || (n =? 45).

Definition id_pattern (s : string) : bool :=
  negb (bool_decide (s = "")) && forallb id_char (String.list_ascii_of_string s).

Definition max_length (n : nat) (s : string) : bool := (String.length s <=? n).

(** Truthiness of an [Optional[str]]. *)
Definition truthy_str (s : option string) : bool :=
  match s with Some s => negb (bool_decide (s = "")) | None => false end.

(** The [Field(...)] constraints of [WorkflowStep]. *)
Definition workflow_step_valid (s : WorkflowStep) : bool :=
  id_pattern (ws_step_id s) && max_length 128 (ws_step_id s) &&
  max_length 256 (ws_name s) && max_length 128 (ws_agent_type s) &&
  retry_policy_valid (ws_retry_policy s) &&
  (0 <? ws_timeout_seconds s)%Z && (ws_timeout_seconds s <=? 86400)%Z &&
  match ws_approval_timeout_seconds s with Some n => (0 <? n)%Z | None => true end &&
  bool_decide (ws_approval_auto_action s ∈ ["approve"; "skip"; "abort"]).

Record WorkflowDefinition := {
  wd_workflow_id : string;
  wd_name : string;
  wd_description : string;
  wd_version : string;
  wd_steps : list WorkflowStep;
  wd_global_timeout_seconds : Z;
  wd_max_concurrent_steps : Z;
  wd_on_failure : OnFailure;
}.

(** The dependency mapping handed to the graph functions. *)
Definition definition_deps (d : WorkflowDefinition) : list (string * list string) :=
  (fun s => (ws_step_id s, ws_dependencies s)) <$> wd_steps d.

Definition step_ids (d : WorkflowDefinition) : list string := ws_step_id <$> wd_steps d.

(** [ids.count(i)] *)
Definition py_count (i : string) (ids : list string) : nat :=
  length (filter (fun j => j = i) ids).

(** The set comprehension [{i for i in ids if ids.count(i) > 1}], sorted. *)
Definition dupes (ids : list string) : list string :=
  Dag.py_sorted (remove_dups (filter (fun i => (1 < py_count i ids)%nat) ids)).

Definition check_compensation (_ : unit) (s : WorkflowStep) : res unit :=
  if truthy_str (ws_compensation_action s) && bool_decide (ws_side_effects s = [])
  then Err (Exn WorkflowDefinitionError
              ("step " +:+ py_repr (ws_step_id s) +:+ " has a compensation_action but no side_effects"))
  else Ok tt.

Definition _validate_graph (d : WorkflowDefinition) : res WorkflowDefinition :=
  let ids := step_ids d in
  if bool_decide (dupes ids <> []) then
    Err (Exn WorkflowDefinitionError
           ("duplicate step ids: " +:+ Dag.show_list (dupes ids)))
  else
    _ ← Dag.validate_dependencies (definition_deps d);
    _ ← foldM check_compensation tt (wd_steps d);
    Ok d.

(** The pattern [^\d+\.\d+\.\d+$]. *)
Definition is_digit (c : Ascii.ascii) : bool :=
  let n := Ascii.nat_of_ascii c in (48 <=? n) && (n <=? 57).

Fixpoint skip_digits (l : list Ascii.ascii) : list Ascii.ascii :=
  match l with
  | c :: l' => if is_digit c then skip_digits l' else l
  | [] => []
  end.

Definition skip_number (l : list Ascii.ascii) : option (list Ascii.ascii) :=
  match l with c :: l' => if is_digit c then Some (skip_digits l') else None | [] => None end.

Definition skip_dot (l : list Ascii.ascii) : option (list Ascii.ascii) :=
  match l with "."%char :: l' => Some l' | _ => None end.

Definition version_pattern (s : string) : bool :=
  match
    l ← skip_number (String.list_ascii_of_string s); l ← skip_dot l;
    l ← skip_number l; l ← skip_dot l; skip_number l
  with Some [] => true | _ => false end.

(** The [Field(...)] constraints of [WorkflowDefinition], before its validator runs. *)
Definition definition_fields_valid (d : WorkflowDefinition) : bool :=
  id_pattern (wd_workflow_id d) && max_length 64 (wd_workflow_id d) &&
  max_length 256 (wd_name d) && version_pattern (wd_version d) &&
  (forallb workflow_step_valid (wd_steps d) && negb (bool_decide (wd_steps d = []))) &&
  (0 <? wd_global_timeout_seconds d)%Z &&
  (1 <=? wd_max_concurrent_steps d)%Z && (wd_max_concurrent_steps d <=? 100)%Z.

(** What the constructor of [WorkflowDefinition] lets through. *)
Definition definition_valid (d : WorkflowDefinition) : bool :=
  definition_fields_valid d && is_ok (_validate_graph d).

(** [definition.step(step_id)]: the first step with that id, or [KeyError]. *)
Definition def_step (d : WorkflowDefinition) (step_id : string) : res WorkflowStep :=
  match list_find (fun s => ws_step_id s = step_id) (wd_steps d) with
  | Some (_, s) => Ok s
  | None => Err (KeyError step_id)
  end.

Definition dependents (d : WorkflowDefinition) (step_id : string) : list string :=
  ws_step_id <$> filter (fun s => step_id ∈ ws_dependencies s) (wd_steps d).

Definition execution_layers (d : WorkflowDefinition) : res (list (list string)) :=
  Dag.topological_layers (definition_deps d).

(** ** Lemmas *)

Lemma definition_deps_keys d : (definition_deps d).*1 = step_ids d.
Proof. unfold definition_deps, step_ids. rewrite <- list_fmap_compose. done. Qed.

Lemma py_count_le1_NoDup ids :
  (forall i, i ∈ ids -> (py_count i ids <= 1)%nat) -> NoDup ids.
Proof.
  unfold py_count. induction ids as [|x ids IH]; intros Hc; [constructor|].
  constructor.
  - intros Hin. specialize (Hc x ltac:(left)). rewrite filter_cons_True in Hc by done.
    assert (x ∈ filter (fun j => j = x) ids) as Hf by (by apply list_elem_of_filter).
    destruct (filter (fun j => j = x) ids); [by apply not_elem_of_nil in Hf|cbn in Hc; lia].
  - apply IH. intros i Hi. specialize (Hc i ltac:(by right)).
    etrans; [|exact Hc]. rewrite filter_cons. destruct (decide (x = i)); cbn; lia.
Qed.

Lemma NoDup_py_count ids i : NoDup ids -> (py_count i ids <= 1)%nat.
Proof.
  unfold py_count. induction 1 as [|x ids Hx Hnd IH]; [cbn; lia|].
  rewrite filter_cons. destruct (decide (x = i)) as [->|]; [|done].
  rewrite filter_all_false; [cbn; lia|]. intros y Hy ->. done.
Qed.

Lemma dupes_nil ids : dupes ids = [] <-> NoDup ids.
Proof.
  unfold dupes. split.
  - intros Hd. apply py_count_le1_NoDup. intros i Hi.
    destruct (decide (1 < py_count i ids)%nat) as [Hgt|]; [|lia].
    assert (i ∈ Dag.py_sorted (remove_dups (filter (fun i => (1 < py_count i ids)%nat) ids)))
      as Hin.
    { apply Dag.elem_of_py_sorted, elem_of_remove_dups, list_elem_of_filter. done. }
    rewrite Hd in Hin. by apply not_elem_of_nil in Hin.
  - intros Hnd. rewrite filter_all_false; [done|].
    intros i Hi Hgt. pose proof (NoDup_py_count ids i Hnd). lia.
Qed.

Lemma check_compensation_ok l :
  foldM check_compensation tt l = Ok tt <->
  Forall (fun s => truthy_str (ws_compensation_action s) = true -> ws_side_effects s <> []) l.
Proof.
  induction l as [|s l IH]; [split; [constructor|done]|].
  rewrite foldM_cons_Ok, Forall_cons, <- IH. unfold check_compensation.
  destruct (truthy_str _); cbn; [case_bool_decide|].
  - split; [naive_solver|]. intros [Hs _]. exfalso. by apply Hs.
  - split; [intros ([] & _ & ?); by split|]. intros [_ ?]. by exists tt.
  - split; [intros ([] & _ & ?); by split|]. intros [_ ?]. by exists tt.
Qed.

(** What a definition that passed validation satisfies. *)
Record valid_definition (d : WorkflowDefinition) : Prop := {
  vd_nodup : NoDup (step_ids d);
  vd_closed : Dag.closed (definition_deps d);
  vd_acyclic : Dag.acyclic (definition_deps d);
  vd_compensation :
    Forall (fun s => truthy_str (ws_compensation_action s) = true -> ws_side_effects s <> [])
      (wd_steps d);
}.

(** [WorkflowDefinition._validate_graph] accepts exactly the definitions
    whose step ids are distinct, whose dependencies name steps and form no
    cycle, and in which a step with a compensation action declares side
    effects; everything else is rejected with an exception. *)
Theorem validate_graph_iff d : _validate_graph d = Ok d <-> valid_definition d.
Proof.
  unfold _validate_graph. case_bool_decide as Hd; cbn.
  - split; [done|]. intros [Hnd _ _ _]. by apply dupes_nil in Hnd.
  - assert (NoDup (step_ids d)) as Hnd.
    { apply dupes_nil. by destruct (dupes (step_ids d)); [|destruct Hd]. }
    assert (NoDup (definition_deps d).*1) as Hnd' by (by rewrite definition_deps_keys).
    rewrite !bind_Ok. split.
    + intros ([] & Hv & ([] & Hc & _)%bind_Ok).
      apply Dag.validate_dependencies_iff in Hv as [Hcl Hac]; [|done].
      by constructor; [..|apply check_compensation_ok].
    + intros [_ Hcl Hac Hcomp]. exists tt. split; [by apply Dag.validate_dependencies_iff|].
      apply check_compensation_ok in Hcomp. by rewrite Hcomp.
Qed.

Lemma def_step_ok d step_id s :
  def_step d step_id = Ok s -> s ∈ wd_steps d /\ ws_step_id s = step_id.
Proof.
  unfold def_step. destruct (list_find _ _) as [[i s']|] eqn:Hf; [|done].
  intros [= ->]. apply list_find_Some in Hf as (Hl & Hid & _).
  split; [by eapply list_elem_of_lookup_2|done].
Qed.

Lemma def_step_in d s :
  NoDup (step_ids d) -> s ∈ wd_steps d -> def_step d (ws_step_id s) = Ok s.
Proof.
  intros Hnd (i & Hi)%list_elem_of_lookup. unfold def_step.
  destruct (list_find _ _) as [[j s']|] eqn:Hf.
  - apply list_find_Some in Hf as (Hl & Hid & _).
    assert (i = j) as <-; [|congruence].
    eapply NoDup_lookup; [exact Hnd|..]; unfold step_ids; rewrite list_lookup_fmap.
    + by rewrite Hi.
    + rewrite Hl. cbn. by rewrite Hid.
  - apply list_find_None in Hf. rewrite Forall_forall in Hf.
    exfalso. eapply Hf; [by eapply list_elem_of_lookup_2|done].
Qed.
