(* ===== verification/Instance.v ===== *)
(** Runtime projection models ([core/domain/instance.py]): the state that
    [fold] rebuilds from an event stream, and its read helpers. *)

From stdpp Require Import base strings list gmap.
From Stdlib Require Import ZArith.
From S2P Require Import Prelude Exceptions Values Enums Definitions.

Record TokenUsage := { tok_input : Z; tok_output : Z }.

Definition no_tokens : TokenUsage := {| tok_input := 0; tok_output := 0 |}.

Definition token_total (t : TokenUsage) : Z := (tok_input t + tok_output t)%Z.

Definition add_tokens (t : TokenUsage) (i o : Z) : TokenUsage :=
  {| tok_input := tok_input t + i; tok_output := tok_output t + o |}%Z.

(** One entry of [recorded_llm_calls] / [llm_recordings]: a dict with these six
    keys. *)
Record LLMRecording := {
  rec_request_digest : string;
  rec_model : string;
  rec_response : dict;
  rec_tokens_input : Z;
  rec_tokens_output : Z;
  rec_cost_usd : float;
}.

Record StepState := {
  st_step_id : string;
  st_status : StepStatus;
  st_attempts : Z;
  st_output : option dict;
  st_error_type : option string;
  st_error_message : option string;
  st_model_used : option string;
  st_cost_usd : float;
  st_tokens : TokenUsage;
  st_started_at : option time;
  st_completed_at : option time;
  st_next_retry_at : option time;
  st_recorded_llm_calls : list LLMRecording;
}.

(** [StepState(step_id=step_id)] *)
Definition new_step_state (step_id : string) : StepState := {|
  st_step_id := step_id;
  st_status := StepStatus.PENDING;
  st_attempts := 0;
  st_output := None;
  st_error_type := None;
  st_error_message := None;
  st_model_used := None;
  st_cost_usd := fzero;
  st_tokens := no_tokens;
  st_started_at := None;
  st_completed_at := None;
  st_next_retry_at := None;
  st_recorded_llm_calls := [];
|}.

Record ErrorRecord := {
  er_step_id : option string;
  er_error_type : string;
  er_error_message : string;
  er_occurred_at : time;
  er_attempt : option Z;
}.

Record EscalationRef := {
  esc_escalation_id : string;
  esc_step_id : string;
  esc_reason : string;
  esc_deadline : option time;
  esc_resolved : bool;
}.

Record SideEffectRef := {
  ser_idempotency_key : string;
  ser_step_id : string;
  ser_effect_name : string;
  ser_status : string;
}.

Record WorkflowInstance := {
  wi_instance_id : string;
  wi_tenant_id : string;
  wi_workflow_id : string;
  wi_workflow_version : string;
  wi_status : WorkflowStatus;
  wi_context : dict;
  wi_step_states : gmap string StepState;
  wi_cost_accumulated_usd : float;
  wi_tokens_used : TokenUsage;
  wi_budget_limit_usd : option float;
  wi_error_history : list ErrorRecord;
  wi_escalations : list EscalationRef;
  wi_side_effects : list SideEffectRef;
  wi_version : Z;
  wi_created_at : option time;
  wi_updated_at : option time;
  wi_completed_at : option time;
}.

(** [WorkflowInstance(instance_id=..., ...)] with every other field at its
    default. *)
Definition new_instance (instance_id tenant_id workflow_id workflow_version : string)
    : WorkflowInstance := {|
  wi_instance_id := instance_id;
  wi_tenant_id := tenant_id;
  wi_workflow_id := workflow_id;
  wi_workflow_version := workflow_version;
  wi_status := WorkflowStatus.PENDING;
  wi_context := ∅;
  wi_step_states := ∅;
  wi_cost_accumulated_usd := fzero;
  wi_tokens_used := no_tokens;
  wi_budget_limit_usd := None;
  wi_error_history := [];
  wi_escalations := [];
  wi_side_effects := [];
  wi_version := 0;
  wi_created_at := None;
  wi_updated_at := None;
  wi_completed_at := None;
|}.

(** ** Field updates (attribute assignments) *)

Definition set_st_status (v : StepStatus) (s : StepState) : StepState := {|
  st_step_id := st_step_id s;
  st_status := v;
  st_attempts := st_attempts s;
  st_output := st_output s;
  st_error_type := st_error_type s;
  st_error_message := st_error_message s;
  st_model_used := st_model_used s;
  st_cost_usd := st_cost_usd s;
  st_tokens := st_tokens s;
  st_started_at := st_started_at s;
  st_completed_at := st_completed_at s;
  st_next_retry_at := st_next_retry_at s;
  st_recorded_llm_calls := st_recorded_llm_calls s |}.

Definition set_st_attempts (v : Z) (s : StepState) : StepState := {|
  st_step_id := st_step_id s;
  st_status := st_status s;
  st_attempts := v;
  st_output := st_output s;
  st_error_type := st_error_type s;
  st_error_message := st_error_message s;
  st_model_used := st_model_used s;
  st_cost_usd := st_cost_usd s;
  st_tokens := st_tokens s;
  st_started_at := st_started_at s;
  st_completed_at := st_completed_at s;
  st_next_retry_at := st_next_retry_at s;
  st_recorded_llm_calls := st_recorded_llm_calls s |}.

Definition set_st_output (v : option dict) (s : StepState) : StepState := {|
  st_step_id := st_step_id s;
  st_status := st_status s;
  st_attempts := st_attempts s;
  st_output := v;
  st_error_type := st_error_type s;
  st_error_message := st_error_message s;
  st_model_used := st_model_used s;
  st_cost_usd := st_cost_usd s;
  st_tokens := st_tokens s;
  st_started_at := st_started_at s;
  st_completed_at := st_completed_at s;
  st_next_retry_at := st_next_retry_at s;
  st_recorded_llm_calls := st_recorded_llm_calls s |}.

Definition set_st_error_type (v : option string) (s : StepState) : StepState := {|
  st_step_id := st_step_id s;
  st_status := st_status s;
  st_attempts := st_attempts s;
  st_output := st_output s;
  st_error_type := v;
  st_error_message := st_error_message s;
  st_model_used := st_model_used s;
  st_cost_usd := st_cost_usd s;
  st_tokens := st_tokens s;
  st_started_at := st_started_at s;
  st_completed_at := st_completed_at s;
  st_next_retry_at := st_next_retry_at s;
  st_recorded_llm_calls := st_recorded_llm_calls s |}.

Definition set_st_error_message (v : option string) (s : StepState) : StepState := {|
  st_step_id := st_step_id s;
  st_status := st_status s;
  st_attempts := st_attempts s;
  st_output := st_output s;
  st_error_type := st_error_type s;
  st_error_message := v;
  st_model_used := st_model_used s;
  st_cost_usd := st_cost_usd s;
  st_tokens := st_tokens s;
  st_started_at := st_started_at s;
  st_completed_at := st_completed_at s;
  st_next_retry_at := st_next_retry_at s;
  st_recorded_llm_calls := st_recorded_llm_calls s |}.

Definition set_st_model_used (v : option string) (s : StepState) : StepState := {|
  st_step_id := st_step_id s;
  st_status := st_status s;
  st_attempts := st_attempts s;
  st_output := st_output s;
  st_error_type := st_error_type s;
  st_error_message := st_error_message s;
  st_model_used := v;
  st_cost_usd := st_cost_usd s;
  st_tokens := st_tokens s;
  st_started_at := st_started_at s;
  st_completed_at := st_completed_at s;
  st_next_retry_at := st_next_retry_at s;
  st_recorded_llm_calls := st_recorded_llm_calls s |}.

Definition set_st_cost_usd (v : float) (s : StepState) : StepState := {|
  st_step_id := st_step_id s;
  st_status := st_status s;
  st_attempts := st_attempts s;
  st_output := st_output s;
  st_error_type := st_error_type s;
  st_error_message := st_error_message s;
  st_model_used := st_model_used s;
  st_cost_usd := v;
  st_tokens := st_tokens s;
  st_started_at := st_started_at s;
  st_completed_at := st_completed_at s;
  st_next_retry_at := st_next_retry_at s;
  st_recorded_llm_calls := st_recorded_llm_calls s |}.

Definition set_st_tokens (v : TokenUsage) (s : StepState) : StepState := {|
  st_step_id := st_step_id s;
  st_status := st_status s;
  st_attempts := st_attempts s;
  st_output := st_output s;
  st_error_type := st_error_type s;
  st_error_message := st_error_message s;
  st_model_used := st_model_used s;
  st_cost_usd := st_cost_usd s;
  st_tokens := v;
  st_started_at := st_started_at s;
  st_completed_at := st_completed_at s;
  st_next_retry_at := st_next_retry_at s;
  st_recorded_llm_calls := st_recorded_llm_calls s |}.

Definition set_st_started_at (v : option time) (s : StepState) : StepState := {|
  st_step_id := st_step_id s;
  st_status := st_status s;
  st_attempts := st_attempts s;
  st_output := st_output s;
  st_error_type := st_error_type s;
  st_error_message := st_error_message s;
  st_model_used := st_model_used s;
  st_cost_usd := st_cost_usd s;
  st_tokens := st_tokens s;
  st_started_at := v;
  st_completed_at := st_completed_at s;
  st_next_retry_at := st_next_retry_at s;
  st_recorded_llm_calls := st_recorded_llm_calls s |}.

Definition set_st_completed_at (v : option time) (s : StepState) : StepState := {|
  st_step_id := st_step_id s;
  st_status := st_status s;
  st_attempts := st_attempts s;
  st_output := st_output s;
  st_error_type := st_error_type s;
  st_error_message := st_error_message s;
  st_model_used := st_model_used s;
  st_cost_usd := st_cost_usd s;
  st_tokens := st_tokens s;
  st_started_at := st_started_at s;
  st_completed_at := v;
  st_next_retry_at := st_next_retry_at s;
  st_recorded_llm_calls := st_recorded_llm_calls s |}.

Definition set_st_next_retry_at (v : option time) (s : StepState) : StepState := {|
  st_step_id := st_step_id s;
  st_status := st_status s;
  st_attempts := st_attempts s;
  st_output := st_output s;
  st_error_type := st_error_type s;
  st_error_message := st_error_message s;
  st_model_used := st_model_used s;
  st_cost_usd := st_cost_usd s;
  st_tokens := st_tokens s;
  st_started_at := st_started_at s;
  st_completed_at := st_completed_at s;
  st_next_retry_at := v;
  st_recorded_llm_calls := st_recorded_llm_calls s |}.

Definition set_st_recorded_llm_calls (v : list LLMRecording) (s : StepState) : StepState := {|
  st_step_id := st_step_id s;
  st_status := st_status s;
  st_attempts := st_attempts s;
  st_output := st_output s;
  st_error_type := st_error_type s;
  st_error_message := st_error_message s;
  st_model_used := st_model_used s;
  st_cost_usd := st_cost_usd s;
  st_tokens := st_tokens s;
  st_started_at := st_started_at s;
  st_completed_at := st_completed_at s;
  st_next_retry_at := st_next_retry_at s;
  st_recorded_llm_calls := v |}.

Definition set_wi_status (v : WorkflowStatus) (i : WorkflowInstance) : WorkflowInstance := {|
  wi_instance_id := wi_instance_id i;
  wi_tenant_id := wi_tenant_id i;
  wi_workflow_id := wi_workflow_id i;
  wi_workflow_version := wi_workflow_version i;
  wi_status := v;
  wi_context := wi_context i;
  wi_step_states := wi_step_states i;
  wi_cost_accumulated_usd := wi_cost_accumulated_usd i;
  wi_tokens_used := wi_tokens_used i;
  wi_budget_limit_usd := wi_budget_limit_usd i;
  wi_error_history := wi_error_history i;
  wi_escalations := wi_escalations i;
  wi_side_effects := wi_side_effects i;
  wi_version := wi_version i;
  wi_created_at := wi_created_at i;
  wi_updated_at := wi_updated_at i;
  wi_completed_at := wi_completed_at i |}.

Definition set_wi_context (v : dict) (i : WorkflowInstance) : WorkflowInstance := {|
  wi_instance_id := wi_instance_id i;
  wi_tenant_id := wi_tenant_id i;
  wi_workflow_id := wi_workflow_id i;
  wi_workflow_version := wi_workflow_version i;
  wi_status := wi_status i;
  wi_context := v;
  wi_step_states := wi_step_states i;
  wi_cost_accumulated_usd := wi_cost_accumulated_usd i;
  wi_tokens_used := wi_tokens_used i;
  wi_budget_limit_usd := wi_budget_limit_usd i;
  wi_error_history := wi_error_history i;
  wi_escalations := wi_escalations i;
  wi_side_effects := wi_side_effects i;
  wi_version := wi_version i;
  wi_created_at := wi_created_at i;
  wi_updated_at := wi_updated_at i;
  wi_completed_at := wi_completed_at i |}.

Definition set_wi_step_states (v : gmap string StepState) (i : WorkflowInstance) : WorkflowInstance := {|
  wi_instance_id := wi_instance_id i;
  wi_tenant_id := wi_tenant_id i;
  wi_workflow_id := wi_workflow_id i;
  wi_workflow_version := wi_workflow_version i;
  wi_status := wi_status i;
  wi_context := wi_context i;
  wi_step_states := v;
  wi_cost_accumulated_usd := wi_cost_accumulated_usd i;
  wi_tokens_used := wi_tokens_used i;
  wi_budget_limit_usd := wi_budget_limit_usd i;
  wi_error_history := wi_error_history i;
  wi_escalations := wi_escalations i;
  wi_side_effects := wi_side_effects i;
  wi_version := wi_version i;
  wi_created_at := wi_created_at i;
  wi_updated_at := wi_updated_at i;
  wi_completed_at := wi_completed_at i |}.

Definition set_wi_cost_accumulated_usd (v : float) (i : WorkflowInstance) : WorkflowInstance := {|
  wi_instance_id := wi_instance_id i;
  wi_tenant_id := wi_tenant_id i;
  wi_workflow_id := wi_workflow_id i;
  wi_workflow_version := wi_workflow_version i;
  wi_status := wi_status i;
  wi_context := wi_context i;
  wi_step_states := wi_step_states i;
  wi_cost_accumulated_usd := v;
  wi_tokens_used := wi_tokens_used i;
  wi_budget_limit_usd := wi_budget_limit_usd i;
  wi_error_history := wi_error_history i;
  wi_escalations := wi_escalations i;
  wi_side_effects := wi_side_effects i;
  wi_version := wi_version i;
  wi_created_at := wi_created_at i;
  wi_updated_at := wi_updated_at i;
  wi_completed_at := wi_completed_at i |}.

Definition set_wi_tokens_used (v : TokenUsage) (i : WorkflowInstance) : WorkflowInstance := {|
  wi_instance_id := wi_instance_id i;
  wi_tenant_id := wi_tenant_id i;
  wi_workflow_id := wi_workflow_id i;
  wi_workflow_version := wi_workflow_version i;
  wi_status := wi_status i;
  wi_context := wi_context i;
  wi_step_states := wi_step_states i;
  wi_cost_accumulated_usd := wi_cost_accumulated_usd i;
  wi_tokens_used := v;
  wi_budget_limit_usd := wi_budget_limit_usd i;
  wi_error_history := wi_error_history i;
  wi_escalations := wi_escalations i;
  wi_side_effects := wi_side_effects i;
  wi_version := wi_version i;
  wi_created_at := wi_created_at i;
  wi_updated_at := wi_updated_at i;
  wi_completed_at := wi_completed_at i |}.

Definition set_wi_budget_limit_usd (v : option float) (i : WorkflowInstance) : WorkflowInstance := {|
  wi_instance_id := wi_instance_id i;
  wi_tenant_id := wi_tenant_id i;
  wi_workflow_id := wi_workflow_id i;
  wi_workflow_version := wi_workflow_version i;
  wi_status := wi_status i;
  wi_context := wi_context i;
  wi_step_states := wi_step_states i;
  wi_cost_accumulated_usd := wi_cost_accumulated_usd i;
  wi_tokens_used := wi_tokens_used i;
  wi_budget_limit_usd := v;
  wi_error_history := wi_error_history i;
  wi_escalations := wi_escalations i;
  wi_side_effects := wi_side_effects i;
  wi_version := wi_version i;
  wi_created_at := wi_created_at i;
  wi_updated_at := wi_updated_at i;
  wi_completed_at := wi_completed_at i |}.

Definition set_wi_error_history (v : list ErrorRecord) (i : WorkflowInstance) : WorkflowInstance := {|
  wi_instance_id := wi_instance_id i;
  wi_tenant_id := wi_tenant_id i;
  wi_workflow_id := wi_workflow_id i;
  wi_workflow_version := wi_workflow_version i;
  wi_status := wi_status i;
  wi_context := wi_context i;
  wi_step_states := wi_step_states i;
  wi_cost_accumulated_usd := wi_cost_accumulated_usd i;
  wi_tokens_used := wi_tokens_used i;
  wi_budget_limit_usd := wi_budget_limit_usd i;
  wi_error_history := v;
  wi_escalations := wi_escalations i;
  wi_side_effects := wi_side_effects i;
  wi_version := wi_version i;
  wi_created_at := wi_created_at i;
  wi_updated_at := wi_updated_at i;
  wi_completed_at := wi_completed_at i |}.

Definition set_wi_escalations (v : list EscalationRef) (i : WorkflowInstance) : WorkflowInstance := {|
  wi_instance_id := wi_instance_id i;
  wi_tenant_id := wi_tenant_id i;
  wi_workflow_id := wi_workflow_id i;
  wi_workflow_version := wi_workflow_version i;
  wi_status := wi_status i;
  wi_context := wi_context i;
  wi_step_states := wi_step_states i;
  wi_cost_accumulated_usd := wi_cost_accumulated_usd i;
  wi_tokens_used := wi_tokens_used i;
  wi_budget_limit_usd := wi_budget_limit_usd i;
  wi_error_history := wi_error_history i;
  wi_escalations := v;
  wi_side_effects := wi_side_effects i;
  wi_version := wi_version i;
  wi_created_at := wi_created_at i;
  wi_updated_at := wi_updated_at i;
  wi_completed_at := wi_completed_at i |}.

Definition set_wi_side_effects (v : list SideEffectRef) (i : WorkflowInstance) : WorkflowInstance := {|
  wi_instance_id := wi_instance_id i;
  wi_tenant_id := wi_tenant_id i;
  wi_workflow_id := wi_workflow_id i;
  wi_workflow_version := wi_workflow_version i;
  wi_status := wi_status i;
  wi_context := wi_context i;
  wi_step_states := wi_step_states i;
  wi_cost_accumulated_usd := wi_cost_accumulated_usd i;
  wi_tokens_used := wi_tokens_used i;
  wi_budget_limit_usd := wi_budget_limit_usd i;
  wi_error_history := wi_error_history i;
  wi_escalations := wi_escalations i;
  wi_side_effects := v;
  wi_version := wi_version i;
  wi_created_at := wi_created_at i;
  wi_updated_at := wi_updated_at i;
  wi_completed_at := wi_completed_at i |}.

Definition set_wi_version (v : Z) (i : WorkflowInstance) : WorkflowInstance := {|
  wi_instance_id := wi_instance_id i;
  wi_tenant_id := wi_tenant_id i;
  wi_workflow_id := wi_workflow_id i;
  wi_workflow_version := wi_workflow_version i;
  wi_status := wi_status i;
  wi_context := wi_context i;
  wi_step_states := wi_step_states i;
  wi_cost_accumulated_usd := wi_cost_accumulated_usd i;
  wi_tokens_used := wi_tokens_used i;
  wi_budget_limit_usd := wi_budget_limit_usd i;
  wi_error_history := wi_error_history i;
  wi_escalations := wi_escalations i;
  wi_side_effects := wi_side_effects i;
  wi_version := v;
  wi_created_at := wi_created_at i;
  wi_updated_at := wi_updated_at i;
  wi_completed_at := wi_completed_at i |}.

Definition set_wi_created_at (v : option time) (i : WorkflowInstance) : WorkflowInstance := {|
  wi_instance_id := wi_instance_id i;
  wi_tenant_id := wi_tenant_id i;
  wi_workflow_id := wi_workflow_id i;
  wi_workflow_version := wi_workflow_version i;
  wi_status := wi_status i;
  wi_context := wi_context i;
  wi_step_states := wi_step_states i;
  wi_cost_accumulated_usd := wi_cost_accumulated_usd i;
  wi_tokens_used := wi_tokens_used i;
  wi_budget_limit_usd := wi_budget_limit_usd i;
  wi_error_history := wi_error_history i;
  wi_escalations := wi_escalations i;
  wi_side_effects := wi_side_effects i;
  wi_version := wi_version i;
  wi_created_at := v;
  wi_updated_at := wi_updated_at i;
  wi_completed_at := wi_completed_at i |}.

Definition set_wi_updated_at (v : option time) (i : WorkflowInstance) : WorkflowInstance := {|
  wi_instance_id := wi_instance_id i;
  wi_tenant_id := wi_tenant_id i;
  wi_workflow_id := wi_workflow_id i;
  wi_workflow_version := wi_workflow_version i;
  wi_status := wi_status i;
  wi_context := wi_context i;
  wi_step_states := wi_step_states i;
  wi_cost_accumulated_usd := wi_cost_accumulated_usd i;
  wi_tokens_used := wi_tokens_used i;
  wi_budget_limit_usd := wi_budget_limit_usd i;
  wi_error_history := wi_error_history i;
  wi_escalations := wi_escalations i;
  wi_side_effects := wi_side_effects i;
  wi_version := wi_version i;
  wi_created_at := wi_created_at i;
  wi_updated_at := v;
  wi_completed_at := wi_completed_at i |}.

Definition set_wi_completed_at (v : option time) (i : WorkflowInstance) : WorkflowInstance := {|
  wi_instance_id := wi_instance_id i;
  wi_tenant_id := wi_tenant_id i;
  wi_workflow_id := wi_workflow_id i;
  wi_workflow_version := wi_workflow_version i;
  wi_status := wi_status i;
  wi_context := wi_context i;
  wi_step_states := wi_step_states i;
  wi_cost_accumulated_usd := wi_cost_accumulated_usd i;
  wi_tokens_used := wi_tokens_used i;
  wi_budget_limit_usd := wi_budget_limit_usd i;
  wi_error_history := wi_error_history i;
  wi_escalations := wi_escalations i;
  wi_side_effects := wi_side_effects i;
  wi_version := wi_version i;
  wi_created_at := wi_created_at i;
  wi_updated_at := wi_updated_at i;
  wi_completed_at := v |}.

(** ** Derived read helpers *)

Definition is_terminal (i : WorkflowInstance) : bool :=
  bool_decide (wi_status i ∈ TERMINAL_WORKFLOW_STATUSES).

Definition remaining_budget_usd (i : WorkflowInstance) : option float :=
  match wi_budget_limit_usd i with
  | None => None
  | Some limit => Some (fsub limit (wi_cost_accumulated_usd i))
  end.

(** [instance.step_states[step_id]], which raises [KeyError]. *)
Definition get_step (i : WorkflowInstance) (step_id : string) : res StepState :=
  match wi_step_states i !! step_id with
  | Some st => Ok st
  | None => Err (KeyError step_id)
  end.

Definition step_done (i : WorkflowInstance) (step_id : string) : bool :=
  match wi_step_states i !! step_id with
  | Some st => bool_decide (st_status st ∈ [StepStatus.COMPLETED; StepStatus.SKIPPED])
  | None => false
  end.

(** [ready_steps]: not started, and every dependency satisfied. *)
Definition instance_ready_steps (i : WorkflowInstance) (d : WorkflowDefinition) : list string :=
  ws_step_id <$>
  filter (fun s =>
    match wi_step_states i !! ws_step_id s with
    | Some st => bool_decide (st_status st ∈ [StepStatus.PENDING; StepStatus.READY])
    | None => true
    end && forallb (step_done i) (ws_dependencies s) = true) (wd_steps d).

Definition SETTLED : list StepStatus :=
  [StepStatus.COMPLETED; StepStatus.SKIPPED; StepStatus.COMPENSATED].

Definition all_steps_settled (i : WorkflowInstance) (d : WorkflowDefinition) : bool :=
  forallb (fun s =>
    bool_decide (st_status (default (new_step_state (ws_step_id s))
                              (wi_step_states i !! ws_step_id s)) ∈ SETTLED)) (wd_steps d).

Lemma get_step_ok i sid st : get_step i sid = Ok st <-> wi_step_states i !! sid = Some st.
Proof. unfold get_step. destruct (wi_step_states i !! sid); naive_solver. Qed.
