(* ===== verification/Events.v ===== *)
(** The event vocabulary ([core/events/types.py]) and snapshots
    ([core/events/snapshot.py]).

    An event is an envelope ([BaseEvent]) around one of the twenty-three event
    classes, which are the constructors of [event_body] with the fields of the
    class in the order of the source. *)

From stdpp Require Import base strings list gmap.
From Stdlib Require Import ZArith.
From S2P Require Import Prelude Exceptions Values Enums Definitions Instance.

Inductive event_body :=
(* lifecycle *)
| InstanceCreated (workflow_id workflow_version : string) (context : dict)
    (budget_limit_usd : option float) (trigger_source : string) (trigger_metadata : dict)
| InstanceStatusChanged (from_status to_status : WorkflowStatus) (reason : option string)
| InstanceCompleted (outputs : dict)
| InstanceFailed (error_type error_message : string)
| WorkflowRequeued (step_id : option string) (requeued_by : string) (dlq_id : option Z)
| WorkflowBudgetAdjusted (new_limit_usd : option float) (adjusted_by : string)
    (reason : option string)
(* step execution *)
| StepStatusChanged (step_id : string) (from_status to_status : StepStatus)
    (reason : option string)
| StepStarted (step_id : string) (attempt : Z) (worker_id : string)
    (model_selected : option string)
| StepCompleted (step_id : string) (attempt : Z) (output : dict) (model_used : option string)
    (cost_usd : float) (tokens_input tokens_output duration_ms : Z)
| StepFailed (step_id : string) (attempt : Z) (error_type error_message : string)
    (retryable : bool)
| StepRetryScheduled (step_id : string) (next_attempt : Z) (run_at : time)
| StepSkipped (step_id reason : string)
| StepCompensated (step_id compensation_action : string)
(* deterministic-replay inputs *)
| LLMCallRecorded (step_id : string) (attempt : Z) (request_digest model : string)
    (response : dict) (tokens_input tokens_output : Z) (cost_usd : float)
| ToolCallRecorded (step_id : string) (attempt : Z) (tool_name args_digest : string)
    (tool_result : json)
(* side effects *)
| SideEffectIntentRecorded (step_id effect_name idempotency_key : string) (params : dict)
    (guarantee : string)
| SideEffectExecuted (step_id idempotency_key : string) (effect_result : dict)
    (deduplicated : bool)
| SideEffectCompensated (step_id idempotency_key : string) (effect_result : dict)
(* human-in-the-loop *)
| EscalationRaised (escalation_id step_id reason recommendation : string)
    (confidence : float) (options : list dict) (deadline : option time)
    (auto_action : string)
| EscalationResolved (escalation_id step_id resolution resolved_by : string)
    (modified_context : option dict)
| EscalationTimedOut (escalation_id step_id auto_action : string)
(* cost / budget *)
| CostCharged (step_id : option string) (amount_usd : float) (model : option string)
    (tokens_input tokens_output : Z)
| BudgetExceeded (step_id : string) (projected_cost_usd remaining_budget_usd : float)
    (scope : string).

(** [BaseEvent] *)
Record event := {
  ev_event_id : string;
  ev_instance_id : string;
  ev_tenant_id : string;
  ev_sequence : Z;
  ev_occurred_at : time;
  ev_body : event_body;
}.

(** The [Field] constraints and [Literal] types of the event classes. *)
Definition body_valid (b : event_body) : bool :=
  match b with
  | StepStarted _ attempt _ _ | StepCompleted _ attempt _ _ _ _ _ _
  | StepFailed _ attempt _ _ _ | LLMCallRecorded _ attempt _ _ _ _ _ _
  | ToolCallRecorded _ attempt _ _ _ => (1 <=? attempt)%Z
  | StepRetryScheduled _ next_attempt _ => (2 <=? next_attempt)%Z
  | SideEffectIntentRecorded _ _ _ _ guarantee =>
      bool_decide (guarantee ∈ ["exactly_once"; "at_least_once_dedup"])
  | BudgetExceeded _ _ _ scope => bool_decide (scope ∈ ["workflow"; "tenant_daily"])
  | _ => true
  end.

(** What the constructors of the event classes let through. *)
Definition event_valid (e : event) : bool := (1 <=? ev_sequence e)%Z && body_valid (ev_body e).

(** A batch not yet numbered: each body is an instance of its class. *)
Notation valid_bodies l := (Forall (fun e => body_valid (ev_body e) = true) l).

(** [BaseEvent.key] *)
Definition event_key (e : event) : string * Z := (ev_instance_id e, ev_sequence e).

(** The [event_type] discriminator of each class. *)
Definition event_type (b : event_body) : string :=
  match b with
  | InstanceCreated _ _ _ _ _ _ => "InstanceCreated"
  | InstanceStatusChanged _ _ _ => "InstanceStatusChanged"
  | InstanceCompleted _ => "InstanceCompleted"
  | InstanceFailed _ _ => "InstanceFailed"
  | WorkflowRequeued _ _ _ => "WorkflowRequeued"
  | WorkflowBudgetAdjusted _ _ _ => "WorkflowBudgetAdjusted"
  | StepStatusChanged _ _ _ _ => "StepStatusChanged"
  | StepStarted _ _ _ _ => "StepStarted"
  | StepCompleted _ _ _ _ _ _ _ _ => "StepCompleted"
  | StepFailed _ _ _ _ _ => "StepFailed"
  | StepRetryScheduled _ _ _ => "StepRetryScheduled"
  | StepSkipped _ _ => "StepSkipped"
  | StepCompensated _ _ => "StepCompensated"
  | LLMCallRecorded _ _ _ _ _ _ _ _ => "LLMCallRecorded"
  | ToolCallRecorded _ _ _ _ _ => "ToolCallRecorded"
  | SideEffectIntentRecorded _ _ _ _ _ => "SideEffectIntentRecorded"
  | SideEffectExecuted _ _ _ _ => "SideEffectExecuted"
  | SideEffectCompensated _ _ _ => "SideEffectCompensated"
  | EscalationRaised _ _ _ _ _ _ _ _ => "EscalationRaised"
  | EscalationResolved _ _ _ _ _ => "EscalationResolved"
  | EscalationTimedOut _ _ _ => "EscalationTimedOut"
  | CostCharged _ _ _ _ _ => "CostCharged"
  | BudgetExceeded _ _ _ _ => "BudgetExceeded"
  end.

(** [draft.model_copy(update={"sequence": n})] *)
Definition with_sequence (e : event) (n : Z) : event := {|
  ev_event_id := ev_event_id e;
  ev_instance_id := ev_instance_id e;
  ev_tenant_id := ev_tenant_id e;
  ev_sequence := n;
  ev_occurred_at := ev_occurred_at e;
  ev_body := ev_body e;
|}.

(** [[draft.model_copy(update={"sequence": base + i}) for i, draft in
    enumerate(drafts, start=1)]] *)
Fixpoint sequenced (base : Z) (drafts : list event) : list event :=
  match drafts with
  | [] => []
  | d :: ds => with_sequence d (base + 1) :: sequenced (base + 1) ds
  end.

(** ** Snapshots *)

Definition SNAPSHOT_EVERY : Z := 50.

Record Snapshot := {
  snap_instance_id : string;
  snap_tenant_id : string;
  snap_version : Z;
  snap_state : WorkflowInstance;
  snap_created_at : time;
}.

Definition snapshot_of (i : WorkflowInstance) (created_at : time) : Snapshot := {|
  snap_instance_id := wi_instance_id i;
  snap_tenant_id := wi_tenant_id i;
  snap_version := wi_version i;
  snap_state := i;
  snap_created_at := created_at;
|}.

Definition should_snapshot (last_snapshot_version current_version : Z) : bool :=
  (SNAPSHOT_EVERY <=? current_version - last_snapshot_version)%Z.

(** ** Lemmas on sequencing *)

Lemma length_sequenced n ds : length (sequenced n ds) = length ds.
Proof. revert n; induction ds as [|d ds IH]; intros n; cbn; auto. Qed.

Lemma sequenced_numbers n ds : ev_sequence <$> sequenced n ds = seqZ_from n (length ds).
Proof. revert n; induction ds as [|d ds IH]; intros n; cbn; [done|]. by rewrite IH. Qed.

Lemma sequenced_app n ds1 ds2 :
  sequenced n (ds1 ++ ds2) = sequenced n ds1 ++ sequenced (n + Z.of_nat (length ds1)) ds2.
Proof.
  revert n; induction ds1 as [|d ds IH]; intros n; cbn; [by rewrite Z.add_0_r|].
  rewrite IH. do 3 f_equal. lia.
Qed.

Lemma sequenced_bodies n ds : ev_body <$> sequenced n ds = ev_body <$> ds.
Proof. revert n; induction ds as [|d ds IH]; intros n; cbn; [done|]. by rewrite IH. Qed.

Lemma elem_of_sequenced e n ds :
  e ∈ sequenced n ds -> exists d, d ∈ ds /\ e = with_sequence d (ev_sequence e).
Proof.
  revert n; induction ds as [|d ds IH]; intros n; cbn; [by intros ?%not_elem_of_nil|].
  intros [->|Hin]%elem_of_cons; [exists d; split; [left|done]|].
  destruct (IH _ Hin) as (d' & ? & ?). exists d'. split; [by right|done].
Qed.
