(* ===== verification/EventCodec.v ===== *)
(** Events as JSON ([core/events/types.py]): the models of the twenty-three event
    classes, [dump_event] and [parse_event].

    A field is a name, a type with the constraints of its [Field], and perhaps a
    default.  How pydantic reads a number, a boolean or a timestamp out of JSON is a
    parameter ([Lax]): what the code relies on is that it reads back what it wrote. *)

From stdpp Require Import base strings list gmap.
From Stdlib Require Import ZArith Lia.
From S2P Require Import Prelude Exceptions Values Enums Definitions Instance Events.

Module EventModels.

(** ** Field types *)

Class Lax := {
  lax_int : json -> option Z;
  lax_float : json -> option float;
  lax_bool : json -> option bool;
  lax_time : json -> option time;
  time_json : time -> json;
}.

Class LaxLaws `{Lax} := {
  lax_int_own n : lax_int (JInt n) = Some n;
  lax_float_own x : lax_float (JFloat x) = Some x;
  lax_bool_own b : lax_bool (JBool b) = Some b;
  lax_time_own t : lax_time (time_json t) = Some t;
  time_not_null t : time_json t <> JNull;
}.

(** A type: how a value is dumped, how JSON is validated, and which values have it. *)
Record Ty (A : Type) := {
  ty_dump : A -> json;
  ty_validate : json -> option A;
  ty_ok : A -> bool;
}.
Arguments ty_dump {A}. Arguments ty_validate {A}. Arguments ty_ok {A}.

Definition keep_if {A} (ok : A -> bool) (o : option A) : option A :=
  a ← o; if ok a then Some a else None.

Section types.
Context {L : Lax}.

Definition t_any : Ty json :=
  {| ty_dump := id; ty_validate := Some; ty_ok _ := true |}.
Definition t_str : Ty string := {|
  ty_dump := JStr; ty_validate j := match j with JStr s => Some s | _ => None end;
  ty_ok _ := true |}.
Definition t_int : Ty Z := {| ty_dump := JInt; ty_validate := lax_int; ty_ok _ := true |}.
Definition t_float : Ty float := {| ty_dump := JFloat; ty_validate := lax_float; ty_ok _ := true |}.
Definition t_bool : Ty bool := {| ty_dump := JBool; ty_validate := lax_bool; ty_ok _ := true |}.
Definition t_time : Ty time := {| ty_dump := time_json; ty_validate := lax_time; ty_ok _ := true |}.
Definition t_dict : Ty dict := {|
  ty_dump := JObj; ty_validate j := match j with JObj o => Some o | _ => None end;
  ty_ok _ := true |}.

(** [Field(ge=low)] *)
Definition t_ge (low : Z) : Ty Z := {|
  ty_dump := JInt; ty_validate j := keep_if (Z.leb low) (lax_int j); ty_ok := Z.leb low |}.

(** [Literal[...]] *)
Definition t_literal (values : list string) : Ty string := {|
  ty_dump := JStr;
  ty_validate j := keep_if (fun s => bool_decide (s ∈ values)) (ty_validate t_str j);
  ty_ok s := bool_decide (s ∈ values) |}.

(** A [StrEnum], by value. *)
Definition t_enum {A} (value : A -> string) (members : list A) : Ty A := {|
  ty_dump a := JStr (value a);
  ty_validate j := s ← ty_validate t_str j; List.find (fun a => bool_decide (value a = s)) members;
  ty_ok _ := true |}.

Definition t_workflow_status : Ty WorkflowStatus := t_enum WorkflowStatus.value
  [WorkflowStatus.PENDING; WorkflowStatus.RUNNING; WorkflowStatus.PAUSED;
   WorkflowStatus.WAITING_APPROVAL; WorkflowStatus.RETRYING; WorkflowStatus.FAILED;
   WorkflowStatus.DEAD_LETTERED; WorkflowStatus.COMPLETED; WorkflowStatus.ROLLED_BACK].
Definition t_step_status : Ty StepStatus := t_enum StepStatus.value
  [StepStatus.PENDING; StepStatus.READY; StepStatus.RUNNING; StepStatus.WAITING_APPROVAL;
   StepStatus.COMPLETED; StepStatus.FAILED; StepStatus.SKIPPED; StepStatus.COMPENSATED].

(** [T | None] *)
Definition t_opt {A} (T : Ty A) : Ty (option A) := {|
  ty_dump o := match o with Some a => ty_dump T a | None => JNull end;
  ty_validate j := match j with JNull => Some None | _ => Some <$> ty_validate T j end;
  ty_ok o := match o with Some a => ty_ok T a | None => true end |}.

(** [list[T]] *)
Definition t_list {A} (T : Ty A) : Ty (list A) := {|
  ty_dump l := JArr (ty_dump T <$> l);
  ty_validate j := match j with JArr l => mapM (ty_validate T) l | _ => None end;
  ty_ok l := forallb (ty_ok T) l |}.

(** ** Models *)

Definition ValidationError (msg : string) : exn := Exn (PyExc "ValidationError") msg.

(** A field without and with a default. *)
Definition req {A} (T : Ty A) (name : string) (o : dict) : res A :=
  match o !! name with
  | Some j => match ty_validate T j with Some a => Ok a | None => Err (ValidationError name) end
  | None => Err (ValidationError name)
  end.
Definition opt {A} (T : Ty A) (default : A) (name : string) (o : dict) : res A :=
  match o !! name with Some _ => req T name o | None => Ok default end.

(** A class: its [event_type], the names of its own fields, and reading them. *)
Record Model := {
  m_type : string;
  m_fields : list string;
  m_build : dict -> res event_body;
}.

Definition opt_str := opt (t_opt t_str) None.
Definition opt_dict := opt t_dict ∅.
Definition count := opt t_int 0%Z.
Definition attempt := req (t_ge 1) "attempt".

Definition InstanceCreated_model : Model := {|
  m_type := "InstanceCreated";
  m_fields := ["workflow_id"; "workflow_version"; "context"; "budget_limit_usd"; "trigger_source";
               "trigger_metadata"];
  m_build o :=
    workflow_id ← req t_str "workflow_id" o; version ← req t_str "workflow_version" o;
    context ← opt_dict "context" o; budget ← opt (t_opt t_float) None "budget_limit_usd" o;
    source ← opt t_str "api" "trigger_source" o; meta ← opt_dict "trigger_metadata" o;
    Ok (InstanceCreated workflow_id version context budget source meta) |}.

Definition InstanceStatusChanged_model : Model := {|
  m_type := "InstanceStatusChanged"; m_fields := ["from_status"; "to_status"; "reason"];
  m_build o :=
    from ← req t_workflow_status "from_status" o; to ← req t_workflow_status "to_status" o;
    reason ← opt_str "reason" o; Ok (InstanceStatusChanged from to reason) |}.

Definition InstanceCompleted_model : Model := {|
  m_type := "InstanceCompleted"; m_fields := ["outputs"];
  m_build o := outputs ← opt_dict "outputs" o; Ok (InstanceCompleted outputs) |}.

Definition InstanceFailed_model : Model := {|
  m_type := "InstanceFailed"; m_fields := ["error_type"; "error_message"];
  m_build o := ty ← req t_str "error_type" o; msg ← req t_str "error_message" o;
    Ok (InstanceFailed ty msg) |}.

Definition WorkflowRequeued_model : Model := {|
  m_type := "WorkflowRequeued"; m_fields := ["step_id"; "requeued_by"; "dlq_id"];
  m_build o := step ← opt_str "step_id" o; by_ ← opt t_str "operator" "requeued_by" o;
    dlq ← opt (t_opt t_int) None "dlq_id" o; Ok (WorkflowRequeued step by_ dlq) |}.

Definition WorkflowBudgetAdjusted_model : Model := {|
  m_type := "WorkflowBudgetAdjusted"; m_fields := ["new_limit_usd"; "adjusted_by"; "reason"];
  m_build o := limit ← req (t_opt t_float) "new_limit_usd" o;
    by_ ← opt t_str "operator" "adjusted_by" o; reason ← opt_str "reason" o;
    Ok (WorkflowBudgetAdjusted limit by_ reason) |}.

Definition StepStatusChanged_model : Model := {|
  m_type := "StepStatusChanged"; m_fields := ["step_id"; "from_status"; "to_status"; "reason"];
  m_build o := step ← req t_str "step_id" o; from ← req t_step_status "from_status" o;
    to ← req t_step_status "to_status" o; reason ← opt_str "reason" o;
    Ok (StepStatusChanged step from to reason) |}.

Definition StepStarted_model : Model := {|
  m_type := "StepStarted"; m_fields := ["step_id"; "attempt"; "worker_id"; "model_selected"];
  m_build o := step ← req t_str "step_id" o; n ← attempt o; worker ← req t_str "worker_id" o;
    model ← opt_str "model_selected" o; Ok (StepStarted step n worker model) |}.

Definition StepCompleted_model : Model := {|
  m_type := "StepCompleted";
  m_fields := ["step_id"; "attempt"; "output"; "model_used"; "cost_usd"; "tokens_input";
               "tokens_output"; "duration_ms"];
  m_build o := step ← req t_str "step_id" o; n ← attempt o; output ← opt_dict "output" o;
    model ← opt_str "model_used" o; cost ← opt t_float fzero "cost_usd" o;
    tin ← count "tokens_input" o; tout ← count "tokens_output" o; ms ← count "duration_ms" o;
    Ok (StepCompleted step n output model cost tin tout ms) |}.

Definition StepFailed_model : Model := {|
  m_type := "StepFailed";
  m_fields := ["step_id"; "attempt"; "error_type"; "error_message"; "retryable"];
  m_build o := step ← req t_str "step_id" o; n ← attempt o; ty ← req t_str "error_type" o;
    msg ← req t_str "error_message" o; retryable ← opt t_bool false "retryable" o;
    Ok (StepFailed step n ty msg retryable) |}.

Definition StepRetryScheduled_model : Model := {|
  m_type := "StepRetryScheduled"; m_fields := ["step_id"; "next_attempt"; "run_at"];
  m_build o := step ← req t_str "step_id" o; n ← req (t_ge 2) "next_attempt" o;
    at_ ← req t_time "run_at" o; Ok (StepRetryScheduled step n at_) |}.

Definition StepSkipped_model : Model := {|
  m_type := "StepSkipped"; m_fields := ["step_id"; "reason"];
  m_build o := step ← req t_str "step_id" o; reason ← req t_str "reason" o;
    Ok (StepSkipped step reason) |}.

Definition StepCompensated_model : Model := {|
  m_type := "StepCompensated"; m_fields := ["step_id"; "compensation_action"];
  m_build o := step ← req t_str "step_id" o; action ← req t_str "compensation_action" o;
    Ok (StepCompensated step action) |}.

Definition LLMCallRecorded_model : Model := {|
  m_type := "LLMCallRecorded";
  m_fields := ["step_id"; "attempt"; "request_digest"; "model"; "response"; "tokens_input";
               "tokens_output"; "cost_usd"];
  m_build o := step ← req t_str "step_id" o; n ← attempt o; digest ← req t_str "request_digest" o;
    model ← req t_str "model" o; response ← req t_dict "response" o;
    tin ← count "tokens_input" o; tout ← count "tokens_output" o;
    cost ← opt t_float fzero "cost_usd" o;
    Ok (LLMCallRecorded step n digest model response tin tout cost) |}.

Definition ToolCallRecorded_model : Model := {|
  m_type := "ToolCallRecorded";
  m_fields := ["step_id"; "attempt"; "tool_name"; "args_digest"; "result"];
  m_build o := step ← req t_str "step_id" o; n ← attempt o; tool ← req t_str "tool_name" o;
    digest ← req t_str "args_digest" o; result ← req t_any "result" o;
    Ok (ToolCallRecorded step n tool digest result) |}.

Definition SideEffectIntentRecorded_model : Model := {|
  m_type := "SideEffectIntentRecorded";
  m_fields := ["step_id"; "effect_name"; "idempotency_key"; "params"; "guarantee"];
  m_build o := step ← req t_str "step_id" o; name ← req t_str "effect_name" o;
    key ← req t_str "idempotency_key" o; params ← opt_dict "params" o;
    guarantee ← opt (t_literal ["exactly_once"; "at_least_once_dedup"]) "at_least_once_dedup"
                  "guarantee" o;
    Ok (SideEffectIntentRecorded step name key params guarantee) |}.

Definition SideEffectExecuted_model : Model := {|
  m_type := "SideEffectExecuted";
  m_fields := ["step_id"; "idempotency_key"; "result"; "deduplicated"];
  m_build o := step ← req t_str "step_id" o; key ← req t_str "idempotency_key" o;
    result ← opt_dict "result" o; dedup ← opt t_bool false "deduplicated" o;
    Ok (SideEffectExecuted step key result dedup) |}.

Definition SideEffectCompensated_model : Model := {|
  m_type := "SideEffectCompensated"; m_fields := ["step_id"; "idempotency_key"; "result"];
  m_build o := step ← req t_str "step_id" o; key ← req t_str "idempotency_key" o;
    result ← opt_dict "result" o; Ok (SideEffectCompensated step key result) |}.

Definition EscalationRaised_model : Model := {|
  m_type := "EscalationRaised";
  m_fields := ["escalation_id"; "step_id"; "reason"; "recommendation"; "confidence"; "options";
               "deadline"; "auto_action"];
  m_build o := eid ← req t_str "escalation_id" o; step ← req t_str "step_id" o;
    reason ← req t_str "reason" o; recommendation ← opt t_str "" "recommendation" o;
    confidence ← opt t_float fzero "confidence" o; options ← opt (t_list t_dict) [] "options" o;
    deadline ← opt (t_opt t_time) None "deadline" o; action ← opt t_str "abort" "auto_action" o;
    Ok (EscalationRaised eid step reason recommendation confidence options deadline action) |}.

Definition EscalationResolved_model : Model := {|
  m_type := "EscalationResolved";
  m_fields := ["escalation_id"; "step_id"; "resolution"; "resolved_by"; "modified_context"];
  m_build o := eid ← req t_str "escalation_id" o; step ← req t_str "step_id" o;
    resolution ← req t_str "resolution" o; by_ ← req t_str "resolved_by" o;
    context ← opt (t_opt t_dict) None "modified_context" o;
    Ok (EscalationResolved eid step resolution by_ context) |}.

Definition EscalationTimedOut_model : Model := {|
  m_type := "EscalationTimedOut"; m_fields := ["escalation_id"; "step_id"; "auto_action"];
  m_build o := eid ← req t_str "escalation_id" o; step ← req t_str "step_id" o;
    action ← req t_str "auto_action" o; Ok (EscalationTimedOut eid step action) |}.

Definition CostCharged_model : Model := {|
  m_type := "CostCharged";
  m_fields := ["step_id"; "amount_usd"; "model"; "tokens_input"; "tokens_output"];
  m_build o := step ← opt_str "step_id" o; amount ← req t_float "amount_usd" o;
    model ← opt_str "model" o; tin ← count "tokens_input" o; tout ← count "tokens_output" o;
    Ok (CostCharged step amount model tin tout) |}.

Definition BudgetExceeded_model : Model := {|
  m_type := "BudgetExceeded";
  m_fields := ["step_id"; "projected_cost_usd"; "remaining_budget_usd"; "scope"];
  m_build o := step ← req t_str "step_id" o; projected ← req t_float "projected_cost_usd" o;
    remaining ← req t_float "remaining_budget_usd" o;
    scope ← opt (t_literal ["workflow"; "tenant_daily"]) "workflow" "scope" o;
    Ok (BudgetExceeded step projected remaining scope) |}.

Definition EVENT_TYPES : list Model := [
  InstanceCreated_model; InstanceStatusChanged_model; InstanceCompleted_model;
  InstanceFailed_model; WorkflowRequeued_model; WorkflowBudgetAdjusted_model;
  StepStatusChanged_model; StepStarted_model; StepCompleted_model; StepFailed_model;
  StepRetryScheduled_model; StepSkipped_model; StepCompensated_model; LLMCallRecorded_model;
  ToolCallRecorded_model; SideEffectIntentRecorded_model; SideEffectExecuted_model;
  SideEffectCompensated_model; EscalationRaised_model; EscalationResolved_model;
  EscalationTimedOut_model; CostCharged_model; BudgetExceeded_model].

(** ** Dumping and parsing *)

(** [model_dump(mode="json")] of the fields of a class. *)
Definition body_fields (b : event_body) : list (string * json) :=
  let str := ty_dump t_str in
  let int := ty_dump t_int in
  let float := ty_dump t_float in
  let obj := ty_dump t_dict in
  let ostr := ty_dump (t_opt t_str) in
  match b with
  | InstanceCreated w v c budget src meta =>
      [("workflow_id", str w); ("workflow_version", str v); ("context", obj c);
       ("budget_limit_usd", ty_dump (t_opt t_float) budget); ("trigger_source", str src);
       ("trigger_metadata", obj meta)]
  | InstanceStatusChanged from to reason =>
      [("from_status", ty_dump t_workflow_status from); ("to_status", ty_dump t_workflow_status to);
       ("reason", ostr reason)]
  | InstanceCompleted outputs => [("outputs", obj outputs)]
  | InstanceFailed ty msg => [("error_type", str ty); ("error_message", str msg)]
  | WorkflowRequeued step by_ dlq =>
      [("step_id", ostr step); ("requeued_by", str by_); ("dlq_id", ty_dump (t_opt t_int) dlq)]
  | WorkflowBudgetAdjusted limit by_ reason =>
      [("new_limit_usd", ty_dump (t_opt t_float) limit); ("adjusted_by", str by_);
       ("reason", ostr reason)]
  | StepStatusChanged step from to reason =>
      [("step_id", str step); ("from_status", ty_dump t_step_status from);
       ("to_status", ty_dump t_step_status to); ("reason", ostr reason)]
  | StepStarted step n worker model =>
      [("step_id", str step); ("attempt", int n); ("worker_id", str worker);
       ("model_selected", ostr model)]
  | StepCompleted step n output model cost tin tout ms =>
      [("step_id", str step); ("attempt", int n); ("output", obj output); ("model_used", ostr model);
       ("cost_usd", float cost); ("tokens_input", int tin); ("tokens_output", int tout);
       ("duration_ms", int ms)]
  | StepFailed step n ty msg retryable =>
      [("step_id", str step); ("attempt", int n); ("error_type", str ty); ("error_message", str msg);
       ("retryable", ty_dump t_bool retryable)]
  | StepRetryScheduled step n at_ =>
      [("step_id", str step); ("next_attempt", int n); ("run_at", ty_dump t_time at_)]
  | StepSkipped step reason => [("step_id", str step); ("reason", str reason)]
  | StepCompensated step action => [("step_id", str step); ("compensation_action", str action)]
  | LLMCallRecorded step n digest model response tin tout cost =>
      [("step_id", str step); ("attempt", int n); ("request_digest", str digest);
       ("model", str model); ("response", obj response); ("tokens_input", int tin);
       ("tokens_output", int tout); ("cost_usd", float cost)]
  | ToolCallRecorded step n tool digest result =>
      [("step_id", str step); ("attempt", int n); ("tool_name", str tool);
       ("args_digest", str digest); ("result", ty_dump t_any result)]
  | SideEffectIntentRecorded step name key params guarantee =>
      [("step_id", str step); ("effect_name", str name); ("idempotency_key", str key);
       ("params", obj params); ("guarantee", str guarantee)]
  | SideEffectExecuted step key result dedup =>
      [("step_id", str step); ("idempotency_key", str key); ("result", obj result);
       ("deduplicated", ty_dump t_bool dedup)]
  | SideEffectCompensated step key result =>
      [("step_id", str step); ("idempotency_key", str key); ("result", obj result)]
  | EscalationRaised eid step reason recommendation confidence options deadline action =>
      [("escalation_id", str eid); ("step_id", str step); ("reason", str reason);
       ("recommendation", str recommendation); ("confidence", float confidence);
       ("options", ty_dump (t_list t_dict) options); ("deadline", ty_dump (t_opt t_time) deadline);
       ("auto_action", str action)]
  | EscalationResolved eid step resolution by_ context =>
      [("escalation_id", str eid); ("step_id", str step); ("resolution", str resolution);
       ("resolved_by", str by_); ("modified_context", ty_dump (t_opt t_dict) context)]
  | EscalationTimedOut eid step action =>
      [("escalation_id", str eid); ("step_id", str step); ("auto_action", str action)]
  | CostCharged step amount model tin tout =>
      [("step_id", ostr step); ("amount_usd", float amount); ("model", ostr model);
       ("tokens_input", int tin); ("tokens_output", int tout)]
  | BudgetExceeded step projected remaining scope =>
      [("step_id", str step); ("projected_cost_usd", float projected);
       ("remaining_budget_usd", float remaining); ("scope", str scope)]
  end.

Definition ENVELOPE : list string :=
  ["event_id"; "instance_id"; "tenant_id"; "sequence"; "occurred_at"; "event_type"].

Definition event_fields (e : event) : list (string * json) :=
  [("event_id", JStr (ev_event_id e)); ("instance_id", JStr (ev_instance_id e));
   ("tenant_id", JStr (ev_tenant_id e)); ("sequence", JInt (ev_sequence e));
   ("occurred_at", time_json (ev_occurred_at e)); ("event_type", JStr (event_type (ev_body e)))]
  ++ body_fields (ev_body e).

Definition dump_event (e : event) : dict := list_to_map (event_fields e).

(** [extra="forbid"] *)
Definition no_extra (m : Model) (o : dict) : bool :=
  bool_decide (dom o ⊆ list_to_set (ENVELOPE ++ m_fields m)).

Definition parse_event (o : dict) : res event :=
  match o !! "event_type" with
  | Some (JStr ty) =>
      match List.find (fun m => bool_decide (m_type m = ty)) EVENT_TYPES with
      | None => Err (ValidationError "event_type")
      | Some m =>
          if no_extra m o then
            event_id ← req t_str "event_id" o; instance_id ← req t_str "instance_id" o;
            tenant_id ← req t_str "tenant_id" o; sequence ← req (t_ge 1) "sequence" o;
            occurred_at ← req t_time "occurred_at" o;
            body ← m_build m o;
            Ok {| ev_event_id := event_id; ev_instance_id := instance_id;
                  ev_tenant_id := tenant_id; ev_sequence := sequence;
                  ev_occurred_at := occurred_at; ev_body := body |}
          else Err (ValidationError "extra")
      end
  | _ => Err (ValidationError "event_type")
  end.

End types.

(** ** Types are lawful *)

(** A type reads back what it wrote, and reads nothing that is not of the type. *)
Record lawful {A} {L : Lax} (T : Ty A) : Prop := {
  reads_back a : ty_ok T a = true -> ty_validate T (ty_dump T a) = Some a;
  reads_only j a : ty_validate T j = Some a -> ty_ok T a = true;
}.

Section laws.
Context {L : Lax} {Ll : LaxLaws}.

Lemma keep_if_Some {A} (ok : A -> bool) o a : keep_if ok o = Some a <-> o = Some a /\ ok a = true.
Proof.
  unfold keep_if. destruct o as [b|]; cbn; [|by split; [|intros [? ?]]].
  destruct (ok b) eqn:E; split; [by intros [= <-]|by intros [[= <-] _]|done|intros [[= <-] ?]; congruence].
Qed.

Lemma lawful_any : lawful t_any. Proof. done. Qed.
Lemma lawful_str : lawful t_str. Proof. done. Qed.
Lemma lawful_dict : lawful t_dict. Proof. done. Qed.
Lemma lawful_int : lawful t_int. Proof. split; [intros; apply lax_int_own|done]. Qed.
Lemma lawful_float : lawful t_float. Proof. split; [intros; apply lax_float_own|done]. Qed.
Lemma lawful_bool : lawful t_bool. Proof. split; [intros; apply lax_bool_own|done]. Qed.
Lemma lawful_time : lawful t_time. Proof. split; [intros; apply lax_time_own|done]. Qed.
Lemma lawful_ge low : lawful (t_ge low).
Proof.
  split; cbn; [|by intros j a [_ H]%keep_if_Some].
  intros a Ha. apply keep_if_Some. by rewrite lax_int_own.
Qed.
Lemma lawful_literal values : lawful (t_literal values).
Proof.
  split; cbn; [|by intros j a [_ H]%keep_if_Some]. intros a Ha. by rewrite Ha.
Qed.
Lemma lawful_enum {A} (value : A -> string) members :
  (forall a, List.find (fun b => bool_decide (value b = value a)) members = Some a) ->
  lawful (t_enum value members).
Proof. intros H. split; [|done]. intros a _. exact (H a). Qed.
Lemma lawful_workflow_status : lawful t_workflow_status.
Proof. apply lawful_enum. by intros []. Qed.
Lemma lawful_step_status : lawful t_step_status.
Proof. apply lawful_enum. by intros []. Qed.

(** [None] is dumped as [null], which no other value is. *)
Lemma lawful_opt {A} (T : Ty A) : (forall a, ty_dump T a <> JNull) -> lawful T -> lawful (t_opt T).
Proof.
  intros Hn HT. split; cbn.
  - intros [a|] Ha; [|done]. specialize (Hn a). pose proof (reads_back T HT a Ha) as Hr. cbn.
    destruct (ty_dump T a); [done|by rewrite Hr..].
  - intros j o Ho. assert (o = None \/ exists a, o = Some a /\ ty_validate T j = Some a) as [->|(a & -> & H)].
    { destruct j; try (apply fmap_Some in Ho as (a & Ha & ->); by eauto). left. congruence. }
    + done.
    + by apply (reads_only T HT j).
Qed.

Lemma lawful_list {A} (T : Ty A) : lawful T -> lawful (t_list T).
Proof.
  intros HT. split; cbn.
  - intros l. induction l as [|a l IH]; [done|]. cbn. intros [Ha Hl]%andb_prop.
    rewrite (reads_back T HT a Ha). cbn. by rewrite (IH Hl).
  - intros j l Hl. destruct j as [| | | | |js|]; try done. apply mapM_Some in Hl.
    induction Hl as [|j a js l Hj _ IH]; [done|]. cbn. by rewrite (reads_only T HT j a Hj), IH.
Qed.

Lemma lawful_opt_str : lawful (t_opt t_str).
Proof. by apply lawful_opt; [|apply lawful_str]. Qed.
Lemma lawful_opt_dict : lawful (t_opt t_dict).
Proof. by apply lawful_opt; [|apply lawful_dict]. Qed.
Lemma lawful_opt_int : lawful (t_opt t_int).
Proof. by apply lawful_opt; [|apply lawful_int]. Qed.
Lemma lawful_opt_float : lawful (t_opt t_float).
Proof. by apply lawful_opt; [|apply lawful_float]. Qed.
Lemma lawful_opt_time : lawful (t_opt t_time).
Proof. apply lawful_opt; [apply time_not_null|apply lawful_time]. Qed.
(** ** Reading a dump *)

Definition find_key (k : string) (fs : list (string * json)) : option json :=
  snd <$> List.find (fun p => String.eqb p.1 k) fs.

Lemma find_key_lookup k fs v : find_key k fs = Some v -> (list_to_map fs : dict) !! k = Some v.
Proof.
  unfold find_key. induction fs as [|[k' v'] fs IH]; [done|]. cbn.
  destruct (String.eqb_spec k' k) as [->|Hne]; cbn.
  - intros [= <-]. apply lookup_insert_eq.
  - intros Hf. rewrite lookup_insert_ne by done. auto.
Qed.

Lemma req_dumped {A} (T : Ty A) name fs a :
  lawful T -> find_key name fs = Some (ty_dump T a) -> ty_ok T a = true ->
  req T name (list_to_map fs) = Ok a.
Proof.
  intros HT Hf Ha. unfold req. rewrite (find_key_lookup _ _ _ Hf). by rewrite (reads_back T HT a Ha).
Qed.

Lemma opt_dumped {A} (T : Ty A) d name fs a :
  lawful T -> find_key name fs = Some (ty_dump T a) -> ty_ok T a = true ->
  opt T d name (list_to_map fs) = Ok a.
Proof.
  intros HT Hf Ha. unfold opt. rewrite (find_key_lookup _ _ _ Hf). by apply req_dumped.
Qed.

Lemma list_ok {A} (T : Ty A) l : (forall a, ty_ok T a = true) -> ty_ok (t_list T) l = true.
Proof. intros HT. by apply forallb_forall. Qed.

Lemma req_sound {A} (T : Ty A) name o a : lawful T -> req T name o = Ok a -> ty_ok T a = true.
Proof.
  intros HT. unfold req. destruct (o !! name) as [j|]; [|done].
  destruct (ty_validate T j) eqn:E; [|done]. intros [= <-]. by eapply reads_only.
Qed.

Lemma opt_sound {A} (T : Ty A) d name o a :
  lawful T -> ty_ok T d = true -> opt T d name o = Ok a -> ty_ok T a = true.
Proof.
  intros HT Hd. unfold opt. destruct (o !! name); [by apply req_sound|by intros [= <-]].
Qed.

End laws.

Create HintDb lawful.
#[export] Hint Resolve lawful_any lawful_str lawful_dict lawful_int lawful_float lawful_bool
  lawful_time lawful_ge lawful_literal lawful_workflow_status lawful_step_status lawful_list
  lawful_opt_str lawful_opt_dict lawful_opt_int lawful_opt_float lawful_opt_time : lawful.

(** One field of a dump after another. *)
Ltac field_ok :=
  match goal with
  | |- ty_ok (t_opt _) ?o = true => first [by destruct o | assumption]
  | |- ty_ok (t_list _) _ = true => first [by apply list_ok | assumption]
  | _ => repeat first [reflexivity | assumption | apply andb_true_intro; split]
  end.
Ltac read_fields :=
  repeat match goal with
  | |- mbind _ (req ?T ?name _) = _ =>
      erewrite (req_dumped T name); [|by eauto with lawful|reflexivity|field_ok];
      cbn [mbind result_bind]
  | |- mbind _ (opt ?T ?d ?name _) = _ =>
      erewrite (opt_dumped T d name); [|by eauto with lawful|reflexivity|field_ok];
      cbn [mbind result_bind]
  end.

(** The fields a successful build has read. *)
Ltac fields_of H :=
  repeat (let a := fresh "a" in let Hf := fresh "Hf" in apply bind_Ok in H as (a & Hf & H));
  injection H as <-.

(** ** The event classes *)

Section events.
Context {L : Lax} {Ll : LaxLaws}.

Definition model_for (b : event_body) : Model :=
  match b with
  | InstanceCreated _ _ _ _ _ _ => InstanceCreated_model
  | InstanceStatusChanged _ _ _ => InstanceStatusChanged_model
  | InstanceCompleted _ => InstanceCompleted_model
  | InstanceFailed _ _ => InstanceFailed_model
  | WorkflowRequeued _ _ _ => WorkflowRequeued_model
  | WorkflowBudgetAdjusted _ _ _ => WorkflowBudgetAdjusted_model
  | StepStatusChanged _ _ _ _ => StepStatusChanged_model
  | StepStarted _ _ _ _ => StepStarted_model
  | StepCompleted _ _ _ _ _ _ _ _ => StepCompleted_model
  | StepFailed _ _ _ _ _ => StepFailed_model
  | StepRetryScheduled _ _ _ => StepRetryScheduled_model
  | StepSkipped _ _ => StepSkipped_model
  | StepCompensated _ _ => StepCompensated_model
  | LLMCallRecorded _ _ _ _ _ _ _ _ => LLMCallRecorded_model
  | ToolCallRecorded _ _ _ _ _ => ToolCallRecorded_model
  | SideEffectIntentRecorded _ _ _ _ _ => SideEffectIntentRecorded_model
  | SideEffectExecuted _ _ _ _ => SideEffectExecuted_model
  | SideEffectCompensated _ _ _ => SideEffectCompensated_model
  | EscalationRaised _ _ _ _ _ _ _ _ => EscalationRaised_model
  | EscalationResolved _ _ _ _ _ => EscalationResolved_model
  | EscalationTimedOut _ _ _ => EscalationTimedOut_model
  | CostCharged _ _ _ _ _ => CostCharged_model
  | BudgetExceeded _ _ _ _ => BudgetExceeded_model
  end.

Lemma find_model b :
  List.find (fun m => bool_decide (m_type m = event_type b)) EVENT_TYPES = Some (model_for b).
Proof. by destruct b. Qed.

Lemma dumped_names b : (body_fields b).*1 = m_fields (model_for b).
Proof. by destruct b. Qed.

Lemma build_dumped e : body_valid (ev_body e) = true ->
  m_build (model_for (ev_body e)) (list_to_map (event_fields e)) = Ok (ev_body e).
Proof.
  destruct e as [eid iid tid n at_ b]. cbn [ev_body].
  destruct b; intros Hv; cbn [model_for];
    unfold InstanceCreated_model, InstanceStatusChanged_model, InstanceCompleted_model,
    InstanceFailed_model, WorkflowRequeued_model, WorkflowBudgetAdjusted_model,
    StepStatusChanged_model, StepStarted_model, StepCompleted_model, StepFailed_model,
    StepRetryScheduled_model, StepSkipped_model, StepCompensated_model,
    LLMCallRecorded_model, ToolCallRecorded_model, SideEffectIntentRecorded_model,
    SideEffectExecuted_model, SideEffectCompensated_model, EscalationRaised_model,
    EscalationResolved_model, EscalationTimedOut_model, CostCharged_model,
    BudgetExceeded_model,
    opt_str, opt_dict, count, attempt; cbn [m_build]; read_fields.
  all: try reflexivity.
Qed.

Lemma no_extra_dumped e : no_extra (model_for (ev_body e)) (dump_event e) = true.
Proof.
  apply bool_decide_eq_true. unfold dump_event. rewrite dom_list_to_map_L.
  unfold event_fields. rewrite fmap_app, dumped_names. done.
Qed.

Lemma event_reads_back e : event_valid e = true -> parse_event (dump_event e) = Ok e.
Proof.
  intros [Hs Hb]%andb_prop. unfold parse_event. unfold dump_event at 1.
  rewrite (find_key_lookup "event_type" _ (JStr (event_type (ev_body e)))) by reflexivity.
  rewrite find_model, no_extra_dumped. unfold dump_event. read_fields.
  rewrite build_dumped by done. by destruct e.
Qed.

(** C15: Every event survives the log.  An event its class lets through (a sequence
    from 1, attempts from 1, a retry from 2, a known guarantee and scope), of any of
    the twenty-three classes, is parsed back from its dump as it was, whatever its
    fields hold; so two such events with the same dump are the same event. *)
Theorem event_round_trip e : event_valid e = true -> parse_event (dump_event e) = Ok e.
Proof. apply event_reads_back. Qed.

(** ** Reading anything *)

Lemma build_sound m o b : m ∈ EVENT_TYPES -> m_build m o = Ok b ->
  body_valid b = true /\ event_type b = m_type m.
Proof.
  enough (Forall (fun m => forall o b, m_build m o = Ok b ->
    body_valid b = true /\ event_type b = m_type m) EVENT_TYPES) as HF
    by (rewrite Forall_forall in HF; eauto).
  unfold EVENT_TYPES, InstanceCreated_model, InstanceStatusChanged_model, InstanceCompleted_model,
    InstanceFailed_model, WorkflowRequeued_model, WorkflowBudgetAdjusted_model,
    StepStatusChanged_model, StepStarted_model, StepCompleted_model, StepFailed_model,
    StepRetryScheduled_model, StepSkipped_model, StepCompensated_model,
    LLMCallRecorded_model, ToolCallRecorded_model, SideEffectIntentRecorded_model,
    SideEffectExecuted_model, SideEffectCompensated_model, EscalationRaised_model,
    EscalationResolved_model, EscalationTimedOut_model, CostCharged_model,
    BudgetExceeded_model.
  repeat apply Forall_cons_2; [..|by apply Forall_nil_2];
    cbn [m_build m_type]; clear o b; intros o b H; fields_of H; split; try reflexivity.
  all: try (eapply (req_sound (t_ge 1)); [apply lawful_ge|eassumption]).
  - eapply (req_sound (t_ge 2)); [apply lawful_ge|eassumption].
  - eapply (opt_sound (t_literal _)); [apply lawful_literal| |eassumption]. reflexivity.
  - eapply (opt_sound (t_literal _)); [apply lawful_literal| |eassumption]. reflexivity.
Qed.

(** C16: Nothing ill-typed is read from the log.  Whatever JSON object is stored, if
    [parse_event] accepts it then the event satisfies every constraint of its class,
    it is of the class the object names, and the object has no key beside the
    envelope's and that class's fields. *)
Theorem parse_event_sound o e : parse_event o = Ok e ->
  event_valid e = true /\ o !! "event_type" = Some (JStr (event_type (ev_body e))) /\
  dom o ⊆ list_to_set (ENVELOPE ++ m_fields (model_for (ev_body e))).
Proof.
  unfold parse_event. destruct (o !! "event_type") as [[| | | |ty| |]|] eqn:Hty; try done.
  destruct (List.find _ EVENT_TYPES) as [m|] eqn:Hm; [|done].
  pose proof (find_some _ _ Hm) as [Hin%list_elem_of_In Ht%bool_decide_eq_true].
  destruct (no_extra m o) eqn:Hx; [|done]. intros H.
  apply bind_Ok in H as (a1 & _ & H). apply bind_Ok in H as (a2 & _ & H).
  apply bind_Ok in H as (a3 & _ & H). apply bind_Ok in H as (n & Hn & H).
  apply bind_Ok in H as (a4 & _ & H). apply bind_Ok in H as (b & Hb & [= <-]). cbn.
  destruct (build_sound m o b Hin Hb) as [Hv Hbt].
  apply req_sound in Hn; [|apply lawful_ge]. cbn in Hn. unfold event_valid. cbn.
  rewrite Hn, Hv. split; [done|]. rewrite Hbt, Ht. split; [done|].
  assert (m = model_for b) as -> by (pose proof (find_model b) as Hf; rewrite Hbt, Ht in Hf; congruence).
  by apply bool_decide_eq_true in Hx.
Qed.
End events.
End EventModels.

(** ** A reader of JSON, and objects as the log may hold them *)
Module CodecSample.
Import EventModels.

#[export] Instance lax : Lax := {|
  lax_int j := match j with JInt n => Some n | JBool b => Some (if b then 1 else 0)%Z | _ => None end;
  lax_float j := match j with JFloat x => Some x | JInt n => Some (float_of_Z n) | _ => None end;
  lax_bool j := match j with JBool b => Some b | _ => None end;
  lax_time j := match j with JInt t => Some t | _ => None end;
  time_json t := JInt t |}.
#[export] Instance lax_laws : LaxLaws. Proof. by split. Qed.

Definition escalated : event := {|
  ev_event_id := "e9"; ev_instance_id := "i1"; ev_tenant_id := "t1"; ev_sequence := 9;
  ev_occurred_at := 90%Z;
  ev_body := EscalationRaised "x1" "send" "low_confidence" "approve?" fone
               [{[ "label" := JStr "approve" ]}; ∅] (Some 100%Z) "abort" |}.

Definition envelope (ty : string) : list (string * json) :=
  [("event_id", JStr "e1"); ("instance_id", JStr "i1"); ("tenant_id", JStr "t1");
   ("sequence", JInt 1); ("occurred_at", JInt 5); ("event_type", JStr ty)].

Definition failed_row (n : Z) (extra : list (string * json)) : dict :=
  list_to_map (envelope "StepFailed" ++
    [("step_id", JStr "send"); ("attempt", JInt n); ("error_type", JStr "LLMError");
     ("error_message", JStr "no")] ++ extra).

Example rejected :
  match parse_event (failed_row 0 []), parse_event (failed_row 1 [("extra", JNull)]),
        parse_event (list_to_map (envelope "Unknown")), parse_event ∅ with
  | Err _, Err _, Err _, Err _ => true | _, _, _, _ => false
  end = true.
Proof. vm_compute. reflexivity. Qed.
End CodecSample.
Import EventModels CodecSample.

Lemma event_round_trip_witness : parse_event (dump_event escalated) = Ok escalated.
Proof. apply event_round_trip. vm_compute. reflexivity. Defined.

Lemma parse_event_sound_witness :
  exists e, parse_event (failed_row 2 []) = Ok e /\
    ev_body e = StepFailed "send" 2 "LLMError" "no" false /\ event_valid e = true.
Proof.
  destruct (parse_event (failed_row 2 [])) as [e|x] eqn:E; [|vm_compute in E; discriminate E].
  exists e. split; [done|]. pose proof (proj1 (parse_event_sound (failed_row 2 []) e E)) as Hv.
  split; [|exact Hv]. vm_compute in E. injection E as <-. reflexivity.
Defined.
