(* ===== verification/Fold.v ===== *)
(** [fold]: rebuild a [WorkflowInstance] from its event stream
    ([core/events/fold.py]).

    Each handler of the source mutates the instance it is given; here it returns
    the new instance or the exception it raises.  [fold] works on a private deep
    copy, so an exception leaves nothing behind. *)

From stdpp Require Import base strings list gmap pretty.
From Stdlib Require Import ZArith Lia.
From S2P Require Import Prelude Exceptions Values Enums Definitions Instance Events.

Module Fold.

(** Store back a step state that the source mutates in place. *)
Definition put_step (inst : WorkflowInstance) (sid : string) (st : StepState)
    : WorkflowInstance :=
  set_wi_step_states (<[sid := st]> (wi_step_states inst)) inst.

Definition _ensure_step (inst : WorkflowInstance) (sid : string)
    : WorkflowInstance * StepState :=
  match wi_step_states inst !! sid with
  | Some st => (inst, st)
  | None => (put_step inst sid (new_step_state sid), new_step_state sid)
  end.

Definition _set_step_status (inst : WorkflowInstance) (sid : string) (target : StepStatus)
    : res WorkflowInstance :=
  let '(inst, st) := _ensure_step inst sid in
  if step_transition_allowed (st_status st) target
  then Ok (put_step inst sid (set_st_status target st))
  else Err (Exn InvalidStateTransition
              ("step " +:+ py_repr sid +:+ ": " +:+ StepStatus.value (st_status st)
               +:+ " -> " +:+ StepStatus.value target +:+ " not allowed")).

Definition _set_workflow_status (inst : WorkflowInstance) (target : WorkflowStatus)
    (declared_from : option WorkflowStatus) : res WorkflowInstance :=
  if match declared_from with
     | Some f => negb (bool_decide (f = wi_status inst))
     | None => false
     end
  then Err (Exn EventStreamError
              ("stale transition: event says from="
               +:+ match declared_from with Some f => WorkflowStatus.value f | None => "" end
               +:+ " but instance is " +:+ WorkflowStatus.value (wi_status inst)))
  else if negb (bool_decide (wi_status inst = target)) &&
          negb (workflow_transition_allowed (wi_status inst) target)
  then Err (Exn InvalidStateTransition
              ("workflow: " +:+ WorkflowStatus.value (wi_status inst) +:+ " -> "
               +:+ WorkflowStatus.value target +:+ " not allowed"))
  else Ok (set_wi_status target inst).

(** ** Per-event handlers *)

Definition seed_steps (defn : option WorkflowDefinition) (inst : WorkflowInstance)
    : WorkflowInstance :=
  match defn with
  | None => inst
  | Some d => foldl (fun i s => fst (_ensure_step i (ws_step_id s))) inst (wd_steps d)
  end.

Definition _on_created (inst : WorkflowInstance) (context : dict)
    (budget : option float) (at_ : time) (defn : option WorkflowDefinition)
    : WorkflowInstance :=
  seed_steps defn
    (set_wi_created_at (Some at_) (set_wi_budget_limit_usd budget (set_wi_context context inst))).

Definition _on_wf_status (inst : WorkflowInstance) (from to : WorkflowStatus) (at_ : time)
    : res WorkflowInstance :=
  inst ← _set_workflow_status inst to (Some from);
  Ok (if is_terminal inst then set_wi_completed_at (Some at_) inst else inst).

Definition _on_completed (inst : WorkflowInstance) (outputs : dict) (at_ : time)
    : res WorkflowInstance :=
  inst ← _set_workflow_status inst WorkflowStatus.COMPLETED None;
  let inst := set_wi_completed_at (Some at_) inst in
  Ok (if bool_decide (outputs = ∅) then inst
      else set_wi_context (<["_outputs" := JObj outputs]> (wi_context inst)) inst).

Definition append_error (inst : WorkflowInstance) (er : ErrorRecord) : WorkflowInstance :=
  set_wi_error_history (wi_error_history inst ++ [er]) inst.

Definition _on_failed (inst : WorkflowInstance) (error_type error_message : string)
    (at_ : time) : res WorkflowInstance :=
  inst ← _set_workflow_status inst WorkflowStatus.FAILED None;
  Ok (append_error inst {| er_step_id := None; er_error_type := error_type;
        er_error_message := error_message; er_occurred_at := at_; er_attempt := None |}).

(** The failed step goes back to the queue with a fresh retry budget. *)
Definition reset_step (st : StepState) : StepState :=
  set_st_error_message None (set_st_error_type None (set_st_next_retry_at None
    (set_st_attempts 0 (set_st_status StepStatus.READY st)))).

Definition _on_requeued (inst : WorkflowInstance) (step_id : option string)
    : res WorkflowInstance :=
  inst ← _set_workflow_status inst WorkflowStatus.RUNNING None;
  Ok match step_id with
     | Some sid => let '(inst, st) := _ensure_step inst sid in put_step inst sid (reset_step st)
     | None => inst
     end.

Definition _on_step_status (inst : WorkflowInstance) (sid : string) (from to : StepStatus)
    : res WorkflowInstance :=
  let '(inst, st) := _ensure_step inst sid in
  if bool_decide (from = st_status st) then _set_step_status inst sid to
  else Err (Exn EventStreamError
              ("step " +:+ py_repr sid +:+ ": event from=" +:+ StepStatus.value from
               +:+ " but state is " +:+ StepStatus.value (st_status st))).

Definition _on_step_started (inst : WorkflowInstance) (sid : string) (attempt : Z)
    (model_selected : option string) (at_ : time) : res WorkflowInstance :=
  inst ← _set_step_status inst sid StepStatus.RUNNING;
  st ← get_step inst sid;
  let st := set_st_next_retry_at None
              (set_st_started_at (Some at_) (set_st_attempts attempt st)) in
  Ok (put_step inst sid
        (if truthy_str model_selected then set_st_model_used model_selected st else st)).

Definition _on_step_completed (inst : WorkflowInstance) (sid : string) (output : dict)
    (model_used : option string) (at_ : time) : res WorkflowInstance :=
  inst ← _set_step_status inst sid StepStatus.COMPLETED;
  st ← get_step inst sid;
  let st := set_st_completed_at (Some at_) (set_st_output (Some output) st) in
  Ok (put_step inst sid
        (if truthy_str model_used then set_st_model_used model_used st else st)).

Definition _on_step_failed (inst : WorkflowInstance) (sid : string) (attempt : Z)
    (error_type error_message : string) (at_ : time) : res WorkflowInstance :=
  inst ← _set_step_status inst sid StepStatus.FAILED;
  st ← get_step inst sid;
  let st := set_st_recorded_llm_calls []
              (set_st_error_message (Some error_message) (set_st_error_type (Some error_type) st)) in
  Ok (append_error (put_step inst sid st)
        {| er_step_id := Some sid; er_error_type := error_type;
           er_error_message := error_message; er_occurred_at := at_;
           er_attempt := Some attempt |}).

Definition _on_retry_scheduled (inst : WorkflowInstance) (sid : string) (run_at : time)
    : WorkflowInstance :=
  let '(inst, st) := _ensure_step inst sid in
  put_step inst sid (set_st_next_retry_at (Some run_at) st).

Definition _on_step_skipped (inst : WorkflowInstance) (sid : string) : res WorkflowInstance :=
  _set_step_status inst sid StepStatus.SKIPPED.

Definition _on_step_compensated (inst : WorkflowInstance) (sid : string)
    : res WorkflowInstance :=
  _set_step_status inst sid StepStatus.COMPENSATED.

Definition _on_llm_recorded (inst : WorkflowInstance) (sid : string) (rec : LLMRecording)
    : WorkflowInstance :=
  let '(inst, st) := _ensure_step inst sid in
  put_step inst sid
    (set_st_recorded_llm_calls (st_recorded_llm_calls st ++ [rec])
       (set_st_model_used (Some (rec_model rec)) st)).

Definition _on_cost (inst : WorkflowInstance) (sid : option string) (amount : float)
    (ti to : Z) : WorkflowInstance :=
  let inst := set_wi_tokens_used (add_tokens (wi_tokens_used inst) ti to)
                (set_wi_cost_accumulated_usd (fadd (wi_cost_accumulated_usd inst) amount) inst) in
  match sid with
  | Some s =>
      if truthy_str (Some s) then
        let '(inst, st) := _ensure_step inst s in
        put_step inst s (set_st_tokens (add_tokens (st_tokens st) ti to)
                           (set_st_cost_usd (fadd (st_cost_usd st) amount) st))
      else inst
  | None => inst
  end.

Definition _on_budget_exceeded (inst : WorkflowInstance) (sid : string)
    (projected remaining : float) (scope : string) (at_ : time) : WorkflowInstance :=
  append_error inst
    {| er_step_id := Some sid; er_error_type := "BudgetExceededError";
       er_error_message := "projected " +:+ fmt_4f projected +:+ " > remaining "
         +:+ fmt_4f remaining +:+ " (" +:+ scope +:+ ")";
       er_occurred_at := at_; er_attempt := None |}.

Definition _on_escalation_raised (inst : WorkflowInstance) (eid sid reason : string)
    (deadline : option time) : res WorkflowInstance :=
  inst ← (if truthy_str (Some sid)
          then _set_step_status inst sid StepStatus.WAITING_APPROVAL
          else Ok inst);
  Ok (set_wi_escalations
        (wi_escalations inst ++
           [{| esc_escalation_id := eid; esc_step_id := sid; esc_reason := reason;
               esc_deadline := deadline; esc_resolved := false |}]) inst).

Definition resolve_ref (eid : string) (r : EscalationRef) : EscalationRef :=
  if bool_decide (esc_escalation_id r = eid)
  then {| esc_escalation_id := esc_escalation_id r; esc_step_id := esc_step_id r;
          esc_reason := esc_reason r; esc_deadline := esc_deadline r; esc_resolved := true |}
  else r.

Definition _resolve_escalation (inst : WorkflowInstance) (eid : string) : WorkflowInstance :=
  set_wi_escalations (resolve_ref eid <$> wi_escalations inst) inst.

Definition _on_escalation_resolved (inst : WorkflowInstance) (eid : string)
    (modified_context : option dict) : WorkflowInstance :=
  let inst := _resolve_escalation inst eid in
  match modified_context with
  | Some ctx => set_wi_context (dict_update (wi_context inst) ctx) inst
  | None => inst
  end.

Definition _on_escalation_timed_out (inst : WorkflowInstance) (eid : string)
    : WorkflowInstance := _resolve_escalation inst eid.

Definition has_key (key : string) (r : SideEffectRef) : Prop := ser_idempotency_key r = key.

Global Instance has_key_dec key r : Decision (has_key key r).
Proof. unfold has_key. apply _. Defined.

Definition _side_effect_ref (inst : WorkflowInstance) (key : string)
    : option (nat * SideEffectRef) :=
  list_find (has_key key) (wi_side_effects inst).

Definition new_ref (key sid name status : string) : SideEffectRef :=
  {| ser_idempotency_key := key; ser_step_id := sid; ser_effect_name := name;
     ser_status := status |}.

Definition append_ref (inst : WorkflowInstance) (r : SideEffectRef) : WorkflowInstance :=
  set_wi_side_effects (wi_side_effects inst ++ [r]) inst.

(** [ref.status = status] through the reference found at index [n]. *)
Definition set_ref_status (inst : WorkflowInstance) (n : nat) (r : SideEffectRef)
    (status : string) : WorkflowInstance :=
  set_wi_side_effects
    (<[n := new_ref (ser_idempotency_key r) (ser_step_id r) (ser_effect_name r) status]>
       (wi_side_effects inst)) inst.

Definition _on_effect_intent (inst : WorkflowInstance) (sid name key : string)
    : WorkflowInstance :=
  match _side_effect_ref inst key with
  | None => append_ref inst (new_ref key sid name "pending")
  | Some _ => inst
  end.

Definition _on_effect_executed (inst : WorkflowInstance) (sid key : string)
    : WorkflowInstance :=
  match _side_effect_ref inst key with
  | None => append_ref inst (new_ref key sid "" "executed")
  | Some (n, r) => set_ref_status inst n r "executed"
  end.

Definition _on_effect_compensated (inst : WorkflowInstance) (key : string)
    : WorkflowInstance :=
  match _side_effect_ref inst key with
  | None => inst
  | Some (n, r) => set_ref_status inst n r "compensated"
  end.

Definition _on_budget_adjusted (inst : WorkflowInstance) (new_limit_usd : option float)
    : WorkflowInstance := set_wi_budget_limit_usd new_limit_usd inst.

Definition _noop (inst : WorkflowInstance) : WorkflowInstance := inst.

(** ** Dispatch and the fold *)

Definition handler (inst : WorkflowInstance) (at_ : time) (b : event_body)
    (defn : option WorkflowDefinition) : res WorkflowInstance :=
  match b with
  | InstanceCreated _ _ ctx budget _ _ => Ok (_on_created inst ctx budget at_ defn)
  | InstanceStatusChanged from to _ => _on_wf_status inst from to at_
  | InstanceCompleted outputs => _on_completed inst outputs at_
  | InstanceFailed et em => _on_failed inst et em at_
  | WorkflowRequeued sid _ _ => _on_requeued inst sid
  | WorkflowBudgetAdjusted limit _ _ => Ok (_on_budget_adjusted inst limit)
  | StepStatusChanged sid from to _ => _on_step_status inst sid from to
  | StepStarted sid att _ m => _on_step_started inst sid att m at_
  | StepCompleted sid _ out m _ _ _ _ => _on_step_completed inst sid out m at_
  | StepFailed sid att et em _ => _on_step_failed inst sid att et em at_
  | StepRetryScheduled sid _ run_at => Ok (_on_retry_scheduled inst sid run_at)
  | StepSkipped sid _ => _on_step_skipped inst sid
  | StepCompensated sid _ => _on_step_compensated inst sid
  | LLMCallRecorded sid _ dg m resp ti to c =>
      Ok (_on_llm_recorded inst sid
            {| rec_request_digest := dg; rec_model := m; rec_response := resp;
               rec_tokens_input := ti; rec_tokens_output := to; rec_cost_usd := c |})
  | ToolCallRecorded _ _ _ _ _ => Ok (_noop inst)
  | SideEffectIntentRecorded sid name key _ _ => Ok (_on_effect_intent inst sid name key)
  | SideEffectExecuted sid key _ _ => Ok (_on_effect_executed inst sid key)
  | SideEffectCompensated _ key _ => Ok (_on_effect_compensated inst key)
  | EscalationRaised eid sid reason _ _ _ dl _ => _on_escalation_raised inst eid sid reason dl
  | EscalationResolved eid _ _ _ ctx => Ok (_on_escalation_resolved inst eid ctx)
  | EscalationTimedOut eid _ _ => Ok (_on_escalation_timed_out inst eid)
  | CostCharged sid amount _ ti to => Ok (_on_cost inst sid amount ti to)
  | BudgetExceeded sid p r scope => Ok (_on_budget_exceeded inst sid p r scope at_)
  end.

(** The instance an event is applied to when there is none yet. *)
Definition genesis (ev : event) : res WorkflowInstance :=
  match ev_body ev with
  | InstanceCreated wid wver _ _ _ _ =>
      Ok (new_instance (ev_instance_id ev) (ev_tenant_id ev) wid wver)
  | b => Err (Exn EventStreamError
                ("first event must be InstanceCreated, got " +:+ event_type b))
  end.

(** Handler, then [inst.updated_at = ev.occurred_at; inst.version = ev.sequence]. *)
Definition apply_event (defn : option WorkflowDefinition) (inst : WorkflowInstance)
    (ev : event) : res WorkflowInstance :=
  inst ← handler inst (ev_occurred_at ev) (ev_body ev) defn;
  Ok (set_wi_version (ev_sequence ev) (set_wi_updated_at (Some (ev_occurred_at ev)) inst)).

(** One iteration of the loop: the instance so far and [expected_seq]. *)
Definition fold_one (defn : option WorkflowDefinition)
    (acc : option WorkflowInstance * Z) (ev : event)
    : res (option WorkflowInstance * Z) :=
  let '(inst, expected) := acc in
  if bool_decide (ev_sequence ev = expected) then
    inst ← match inst with Some i => Ok i | None => genesis ev end;
    inst ← apply_event defn inst ev;
    Ok (Some inst, (expected + 1)%Z)
  else Err (Exn EventStreamError
              ("non-contiguous sequence: expected " +:+ pretty expected +:+ ", got "
               +:+ pretty (ev_sequence ev))).

Definition fold (events : list event) (defn : option WorkflowDefinition)
    (base : option WorkflowInstance) : res WorkflowInstance :=
  let expected := (match base with Some b => wi_version b | None => 0 end + 1)%Z in
  acc ← foldM (fold_one defn) (base, expected) events;
  match fst acc with
  | Some inst => Ok inst
  | None => Err (Exn EventStreamError "cannot fold an empty stream without a base instance")
  end.

End Fold.
