(* ===== verification/Samples.v ===== *)
(** A small workflow and one of its event logs, on which the witnesses of the
    theorems evaluate the definitions. *)

From stdpp Require Import base strings list gmap.
From Stdlib Require Import ZArith.
From S2P Require Import Prelude Exceptions Values Enums Definitions Instance Events Fold.

Module Sample.

(** [fetch] then [publish]; [publish] has a side effect and needs [fetch]. *)
Definition fetch : WorkflowStep := make_step "fetch" "Fetch" "agent".
Definition publish : WorkflowStep := {|
  ws_step_id := "publish"; ws_name := "Publish"; ws_agent_type := "agent";
  ws_input_schema := ∅; ws_output_schema := ∅; ws_retry_policy := default_retry_policy;
  ws_timeout_seconds := 300; ws_cost_tier := CostTier.STANDARD;
  ws_side_effects := ["send"]; ws_compensation_action := Some "unsend";
  ws_requires_approval := false; ws_approval_timeout_seconds := None;
  ws_approval_auto_action := "abort"; ws_dependencies := ["fetch"] |}.

Definition defn : WorkflowDefinition := {|
  wd_workflow_id := "wf"; wd_name := "Workflow"; wd_description := "";
  wd_version := "1.0.0"; wd_steps := [fetch; publish];
  wd_global_timeout_seconds := 3600; wd_max_concurrent_steps := 2;
  wd_on_failure := OnFailure.PAUSE |}.

Definition draft (b : event_body) : event := {|
  ev_event_id := "e"; ev_instance_id := "i1"; ev_tenant_id := "t1";
  ev_sequence := 0; ev_occurred_at := 1000000%Z; ev_body := b |}.

Definition created : event_body := InstanceCreated "wf" "1.0.0" ∅ (Some fone) "api" ∅.

(** Created, started, [fetch] run to completion with one charge, and [publish]
    failed once after declaring its effect. *)
Definition bodies : list event_body :=
  [ created;
    InstanceStatusChanged WorkflowStatus.PENDING WorkflowStatus.RUNNING None;
    StepStatusChanged "fetch" StepStatus.PENDING StepStatus.READY None;
    StepStarted "fetch" 1 "w" None;
    CostCharged (Some "fetch") (fratio 1 4) None 10 5;
    StepCompleted "fetch" 1 {[ "answer" := JInt 42 ]} (Some "small") (fratio 1 4) 10 5 3;
    StepStatusChanged "publish" StepStatus.PENDING StepStatus.READY None;
    StepStarted "publish" 1 "w" None;
    SideEffectIntentRecorded "publish" "send" "key1" ∅ "at_least_once_dedup";
    StepFailed "publish" 1 "TimeoutError" "slow" true;
    StepRetryScheduled "publish" 2 3000000%Z;
    InstanceStatusChanged WorkflowStatus.RUNNING WorkflowStatus.RETRYING None ].

Definition log : list event := sequenced 0 (draft <$> bodies).

(** The first [n] events of the log, folded. *)
Definition at_ (n : nat) : WorkflowInstance :=
  match Fold.fold (take n log) (Some defn) None with
  | Ok i => i
  | Err _ => new_instance "" "" "" ""
  end.

End Sample.
