(* ===== verification/FoldTheory.v ===== *)
(** Properties of [fold]: a guarded-update specification of the handlers, and
    the invariants of folded instances that the rest of the engine relies on. *)

From stdpp Require Import base strings list gmap pretty relations.
From Stdlib Require Import ZArith Lia.
From S2P Require Import Prelude Exceptions Values Enums Definitions Instance Events Fold Samples.

Import Fold.

(** ** Specification of one event

    [accepts] says when an event may be applied; [effect] is the state it then
    produces, as an update of at most one step state ([step_update]) and of the
    workflow-level fields ([wf_update]). *)

(** The state of a step, or the fresh state it would be created with. *)
Definition step_or_new (i : WorkflowInstance) (sid : string) : StepState :=
  default (new_step_state sid) (wi_step_states i !! sid).

Definition step_status (i : WorkflowInstance) (sid : string) : StepStatus :=
  st_status (step_or_new i sid).

Definition upd_step (sid : string) (f : StepState -> StepState) (i : WorkflowInstance)
    : WorkflowInstance := put_step i sid (f (step_or_new i sid)).

Definition set_model (m : option string) (st : StepState) : StepState :=
  if truthy_str m then set_st_model_used m st else st.

Definition step_update (at_ : time) (b : event_body)
    : option (string * (StepState -> StepState)) :=
  match b with
  | StepStatusChanged sid _ to _ => Some (sid, set_st_status to)
  | StepStarted sid att _ m =>
      Some (sid, fun st => set_model m (set_st_next_retry_at None (set_st_started_at (Some at_)
                             (set_st_attempts att (set_st_status StepStatus.RUNNING st)))))
  | StepCompleted sid _ out m _ _ _ _ =>
      Some (sid, fun st => set_model m (set_st_completed_at (Some at_) (set_st_output (Some out)
                             (set_st_status StepStatus.COMPLETED st))))
  | StepFailed sid _ et em _ =>
      Some (sid, fun st => set_st_recorded_llm_calls [] (set_st_error_message (Some em)
                             (set_st_error_type (Some et) (set_st_status StepStatus.FAILED st))))
  | StepRetryScheduled sid _ run_at => Some (sid, set_st_next_retry_at (Some run_at))
  | StepSkipped sid _ => Some (sid, set_st_status StepStatus.SKIPPED)
  | StepCompensated sid _ => Some (sid, set_st_status StepStatus.COMPENSATED)
  | LLMCallRecorded sid _ dg m resp ti to c =>
      Some (sid, fun st =>
        set_st_recorded_llm_calls (st_recorded_llm_calls st ++
          [{| rec_request_digest := dg; rec_model := m; rec_response := resp;
              rec_tokens_input := ti; rec_tokens_output := to; rec_cost_usd := c |}])
          (set_st_model_used (Some m) st))
  | EscalationRaised _ sid _ _ _ _ _ _ =>
      if truthy_str (Some sid) then Some (sid, set_st_status StepStatus.WAITING_APPROVAL)
      else None
  | CostCharged (Some sid) amount _ ti to =>
      if truthy_str (Some sid) then
        Some (sid, fun st => set_st_tokens (add_tokens (st_tokens st) ti to)
                               (set_st_cost_usd (fadd (st_cost_usd st) amount) st))
      else None
  | WorkflowRequeued (Some sid) _ _ => Some (sid, reset_step)
  | _ => None
  end.

(** The step status an event asks for, where the step table is consulted. *)
Definition step_target (b : event_body) : option (string * StepStatus) :=
  match b with
  | StepStatusChanged sid _ to _ => Some (sid, to)
  | StepStarted sid _ _ _ => Some (sid, StepStatus.RUNNING)
  | StepCompleted sid _ _ _ _ _ _ _ => Some (sid, StepStatus.COMPLETED)
  | StepFailed sid _ _ _ _ => Some (sid, StepStatus.FAILED)
  | StepSkipped sid _ => Some (sid, StepStatus.SKIPPED)
  | StepCompensated sid _ => Some (sid, StepStatus.COMPENSATED)
  | EscalationRaised _ sid _ _ _ _ _ _ =>
      if truthy_str (Some sid) then Some (sid, StepStatus.WAITING_APPROVAL) else None
  | _ => None
  end.

(** The workflow status an event asks for. *)
Definition wf_target (b : event_body) : option WorkflowStatus :=
  match b with
  | InstanceStatusChanged _ to _ => Some to
  | InstanceCompleted _ => Some WorkflowStatus.COMPLETED
  | InstanceFailed _ _ => Some WorkflowStatus.FAILED
  | WorkflowRequeued _ _ _ => Some WorkflowStatus.RUNNING
  | _ => None
  end.

Definition wf_allowed (src dst : WorkflowStatus) : bool :=
  bool_decide (src = dst) || workflow_transition_allowed src dst.

Definition accepts (i : WorkflowInstance) (b : event_body) : bool :=
  match b with
  | InstanceStatusChanged from _ _ => bool_decide (from = wi_status i)
  | StepStatusChanged sid from _ _ => bool_decide (from = step_status i sid)
  | _ => true
  end &&
  match wf_target b with Some t => wf_allowed (wi_status i) t | None => true end &&
  match step_target b with
  | Some (sid, t) => step_transition_allowed (step_status i sid) t
  | None => true
  end.

Definition wf_update (at_ : time) (b : event_body) (defn : option WorkflowDefinition)
    (i : WorkflowInstance) : WorkflowInstance :=
  match b with
  | InstanceCreated _ _ ctx budget _ _ => _on_created i ctx budget at_ defn
  | InstanceStatusChanged _ to _ =>
      let i := set_wi_status to i in
      if is_terminal i then set_wi_completed_at (Some at_) i else i
  | InstanceCompleted outputs =>
      let i := set_wi_completed_at (Some at_) (set_wi_status WorkflowStatus.COMPLETED i) in
      if bool_decide (outputs = ∅) then i
      else set_wi_context (<["_outputs" := JObj outputs]> (wi_context i)) i
  | InstanceFailed et em =>
      append_error (set_wi_status WorkflowStatus.FAILED i)
        {| er_step_id := None; er_error_type := et; er_error_message := em;
           er_occurred_at := at_; er_attempt := None |}
  | WorkflowRequeued _ _ _ => set_wi_status WorkflowStatus.RUNNING i
  | WorkflowBudgetAdjusted limit _ _ => set_wi_budget_limit_usd limit i
  | StepFailed sid att et em _ =>
      append_error i {| er_step_id := Some sid; er_error_type := et; er_error_message := em;
                        er_occurred_at := at_; er_attempt := Some att |}
  | SideEffectIntentRecorded sid name key _ _ => _on_effect_intent i sid name key
  | SideEffectExecuted sid key _ _ => _on_effect_executed i sid key
  | SideEffectCompensated _ key _ => _on_effect_compensated i key
  | EscalationRaised eid sid reason _ _ _ dl _ =>
      set_wi_escalations (wi_escalations i ++
        [{| esc_escalation_id := eid; esc_step_id := sid; esc_reason := reason;
            esc_deadline := dl; esc_resolved := false |}]) i
  | EscalationResolved eid _ _ _ ctx => _on_escalation_resolved i eid ctx
  | EscalationTimedOut eid _ _ => _on_escalation_timed_out i eid
  | CostCharged _ amount _ ti to =>
      set_wi_tokens_used (add_tokens (wi_tokens_used i) ti to)
        (set_wi_cost_accumulated_usd (fadd (wi_cost_accumulated_usd i) amount) i)
  | BudgetExceeded sid p r scope => _on_budget_exceeded i sid p r scope at_
  | _ => i
  end.

Definition effect (i : WorkflowInstance) (at_ : time) (b : event_body)
    (defn : option WorkflowDefinition) : WorkflowInstance :=
  wf_update at_ b defn
    match step_update at_ b with Some (sid, f) => upd_step sid f i | None => i end.

(** ** The handlers implement the specification *)

Lemma put_put i sid st st' : put_step (put_step i sid st) sid st' = put_step i sid st'.
Proof.
  unfold put_step, set_wi_step_states. cbn. f_equal. apply insert_insert_eq.
Qed.

Lemma ensure_step_spec i sid :
  exists i', _ensure_step i sid = (i', step_or_new i sid) /\
    (forall st, put_step i' sid st = put_step i sid st) /\
    step_or_new i' sid = step_or_new i sid /\ wi_status i' = wi_status i.
Proof.
  unfold _ensure_step, step_or_new. destruct (wi_step_states i !! sid) as [st|] eqn:E.
  - exists i. rewrite E. done.
  - eexists. split_and!; [done|intros; apply put_put| |done].
    cbn. by rewrite lookup_insert_eq.
Qed.

Lemma set_step_status_spec i sid t :
  if step_transition_allowed (step_status i sid) t
  then _set_step_status i sid t = Ok (upd_step sid (set_st_status t) i)
  else exists e, _set_step_status i sid t = Err e.
Proof.
  unfold _set_step_status, step_status, upd_step.
  destruct (ensure_step_spec i sid) as (i' & -> & Hput & _ & _).
  destruct (step_transition_allowed _ _); [by rewrite Hput|by eexists].
Qed.

Lemma upd_upd i sid f g :
  upd_step sid g (upd_step sid f i) = upd_step sid (fun st => g (f st)) i.
Proof.
  unfold upd_step. rewrite put_put. f_equal. unfold step_or_new at 1. cbn.
  by rewrite lookup_insert_eq.
Qed.

Lemma get_upd i sid f : get_step (upd_step sid f i) sid = Ok (f (step_or_new i sid)).
Proof. apply get_step_ok. cbn. apply lookup_insert_eq. Qed.

Lemma put_upd i sid f st : put_step (upd_step sid f i) sid st = put_step i sid st.
Proof. apply put_put. Qed.

Lemma set_workflow_status_spec i t from :
  if match from with Some f => bool_decide (f = wi_status i) | None => true end
     && wf_allowed (wi_status i) t
  then _set_workflow_status i t from = Ok (set_wi_status t i)
  else exists e, _set_workflow_status i t from = Err e.
Proof.
  unfold _set_workflow_status, wf_allowed.
  destruct from as [f|]; [case_bool_decide|]; cbn; [|by eexists|];
    case_bool_decide; cbn; try done;
    destruct (workflow_transition_allowed _ _); cbn; eauto.
Qed.

(** The step-status handlers share this shape: check, then finish the update. *)
Lemma set_then_put i sid t (f : StepState -> StepState) :
  (i' ← _set_step_status i sid t; st ← get_step i' sid; Ok (put_step i' sid (f st)))
  = (i' ← _set_step_status i sid t; Ok (upd_step sid (fun st => f (set_st_status t st)) i)).
Proof.
  pose proof (set_step_status_spec i sid t) as Hs.
  destruct (step_transition_allowed _ _); [|destruct Hs as (e & ->); done].
  rewrite Hs. cbn. rewrite get_upd. cbn. by rewrite put_upd.
Qed.

(** Decide which branch of [_set_step_status] / [_set_workflow_status] is taken. *)
Ltac split_step_status i sid t :=
  let H := fresh "Hs" in
  pose proof (set_step_status_spec i sid t) as H;
  destruct (step_transition_allowed (step_status i sid) t);
  [rewrite H | destruct H as (? & H); rewrite H]; clear H.

Ltac split_wf_status i t from :=
  let H := fresh "Hs" in
  pose proof (set_workflow_status_spec i t from) as H; cbn [andb] in H;
  destruct (_ && wf_allowed (wi_status i) t) || destruct (wf_allowed (wi_status i) t);
  [rewrite H | destruct H as (? & H); rewrite H]; clear H.

(** Handlers that touch a step without consulting the table. *)
Lemma ensure_then_put i sid f :
  (let '(i', st) := _ensure_step i sid in put_step i' sid (f st)) = upd_step sid f i.
Proof.
  destruct (ensure_step_spec i sid) as (i' & -> & Hput & _ & _). apply Hput.
Qed.

Lemma handler_spec i at_ b defn :
  if accepts i b then handler i at_ b defn = Ok (effect i at_ b defn)
  else exists e, handler i at_ b defn = Err e.
Proof.
  destruct b; unfold accepts, effect;
    cbn [handler wf_target step_target step_update wf_update andb]; rewrite ?andb_true_r.
  all: try done.
  - unfold _on_wf_status. split_wf_status i to_status (Some from_status); cbn; eauto.
  - unfold _on_completed. split_wf_status i WorkflowStatus.COMPLETED (@None WorkflowStatus);
      cbn; eauto.
  - unfold _on_failed. split_wf_status i WorkflowStatus.FAILED (@None WorkflowStatus);
      cbn; eauto.
  - unfold _on_requeued. split_wf_status i WorkflowStatus.RUNNING (@None WorkflowStatus);
      cbn; [|eauto]. destruct step_id; [|done]. by rewrite ensure_then_put.
  - unfold _on_step_status.
    destruct (ensure_step_spec i step_id) as (i' & -> & Hput & Hnew & _).
    unfold step_status. case_bool_decide as Hf; cbn; [|by eexists].
    pose proof (set_step_status_spec i' step_id to_status) as Hs.
    unfold step_status, upd_step in Hs. rewrite Hnew in Hs.
    destruct (step_transition_allowed _ _); [|done]. by rewrite Hs, Hput.
  - unfold _on_step_started.
    pose proof (set_then_put i step_id StepStatus.RUNNING (fun st =>
      set_model model_selected (set_st_next_retry_at None (set_st_started_at (Some at_)
        (set_st_attempts attempt st))))) as Heq.
    unfold set_model in Heq. cbv zeta. rewrite Heq.
    split_step_status i step_id StepStatus.RUNNING; cbn; eauto.
  - unfold _on_step_completed.
    pose proof (set_then_put i step_id StepStatus.COMPLETED (fun st =>
      set_model model_used (set_st_completed_at (Some at_) (set_st_output (Some output) st))))
      as Heq.
    unfold set_model in Heq. cbv zeta. rewrite Heq.
    split_step_status i step_id StepStatus.COMPLETED; cbn; eauto.
  - unfold _on_step_failed. split_step_status i step_id StepStatus.FAILED; cbn; [|eauto].
    rewrite get_upd. cbn. by rewrite put_upd.
  - unfold _on_retry_scheduled. by rewrite ensure_then_put.
  - unfold _on_step_skipped. split_step_status i step_id StepStatus.SKIPPED; eauto.
  - unfold _on_step_compensated. split_step_status i step_id StepStatus.COMPENSATED; eauto.
  - unfold _on_llm_recorded. by rewrite ensure_then_put.
  - unfold _on_escalation_raised. destruct (truthy_str (Some step_id)); cbn [step_target]; [|done].
    split_step_status i step_id StepStatus.WAITING_APPROVAL; cbn; eauto.
  - unfold _on_cost. destruct step_id as [sid|]; [|done].
    destruct (truthy_str (Some sid)) eqn:Ht; [|done]. rewrite ensure_then_put. done.
Qed.

(** ** Folding as an abstract machine *)

(** One event of the specification machine: accepted or refused. *)
Definition spec_step (defn : option WorkflowDefinition) (i : WorkflowInstance) (ev : event)
    : option WorkflowInstance :=
  if accepts i (ev_body ev)
  then Some (set_wi_version (ev_sequence ev) (set_wi_updated_at (Some (ev_occurred_at ev))
               (effect i (ev_occurred_at ev) (ev_body ev) defn)))
  else None.

Fixpoint spec_run (defn : option WorkflowDefinition) (i : WorkflowInstance)
    (evs : list event) : option WorkflowInstance :=
  match evs with
  | [] => Some i
  | ev :: evs => i ← spec_step defn i ev; spec_run defn i evs
  end.

Lemma apply_event_spec defn i ev :
  match spec_step defn i ev with
  | Some i' => apply_event defn i ev = Ok i'
  | None => exists e, apply_event defn i ev = Err e
  end.
Proof.
  unfold spec_step, apply_event.
  pose proof (handler_spec i (ev_occurred_at ev) (ev_body ev) defn) as H.
  destruct (accepts i (ev_body ev)); [by rewrite H|]. destruct H as (e & ->). by exists e.
Qed.

Lemma apply_event_Ok defn i ev i' :
  apply_event defn i ev = Ok i' <-> spec_step defn i ev = Some i'.
Proof.
  pose proof (apply_event_spec defn i ev) as H. destruct (spec_step defn i ev) as [i1|].
  - rewrite H. naive_solver.
  - destruct H as (e & ->). naive_solver.
Qed.

(** The loop of [fold] from an existing instance. *)
Lemma fold_loop_Ok defn i n evs acc :
  foldM (fold_one defn) (Some i, n) evs = Ok acc <->
  ev_sequence <$> evs = seqZ_from (n - 1) (length evs) /\
  exists i', spec_run defn i evs = Some i' /\ acc = (Some i', n + Z.of_nat (length evs))%Z.
Proof.
  revert i n; induction evs as [|ev evs IH]; intros i n.
  { cbn. rewrite Z.add_0_r. naive_solver. }
  rewrite foldM_cons_Ok. cbn [fold_one fmap list_fmap length seqZ_from spec_run].
  replace (n - 1 + 1)%Z with n by lia. split.
  - intros (acc1 & H1 & H2). case_bool_decide as Hs; [|done].
    apply bind_Ok in H1 as (i0 & [= <-] & (i1 & Ha & [= <-])%bind_Ok).
    apply IH in H2 as (Hseq & i' & Hr & ->). replace (n + 1 - 1)%Z with n in Hseq by lia.
    split; [cbn; by rewrite Hs, Hseq|]. apply apply_event_Ok in Ha.
    exists i'. rewrite Ha. cbn. split; [done|]. f_equal. lia.
  - cbn. intros ([= Hs Hseq] & i' & Hr & ->). apply bind_Some in Hr as (i1 & Ha & Hr).
    apply apply_event_Ok in Ha. exists (Some i1, (n + 1)%Z). split.
    + rewrite bool_decide_true by done. cbn. by rewrite Ha.
    + apply IH. replace (n + 1 - 1)%Z with n by lia. split; [done|].
      exists i'. split; [done|]. f_equal. lia.
Qed.

Lemma fold_from_Ok defn base evs i' :
  fold evs defn (Some base) = Ok i' <->
  ev_sequence <$> evs = seqZ_from (wi_version base) (length evs) /\
  spec_run defn base evs = Some i'.
Proof.
  unfold fold. rewrite bind_Ok. setoid_rewrite fold_loop_Ok.
  replace (wi_version base + 1 - 1)%Z with (wi_version base) by lia. split.
  - intros (acc & (Hseq & i1 & Hr & ->) & [= ->]). done.
  - intros (Hseq & Hr). eexists. split; [split; [done|by exists i']|done].
Qed.

(** A fold from nothing is a creation followed by a fold from the result. *)
Lemma fold_genesis defn ev evs :
  fold (ev :: evs) defn None =
  if bool_decide (ev_sequence ev = 1%Z)
  then i0 ← genesis ev; i1 ← apply_event defn i0 ev; fold evs defn (Some i1)
  else Err (Exn EventStreamError
              ("non-contiguous sequence: expected " +:+ pretty 1%Z +:+ ", got "
               +:+ pretty (ev_sequence ev))).
Proof.
  unfold fold. cbn [foldM]. change (0 + 1)%Z with 1%Z. cbn [fold_one].
  case_bool_decide as Hs; [|done].
  destruct (genesis ev) as [i0|]; [|done]. cbn.
  destruct (apply_event defn i0 ev) as [i1|] eqn:Ha; [|done]. cbn.
  apply apply_event_Ok in Ha. unfold spec_step in Ha. destruct (accepts _ _); [|done].
  injection Ha as <-. cbn. by rewrite Hs.
Qed.

Lemma spec_step_version defn i ev i' :
  spec_step defn i ev = Some i' -> wi_version i' = ev_sequence ev.
Proof. unfold spec_step. destruct (accepts _ _); naive_solver. Qed.

Lemma spec_run_app defn i es1 es2 :
  spec_run defn i (es1 ++ es2) = (i' ← spec_run defn i es1; spec_run defn i' es2).
Proof.
  revert i; induction es1 as [|e es IH]; intros i; [done|]. cbn.
  destruct (spec_step defn i e); [apply IH|done].
Qed.

Lemma spec_run_version defn b evs i' :
  ev_sequence <$> evs = seqZ_from (wi_version b) (length evs) ->
  spec_run defn b evs = Some i' ->
  wi_version i' = (wi_version b + Z.of_nat (length evs))%Z.
Proof.
  revert b; induction evs as [|e es IH]; intros b Hs Hr; [cbn in *; simplify_eq; lia|].
  cbn in Hs, Hr. injection Hs as He Hs. apply bind_Some in Hr as (i1 & H1 & Hr).
  apply spec_step_version in H1. rewrite (IH i1); [cbn; lia| |done]. by rewrite H1, He.
Qed.

Definition base_version (base : option WorkflowInstance) : Z :=
  match base with Some b => wi_version b | None => 0 end.

(** A successful fold consumed contiguous sequence numbers and its version is
    the last one. *)
Lemma fold_version defn base evs i' :
  fold evs defn base = Ok i' ->
  ev_sequence <$> evs = seqZ_from (base_version base) (length evs) /\
  wi_version i' = (base_version base + Z.of_nat (length evs))%Z.
Proof.
  destruct base as [b|]; cbn [base_version].
  { intros [Hs Hr]%fold_from_Ok. split; [done|]. by eapply spec_run_version. }
  destruct evs as [|ev evs]; [done|].
  rewrite fold_genesis. case_bool_decide as Hs; [|done]. intros H.
  apply bind_Ok in H as (i0 & _ & (i1 & H1 & [Hseq Hr]%fold_from_Ok)%bind_Ok).
  apply apply_event_Ok, spec_step_version in H1.
  pose proof (spec_run_version _ _ _ _ Hseq Hr) as Hv. rewrite H1, Hs in Hseq, Hv.
  cbn. rewrite Hs, Hseq. split; [done|]. lia.
Qed.

(** The instance the first event is applied to. *)
Definition start (base : option WorkflowInstance) (evs : list event) : option WorkflowInstance :=
  match base, evs with
  | Some b, _ => Some b
  | None, ev :: _ => match genesis ev with Ok i => Some i | Err _ => None end
  | None, [] => None
  end.

Lemma fold_Ok defn base evs i' :
  fold evs defn base = Ok i' <->
  ev_sequence <$> evs = seqZ_from (base_version base) (length evs) /\
  exists i0, start base evs = Some i0 /\ spec_run defn i0 evs = Some i'.
Proof.
  destruct base as [b|]; cbn [start].
  { rewrite fold_from_Ok. naive_solver. }
  destruct evs as [|ev evs]; [cbn; naive_solver|]. rewrite fold_genesis. split.
  - case_bool_decide as Hs; [|done]. intros (i0 & -> & (i1 & H1 & H2)%bind_Ok)%bind_Ok.
    apply apply_event_Ok in H1. pose proof (spec_step_version _ _ _ _ H1) as Hv.
    apply fold_from_Ok in H2 as [Hseq Hr]. rewrite Hv, Hs in Hseq. split.
    + cbn. by rewrite Hs, Hseq.
    + exists i0. split; [done|]. cbn. by rewrite H1.
  - cbn. intros ([= Hs Hseq] & i0 & Hg & (i1 & H1 & Hr)%bind_Some).
    rewrite bool_decide_true by done. destruct (genesis ev) as [i|]; simplify_eq.
    pose proof (spec_step_version _ _ _ _ H1) as Hv. apply apply_event_Ok in H1.
    cbn. rewrite H1. cbn. apply fold_from_Ok. by rewrite Hv, Hs.
Qed.

(** C1: [fold] is the abstract machine: it succeeds exactly when the events carry
    the contiguous sequence numbers that follow the base's version (1, 2, ...
    without a base), the first of them is [InstanceCreated] if there is no base,
    and each event is accepted by the state it reaches (declared source status
    current, target status reachable in the transition tables); the result is
    then the state the guarded updates produce. *)
Theorem fold_refines_machine defn base evs i' :
  fold evs defn base = Ok i' <->
  ev_sequence <$> evs = seqZ_from (base_version base) (length evs) /\
  exists i0, start base evs = Some i0 /\ spec_run defn i0 evs = Some i'.
Proof. apply fold_Ok. Qed.

Lemma fold_app defn base es1 es2 :
  base <> None \/ es1 <> [] ->
  fold (es1 ++ es2) defn base = (i ← fold es1 defn base; fold es2 defn (Some i)).
Proof.
  intros Hne. destruct (fold es1 defn base) as [i|e] eqn:H1.
  - cbn. pose proof (fold_version _ _ _ _ H1) as [_ Hv]. unfold fold in *.
    rewrite foldM_app. fold (base_version base) in *.
    apply bind_Ok in H1 as ([o n] & Hl & Ho). cbn in Ho. destruct o as [i'|]; simplify_eq.
    rewrite Hl. cbn.
    assert (n = wi_version i + 1)%Z as ->; [|done].
    destruct base as [b|].
    + apply fold_loop_Ok in Hl as (_ & i' & _ & [= -> ->]). cbn in Hv. lia.
    + destruct es1 as [|e es1]; [naive_solver|]. cbn in Hl.
      apply bind_Ok in Hl as ([o n'] & H1 & Hl). case_bool_decide; [|done].
      apply bind_Ok in H1 as (i0 & _ & (i1 & _ & [= <- <-])%bind_Ok).
      apply fold_loop_Ok in Hl as (_ & i' & _ & [= -> ->]). cbn in Hv. lia.
  - cbn. unfold fold in *. rewrite foldM_app.
    destruct (foldM _ _ es1) as [[o n]|e'] eqn:Hl; cbn in *; [|done].
    destruct o; [done|]. exfalso. destruct base as [b|].
    + apply fold_loop_Ok in Hl as (_ & i' & _ & [=]).
    + destruct es1 as [|e1 es1]; [naive_solver|]. cbn in Hl.
      apply bind_Ok in Hl as ([o' n'] & H2 & Hl). case_bool_decide; [|done].
      apply bind_Ok in H2 as (i0 & _ & (i1 & _ & [= <- <-])%bind_Ok).
      apply fold_loop_Ok in Hl as (_ & i' & _ & [=]).
Qed.

(** C14: Recovery from a snapshot is exact: folding a whole stream gives the same
    instance, or the same exception, as folding a prefix and then folding the
    rest on top of the prefix's result.  The prefix must not be empty unless
    there is a base, since an empty stream has no instance. *)
Theorem snapshot_fold_exact defn base es1 es2 :
  base <> None \/ es1 <> [] ->
  fold (es1 ++ es2) defn base = (i ← fold es1 defn base; fold es2 defn (Some i)).
Proof. apply fold_app. Qed.

(** ** What each event changes *)

Section spec_run_induction.
Context (defn : option WorkflowDefinition).

Lemma spec_run_rel (R : WorkflowInstance -> WorkflowInstance -> Prop)
    `{!Reflexive R, !Transitive R} i evs i' :
  (forall x ev x', ev ∈ evs -> spec_step defn x ev = Some x' -> R x x') ->
  spec_run defn i evs = Some i' -> R i i'.
Proof.
  revert i; induction evs as [|ev evs IH]; intros i Hstep; cbn.
  - intros [= ->]. reflexivity.
  - intros (i1 & H1 & H2)%bind_Some. transitivity i1.
    + eapply Hstep; [left|done].
    + eapply IH; [|done]. intros x ev' x' Hin. apply Hstep. by right.
Qed.

Lemma spec_run_inv (P : WorkflowInstance -> Prop) i evs i' :
  (forall x ev x', ev ∈ evs -> P x -> spec_step defn x ev = Some x' -> P x') ->
  P i -> spec_run defn i evs = Some i' -> P i'.
Proof.
  intros Hstep Hi Hr.
  refine (spec_run_rel (fun x y => P x -> P y) i evs i' _ Hr Hi); naive_solver.
Qed.

(** A quantity that each event updates by [f] is the left fold of [f]. *)
Lemma spec_run_foldl {A} (obs : WorkflowInstance -> A) (f : A -> event -> A) i evs i' :
  (forall x ev x', spec_step defn x ev = Some x' -> obs x' = f (obs x) ev) ->
  spec_run defn i evs = Some i' -> obs i' = foldl f (obs i) evs.
Proof.
  intros Hstep. revert i; induction evs as [|ev evs IH]; intros i; cbn.
  - by intros [= ->].
  - intros (i1 & H1 & H2)%bind_Some. rewrite (IH _ H2). by rewrite (Hstep _ _ _ H1).
Qed.
End spec_run_induction.

(** Seeding changes the step table only, and never an existing entry. *)
Definition seed_ids (ids : list string) (m : gmap string StepState) : gmap string StepState :=
  foldl (fun m sid => match m !! sid with
                      | Some _ => m
                      | None => <[sid := new_step_state sid]> m
                      end) m ids.

Definition seeded (defn : option WorkflowDefinition) : list string :=
  match defn with None => [] | Some d => step_ids d end.

Lemma seed_steps_spec defn i :
  seed_steps defn i = set_wi_step_states (seed_ids (seeded defn) (wi_step_states i)) i.
Proof.
  destruct defn as [d|]; cbn; [|by destruct i]. unfold step_ids.
  generalize (wd_steps d); intros l. revert i.
  induction l as [|s l IH]; intros i; cbn; [by destruct i|]. rewrite IH.
  unfold _ensure_step. by destruct (wi_step_states i !! ws_step_id s).
Qed.

Lemma seed_ids_old ids m sid st : m !! sid = Some st -> seed_ids ids m !! sid = Some st.
Proof.
  revert m; induction ids as [|s l IH]; intros m Hm; cbn; [done|]. apply IH.
  destruct (m !! s) eqn:E; [done|]. rewrite lookup_insert_ne; [done|]. intros <-. congruence.
Qed.

Lemma seed_ids_inv ids m sid st :
  seed_ids ids m !! sid = Some st ->
  m !! sid = Some st \/ (st = new_step_state sid /\ m !! sid = None /\ sid ∈ ids).
Proof.
  revert m; induction ids as [|s l IH]; intros m; cbn; [auto|].
  intros [H|(-> & Hn & Hin)]%IH.
  - destruct (m !! s) eqn:E; [auto|]. destruct (decide (s = sid)) as [<-|].
    + rewrite lookup_insert_eq in H. right. split_and!; [naive_solver|done|left].
    + rewrite lookup_insert_ne in H by done. auto.
  - right. split_and!; [done| |by right]. destruct (m !! s) eqn:E; [done|].
    by apply lookup_insert_None in Hn as [? _].
Qed.

Lemma seed_ids_in ids m sid : sid ∈ ids -> is_Some (seed_ids ids m !! sid).
Proof.
  revert m; induction ids as [|s l IH]; intros m; [by intros ?%not_elem_of_nil|].
  intros [->|Hin]%elem_of_cons; [|by apply IH]. cbn.
  destruct (m !! s) as [st|] eqn:E; eexists; apply seed_ids_old; [done|].
  apply lookup_insert_eq.
Qed.

(** Compute a field of the state after an accepted event, event by event. *)
Ltac solve_effect at_ b :=
  let E := fresh "E" in
  unfold effect; destruct (step_update at_ b) as [[? ?]|] eqn:E;
  destruct b; cbn in *; try discriminate E; try done;
  unfold _on_created; rewrite ?seed_steps_spec; try done;
  unfold _on_effect_intent, _on_effect_executed, _on_effect_compensated,
    _on_escalation_resolved, _on_escalation_timed_out in *;
  repeat case_match; try done; simplify_eq/=; try done.

(** The fields of the state after an accepted event. *)
Lemma effect_status i at_ b d : wi_status (effect i at_ b d) = default (wi_status i) (wf_target b).
Proof.
  solve_effect at_ b.
Qed.

Lemma effect_steps i at_ b d :
  wi_step_states (effect i at_ b d) =
  match b, step_update at_ b with
  | InstanceCreated _ _ _ _ _ _, _ => seed_ids (seeded d) (wi_step_states i)
  | _, Some (sid, f) => <[sid := f (step_or_new i sid)]> (wi_step_states i)
  | _, None => wi_step_states i
  end.
Proof.
  solve_effect at_ b.
Qed.

Lemma effect_cost i at_ b d :
  wi_cost_accumulated_usd (effect i at_ b d) =
  match b with
  | CostCharged _ a _ _ _ => fadd (wi_cost_accumulated_usd i) a
  | _ => wi_cost_accumulated_usd i
  end.
Proof. solve_effect at_ b. Qed.

Lemma effect_tokens i at_ b d :
  wi_tokens_used (effect i at_ b d) =
  match b with
  | CostCharged _ _ _ ti to => add_tokens (wi_tokens_used i) ti to
  | _ => wi_tokens_used i
  end.
Proof. solve_effect at_ b. Qed.

Lemma effect_identity i at_ b d :
  wi_instance_id (effect i at_ b d) = wi_instance_id i /\
  wi_tenant_id (effect i at_ b d) = wi_tenant_id i /\
  wi_workflow_id (effect i at_ b d) = wi_workflow_id i /\
  wi_workflow_version (effect i at_ b d) = wi_workflow_version i.
Proof. solve_effect at_ b. Qed.

Lemma effect_completed_at i at_ b d :
  wi_completed_at (effect i at_ b d) =
  match b with
  | InstanceCompleted _ => Some at_
  | InstanceStatusChanged _ to _ =>
      if bool_decide (to ∈ TERMINAL_WORKFLOW_STATUSES) then Some at_ else wi_completed_at i
  | _ => wi_completed_at i
  end.
Proof. solve_effect at_ b; unfold is_terminal in *; cbn in *; congruence. Qed.

Lemma effect_step_or_new i at_ b d sid :
  step_or_new (effect i at_ b d) sid =
  match step_update at_ b with
  | Some (s, f) => if bool_decide (s = sid) then f (step_or_new i sid) else step_or_new i sid
  | None => step_or_new i sid
  end.
Proof.
  unfold step_or_new at 1. rewrite effect_steps.
  assert (forall s f, default (new_step_state sid)
            (<[s := f (step_or_new i s)]> (wi_step_states i) !! sid)
          = if bool_decide (s = sid) then f (step_or_new i sid) else step_or_new i sid) as Hins.
  { intros s f. case_bool_decide as H; [subst; by rewrite lookup_insert_eq|].
    by rewrite lookup_insert_ne. }
  assert (forall o : option (string * (StepState -> StepState)),
            default (new_step_state sid)
              (match o with
               | Some (s, f) => <[s := f (step_or_new i s)]> (wi_step_states i)
               | None => wi_step_states i
               end !! sid)
            = match o with
              | Some (s, f) =>
                  if bool_decide (s = sid) then f (step_or_new i sid) else step_or_new i sid
              | None => step_or_new i sid
              end) as Ho by (intros [[s f]|]; [apply Hins|done]).
  destruct b; try apply Ho; [].
  cbn [step_update]. unfold step_or_new.
  destruct (seed_ids (seeded d) (wi_step_states i) !! sid) as [st|] eqn:E; cbn.
  - by apply seed_ids_inv in E as [-> |(-> & -> & _)].
  - destruct (wi_step_states i !! sid) as [st|] eqn:E'; [|done].
    apply (seed_ids_old (seeded d)) in E'. congruence.
Qed.

Lemma spec_step_inv defn i ev i' :
  spec_step defn i ev = Some i' ->
  accepts i (ev_body ev) = true /\
  i' = set_wi_version (ev_sequence ev) (set_wi_updated_at (Some (ev_occurred_at ev))
         (effect i (ev_occurred_at ev) (ev_body ev) defn)).
Proof. unfold spec_step. destruct (accepts _ _); naive_solver. Qed.

(** ** Status machines *)

Definition step_edge (s d : StepStatus) : Prop := d ∈ STEP_TRANSITIONS s.

(** The event puts the step back in the queue, from whatever status. *)
Definition requeues (sid : string) (ev : event) : Prop :=
  match ev_body ev with WorkflowRequeued (Some s) _ _ => s = sid | _ => False end.

Lemma spec_step_wf_edge defn i ev i' :
  spec_step defn i ev = Some i' -> rtc wf_edge (wi_status i) (wi_status i').
Proof.
  intros [Ha ->]%spec_step_inv. cbn. rewrite effect_status.
  unfold accepts in Ha. apply andb_true_iff in Ha as [[_ Ha]%andb_true_iff _].
  destruct (wf_target _) as [t|]; cbn; [|done]. unfold wf_allowed in Ha.
  apply orb_true_iff in Ha as [->%bool_decide_eq_true|Ha]; [done|by apply rtc_once].
Qed.

(** Status updates that consult the table move along it. *)
Lemma step_update_status at_ b s f st :
  step_update at_ b = Some (s, f) ->
  st_status (f st) = match step_target b with Some (_, t) => t | None =>
                       match b with WorkflowRequeued _ _ _ => StepStatus.READY
                       | _ => st_status st end end /\
  (forall s' t, step_target b = Some (s', t) -> s' = s).
Proof.
  destruct b; cbn; intros H; try discriminate H; repeat case_match; simplify_eq/=;
    unfold set_model; repeat case_match; naive_solver.
Qed.

Lemma spec_step_step_edge defn i ev i' sid :
  ~ requeues sid ev -> spec_step defn i ev = Some i' ->
  rtc step_edge (step_status i sid) (step_status i' sid).
Proof.
  intros Hnr [Ha ->]%spec_step_inv. unfold step_status.
  change (step_or_new (set_wi_version _ (set_wi_updated_at _ ?i)) sid) with (step_or_new i sid).
  rewrite effect_step_or_new.
  destruct (step_update _ _) as [[s f]|] eqn:Hu; [|done]. case_bool_decide as Hs; [|done]. subst s.
  destruct (step_update_status _ _ _ _ (step_or_new i sid) Hu) as [-> Ht].
  unfold accepts in Ha. apply andb_true_iff in Ha as [_ Ha].
  destruct (step_target (ev_body ev)) as [[s t]|] eqn:Hst.
  - rewrite (Ht s t) in Ha by done. unfold step_transition_allowed, step_status in Ha.
    apply orb_true_iff in Ha as [->%bool_decide_eq_true|Ha%bool_decide_eq_true]; [done|].
    by apply rtc_once.
  - destruct (ev_body ev) as [| | | |[s|]| | | | | | | | | | | | | | | | | |] eqn:Hb; try done.
    exfalso. apply Hnr. unfold requeues. rewrite Hb. cbn in Hu. by simplify_eq.
Qed.

(** C19: Folding moves every status along the transition tables.  From any base
    instance the workflow status follows edges of [WORKFLOW_TRANSITIONS], a
    terminal status (completed, rolled back) never changes again, and every step
    follows edges of [STEP_TRANSITIONS] unless the step is requeued. *)
Theorem fold_follows_transitions defn base evs i' :
  fold evs defn (Some base) = Ok i' ->
  rtc wf_edge (wi_status base) (wi_status i') /\
  (wi_status base ∈ TERMINAL_WORKFLOW_STATUSES -> wi_status i' = wi_status base) /\
  (forall sid, Forall (fun ev => ~ requeues sid ev) evs ->
     rtc step_edge (step_status base sid) (step_status i' sid)).
Proof.
  intros [_ Hr]%fold_from_Ok.
  assert (rtc wf_edge (wi_status base) (wi_status i')) as Hwf.
  { refine (spec_run_rel defn (fun x y => rtc wf_edge (wi_status x) (wi_status y)) _ _ _ _ Hr);
      [intros x; reflexivity|by intros x y z; apply transitivity|].
    intros. by eapply spec_step_wf_edge. }
  split_and!; [done|intros Ht; by eapply rtc_wf_edge_terminal|].
  intros sid Hnr. rewrite Forall_forall in Hnr.
  refine (spec_run_rel defn (fun x y => rtc step_edge (step_status x sid) (step_status y sid))
            _ _ _ _ Hr);
    [intros x; reflexivity|by intros x y z; apply transitivity|].
  intros x ev x' Hin. by apply spec_step_step_edge, Hnr.
Qed.

(** ** Cost accounting *)

Definition charge (c : float) (ev : event) : float :=
  match ev_body ev with CostCharged _ a _ _ _ => fadd c a | _ => c end.

Definition charge_tokens (t : TokenUsage) (ev : event) : TokenUsage :=
  match ev_body ev with CostCharged _ _ _ ti to => add_tokens t ti to | _ => t end.

Definition charge_step (sid : string) (c : float) (ev : event) : float :=
  match ev_body ev with
  | CostCharged (Some s) a _ _ _ =>
      if bool_decide (s = sid) && truthy_str (Some s) then fadd c a else c
  | _ => c
  end.

Lemma step_update_cost at_ b s f st :
  step_update at_ b = Some (s, f) ->
  st_cost_usd (f st) =
  match b with CostCharged _ a _ _ _ => fadd (st_cost_usd st) a | _ => st_cost_usd st end.
Proof.
  destruct b; cbn; intros H; try discriminate H; repeat case_match; simplify_eq/=;
    unfold set_model; repeat case_match; naive_solver.
Qed.

(** Spend is exactly what the log charges: the instance's accumulated cost
    and token counts after a fold are the left folds, in log order and with
    binary64 addition, of the amounts of the [CostCharged] events and nothing
    else, and each step's cost is the fold of the charges that name it. *)
Theorem fold_cost_is_charged defn base evs i' :
  fold evs defn (Some base) = Ok i' ->
  wi_cost_accumulated_usd i' = foldl charge (wi_cost_accumulated_usd base) evs /\
  wi_tokens_used i' = foldl charge_tokens (wi_tokens_used base) evs /\
  (forall sid, st_cost_usd (step_or_new i' sid) =
               foldl (charge_step sid) (st_cost_usd (step_or_new base sid)) evs).
Proof.
  intros [_ Hr]%fold_from_Ok. split_and!; [..|intros sid].
  - eapply (spec_run_foldl defn wi_cost_accumulated_usd charge); [|done].
    intros x ev x' [_ ->]%spec_step_inv. cbn. apply effect_cost.
  - eapply (spec_run_foldl defn wi_tokens_used charge_tokens); [|done].
    intros x ev x' [_ ->]%spec_step_inv. cbn. apply effect_tokens.
  - eapply (spec_run_foldl defn (fun i => st_cost_usd (step_or_new i sid)) (charge_step sid));
      [|done].
    intros x ev x' [_ ->]%spec_step_inv. cbn.
    change (step_or_new (set_wi_version _ (set_wi_updated_at _ ?i)) sid) with (step_or_new i sid).
    rewrite effect_step_or_new. unfold charge_step.
    destruct (ev_body ev) eqn:Hb;
      try (destruct (step_update _ _) as [[s f]|] eqn:Hu; [case_bool_decide|]; try done;
           by rewrite (step_update_cost _ _ _ _ _ Hu)).
    cbn. destruct step_id as [s|]; [|done].
    destruct (bool_decide (s = "")) eqn:Ht; cbn; [by rewrite andb_false_r|].
    rewrite andb_true_r. clear Ht. by case_bool_decide.
Qed.

(** ** Completed outputs *)

Definition last_output (sid : string) (o : option dict) (ev : event) : option dict :=
  match ev_body ev with
  | StepCompleted s _ out _ _ _ _ _ => if bool_decide (s = sid) then Some out else o
  | _ => o
  end.

Lemma step_update_output at_ b s f st :
  step_update at_ b = Some (s, f) ->
  st_output (f st) = match b with StepCompleted _ _ out _ _ _ _ _ => Some out
                     | _ => st_output st end.
Proof.
  destruct b; cbn; intros H; try discriminate H; repeat case_match; simplify_eq/=;
    unfold set_model; repeat case_match; naive_solver.
Qed.

(** A step's recorded output is the output of its last [StepCompleted] event
    in the log; no other event (a retry, a failure, an escalation, a requeue, a
    compensation) alters or erases it. *)
Theorem fold_output_is_last_completion defn base evs i' sid :
  fold evs defn (Some base) = Ok i' ->
  st_output (step_or_new i' sid) =
  foldl (last_output sid) (st_output (step_or_new base sid)) evs.
Proof.
  intros [_ Hr]%fold_from_Ok.
  eapply (spec_run_foldl defn (fun i => st_output (step_or_new i sid)) (last_output sid)); [|done].
  intros x ev x' [_ ->]%spec_step_inv. cbn.
  change (step_or_new (set_wi_version _ (set_wi_updated_at _ ?i)) sid) with (step_or_new i sid).
  rewrite effect_step_or_new. unfold last_output.
  destruct (ev_body ev) eqn:Hb;
    try (destruct (step_update _ _) as [[s f]|] eqn:Hu; [case_bool_decide|]; try done;
         by rewrite (step_update_output _ _ _ _ _ Hu)).
  cbn. case_bool_decide; [|done]. unfold set_model. by destruct (truthy_str model_used).
Qed.

(** ** Well-formed instances *)

Record inst_wf (i : WorkflowInstance) : Prop := {
  iwf_keys : map_Forall (fun sid st => st_step_id st = sid) (wi_step_states i);
  iwf_effects : NoDup (ser_idempotency_key <$> wi_side_effects i);
  iwf_effect_status :
    Forall (fun r => ser_status r ∈ ["pending"; "executed"; "compensated"]) (wi_side_effects i);
  iwf_completed : is_terminal i = true -> is_Some (wi_completed_at i);
}.

Lemma effect_side_effects i at_ b d :
  wi_side_effects (effect i at_ b d) =
  match b with
  | SideEffectIntentRecorded sid name key _ _ => wi_side_effects (_on_effect_intent i sid name key)
  | SideEffectExecuted sid key _ _ => wi_side_effects (_on_effect_executed i sid key)
  | SideEffectCompensated _ key _ => wi_side_effects (_on_effect_compensated i key)
  | _ => wi_side_effects i
  end.
Proof. solve_effect at_ b. Qed.

(** Appending a reference with a new key, or rewriting a found one in place,
    keeps the keys distinct. *)
Definition refs_wf (l : list SideEffectRef) : Prop :=
  NoDup (ser_idempotency_key <$> l) /\
  Forall (fun r => ser_status r ∈ ["pending"; "executed"; "compensated"]) l.

Lemma refs_wf_app l r :
  refs_wf l -> list_find (has_key (ser_idempotency_key r)) l = None ->
  ser_status r ∈ ["pending"; "executed"; "compensated"] -> refs_wf (l ++ [r]).
Proof.
  intros [Hnd Hst] Hf Hr. split; [|by apply Forall_app_2; [|constructor]].
  rewrite fmap_app. apply NoDup_app. split_and!; [done| |by apply NoDup_singleton].
  intros k (x & -> & Hx)%list_elem_of_fmap [= Hk]%list_elem_of_singleton.
  apply list_find_None in Hf. rewrite Forall_forall in Hf. by eapply Hf.
Qed.

Lemma refs_wf_insert l key n r s :
  refs_wf l -> list_find (has_key key) l = Some (n, r) ->
  s ∈ ["pending"; "executed"; "compensated"] ->
  refs_wf (<[n := new_ref (ser_idempotency_key r) (ser_step_id r) (ser_effect_name r) s]> l).
Proof.
  intros [Hnd Hst] (Hl & _ & _)%list_find_Some Hs. split; [|by apply Forall_insert].
  rewrite list_fmap_insert. cbn.
  rewrite list_insert_id; [done|]. by rewrite list_lookup_fmap, Hl.
Qed.

Lemma effect_refs_wf i at_ b d :
  refs_wf (wi_side_effects i) -> refs_wf (wi_side_effects (effect i at_ b d)).
Proof.
  intros Hwf. rewrite effect_side_effects. destruct b; try exact Hwf.
  all: unfold _on_effect_intent, _on_effect_executed, _on_effect_compensated, _side_effect_ref;
    destruct (list_find _ _) as [[n r]|] eqn:E; try exact Hwf; cbn.
  all: first [eapply refs_wf_app | eapply refs_wf_insert]; try done; set_solver.
Qed.

Lemma step_update_id at_ b s f st :
  step_update at_ b = Some (s, f) -> st_step_id (f st) = st_step_id st.
Proof.
  destruct b; cbn; intros H; try discriminate H; repeat case_match; simplify_eq/=;
    unfold set_model; repeat case_match; naive_solver.
Qed.

Lemma spec_step_wf defn i ev i' : inst_wf i -> spec_step defn i ev = Some i' -> inst_wf i'.
Proof.
  intros [Hk He Hs Hc] [_ ->]%spec_step_inv.
  destruct (effect_refs_wf i (ev_occurred_at ev) (ev_body ev) defn (conj He Hs)) as [He' Hs'].
  constructor; [|done|done|]; cbn.
  - rewrite effect_steps.
    assert (forall o, (forall s f st, o = Some (s, f) -> st_step_id (f st) = st_step_id st) ->
      map_Forall (fun sid st => st_step_id st = sid)
        match o with
        | Some (s, f) => <[s := f (step_or_new i s)]> (wi_step_states i)
        | None => wi_step_states i
        end) as Ho.
    { intros [[s f]|] Hid; [|done]. apply map_Forall_insert_2; [|done].
      rewrite (Hid s f) by done. unfold step_or_new.
      destruct (wi_step_states i !! s) eqn:E; [by apply Hk in E|done]. }
    destruct (ev_body ev) eqn:Hb;
      try (apply Ho; intros s f st; apply step_update_id).
    intros sid st [H|(-> & _ & _)]%seed_ids_inv; [by apply Hk|done].
  - unfold is_terminal. cbn. rewrite effect_status, effect_completed_at.
    destruct (ev_body ev); cbn; try done; try (intros Ht; by apply Hc).
    intros Ht. by rewrite Ht.
Qed.

Lemma spec_step_keeps_steps defn i ev i' sid :
  is_Some (wi_step_states i !! sid) -> spec_step defn i ev = Some i' ->
  is_Some (wi_step_states i' !! sid).
Proof.
  intros [st Hst] [_ ->]%spec_step_inv. cbn. rewrite effect_steps.
  assert (forall o : option (string * (StepState -> StepState)), is_Some
    (match o with
     | Some (s, f) => <[s := f (step_or_new i s)]> (wi_step_states i)
     | None => wi_step_states i
     end !! sid)) as Ho.
  { intros [[s f]|]; [|by eexists]. destruct (decide (s = sid)) as [->|].
    - rewrite lookup_insert_eq. by eexists.
    - rewrite lookup_insert_ne by done. by eexists. }
  destruct (ev_body ev); try apply Ho. eexists. by apply seed_ids_old.
Qed.

Lemma spec_run_wf defn i evs i' : inst_wf i -> spec_run defn i evs = Some i' -> inst_wf i'.
Proof. apply spec_run_inv. intros; by eapply spec_step_wf. Qed.

Lemma new_instance_wf a b c d : inst_wf (new_instance a b c d).
Proof. constructor; cbn; [apply map_Forall_empty|constructor|constructor|done]. Qed.

Lemma spec_run_identity defn i evs i' :
  spec_run defn i evs = Some i' ->
  wi_instance_id i' = wi_instance_id i /\ wi_tenant_id i' = wi_tenant_id i /\
  wi_workflow_id i' = wi_workflow_id i /\ wi_workflow_version i' = wi_workflow_version i.
Proof.
  refine (spec_run_rel defn (fun x y => wi_instance_id y = wi_instance_id x /\
    wi_tenant_id y = wi_tenant_id x /\ wi_workflow_id y = wi_workflow_id x /\
    wi_workflow_version y = wi_workflow_version x) i evs i' _).
  - by intros x.
  - intros x y z (-> & -> & -> & ->). done.
  - intros x ev x' _ [_ ->]%spec_step_inv. apply effect_identity.
Qed.

(** C20: An instance rebuilt from its full log is well formed: step states are
    filed under their own id, every step of the definition has one, side-effect
    references have distinct idempotency keys and a status the engine knows, a
    terminal instance has a completion time, its version is the number of
    events, and its identity is the creating event's. *)
Theorem fold_wellformed defn ev evs i :
  fold (ev :: evs) defn None = Ok i ->
  inst_wf i /\
  (forall d s, defn = Some d -> s ∈ wd_steps d -> is_Some (wi_step_states i !! ws_step_id s)) /\
  wi_version i = Z.of_nat (length (ev :: evs)) /\
  wi_instance_id i = ev_instance_id ev /\ wi_tenant_id i = ev_tenant_id ev.
Proof.
  intros Hf. pose proof (fold_version _ _ _ _ Hf) as [_ Hv].
  apply fold_Ok in Hf as (_ & i0 & Hst & Hr). cbn in Hst.
  destruct (genesis ev) as [j|] eqn:Hg; simplify_eq.
  unfold genesis in Hg. destruct (ev_body ev) eqn:Hb; try discriminate Hg. injection Hg as <-.
  split; [eapply spec_run_wf; [apply new_instance_wf|done]|].
  pose proof (spec_run_identity _ _ _ _ Hr) as (Hi & Ht & _). split_and!; [|done..].
  intros d s -> Hs. cbn in Hr. apply bind_Some in Hr as (i1 & H1 & Hr).
  refine (spec_run_inv _ (fun i => is_Some (wi_step_states i !! ws_step_id s)) _ _ _ _ _ Hr).
  - intros. by eapply spec_step_keeps_steps.
  - apply spec_step_inv in H1 as [_ ->]. cbn. rewrite effect_steps, Hb.
    apply seed_ids_in. by apply list_elem_of_fmap_2.
Qed.

(** ** Witnesses *)

Lemma snapshot_fold_exact_witness :
  Fold.fold (take 6 Sample.log ++ drop 6 Sample.log) (Some Sample.defn) None
  = (i ← Fold.fold (take 6 Sample.log) (Some Sample.defn) None;
     Fold.fold (drop 6 Sample.log) (Some Sample.defn) (Some i)) /\
  is_ok (Fold.fold Sample.log (Some Sample.defn) None) = true.
Proof.
  split; [|vm_compute; reflexivity].
  apply snapshot_fold_exact. right. discriminate.
Defined.

Lemma fold_follows_transitions_witness :
  rtc wf_edge WorkflowStatus.RUNNING (wi_status (Sample.at_ 12)) /\
  rtc step_edge StepStatus.PENDING (step_status (Sample.at_ 12) "publish").
Proof.
  assert (Fold.fold (drop 2 Sample.log) (Some Sample.defn) (Some (Sample.at_ 2))
          = Ok (Sample.at_ 12)) as Hf by (vm_compute; reflexivity).
  destruct (fold_follows_transitions (Some Sample.defn) (Sample.at_ 2) (drop 2 Sample.log)
              (Sample.at_ 12) Hf) as (H1 & _ & H3).
  split; [exact H1|]. apply (H3 "publish"). repeat constructor; intros [].
Defined.

Lemma fold_cost_is_charged_witness :
  wi_cost_accumulated_usd (Sample.at_ 12) = fratio 1 4 /\
  st_cost_usd (step_or_new (Sample.at_ 12) "fetch") = fratio 1 4.
Proof.
  assert (Fold.fold (drop 2 Sample.log) (Some Sample.defn) (Some (Sample.at_ 2))
          = Ok (Sample.at_ 12)) as Hf by (vm_compute; reflexivity).
  destruct (fold_cost_is_charged (Some Sample.defn) (Sample.at_ 2) (drop 2 Sample.log)
              (Sample.at_ 12) Hf) as (H1 & _ & H3).
  split; [rewrite H1 | rewrite (H3 "fetch")]; vm_compute; reflexivity.
Defined.

Lemma fold_output_is_last_completion_witness :
  st_output (step_or_new (Sample.at_ 12) "fetch") = Some {[ "answer" := JInt 42 ]}.
Proof.
  assert (Fold.fold (drop 2 Sample.log) (Some Sample.defn) (Some (Sample.at_ 2))
          = Ok (Sample.at_ 12)) as Hf by (vm_compute; reflexivity).
  rewrite (fold_output_is_last_completion (Some Sample.defn) (Sample.at_ 2) (drop 2 Sample.log)
             (Sample.at_ 12) "fetch" Hf).
  vm_compute. reflexivity.
Defined.

Lemma fold_wellformed_witness :
  inst_wf (Sample.at_ 12) /\ wi_version (Sample.at_ 12) = 12%Z.
Proof.
  assert (Fold.fold Sample.log (Some Sample.defn) None = Ok (Sample.at_ 12)) as Hf
    by (vm_compute; reflexivity).
  destruct (fold_wellformed (Some Sample.defn) (with_sequence (Sample.draft Sample.created) 1)
              (tail Sample.log) (Sample.at_ 12) Hf) as (H1 & _ & H3 & _). split; [exact H1|exact H3].
Defined.
