(* ===== verification/Tables.v ===== *)
(** The database ([core/persistence/tables.py]): one record per row class, and
    the database as a record of tables.

    A table with a primary key is a finite map on that key.  [workflow_events]
    is the list of its rows in insertion order.  JSONB columns that hold
    arbitrary JSON are [dict]s; the three columns that hold a serialised model
    go through a [Codec], since the serialisation is done by pydantic. *)

From stdpp Require Import base strings list gmap sorting.
From Stdlib Require Import ZArith.
From S2P Require Import Prelude Exceptions Values Enums Definitions Instance Events.

(** [model_dump(mode="json")] and [model_validate] of the three stored models,
    through a JSONB column, and the SHA-256 checksum of a definition. *)
Class Codec := {
  jsonb : Type;
  dump_event : event -> jsonb;
  parse_event : jsonb -> res event;
  dump_state : WorkflowInstance -> jsonb;
  validate_state : jsonb -> res WorkflowInstance;
  dump_definition : WorkflowDefinition -> jsonb;
  validate_definition : jsonb -> res WorkflowDefinition;
  checksum : WorkflowDefinition -> string;
}.

(** Pydantic's contract: validating the dump of a model gives the model back. *)
Class CodecLaws `{Codec} := {
  event_roundtrip : forall e, event_valid e = true -> parse_event (dump_event e) = Ok e;
  state_roundtrip : forall i, validate_state (dump_state i) = Ok i;
  definition_roundtrip : forall d, definition_valid d = true ->
    validate_definition (dump_definition d) = Ok d;
}.

Section rows.
Context {C : Codec}.

Record WorkflowDefinitionRow := {
  dr_tenant_id : string;
  dr_workflow_id : string;
  dr_version : string;
  dr_name : string;
  dr_description : string;
  dr_definition : jsonb;
  dr_checksum : string;
  dr_is_active : bool;
  dr_created_at : time;
  dr_updated_at : time;
}.

Record WorkflowEventRow := {
  evr_id : Z;
  evr_instance_id : string;
  evr_tenant_id : string;
  evr_sequence : Z;
  evr_event_type : string;
  evr_payload : jsonb;
  evr_occurred_at : time;
  evr_recorded_at : time;
}.

Record InstanceSnapshotRow := {
  snr_instance_id : string;
  snr_tenant_id : string;
  snr_version : Z;
  snr_state : jsonb;
  snr_created_at : time;
}.

Record InstanceIndexRow := {
  ix_instance_id : string;
  ix_tenant_id : string;
  ix_workflow_id : string;
  ix_workflow_version : string;
  ix_status : string;
  ix_last_sequence : Z;
  ix_cost_accumulated_usd : float;
  ix_budget_limit_usd : option float;
  ix_next_wakeup_at : option time;
  ix_created_at : time;
  ix_updated_at : time;
  ix_completed_at : option time;
}.

Record InstanceLeaseRow := {
  lr_instance_id : string;
  lr_tenant_id : string;
  lr_worker_id : string;
  lr_acquired_at : time;
  lr_heartbeat_at : time;
  lr_expires_at : time;
  lr_fence_token : Z;
}.

Record DeadLetterRow := {
  dlr_id : Z;
  dlr_instance_id : string;
  dlr_tenant_id : string;
  dlr_step_id : option string;
  dlr_reason : string;
  dlr_error_type : option string;
  dlr_error_message : option string;
  dlr_at_version : Z;
  dlr_resolved : bool;
  dlr_created_at : time;
  dlr_resolved_at : option time;
}.

Record SideEffectOutboxRow := {
  or_idempotency_key : string;
  or_instance_id : string;
  or_tenant_id : string;
  or_step_id : string;
  or_effect_name : string;
  or_provider : string;
  or_params : dict;
  or_guarantee : string;
  or_status : string;
  or_attempts : Z;
  or_result : option dict;
  or_provider_ref : option string;
  or_error : option string;
  or_compensation_status : option string;
  or_created_at : time;
}.

Record EscalationRow := {
  escr_escalation_id : string;
  escr_instance_id : string;
  escr_tenant_id : string;
  escr_step_id : string;
  escr_reason : string;
  escr_recommendation : string;
  escr_confidence : float;
  escr_options : list dict;
  escr_auto_action : string;
  escr_deadline : option time;
  escr_status : string;
  escr_resolution : option string;
  escr_resolved_by : option string;
  escr_created_at : time;
  escr_resolved_at : option time;
}.

(** The message relayed to live views ([InstanceUpdate] of [core/pubsub.py]). *)
Record InstanceUpdate := {
  up_instance_id : string;
  up_tenant_id : string;
  up_version : Z;
  up_event_types : list string;
}.

(** [db_now] is what [func.now()] returns; [db_next_id] feeds the
    auto-increment columns; [db_bus] holds the messages the pub/sub bus has
    accepted and [db_bus_up] says whether it accepts any. *)
Record DB := MkDB {
  db_definitions : gmap (string * string * string) WorkflowDefinitionRow;
  db_events : list WorkflowEventRow;
  db_snapshots : gmap string InstanceSnapshotRow;
  db_index : gmap string InstanceIndexRow;
  db_leases : gmap string InstanceLeaseRow;
  db_dead_letters : gmap Z DeadLetterRow;
  db_outbox : gmap string SideEffectOutboxRow;
  db_ledger : gmap (string * Z) float;
  db_escalations : gmap string EscalationRow;
  db_now : time;
  db_next_id : Z;
  db_bus : list (string * InstanceUpdate);
  db_bus_up : bool;
}.

Definition empty_db (now : time) : DB := MkDB ∅ [] ∅ ∅ ∅ ∅ ∅ ∅ ∅ now 1 [] true.

Definition set_definitions v (db : DB) : DB :=
  let '(MkDB _ b c d e f g h i j k l m) := db in MkDB v b c d e f g h i j k l m.
Definition set_events v (db : DB) : DB :=
  let '(MkDB a _ c d e f g h i j k l m) := db in MkDB a v c d e f g h i j k l m.
Definition set_snapshots v (db : DB) : DB :=
  let '(MkDB a b _ d e f g h i j k l m) := db in MkDB a b v d e f g h i j k l m.
Definition set_index v (db : DB) : DB :=
  let '(MkDB a b c _ e f g h i j k l m) := db in MkDB a b c v e f g h i j k l m.
Definition set_leases v (db : DB) : DB :=
  let '(MkDB a b c d _ f g h i j k l m) := db in MkDB a b c d v f g h i j k l m.
Definition set_dead_letters v (db : DB) : DB :=
  let '(MkDB a b c d e _ g h i j k l m) := db in MkDB a b c d e v g h i j k l m.
Definition set_outbox v (db : DB) : DB :=
  let '(MkDB a b c d e f _ h i j k l m) := db in MkDB a b c d e f v h i j k l m.
Definition set_ledger v (db : DB) : DB :=
  let '(MkDB a b c d e f g _ i j k l m) := db in MkDB a b c d e f g v i j k l m.
Definition set_escalations v (db : DB) : DB :=
  let '(MkDB a b c d e f g h _ j k l m) := db in MkDB a b c d e f g h v j k l m.
Definition set_now v (db : DB) : DB :=
  let '(MkDB a b c d e f g h i _ k l m) := db in MkDB a b c d e f g h i v k l m.
Definition set_next_id v (db : DB) : DB :=
  let '(MkDB a b c d e f g h i j _ l m) := db in MkDB a b c d e f g h i j v l m.
Definition set_bus v (db : DB) : DB :=
  let '(MkDB a b c d e f g h i j k _ m) := db in MkDB a b c d e f g h i j k v m.

End rows.

(** Row sets filtered by a condition, in the order of a sort key: a [select ...
    where ... order_by].  SQL leaves the order of ties open; a stable sort of
    the map's enumeration picks one. *)
Definition key_order {A} (key : A -> Z) (x y : A) : Prop := (key x <= key y)%Z.

Global Instance key_order_dec {A} (key : A -> Z) : RelDecision (key_order key).
Proof. intros x y. unfold key_order. apply _. Defined.

Definition order_by {A} (key : A -> Z) (l : list A) : list A := merge_sort (key_order key) l.

(** A codec that stores the models themselves, on which the laws hold: used to
    evaluate the definitions on examples. *)
Inductive stored :=
| StoredEvent (e : event)
| StoredState (i : WorkflowInstance)
| StoredDefinition (d : WorkflowDefinition).

Definition decode_error : exn := Exn (PyExc "ValidationError") "".

Definition plain_codec : Codec := {|
  jsonb := stored;
  dump_event := StoredEvent;
  parse_event j := match j with StoredEvent e => Ok e | _ => Err decode_error end;
  dump_state := StoredState;
  validate_state j := match j with StoredState i => Ok i | _ => Err decode_error end;
  dump_definition := StoredDefinition;
  validate_definition j := match j with StoredDefinition d => Ok d | _ => Err decode_error end;
  checksum d := wd_workflow_id d +:+ "@" +:+ wd_version d;
|}.

Lemma plain_codec_laws : @CodecLaws plain_codec.
Proof. by constructor. Qed.
