(* ===== verification/ModelCodec.v ===== *)
(** The stored models as JSON: workflow instances, as snapshots hold them
    ([core/domain/instance.py]), and workflow definitions, as the registry and the API
    hold them ([core/domain/definition.py]).  Both are read with every constraint of
    their classes, and refused when they have a key of no field.

    [StateModels] gives the field tables; [json_codec] is the codec of the database
    over JSON, and satisfies its laws. *)

From stdpp Require Import base strings list gmap.
From Stdlib Require Import ZArith Lia.
From S2P Require Import Prelude Exceptions Values Digests Enums Dag Definitions Instance Events.
From S2P Require Import EventCodec Samples Tables.

Module StateModels.
Import EventModels.

(** ** Field types *)

Section types.
Context {L : Lax}.

(** A type with the constraints of a [Field]. *)
Definition t_where {A} (T : Ty A) (ok : A -> bool) : Ty A := {|
  ty_dump := ty_dump T;
  ty_validate j := keep_if ok (ty_validate T j);
  ty_ok a := ty_ok T a && ok a |}.

(** [dict[str, T]] *)
Definition t_map {A} (T : Ty A) : Ty (gmap string A) := {|
  ty_dump m := JObj (ty_dump T <$> m);
  ty_validate j := match j with
    | JObj o => if bool_decide (map_Forall (fun _ v => is_Some (ty_validate T v)) o)
                then Some (omap (ty_validate T) o) else None
    | _ => None
    end;
  ty_ok m := bool_decide (map_Forall (fun _ a => ty_ok T a = true) m) |}.

Definition t_cost_tier : Ty CostTier := t_enum CostTier.value
  [CostTier.CHEAP; CostTier.STANDARD; CostTier.PREMIUM; CostTier.CRITICAL].
Definition t_on_failure : Ty OnFailure := t_enum OnFailure.value
  [OnFailure.PAUSE; OnFailure.ROLLBACK; OnFailure.DEAD_LETTER; OnFailure.ESCALATE].

(** A class with [extra="forbid"]: its fields, its dump, how it is built from an
    object, and what its constraints let through. *)
Record ModelOf (A : Type) := {
  mo_fields : list string;
  mo_dump : A -> list (string * json);
  mo_build : dict -> res A;
  mo_ok : A -> bool;
}.
Arguments mo_fields {A}. Arguments mo_dump {A}. Arguments mo_build {A}. Arguments mo_ok {A}.

Definition build_model {A} (Mo : ModelOf A) (j : json) : res A :=
  match j with
  | JObj o => if bool_decide (dom o ⊆ (list_to_set (mo_fields Mo) : gset string))
              then mo_build Mo o else Err (ValidationError "extra")
  | _ => Err (ValidationError "model")
  end.

Definition dump_model {A} (Mo : ModelOf A) (a : A) : json := JObj (list_to_map (mo_dump Mo a)).

(** A field whose type is a class. *)
Definition t_model {A} (Mo : ModelOf A) : Ty A := {|
  ty_dump := dump_model Mo;
  ty_validate j := match build_model Mo j with Ok a => Some a | Err _ => None end;
  ty_ok := mo_ok Mo |}.

(** ** Workflow instances *)

Definition TokenUsage_model : ModelOf TokenUsage := {|
  mo_fields := ["input"; "output"];
  mo_dump t := [("input", ty_dump t_int (tok_input t)); ("output", ty_dump t_int (tok_output t))];
  mo_build o := tin ← count "input" o; tout ← count "output" o;
    Ok {| tok_input := tin; tok_output := tout |};
  mo_ok _ := true |}.
Definition t_tokens : Ty TokenUsage := t_model TokenUsage_model.

(** An element of [recorded_llm_calls].  To pydantic it is any dict; the engine puts
    these six keys in it. *)
Definition LLMRecording_model : ModelOf LLMRecording := {|
  mo_fields := ["request_digest"; "model"; "response"; "tokens_input"; "tokens_output"; "cost_usd"];
  mo_dump r :=
    [("request_digest", ty_dump t_str (rec_request_digest r)); ("model", ty_dump t_str (rec_model r));
     ("response", ty_dump t_dict (rec_response r));
     ("tokens_input", ty_dump t_int (rec_tokens_input r));
     ("tokens_output", ty_dump t_int (rec_tokens_output r));
     ("cost_usd", ty_dump t_float (rec_cost_usd r))];
  mo_build o :=
    digest ← req t_str "request_digest" o; model ← req t_str "model" o;
    response ← req t_dict "response" o; tin ← req t_int "tokens_input" o;
    tout ← req t_int "tokens_output" o; cost ← req t_float "cost_usd" o;
    Ok {| rec_request_digest := digest; rec_model := model; rec_response := response;
          rec_tokens_input := tin; rec_tokens_output := tout; rec_cost_usd := cost |};
  mo_ok _ := true |}.

Definition StepState_model : ModelOf StepState := {|
  mo_fields := ["step_id"; "status"; "attempts"; "output"; "error_type"; "error_message";
                "model_used"; "cost_usd"; "tokens"; "started_at"; "completed_at"; "next_retry_at";
                "recorded_llm_calls"];
  mo_dump s :=
    [("step_id", ty_dump t_str (st_step_id s)); ("status", ty_dump t_step_status (st_status s));
     ("attempts", ty_dump t_int (st_attempts s)); ("output", ty_dump (t_opt t_dict) (st_output s));
     ("error_type", ty_dump (t_opt t_str) (st_error_type s));
     ("error_message", ty_dump (t_opt t_str) (st_error_message s));
     ("model_used", ty_dump (t_opt t_str) (st_model_used s));
     ("cost_usd", ty_dump t_float (st_cost_usd s)); ("tokens", ty_dump t_tokens (st_tokens s));
     ("started_at", ty_dump (t_opt t_time) (st_started_at s));
     ("completed_at", ty_dump (t_opt t_time) (st_completed_at s));
     ("next_retry_at", ty_dump (t_opt t_time) (st_next_retry_at s));
     ("recorded_llm_calls",
      ty_dump (t_list (t_model LLMRecording_model)) (st_recorded_llm_calls s))];
  mo_build o :=
    sid ← req t_str "step_id" o; status ← opt t_step_status StepStatus.PENDING "status" o;
    attempts ← count "attempts" o; output ← opt (t_opt t_dict) None "output" o;
    ety ← opt_str "error_type" o; emsg ← opt_str "error_message" o;
    model ← opt_str "model_used" o; cost ← opt t_float fzero "cost_usd" o;
    tokens ← opt t_tokens no_tokens "tokens" o; started ← opt (t_opt t_time) None "started_at" o;
    completed ← opt (t_opt t_time) None "completed_at" o;
    retry ← opt (t_opt t_time) None "next_retry_at" o;
    calls ← opt (t_list (t_model LLMRecording_model)) [] "recorded_llm_calls" o;
    Ok {| st_step_id := sid; st_status := status; st_attempts := attempts; st_output := output;
          st_error_type := ety; st_error_message := emsg; st_model_used := model;
          st_cost_usd := cost; st_tokens := tokens; st_started_at := started;
          st_completed_at := completed; st_next_retry_at := retry;
          st_recorded_llm_calls := calls |};
  mo_ok _ := true |}.

Definition ErrorRecord_model : ModelOf ErrorRecord := {|
  mo_fields := ["step_id"; "error_type"; "error_message"; "occurred_at"; "attempt"];
  mo_dump e :=
    [("step_id", ty_dump (t_opt t_str) (er_step_id e));
     ("error_type", ty_dump t_str (er_error_type e));
     ("error_message", ty_dump t_str (er_error_message e));
     ("occurred_at", ty_dump t_time (er_occurred_at e));
     ("attempt", ty_dump (t_opt t_int) (er_attempt e))];
  mo_build o :=
    sid ← opt_str "step_id" o; ety ← req t_str "error_type" o; emsg ← req t_str "error_message" o;
    at_ ← req t_time "occurred_at" o; att ← opt (t_opt t_int) None "attempt" o;
    Ok {| er_step_id := sid; er_error_type := ety; er_error_message := emsg;
          er_occurred_at := at_; er_attempt := att |};
  mo_ok _ := true |}.

Definition EscalationRef_model : ModelOf EscalationRef := {|
  mo_fields := ["escalation_id"; "step_id"; "reason"; "deadline"; "resolved"];
  mo_dump e :=
    [("escalation_id", ty_dump t_str (esc_escalation_id e));
     ("step_id", ty_dump t_str (esc_step_id e)); ("reason", ty_dump t_str (esc_reason e));
     ("deadline", ty_dump (t_opt t_time) (esc_deadline e));
     ("resolved", ty_dump t_bool (esc_resolved e))];
  mo_build o :=
    eid ← req t_str "escalation_id" o; sid ← req t_str "step_id" o; reason ← req t_str "reason" o;
    deadline ← opt (t_opt t_time) None "deadline" o; resolved ← opt t_bool false "resolved" o;
    Ok {| esc_escalation_id := eid; esc_step_id := sid; esc_reason := reason;
          esc_deadline := deadline; esc_resolved := resolved |};
  mo_ok _ := true |}.

Definition SideEffectRef_model : ModelOf SideEffectRef := {|
  mo_fields := ["idempotency_key"; "step_id"; "effect_name"; "status"];
  mo_dump r :=
    [("idempotency_key", ty_dump t_str (ser_idempotency_key r));
     ("step_id", ty_dump t_str (ser_step_id r));
     ("effect_name", ty_dump t_str (ser_effect_name r)); ("status", ty_dump t_str (ser_status r))];
  mo_build o :=
    key ← req t_str "idempotency_key" o; sid ← req t_str "step_id" o;
    name ← req t_str "effect_name" o; status ← opt t_str "pending" "status" o;
    Ok {| ser_idempotency_key := key; ser_step_id := sid; ser_effect_name := name;
          ser_status := status |};
  mo_ok _ := true |}.

Definition WorkflowInstance_model : ModelOf WorkflowInstance := {|
  mo_fields := ["instance_id"; "tenant_id"; "workflow_id"; "workflow_version"; "status"; "context";
                "step_states"; "cost_accumulated_usd"; "tokens_used"; "budget_limit_usd";
                "error_history"; "escalations"; "side_effects"; "version"; "created_at";
                "updated_at"; "completed_at"];
  mo_dump i :=
    [("instance_id", ty_dump t_str (wi_instance_id i)); ("tenant_id", ty_dump t_str (wi_tenant_id i));
     ("workflow_id", ty_dump t_str (wi_workflow_id i));
     ("workflow_version", ty_dump t_str (wi_workflow_version i));
     ("status", ty_dump t_workflow_status (wi_status i)); ("context", ty_dump t_dict (wi_context i));
     ("step_states", ty_dump (t_map (t_model StepState_model)) (wi_step_states i));
     ("cost_accumulated_usd", ty_dump t_float (wi_cost_accumulated_usd i));
     ("tokens_used", ty_dump t_tokens (wi_tokens_used i));
     ("budget_limit_usd", ty_dump (t_opt t_float) (wi_budget_limit_usd i));
     ("error_history", ty_dump (t_list (t_model ErrorRecord_model)) (wi_error_history i));
     ("escalations", ty_dump (t_list (t_model EscalationRef_model)) (wi_escalations i));
     ("side_effects", ty_dump (t_list (t_model SideEffectRef_model)) (wi_side_effects i));
     ("version", ty_dump t_int (wi_version i));
     ("created_at", ty_dump (t_opt t_time) (wi_created_at i));
     ("updated_at", ty_dump (t_opt t_time) (wi_updated_at i));
     ("completed_at", ty_dump (t_opt t_time) (wi_completed_at i))];
  mo_build o :=
    iid ← req t_str "instance_id" o; tid ← req t_str "tenant_id" o;
    wid ← req t_str "workflow_id" o; wver ← req t_str "workflow_version" o;
    status ← opt t_workflow_status WorkflowStatus.PENDING "status" o;
    context ← opt_dict "context" o;
    steps ← opt (t_map (t_model StepState_model)) ∅ "step_states" o;
    cost ← opt t_float fzero "cost_accumulated_usd" o;
    tokens ← opt t_tokens no_tokens "tokens_used" o;
    budget ← opt (t_opt t_float) None "budget_limit_usd" o;
    errors ← opt (t_list (t_model ErrorRecord_model)) [] "error_history" o;
    escalations ← opt (t_list (t_model EscalationRef_model)) [] "escalations" o;
    effects ← opt (t_list (t_model SideEffectRef_model)) [] "side_effects" o;
    version ← count "version" o; created ← opt (t_opt t_time) None "created_at" o;
    updated ← opt (t_opt t_time) None "updated_at" o;
    completed ← opt (t_opt t_time) None "completed_at" o;
    Ok {| wi_instance_id := iid; wi_tenant_id := tid; wi_workflow_id := wid;
          wi_workflow_version := wver; wi_status := status; wi_context := context;
          wi_step_states := steps; wi_cost_accumulated_usd := cost; wi_tokens_used := tokens;
          wi_budget_limit_usd := budget; wi_error_history := errors;
          wi_escalations := escalations; wi_side_effects := effects; wi_version := version;
          wi_created_at := created; wi_updated_at := updated; wi_completed_at := completed |};
  mo_ok _ := true |}.

(** [instance.model_dump(mode="json")] and [WorkflowInstance.model_validate] *)
Definition dump_instance : WorkflowInstance -> json := dump_model WorkflowInstance_model.
Definition validate_instance : json -> res WorkflowInstance := build_model WorkflowInstance_model.

(** ** Workflow definitions *)

Definition RetryPolicy_model : ModelOf RetryPolicy := {|
  mo_fields := ["max_retries"; "backoff_base_seconds"; "backoff_multiplier"; "backoff_max_seconds";
                "jitter"; "retry_on"; "fallback_model"];
  mo_dump p :=
    [("max_retries", ty_dump t_int (max_retries p));
     ("backoff_base_seconds", ty_dump t_float (backoff_base_seconds p));
     ("backoff_multiplier", ty_dump t_float (backoff_multiplier p));
     ("backoff_max_seconds", ty_dump t_float (backoff_max_seconds p));
     ("jitter", ty_dump t_float (jitter p)); ("retry_on", ty_dump (t_list t_str) (retry_on p));
     ("fallback_model", ty_dump (t_opt t_str) (fallback_model p))];
  mo_build o :=
    retries ← opt (t_where t_int (fun n => (0 <=? n) && (n <=? 20))%Z) 3%Z "max_retries" o;
    base ← opt (t_where t_float (fltb fzero)) (float_of_Z 1) "backoff_base_seconds" o;
    multiplier ← opt (t_where t_float (fleb fone)) (float_of_Z 2) "backoff_multiplier" o;
    most ← opt (t_where t_float (fltb fzero)) (float_of_Z 60) "backoff_max_seconds" o;
    jit ← opt (t_where t_float (fun x => fleb fzero x && fleb x fone)) (fratio 2 10) "jitter" o;
    on ← opt (t_list t_str) _DEFAULT_RETRYABLE "retry_on" o; fallback ← opt_str "fallback_model" o;
    Ok {| max_retries := retries; backoff_base_seconds := base; backoff_multiplier := multiplier;
          backoff_max_seconds := most; jitter := jit; retry_on := on; fallback_model := fallback |};
  mo_ok := retry_policy_valid |}.

Definition WorkflowStep_model : ModelOf WorkflowStep := {|
  mo_fields := ["step_id"; "name"; "agent_type"; "input_schema"; "output_schema"; "retry_policy";
                "timeout_seconds"; "cost_tier"; "side_effects"; "compensation_action";
                "requires_approval"; "approval_timeout_seconds"; "approval_auto_action";
                "dependencies"];
  mo_dump s :=
    [("step_id", ty_dump t_str (ws_step_id s)); ("name", ty_dump t_str (ws_name s));
     ("agent_type", ty_dump t_str (ws_agent_type s));
     ("input_schema", ty_dump t_dict (ws_input_schema s));
     ("output_schema", ty_dump t_dict (ws_output_schema s));
     ("retry_policy", ty_dump (t_model RetryPolicy_model) (ws_retry_policy s));
     ("timeout_seconds", ty_dump t_int (ws_timeout_seconds s));
     ("cost_tier", ty_dump t_cost_tier (ws_cost_tier s));
     ("side_effects", ty_dump (t_list t_str) (ws_side_effects s));
     ("compensation_action", ty_dump (t_opt t_str) (ws_compensation_action s));
     ("requires_approval", ty_dump t_bool (ws_requires_approval s));
     ("approval_timeout_seconds", ty_dump (t_opt t_int) (ws_approval_timeout_seconds s));
     ("approval_auto_action", ty_dump t_str (ws_approval_auto_action s));
     ("dependencies", ty_dump (t_list t_str) (ws_dependencies s))];
  mo_build o :=
    sid ← req (t_where t_str (fun x => id_pattern x && max_length 128 x)) "step_id" o;
    name ← req (t_where t_str (max_length 256)) "name" o;
    agent ← req (t_where t_str (max_length 128)) "agent_type" o;
    ins ← opt_dict "input_schema" o; outs ← opt_dict "output_schema" o;
    policy ← opt (t_model RetryPolicy_model) default_retry_policy "retry_policy" o;
    timeout ← opt (t_where t_int (fun n => (0 <? n) && (n <=? 86400))%Z) 300%Z "timeout_seconds" o;
    tier ← opt t_cost_tier CostTier.STANDARD "cost_tier" o;
    effects ← opt (t_list t_str) [] "side_effects" o;
    compensation ← opt_str "compensation_action" o;
    approval ← opt t_bool false "requires_approval" o;
    window ← opt (t_opt (t_where t_int (Z.ltb 0))) None "approval_timeout_seconds" o;
    action ← opt (t_literal ["approve"; "skip"; "abort"]) "abort" "approval_auto_action" o;
    deps ← opt (t_list t_str) [] "dependencies" o;
    Ok {| ws_step_id := sid; ws_name := name; ws_agent_type := agent; ws_input_schema := ins;
          ws_output_schema := outs; ws_retry_policy := policy; ws_timeout_seconds := timeout;
          ws_cost_tier := tier; ws_side_effects := effects;
          ws_compensation_action := compensation; ws_requires_approval := approval;
          ws_approval_timeout_seconds := window; ws_approval_auto_action := action;
          ws_dependencies := deps |};
  mo_ok := workflow_step_valid |}.

Definition WorkflowDefinition_model : ModelOf WorkflowDefinition := {|
  mo_fields := ["workflow_id"; "name"; "description"; "version"; "steps"; "global_timeout_seconds";
                "max_concurrent_steps"; "on_failure"];
  mo_dump d :=
    [("workflow_id", ty_dump t_str (wd_workflow_id d)); ("name", ty_dump t_str (wd_name d));
     ("description", ty_dump t_str (wd_description d)); ("version", ty_dump t_str (wd_version d));
     ("steps", ty_dump (t_list (t_model WorkflowStep_model)) (wd_steps d));
     ("global_timeout_seconds", ty_dump t_int (wd_global_timeout_seconds d));
     ("max_concurrent_steps", ty_dump t_int (wd_max_concurrent_steps d));
     ("on_failure", ty_dump t_on_failure (wd_on_failure d))];
  mo_build o :=
    wid ← req (t_where t_str (fun x => id_pattern x && max_length 64 x)) "workflow_id" o;
    name ← req (t_where t_str (max_length 256)) "name" o;
    description ← opt t_str "" "description" o;
    version ← req (t_where t_str version_pattern) "version" o;
    steps ← req (t_where (t_list (t_model WorkflowStep_model))
                   (fun l => negb (bool_decide (l = [])))) "steps" o;
    timeout ← opt (t_where t_int (Z.ltb 0)) 3600%Z "global_timeout_seconds" o;
    most ← opt (t_where t_int (fun n => (1 <=? n) && (n <=? 100))%Z) 5%Z "max_concurrent_steps" o;
    failure ← opt t_on_failure OnFailure.PAUSE "on_failure" o;
    Ok {| wd_workflow_id := wid; wd_name := name; wd_description := description;
          wd_version := version; wd_steps := steps; wd_global_timeout_seconds := timeout;
          wd_max_concurrent_steps := most; wd_on_failure := failure |};
  mo_ok := definition_fields_valid |}.

(** [definition.model_dump(mode="json")], [WorkflowDefinition.model_validate], which
    ends with the validator of the graph, and [definition.checksum]. *)
Definition dump_defn : WorkflowDefinition -> json := dump_model WorkflowDefinition_model.
Definition validate_defn (j : json) : res WorkflowDefinition :=
  d ← build_model WorkflowDefinition_model j; _validate_graph d.
Definition definition_checksum `{Hashing} (d : WorkflowDefinition) : string :=
  digest (dump_defn d).
End types.
Arguments mo_fields {A}. Arguments mo_dump {A}. Arguments mo_build {A}. Arguments mo_ok {A}.

(** ** Types are lawful *)

Section laws.
Context {L : Lax} {Ll : LaxLaws}.

Lemma lawful_where {A} (T : Ty A) ok : lawful T -> lawful (t_where T ok).
Proof.
  intros HT. split; cbn.
  - intros a [Ha Hok]%andb_prop. apply keep_if_Some. by rewrite (reads_back T HT).
  - intros j a [Hj Hok]%keep_if_Some. by rewrite (reads_only T HT j a Hj).
Qed.

Lemma lawful_map {A} (T : Ty A) : lawful T -> lawful (t_map T).
Proof.
  intros HT. split; cbn.
  - intros m Hm%bool_decide_eq_true.
    assert (forall k a, m !! k = Some a -> ty_validate T (ty_dump T a) = Some a) as Hr
      by (intros k a Hk; by apply (reads_back T HT), (Hm k)).
    rewrite bool_decide_true.
    + f_equal. apply map_eq. intros k. rewrite lookup_omap, lookup_fmap.
      destruct (m !! k) as [a|] eqn:Hk; [|done]. cbn. by apply (Hr k).
    + intros k j. rewrite lookup_fmap. destruct (m !! k) as [a|] eqn:Hk; [|done].
      cbn. intros [= <-]. rewrite (Hr k a Hk). by eexists.
  - intros [| | | | | |o] m; try done. case_bool_decide; [|done]. intros [= <-].
    apply bool_decide_eq_true. intros k a. rewrite lookup_omap.
    destruct (o !! k) as [j|]; [|done]. apply (reads_only T HT).
Qed.

Lemma map_ok {A} (T : Ty A) m : (forall a, ty_ok T a = true) -> ty_ok (t_map T) m = true.
Proof. intros HT. cbn. apply bool_decide_eq_true. intros k a _. apply HT. Qed.

Lemma lawful_cost_tier : lawful t_cost_tier.
Proof. apply lawful_enum. by intros []. Qed.
Lemma lawful_on_failure : lawful t_on_failure.
Proof. apply lawful_enum. by intros []. Qed.

(** A class is lawful when it dumps its fields, is built from what it dumps, and
    checks its constraints when it is built. *)
Record lawful_model {A} (Mo : ModelOf A) : Prop := {
  lm_fields a : (mo_dump Mo a).*1 = mo_fields Mo;
  lm_back a : mo_ok Mo a = true -> mo_build Mo (list_to_map (mo_dump Mo a)) = Ok a;
  lm_only o a : mo_build Mo o = Ok a -> mo_ok Mo a = true;
}.

Lemma build_dumped_model {A} (Mo : ModelOf A) a :
  lawful_model Mo -> mo_ok Mo a = true -> build_model Mo (dump_model Mo a) = Ok a.
Proof.
  intros HM Ha. cbn. rewrite bool_decide_true; [by apply lm_back|].
  by rewrite dom_list_to_map_L, (lm_fields Mo HM).
Qed.

Lemma build_model_ok {A} (Mo : ModelOf A) j a :
  lawful_model Mo -> build_model Mo j = Ok a -> mo_ok Mo a = true.
Proof.
  intros HM. destruct j as [| | | | | |o]; try done. cbn. case_bool_decide; [|done]. by apply lm_only.
Qed.

Lemma lawful_of_model {A} (Mo : ModelOf A) : lawful_model Mo -> lawful (t_model Mo).
Proof.
  intros HM. split; cbn [t_model ty_dump ty_validate ty_ok].
  - intros a Ha. by rewrite build_dumped_model.
  - intros j a. destruct (build_model Mo j) eqn:E; [|done]. intros [= <-]. by eapply build_model_ok.
Qed.

Lemma lawful_opt_where (T : Ty Z) ok :
  (forall a, ty_dump T a <> JNull) -> lawful T -> lawful (t_opt (t_where T ok)).
Proof. intros Hn HT. by apply lawful_opt, lawful_where. Qed.
End laws.

#[export] Hint Resolve lawful_where lawful_map lawful_cost_tier lawful_on_failure
  lawful_of_model : lawful.
#[export] Hint Extern 5 (lawful (t_opt (t_where t_int _))) => by apply lawful_opt_where;
  [|apply lawful_int] : lawful.

(** The constraints of the fields a successful build has read. *)
Ltac fields_sound :=
  repeat match goal with
  | H : req ?T _ _ = Ok _ |- _ => apply (req_sound T) in H; [|by eauto with lawful]
  | H : opt ?T _ _ _ = Ok _ |- _ =>
      apply (opt_sound T) in H; [|by eauto with lawful|by vm_compute]
  end.

Section models.
Context {L : Lax} {Ll : LaxLaws}.

Tactic Notation "plain_model" reference(M) :=
  split; [done|intros [] _; unfold M; cbn [mo_build mo_dump]; unfold opt_str, opt_dict, count, t_tokens;
    read_fields; reflexivity|done].

Lemma lawful_tokens : lawful_model TokenUsage_model.
Proof. plain_model TokenUsage_model. Qed.
#[local] Hint Resolve lawful_tokens : lawful.

Lemma lawful_recording : lawful_model LLMRecording_model.
Proof. plain_model LLMRecording_model. Qed.
#[local] Hint Resolve lawful_recording : lawful.

Lemma lawful_step_state : lawful_model StepState_model.
Proof. plain_model StepState_model. Qed.
#[local] Hint Resolve lawful_step_state : lawful.

Lemma lawful_error_record : lawful_model ErrorRecord_model.
Proof. plain_model ErrorRecord_model. Qed.
Lemma lawful_escalation_ref : lawful_model EscalationRef_model.
Proof. plain_model EscalationRef_model. Qed.
Lemma lawful_side_effect_ref : lawful_model SideEffectRef_model.
Proof. plain_model SideEffectRef_model. Qed.
#[local] Hint Resolve lawful_error_record lawful_escalation_ref lawful_side_effect_ref : lawful.

Lemma lawful_instance : lawful_model WorkflowInstance_model.
Proof.
  split; [done| |done]. intros i _.
  pose proof (map_ok (t_model StepState_model) (wi_step_states i) (fun _ => eq_refl)) as Hs.
  destruct i; unfold WorkflowInstance_model; cbn [mo_build mo_dump].
  unfold opt_str, opt_dict, count, t_tokens. read_fields. reflexivity.
Qed.

Lemma lawful_retry_policy : lawful_model RetryPolicy_model.
Proof.
  split; [done|..].
  - intros [] H. cbn in H. unfold retry_policy_valid in H. cbn in H. rewrite !andb_true_iff in H.
    destruct_and! H. unfold RetryPolicy_model. cbn [mo_build mo_dump]. unfold opt_str.
    read_fields. reflexivity.
  - intros o p H. unfold RetryPolicy_model, mo_build, opt_str in H. fields_of H. fields_sound.
    cbn in *. unfold retry_policy_valid. cbn. rewrite !andb_true_iff in *. tauto.
Qed.
#[local] Hint Resolve lawful_retry_policy : lawful.

Lemma lawful_workflow_step : lawful_model WorkflowStep_model.
Proof.
  split; [done|..].
  - intros [] H. unfold WorkflowStep_model, mo_ok, workflow_step_valid in H. cbn in H.
    rewrite !andb_true_iff in H. destruct_and! H. unfold WorkflowStep_model. cbn [mo_build mo_dump].
    unfold opt_str, opt_dict. read_fields. reflexivity.
  - intros o s H. unfold WorkflowStep_model, mo_build, opt_str, opt_dict in H. fields_of H.
    fields_sound. cbn in *. unfold workflow_step_valid. cbn. rewrite !andb_true_iff in *. tauto.
Qed.
#[local] Hint Resolve lawful_workflow_step : lawful.

Lemma lawful_definition : lawful_model WorkflowDefinition_model.
Proof.
  split; [done|..].
  - intros [] H. unfold WorkflowDefinition_model, mo_ok, definition_fields_valid in H. cbn in H.
    rewrite !andb_true_iff in H. destruct_and! H. unfold WorkflowDefinition_model. cbn [mo_build mo_dump].
    read_fields. reflexivity.
  - intros o d H. unfold WorkflowDefinition_model, mo_build in H. fields_of H. fields_sound.
    cbn in *. unfold definition_fields_valid. cbn. rewrite !andb_true_iff in *. tauto.
Qed.

Lemma validate_graph_same d d' : _validate_graph d = Ok d' -> d' = d.
Proof.
  unfold _validate_graph. case_bool_decide; [done|].
  intros ([] & _ & ([] & _ & [= <-])%bind_Ok)%bind_Ok. done.
Qed.

(** ** What is stored is read back *)

Lemma instance_reads_back i : validate_instance (dump_instance i) = Ok i.
Proof. by apply (build_dumped_model WorkflowInstance_model); [apply lawful_instance|]. Qed.

Lemma definition_reads_back d : definition_valid d = true -> validate_defn (dump_defn d) = Ok d.
Proof.
  intros [Hf (d' & Hg)%is_ok_true]%andb_prop. unfold validate_defn, dump_defn.
  rewrite (build_dumped_model WorkflowDefinition_model) by (done || apply lawful_definition).
  cbn [mbind result_bind]. by rewrite Hg, (validate_graph_same _ _ Hg).
Qed.

(** Whatever JSON was read, it had no key of no field, and what was read satisfies
    the constraints of its class. *)
Lemma definition_read j d : validate_defn j = Ok d ->
  definition_valid d = true /\
  exists o, j = JObj o /\ dom o ⊆ (list_to_set (mo_fields WorkflowDefinition_model) : gset string).
Proof.
  intros (d' & Hb & Hg)%bind_Ok. pose proof (validate_graph_same _ _ Hg) as ->. split.
  - unfold definition_valid. rewrite Hg, andb_true_r.
    exact (build_model_ok WorkflowDefinition_model j d' lawful_definition Hb).
  - destruct j as [| | | | | |o]; try done. exists o. split; [done|]. cbn in Hb.
    by case_bool_decide.
Qed.

Lemma definition_valid_iff d :
  definition_valid d = true <-> definition_fields_valid d = true /\ valid_definition d.
Proof.
  unfold definition_valid. rewrite andb_true_iff, <- validate_graph_iff. split; intros [Hf Hg]; split; try done.
  - apply is_ok_true in Hg as [d' Hg]. by rewrite Hg, (validate_graph_same _ _ Hg).
  - by rewrite Hg.
Qed.

(** C22: Exactly the valid definitions are admitted.  A definition is read back from its
    dump if and only if every field satisfies its constraint (its own, its steps',
    their retry policies'), its step ids are distinct, its dependencies exist and form
    no cycle, and its compensations have side effects.  Whatever JSON a client, a file
    or a row of the registry holds, if it is read as a definition then that definition
    is such a one, and the object has no key of no field. *)
Theorem definition_admission :
  (forall d, validate_defn (dump_defn d) = Ok d <->
     definition_fields_valid d = true /\ valid_definition d) /\
  (forall j d, validate_defn j = Ok d ->
     validate_defn (dump_defn d) = Ok d /\
     exists o, j = JObj o /\
       dom o ⊆ (list_to_set (mo_fields WorkflowDefinition_model) : gset string)).
Proof.
  split.
  - intros d. rewrite <- definition_valid_iff. split; [|apply definition_reads_back].
    by intros [Hv _]%definition_read.
  - intros j d H. apply definition_read in H as [Hv Ho]. split; [by apply definition_reads_back|done].
Qed.
End models.
End StateModels.

(** ** The codec of the database *)
Import EventModels StateModels.

Definition json_codec {L : Lax} {Hh : Hashing} : Codec := {|
  jsonb := json;
  Tables.dump_event e := JObj (EventModels.dump_event e);
  Tables.parse_event j := match j with
                   | JObj o => EventModels.parse_event o
                   | _ => Err (ValidationError "event")
                   end;
  dump_state := dump_instance;
  validate_state := validate_instance;
  dump_definition := dump_defn;
  validate_definition := validate_defn;
  checksum := definition_checksum;
|}.

Lemma json_codec_laws {L : Lax} {Ll : LaxLaws} {Hh : Hashing} : @CodecLaws json_codec.
Proof.
  split.
  - exact event_reads_back.
  - exact instance_reads_back.
  - exact definition_reads_back.
Qed.

Import CodecSample.

(** A definition as a client sends it: what is left out takes its default. *)
Definition client_definition (extra : list (string * json)) : json :=
  JObj (list_to_map ([("workflow_id", JStr "wf"); ("name", JStr "Workflow"); ("version", JStr "1.0.0");
    ("steps", JArr [JObj (list_to_map [("step_id", JStr "a"); ("name", JStr "A");
                                       ("agent_type", JStr "agent")])])] ++ extra)).

Lemma definition_admission_witness :
  validate_defn (dump_defn Sample.defn) = Ok Sample.defn /\ valid_definition Sample.defn /\
  (exists d, validate_defn (client_definition []) = Ok d /\ wd_max_concurrent_steps d = 5%Z /\
     validate_defn (dump_defn d) = Ok d) /\
  is_ok (validate_defn (client_definition [("colour", JStr "red")])) = false /\
  is_ok (validate_defn (client_definition [("max_concurrent_steps", JInt 101)])) = false.
Proof.
  pose proof definition_admission as [Hd Hj].
  assert (validate_defn (dump_defn Sample.defn) = Ok Sample.defn) as Hs
    by (vm_compute; reflexivity).
  split; [exact Hs|]. split; [exact (proj2 (proj1 (Hd Sample.defn) Hs))|].
  split; [|split; vm_compute; reflexivity].
  destruct (validate_defn (client_definition [])) as [d|e] eqn:E; [|vm_compute in E; discriminate E].
  exists d. split; [reflexivity|]. split; [vm_compute in E; injection E as <-; reflexivity|].
  exact (proj1 (Hj (client_definition []) d E)).
Defined.
