(* ===== verification/Schema.v ===== *)
(** The schema: the migrations ([migrations/versions/]) as data-definition
    statements over a catalogue of tables, and the tables the ORM declares
    ([core/persistence/tables.py]).

    A statement fails as PostgreSQL fails it: creating what exists, naming what does
    not, dropping a table another one references.  A revision is the list of its
    statements, run in one transaction. *)

From stdpp Require Import base strings list gmap.
From Stdlib Require Import ZArith.
From S2P Require Import Prelude Exceptions.

(** ** The catalogue *)

Inductive sqltype :=
| VARCHAR (length : option Z) | BIGINT | INTEGER | BOOLEAN | FLOAT | DATE | TIMESTAMPTZ | JSONB.

Inductive server_default := NoDefault | Now | Literal (text : string).

#[export] Instance sqltype_eq_dec : EqDecision sqltype.
Proof. solve_decision. Defined.
#[export] Instance server_default_eq_dec : EqDecision server_default.
Proof. solve_decision. Defined.

Record Column := {
  col_name : string;
  col_type : sqltype;
  col_nullable : bool;
  col_default : server_default;
  col_autoincrement : bool;
}.

Record ForeignKey := {
  fk_name : string;
  fk_columns : list string;
  fk_table : string;
  fk_referred : list string;
}.

Record Table := {
  tb_columns : list Column;
  tb_primary : list string;
  tb_unique : list (string * list string);
  tb_foreign : list ForeignKey;
  tb_indexes : list (string * list string);
  tb_rls : bool;
  tb_policies : list string;
}.

#[export] Instance column_eq_dec : EqDecision Column.
Proof. solve_decision. Defined.
#[export] Instance foreign_key_eq_dec : EqDecision ForeignKey.
Proof. solve_decision. Defined.
#[export] Instance table_eq_dec : EqDecision Table.
Proof. solve_decision. Defined.

Abbreviation Catalogue := (gmap string Table).

Definition with_indexes (ix : list (string * list string)) (t : Table) : Table := {|
  tb_columns := tb_columns t; tb_primary := tb_primary t; tb_unique := tb_unique t;
  tb_foreign := tb_foreign t; tb_indexes := ix; tb_rls := tb_rls t;
  tb_policies := tb_policies t |}.

Definition with_security (rls : bool) (policies : list string) (t : Table) : Table := {|
  tb_columns := tb_columns t; tb_primary := tb_primary t; tb_unique := tb_unique t;
  tb_foreign := tb_foreign t; tb_indexes := tb_indexes t; tb_rls := rls;
  tb_policies := policies |}.

Definition column_names (t : Table) : list string := col_name <$> tb_columns t.

(** ** Statements *)

Inductive statement :=
| CreateTable (name : string) (columns : list Column) (primary : list string)
    (unique : list (string * list string)) (foreign : list ForeignKey)
| CreateIndex (index table : string) (columns : list string)
| DropTable (name : string)
| EnableRls (table : string)
| DisableRls (table : string)
| CreatePolicy (policy table : string)
| DropPolicyIfExists (policy table : string).

Definition SqlError (msg : string) : exn := Exn (PyExc "ProgrammingError") msg.

(** A primary key makes its columns [NOT NULL]. *)
Definition table_of (columns : list Column) (primary : list string)
    (unique : list (string * list string)) (foreign : list ForeignKey) : Table := {|
  tb_columns := (fun c => {| col_name := col_name c; col_type := col_type c;
      col_nullable := col_nullable c && negb (bool_decide (col_name c ∈ primary));
      col_default := col_default c; col_autoincrement := col_autoincrement c |}) <$> columns;
  tb_primary := primary; tb_unique := unique; tb_foreign := foreign; tb_indexes := [];
  tb_rls := false; tb_policies := [] |}.

(** The columns of a constraint are columns of the table. *)
Definition known (t : Table) (columns : list string) : bool :=
  forallb (fun c => bool_decide (c ∈ column_names t)) columns.

(** A foreign key refers to the primary key of a table that exists. *)
Definition refers (s : Catalogue) (t : Table) (fk : ForeignKey) : bool :=
  known t (fk_columns fk) &&
  match s !! fk_table fk with
  | Some target => bool_decide (fk_referred fk = tb_primary target)
  | None => false
  end.

Definition well_declared (s : Catalogue) (t : Table) : bool :=
  bool_decide (NoDup (column_names t)) && known t (tb_primary t) &&
  forallb (fun u => known t u.2) (tb_unique t) && forallb (refers s t) (tb_foreign t).

(** Some other table refers to [name]. *)
Definition referenced (s : Catalogue) (name : string) : bool :=
  bool_decide (map_Exists (fun other t =>
    other <> name /\ name ∈ (fk_table <$> tb_foreign t)) s).

(** Index names are unique in the catalogue. *)
Definition index_taken (s : Catalogue) (index : string) : bool :=
  bool_decide (map_Exists (fun _ t => index ∈ (fst <$> tb_indexes t)) s).

(** A statement about a table that must exist. *)
Definition on_table (s : Catalogue) (name : string) (f : Table -> res Table) : res Catalogue :=
  match s !! name with
  | Some t => t' ← f t; Ok (<[name := t']> s)
  | None => Err (SqlError ("relation " +:+ name +:+ " does not exist"))
  end.

Definition execute (s : Catalogue) (st : statement) : res Catalogue :=
  match st with
  | CreateTable name columns primary unique foreign =>
      let t := table_of columns primary unique foreign in
      match s !! name with
      | Some _ => Err (SqlError ("relation " +:+ name +:+ " already exists"))
      | None => if well_declared s t then Ok (<[name := t]> s)
                else Err (SqlError ("invalid definition of " +:+ name))
      end
  | CreateIndex index table columns =>
      if index_taken s index then Err (SqlError ("relation " +:+ index +:+ " already exists"))
      else on_table s table (fun t =>
             if known t columns then Ok (with_indexes (tb_indexes t ++ [(index, columns)]) t)
             else Err (SqlError ("column of " +:+ index +:+ " does not exist")))
  | DropTable name =>
      match s !! name with
      | None => Err (SqlError ("table " +:+ name +:+ " does not exist"))
      | Some _ => if referenced s name
                  then Err (SqlError ("cannot drop table " +:+ name))
                  else Ok (delete name s)
      end
  | EnableRls table => on_table s table (fun t => Ok (with_security true (tb_policies t) t))
  | DisableRls table => on_table s table (fun t => Ok (with_security false (tb_policies t) t))
  | CreatePolicy policy table =>
      on_table s table (fun t =>
        if bool_decide (policy ∈ tb_policies t)
        then Err (SqlError ("policy " +:+ policy +:+ " already exists"))
        else Ok (with_security (tb_rls t) (tb_policies t ++ [policy]) t))
  | DropPolicyIfExists policy table =>
      on_table s table (fun t =>
        Ok (with_security (tb_rls t) (filter (fun p => p <> policy) (tb_policies t)) t))
  end.

Definition run_statements (s : Catalogue) (sts : list statement) : res Catalogue :=
  foldM execute s sts.

(** ** Columns as the migrations write them *)

Definition column (name : string) (ty : sqltype) (nullable : bool) (d : server_default) : Column :=
  {| col_name := name; col_type := ty; col_nullable := nullable; col_default := d;
     col_autoincrement := false |}.

(** [nullable=False], with or without a server default; [nullable=True]; and the
    timestamps that only have [server_default=sa.func.now()]. *)
Definition req name ty := column name ty false NoDefault.
Definition dflt name ty text := column name ty false (Literal text).
Definition opt name ty := column name ty true NoDefault.
Definition stamp name := column name TIMESTAMPTZ true Now.
Definition serial name := {| col_name := name; col_type := BIGINT; col_nullable := false;
  col_default := NoDefault; col_autoincrement := true |}.
Definition str (n : Z) : sqltype := VARCHAR (Some n).
Definition text : sqltype := VARCHAR None.

(** ** The revisions *)

Module Migrations.

Definition workflow_definitions : list statement := [
  CreateTable "workflow_definitions"
    [req "tenant_id" (str 64); req "workflow_id" (str 64); req "version" (str 32);
     req "name" (str 256); dflt "description" text ""; req "definition" JSONB;
     req "checksum" (str 64); dflt "is_active" BOOLEAN "true"; stamp "created_at";
     stamp "updated_at"]
    ["tenant_id"; "workflow_id"; "version"]
    [("uq_defn_name_version", ["tenant_id"; "name"; "version"])] [];
  CreateIndex "ix_defn_active" "workflow_definitions" ["tenant_id"; "name"; "is_active"]].

Definition workflow_events : list statement := [
  CreateTable "workflow_events"
    [serial "id"; req "instance_id" (str 36); req "tenant_id" (str 64); req "sequence" INTEGER;
     req "event_type" (str 64); req "payload" JSONB; req "occurred_at" TIMESTAMPTZ;
     stamp "recorded_at"]
    ["id"] [("uq_event_instance_sequence", ["instance_id"; "sequence"])] [];
  CreateIndex "ix_events_instance_seq" "workflow_events" ["instance_id"; "sequence"];
  CreateIndex "ix_events_tenant_recorded" "workflow_events" ["tenant_id"; "recorded_at"];
  CreateIndex "ix_events_type" "workflow_events" ["event_type"]].

Definition instance_snapshots : list statement := [
  CreateTable "instance_snapshots"
    [req "instance_id" (str 36); req "tenant_id" (str 64); req "version" INTEGER;
     req "state" JSONB; stamp "created_at"]
    ["instance_id"] [] [];
  CreateIndex "ix_snapshots_tenant" "instance_snapshots" ["tenant_id"]].

Definition instance_index : list statement := [
  CreateTable "instance_index"
    [req "instance_id" (str 36); req "tenant_id" (str 64); req "workflow_id" (str 64);
     req "workflow_version" (str 32); req "status" (str 32); dflt "last_sequence" INTEGER "0";
     dflt "cost_accumulated_usd" FLOAT "0"; opt "budget_limit_usd" FLOAT;
     opt "next_wakeup_at" TIMESTAMPTZ; stamp "created_at"; stamp "updated_at";
     opt "completed_at" TIMESTAMPTZ]
    ["instance_id"] []
    [{| fk_name := "fk_index_definition";
        fk_columns := ["tenant_id"; "workflow_id"; "workflow_version"];
        fk_table := "workflow_definitions";
        fk_referred := ["tenant_id"; "workflow_id"; "version"] |}];
  CreateIndex "ix_index_tenant_status" "instance_index" ["tenant_id"; "status"];
  CreateIndex "ix_index_status_wakeup" "instance_index" ["status"; "next_wakeup_at"];
  CreateIndex "ix_index_updated" "instance_index" ["updated_at"]].

Definition upgrade_0001 : list statement :=
  workflow_definitions ++ workflow_events ++ instance_snapshots ++ instance_index.
Definition downgrade_0001 : list statement :=
  [DropTable "instance_index"; DropTable "instance_snapshots"; DropTable "workflow_events";
   DropTable "workflow_definitions"].

Definition upgrade_0002 : list statement := [
  CreateTable "instance_leases"
    [req "instance_id" (str 36); req "tenant_id" (str 64); req "worker_id" (str 128);
     req "acquired_at" TIMESTAMPTZ; req "heartbeat_at" TIMESTAMPTZ; req "expires_at" TIMESTAMPTZ;
     dflt "fence_token" BIGINT "1"]
    ["instance_id"] [] [];
  CreateIndex "ix_leases_expires" "instance_leases" ["expires_at"];
  CreateIndex "ix_leases_worker" "instance_leases" ["worker_id"];
  CreateTable "dead_letters"
    [serial "id"; req "instance_id" (str 36); req "tenant_id" (str 64); opt "step_id" (str 128);
     req "reason" (str 256); opt "error_type" (str 128); opt "error_message" text;
     req "at_version" INTEGER; dflt "resolved" BOOLEAN "false"; stamp "created_at";
     opt "resolved_at" TIMESTAMPTZ]
    ["id"] [] [];
  CreateIndex "ix_dlq_tenant_created" "dead_letters" ["tenant_id"; "created_at"];
  CreateIndex "ix_dlq_resolved" "dead_letters" ["resolved"]].
Definition downgrade_0002 : list statement :=
  [DropTable "dead_letters"; DropTable "instance_leases"].

Definition upgrade_0003 : list statement := [
  CreateTable "side_effect_outbox"
    [req "idempotency_key" (str 64); req "instance_id" (str 36); req "tenant_id" (str 64);
     req "step_id" (str 128); req "effect_name" (str 128); req "provider" (str 64);
     req "params" JSONB; dflt "guarantee" (str 32) "at_least_once_dedup";
     dflt "status" (str 32) "pending"; dflt "attempts" INTEGER "0"; opt "result" JSONB;
     opt "provider_ref" (str 256); opt "error" text; opt "compensation_status" (str 32);
     stamp "created_at"; stamp "updated_at"]
    ["idempotency_key"] [] [];
  CreateIndex "ix_outbox_instance" "side_effect_outbox" ["instance_id"];
  CreateIndex "ix_outbox_status" "side_effect_outbox" ["status"]].
Definition downgrade_0003 : list statement := [DropTable "side_effect_outbox"].

Definition upgrade_0004 : list statement := [
  CreateTable "tenant_cost_ledger"
    [req "tenant_id" (str 64); req "day" DATE; dflt "cost_usd" FLOAT "0"; stamp "updated_at"]
    ["tenant_id"; "day"] [] []].
Definition downgrade_0004 : list statement := [DropTable "tenant_cost_ledger"].

Definition upgrade_0005 : list statement := [
  CreateTable "escalations"
    [req "escalation_id" (str 64); req "instance_id" (str 36); req "tenant_id" (str 64);
     req "step_id" (str 128); req "reason" (str 64); dflt "recommendation" text "";
     dflt "confidence" FLOAT "0"; dflt "options" JSONB "[]"; dflt "auto_action" (str 16) "abort";
     opt "deadline" TIMESTAMPTZ; dflt "status" (str 16) "pending"; opt "resolution" (str 16);
     opt "resolved_by" (str 128); req "created_at" TIMESTAMPTZ; opt "resolved_at" TIMESTAMPTZ]
    ["escalation_id"] [] [];
  CreateIndex "ix_esc_tenant_status" "escalations" ["tenant_id"; "status"];
  CreateIndex "ix_esc_deadline" "escalations" ["status"; "deadline"];
  CreateIndex "ix_esc_instance" "escalations" ["instance_id"]].
Definition downgrade_0005 : list statement := [DropTable "escalations"].

Definition _RLS_TABLES : list string :=
  ["workflow_events"; "instance_snapshots"; "instance_index"; "side_effect_outbox";
   "escalations"; "dead_letters"].

Definition secure (table : string) : list statement :=
  [EnableRls table; CreatePolicy "tenant_isolation" table].
Definition release (table : string) : list statement :=
  [DropPolicyIfExists "tenant_isolation" table; DisableRls table].

Definition api_keys : list statement := [
  CreateTable "api_keys"
    [req "key_id" (str 32); req "key_hash" (str 64); req "tenant_id" (str 64);
     req "principal_name" (str 128); dflt "scopes" JSONB "[]"; dflt "disabled" BOOLEAN "false";
     stamp "created_at"; opt "last_used_at" TIMESTAMPTZ]
    ["key_id"] [] [];
  CreateIndex "ix_apikey_tenant" "api_keys" ["tenant_id"]].

Definition upgrade_0006 : list statement := api_keys ++ (_RLS_TABLES ≫= secure).
Definition downgrade_0006 : list statement := (_RLS_TABLES ≫= release) ++ [DropTable "api_keys"].

(** The [USING] clause of [tenant_isolation]: [setting] is
    [current_setting('agentforge.tenant_id', true)]. *)
Definition tenant_isolation (setting : option string) (tenant_id : string) : bool :=
  match setting with None => true | Some t => bool_decide (tenant_id = t) end.

(** The rows of a table a session sees: all of them when the table has no row-level
    security or the session's role owns it (the revisions do not force the policies
    on the owner), and those some policy admits otherwise. *)
Definition visible (t : Table) (owner : bool) (setting : option string) (tenant_id : string)
    : bool :=
  negb (tb_rls t) || owner ||
  existsb (fun p => bool_decide (p = "tenant_isolation") && tenant_isolation setting tenant_id)
    (tb_policies t).

Record Revision := {
  revision : string;
  down_revision : option string;
  upgrade : list statement;
  downgrade : list statement;
}.

Definition history : list Revision := [
  {| revision := "0001_event_sourced_core"; down_revision := None;
     upgrade := upgrade_0001; downgrade := downgrade_0001 |};
  {| revision := "0002_leases_and_dead_letters"; down_revision := Some "0001_event_sourced_core";
     upgrade := upgrade_0002; downgrade := downgrade_0002 |};
  {| revision := "0003_side_effect_outbox"; down_revision := Some "0002_leases_and_dead_letters";
     upgrade := upgrade_0003; downgrade := downgrade_0003 |};
  {| revision := "0004_tenant_cost_ledger"; down_revision := Some "0003_side_effect_outbox";
     upgrade := upgrade_0004; downgrade := downgrade_0004 |};
  {| revision := "0005_escalations"; down_revision := Some "0004_tenant_cost_ledger";
     upgrade := upgrade_0005; downgrade := downgrade_0005 |};
  {| revision := "0006_api_keys"; down_revision := Some "0005_escalations";
     upgrade := upgrade_0006; downgrade := downgrade_0006 |}].

(** Each revision revises the one before it. *)
Fixpoint linear (base : option string) (rs : list Revision) : bool :=
  match rs with
  | [] => true
  | r :: rs' => bool_decide (down_revision r = base) && linear (Some (revision r)) rs'
  end.

(** [alembic upgrade head] *)
Definition upgrade_head (s : Catalogue) : res Catalogue :=
  run_statements s (history ≫= upgrade).

End Migrations.

(** ** The tables the ORM declares *)

Module Models.

(** A mapped column is [NOT NULL] unless its type is optional or it says so; Python
    side defaults are not server defaults. *)
Definition mapped (name : string) (ty : sqltype) : Column := column name ty false NoDefault.
Definition optional (name : string) (ty : sqltype) : Column := column name ty true NoDefault.
Definition now (name : string) : Column := column name TIMESTAMPTZ false Now.

Definition model (columns : list Column) (primary : list string)
    (unique : list (string * list string)) (foreign : list ForeignKey)
    (indexes : list (string * list string)) : Table :=
  with_indexes indexes (table_of columns primary unique foreign).

Definition WorkflowDefinitionRow : Table := model
  [mapped "tenant_id" (str 64); mapped "workflow_id" (str 64); mapped "version" (str 32);
   mapped "name" (str 256); mapped "description" text; mapped "definition" JSONB;
   mapped "checksum" (str 64); mapped "is_active" BOOLEAN; now "created_at"; now "updated_at"]
  ["tenant_id"; "workflow_id"; "version"]
  [("uq_defn_name_version", ["tenant_id"; "name"; "version"])] []
  [("ix_defn_active", ["tenant_id"; "name"; "is_active"])].

Definition WorkflowEventRow : Table := model
  [serial "id"; mapped "instance_id" (str 36); mapped "tenant_id" (str 64);
   mapped "sequence" INTEGER; mapped "event_type" (str 64); mapped "payload" JSONB;
   mapped "occurred_at" TIMESTAMPTZ; now "recorded_at"]
  ["id"] [("uq_event_instance_sequence", ["instance_id"; "sequence"])] []
  [("ix_events_instance_seq", ["instance_id"; "sequence"]);
   ("ix_events_tenant_recorded", ["tenant_id"; "recorded_at"]);
   ("ix_events_type", ["event_type"])].

Definition InstanceSnapshotRow : Table := model
  [mapped "instance_id" (str 36); mapped "tenant_id" (str 64); mapped "version" INTEGER;
   mapped "state" JSONB; now "created_at"]
  ["instance_id"] [] [] [("ix_snapshots_tenant", ["tenant_id"])].

Definition InstanceIndexRow : Table := model
  [mapped "instance_id" (str 36); mapped "tenant_id" (str 64); mapped "workflow_id" (str 64);
   mapped "workflow_version" (str 32); mapped "status" (str 32); mapped "last_sequence" INTEGER;
   mapped "cost_accumulated_usd" FLOAT; optional "budget_limit_usd" FLOAT;
   optional "next_wakeup_at" TIMESTAMPTZ; now "created_at"; now "updated_at";
   optional "completed_at" TIMESTAMPTZ]
  ["instance_id"] []
  [{| fk_name := "fk_index_definition";
      fk_columns := ["tenant_id"; "workflow_id"; "workflow_version"];
      fk_table := "workflow_definitions";
      fk_referred := ["tenant_id"; "workflow_id"; "version"] |}]
  [("ix_index_tenant_status", ["tenant_id"; "status"]);
   ("ix_index_status_wakeup", ["status"; "next_wakeup_at"]);
   ("ix_index_updated", ["updated_at"])].

Definition InstanceLeaseRow : Table := model
  [mapped "instance_id" (str 36); mapped "tenant_id" (str 64); mapped "worker_id" (str 128);
   mapped "acquired_at" TIMESTAMPTZ; mapped "heartbeat_at" TIMESTAMPTZ;
   mapped "expires_at" TIMESTAMPTZ; mapped "fence_token" BIGINT]
  ["instance_id"] [] []
  [("ix_leases_expires", ["expires_at"]); ("ix_leases_worker", ["worker_id"])].

Definition DeadLetterRow : Table := model
  [serial "id"; mapped "instance_id" (str 36); mapped "tenant_id" (str 64);
   optional "step_id" (str 128); mapped "reason" (str 256); optional "error_type" (str 128);
   optional "error_message" text; mapped "at_version" INTEGER; mapped "resolved" BOOLEAN;
   now "created_at"; optional "resolved_at" TIMESTAMPTZ]
  ["id"] [] []
  [("ix_dlq_tenant_created", ["tenant_id"; "created_at"]); ("ix_dlq_resolved", ["resolved"])].

Definition SideEffectOutboxRow : Table := model
  [mapped "idempotency_key" (str 64); mapped "instance_id" (str 36); mapped "tenant_id" (str 64);
   mapped "step_id" (str 128); mapped "effect_name" (str 128); mapped "provider" (str 64);
   mapped "params" JSONB; mapped "guarantee" (str 32); mapped "status" (str 32);
   mapped "attempts" INTEGER; optional "result" JSONB; optional "provider_ref" (str 256);
   optional "error" text; optional "compensation_status" (str 32); now "created_at";
   now "updated_at"]
  ["idempotency_key"] [] []
  [("ix_outbox_instance", ["instance_id"]); ("ix_outbox_status", ["status"])].

Definition TenantCostLedgerRow : Table := model
  [mapped "tenant_id" (str 64); mapped "day" DATE; mapped "cost_usd" FLOAT; now "updated_at"]
  ["tenant_id"; "day"] [] [] [].

Definition ApiKeyRow : Table := model
  [mapped "key_id" (str 32); mapped "key_hash" (str 64); mapped "tenant_id" (str 64);
   mapped "principal_name" (str 128); mapped "scopes" JSONB; mapped "disabled" BOOLEAN;
   now "created_at"; optional "last_used_at" TIMESTAMPTZ]
  ["key_id"] [] [] [("ix_apikey_tenant", ["tenant_id"])].

Definition EscalationRow : Table := model
  [mapped "escalation_id" (str 64); mapped "instance_id" (str 36); mapped "tenant_id" (str 64);
   mapped "step_id" (str 128); mapped "reason" (str 64); mapped "recommendation" text;
   mapped "confidence" FLOAT; mapped "options" JSONB; mapped "auto_action" (str 16);
   optional "deadline" TIMESTAMPTZ; mapped "status" (str 16); optional "resolution" (str 16);
   optional "resolved_by" (str 128); mapped "created_at" TIMESTAMPTZ;
   optional "resolved_at" TIMESTAMPTZ]
  ["escalation_id"] [] []
  [("ix_esc_tenant_status", ["tenant_id"; "status"]); ("ix_esc_deadline", ["status"; "deadline"]);
   ("ix_esc_instance", ["instance_id"])].

(** [Base.metadata] *)
Definition metadata : Catalogue := list_to_map [
  ("workflow_definitions", WorkflowDefinitionRow); ("workflow_events", WorkflowEventRow);
  ("instance_snapshots", InstanceSnapshotRow); ("instance_index", InstanceIndexRow);
  ("instance_leases", InstanceLeaseRow); ("dead_letters", DeadLetterRow);
  ("side_effect_outbox", SideEffectOutboxRow); ("tenant_cost_ledger", TenantCostLedgerRow);
  ("api_keys", ApiKeyRow); ("escalations", EscalationRow)].

End Models.
