(* ===== verification/SchemaTheory.v ===== *)
(** The schema the migrations build: what the ORM declares, what a downgrade undoes,
    and which rows the row-level security policies show. *)

From stdpp Require Import base strings list gmap.
From Stdlib Require Import ZArith.
From S2P Require Import Prelude Exceptions Schema.

Import Migrations.

(** ** Running statements *)

Lemma run_app s a b : run_statements s (a ++ b) = run_statements s a ≫= fun s' => run_statements s' b.
Proof. revert s; induction a as [|st a IH]; intros s; cbn; [done|]. by destruct (execute s st); cbn. Qed.

Lemma run_app_inv s a b s' : run_statements s (a ++ b) = Ok s' ->
  exists m, run_statements s a = Ok m /\ run_statements m b = Ok s'.
Proof. rewrite run_app. destruct (run_statements s a) as [m|]; cbn; [eauto | done]. Qed.

Lemma run_app_ok s a m b s' : run_statements s a = Ok m -> run_statements m b = Ok s' ->
  run_statements s (a ++ b) = Ok s'.
Proof. rewrite run_app. by intros ->. Qed.

(** ** Catalogues whose references are met *)

Definition closed (s : Catalogue) : Prop := forall n t fk,
  s !! n = Some t -> fk ∈ tb_foreign t -> is_Some (s !! fk_table fk).

Definition unsecured (s : Catalogue) : Prop := forall n t,
  n ∈ _RLS_TABLES -> s !! n = Some t -> tb_rls t = false.

Lemma closed_empty : closed ∅.
Proof. by intros n t fk; rewrite lookup_empty. Qed.

(** A table that was not there has no reference to it. *)
Lemma fresh_unreferenced s n t : closed s -> s !! n = None -> referenced (<[n := t]> s) n = false.
Proof.
  intros Hc Hn. apply bool_decide_eq_false_2. intros (m & u & Hl & Hne & Hin).
  rewrite lookup_insert_ne in Hl by done. apply list_elem_of_fmap in Hin as (fk & -> & Hfk).
  destruct (Hc m u fk Hl Hfk) as [? ?]. congruence.
Qed.

(** ** A table and its indexes *)

(** The statements [op.create_index] adds to a table. *)
Definition indexes_on (n : string) (st : statement) : Prop :=
  match st with CreateIndex _ table _ => table = n | _ => False end.

Lemma run_indexes n sts s t s' : Forall (indexes_on n) sts -> s !! n = Some t ->
  run_statements s sts = Ok s' ->
  exists t', s' = <[n := t']> s /\ tb_foreign t' = tb_foreign t.
Proof.
  revert s t; induction sts as [|st sts IH]; intros s t Hf Ht Hr.
  { injection Hr as <-. exists t. by rewrite insert_id. }
  apply Forall_cons in Hf as [Hst Hf]. destruct st as [|ix tb cols| | | | |]; try done.
  cbn in Hst; subst tb. cbn in Hr. unfold on_table in Hr. rewrite Ht in Hr.
  destruct (index_taken s ix); [done|]. destruct (known t cols); [|done]. cbn in Hr.
  eapply IH in Hr as (t' & -> & Hfk); [|done|apply lookup_insert_eq].
  exists t'. by rewrite insert_insert_eq.
Qed.

Lemma well_declared_refers s t fk : well_declared s t = true -> fk ∈ tb_foreign t ->
  is_Some (s !! fk_table fk).
Proof.
  unfold well_declared. intros [_ Hf]%andb_prop Hin.
  eapply forallb_forall in Hf; [|by apply list_elem_of_In].
  unfold refers in Hf. apply andb_prop in Hf as [_ Hf]. by destruct (s !! fk_table fk).
Qed.

(** [down] undoes [up], wherever [up] succeeds. *)
Definition inverts (up down : list statement) : Prop := forall s s',
  closed s -> run_statements s up = Ok s' -> closed s' /\ run_statements s' down = Ok s.

Lemma inverts_app u1 d1 u2 d2 : inverts u1 d1 -> inverts u2 d2 -> inverts (u1 ++ u2) (d2 ++ d1).
Proof.
  intros H1 H2 s s' Hc (m & Hu1 & Hu2)%run_app_inv.
  destruct (H1 s m Hc Hu1) as [Hcm Hd1]. destruct (H2 m s' Hcm Hu2) as [Hc' Hd2].
  split; [done|]. by eapply run_app_ok.
Qed.

Lemma run_create (s : Catalogue) n cols pk us fks ixs (s' : Catalogue) :
  Forall (indexes_on n) ixs ->
  run_statements s (CreateTable n cols pk us fks :: ixs) = Ok s' ->
  s !! n = None /\ exists t, s' = <[n := t]> s /\
    forall fk, fk ∈ tb_foreign t -> is_Some (s !! fk_table fk).
Proof.
  intros Hix Hr. cbn in Hr. destruct (s !! n) eqn:Hn; [done|]. split; [done|].
  destruct (well_declared s (table_of cols pk us fks)) eqn:Hw; [|done]. cbn in Hr.
  eapply run_indexes in Hr as (t & -> & Hfk); [|done|apply lookup_insert_eq].
  exists t. rewrite insert_insert_eq, Hfk. split; [done|]. intros fk.
  by apply well_declared_refers.
Qed.

Lemma inverts_create n cols pk us fks ixs : Forall (indexes_on n) ixs ->
  inverts (CreateTable n cols pk us fks :: ixs) [DropTable n].
Proof.
  intros Hix s s' Hc (Hn & t & -> & Hfk)%run_create; [|done]. split.
  - intros m u fk Hl Hin. apply lookup_insert_is_Some'. right.
    apply lookup_insert_Some in Hl as [[-> ->]|[_ Hl]]; [by apply Hfk | by eapply Hc].
  - cbn. rewrite lookup_insert_eq, fresh_unreferenced by done. cbn. f_equal.
    by rewrite delete_insert_id.
Qed.

(** ** Row-level security *)

Definition secured : Table -> Table := fun t =>
  with_security true (tb_policies t ++ ["tenant_isolation"]) t.
Definition released : Table -> Table := fun t =>
  with_security false (filter (fun p => p <> "tenant_isolation") (tb_policies t)) t.

Lemma run_secure s n s' : run_statements s (secure n) = Ok s' ->
  exists t, s !! n = Some t /\ "tenant_isolation" ∉ tb_policies t /\ s' = <[n := secured t]> s.
Proof.
  cbn. unfold on_table. destruct (s !! n) as [t|] eqn:Hn; [|done]. cbn.
  rewrite lookup_insert_eq. cbn. case_bool_decide; [done|]. cbn. intros [= <-].
  exists t. by rewrite insert_insert_eq.
Qed.

Lemma run_release s n t : s !! n = Some t ->
  run_statements s (release n) = Ok (<[n := released t]> s).
Proof.
  intros Hn. cbn. unfold on_table. rewrite Hn. cbn. rewrite lookup_insert_eq. cbn.
  by rewrite insert_insert_eq.
Qed.

(** Applying [f] to the tables of a list. *)
Definition over (ts : list string) (f : Table -> Table) (s : Catalogue) : Catalogue :=
  map_imap (fun n t => Some (if decide (n ∈ ts) then f t else t)) s.

Lemma over_lookup ts f s n :
  over ts f s !! n = (fun t => if decide (n ∈ ts) then f t else t) <$> s !! n.
Proof. unfold over. rewrite map_lookup_imap. by destruct (s !! n). Qed.

Lemma over_cons n ts f s t : n ∉ ts -> s !! n = Some t ->
  over ts f (<[n := f t]> s) = over (n :: ts) f s.
Proof.
  intros Hts Hn. apply map_eq; intros k. rewrite !over_lookup.
  destruct (decide (k = n)) as [->|Hk].
  - rewrite lookup_insert_eq, Hn. cbn. rewrite decide_False, decide_True by (done || set_solver).
    done.
  - rewrite lookup_insert_ne by done. destruct (s !! k); cbn; [|done]. f_equal.
    destruct (decide (k ∈ ts)); [rewrite decide_True by set_solver|rewrite decide_False by set_solver];
    done.
Qed.

Lemma run_secures ts s s' : NoDup ts -> run_statements s (ts ≫= secure) = Ok s' ->
  s' = over ts secured s /\
  forall n, n ∈ ts -> exists t, s !! n = Some t /\ "tenant_isolation" ∉ tb_policies t.
Proof.
  intros Hnd; revert s; induction Hnd as [|n ts Hn Hnd IH]; intros s Hr.
  { injection Hr as <-. split; [|by intros n ?%elem_of_nil].
    apply map_eq; intros k. rewrite over_lookup. by destruct (s !! k). }
  apply run_app_inv in Hr as (m & (t & Ht & Hp & ->)%run_secure & Hr).
  apply IH in Hr as [-> Hall]. split; [by apply over_cons|].
  intros k [->|Hk]%elem_of_cons; [by eauto|].
  assert (k <> n) by congruence. destruct (Hall k Hk) as (u & Hu & ?).
  rewrite lookup_insert_ne in Hu by done. eauto.
Qed.

Lemma run_releases ts s : NoDup ts -> (forall n, n ∈ ts -> is_Some (s !! n)) ->
  run_statements s (ts ≫= release) = Ok (over ts released s).
Proof.
  intros Hnd; revert s; induction Hnd as [|n ts Hn Hnd IH]; intros s Hs.
  { cbn. f_equal. apply map_eq; intros k. rewrite over_lookup. by destruct (s !! k). }
  destruct (Hs n) as [t Ht]; [set_solver|].
  eapply run_app_ok; [by apply run_release|]. rewrite IH; [by rewrite over_cons|].
  intros k Hk. apply lookup_insert_is_Some'. right. apply Hs. set_solver.
Qed.

Lemma filter_not_in (p : string) (ps : list string) : p ∉ ps -> filter (fun q => q <> p) ps = ps.
Proof.
  induction ps as [|q ps IH]; [done|]. intros [? ?]%not_elem_of_cons.
  rewrite filter_cons_True by congruence. by rewrite IH.
Qed.

Lemma released_secured t : tb_rls t = false -> "tenant_isolation" ∉ tb_policies t ->
  released (secured t) = t.
Proof.
  destruct t as [c p u f i rls pol]. cbn. intros -> Hp. unfold released, secured. cbn.
  unfold with_security. cbn. f_equal. rewrite filter_app, filter_not_in by done.
  cbn. by rewrite app_nil_r.
Qed.

Lemma release_undoes_secure ts s s' : NoDup ts ->
  (forall n t, n ∈ ts -> s !! n = Some t -> tb_rls t = false) ->
  run_statements s (ts ≫= secure) = Ok s' -> run_statements s' (ts ≫= release) = Ok s.
Proof.
  intros Hnd Hrls Hr. apply run_secures in Hr as [-> Hall]; [|done].
  rewrite run_releases; [|done|].
  - f_equal. apply map_eq; intros k. rewrite !over_lookup.
    destruct (s !! k) as [t|] eqn:Hk; [|done]. cbn. f_equal. destruct (decide (k ∈ ts)) as [Hin|]; [|done].
    destruct (Hall k Hin) as (u & Hu & Hp). simplify_eq. apply released_secured; eauto.
  - intros n Hin. rewrite over_lookup. destruct (Hall n Hin) as (t & -> & _). by eexists.
Qed.

Lemma rls_tables_nodup : NoDup _RLS_TABLES.
Proof. by apply (bool_decide_unpack _). Qed.

(** ** Downgrades *)

Ltac creates := apply inverts_create; by repeat constructor.

Lemma inverts_0001 : inverts upgrade_0001 downgrade_0001.
Proof.
  apply (inverts_app workflow_definitions [DropTable "workflow_definitions"] _
    [DropTable "instance_index"; DropTable "instance_snapshots"; DropTable "workflow_events"]).
  { creates. }
  apply (inverts_app workflow_events [DropTable "workflow_events"] _
    [DropTable "instance_index"; DropTable "instance_snapshots"]); [creates|].
  apply (inverts_app instance_snapshots [DropTable "instance_snapshots"] instance_index
    [DropTable "instance_index"]); creates.
Qed.

Lemma inverts_0002 : inverts upgrade_0002 downgrade_0002.
Proof. apply (inverts_app [_; _; _] [_] [_; _; _] [_]); creates. Qed.

Lemma inverts_0003 : inverts upgrade_0003 downgrade_0003.
Proof. creates. Qed.
Lemma inverts_0004 : inverts upgrade_0004 downgrade_0004.
Proof. creates. Qed.
Lemma inverts_0005 : inverts upgrade_0005 downgrade_0005.
Proof. creates. Qed.

Lemma undo_0006 s s' : closed s -> unsecured s ->
  run_statements s upgrade_0006 = Ok s' -> run_statements s' downgrade_0006 = Ok s.
Proof.
  intros Hc Hu (m & Hk & Hr)%run_app_inv.
  assert (Hi : inverts api_keys [DropTable "api_keys"]) by creates.
  destruct (Hi s m Hc Hk) as [_ Hd]. eapply run_app_ok; [|exact Hd].
  eapply release_undoes_secure; [exact rls_tables_nodup| |exact Hr].
  intros n t Hn Ht. apply (Hu n t Hn).
  apply run_create in Hk as (_ & u & -> & _); [|by repeat constructor].
  rewrite lookup_insert_ne in Ht; [done|]. intros <-. revert Hn. by apply (bool_decide_unpack _).
Qed.

(** C37: Every revision's downgrade undoes its upgrade, whatever else the database
    holds: wherever the upgrade succeeds, on a catalogue whose foreign keys refer to
    tables that exist and whose tenant tables have no row-level security yet, the
    downgrade run on what it left succeeds and gives back that very catalogue. *)
Theorem downgrade_undoes_upgrade r s s' : r ∈ history -> closed s -> unsecured s ->
  run_statements s (upgrade r) = Ok s' -> run_statements s' (downgrade r) = Ok s.
Proof.
  intros Hr Hc Hu Hup. unfold history in Hr. set_unfold in Hr.
  destruct Hr as [->|[->|[->|[->|[->| [->|[]]]]]]]; cbn in *.
  - by apply inverts_0001.
  - by apply inverts_0002.
  - by apply inverts_0003.
  - by apply inverts_0004.
  - by apply inverts_0005.
  - by apply undo_0006.
Qed.

(** ** What the migrations build *)

(** A server default is not declared by the ORM, except [now()], whose columns the
    ORM declares [NOT NULL]; the policies are no part of the declarations. *)
Definition declared_column (c : Column) : Column := {|
  col_name := col_name c; col_type := col_type c;
  col_nullable := match col_default c with Now => false | _ => col_nullable c end;
  col_default := match col_default c with Now => Now | _ => NoDefault end;
  col_autoincrement := col_autoincrement c |}.

Definition declared_table (t : Table) : Table := {|
  tb_columns := declared_column <$> tb_columns t; tb_primary := tb_primary t;
  tb_unique := tb_unique t; tb_foreign := tb_foreign t; tb_indexes := tb_indexes t;
  tb_rls := false; tb_policies := [] |}.

Definition migrated : Catalogue :=
  match upgrade_head ∅ with Ok s => s | Err _ => ∅ end.

Lemma upgrade_head_ok : upgrade_head ∅ = Ok migrated.
Proof.
  assert (Hok : match upgrade_head ∅ with Ok _ => true | Err _ => false end = true)
    by (vm_compute; reflexivity).
  unfold migrated. by destruct (upgrade_head ∅).
Qed.

(** The revisions form one line, run from an empty database without an error, and
    build the tables the ORM declares: the same columns in the same order with their
    types, the same keys, unique constraints, foreign keys and indexes; they add the
    server defaults and the policies, and leave the [now()] timestamps nullable. *)
Theorem migrations_build_the_models :
  linear None history = true /\ upgrade_head ∅ = Ok migrated /\
  declared_table <$> migrated = Models.metadata.
Proof.
  split; [done|]. split; [exact upgrade_head_ok|].
  apply (bool_decide_unpack _). vm_compute. exact I.
Qed.

#[local] Opaque migrated.

Lemma migrated_security n t : migrated !! n = Some t ->
  tb_rls t = bool_decide (n ∈ _RLS_TABLES) /\
  (n ∈ _RLS_TABLES -> tb_policies t = ["tenant_isolation"]).
Proof.
  intros Ht.
  assert (Hall : forallb (fun nt => let on := bool_decide (nt.1 ∈ _RLS_TABLES) in
      Bool.eqb (tb_rls nt.2) on && implb on (bool_decide (tb_policies nt.2 = ["tenant_isolation"])))
    (map_to_list migrated) = true) by (vm_compute; reflexivity).
  rewrite forallb_forall in Hall. specialize (Hall (n, t)).
  cbn zeta in Hall. cbn [fst snd] in Hall. rewrite <- list_elem_of_In, elem_of_map_to_list in Hall.
  specialize (Hall Ht). apply andb_prop in Hall as [Hr%eqb_prop Hp].
  split; [done|]. intros Hin. rewrite (bool_decide_eq_true_2 _ Hin) in Hp. cbn in Hp.
  by apply bool_decide_eq_true in Hp.
Qed.

(** On the schema the migrations build, a session whose role does not own the
    tables sees a row of a tenant table exactly when no tenant is set or the row is
    that tenant's: one tenant's session never sees another's rows.  The owner's
    session sees every row, and so does every session of the tables without
    row-level security. *)
Theorem tenant_isolation_clamps n t setting tenant : migrated !! n = Some t ->
  (n ∈ _RLS_TABLES -> visible t false setting tenant = true <->
    setting = None \/ setting = Some tenant) /\
  (n ∉ _RLS_TABLES -> visible t false setting tenant = true) /\
  visible t true setting tenant = true.
Proof.
  intros Ht.
  destruct (migrated_security n t Ht) as [Hr Hp]. clear Ht.
  unfold visible. rewrite Hr. split; [|split].
  - intros Hin. rewrite bool_decide_eq_true_2, Hp by done.
    cbn [negb orb existsb]. rewrite bool_decide_eq_true_2, orb_false_r by done. cbn [andb].
    unfold tenant_isolation. destruct setting as [a|]; [|naive_solver].
    rewrite bool_decide_eq_true. naive_solver.
  - intros Hn. by rewrite (bool_decide_eq_false_2 _ Hn).
  - by rewrite orb_true_r.
Qed.

Lemma tenant_isolation_clamps_witness :
  exists t, migrated !! "escalations" = Some t /\
    visible t false (Some "a") "a" = true /\ ~ visible t false (Some "a") "b" = true.
Proof.
  assert (He : bool_decide (is_Some (migrated !! "escalations")) = true)
    by (vm_compute; reflexivity).
  apply bool_decide_eq_true in He as [t Ht]. exists t. split; [exact Ht|].
  assert (Hin : "escalations" ∈ _RLS_TABLES) by (apply (bool_decide_unpack _); exact I).
  pose proof (fun tenant => proj1 (tenant_isolation_clamps _ t (Some "a") tenant Ht) Hin) as Hv.
  clear Ht. split; rewrite Hv; naive_solver.
Defined.

(** The schema before row-level security. *)
Definition before_0006 : Catalogue :=
  match run_statements ∅ (take 5 history ≫= upgrade) with Ok s => s | Err _ => ∅ end.

Lemma before_0006_closed : closed before_0006.
Proof.
  assert (Hall : forallb (fun nt => forallb (fun fk => bool_decide (is_Some (before_0006 !! fk_table fk)))
    (tb_foreign nt.2)) (map_to_list before_0006) = true) by (vm_compute; reflexivity).
  intros n t fk Ht Hfk. rewrite forallb_forall in Hall. specialize (Hall (n, t)).
  rewrite <- list_elem_of_In, elem_of_map_to_list in Hall. specialize (Hall Ht). cbn [snd] in Hall.
  rewrite forallb_forall in Hall. rewrite list_elem_of_In in Hfk.
  by apply Hall, bool_decide_eq_true in Hfk.
Qed.

Lemma before_0006_unsecured : unsecured before_0006.
Proof.
  assert (Hall : forallb (fun nt => negb (tb_rls nt.2)) (map_to_list before_0006) = true)
    by (vm_compute; reflexivity).
  intros n t _ Ht. rewrite forallb_forall in Hall. specialize (Hall (n, t)).
  rewrite <- list_elem_of_In, elem_of_map_to_list in Hall. specialize (Hall Ht). cbn [snd] in Hall.
  by apply negb_true_iff in Hall.
Qed.

Lemma downgrade_undoes_upgrade_witness :
  run_statements migrated downgrade_0006 = Ok before_0006.
Proof.
  assert (Hup : match run_statements before_0006 upgrade_0006 with
      | Ok s => bool_decide (s = migrated) | Err _ => false end = true)
    by (vm_compute; reflexivity).
  apply (downgrade_undoes_upgrade {| revision := "0006_api_keys";
     down_revision := Some "0005_escalations";
     upgrade := upgrade_0006; downgrade := downgrade_0006 |}).
  - unfold history. set_unfold. tauto.
  - apply before_0006_closed.
  - apply before_0006_unsecured.
  - cbn [upgrade]. destruct (run_statements before_0006 upgrade_0006); [|done].
    apply bool_decide_eq_true in Hup. by f_equal.
Defined.
