(* ===== verification/EventStore.v ===== *)
(** The event store ([core/persistence/event_store.py]): append-only log with
    optimistic concurrency, and the snapshot, index and escalation rows derived
    from it inside the same transaction.

    A transaction that aborts leaves the tables as they were.  Between the
    version check and the flush other transactions may commit: [race] is what
    they do to the database in that window ([id] when nobody interferes). *)

From stdpp Require Import base strings list gmap pretty sorting.
From Stdlib Require Import ZArith Lia.
From S2P Require Import Prelude Exceptions Values Enums Definitions Instance Events Fold Tables.

Module EventStore.

(** [EventPublisher] implementations of [core/pubsub.py]. *)
Inductive EventPublisher := NoopPublisher | RedisEventPublisher.

Record InstanceSummary := {
  sum_instance_id : string;
  sum_workflow_id : string;
  sum_workflow_version : string;
  sum_status : string;
  sum_cost_accumulated_usd : float;
  sum_budget_limit_usd : option float;
  sum_next_wakeup_at : option time;
  sum_created_at : time;
  sum_updated_at : time;
  sum_completed_at : option time;
}.

Section store.
Context {C : Codec}.

(** The lease guard, run inside the append transaction. *)
Definition Guard : Type := DB -> res unit.

Definition run_guard (guard : option Guard) (db : DB) : res unit :=
  match guard with Some g => g db | None => Ok tt end.

Abbreviation Db := (M DB exn).

(** ** Publishing *)

Definition _channel (instance_id : string) : string := "agentforge:instance:" +:+ instance_id.

Definition update_of (instance_id tenant_id : string) (evs : list event) (lst : event)
    : InstanceUpdate := {|
  up_instance_id := instance_id; up_tenant_id := tenant_id;
  up_version := ev_sequence lst;
  up_event_types := (fun e => event_type (ev_body e)) <$> evs |}.

(** A failing bus is logged and swallowed. *)
Definition publish (p : EventPublisher) (instance_id tenant_id : string) (evs : list event)
    : Db unit := fun db =>
  match p, last evs with
  | RedisEventPublisher, Some lst =>
      if db_bus_up db
      then (Ok tt, set_bus (db_bus db ++ [(_channel instance_id,
                                           update_of instance_id tenant_id evs lst)]) db)
      else (Ok tt, db)
  | _, _ => (Ok tt, db)
  end.

(** ** Reading *)

Definition instance_rows (db : DB) (instance_id : string) : list WorkflowEventRow :=
  filter (fun r => evr_instance_id r = instance_id) (db_events db).

(** [select(func.max(...))] *)
Definition func_max (l : list Z) : option Z :=
  match l with [] => None | x :: l => Some (foldl Z.max x l) end.

Definition current_version (db : DB) (instance_id : string) : Z :=
  default 0%Z (func_max (evr_sequence <$> instance_rows db instance_id)).

Definition parse_rows (rows : list WorkflowEventRow) : res (list event) :=
  mapM (fun r => parse_event (evr_payload r)) rows.

Definition load (db : DB) (instance_id tenant_id : string) (after : Z) : res (list event) :=
  parse_rows (order_by evr_sequence
    (filter (fun r => evr_tenant_id r = tenant_id /\ (after < evr_sequence r)%Z)
       (instance_rows db instance_id))).

Definition _load_snapshot (db : DB) (instance_id : string) : res (option Snapshot) :=
  match db_snapshots db !! instance_id with
  | None => Ok None
  | Some row =>
      state ← validate_state (snr_state row);
      Ok (Some {| snap_instance_id := snr_instance_id row;
                  snap_tenant_id := snr_tenant_id row;
                  snap_version := snr_version row;
                  snap_state := state;
                  snap_created_at := snr_created_at row |})
  end.

Definition snap_base (snap : option Snapshot) : option WorkflowInstance * Z :=
  match snap with
  | Some s => (Some (snap_state s), snap_version s)
  | None => (None, 0%Z)
  end.

(** [None] stands for the [None] the source returns when not [required]. *)
Definition _project (db : DB) (instance_id tenant_id : string)
    (defn : option WorkflowDefinition) (required : bool) : res (option WorkflowInstance) :=
  snap ← _load_snapshot db instance_id;
  let '(base, after) := snap_base snap in
  tail ← parse_rows (order_by evr_sequence
           (filter (fun r => (after < evr_sequence r)%Z) (instance_rows db instance_id)));
  match base, tail with
  | None, [] => if required
                then Err (Exn EventStreamError ("unknown instance " +:+ instance_id))
                else Ok None
  | _, _ =>
      instance ← Fold.fold tail defn base;
      if bool_decide (wi_tenant_id instance = tenant_id) then Ok (Some instance)
      else if required then Err (Exn EventStreamError "tenant mismatch")
      else Ok None
  end.

Definition get_instance (db : DB) (instance_id tenant_id : string)
    (defn : option WorkflowDefinition) : res (option WorkflowInstance) :=
  _project db instance_id tenant_id defn false.

Definition state_at (db : DB) (instance_id tenant_id : string) (version : Z)
    (defn : option WorkflowDefinition) : res (option WorkflowInstance) :=
  evs ← load db instance_id tenant_id 0;
  match filter (fun e => (ev_sequence e <= version)%Z) evs with
  | [] => Ok None
  | events => i ← Fold.fold events defn None; Ok (Some i)
  end.

Definition latest_snapshot (db : DB) (instance_id tenant_id : string) : res (option Snapshot) :=
  snap ← _load_snapshot db instance_id;
  Ok match snap with
     | Some s => if bool_decide (snap_tenant_id s = tenant_id) then Some s else None
     | None => None
     end.

Definition summary_of (r : InstanceIndexRow) : InstanceSummary := {|
  sum_instance_id := ix_instance_id r;
  sum_workflow_id := ix_workflow_id r;
  sum_workflow_version := ix_workflow_version r;
  sum_status := ix_status r;
  sum_cost_accumulated_usd := ix_cost_accumulated_usd r;
  sum_budget_limit_usd := ix_budget_limit_usd r;
  sum_next_wakeup_at := ix_next_wakeup_at r;
  sum_created_at := ix_created_at r;
  sum_updated_at := ix_updated_at r;
  sum_completed_at := ix_completed_at r |}.

Definition listed (tenant_id : string) (statuses : option (list string))
    (workflow_id : option string) (r : InstanceIndexRow) : bool :=
  bool_decide (ix_tenant_id r = tenant_id) &&
  match statuses with
  | None | Some [] => true
  | Some l => bool_decide (ix_status r ∈ l)
  end &&
  (if truthy_str workflow_id then bool_decide (Some (ix_workflow_id r) = workflow_id) else true).

(** Newest first; an absent or empty filter does not restrict. A negative
    [limit] is refused by the database. *)
Definition list_instances (db : DB) (tenant_id : string) (statuses : option (list string))
    (workflow_id : option string) (limit offset : Z) : res (list InstanceSummary) :=
  let rows := filter (fun r => listed tenant_id statuses workflow_id r = true)
                (snd <$> map_to_list (db_index db)) in
  let ordered := order_by (fun r => - ix_updated_at r)%Z rows in
  if (Z.min limit 200 <? 0)%Z then Err (Exn (PyExc "DBAPIError") "LIMIT must not be negative")
  else Ok (summary_of <$> take (Z.to_nat (Z.min limit 200)) (drop (Z.to_nat (Z.max offset 0)) ordered)).

(** ** Writing *)

Definition event_row (id : Z) (now : time) (instance_id tenant_id : string) (ev : event)
    : WorkflowEventRow := {|
  evr_id := id;
  evr_instance_id := instance_id;
  evr_tenant_id := tenant_id;
  evr_sequence := ev_sequence ev;
  evr_event_type := event_type (ev_body ev);
  evr_payload := dump_event ev;
  evr_occurred_at := ev_occurred_at ev;
  evr_recorded_at := now |}.

(** Insert one row, checking [UNIQUE(instance_id, sequence)]. *)
Definition insert_event (instance_id tenant_id : string) (ev : event) : Db unit := fun db =>
  if bool_decide (ev_sequence ev ∈ (evr_sequence <$> instance_rows db instance_id))
  then (Err (IntegrityError "uq_event_instance_sequence"), db)
  else (Ok tt, set_next_id (db_next_id db + 1)%Z
                 (set_events (db_events db ++
                    [event_row (db_next_id db) (db_now db) instance_id tenant_id ev]) db)).

(** [session.add_all(...); await session.flush()] *)
Definition flush_events (instance_id tenant_id : string) (expected_version : Z)
    (events : list event) : Db unit :=
  try_catch
    (_ ← mapM_ (insert_event instance_id tenant_id) events; mret tt)
    (fun e => if bool_decide (exn_cls e = PyExc "IntegrityError")
              then Some (raise (Exn ConflictError
                     ("instance " +:+ instance_id +:+ ": concurrent append at v"
                      +:+ pretty expected_version)))
              else None).

(** Insert, or update every column but the identity and the definition. A new
    row must reference a registered definition. *)
Definition _upsert_index (i : WorkflowInstance) (next_wakeup_at : option time) : Db unit :=
  fun db =>
  match db_index db !! wi_instance_id i with
  | Some r =>
      (Ok tt, set_index (<[wi_instance_id i := {|
         ix_instance_id := ix_instance_id r;
         ix_tenant_id := ix_tenant_id r;
         ix_workflow_id := ix_workflow_id r;
         ix_workflow_version := ix_workflow_version r;
         ix_status := WorkflowStatus.value (wi_status i);
         ix_last_sequence := wi_version i;
         ix_cost_accumulated_usd := wi_cost_accumulated_usd i;
         ix_budget_limit_usd := wi_budget_limit_usd i;
         ix_next_wakeup_at := next_wakeup_at;
         ix_created_at := ix_created_at r;
         ix_updated_at := db_now db;
         ix_completed_at := wi_completed_at i |}]> (db_index db)) db)
  | None =>
      if bool_decide (is_Some (db_definitions db !!
           (wi_tenant_id i, wi_workflow_id i, wi_workflow_version i)))
      then (Ok tt, set_index (<[wi_instance_id i := {|
         ix_instance_id := wi_instance_id i;
         ix_tenant_id := wi_tenant_id i;
         ix_workflow_id := wi_workflow_id i;
         ix_workflow_version := wi_workflow_version i;
         ix_status := WorkflowStatus.value (wi_status i);
         ix_last_sequence := wi_version i;
         ix_cost_accumulated_usd := wi_cost_accumulated_usd i;
         ix_budget_limit_usd := wi_budget_limit_usd i;
         ix_next_wakeup_at := next_wakeup_at;
         ix_created_at := db_now db;
         ix_updated_at := db_now db;
         ix_completed_at := wi_completed_at i |}]> (db_index db)) db)
      else (Err (IntegrityError "fk_index_definition"), db)
  end.

(** [update(EscalationRow).where(escalation_id == eid).values(...)] *)
Definition close_escalation (eid status resolution resolved_by : string) (at_ : time)
    (db : DB) : DB :=
  match db_escalations db !! eid with
  | None => db
  | Some r => set_escalations (<[eid := {|
      escr_escalation_id := escr_escalation_id r;
      escr_instance_id := escr_instance_id r;
      escr_tenant_id := escr_tenant_id r;
      escr_step_id := escr_step_id r;
      escr_reason := escr_reason r;
      escr_recommendation := escr_recommendation r;
      escr_confidence := escr_confidence r;
      escr_options := escr_options r;
      escr_auto_action := escr_auto_action r;
      escr_deadline := escr_deadline r;
      escr_status := status;
      escr_resolution := Some resolution;
      escr_resolved_by := Some resolved_by;
      escr_created_at := escr_created_at r;
      escr_resolved_at := Some at_ |}]> (db_escalations db)) db
  end.

Definition open_escalation (ev : event) (eid sid reason recommendation : string)
    (confidence : float) (options : list dict) (deadline : option time)
    (auto_action : string) : EscalationRow := {|
  escr_escalation_id := eid;
  escr_instance_id := ev_instance_id ev;
  escr_tenant_id := ev_tenant_id ev;
  escr_step_id := sid;
  escr_reason := reason;
  escr_recommendation := recommendation;
  escr_confidence := confidence;
  escr_options := options;
  escr_auto_action := auto_action;
  escr_deadline := deadline;
  escr_status := "pending";
  escr_resolution := None;
  escr_resolved_by := None;
  escr_created_at := ev_occurred_at ev;
  escr_resolved_at := None |}.

Definition project_escalation (db : DB) (ev : event) : DB :=
  match ev_body ev with
  | EscalationRaised eid sid reason recm conf opts dl auto =>
      match db_escalations db !! eid with
      | Some _ => db
      | None => set_escalations
                  (<[eid := open_escalation ev eid sid reason recm conf opts dl auto]>
                     (db_escalations db)) db
      end
  | EscalationResolved eid _ resolution resolved_by _ =>
      close_escalation eid "resolved" resolution resolved_by (ev_occurred_at ev) db
  | EscalationTimedOut eid _ auto =>
      close_escalation eid "timed_out" auto "auto" (ev_occurred_at ev) db
  | _ => db
  end.

Definition _project_escalations (events : list event) : Db unit :=
  modify (fun db => foldl project_escalation db events).

Definition _write_snapshot (i : WorkflowInstance) (created_at : time) : Db unit :=
  modify (fun db => set_snapshots
    (<[wi_instance_id i := {|
        snr_instance_id := wi_instance_id i;
        snr_tenant_id := match db_snapshots db !! wi_instance_id i with
                         | Some r => snr_tenant_id r
                         | None => wi_tenant_id i
                         end;
        snr_version := wi_version i;
        snr_state := dump_state i;
        snr_created_at := created_at |}]> (db_snapshots db)) db).

(** [events[-1]] *)
Definition last_event (events : list event) : res event :=
  match last events with Some e => Ok e | None => Err IndexError end.

Definition check_owner (instance_id tenant_id : string) (_ : unit) (ev : event) : res unit :=
  if bool_decide (ev_instance_id ev = instance_id) && bool_decide (ev_tenant_id ev = tenant_id)
  then Ok tt
  else Err (Exn EventStreamError "event instance_id/tenant_id mismatch").

(** The part of the transaction after the version check. *)
Definition write_events (instance_id tenant_id : string) (events : list event)
    (expected_version : Z) (next_wakeup_at : option time) : Db unit :=
  _ ← flush_events instance_id tenant_id expected_version events;
  oi ← (fun db => (_project db instance_id tenant_id None true, db));
  match oi with
  | None => raise AssertionError
  | Some instance =>
      _ ← _upsert_index instance next_wakeup_at;
      _ ← _project_escalations events;
      snap ← (fun db => (_load_snapshot db instance_id, db));
      let base_version := match snap with Some s => snap_version s | None => 0%Z end in
      if match snap with None => true | Some _ => false end
         || should_snapshot base_version (wi_version instance)
      then lst ← lift (last_event events); _write_snapshot instance (ev_occurred_at lst)
      else mret tt
  end.

Definition _commit (p : EventPublisher) (race : DB -> DB) (instance_id tenant_id : string)
    (events : list event) (expected_version : Z) (guard : option Guard)
    (next_wakeup_at : option time) : Db (Z * list event) :=
  _ ← lift (foldM (check_owner instance_id tenant_id) tt events);
  _ ← (fun db => (run_guard guard db, db));
  current ← gets (fun db => current_version db instance_id);
  _ ← (if bool_decide (current = expected_version) then mret tt
       else raise (Exn ConflictError
              ("instance " +:+ instance_id +:+ ": expected v" +:+ pretty expected_version
               +:+ ", found v" +:+ pretty current)));
  _ ← modify race;
  _ ← transaction (write_events instance_id tenant_id events expected_version next_wakeup_at);
  _ ← publish p instance_id tenant_id events;
  lst ← lift (last_event events);
  mret (ev_sequence lst, events).

(** The check of [append] on pre-sequenced events. *)
Fixpoint check_sequence (offset expected_version : Z) (events : list event) : res unit :=
  match events with
  | [] => Ok tt
  | ev :: rest =>
      if bool_decide (ev_sequence ev = expected_version + offset)%Z
      then check_sequence (offset + 1) expected_version rest
      else Err (Exn EventStreamError
                  ("event " +:+ pretty offset +:+ " has sequence " +:+ pretty (ev_sequence ev)
                   +:+ ", expected " +:+ pretty (expected_version + offset)%Z))
  end.

Definition append (p : EventPublisher) (race : DB -> DB) (instance_id tenant_id : string)
    (events : list event) (expected_version : Z) (guard : option Guard)
    (next_wakeup_at : option time) : Db Z :=
  match events with
  | [] => mret expected_version
  | _ =>
      _ ← lift (check_sequence 1 expected_version events);
      r ← _commit p race instance_id tenant_id events expected_version guard next_wakeup_at;
      mret (fst r)
  end.

Definition append_new (p : EventPublisher) (race : DB -> DB) (instance_id tenant_id : string)
    (drafts : list event) (expected_version : Z) (guard : option Guard)
    (next_wakeup_at : option time) : Db (Z * list event) :=
  _commit p race instance_id tenant_id (sequenced expected_version drafts) expected_version
    guard next_wakeup_at.

End store.
End EventStore.
