(* ===== verification/EventStoreTheory.v ===== *)
(** Properties of the event store: the log it keeps, atomicity and optimistic
    concurrency of appends, and consistency of the derived rows. *)

From stdpp Require Import base strings list gmap pretty sorting relations.
From Stdlib Require Import ZArith Lia.
From S2P Require Import Prelude Exceptions Values Enums Definitions Instance Events Fold Samples.
From S2P Require Import FoldTheory Tables EventStore.

Import EventStore.

(** ** Sorting by a key *)

Section order_by_lemmas.
Context {A : Type} (key : A -> Z).

Global Instance key_order_total : Total (key_order key).
Proof. intros x y. unfold key_order. lia. Qed.

Global Instance key_order_trans : Transitive (key_order key).
Proof. intros x y z. unfold key_order. lia. Qed.

Lemma order_by_Permutation l : order_by key l ≡ₚ l.
Proof. apply merge_sort_Permutation. Qed.

Lemma StronglySorted_key l :
  StronglySorted (key_order key) l -> StronglySorted Z.le (key <$> l).
Proof.
  induction 1 as [|x l Hs IH Hx]; cbn; constructor; [done|].
  by apply Forall_fmap.
Qed.

(** Rows already in increasing key order are returned as they are. *)
Lemma order_by_sorted l : StronglySorted Z.lt (key <$> l) -> order_by key l = l.
Proof.
  intros Hs.
  assert (NoDup (key <$> l)) as Hnd.
  { clear -Hs. induction l as [|x l IH]; cbn in *; [constructor|].
    inversion_clear Hs as [|? ? H1 H2]. constructor; [|by apply IH].
    intros Hin. rewrite Forall_forall in H2. apply H2 in Hin. lia. }
  assert (key <$> order_by key l = key <$> l) as Hk.
  { apply (StronglySorted_unique Z.le).
    - apply StronglySorted_key, StronglySorted_merge_sort; apply _.
    - clear -Hs. induction l as [|x l IH]; cbn in *; [constructor|].
      inversion_clear Hs as [|? ? H1 H2]. constructor; [by apply IH|].
      eapply Forall_impl; [exact H2|]. cbn. lia.
    - by rewrite order_by_Permutation. }
  apply list_eq. intros n.
  apply (f_equal (fun m => m !! n)) in Hk. rewrite !list_lookup_fmap in Hk.
  destruct (order_by key l !! n) as [x|] eqn:Hx, (l !! n) as [y|] eqn:Hy; cbn in *; try done.
  f_equal. injection Hk as Hk.
  assert (x ∈ l) as (m & Hm)%list_elem_of_lookup.
  { rewrite <- order_by_Permutation. by eapply list_elem_of_lookup_2. }
  assert (m = n) as ->; [|congruence].
  eapply NoDup_lookup; [exact Hnd|..]; rewrite list_lookup_fmap.
  - by rewrite Hm.
  - rewrite Hy. cbn. congruence.
Qed.
End order_by_lemmas.

Lemma seqZ_from_sorted n len : StronglySorted Z.lt (seqZ_from n len).
Proof.
  revert n; induction len as [|len IH]; intros n; cbn; constructor; [done|].
  apply Forall_forall. intros z Hz%elem_of_seqZ_from. lia.
Qed.

(** ** What an append leaves alone *)

Section unwritten.
Context {C : Codec} {O : Type}.

(** An observation of the database that the tables an append writes do not affect. *)
Record unwritten (obs : DB -> O) : Prop := {
  uw_events v db : obs (set_events v db) = obs db;
  uw_next_id v db : obs (set_next_id v db) = obs db;
  uw_snapshots v db : obs (set_snapshots v db) = obs db;
  uw_index v db : obs (set_index v db) = obs db;
  uw_escalations v db : obs (set_escalations v db) = obs db;
}.

Context (obs : DB -> O) (Hobs : unwritten obs).

Lemma project_escalations_unwritten evs db : obs (foldl project_escalation db evs) = obs db.
Proof.
  revert db. induction evs as [|ev evs IH]; intros db; [done|]. cbn. rewrite IH.
  unfold project_escalation, close_escalation.
  destruct (ev_body ev); try done; case_match; rewrite ?(uw_escalations _ Hobs); done.
Qed.

Lemma write_events_unwritten iid tid evs v nw :
  preserves obs (write_events iid tid evs v nw).
Proof.
  unfold write_events, flush_events. apply preserves_bind.
  { apply preserves_try; [|intros e m; case_bool_decide; intros [= <-]; apply preserves_raise].
    apply preserves_bind; [|intros _; apply preserves_ret]. apply preserves_mapM.
    intros ev db. unfold insert_event. case_bool_decide; [done|]. cbn [snd].
    by rewrite (uw_next_id _ Hobs), (uw_events _ Hobs). }
  intros _. apply preserves_bind; [done|]. intros [i|]; [|apply preserves_raise].
  apply preserves_bind.
  { intros db. unfold _upsert_index. case_match; [|case_bool_decide; [|done]];
      cbn [snd]; apply (uw_index _ Hobs). }
  intros _. apply preserves_bind; [intros db; apply project_escalations_unwritten|]. intros _.
  apply preserves_bind; [done|]. intros snap. cbv zeta. destruct (_ || _); [|apply preserves_ret].
  apply preserves_bind; [apply preserves_lift|]. intros lst db. apply (uw_snapshots _ Hobs).
Qed.

Lemma preserves_transaction {W E A} (m : M W E A) (ob : W -> O) :
  preserves ob m -> preserves ob (transaction m).
Proof. intros Hm w. specialize (Hm w). unfold transaction. by destruct (m w) as [[a|e] w']. Qed.

(** The steps of an append around its publication. *)
Lemma append_unwritten p iid tid drafts v g nw :
  (forall evs, preserves obs (publish p iid tid evs)) ->
  preserves obs (append_new p id iid tid drafts v g nw).
Proof.
  intros Hpub. unfold append_new, _commit.
  apply preserves_bind; [apply preserves_lift|]. intros _.
  apply preserves_bind; [done|]. intros _. apply preserves_bind; [apply preserves_gets|].
  intros current. apply preserves_bind; [by case_bool_decide|]. intros _.
  apply preserves_bind; [done|]. intros _.
  apply preserves_bind; [apply preserves_transaction, write_events_unwritten|]. intros _.
  apply preserves_bind; [apply Hpub|]. intros _. apply preserves_bind; [apply preserves_lift|done].
Qed.
End unwritten.

(** ** The log and its invariant *)

Section theory.
Context {C : Codec} {CL : CodecLaws}.

(** The events of an instance, in the order they were recorded. *)
Definition log (db : DB) (instance_id : string) : list event :=
  omap (fun r => match parse_event (evr_payload r) with Ok e => Some e | Err _ => None end)
    (instance_rows db instance_id).

Definition row_ok (instance_id : string) (r : WorkflowEventRow) : Prop :=
  exists e, evr_payload r = dump_event e /\ evr_sequence r = ev_sequence e /\
            evr_tenant_id r = ev_tenant_id e /\ ev_instance_id e = instance_id /\
            event_valid e = true.

(** The snapshot is the fold of a non-empty prefix of the log. *)
Definition snap_ok (db : DB) (instance_id : string) : Prop :=
  match db_snapshots db !! instance_id with
  | None => True
  | Some row => exists v st,
      snr_state row = dump_state st /\ snr_version row = Z.of_nat v /\
      0 < v <= length (log db instance_id) /\
      Fold.fold (take v (log db instance_id)) None None = Ok st
  end.

(** The index row mirrors the projected instance. *)
Definition index_ok (r : InstanceIndexRow) (i : WorkflowInstance) : Prop :=
  ix_instance_id r = wi_instance_id i /\ ix_tenant_id r = wi_tenant_id i /\
  ix_workflow_id r = wi_workflow_id i /\ ix_workflow_version r = wi_workflow_version i /\
  ix_status r = WorkflowStatus.value (wi_status i) /\ ix_last_sequence r = wi_version i /\
  ix_cost_accumulated_usd r = wi_cost_accumulated_usd i /\
  ix_budget_limit_usd r = wi_budget_limit_usd i /\ ix_completed_at r = wi_completed_at i.

Definition live_ok (db : DB) (instance_id : string) : Prop :=
  match log db instance_id with
  | [] => db_index db !! instance_id = None
  | l => exists i r, Fold.fold l None None = Ok i /\
           Forall (fun e => ev_tenant_id e = wi_tenant_id i) l /\
           db_index db !! instance_id = Some r /\ index_ok r i /\
           is_Some (db_snapshots db !! instance_id)
  end.

Record stream_inv (db : DB) (instance_id : string) : Prop := {
  si_rows : Forall (row_ok instance_id) (instance_rows db instance_id);
  si_seq : evr_sequence <$> instance_rows db instance_id
           = seqZ_from 0 (length (instance_rows db instance_id));
  si_snap : snap_ok db instance_id;
}.

(** What every reachable database satisfies, for each instance id. *)
Record inst_inv (db : DB) (instance_id : string) : Prop := {
  ii_stream : stream_inv db instance_id;
  ii_live : live_ok db instance_id;
}.

Definition store_inv (db : DB) : Prop := forall instance_id, inst_inv db instance_id.

Lemma log_cons_rows iid rows :
  Forall (row_ok iid) rows ->
  parse_rows rows = Ok (omap (fun r => match parse_event (evr_payload r) with
                                       | Ok e => Some e | Err _ => None end) rows).
Proof.
  induction 1 as [|r rows (e & Hp & _ & _ & _ & He) _ IH]; [done|].
  unfold parse_rows in *. cbn. rewrite Hp, event_roundtrip by done. cbn. by rewrite IH.
Qed.

Lemma rows_sequences iid rows :
  Forall (row_ok iid) rows ->
  ev_sequence <$> omap (fun r => match parse_event (evr_payload r) with
                                 | Ok e => Some e | Err _ => None end) rows
  = evr_sequence <$> rows.
Proof.
  induction 1 as [|r rows (e & Hp & Hs & _ & _ & He) _ IH]; [done|].
  cbn. rewrite Hp, event_roundtrip by done. cbn. by rewrite Hs, IH.
Qed.

Lemma length_log db iid : stream_inv db iid -> length (log db iid) = length (instance_rows db iid).
Proof.
  intros [Hr _ _]. apply rows_sequences in Hr.
  apply (f_equal length) in Hr. by rewrite !length_fmap in Hr.
Qed.

Lemma log_sequences db iid :
  stream_inv db iid -> ev_sequence <$> log db iid = seqZ_from 0 (length (log db iid)).
Proof.
  intros Hinv. rewrite (length_log _ _ Hinv). destruct Hinv as [Hr Hs _].
  rewrite <- Hs. by eapply rows_sequences.
Qed.

Lemma func_max_seqZ n len :
  (0 <= n)%Z -> default n (func_max (seqZ_from n len)) = (n + Z.of_nat len)%Z.
Proof.
  intros Hn. destruct len as [|len]; cbn; [lia|].
  assert (forall m, foldl Z.max m (seqZ_from m len) = m + Z.of_nat len)%Z as H; [|rewrite H; lia].
  clear n Hn. induction len as [|len IH]; intros m; cbn; [lia|].
  rewrite Z.max_r by lia. rewrite IH. lia.
Qed.

Lemma current_version_log db iid :
  stream_inv db iid -> current_version db iid = Z.of_nat (length (log db iid)).
Proof.
  intros Hinv. rewrite (length_log _ _ Hinv). destruct Hinv as [_ Hs _].
  unfold current_version. rewrite Hs, func_max_seqZ; lia.
Qed.

(** Selecting the rows after a version and ordering them gives the tail. *)
Lemma tail_rows db iid v :
  stream_inv db iid ->
  order_by evr_sequence (filter (fun r => (Z.of_nat v < evr_sequence r)%Z) (instance_rows db iid))
  = drop v (instance_rows db iid).
Proof.
  intros [_ Hs _].
  assert (forall n rows, evr_sequence <$> rows = seqZ_from n (length rows) ->
    filter (fun r => (n + Z.of_nat v < evr_sequence r)%Z) rows = drop v rows) as Hf.
  { clear Hs. induction v as [|v IH]; intros n rows Hrows.
    - rewrite drop_0. apply filter_all_true. intros r Hr.
      apply (list_elem_of_fmap_2 evr_sequence) in Hr. rewrite Hrows in Hr.
      apply elem_of_seqZ_from in Hr. lia.
    - destruct rows as [|r rows]; [done|]. cbn in Hrows. injection Hrows as Hr Hrows.
      rewrite filter_cons_False by lia. cbn. rewrite <- (IH _ _ Hrows).
      apply list_filter_iff. intros x. lia. }
  specialize (Hf 0%Z _ Hs). change (0 + Z.of_nat v)%Z with (Z.of_nat v) in Hf.
  rewrite Hf. apply order_by_sorted.
  rewrite fmap_drop, Hs. eapply StronglySorted_app_1_r. rewrite take_drop.
  apply seqZ_from_sorted.
Qed.

Lemma all_rows db iid :
  stream_inv db iid ->
  order_by evr_sequence (filter (fun r => (0 < evr_sequence r)%Z) (instance_rows db iid))
  = drop 0 (instance_rows db iid).
Proof. apply (tail_rows db iid 0). Qed.

Lemma drop_log db iid v :
  stream_inv db iid -> parse_rows (drop v (instance_rows db iid)) = Ok (drop v (log db iid)).
Proof.
  intros [Hr _ _]. unfold log. revert v. induction Hr as [|r rows Hrow Hr IH]; intros v.
  { by destruct v. }
  destruct v as [|v].
  - rewrite !drop_0. apply log_cons_rows with iid. by constructor.
  - destruct Hrow as (e & Hp & _ & _ & _ & He). cbn. rewrite Hp, event_roundtrip by done. apply IH.
Qed.

(** The projection is the fold of the tail on the snapshot, hence (without a
    definition) the fold of the whole log. *)
Lemma project_log db iid tid req :
  stream_inv db iid -> log db iid <> [] ->
  _project db iid tid None req =
  (i ← Fold.fold (log db iid) None None;
   if bool_decide (wi_tenant_id i = tid) then Ok (Some i)
   else if req then Err (Exn EventStreamError "tenant mismatch") else Ok None).
Proof.
  intros Hinv Hne. pose proof (si_snap _ _ Hinv) as Hsnap.
  unfold _project, _load_snapshot, snap_ok in *.
  destruct (db_snapshots db !! iid) as [row|].
  - destruct Hsnap as (v & st & Hst & Hv & Hvl & Hf). rewrite Hst, state_roundtrip. cbn.
    rewrite Hv, (tail_rows _ _ _ Hinv), (drop_log _ _ _ Hinv). cbn.
    rewrite <- (take_drop v (log db iid)) at 2. rewrite fold_app, Hf; [done|].
    right. destruct (log db iid); [done|]. destruct v; [lia|done].
  - cbn. rewrite (all_rows _ _ Hinv), (drop_log _ _ _ Hinv). cbn. rewrite drop_0.
    by destruct (log db iid).
Qed.

Lemma project_empty db iid tid defn req :
  stream_inv db iid -> log db iid = [] ->
  _project db iid tid defn req =
  if req then Err (Exn EventStreamError ("unknown instance " +:+ iid)) else Ok None.
Proof.
  intros Hinv Hl. pose proof (si_snap _ _ Hinv) as Hsnap.
  unfold _project, _load_snapshot, snap_ok in *.
  destruct (db_snapshots db !! iid) as [row|].
  - destruct Hsnap as (v & st & _ & _ & Hvl & _). rewrite Hl in Hvl. cbn in Hvl. lia.
  - cbn. rewrite (all_rows _ _ Hinv), (drop_log _ _ _ Hinv), Hl. done.
Qed.

(** ** Writing rows *)

Fixpoint event_rows (id : Z) (now : time) (iid tid : string) (evs : list event)
    : list WorkflowEventRow :=
  match evs with
  | [] => []
  | ev :: evs => event_row id now iid tid ev :: event_rows (id + 1) now iid tid evs
  end.

Definition with_rows (iid tid : string) (evs : list event) (db : DB) : DB :=
  set_next_id (db_next_id db + Z.of_nat (length evs))%Z
    (set_events (db_events db ++ event_rows (db_next_id db) (db_now db) iid tid evs) db).

Lemma instance_rows_app db iid rows n :
  instance_rows (set_next_id n (set_events (db_events db ++ rows) db)) iid
  = instance_rows db iid ++ filter (fun r => evr_instance_id r = iid) rows.
Proof. destruct db. unfold instance_rows. cbn. by rewrite filter_app. Qed.

Lemma filter_event_rows id now iid tid evs iid' :
  filter (fun r => evr_instance_id r = iid') (event_rows id now iid tid evs)
  = if bool_decide (iid = iid') then event_rows id now iid tid evs else [].
Proof.
  revert id; induction evs as [|ev evs IH]; intros id; cbn [event_rows];
    [by case_bool_decide|].
  case_bool_decide as H.
  - rewrite filter_cons_True by done. by rewrite IH.
  - rewrite filter_cons_False by done. by rewrite IH.
Qed.

Lemma rows_with_rows iid tid evs db iid' :
  instance_rows (with_rows iid tid evs db) iid'
  = instance_rows db iid' ++
    if bool_decide (iid = iid') then event_rows (db_next_id db) (db_now db) iid tid evs else [].
Proof. unfold with_rows. by rewrite instance_rows_app, filter_event_rows. Qed.

Lemma event_rows_sequences id now iid tid evs :
  evr_sequence <$> event_rows id now iid tid evs = ev_sequence <$> evs.
Proof. revert id; induction evs as [|ev evs IH]; intros id; cbn; [done|]. by rewrite IH. Qed.

Lemma event_rows_log id now iid tid evs :
  Forall (fun e => event_valid e = true) evs ->
  omap (fun r => match parse_event (evr_payload r) with Ok e => Some e | Err _ => None end)
    (event_rows id now iid tid evs) = evs.
Proof.
  intros Hv. revert id; induction Hv as [|ev evs He _ IH]; intros id; cbn; [done|].
  rewrite event_roundtrip by done. by rewrite IH.
Qed.

Lemma log_with_rows iid tid evs db iid' :
  Forall (fun e => event_valid e = true) evs ->
  log (with_rows iid tid evs db) iid'
  = log db iid' ++ if bool_decide (iid = iid') then evs else [].
Proof.
  intros Hv. unfold log. rewrite rows_with_rows, omap_app. f_equal.
  case_bool_decide; [by apply event_rows_log|done].
Qed.

Lemma sequenced_valid ver drafts : valid_bodies drafts -> valid_bodies (sequenced ver drafts).
Proof.
  rewrite !Forall_forall. intros Hb e (d & Hd & ->)%elem_of_sequenced. by apply Hb in Hd.
Qed.

(** Inserting succeeds exactly when no sequence number is taken. *)
Lemma insert_events_ok iid tid evs db :
  NoDup ((evr_sequence <$> instance_rows db iid) ++ (ev_sequence <$> evs)) ->
  exists l, mapM_ (insert_event iid tid) evs db = (Ok l, with_rows iid tid evs db).
Proof.
  revert db; induction evs as [|ev evs IH]; intros db Hnd.
  - exists []. cbn. unfold with_rows. cbn. rewrite app_nil_r, Z.add_0_r. by destruct db.
  - cbn in *. rewrite NoDup_app in Hnd. destruct Hnd as (Hnd1 & Hdis & Hnd2).
    set (db1 := set_next_id (db_next_id db + 1)%Z
                  (set_events (db_events db ++ [event_row (db_next_id db) (db_now db) iid tid ev]) db)).
    destruct (IH db1) as (l & Hl).
    + subst db1. rewrite instance_rows_app, filter_cons_True, filter_nil, fmap_app by done.
      rewrite <- app_assoc. cbn. by apply NoDup_app.
    + exists (tt :: l). unfold mbind, M_bind, insert_event at 1.
      rewrite bool_decide_false.
      2:{ intros Hin. by apply (Hdis _ Hin); left. }
      fold db1. unfold mbind, M_bind. rewrite Hl. cbn. f_equal.
      subst db1. unfold with_rows. destruct db; cbn. rewrite <- app_assoc. cbn.
      f_equal. lia.
Qed.

Lemma insert_events_dup iid tid ev evs db :
  ev_sequence ev ∈ evr_sequence <$> instance_rows db iid ->
  mapM_ (insert_event iid tid) (ev :: evs) db
  = (Err (IntegrityError "uq_event_instance_sequence"), db).
Proof.
  intros Hin. cbn. unfold mbind, M_bind, insert_event at 1. by rewrite bool_decide_true.
Qed.

Lemma flush_ok iid tid v evs db :
  NoDup ((evr_sequence <$> instance_rows db iid) ++ (ev_sequence <$> evs)) ->
  flush_events iid tid v evs db = (Ok tt, with_rows iid tid evs db).
Proof.
  intros Hnd. destruct (insert_events_ok iid tid evs db Hnd) as (l & Hl).
  unfold flush_events, try_catch. by rewrite (M_bind_step _ _ _ _ _ Hl).
Qed.

Lemma flush_conflict iid tid v ev evs db :
  ev_sequence ev ∈ evr_sequence <$> instance_rows db iid ->
  flush_events iid tid v (ev :: evs) db
  = (Err (Exn ConflictError ("instance " +:+ iid +:+ ": concurrent append at v" +:+ pretty v)), db).
Proof.
  intros Hin. unfold flush_events, try_catch.
  by rewrite (M_bind_raise _ _ _ _ _ (insert_events_dup iid tid ev evs db Hin)).
Qed.

(** ** Frame: an instance depends on its own rows only *)

Lemma stream_inv_frame db db' iid :
  db_events db' = db_events db -> db_snapshots db' !! iid = db_snapshots db !! iid ->
  stream_inv db iid -> stream_inv db' iid.
Proof.
  intros He Hs [H1 H2 H3].
  assert (instance_rows db' iid = instance_rows db iid) as Hr by (unfold instance_rows; by rewrite He).
  assert (log db' iid = log db iid) as Hl by (unfold log; by rewrite Hr).
  constructor; rewrite ?Hr; [done|done|]. unfold snap_ok in *. by rewrite Hs, Hl.
Qed.

Lemma log_frame db db' iid : db_events db' = db_events db -> log db' iid = log db iid.
Proof. intros He. unfold log, instance_rows. by rewrite He. Qed.

Lemma inst_inv_frame db db' iid :
  db_events db' = db_events db -> db_snapshots db' !! iid = db_snapshots db !! iid ->
  db_index db' !! iid = db_index db !! iid -> inst_inv db iid -> inst_inv db' iid.
Proof.
  intros He Hs Hi [H1 H2]. constructor; [by eapply stream_inv_frame|].
  unfold live_ok in *. by rewrite Hi, Hs, (log_frame _ _ _ He).
Qed.

Lemma log_owner db iid : stream_inv db iid -> Forall (fun e => ev_instance_id e = iid) (log db iid).
Proof.
  intros [Hr _ _]. unfold log. induction Hr as [|r rows (e & Hp & _ & _ & Ho & He) _ IH];
    [constructor|].
  cbn. rewrite Hp, event_roundtrip by done. by constructor.
Qed.

(** Events owned by the instance, instances of their classes, numbered after its log. *)
Definition follows (db : DB) (iid tid : string) (evs : list event) : Prop :=
  Forall (fun e => ev_instance_id e = iid /\ ev_tenant_id e = tid) evs /\
  ev_sequence <$> evs = seqZ_from (Z.of_nat (length (log db iid))) (length evs) /\
  valid_bodies evs.

Lemma follows_valid db iid tid evs :
  follows db iid tid evs -> Forall (fun e => event_valid e = true) evs.
Proof.
  intros (_ & Hs & Hb). rewrite Forall_forall in *. intros e He. unfold event_valid.
  rewrite (Hb e He), andb_true_r. apply Z.leb_le.
  apply (list_elem_of_fmap_2 ev_sequence) in He. rewrite Hs in He.
  apply elem_of_seqZ_from in He. lia.
Qed.

Lemma follows_fresh db iid tid evs :
  stream_inv db iid -> follows db iid tid evs ->
  (evr_sequence <$> instance_rows db iid) ++ (ev_sequence <$> evs)
  = seqZ_from 0 (length (instance_rows db iid) + length evs).
Proof.
  intros Hinv (_ & Hs & _). rewrite Hs, (length_log _ _ Hinv). destruct Hinv as [_ -> _].
  symmetry. apply seqZ_from_app.
Qed.

Lemma NoDup_seqZ_from n len : NoDup (seqZ_from n len).
Proof.
  revert n; induction len as [|len IH]; intros n; cbn; constructor; [|done].
  intros Hin%elem_of_seqZ_from. lia.
Qed.

Lemma stream_with_rows db iid tid evs iid' :
  stream_inv db iid -> stream_inv db iid' -> follows db iid tid evs ->
  stream_inv (with_rows iid tid evs db) iid'.
Proof.
  intros Hinv Hinv' Hf. pose proof (follows_fresh _ _ _ _ Hinv Hf) as Hseq.
  pose proof (follows_valid _ _ _ _ Hf) as Hv.
  pose proof Hf as (Ho & _). destruct (decide (iid = iid')) as [<-|Hne].
  - constructor; rewrite ?rows_with_rows, ?bool_decide_true by done.
    + apply Forall_app. split; [apply Hinv|]. clear -Ho Hv.
      generalize (db_next_id db). induction Ho as [|e evs [Hi Ht] _ IH]; intros n; cbn; constructor;
        apply Forall_cons in Hv as [He Hv]; [|by apply IH]. exists e. cbn. by rewrite Ht.
    + rewrite fmap_app, event_rows_sequences, Hseq, length_app. f_equal.
      apply (f_equal length) in Hseq. rewrite length_app, !length_fmap, length_seqZ_from in Hseq.
      f_equal. pose proof (event_rows_sequences (db_next_id db) (db_now db) iid tid evs) as Hl.
      apply (f_equal length) in Hl. by rewrite !length_fmap in Hl.
    + pose proof (si_snap _ _ Hinv) as Hsnap. unfold snap_ok in *.
      rewrite log_with_rows, bool_decide_true by done.
      replace (db_snapshots (with_rows iid tid evs db)) with (db_snapshots db) by (by destruct db).
      destruct (db_snapshots db !! iid) as [row|]; [|done].
      destruct Hsnap as (v & st & ? & ? & Hle & Hfold). exists v, st.
      rewrite length_app, take_app_le by lia. split_and!; try done; lia.
  - destruct Hinv' as [H1 H2 H3].
    assert (instance_rows (with_rows iid tid evs db) iid' = instance_rows db iid') as Hr.
    { by rewrite rows_with_rows, bool_decide_false, app_nil_r. }
    constructor; rewrite ?Hr; [done|done|]. unfold snap_ok, log in *. rewrite Hr. by destruct db.
Qed.

(** ** The transaction *)

Lemma upsert_index_ok i nw db u db' :
  (forall r, db_index db !! wi_instance_id i = Some r ->
     ix_instance_id r = wi_instance_id i /\ ix_tenant_id r = wi_tenant_id i /\
     ix_workflow_id r = wi_workflow_id i /\ ix_workflow_version r = wi_workflow_version i) ->
  _upsert_index i nw db = (Ok u, db') ->
  exists r, index_ok r i /\ ix_next_wakeup_at r = nw /\
    db' = set_index (<[wi_instance_id i := r]> (db_index db)) db.
Proof.
  intros Hold. unfold _upsert_index.
  destruct (db_index db !! wi_instance_id i) as [r|] eqn:E.
  - intros [= _ <-]. destruct (Hold r eq_refl) as (H1 & H2 & H3 & H4).
    eexists. by split_and!; [|cbn|reflexivity].
  - case_bool_decide; [|done]. intros [= _ <-].
    eexists. by split_and!; [|cbn|reflexivity].
Qed.

Lemma project_escalations_frame evs db :
  let db' := foldl project_escalation db evs in
  db_events db' = db_events db /\ db_snapshots db' = db_snapshots db /\
  db_index db' = db_index db /\ db_definitions db' = db_definitions db.
Proof.
  revert db; induction evs as [|ev evs IH]; intros db; [done|]. cbn.
  destruct (IH (project_escalation db ev)) as (-> & -> & -> & ->).
  unfold project_escalation, close_escalation. destruct db; cbn.
  destruct (ev_body ev); try done; by case_match.
Qed.

Lemma fold_identity defn l i :
  Fold.fold l defn None = Ok i ->
  exists ev l', l = ev :: l' /\ wi_instance_id i = ev_instance_id ev /\
                wi_tenant_id i = ev_tenant_id ev.
Proof.
  intros (_ & i0 & Hst & Hr)%fold_Ok. destruct l as [|ev l]; [done|]. cbn in Hst.
  destruct (Fold.genesis ev) as [j|] eqn:Hg; simplify_eq.
  unfold Fold.genesis in Hg. destruct (ev_body ev); try discriminate Hg. injection Hg as <-.
  apply spec_run_identity in Hr as (-> & -> & _). by exists ev, l.
Qed.

Lemma fold_prefix_identity defn l1 l2 i1 i2 :
  Fold.fold l1 defn None = Ok i1 -> Fold.fold (l1 ++ l2) defn None = Ok i2 ->
  wi_instance_id i2 = wi_instance_id i1 /\ wi_tenant_id i2 = wi_tenant_id i1 /\
  wi_workflow_id i2 = wi_workflow_id i1 /\ wi_workflow_version i2 = wi_workflow_version i1.
Proof.
  intros H1 H2. rewrite fold_app in H2.
  - rewrite H1 in H2. cbn in H2. apply fold_from_Ok in H2 as [_ Hr].
    by eapply spec_run_identity.
  - right. intros ->. done.
Qed.

(** The old index row, if any, has the identity of the new projection. *)
Lemma index_identity db iid evs i r :
  live_ok db iid -> Fold.fold (log db iid ++ evs) None None = Ok i ->
  db_index db !! iid = Some r ->
  ix_instance_id r = wi_instance_id i /\ ix_tenant_id r = wi_tenant_id i /\
  ix_workflow_id r = wi_workflow_id i /\ ix_workflow_version r = wi_workflow_version i.
Proof.
  unfold live_ok. intros Hlive Hf Hr. destruct (log db iid) as [|e l] eqn:El; [congruence|].
  destruct Hlive as (i0 & r0 & Hf0 & _ & Hr0 & Hok & _). rewrite Hr in Hr0. injection Hr0 as <-.
  destruct Hok as (-> & -> & -> & -> & _).
  destruct (fold_prefix_identity _ _ evs _ i Hf0 Hf) as (-> & -> & -> & ->). done.
Qed.

Lemma fold_owner iid defn l i :
  Forall (fun e => ev_instance_id e = iid) l -> Fold.fold l defn None = Ok i ->
  wi_instance_id i = iid.
Proof.
  intros Hown (ev & l' & -> & -> & _)%fold_identity. by inversion_clear Hown.
Qed.

(** What a committed transaction did to the tables. *)
Record written (db : DB) (iid tid : string) (evs : list event) (nw : option time)
    (db' : DB) (i : WorkflowInstance) : Prop := {
  wr_fold : Fold.fold (log db iid ++ evs) None None = Ok i;
  wr_tenant : wi_tenant_id i = tid;
  wr_events : db_events db' = db_events (with_rows iid tid evs db);
  wr_index : exists r, index_ok r i /\ ix_next_wakeup_at r = nw /\
               db_index db' = <[iid := r]> (db_index db);
  wr_snap : (db_snapshots db' = db_snapshots db /\ is_Some (db_snapshots db !! iid)) \/
            exists row, snr_state row = dump_state i /\ snr_version row = wi_version i /\
              db_snapshots db' = <[iid := row]> (db_snapshots db);
}.

Lemma write_events_project db iid tid evs ver nw u db' :
  store_inv db -> follows db iid tid evs ->
  write_events iid tid evs ver nw db = (Ok u, db') ->
  exists i, Fold.fold (log db iid ++ evs) None None = Ok i /\ wi_tenant_id i = tid /\
    (_ ← _upsert_index i nw;
     _ ← _project_escalations evs;
     snap ← (fun db => (_load_snapshot db iid, db));
     if match snap with None => true | Some _ => false end
        || should_snapshot (match snap with Some s => snap_version s | None => 0%Z end)
             (wi_version i)
     then lst ← lift (last_event evs); _write_snapshot i (ev_occurred_at lst)
     else mret tt) (with_rows iid tid evs db) = (Ok u, db').
Proof.
  intros Hinv Hf. pose proof (Hinv iid) as [Hstr _]. unfold write_events.
  rewrite (M_bind_step _ _ _ _ _ (flush_ok iid tid ver evs db ltac:(
    rewrite (follows_fresh _ _ _ _ Hstr Hf); apply NoDup_seqZ_from))).
  pose proof (stream_with_rows db iid tid evs iid Hstr Hstr Hf) as Hstr1.
  pose proof (log_with_rows iid tid evs db iid (follows_valid _ _ _ _ Hf)) as Hlog1. rewrite bool_decide_true in Hlog1 by done.
  intros (oi & db2 & Hp & Hrest)%M_bind_Ok. injection Hp as Hp <-.
  destruct (decide (log (with_rows iid tid evs db) iid = [])) as [Hnil|Hne].
  { rewrite (project_empty _ iid tid None true Hstr1 Hnil) in Hp. discriminate Hp. }
  rewrite (project_log _ iid tid true Hstr1 Hne), Hlog1 in Hp.
  apply bind_Ok in Hp as (i & Hfold & Hp). case_bool_decide as Ht; [|done].
  injection Hp as <-. by exists i.
Qed.

Lemma write_events_written db iid tid evs ver nw u db' :
  store_inv db -> follows db iid tid evs ->
  write_events iid tid evs ver nw db = (Ok u, db') -> exists i, written db iid tid evs nw db' i.
Proof.
  intros Hinv Hf Hw. destruct (write_events_project _ _ _ _ _ _ _ _ Hinv Hf Hw)
    as (i & Hfold & Ht & Hrest). exists i.
  pose proof (Hinv iid) as [Hstr Hlive].
  pose proof (stream_with_rows db iid tid evs iid Hstr Hstr Hf) as Hstr1.
  pose proof (log_with_rows iid tid evs db iid (follows_valid _ _ _ _ Hf)) as Hlog1. rewrite bool_decide_true in Hlog1 by done.
  assert (wi_instance_id i = iid) as Hid.
  { eapply fold_owner; [|done]. rewrite <- Hlog1. by apply log_owner. }
  assert (db_index (with_rows iid tid evs db) = db_index db) as Hi1 by (by destruct db).
  assert (db_snapshots (with_rows iid tid evs db) = db_snapshots db) as Hs1 by (by destruct db).
  apply M_bind_Ok in Hrest as (u1 & db3 & Hup & Hrest).
  apply upsert_index_ok in Hup as (r & Hr & Hnw & ->).
  2:{ intros r Hr. rewrite Hi1, Hid in Hr. by eapply index_identity. }
  set (db3 := set_index _ _) in *.
  assert (db_events db3 = db_events (with_rows iid tid evs db) /\
          db_index db3 = <[iid := r]> (db_index db) /\ db_snapshots db3 = db_snapshots db)
    as (He3 & Hi3 & Hs3) by (subst db3; rewrite Hid; by destruct db).
  apply M_bind_Ok in Hrest as (u2 & db4 & Hpe & Hrest). injection Hpe as _ Hdb4.
  pose proof (project_escalations_frame evs db3) as (He4 & Hs4 & Hi4 & _). cbn zeta in *.
  rewrite Hdb4 in He4, Hs4, Hi4. rewrite He3 in He4. rewrite Hs3 in Hs4. rewrite Hi3 in Hi4.
  apply M_bind_Ok in Hrest as (snap & db5 & Hsn & Hrest). injection Hsn as Hsn <-.
  destruct (_ || _) eqn:Hsw.
  - apply M_bind_Ok in Hrest as (lst & db6 & Hl & Hrest). injection Hl as _ <-.
    injection Hrest as _ <-. rewrite Hid. constructor; [done|done| | |].
    + rewrite <- He4. by destruct db4.
    + exists r. split_and!; [done|done|]. rewrite <- Hi4. by destruct db4.
    + right. eexists. split_and!; [| |by rewrite <- Hs4; destruct db4]; done.
  - injection Hrest as _ <-. constructor; [done|done|done|eauto|]. left. split; [done|].
    unfold _load_snapshot in Hsn. rewrite Hs4 in Hsn.
    destruct (db_snapshots db !! iid); [by eexists|]. by injection Hsn as <-.
Qed.

Lemma written_log db iid tid evs nw db' i iid' :
  follows db iid tid evs -> written db iid tid evs nw db' i ->
  log db' iid' = log db iid' ++ if bool_decide (iid = iid') then evs else [].
Proof.
  intros Hf Hw. rewrite (log_frame _ _ _ (wr_events _ _ _ _ _ _ _ Hw)).
  by apply log_with_rows, (follows_valid _ _ _ _ Hf).
Qed.

Lemma store_inv_written db iid tid evs nw db' i :
  store_inv db -> follows db iid tid evs -> written db iid tid evs nw db' i -> store_inv db'.
Proof.
  intros Hinv Hf Hw iid'. pose proof (Hinv iid) as [Hstr Hlive].
  pose proof (written_log _ _ _ _ _ _ _ iid' Hf Hw) as Hlog.
  destruct Hw as [Hfold Ht He (r & Hr & _ & Hi) Hs].
  pose proof (stream_with_rows db iid tid evs iid' Hstr (ii_stream _ _ (Hinv iid')) Hf) as Hstr1.
  assert (db_snapshots (with_rows iid tid evs db) = db_snapshots db) as Hs1 by (by destruct db).
  destruct (decide (iid = iid')) as [<-|Hne].
  - rewrite bool_decide_true in Hlog by done. constructor.
    + destruct Hs as [[Hs _]|(row & Hst & Hv & Hs)].
      { eapply stream_inv_frame; [done| |done]. by rewrite Hs, Hs1. }
      destruct Hstr1 as [H1 H2 _].
      assert (instance_rows db' iid = instance_rows (with_rows iid tid evs db) iid) as Hrows
        by (unfold instance_rows; by rewrite He).
      constructor; rewrite ?Hrows; [done|done|]. unfold snap_ok. rewrite Hs, lookup_insert_eq, Hlog.
      exists (length (log db iid ++ evs)), i. rewrite firstn_all. split_and!; try done.
      * rewrite Hv. by apply fold_version in Hfold as [_ ->].
      * apply fold_identity in Hfold as (? & ? & -> & _). cbn. lia.
    + unfold live_ok. rewrite Hlog, Hi, lookup_insert_eq.
      destruct (log db iid ++ evs) as [|e l] eqn:El; [done|]. rewrite <- El in *.
      exists i, r. split_and!; try done.
      2:{ destruct Hs as [[-> ?]|(row & _ & _ & ->)]; [done|]. rewrite lookup_insert_eq. by eexists. }
      apply Forall_app. split.
      * unfold live_ok in Hlive. destruct (log db iid) as [|e0 l0] eqn:E0; [constructor|].
        rewrite <- E0 in *. destruct Hlive as (i0 & r0 & Hf0 & Hten & _).
        destruct (fold_prefix_identity _ _ _ _ _ Hf0 Hfold) as (_ & -> & _). done.
      * destruct Hf as (Ho & _). eapply Forall_impl; [exact Ho|]. cbn. rewrite Ht. by intros e' [_ ?].
  - rewrite bool_decide_false, app_nil_r in Hlog by done. constructor.
    + eapply stream_inv_frame; [done| |done]. rewrite Hs1.
      destruct Hs as [[-> _]|(row & _ & _ & ->)]; [done|]. by rewrite lookup_insert_ne.
    + assert (db_snapshots db' !! iid' = db_snapshots db !! iid') as Hsn
        by (destruct Hs as [[-> _]|(row & _ & _ & ->)]; [done|by rewrite lookup_insert_ne]).
      unfold live_ok. rewrite Hlog, Hi, Hsn, lookup_insert_ne by done. apply Hinv.
Qed.

(** What concurrent transactions may do between the version check and the
    flush: they keep the invariant and only extend logs. *)
Definition interferes (race : DB -> DB) (db : DB) : Prop :=
  store_inv (race db) /\ forall iid, log db iid `prefix_of` log (race db) iid.

Lemma no_interference db : store_inv db -> interferes id db.
Proof. intros H. split; [done|]. intros iid. done. Qed.

Lemma check_owner_ok iid tid evs u :
  foldM (check_owner iid tid) tt evs = Ok u <->
  Forall (fun e => ev_instance_id e = iid /\ ev_tenant_id e = tid) evs.
Proof.
  destruct u. induction evs as [|e evs IH]; [split; [constructor|done]|].
  rewrite foldM_cons_Ok, Forall_cons, <- IH. unfold check_owner.
  split.
  - intros ([] & H1 & H2). do 2 (case_bool_decide; [|done]). done.
  - intros [[-> ->] H2]. exists tt. by rewrite !bool_decide_true.
Qed.

Lemma publish_frame p iid tid evs db :
  exists db', publish p iid tid evs db = (Ok tt, db') /\ db_events db' = db_events db /\
    db_snapshots db' = db_snapshots db /\ db_index db' = db_index db.
Proof.
  unfold publish. destruct p; [by eexists|]. destruct (last evs); [|by eexists].
  destruct db as [? ? ? ? ? ? ? ? ? ? ? ? []]; by eexists.
Qed.

Lemma store_inv_frame db db' :
  db_events db' = db_events db -> db_snapshots db' = db_snapshots db ->
  db_index db' = db_index db -> store_inv db -> store_inv db'.
Proof. intros He Hs Hi H iid. apply (inst_inv_frame db); [done|by rewrite Hs|by rewrite Hi|done]. Qed.

(** The database after the steps of [_commit] that precede its transaction. *)
Lemma commit_checks p race iid tid evs ver g nw db :
  _commit p race iid tid evs ver g nw db =
  match foldM (check_owner iid tid) tt evs with
  | Err e => (Err e, db)
  | Ok _ =>
      match run_guard g db with
      | Err e => (Err e, db)
      | Ok _ =>
          if bool_decide (current_version db iid = ver) then
            (_ ← transaction (write_events iid tid evs ver nw);
             _ ← publish p iid tid evs;
             lst ← lift (last_event evs);
             mret (ev_sequence lst, evs)) (race db)
          else (Err (Exn ConflictError ("instance " +:+ iid +:+ ": expected v" +:+ pretty ver
                      +:+ ", found v" +:+ pretty (current_version db iid))), db)
      end
  end.
Proof.
  unfold _commit. unfold mbind at 1, M_bind at 1, lift at 1.
  destruct (foldM _ _ _) as [[]|e]; [|done].
  unfold mbind at 1, M_bind at 1. destruct (run_guard g db)
    as [[]|e]; [|done].
  unfold mbind at 1, M_bind at 1, gets. unfold mbind at 1, M_bind at 1.
  case_bool_decide; [|done]. done.
Qed.

(** Somebody else appended in the window: the unique constraint refuses. *)
Lemma write_events_conflict db db1 iid tid evs ver nw :
  stream_inv db1 iid -> log db iid `prefix_of` log db1 iid -> log db1 iid <> log db iid ->
  evs <> [] -> ver = Z.of_nat (length (log db iid)) ->
  ev_sequence <$> evs = seqZ_from ver (length evs) ->
  write_events iid tid evs ver nw db1
  = (Err (Exn ConflictError ("instance " +:+ iid +:+ ": concurrent append at v" +:+ pretty ver)), db1).
Proof.
  intros Hstr [k Hk] Hdiff Hne -> Hseq. destruct evs as [|ev evs]; [done|].
  unfold write_events. apply M_bind_raise, flush_conflict.
  injection Hseq as Hs _. rewrite (si_seq _ _ Hstr), Hs, elem_of_seqZ_from.
  rewrite <- (length_log _ _ Hstr), Hk, length_app.
  destruct k; [by rewrite app_nil_r in Hk|cbn; lia].
Qed.

Lemma last_event_ok evs e : last_event evs = Ok e -> evs <> [] /\ last evs = Some e.
Proof. unfold last_event. destruct (last evs) eqn:E; [|done]. destruct evs; naive_solver. Qed.

Lemma last_seqZ n len : len <> 0%nat -> last (seqZ_from n len) = Some (n + Z.of_nat len)%Z.
Proof.
  revert n; induction len as [|len IH]; intros n Hl; [done|].
  destruct len as [|len]; [done|].
  change (last (seqZ_from n (S (S len)))) with (last (seqZ_from (n + 1) (S len))).
  rewrite IH by done. f_equal. lia.
Qed.

Lemma prefix_cases {A} (l1 l2 : list A) : l1 `prefix_of` l2 -> l2 = l1 \/ l2 <> l1.
Proof.
  intros [k ->]. destruct k as [|x k]; [left; apply app_nil_r|right].
  intros H%(f_equal length). rewrite length_app in H. cbn in H. lia.
Qed.

(** ** Appending *)

Record appended (db db1 : DB) (iid : string) (evs : list event) (v : Z) (db' : DB) : Prop := {
  ap_inv : store_inv db';
  ap_nonempty : evs <> [];
  ap_unraced : log db1 iid = log db iid;
  ap_log : log db' iid = log db iid ++ evs;
  ap_others : forall iid', iid' <> iid -> log db' iid' = log db1 iid';
  ap_version : v = Z.of_nat (length (log db' iid));
}.

Lemma commit_ok p race iid tid evs ver g nw db v out db' :
  store_inv db -> interferes race db -> ev_sequence <$> evs = seqZ_from ver (length evs) ->
  valid_bodies evs ->
  _commit p race iid tid evs ver g nw db = (Ok (v, out), db') ->
  out = evs /\ ver = Z.of_nat (length (log db iid)) /\
  run_guard g db = Ok tt /\
  appended db (race db) iid evs v db' /\
  (exists i, Fold.fold (log db' iid) None None = Ok i /\ wi_tenant_id i = tid).
Proof.
  intros Hinv [Hrace Hpre] Hseq Hb. rewrite commit_checks.
  destruct (foldM _ _ _) as [u|] eqn:Hown; [|done]. apply check_owner_ok in Hown.
  destruct (run_guard g db) as [[]|]; [|done].
  rewrite (current_version_log _ _ (ii_stream _ _ (Hinv iid))). case_bool_decide as Hv; [|done].
  intros (u1 & db1 & Htx & Hrest)%M_bind_Ok. rewrite transaction_ok in Htx.
  apply M_bind_Ok in Hrest as (u2 & db2 & Hpub & Hrest).
  apply M_bind_Ok in Hrest as (lst & db3 & Hl & Hrest). injection Hl as Hl <-.
  injection Hrest as <- <- <-. apply last_event_ok in Hl as [Hne Hlast].
  destruct (prefix_cases _ _ (Hpre iid)) as [Heq|Hdiff].
  2:{ rewrite (write_events_conflict db (race db) iid tid evs ver nw) in Htx; try done.
      by apply Hrace. }
  assert (follows (race db) iid tid evs) as Hf by (split_and!; [done|by rewrite Heq, Hv|done]).
  destruct (write_events_written _ _ _ _ _ _ _ _ Hrace Hf Htx) as (i & Hw).
  pose proof (store_inv_written _ _ _ _ _ _ _ Hrace Hf Hw) as Hinv1.
  destruct (publish_frame p iid tid evs db1) as (db2' & Hp & He2 & Hs2 & Hi2).
  rewrite Hp in Hpub. injection Hpub as _ ->.
  assert (forall j, log db2 j = log (race db) j ++ if bool_decide (iid = j) then evs else [])
    as Hlog by (intros j; rewrite (log_frame _ _ _ He2); by eapply written_log).
  pose proof (Hlog iid) as Hl1. rewrite bool_decide_true, Heq in Hl1 by done.
  split_and!; [done|done|done| |].
  - constructor; [by eapply store_inv_frame|done|done|done| |].
    + intros j Hj. by rewrite Hlog, bool_decide_false, app_nil_r by done.
    + assert (last (ev_sequence <$> evs) = Some (ev_sequence lst)) as Hls
        by (by rewrite fmap_last, Hlast).
      rewrite Hseq, last_seqZ in Hls by (by destruct evs). injection Hls as <-.
      rewrite Hl1, length_app. lia.
  - exists i. destruct Hw as [Hfold Ht _ _ _]. by rewrite Hl1, <- Heq.
Qed.

Lemma commit_err p race iid tid evs ver g nw db e db' :
  store_inv db -> interferes race db -> ev_sequence <$> evs = seqZ_from ver (length evs) ->
  valid_bodies evs ->
  _commit p race iid tid evs ver g nw db = (Err e, db') ->
  store_inv db' /\
  ((forall j, log db' j = log db j) \/ (forall j, log db' j = log (race db) j)).
Proof.
  intros Hinv [Hrace Hpre] Hseq Hb. rewrite commit_checks.
  destruct (foldM _ _ _) as [u|] eqn:Hown; [|intros [= _ <-]; auto]. apply check_owner_ok in Hown.
  destruct (run_guard g db) as [[]|]; [|intros [= _ <-]; auto].
  rewrite (current_version_log _ _ (ii_stream _ _ (Hinv iid))).
  case_bool_decide as Hv; [|intros [= _ <-]; auto].
  unfold mbind at 1, M_bind at 1.
  destruct (transaction _ (race db)) as [[u1|e1] db1] eqn:Htx.
  2:{ apply transaction_err in Htx as ->. intros [= _ <-]. auto. }
  rewrite transaction_ok in Htx.
  destruct (publish_frame p iid tid evs db1) as (db2 & Hp & He2 & Hs2 & Hi2).
  rewrite (M_bind_step _ _ _ _ _ Hp). unfold mbind, M_bind, lift, last_event.
  destruct (last evs) as [lst|] eqn:Hlast; [done|]. intros [= _ <-].
  apply last_None in Hlast as ->.
  assert (follows (race db) iid tid []) as Hf by (split_and!; [constructor|done|constructor]).
  destruct (write_events_written _ _ _ _ _ _ _ _ Hrace Hf Htx) as (i & Hw).
  split; [eapply store_inv_frame; [done..|]; by eapply store_inv_written|].
  right. intros j. rewrite (log_frame _ _ _ He2), (written_log _ _ _ _ _ _ _ j Hf Hw).
  case_bool_decide; apply app_nil_r.
Qed.

(** C2: Appends are atomic and optimistically concurrent.  Whatever other
    transactions commit between the version check and the flush, [append_new]
    keeps the store invariant and either appends the whole batch, numbered right
    after the log it was computed from, having passed its guard and with nobody
    else's events in between, or writes no event at all. *)
Theorem append_new_atomic p race iid tid drafts ver g nw db r db' :
  store_inv db -> interferes race db -> valid_bodies drafts ->
  append_new p race iid tid drafts ver g nw db = (r, db') ->
  store_inv db' /\
  match r with
  | Ok (v, evs) =>
      evs = sequenced ver drafts /\ evs <> [] /\
      ver = Z.of_nat (length (log db iid)) /\
      run_guard g db = Ok tt /\
      log (race db) iid = log db iid /\
      log db' iid = log db iid ++ evs /\ v = Z.of_nat (length (log db' iid)) /\
      (forall j, j <> iid -> log db' j = log (race db) j)
  | Err _ => (forall j, log db' j = log db j) \/ (forall j, log db' j = log (race db) j)
  end.
Proof.
  intros Hinv Hrace Hb Hap. unfold append_new in Hap. apply (sequenced_valid ver) in Hb.
  assert (ev_sequence <$> sequenced ver drafts
          = seqZ_from ver (length (sequenced ver drafts))) as Hseq.
  { by rewrite sequenced_numbers, length_sequenced. }
  destruct r as [[v evs]|e].
  - apply commit_ok in Hap as (-> & Hv & Hg & [H1 H2 H3 H4 H5 H6] & _); [|done..].
    split; [done|]. by split_and!.
  - by eapply commit_err.
Qed.

(** A writer that lost the race never overwrites: if another transaction
    extended the log of this instance after the version check, [append_new] of a
    non-empty batch raises [ConflictError] (through the unique constraint) and
    the database is exactly what the other transactions left. *)
Theorem append_new_race_lost p race iid tid drafts g nw db :
  store_inv db -> interferes race db ->
  log (race db) iid <> log db iid -> drafts <> [] ->
  Forall (fun e => ev_instance_id e = iid /\ ev_tenant_id e = tid) drafts ->
  run_guard g db = Ok tt ->
  exists msg,
    append_new p race iid tid drafts (Z.of_nat (length (log db iid))) g nw db
    = (Err (Exn ConflictError msg), race db).
Proof.
  intros Hinv [Hrace Hpre] Hdiff Hne Hown Hg. unfold append_new. rewrite commit_checks.
  set (ver := Z.of_nat _).
  assert (Forall (fun e => ev_instance_id e = iid /\ ev_tenant_id e = tid)
            (sequenced ver drafts)) as Hown'.
  { apply Forall_forall. intros e (d & Hd & ->)%elem_of_sequenced.
    rewrite Forall_forall in Hown. by apply Hown in Hd. }
  apply (check_owner_ok iid tid _ tt) in Hown'. rewrite Hown', Hg.
  rewrite (current_version_log _ _ (ii_stream _ _ (Hinv iid))), bool_decide_true by done.
  eexists. apply M_bind_raise. unfold transaction.
  rewrite (write_events_conflict db (race db) iid tid _ ver nw); try done.
  - by apply Hrace.
  - intros H%(f_equal length). rewrite length_sequenced in H. by destruct drafts.
  - by rewrite sequenced_numbers, length_sequenced.
Qed.

(** A writer with a stale version is refused before it writes anything:
    unless its expected version is the length of the log, [append_new] raises
    [ConflictError] (or the guard's or the ownership check's exception) and the
    database is unchanged. *)
Theorem append_new_stale p race iid tid drafts ver g nw db :
  store_inv db -> ver <> Z.of_nat (length (log db iid)) ->
  exists e, append_new p race iid tid drafts ver g nw db = (Err e, db) /\
    (Forall (fun e => ev_instance_id e = iid /\ ev_tenant_id e = tid) drafts -> g = None ->
     exn_cls e = ConflictError).
Proof.
  intros Hinv Hv. unfold append_new. rewrite commit_checks.
  destruct (foldM _ _ _) as [u|e] eqn:Hown.
  2:{ exists e. split; [done|]. intros Hd _.
      assert (foldM (check_owner iid tid) tt (sequenced ver drafts) = Ok tt) as Hok; [|congruence].
      apply check_owner_ok, Forall_forall. intros e' (d & Hin & ->)%elem_of_sequenced.
      rewrite Forall_forall in Hd. by apply Hd in Hin. }
  destruct (run_guard g db) as [[]|e] eqn:Hg.
  2:{ exists e. split; [done|]. intros _ ->. done. }
  rewrite (current_version_log _ _ (ii_stream _ _ (Hinv iid))), bool_decide_false by done.
  eexists. split; [done|]. done.
Qed.

(** ** Appends that must succeed *)

Lemma load_snapshot_ok db iid : stream_inv db iid -> is_ok (_load_snapshot db iid) = true.
Proof.
  intros Hinv. pose proof (si_snap _ _ Hinv) as Hs. unfold _load_snapshot, snap_ok in *.
  destruct (db_snapshots db !! iid); [|done].
  destruct Hs as (v & st & -> & _). by rewrite state_roundtrip.
Qed.

(** The tail of the transaction cannot fail once the projection succeeded. *)
Lemma write_events_total db iid tid evs nw i :
  store_inv db -> follows db iid tid evs -> evs <> [] ->
  Fold.fold (log db iid ++ evs) None None = Ok i -> wi_tenant_id i = tid ->
  (log db iid <> [] \/
   is_Some (db_definitions db !! (tid, wi_workflow_id i, wi_workflow_version i))) ->
  exists db', write_events iid tid evs (Z.of_nat (length (log db iid))) nw db = (Ok tt, db').
Proof.
  intros Hinv Hf Hne Hfold Ht Hdef. pose proof (Hinv iid) as [Hstr Hlive]. unfold write_events.
  rewrite (M_bind_step _ _ _ _ _ (flush_ok iid tid _ evs db ltac:(
    rewrite (follows_fresh _ _ _ _ Hstr Hf); apply NoDup_seqZ_from))).
  pose proof (stream_with_rows db iid tid evs iid Hstr Hstr Hf) as Hstr1.
  pose proof (log_with_rows iid tid evs db iid (follows_valid _ _ _ _ Hf)) as Hlog1. rewrite bool_decide_true in Hlog1 by done.
  assert (wi_instance_id i = iid) as Hid.
  { eapply fold_owner; [|done]. rewrite <- Hlog1. by apply log_owner. }
  set (db1 := with_rows iid tid evs db) in *.
  assert (_project db1 iid tid None true = Ok (Some i)) as Hp.
  { rewrite (project_log _ iid tid true Hstr1), Hlog1, Hfold.
    - cbn. by rewrite bool_decide_true.
    - rewrite Hlog1. intros [_ ?]%app_nil. done. }
  rewrite (M_bind_step _ _ db1 (Some i) db1) by (by rewrite Hp).
  assert (exists db2, _upsert_index i nw db1 = (Ok tt, db2) /\ db_snapshots db2 = db_snapshots db1)
    as (db2 & Hup & Hs2).
  { unfold _upsert_index. destruct (db_index db1 !! wi_instance_id i) eqn:Ei.
    - eexists. split; [done|]. by destruct db1.
    - assert (db_definitions db1 = db_definitions db /\ db_index db1 = db_index db)
        as [-> Hidx] by (subst db1; by destruct db).
      rewrite bool_decide_true; [eexists; split; [done|]; by destruct db1|].
      destruct Hdef as [Hdef|Hdef]; [|by rewrite Ht].
      unfold live_ok in Hlive. rewrite Hidx, Hid in Ei.
      destruct (log db iid) as [|? ?]; [done|]. naive_solver. }
  rewrite (M_bind_step _ _ _ _ _ Hup).
  unfold _project_escalations, modify. unfold mbind at 1, M_bind at 1.
  set (db3 := foldl project_escalation db2 evs).
  assert (db_snapshots db3 = db_snapshots db1) as Hs3
    by (rewrite <- Hs2; apply project_escalations_frame).
  assert (_load_snapshot db3 iid = _load_snapshot db1 iid) as Hl
    by (unfold _load_snapshot; by rewrite Hs3).
  pose proof (load_snapshot_ok _ _ Hstr1) as (snap & Hsnap)%is_ok_true.
  rewrite (M_bind_step _ _ db3 snap db3) by (by rewrite Hl, Hsnap).
  destruct (_ || _); [|by eexists].
  unfold last_event. destruct (last evs) as [lst|] eqn:El; [by eexists|].
  by apply last_None in El.
Qed.

Lemma append_total p iid tid drafts g nw db i :
  store_inv db -> drafts <> [] -> valid_bodies drafts ->
  Forall (fun e => ev_instance_id e = iid /\ ev_tenant_id e = tid) drafts ->
  run_guard g db = Ok tt ->
  Fold.fold (log db iid ++ sequenced (Z.of_nat (length (log db iid))) drafts) None None = Ok i ->
  wi_tenant_id i = tid ->
  (log db iid <> [] \/
   is_Some (db_definitions db !! (tid, wi_workflow_id i, wi_workflow_version i))) ->
  exists db',
    append_new p id iid tid drafts (Z.of_nat (length (log db iid))) g nw db
    = (Ok (wi_version i, sequenced (Z.of_nat (length (log db iid))) drafts), db').
Proof.
  intros Hinv Hne Hb Hown Hg Hfold Ht Hdef. unfold append_new. rewrite commit_checks, Hg.
  set (ver := Z.of_nat (length (log db iid))) in *.
  assert (Forall (fun e => ev_instance_id e = iid /\ ev_tenant_id e = tid)
            (sequenced ver drafts)) as Hown'.
  { apply Forall_forall. intros e (d & Hd & ->)%elem_of_sequenced.
    rewrite Forall_forall in Hown. by apply Hown in Hd. }
  pose proof Hown' as Hck. apply (check_owner_ok iid tid _ tt) in Hck. rewrite Hck.
  rewrite (current_version_log _ _ (ii_stream _ _ (Hinv iid))), bool_decide_true by done.
  assert (sequenced ver drafts <> []) as Hne'.
  { intros H%(f_equal length). rewrite length_sequenced in H. by destruct drafts. }
  assert (follows db iid tid (sequenced ver drafts)) as Hf.
  { split_and!; [done|by rewrite sequenced_numbers, length_sequenced|by apply sequenced_valid]. }
  destruct (write_events_total db iid tid _ nw i Hinv Hf Hne' Hfold Ht Hdef) as (db1 & Hw).
  rewrite (M_bind_step _ _ _ tt db1) by (apply transaction_ok; exact Hw).
  destruct (publish_frame p iid tid (sequenced ver drafts) db1) as (db2 & Hp & _).
  rewrite (M_bind_step _ _ _ _ _ Hp).
  destruct (last (sequenced ver drafts)) as [lst|] eqn:El; [|by apply last_None in El].
  exists db2. unfold mbind, M_bind, lift, last_event. rewrite El.
  apply fold_version in Hfold as [_ ->].
  assert (last (ev_sequence <$> sequenced ver drafts) = Some (ev_sequence lst)) as Hl
    by (by rewrite fmap_last, El).
  rewrite sequenced_numbers, last_seqZ in Hl by (by destruct drafts). injection Hl as <-.
  unfold base_version. rewrite length_app, length_sequenced. unfold mret, M_ret, ver. do 3 f_equal. lia.
Qed.

(** Interference that leaves the log alone goes unnoticed: once the guard has passed,
    the append goes on as one without a guard on what the others left. *)
Lemma append_new_raced p race iid tid drafts g nw db :
  store_inv db -> store_inv (race db) -> log (race db) iid = log db iid ->
  run_guard g db = Ok tt ->
  Forall (fun e => ev_instance_id e = iid /\ ev_tenant_id e = tid) drafts ->
  let ver := Z.of_nat (length (log db iid)) in
  append_new p race iid tid drafts ver g nw db = append_new p id iid tid drafts ver None nw (race db).
Proof.
  intros Hinv Hrace Hl Hg Hown ver. unfold append_new. rewrite !commit_checks, Hg. unfold run_guard.
  assert (foldM (check_owner iid tid) tt (sequenced ver drafts) = Ok tt) as ->.
  { apply check_owner_ok, Forall_forall. intros e (d & Hd & ->)%elem_of_sequenced.
    rewrite Forall_forall in Hown. by apply Hown in Hd. }
  rewrite (current_version_log _ _ (ii_stream _ _ (Hinv iid))).
  rewrite (current_version_log _ _ (ii_stream _ _ (Hrace iid))), Hl.
  by rewrite bool_decide_true.
Qed.

(** C18: An append that should succeed does: with the current version, a passing
    guard, a non-empty batch owned by the instance and tenant, events the fold
    accepts, and a registered definition (for a new instance), [append_new]
    returns the new version and the sequenced events. *)
Theorem append_new_succeeds p iid tid drafts g nw db i :
  store_inv db -> drafts <> [] -> valid_bodies drafts ->
  Forall (fun e => ev_instance_id e = iid /\ ev_tenant_id e = tid) drafts ->
  run_guard g db = Ok tt ->
  Fold.fold (log db iid ++ sequenced (Z.of_nat (length (log db iid))) drafts) None None = Ok i ->
  wi_tenant_id i = tid ->
  (log db iid <> [] \/
   is_Some (db_definitions db !! (tid, wi_workflow_id i, wi_workflow_version i))) ->
  exists db',
    append_new p id iid tid drafts (Z.of_nat (length (log db iid))) g nw db
    = (Ok (wi_version i, sequenced (Z.of_nat (length (log db iid))) drafts), db').
Proof. apply append_total. Qed.

(** ** Reading back *)

Lemma live_nonempty db iid :
  inst_inv db iid -> log db iid <> [] ->
  exists i r, Fold.fold (log db iid) None None = Ok i /\
    Forall (fun e => ev_tenant_id e = wi_tenant_id i) (log db iid) /\
    db_index db !! iid = Some r /\ index_ok r i /\ is_Some (db_snapshots db !! iid).
Proof. intros [_ H] Hne. unfold live_ok in H. by destruct (log db iid). Qed.

Lemma tenant_rows db iid tid :
  Forall (row_ok iid) (instance_rows db iid) ->
  Forall (fun e => ev_tenant_id e = tid) (log db iid) ->
  Forall (fun r => evr_tenant_id r = tid) (instance_rows db iid).
Proof.
  unfold log. induction 1 as [|r rows (e & Hp & _ & Ht & _ & He) _ IH]; [constructor|].
  cbn. rewrite Hp, event_roundtrip by done. intros [H1 H2]%Forall_cons. constructor; [congruence|auto].
Qed.

Lemma load_own db iid tid v :
  stream_inv db iid -> Forall (fun e => ev_tenant_id e = tid) (log db iid) ->
  load db iid tid (Z.of_nat v) = Ok (drop v (log db iid)).
Proof.
  intros Hinv Ht. unfold load.
  rewrite (filter_ext_in _ (fun r => (Z.of_nat v < evr_sequence r)%Z)).
  - by rewrite (tail_rows _ _ _ Hinv), drop_log.
  - apply tenant_rows in Ht; [|apply Hinv]. rewrite Forall_forall in Ht. naive_solver.
Qed.

Lemma load_foreign db iid tid tid' v :
  stream_inv db iid -> Forall (fun e => ev_tenant_id e = tid) (log db iid) -> tid' <> tid ->
  load db iid tid' v = Ok [].
Proof.
  intros Hinv Ht Hne. unfold load. rewrite filter_all_false; [done|].
  apply tenant_rows in Ht; [|apply Hinv]. rewrite Forall_forall in Ht.
  intros r Hr [Heq _]. apply Hne. rewrite <- Heq. by apply Ht.
Qed.

(** C17: Reads agree with the log and respect tenancy.  For every instance with
    events, the snapshot-accelerated [get_instance] returns the fold of the whole
    log, [load] returns the log, and the index row mirrors the folded state
    (status, version, cost, budget, completion), while any other tenant sees no
    instance and no events. *)
Theorem reads_agree_with_log db iid :
  store_inv db -> log db iid <> [] ->
  exists i r,
    Fold.fold (log db iid) None None = Ok i /\
    get_instance db iid (wi_tenant_id i) None = Ok (Some i) /\
    load db iid (wi_tenant_id i) 0 = Ok (log db iid) /\
    db_index db !! iid = Some r /\ index_ok r i /\
    (forall tid, tid <> wi_tenant_id i ->
       get_instance db iid tid None = Ok None /\ forall after, load db iid tid after = Ok []).
Proof.
  intros Hinv Hne. pose proof (ii_stream _ _ (Hinv iid)) as Hstr.
  destruct (live_nonempty _ _ (Hinv iid) Hne) as (i & r & Hf & Ht & Hr & Hok & _).
  exists i, r. unfold get_instance. split_and!; try done.
  - rewrite (project_log _ _ _ _ Hstr Hne), Hf. cbn. by rewrite bool_decide_true.
  - apply (load_own db iid _ 0 Hstr Ht).
  - intros tid Htid. split; [|intros after; by eapply load_foreign].
    rewrite (project_log _ _ _ _ Hstr Hne), Hf. cbn. by rewrite bool_decide_false.
Qed.

Lemma filter_upto n v evs :
  ev_sequence <$> evs = seqZ_from n (length evs) ->
  filter (fun e => (ev_sequence e <= n + Z.of_nat v)%Z) evs = take v evs.
Proof.
  revert n v; induction evs as [|e evs IH]; intros n v Hs; [by destruct v|].
  cbn in Hs. injection Hs as He Hs. destruct v as [|v].
  - apply filter_all_false. intros x Hx Hle.
    assert (ev_sequence x ∈ seqZ_from n (length (e :: evs))) as Hin.
    { cbn. rewrite <- Hs, <- He. apply elem_of_cons in Hx as [->|Hx];
        [left|right; by apply list_elem_of_fmap_2]; done. }
    apply elem_of_seqZ_from in Hin. lia.
  - rewrite filter_cons_True by lia. cbn. f_equal. rewrite <- (IH _ v Hs).
    apply list_filter_iff. intros x. lia.
Qed.

(** Time travel is exact: [state_at] version [v] returns the fold of the first
    [v] events of the log, and nothing for a version below one; it is always
    defined, since every prefix of a stored log folds. *)
Theorem state_at_is_prefix_fold db iid v i :
  store_inv db -> Fold.fold (log db iid) None None = Ok i -> 
  if (0 <? v)%Z
  then exists iv, Fold.fold (take (Z.to_nat v) (log db iid)) None None = Ok iv /\
         state_at db iid (wi_tenant_id i) v None = Ok (Some iv) /\
         wi_version iv = Z.min v (Z.of_nat (length (log db iid)))
  else state_at db iid (wi_tenant_id i) v None = Ok None.
Proof.
  intros Hinv Hf. pose proof (ii_stream _ _ (Hinv iid)) as Hstr.
  assert (log db iid <> []) as Hne by (intros Hl; by rewrite Hl in Hf).
  destruct (live_nonempty _ _ (Hinv iid) Hne) as (i' & r & Hf' & Ht & _).
  rewrite Hf in Hf'. injection Hf' as <-. unfold state_at.
  pose proof (load_own db iid _ 0 Hstr Ht) as Hload. rewrite drop_0 in Hload.
  change (Z.of_nat 0) with 0%Z in Hload. rewrite Hload. cbn [mbind result_bind].
  pose proof (filter_upto 0 (Z.to_nat v) _ (log_sequences _ _ Hstr)) as Hfil.
  destruct (Z.ltb_spec 0 v) as [Hv|Hv].
  - rewrite Z.add_0_l, Z2Nat.id in Hfil by lia. rewrite Hfil.
    assert (take (Z.to_nat v) (log db iid) <> []) as Hne'.
    { destruct (log db iid); [done|]. by replace (Z.to_nat v) with (S (Z.to_nat v - 1)) by lia. }
    rewrite <- (take_drop (Z.to_nat v) (log db iid)), fold_app in Hf by auto.
    apply bind_Ok in Hf as (iv & Hiv & _). exists iv.
    split_and!; [done| |].
    { destruct (take (Z.to_nat v) (log db iid)) eqn:Etk; [done|]. by rewrite Hiv. }
    apply fold_version in Hiv as [_ ->]. rewrite length_take. cbn. lia.
  - replace (Z.to_nat v) with 0%nat in Hfil by lia.
    rewrite filter_all_false; [done|]. intros e He Hle.
    apply (list_elem_of_fmap_2 ev_sequence) in He.
    rewrite (log_sequences _ _ Hstr) in He. apply elem_of_seqZ_from in He. lia.
Qed.

(** ** Seeding from a definition *)

Definition is_created (e : event) : Prop :=
  match ev_body e with InstanceCreated _ _ _ _ _ _ => True | _ => False end.

Lemma fold_defn_irrelevant d d' base evs :
  Forall (fun e => ~ is_created e) evs ->
  Fold.fold evs d (Some base) = Fold.fold evs d' (Some base).
Proof.
  intros Hnc. unfold Fold.fold. f_equal. generalize (wi_version base + 1)%Z. revert base.
  induction Hnc as [|ev evs Hn _ IH]; intros base n; [done|]. cbn [foldM].
  assert (Fold.fold_one d (Some base, n) ev = Fold.fold_one d' (Some base, n) ev) as Heq.
  { unfold Fold.fold_one, Fold.apply_event. case_bool_decide; [|done]. cbn.
    unfold is_created in Hn. by destruct (ev_body ev). }
  rewrite Heq. destruct (Fold.fold_one d' (Some base, n) ev) as [[o m]|] eqn:E; [|done]. cbn.
  unfold Fold.fold_one in E. case_bool_decide; [|done]. cbn in E.
  apply bind_Ok in E as (i1 & _ & [= <- <-]). apply IH.
Qed.

(** Only the creating event is one. *)
Definition one_genesis (l : list event) : Prop := Forall (fun e => ~ is_created e) (tail l).

Lemma get_instance_defn db iid tid d :
  store_inv db -> one_genesis (log db iid) ->
  get_instance db iid tid d = get_instance db iid tid None.
Proof.
  intros Hinv Hnc. pose proof (ii_stream _ _ (Hinv iid)) as Hstr. unfold get_instance.
  destruct (decide (length (log db iid) = 0)) as [Hl%nil_length_inv|Hne].
  { by rewrite !project_empty. }
  assert (log db iid <> []) as Hne' by (intros Hl; by rewrite Hl in Hne).
  destruct (live_nonempty _ _ (Hinv iid) Hne') as (i & r & _ & _ & _ & _ & [row Hrow]).
  pose proof (si_snap _ _ Hstr) as Hsnap. unfold snap_ok, _project, _load_snapshot in *.
  rewrite Hrow in *. destruct Hsnap as (v & st & Hst & Hv & Hvl & _).
  rewrite Hst, state_roundtrip. cbn [mbind result_bind snap_base snap_state snap_version].
  rewrite Hv, (tail_rows _ _ _ Hstr), (drop_log _ _ _ Hstr). cbn [mbind result_bind].
  rewrite (fold_defn_irrelevant d None); [done|].
  destruct (log db iid) as [|e l]; [done|]. destruct v as [|v]; [lia|]. cbn in *.
  by apply Forall_drop.
Qed.

(** The definition passed to [get_instance] has no effect on a stored
    instance: the first append already wrote a snapshot, made without a
    definition, so the creating event is never folded again and the steps of the
    definition are never seeded.  (The source passes the definition precisely to
    have them seeded.) *)
Theorem get_instance_ignores_definition db iid tid d :
  store_inv db -> one_genesis (log db iid) ->
  get_instance db iid tid d = get_instance db iid tid None.
Proof. apply get_instance_defn. Qed.

Lemma empty_store_inv now : store_inv (empty_db now).
Proof. intros iid. constructor; [constructor; [constructor|done|done]|done]. Qed.

End theory.

(** ** Witnesses *)

Module StoreSample.

#[local] Existing Instance plain_codec.
#[local] Existing Instance plain_codec_laws.

(** A database with the sample definition registered and the sample instance
    created through the store. *)
Definition defn_row : WorkflowDefinitionRow := {|
  dr_tenant_id := "t1"; dr_workflow_id := "wf"; dr_version := "1.0.0"; dr_name := "Workflow";
  dr_description := ""; dr_definition := dump_definition Sample.defn;
  dr_checksum := checksum Sample.defn; dr_is_active := true;
  dr_created_at := 0%Z; dr_updated_at := 0%Z |}.

Definition db0 : DB := set_definitions {[ ("t1", "wf", "1.0.0") := defn_row ]} (empty_db 0%Z).

Definition run {A} (m : M DB exn A) (db : DB) : DB := snd (m db).

Definition created : DB :=
  run (append_new RedisEventPublisher id "i1" "t1" [Sample.draft Sample.created] 0 None None) db0.

Definition started_drafts : list event :=
  Sample.draft <$> [InstanceStatusChanged WorkflowStatus.PENDING WorkflowStatus.RUNNING None].

(** Another worker starts the instance first. *)
Definition rival (db : DB) : DB :=
  run (append_new NoopPublisher id "i1" "t1" started_drafts 1 None None) db.

Lemma db0_inv : store_inv db0.
Proof. apply (store_inv_frame (empty_db 0%Z)); [done..|apply empty_store_inv]. Qed.

(** An append of drafts keeps the invariant, whether it succeeds or not. *)
Lemma run_append_inv p iid tid drafts ver db :
  store_inv db -> valid_bodies drafts -> store_inv (run (append_new p id iid tid drafts ver None None) db).
Proof.
  intros Hinv Hb%(sequenced_valid ver). unfold run.
  destruct (append_new _ _ _ _ _ _ _ _ db) as [[[v evs]|x] db'] eqn:E; cbn; unfold append_new in E.
  - apply commit_ok in E as (_ & _ & _ & [H _ _ _ _ _] & _);
      [done|done|by apply no_interference|by rewrite sequenced_numbers, length_sequenced|done].
  - apply commit_err in E as (H & _); [done|done|by apply no_interference| |done].
    by rewrite sequenced_numbers, length_sequenced.
Qed.

Lemma created_inv : store_inv created.
Proof. apply run_append_inv; [apply db0_inv|by repeat constructor]. Qed.

Lemma created_log : log created "i1" = [with_sequence (Sample.draft Sample.created) 1].
Proof. vm_compute. reflexivity. Qed.

Lemma rival_inv : store_inv (rival created).
Proof. apply run_append_inv; [apply created_inv|by repeat constructor]. Qed.

Lemma rival_log :
  log (rival created) "i1" = log created "i1" ++ sequenced 1 started_drafts.
Proof. vm_compute. reflexivity. Qed.

Lemma rival_interferes : interferes rival created.
Proof.
  split; [apply rival_inv|]. intros iid. destruct (decide (iid = "i1")) as [->|Hne].
  - rewrite rival_log. by eexists.
  - assert (log (rival created) iid = log created iid) as ->; [|done].
    unfold rival, run. destruct (append_new _ _ _ _ _ _ _ _ created) as [[[v evs]|] db'] eqn:E;
      [|vm_compute in E; discriminate E].
    unfold append_new in E.
    apply commit_ok in E as (_ & _ & _ & [_ _ _ _ Ho _] & _); [by apply Ho|..].
    + apply created_inv.
    + apply no_interference, created_inv.
    + by rewrite sequenced_numbers, length_sequenced.
    + by repeat constructor.
Qed.

End StoreSample.

Import StoreSample.
#[local] Existing Instance plain_codec.
#[local] Existing Instance plain_codec_laws.

Lemma append_new_atomic_witness :
  store_inv (snd (append_new NoopPublisher rival "i1" "t1" started_drafts 1 None None created)) /\
  is_ok (fst (append_new NoopPublisher rival "i1" "t1" started_drafts 1 None None created)) = false.
Proof.
  split; [|vm_compute; reflexivity].
  destruct (append_new NoopPublisher rival "i1" "t1" started_drafts 1 None None created)
    as [r db'] eqn:E.
  exact (proj1 (append_new_atomic NoopPublisher rival "i1" "t1" started_drafts 1 None None
           created r db' created_inv rival_interferes ltac:(repeat constructor) E)).
Defined.

Lemma append_new_race_lost_witness :
  exists msg, append_new NoopPublisher rival "i1" "t1" started_drafts
    (Z.of_nat (length (log created "i1"))) None None created
  = (Err (Exn ConflictError msg), rival created).
Proof.
  apply append_new_race_lost.
  - apply created_inv.
  - apply rival_interferes.
  - rewrite rival_log, created_log. discriminate.
  - discriminate.
  - repeat constructor.
  - reflexivity.
Defined.

Lemma append_new_stale_witness :
  exists e, append_new NoopPublisher id "i1" "t1" started_drafts 0 None None created
            = (Err e, created) /\ exn_cls e = ConflictError.
Proof.
  destruct (append_new_stale NoopPublisher id "i1" "t1" started_drafts 0 None None created
              created_inv) as (e & H1 & H2).
  - rewrite created_log. discriminate.
  - exists e. split; [exact H1|]. apply H2; [repeat constructor|reflexivity].
Defined.

Lemma append_new_succeeds_witness :
  exists db', append_new NoopPublisher id "i1" "t1" started_drafts
    (Z.of_nat (length (log created "i1"))) None None created
  = (Ok (2%Z, sequenced (Z.of_nat (length (log created "i1"))) started_drafts), db').
Proof.
  destruct (Fold.fold (log created "i1" ++ sequenced (Z.of_nat (length (log created "i1")))
              started_drafts) None None) as [i|] eqn:Hf; [|vm_compute in Hf; discriminate Hf].
  assert (wi_tenant_id i = "t1" /\ wi_version i = 2%Z) as [Ht Hv]
    by (vm_compute in Hf; injection Hf as <-; done).
  rewrite <- Hv. apply append_new_succeeds; [apply created_inv|discriminate| | | |exact Hf|exact Ht|].
  - repeat constructor.
  - repeat constructor.
  - reflexivity.
  - left. rewrite created_log. discriminate.
Defined.

Lemma reads_agree_with_log_witness :
  exists i r, Fold.fold (log (rival created) "i1") None None = Ok i /\
    get_instance (rival created) "i1" "other" None = Ok None /\
    db_index (rival created) !! "i1" = Some r /\ ix_status r = "running".
Proof.
  destruct (reads_agree_with_log (rival created) "i1" rival_inv) as (i & r & Hf & _ & _ & Hr & Hok & Ho).
  { rewrite rival_log, created_log. discriminate. }
  exists i, r. split_and!; [exact Hf| |exact Hr|].
  - apply Ho. vm_compute in Hf. injection Hf as <-. discriminate.
  - vm_compute in Hr. injection Hr as <-. reflexivity.
Defined.

Lemma state_at_is_prefix_fold_witness :
  exists iv, state_at (rival created) "i1" "t1" 1 None = Ok (Some iv) /\
             wi_status iv = WorkflowStatus.PENDING.
Proof.
  destruct (Fold.fold (log (rival created) "i1") None None) as [i|] eqn:Hf;
    [|vm_compute in Hf; discriminate Hf].
  destruct (state_at_is_prefix_fold (rival created) "i1" 1 i rival_inv Hf) as (iv & Hiv & Hs & _).
  assert (wi_tenant_id i = "t1") as Ht by (vm_compute in Hf; injection Hf as <-; reflexivity).
  exists iv. rewrite Ht in Hs. split; [exact Hs|].
  vm_compute in Hiv. injection Hiv as <-. reflexivity.
Defined.

Lemma get_instance_ignores_definition_witness :
  get_instance created "i1" "t1" (Some Sample.defn) = get_instance created "i1" "t1" None /\
  match get_instance created "i1" "t1" (Some Sample.defn) with
  | Ok (Some i) => wi_step_states i = ∅
  | _ => False
  end.
Proof.
  split; [|vm_compute; reflexivity].
  apply get_instance_ignores_definition; [apply created_inv|].
  rewrite created_log. constructor.
Defined.
