(* ===== verification/Leasing.v ===== *)
(** Instance leasing ([core/leasing.py]): exclusive claims with a fencing token,
    heartbeats, release, and the guard run inside every append.

    Each operation is one transaction.  [locked] is the set of index rows that a
    concurrent claim holds with [FOR UPDATE]; [skip_locked] passes over them. *)

From stdpp Require Import base strings list gmap sorting relations.
From Stdlib Require Import ZArith Lia.
From S2P Require Import Prelude Exceptions Values Enums Definitions Instance Events Tables.
From S2P Require Import EventStore.

Module Leasing.

Definition _RUNNABLE_STATUSES : list string := ["pending"; "running"; "retrying"].

Record Lease := {
  le_instance_id : string;
  le_tenant_id : string;
  le_workflow_id : string;
  le_workflow_version : string;
  le_worker_id : string;
  le_fence_token : Z;
  le_expires_at : time;
  le_last_sequence : Z;
}.

Section leasing.
Context {C : Codec}.

(** The [where] clause of the claim. *)
Definition claimable (leases : gmap string InstanceLeaseRow) (now : time)
    (i : InstanceIndexRow) : bool :=
  bool_decide (ix_status i ∈ _RUNNABLE_STATUSES) &&
  match ix_next_wakeup_at i with None => true | Some w => (w <=? now)%Z end &&
  match leases !! ix_instance_id i with None => true | Some l => (lr_expires_at l <? now)%Z end.

Definition claim (locked : gset string) (limit : Z) (now : time) (db : DB)
    : list InstanceIndexRow :=
  take (Z.to_nat limit)
    (order_by ix_updated_at
       (filter (fun i => claimable (db_leases db) now i = true /\ ix_instance_id i ∉ locked)
          (snd <$> map_to_list (db_index db)))).

(** [timedelta(seconds=lease_seconds)] *)
Definition ttl (lease_seconds : Z) : Z := seconds lease_seconds.

(** The upsert with [RETURNING fence_token]. *)
Definition upsert_lease (lease_seconds : Z) (worker_id : string) (now : time)
    (leases : gmap string InstanceLeaseRow) (row : InstanceIndexRow)
    : gmap string InstanceLeaseRow * Z :=
  let expires_at := (now + ttl lease_seconds)%Z in
  match leases !! ix_instance_id row with
  | None =>
      (<[ix_instance_id row := {|
          lr_instance_id := ix_instance_id row; lr_tenant_id := ix_tenant_id row;
          lr_worker_id := worker_id; lr_acquired_at := now; lr_heartbeat_at := now;
          lr_expires_at := expires_at; lr_fence_token := 1 |}]> leases, 1%Z)
  | Some l =>
      (<[ix_instance_id row := {|
          lr_instance_id := lr_instance_id l; lr_tenant_id := lr_tenant_id l;
          lr_worker_id := worker_id; lr_acquired_at := now; lr_heartbeat_at := now;
          lr_expires_at := expires_at; lr_fence_token := lr_fence_token l + 1 |}]> leases,
       (lr_fence_token l + 1)%Z)
  end.

Definition lease_of (lease_seconds : Z) (worker_id : string) (now : time)
    (row : InstanceIndexRow) (fence : Z) : Lease := {|
  le_instance_id := ix_instance_id row;
  le_tenant_id := ix_tenant_id row;
  le_workflow_id := ix_workflow_id row;
  le_workflow_version := ix_workflow_version row;
  le_worker_id := worker_id;
  le_fence_token := fence;
  le_expires_at := now + ttl lease_seconds;
  le_last_sequence := ix_last_sequence row |}.

Fixpoint take_leases (lease_seconds : Z) (worker_id : string) (now : time)
    (leases : gmap string InstanceLeaseRow) (rows : list InstanceIndexRow)
    : gmap string InstanceLeaseRow * list Lease :=
  match rows with
  | [] => (leases, [])
  | row :: rows =>
      let '(leases, fence) := upsert_lease lease_seconds worker_id now leases row in
      let '(leases, acquired) := take_leases lease_seconds worker_id now leases rows in
      (leases, lease_of lease_seconds worker_id now row fence :: acquired)
  end.

Definition acquire_runnable (lease_seconds : Z) (locked : gset string)
    (worker_id : string) (limit : Z) (now : time) : M DB exn (list Lease) := fun db =>
  if (limit <=? 0)%Z then (Ok [], db)
  else let '(leases, acquired) :=
         take_leases lease_seconds worker_id now (db_leases db) (claim locked limit now db) in
       (Ok acquired, set_leases leases db).

Definition beat (lease_seconds : Z) (now : time) (l : InstanceLeaseRow) : InstanceLeaseRow := {|
  lr_instance_id := lr_instance_id l; lr_tenant_id := lr_tenant_id l;
  lr_worker_id := lr_worker_id l; lr_acquired_at := lr_acquired_at l;
  lr_heartbeat_at := now; lr_expires_at := now + ttl lease_seconds;
  lr_fence_token := lr_fence_token l |}.

(** The lease rows of [worker_id] among [instance_ids]. *)
Definition owned (worker_id : string) (instance_ids : list string)
    (p : string * InstanceLeaseRow) : Prop :=
  lr_worker_id p.2 = worker_id /\ p.1 ∈ instance_ids.

Global Instance owned_dec w ids p : Decision (owned w ids p).
Proof. unfold owned. apply _. Defined.

Definition heartbeat (lease_seconds : Z) (worker_id : string) (instance_ids : list string)
    (now : time) : M DB exn (gset string) := fun db =>
  match instance_ids with
  | [] => (Ok ∅, db)
  | _ =>
      let mine := filter (owned worker_id instance_ids) (db_leases db) in
      (Ok (dom mine), set_leases ((beat lease_seconds now <$> mine) ∪ db_leases db) db)
  end.

Definition expire (l : InstanceLeaseRow) : InstanceLeaseRow := {|
  lr_instance_id := lr_instance_id l; lr_tenant_id := lr_tenant_id l;
  lr_worker_id := lr_worker_id l; lr_acquired_at := lr_acquired_at l;
  lr_heartbeat_at := lr_heartbeat_at l; lr_expires_at := lr_heartbeat_at l - seconds 1;
  lr_fence_token := lr_fence_token l |}.

Definition release (worker_id instance_id : string) : M DB exn unit := fun db =>
  let mine := filter (owned worker_id [instance_id]) (db_leases db) in
  (Ok tt, set_leases ((expire <$> mine) ∪ db_leases db) db).

Definition reclaim_expired (now : time) (db : DB) : list string :=
  fst <$> filter (fun p => (lr_expires_at p.2 < now)%Z) (map_to_list (db_leases db)).

Definition make_guard (lease : Lease) : EventStore.Guard := fun db =>
  match db_leases db !! le_instance_id lease with
  | Some row =>
      if bool_decide (lr_worker_id row = le_worker_id lease) &&
         bool_decide (lr_fence_token row = le_fence_token lease)
      then Ok tt
      else Err (Exn LeaseLostError ("worker " +:+ le_worker_id lease +:+ " no longer owns "
                  +:+ le_instance_id lease))
  | None => Err (Exn LeaseLostError ("worker " +:+ le_worker_id lease +:+ " no longer owns "
                  +:+ le_instance_id lease))
  end.

(** ** Claiming *)

(** The index maps each instance id to its own row. *)
Definition index_keyed (db : DB) : Prop :=
  map_Forall (fun iid r => ix_instance_id r = iid) (db_index db).

Lemma claim_spec locked limit now db r :
  index_keyed db -> r ∈ claim locked limit now db ->
  db_index db !! ix_instance_id r = Some r /\ claimable (db_leases db) now r = true /\
  ix_instance_id r ∉ locked.
Proof.
  intros Hk Hr. unfold claim in Hr.
  eapply elem_of_sublist in Hr; [|apply sublist_take].
  unfold order_by in Hr. rewrite (merge_sort_Permutation (key_order ix_updated_at)) in Hr.
  apply list_elem_of_filter in Hr as [[Hc Hl] (p & -> & Hp)%list_elem_of_fmap].
  destruct p as [iid r]. apply elem_of_map_to_list in Hp. cbn.
  split_and!; [by rewrite (Hk iid r Hp)|done|done].
Qed.

Lemma claim_NoDup locked limit now db :
  index_keyed db -> NoDup (ix_instance_id <$> claim locked limit now db).
Proof.
  intros Hk. unfold claim. eapply sublist_NoDup; [|apply fmap_sublist, sublist_take].
  unfold order_by. rewrite (merge_sort_Permutation (key_order ix_updated_at)).
  eapply sublist_NoDup; [|apply fmap_sublist, sublist_filter].
  rewrite <- list_fmap_compose.
  rewrite (list_fmap_ext (ix_instance_id ∘ snd) fst (map_to_list (db_index db))).
  - apply NoDup_fst_map_to_list.
  - intros n [iid r] Hn. cbn. apply Hk. apply elem_of_map_to_list.
    by eapply list_elem_of_lookup_2.
Qed.

Definition fence_of (leases : gmap string InstanceLeaseRow) (iid : string) : Z :=
  match leases !! iid with Some l => lr_fence_token l | None => 0 end.

(** [row] grants [L] until [expires]. *)
Definition grants (leases : gmap string InstanceLeaseRow) (L : Lease) : Prop :=
  exists row, leases !! le_instance_id L = Some row /\ lr_worker_id row = le_worker_id L /\
    lr_fence_token row = le_fence_token L /\ lr_expires_at row = le_expires_at L.

Lemma upsert_lease_spec ls w now leases row leases' fence :
  upsert_lease ls w now leases row = (leases', fence) ->
  grants leases' (lease_of ls w now row fence) /\
  fence = (fence_of leases (ix_instance_id row) + 1)%Z /\
  forall iid, iid <> ix_instance_id row -> leases' !! iid = leases !! iid.
Proof.
  unfold upsert_lease, fence_of. destruct (leases !! ix_instance_id row) as [l|];
    intros [= <- <-]; split_and!; try done.
  all: try (intros iid Hne; by rewrite lookup_insert_ne).
  all: eexists; split; [apply lookup_insert_eq|done].
Qed.

Lemma take_leases_spec ls w now leases rows leases' acq :
  NoDup (ix_instance_id <$> rows) ->
  take_leases ls w now leases rows = (leases', acq) ->
  le_instance_id <$> acq = ix_instance_id <$> rows /\
  (forall iid, iid ∉ ix_instance_id <$> rows -> leases' !! iid = leases !! iid) /\
  Forall (fun L => grants leases' L /\ le_worker_id L = w /\ le_expires_at L = (now + ttl ls)%Z /\
                   le_fence_token L = (fence_of leases (le_instance_id L) + 1)%Z) acq.
Proof.
  revert leases leases' acq; induction rows as [|row rows IH]; intros leases leases' acq Hnd; cbn.
  { intros [= <- <-]. done. }
  destruct (upsert_lease ls w now leases row) as [leases1 fence] eqn:Hu.
  destruct (take_leases ls w now leases1 rows) as [leases2 acq2] eqn:Ht. intros [= <- <-].
  apply NoDup_cons in Hnd as [Hnin Hnd].
  apply upsert_lease_spec in Hu as ((r & Hr & Hg) & Hf & Hoth).
  destruct (IH _ _ _ Hnd Ht) as (Hids & Hout & Hall). cbn. split_and!.
  - by rewrite Hids.
  - intros iid [Hne Hni]%not_elem_of_cons. by rewrite Hout, Hoth.
  - constructor.
    + split; [|done]. exists r. split; [|done]. cbn in *. by rewrite Hout.
    + rewrite Forall_forall in *. intros L HL. destruct (Hall L HL) as (H1 & H2 & H3 & H4).
      split_and!; try done. rewrite H4. unfold fence_of. rewrite Hoth; [done|].
      intros Heq. apply (list_elem_of_fmap_2 le_instance_id) in HL.
      rewrite Hids, Heq in HL. done.
Qed.

Lemma guard_ok L db : make_guard L db = Ok tt <->
  exists row, db_leases db !! le_instance_id L = Some row /\
    lr_worker_id row = le_worker_id L /\ lr_fence_token row = le_fence_token L.
Proof.
  unfold make_guard. destruct (db_leases db !! le_instance_id L) as [row|]; [|naive_solver].
  do 2 case_bool_decide; cbn; naive_solver.
Qed.

Lemma guard_err L db : make_guard L db <> Ok tt ->
  exists msg, make_guard L db = Err (Exn LeaseLostError msg).
Proof.
  unfold make_guard. destruct (db_leases db !! _); [|by eexists].
  destruct (_ && _); [done|by eexists].
Qed.

Lemma leases_set_leases v db : db_leases (set_leases v db) = v.
Proof. by destruct db. Qed.

Lemma index_set_leases v db : db_index (set_leases v db) = db_index db.
Proof. by destruct db. Qed.

(** C9: Claims are exclusive.  [acquire_runnable] never fails; it returns at most
    [limit] leases on distinct instances, each for an instance that is runnable,
    due and not locked, and whose previous lease (if any) has expired; each lease
    carries the previous fence plus one, holds for the time to live, and its
    guard passes at once.  Every other lease row is untouched. *)
Theorem acquire_exclusive ls locked w limit now db r db' :
  index_keyed db -> acquire_runnable ls locked w limit now db = (r, db') ->
  exists acq, r = Ok acq /\
    NoDup (le_instance_id <$> acq) /\ (Z.of_nat (length acq) <= Z.max limit 0)%Z /\
    (forall L, L ∈ acq ->
       (exists row, db_index db !! le_instance_id L = Some row /\
          ix_status row ∈ _RUNNABLE_STATUSES /\
          (forall at_, ix_next_wakeup_at row = Some at_ -> (at_ <= now)%Z)) /\
       (forall old, db_leases db !! le_instance_id L = Some old -> (lr_expires_at old < now)%Z) /\
       le_instance_id L ∉ locked /\
       le_fence_token L = (fence_of (db_leases db) (le_instance_id L) + 1)%Z /\
       le_worker_id L = w /\ le_expires_at L = (now + ttl ls)%Z /\
       make_guard L db' = Ok tt) /\
    (forall iid, iid ∉ le_instance_id <$> acq -> db_leases db' !! iid = db_leases db !! iid).
Proof.
  intros Hk. unfold acquire_runnable. destruct (Z.leb_spec limit 0).
  { intros [= <- <-]. exists []. split_and!; try done; [constructor|cbn; lia|].
    intros L HL. by apply not_elem_of_nil in HL. }
  destruct (take_leases _ _ _ _ _) as [leases acq] eqn:Ht. intros [= <- <-].
  pose proof (claim_NoDup locked limit now db Hk) as Hnd.
  destruct (take_leases_spec _ _ _ _ _ _ _ Hnd Ht) as (Hids & Hout & Hall).
  exists acq. split_and!; [done|by rewrite Hids| | |].
  - apply (f_equal length) in Hids. rewrite !length_fmap in Hids. rewrite Hids.
    unfold claim. rewrite length_take. lia.
  - intros L HL. rewrite Forall_forall in Hall.
    destruct (Hall L HL) as ((row & Hrow & Hw & Hf & He) & HwL & HeL & HfL).
    assert (exists ir, le_instance_id L = ix_instance_id ir /\ ir ∈ claim locked limit now db)
      as (ir & Hid & Hir).
    { apply (list_elem_of_fmap_2 le_instance_id) in HL. rewrite Hids in HL.
      by apply list_elem_of_fmap in HL. }
    destruct (claim_spec _ _ _ _ _ Hk Hir) as (Hidx & Hc & Hl).
    unfold claimable in Hc. rewrite !andb_true_iff, bool_decide_eq_true in Hc.
    destruct Hc as ((Hs & Hwk) & Hle). rewrite <- Hid in *. split_and!; try done.
    + exists ir. split_and!; try done. intros a Ha. rewrite Ha in Hwk. lia.
    + intros old Hold. rewrite Hold in Hle. lia.
    + apply guard_ok. rewrite leases_set_leases. eauto.
  - intros iid Hni. rewrite leases_set_leases. apply Hout. by rewrite <- Hids.
Qed.

(** ** Fencing

    The lease table over time, with every lease ever handed out: workers claim,
    beat and release in any order, and anything else may happen to the other
    tables in between. *)
Inductive lease_step : DB * list Lease -> DB * list Lease -> Prop :=
| LAcquire ls locked w limit now db issued acq db' :
    acquire_runnable ls locked w limit now db = (Ok acq, db') ->
    lease_step (db, issued) (db', acq ++ issued)
| LHeartbeat ls w ids now db issued alive db' :
    heartbeat ls w ids now db = (Ok alive, db') -> lease_step (db, issued) (db', issued)
| LRelease w iid db issued db' :
    release w iid db = (Ok tt, db') -> lease_step (db, issued) (db', issued)
| LOther db issued db' :
    db_leases db' = db_leases db -> index_keyed db' -> lease_step (db, issued) (db', issued).

Record fence_inv (s : DB * list Lease) : Prop := {
  fi_keyed : index_keyed (fst s);
  fi_issued : forall L, L ∈ snd s -> exists row,
    db_leases (fst s) !! le_instance_id L = Some row /\
    (le_fence_token L <= lr_fence_token row)%Z /\
    (le_fence_token L = lr_fence_token row -> lr_worker_id row = le_worker_id L);
  fi_unique : forall L1 L2, L1 ∈ snd s -> L2 ∈ snd s ->
    le_instance_id L1 = le_instance_id L2 -> le_fence_token L1 = le_fence_token L2 -> L1 = L2;
}.

(** Heartbeats and releases keep owner and fence of every row. *)
Lemma touch_rows (P : string * InstanceLeaseRow -> Prop) `{forall p, Decision (P p)} f
    (leases : gmap string InstanceLeaseRow) iid row :
  (forall l, lr_worker_id (f l) = lr_worker_id l /\ lr_fence_token (f l) = lr_fence_token l) ->
  leases !! iid = Some row ->
  exists row', ((f <$> filter P leases) ∪ leases) !! iid = Some row' /\
    lr_worker_id row' = lr_worker_id row /\ lr_fence_token row' = lr_fence_token row.
Proof.
  intros Hf Hrow. rewrite lookup_union, lookup_fmap.
  destruct (filter P leases !! iid) as [l|] eqn:E.
  - apply map_lookup_filter_Some in E as [E _]. rewrite Hrow in E. injection E as <-.
    exists (f row). rewrite Hrow. by destruct (Hf row).
  - exists row. by rewrite Hrow.
Qed.

Lemma fence_inv_touch (P : string * InstanceLeaseRow -> Prop) `{forall p, Decision (P p)} f db issued :
  (forall l, lr_worker_id (f l) = lr_worker_id l /\ lr_fence_token (f l) = lr_fence_token l) ->
  fence_inv (db, issued) ->
  fence_inv (set_leases ((f <$> filter P (db_leases db)) ∪ db_leases db) db, issued).
Proof.
  intros Hf [Hk Hi Hu]. constructor; cbn in *; [unfold index_keyed; by rewrite index_set_leases| |done].
  intros L HL. destruct (Hi L HL) as (row & Hrow & Hle & Hw). rewrite leases_set_leases.
  destruct (touch_rows P f _ _ _ Hf Hrow) as (row' & Hrow' & Hw' & Hf').
  exists row'. rewrite Hw', Hf'. done.
Qed.

Lemma fence_inv_acquire ls locked w limit now db issued acq db' :
  fence_inv (db, issued) -> acquire_runnable ls locked w limit now db = (Ok acq, db') ->
  fence_inv (db', acq ++ issued).
Proof.
  intros [Hk Hi Hu] Ha. unfold acquire_runnable in Ha. cbn in *.
  destruct (Z.leb_spec limit 0); [injection Ha as <- <-; by constructor|].
  destruct (take_leases _ _ _ _ _) as [leases acq'] eqn:Ht. injection Ha as <- <-.
  pose proof (claim_NoDup locked limit now db Hk) as Hnd.
  destruct (take_leases_spec _ _ _ _ _ _ _ Hnd Ht) as (Hids & Hout & Hall).
  rewrite <- Hids in Hnd, Hout. rewrite Forall_forall in Hall.
  assert (forall L L', L ∈ issued -> L' ∈ acq' -> le_instance_id L = le_instance_id L' ->
            (le_fence_token L < le_fence_token L')%Z) as Hlt.
  { intros L L' HL HL' Heq. destruct (Hi L HL) as (row & Hrow & Hle & _).
    destruct (Hall L' HL') as (_ & _ & _ & ->). unfold fence_of. rewrite <- Heq, Hrow. lia. }
  constructor; cbn.
  - unfold index_keyed. by rewrite index_set_leases.
  - intros L HL. rewrite leases_set_leases. apply elem_of_app in HL as [HL|HL].
    + destruct (Hall L HL) as ((row & Hrow & Hw & Hf & _) & _). exists row.
      split_and!; [done|lia|done].
    + destruct (Hi L HL) as (row & Hrow & Hle & Hw).
      destruct (decide (le_instance_id L ∈ le_instance_id <$> acq')) as [Hin|Hni].
      * apply list_elem_of_fmap in Hin as (L' & Heq & HL').
        destruct (Hall L' HL') as ((row' & Hrow' & _ & Hf' & _) & _). rewrite Heq.
        pose proof (Hlt L L' HL HL' Heq). exists row'. split_and!; [done|lia|lia].
      * exists row. by rewrite Hout.
  - intros L1 L2 H1 H2 Hid Hf. apply elem_of_app in H1, H2. destruct H1 as [H1|H1], H2 as [H2|H2].
    + apply list_elem_of_lookup in H1 as (n1 & H1), H2 as (n2 & H2).
      assert (n1 = n2) as ->; [|congruence].
      eapply NoDup_lookup with (x := le_instance_id L1); [exact Hnd|..];
        rewrite list_lookup_fmap; [by rewrite H1|rewrite H2; cbn; by rewrite Hid].
    + pose proof (Hlt L2 L1 H2 H1 (eq_sym Hid)). lia.
    + pose proof (Hlt L1 L2 H1 H2 Hid). lia.
    + by apply Hu.
Qed.

Lemma lease_step_inv s s' : fence_inv s -> lease_step s s' -> fence_inv s'.
Proof.
  intros Hinv Hstep. destruct Hstep as [ls locked w limit now db issued acq db' Ha
    |ls w ids now db issued alive db' Hh|w iid db issued db' Hr|db issued db' He Hk].
  - by eapply fence_inv_acquire.
  - unfold heartbeat in Hh. destruct ids as [|i ids]; [by injection Hh as _ <-|].
    injection Hh as _ <-. by apply fence_inv_touch.
  - injection Hr as <-. by apply fence_inv_touch.
  - destruct Hinv as [_ Hi Hu]. constructor; cbn in *; [done| |done]. by rewrite He.
Qed.

(** C8: Fencing: along any interleaving of claims, heartbeats, releases and other
    work, at most one of the leases ever handed out for an instance passes its
    guard, and a lease that has been superseded by a later claim always raises
    [LeaseLostError], even for the same worker. *)
Theorem fencing db0 db issued L1 L2 :
  index_keyed db0 -> rtc lease_step (db0, []) (db, issued) ->
  L1 ∈ issued -> L2 ∈ issued -> le_instance_id L1 = le_instance_id L2 ->
  (make_guard L1 db = Ok tt -> make_guard L2 db = Ok tt -> L1 = L2) /\
  ((le_fence_token L1 < le_fence_token L2)%Z ->
   exists msg, make_guard L1 db = Err (Exn LeaseLostError msg)).
Proof.
  intros Hk Hr H1 H2 Hid.
  assert (fence_inv (db, issued)) as [_ Hi Hu].
  { assert (fence_inv (db0, [])) as H0.
    { constructor; [done|intros L HL|intros L L' HL]; by apply not_elem_of_nil in HL. }
    clear -Hr H0. induction Hr as [|s s' s'' Hs _ IH]; [done|]. by apply IH, (lease_step_inv s). }
  cbn in *. split.
  - intros (r1 & Hr1 & _ & Hf1)%guard_ok (r2 & Hr2 & _ & Hf2)%guard_ok. apply Hu; try done.
    rewrite <- Hid in Hr2. rewrite Hr1 in Hr2. injection Hr2 as <-. lia.
  - intros Hlt. apply guard_err. intros (r1 & Hr1 & _ & Hf1)%guard_ok.
    destruct (Hi L2 H2) as (r2 & Hr2 & Hle & _). rewrite <- Hid in Hr2. rewrite Hr1 in Hr2.
    injection Hr2 as <-. lia.
Qed.
End leasing.

(** ** Witnesses: two workers, the second claims after the first lease lapsed. *)
Module LeaseSample.
#[local] Existing Instance plain_codec.

Definition row : InstanceIndexRow := {|
  ix_instance_id := "i1"; ix_tenant_id := "t1"; ix_workflow_id := "wf";
  ix_workflow_version := "1.0.0"; ix_status := "running"; ix_last_sequence := 2;
  ix_cost_accumulated_usd := fzero; ix_budget_limit_usd := None; ix_next_wakeup_at := None;
  ix_created_at := 0; ix_updated_at := 0; ix_completed_at := None |}.

Definition db0 : DB := set_index {[ "i1" := row ]} (empty_db 0).

Lemma db0_keyed : index_keyed db0.
Proof.
  unfold index_keyed. change (db_index db0) with ({[ "i1" := row ]} : gmap string InstanceIndexRow).
  by apply map_Forall_singleton.
Qed.

Definition claimed (w : string) (now : time) (db : DB) : list Lease * DB :=
  match acquire_runnable 30 ∅ w 5 now db with (Ok l, db') => (l, db') | (Err _, db') => ([], db') end.

Definition first : list Lease * DB := claimed "w1" 0 db0.
Definition second : list Lease * DB := claimed "w2" (seconds 60) (snd first).

Definition lease1 : Lease := lease_of 30 "w1" 0 row 1.
Definition lease2 : Lease := lease_of 30 "w2" (seconds 60) row 2.
End LeaseSample.

Import LeaseSample.
#[local] Existing Instance plain_codec.

Lemma acquire_exclusive_witness :
  fst first = [lease1] /\ make_guard lease1 (snd first) = Ok tt.
Proof.
  destruct (acquire_exclusive 30 ∅ "w1" 5 0 db0 (Ok (fst first)) (snd first) db0_keyed)
    as (acq & Hacq & _ & _ & Hall & _); [vm_compute; reflexivity|].
  assert (fst first = [lease1]) as Hf by (vm_compute; reflexivity).
  split; [exact Hf|]. injection Hacq as Hacq. rewrite Hf in Hacq. subst acq.
  apply Hall. left.
Defined.

Lemma fencing_witness :
  exists msg, make_guard lease1 (snd second) = Err (Exn LeaseLostError msg).
Proof.
  apply (fencing db0 (snd second) [lease2; lease1] lease1 lease2 db0_keyed).
  - eapply rtc_l; [apply (LAcquire 30 ∅ "w1" 5 0 db0 [] [lease1] (snd first)); vm_compute; reflexivity|].
    apply rtc_once.
    apply (LAcquire 30 ∅ "w2" 5 (seconds 60) (snd first) [lease1] [lease2] (snd second)).
    vm_compute. reflexivity.
  - right. left.
  - left.
  - reflexivity.
  - reflexivity.
Defined.

End Leasing.
