(* ===== verification/Outbox.v ===== *)
(** Outbox persistence ([core/outbox.py]): the [OutboxStore] protocol as a type
    class with its laws, and its two implementations, the Postgres table and the
    in-memory store, both shown to satisfy them. *)

From stdpp Require Import base strings list gmap sorting.
From Stdlib Require Import ZArith Lia.
From S2P Require Import Prelude Exceptions Values Enums Definitions Instance Events Tables.

Record OutboxEntry := {
  oe_idempotency_key : string;
  oe_instance_id : string;
  oe_tenant_id : string;
  oe_step_id : string;
  oe_effect_name : string;
  oe_provider : string;
  oe_params : dict;
  oe_guarantee : string;
  oe_status : string;
  oe_attempts : Z;
  oe_result : option dict;
  oe_provider_ref : option string;
  oe_error : option string;
  oe_compensation_status : option string;
}.

(** [replace(entry, status=..., attempts=...)] *)
Definition with_claim (status : string) (attempts : Z) (e : OutboxEntry) : OutboxEntry := {|
  oe_idempotency_key := oe_idempotency_key e;
  oe_instance_id := oe_instance_id e;
  oe_tenant_id := oe_tenant_id e;
  oe_step_id := oe_step_id e;
  oe_effect_name := oe_effect_name e;
  oe_provider := oe_provider e;
  oe_params := oe_params e;
  oe_guarantee := oe_guarantee e;
  oe_status := status;
  oe_attempts := attempts;
  oe_result := oe_result e;
  oe_provider_ref := oe_provider_ref e;
  oe_error := oe_error e;
  oe_compensation_status := oe_compensation_status e |}.

(** One keyword argument of [mark(key, **fields)]. *)
Inductive mark_field :=
| FStatus (s : string)
| FResult (r : option dict)
| FProviderRef (r : option string)
| FError (e : option string)
| FCompensationStatus (s : string)
| FUpdatedAt (t : time).

Definition set_field (e : OutboxEntry) (f : mark_field) : OutboxEntry := {|
  oe_idempotency_key := oe_idempotency_key e;
  oe_instance_id := oe_instance_id e;
  oe_tenant_id := oe_tenant_id e;
  oe_step_id := oe_step_id e;
  oe_effect_name := oe_effect_name e;
  oe_provider := oe_provider e;
  oe_params := oe_params e;
  oe_guarantee := oe_guarantee e;
  oe_status := match f with FStatus s => s | _ => oe_status e end;
  oe_attempts := oe_attempts e;
  oe_result := match f with FResult r => r | _ => oe_result e end;
  oe_provider_ref := match f with FProviderRef r => r | _ => oe_provider_ref e end;
  oe_error := match f with FError x => x | _ => oe_error e end;
  oe_compensation_status :=
    match f with FCompensationStatus s => Some s | _ => oe_compensation_status e end |}.

Definition set_fields (fs : list mark_field) (e : OutboxEntry) : OutboxEntry :=
  foldl set_field e fs.

(** ** The protocol *)

Class OutboxStore (W : Type) := {
  claim : OutboxEntry -> M W exn OutboxEntry;
  mark : string -> list mark_field -> M W exn unit;
  list_for_instance : string -> string -> option string -> M W exn (list OutboxEntry);
}.

Definition selected (instance_id tenant_id : string) (status : option string)
    (e : OutboxEntry) : Prop :=
  oe_instance_id e = instance_id /\ oe_tenant_id e = tenant_id /\
  match status with Some s => oe_status e = s | None => True end.

Global Instance selected_dec i t s e : Decision (selected i t s e).
Proof. unfold selected. destruct s; apply _. Defined.

(** An entry as the guard builds it: nothing recorded yet. *)
Definition unrecorded (e : OutboxEntry) : Prop :=
  oe_result e = None /\ oe_provider_ref e = None /\ oe_error e = None /\
  oe_compensation_status e = None.

(** The row that [claim] leaves and returns. *)
Definition claimed (old : option OutboxEntry) (e : OutboxEntry) : OutboxEntry :=
  match old with
  | Some row => with_claim (oe_status row) (oe_attempts row + 1) row
  | None => with_claim "pending" 1 e
  end.

(** What the protocol promises: the store is a keyed table; [claim] inserts or
    bumps atomically and returns the row; [mark] updates the row if there is one;
    listing selects by instance, tenant and status and changes nothing. *)
Class OutboxLaws (W : Type) `{OutboxStore W} := {
  outbox_ok : W -> Prop;
  outbox_rows : W -> gmap string OutboxEntry;
  rows_keyed w key e : outbox_ok w -> outbox_rows w !! key = Some e -> oe_idempotency_key e = key;
  claim_law w e : outbox_ok w -> unrecorded e ->
    exists w', claim e w = (Ok (claimed (outbox_rows w !! oe_idempotency_key e) e), w') /\
      outbox_ok w' /\
      outbox_rows w' = <[oe_idempotency_key e :=
                           claimed (outbox_rows w !! oe_idempotency_key e) e]> (outbox_rows w);
  mark_law w key fs : outbox_ok w ->
    exists w', mark key fs w = (Ok tt, w') /\ outbox_ok w' /\
      outbox_rows w' = alter (set_fields fs) key (outbox_rows w);
  list_law w i t s : outbox_ok w ->
    exists l, list_for_instance i t s w = (Ok l, w) /\ NoDup (oe_idempotency_key <$> l) /\
      forall e, e ∈ l <-> outbox_rows w !! oe_idempotency_key e = Some e /\ selected i t s e;
}.

(** ** Postgres *)

Section pg.
Context {C : Codec}.

Definition _row_to_entry (r : SideEffectOutboxRow) : OutboxEntry := {|
  oe_idempotency_key := or_idempotency_key r;
  oe_instance_id := or_instance_id r;
  oe_tenant_id := or_tenant_id r;
  oe_step_id := or_step_id r;
  oe_effect_name := or_effect_name r;
  oe_provider := or_provider r;
  oe_params := or_params r;
  oe_guarantee := or_guarantee r;
  oe_status := or_status r;
  oe_attempts := or_attempts r;
  oe_result := or_result r;
  oe_provider_ref := or_provider_ref r;
  oe_error := or_error r;
  oe_compensation_status := or_compensation_status r |}.

(** A row with the columns of an entry. *)
Definition entry_row (created_at : time) (e : OutboxEntry) : SideEffectOutboxRow := {|
  or_idempotency_key := oe_idempotency_key e;
  or_instance_id := oe_instance_id e;
  or_tenant_id := oe_tenant_id e;
  or_step_id := oe_step_id e;
  or_effect_name := oe_effect_name e;
  or_provider := oe_provider e;
  or_params := oe_params e;
  or_guarantee := oe_guarantee e;
  or_status := oe_status e;
  or_attempts := oe_attempts e;
  or_result := oe_result e;
  or_provider_ref := oe_provider_ref e;
  or_error := oe_error e;
  or_compensation_status := oe_compensation_status e;
  or_created_at := created_at |}.

(** [INSERT ... ON CONFLICT (idempotency_key) DO UPDATE SET attempts = attempts + 1
    RETURNING *]; the columns not in [VALUES] are null. *)
Definition pg_claim (e : OutboxEntry) : M DB exn OutboxEntry := fun db =>
  let row := match db_outbox db !! oe_idempotency_key e with
             | Some r => entry_row (or_created_at r)
                           (with_claim (or_status r) (or_attempts r + 1) (_row_to_entry r))
             | None => entry_row (db_now db) {|
                 oe_idempotency_key := oe_idempotency_key e;
                 oe_instance_id := oe_instance_id e;
                 oe_tenant_id := oe_tenant_id e;
                 oe_step_id := oe_step_id e;
                 oe_effect_name := oe_effect_name e;
                 oe_provider := oe_provider e;
                 oe_params := oe_params e;
                 oe_guarantee := oe_guarantee e;
                 oe_status := "pending";
                 oe_attempts := 1;
                 oe_result := None;
                 oe_provider_ref := None;
                 oe_error := None;
                 oe_compensation_status := None |}
             end in
  (Ok (_row_to_entry row), set_outbox (<[oe_idempotency_key e := row]> (db_outbox db)) db).

Definition pg_mark (key : string) (fs : list mark_field) : M DB exn unit := fun db =>
  (Ok tt, set_outbox (alter (fun r => entry_row (or_created_at r) (set_fields fs (_row_to_entry r)))
                        key (db_outbox db)) db).

Definition pg_list (instance_id tenant_id : string) (status : option string)
    : M DB exn (list OutboxEntry) := fun db =>
  (Ok (_row_to_entry <$> order_by or_created_at
         (filter (fun r => selected instance_id tenant_id status (_row_to_entry r))
            (snd <$> map_to_list (db_outbox db)))), db).

#[export] Instance PgOutboxStore : OutboxStore DB := {|
  claim := pg_claim; mark := pg_mark; list_for_instance := pg_list |}.

Definition pg_rows (db : DB) : gmap string OutboxEntry := _row_to_entry <$> db_outbox db.

Definition pg_ok (db : DB) : Prop :=
  map_Forall (fun k r => or_idempotency_key r = k) (db_outbox db).

Lemma entry_row_id t e : _row_to_entry (entry_row t e) = e.
Proof. by destruct e. Qed.

Lemma set_fields_key fs e : oe_idempotency_key (set_fields fs e) = oe_idempotency_key e.
Proof.
  unfold set_fields. revert e; induction fs as [|f fs IH]; intros e; [done|]. cbn. by rewrite IH.
Qed.

Lemma outbox_set v db : db_outbox (set_outbox v db) = v.
Proof. by destruct db. Qed.
End pg.

(** ** In memory *)

(** [_rows] and [_order]. *)
Record InMemoryOutbox := MkMem { mem_rows : gmap string OutboxEntry; mem_order : list string }.

Definition mem_claim (e : OutboxEntry) : M InMemoryOutbox exn OutboxEntry := fun s =>
  match mem_rows s !! oe_idempotency_key e with
  | Some row =>
      let row := with_claim (oe_status row) (oe_attempts row + 1) row in
      (Ok row, MkMem (<[oe_idempotency_key e := row]> (mem_rows s)) (mem_order s))
  | None =>
      let fresh := with_claim "pending" 1 e in
      (Ok fresh, MkMem (<[oe_idempotency_key e := fresh]> (mem_rows s))
                   (mem_order s ++ [oe_idempotency_key e]))
  end.

(** [for k, v in fields.items(): ... setattr(row, k, v)], skipping [updated_at]. *)
Definition mem_mark (key : string) (fs : list mark_field) : M InMemoryOutbox exn unit := fun s =>
  match mem_rows s !! key with
  | None => (Ok tt, s)
  | Some row => (Ok tt, MkMem (<[key := set_fields fs row]> (mem_rows s)) (mem_order s))
  end.

(** [self._rows[k]] raises [KeyError] for an unknown key in [_order]. *)
Definition mem_list (instance_id tenant_id : string) (status : option string)
    : M InMemoryOutbox exn (list OutboxEntry) := fun s =>
  (rows ← mapM (fun k => match mem_rows s !! k with
                         | Some r => Ok r | None => Err (KeyError k) end) (mem_order s);
   Ok (filter (selected instance_id tenant_id status) rows), s).

#[export] Instance InMemoryOutboxStore : OutboxStore InMemoryOutbox := {|
  claim := mem_claim; mark := mem_mark; list_for_instance := mem_list |}.

(** The order lists the keys of the dict, each once. *)
Definition mem_ok (s : InMemoryOutbox) : Prop :=
  map_Forall (fun k e => oe_idempotency_key e = k) (mem_rows s) /\
  NoDup (mem_order s) /\ forall k, k ∈ mem_order s <-> is_Some (mem_rows s !! k).

(** ** Both implementations satisfy the protocol *)

Lemma alter_present {A} (f : A -> A) (m : gmap string A) k x :
  m !! k = Some x -> alter f k m = <[k := f x]> m.
Proof.
  intros Hk. apply map_eq. intros j. destruct (decide (k = j)) as [->|].
  - by rewrite lookup_alter_eq, lookup_insert_eq, Hk.
  - by rewrite lookup_alter_ne, lookup_insert_ne.
Qed.

Lemma alter_absent {A} (f : A -> A) (m : gmap string A) k : m !! k = None -> alter f k m = m.
Proof.
  intros Hk. apply map_eq. intros j. destruct (decide (k = j)) as [->|].
  - by rewrite lookup_alter_eq, Hk.
  - by rewrite lookup_alter_ne.
Qed.

Section pg_laws.
Context {C : Codec}.

Lemma pg_claim_law db e :
  pg_ok db -> unrecorded e ->
  exists db', pg_claim e db = (Ok (claimed (pg_rows db !! oe_idempotency_key e) e), db') /\
    pg_ok db' /\
    pg_rows db' = <[oe_idempotency_key e :=
                      claimed (pg_rows db !! oe_idempotency_key e) e]> (pg_rows db).
Proof.
  intros Hok (H1 & H2 & H3 & H4). unfold pg_claim, pg_ok, pg_rows in *. rewrite lookup_fmap.
  destruct (db_outbox db !! oe_idempotency_key e) as [r|] eqn:E; cbn.
  - eexists. rewrite outbox_set, entry_row_id. split_and!; [done| |].
    + apply map_Forall_insert_2; [|done]. cbn. by apply Hok.
    + by rewrite fmap_insert, entry_row_id.
  - eexists. rewrite outbox_set, entry_row_id. split_and!.
    + do 2 f_equal. destruct e; cbn in *. by subst.
    + by apply map_Forall_insert_2.
    + rewrite fmap_insert, entry_row_id. f_equal. destruct e; cbn in *. by subst.
Qed.

Lemma pg_mark_law db key fs :
  pg_ok db ->
  exists db', pg_mark key fs db = (Ok tt, db') /\ pg_ok db' /\
    pg_rows db' = alter (set_fields fs) key (pg_rows db).
Proof.
  intros Hok. unfold pg_mark, pg_ok, pg_rows in *. eexists. rewrite outbox_set.
  split_and!; [done| |].
  - intros k r. destruct (decide (key = k)) as [->|Hne].
    + rewrite lookup_alter_eq. destruct (db_outbox db !! k) as [r0|] eqn:E; [|done].
      intros [= <-]. cbn. rewrite set_fields_key. by apply Hok in E.
    + rewrite lookup_alter_ne by done. apply Hok.
  - apply map_eq. intros k. rewrite lookup_fmap. destruct (decide (key = k)) as [->|Hne].
    + rewrite !lookup_alter_eq, lookup_fmap. destruct (db_outbox db !! k); [|done]. cbn.
      by rewrite entry_row_id.
    + by rewrite !lookup_alter_ne, lookup_fmap.
Qed.

Lemma pg_list_law db i t s :
  pg_ok db ->
  exists l, pg_list i t s db = (Ok l, db) /\ NoDup (oe_idempotency_key <$> l) /\
    forall e, e ∈ l <-> pg_rows db !! oe_idempotency_key e = Some e /\ selected i t s e.
Proof.
  intros Hok. unfold pg_list, order_by. eexists. split_and!; [done| |].
  - rewrite merge_sort_Permutation, <- list_fmap_compose.
    eapply sublist_NoDup; [|apply fmap_sublist, sublist_filter].
    rewrite <- list_fmap_compose.
    rewrite (list_fmap_ext _ fst (map_to_list (db_outbox db))); [apply NoDup_fst_map_to_list|].
    intros n [k r] Hn. cbn. apply Hok, elem_of_map_to_list. by eapply list_elem_of_lookup_2.
  - intros e. rewrite merge_sort_Permutation, list_elem_of_fmap. unfold pg_rows. split.
    + intros (r & -> & [Hs ([k r'] & -> & Hin)%list_elem_of_fmap]%list_elem_of_filter).
      apply elem_of_map_to_list in Hin. split; [|done]. cbn. rewrite lookup_fmap.
      rewrite (Hok _ _ Hin), Hin. done.
    + intros [Hr Hs]. rewrite lookup_fmap in Hr.
      destruct (db_outbox db !! oe_idempotency_key e) as [r|] eqn:E; [|done].
      injection Hr as <-. exists r. split; [done|]. apply list_elem_of_filter. split; [done|].
      apply list_elem_of_fmap. eexists (_, r). split; [done|]. by apply elem_of_map_to_list.
Qed.

#[export] Instance PgOutboxLaws : OutboxLaws DB.
Proof.
  refine {| outbox_ok := pg_ok; outbox_rows := pg_rows |}.
  - intros db k e Hok. unfold pg_rows. rewrite lookup_fmap.
    destruct (db_outbox db !! k) eqn:E; [|done]. intros [= <-]. by apply Hok in E.
  - apply pg_claim_law.
  - apply pg_mark_law.
  - apply pg_list_law.
Defined.
End pg_laws.

Lemma mem_rows_all s :
  mem_ok s -> mapM (fun k => match mem_rows s !! k with
                   | Some r => Ok r | None => Err (KeyError k) end) (mem_order s)
              = Ok (omap (fun k => mem_rows s !! k) (mem_order s)).
Proof.
  intros (_ & _ & Hdom). assert (forall k, k ∈ mem_order s -> is_Some (mem_rows s !! k)) as H
    by (intros k; apply Hdom). clear Hdom.
  induction (mem_order s) as [|k l IH]; [done|]. cbn.
  destruct (H k ltac:(left)) as [r ->]. cbn. rewrite IH; [done|]. intros k' Hk'. apply H. by right.
Qed.

Lemma mem_keys s :
  mem_ok s -> oe_idempotency_key <$> omap (fun k => mem_rows s !! k) (mem_order s) = mem_order s.
Proof.
  intros (Hkey & _ & Hdom). assert (forall k, k ∈ mem_order s -> is_Some (mem_rows s !! k)) as H
    by (intros k; apply Hdom). clear Hdom.
  induction (mem_order s) as [|k l IH]; [done|]. cbn.
  destruct (H k ltac:(left)) as [r Hr]. rewrite Hr. cbn. rewrite (Hkey _ _ Hr), IH; [done|].
  intros k' Hk'. apply H. by right.
Qed.

#[export] Instance InMemoryOutboxLaws : OutboxLaws InMemoryOutbox.
Proof.
  refine {| outbox_ok := mem_ok; outbox_rows := mem_rows |}.
  - intros s k e (Hk & _) He. by apply Hk in He.
  - intros s e (Hk & Hnd & Hdom) _. cbn. unfold mem_claim.
    destruct (mem_rows s !! oe_idempotency_key e) as [row|] eqn:E; eexists; (split; [done|]);
      (split; [|done]); cbn.
    + split_and!; [apply map_Forall_insert_2; [by apply Hk in E|done]|done|].
      intros k. rewrite Hdom. cbn. rewrite lookup_insert_is_Some. destruct (decide (k = oe_idempotency_key e)) as [->|].
      * rewrite E. naive_solver.
      * naive_solver.
    + split_and!; [by apply map_Forall_insert_2| |].
      * apply NoDup_app. split_and!; [done| |by apply NoDup_singleton].
        intros k Hin ->%list_elem_of_singleton. apply Hdom in Hin. rewrite E in Hin. by destruct Hin.
      * intros k. cbn. rewrite elem_of_app, list_elem_of_singleton, Hdom.
        rewrite lookup_insert_is_Some. destruct (decide (k = oe_idempotency_key e)); naive_solver.
  - intros s key fs (Hk & Hnd & Hdom). cbn. unfold mem_mark.
    destruct (mem_rows s !! key) as [row|] eqn:E; eexists; (split; [done|]).
    + assert (alter (set_fields fs) key (mem_rows s) = <[key := set_fields fs row]> (mem_rows s))
        as -> by (by apply alter_present).
      split; [|done]. split_and!; cbn; [|done|].
      * apply map_Forall_insert_2; [|done]. rewrite set_fields_key. by apply Hk in E.
      * intros k. rewrite Hdom, lookup_insert_is_Some.
        destruct (decide (k = key)) as [->|]; [rewrite E|]; naive_solver.
    + split; [done|]. by rewrite alter_absent.
  - intros s i t st Hok. cbn. unfold mem_list. rewrite (mem_rows_all _ Hok). cbn.
    eexists. split_and!; [done| |].
    + eapply sublist_NoDup; [|apply fmap_sublist, sublist_filter]. rewrite mem_keys by done.
      apply Hok.
    + intros e. rewrite list_elem_of_filter, list_elem_of_omap.
      destruct Hok as (Hk & _ & Hdom). split.
      * intros [Hs (k & Hin & Hr)]. split; [|done]. by rewrite (Hk _ _ Hr).
      * intros [Hr Hs]. split; [done|]. exists (oe_idempotency_key e). split; [|done].
        apply Hdom. by rewrite Hr.
Defined.

(** Two stores that show the same rows. *)
Definition same_rows {W1 W2} `{OutboxLaws W1, OutboxLaws W2} (w1 : W1) (w2 : W2) : Prop :=
  outbox_ok w1 /\ outbox_ok w2 /\ outbox_rows w1 = outbox_rows w2.

Section simulation.
Context {W1 W2 : Type} {O1 : OutboxStore W1} {O2 : OutboxStore W2}
  {L1 : OutboxLaws W1} {L2 : OutboxLaws W2}.

Lemma claim_sim (w1 : W1) (w2 : W2) e :
  same_rows w1 w2 -> unrecorded e ->
  fst (claim e w1) = fst (claim e w2) /\ same_rows (snd (claim e w1)) (snd (claim e w2)).
Proof.
  intros (Hw1 & Hw2 & Heq) He.
  destruct (claim_law w1 e Hw1 He) as (w1' & -> & Hok1 & Hr1).
  destruct (claim_law w2 e Hw2 He) as (w2' & -> & Hok2 & Hr2). cbn.
  unfold same_rows. by rewrite Hr1, Hr2, Heq.
Qed.

Lemma mark_sim (w1 : W1) (w2 : W2) key fs :
  same_rows w1 w2 ->
  fst (mark key fs w1) = fst (mark key fs w2) /\
  same_rows (snd (mark key fs w1)) (snd (mark key fs w2)).
Proof.
  intros (Hw1 & Hw2 & Heq).
  destruct (mark_law w1 key fs Hw1) as (w1' & -> & Hok1 & Hr1).
  destruct (mark_law w2 key fs Hw2) as (w2' & -> & Hok2 & Hr2). cbn.
  unfold same_rows. by rewrite Hr1, Hr2, Heq.
Qed.

Lemma list_sim (w1 : W1) (w2 : W2) i t s :
  same_rows w1 w2 ->
  exists l1 l2, list_for_instance i t s w1 = (Ok l1, w1) /\
    list_for_instance i t s w2 = (Ok l2, w2) /\ l1 ≡ₚ l2.
Proof.
  intros (Hw1 & Hw2 & Heq).
  destruct (list_law w1 i t s Hw1) as (l1 & Hl1 & Hnd1 & He1).
  destruct (list_law w2 i t s Hw2) as (l2 & Hl2 & Hnd2 & He2).
  exists l1, l2. split_and!; [done|done|].
  apply NoDup_Permutation; [by eapply NoDup_fmap_1|by eapply NoDup_fmap_1|].
  intros e. by rewrite He1, He2, Heq.
Qed.
End simulation.

(** C23: The Postgres outbox implements the in-memory one: started from states
    with the same rows, [claim] and [mark] return the same value and leave the
    same rows, and [list_for_instance] returns the same rows (their order aside),
    so what is tested against the in-memory store holds of the real one.  The entry
    claimed is one as [SideEffectGuard] builds it, with nothing recorded yet: a
    result, a reference, an error or a compensation already on the entry would be
    kept by the in-memory store and dropped by the Postgres one. *)
Theorem pg_outbox_refines_memory {C : Codec} (db : DB) (s : InMemoryOutbox) :
  same_rows db s ->
  (forall e, unrecorded e ->
     fst (claim e db) = fst (claim e s) /\ same_rows (snd (claim e db)) (snd (claim e s))) /\
  (forall key fs, fst (mark key fs db) = fst (mark key fs s) /\
     same_rows (snd (mark key fs db)) (snd (mark key fs s))) /\
  (forall i t st, exists l1 l2, list_for_instance i t st db = (Ok l1, db) /\
     list_for_instance i t st s = (Ok l2, s) /\ l1 ≡ₚ l2).
Proof.
  intros Hs. split_and!; intros; [by apply claim_sim|by apply mark_sim|by apply list_sim].
Qed.

Lemma pg_outbox_refines_memory_witness :
  let e := {| oe_idempotency_key := "k"; oe_instance_id := "i1"; oe_tenant_id := "t1";
              oe_step_id := "s"; oe_effect_name := "send"; oe_provider := "noop";
              oe_params := ∅; oe_guarantee := "exactly_once"; oe_status := "pending";
              oe_attempts := 0; oe_result := None; oe_provider_ref := None; oe_error := None;
              oe_compensation_status := None |} in
  let s := MkMem ∅ [] in let db := @empty_db plain_codec 0 in
  same_rows (snd (claim e db)) (snd (claim e s)).
Proof.
  intros e s db. apply (pg_outbox_refines_memory db s); [|by split_and!].
  split_and!; [apply map_Forall_empty|split_and!|done].
  - apply map_Forall_empty.
  - constructor.
  - intros k. cbn. rewrite lookup_empty. split; [by intros ?%not_elem_of_nil|by intros []].
Defined.
