(* ===== verification/Ports.v ===== *)
(** Injected non-determinism ([core/ports.py]): the clock and the id generator
    as type classes over the state of the world.

    Reading the clock does not change the world; time passes when the world
    changes.  A fresh id does. *)

From stdpp Require Import base strings list gmap pretty.
From Stdlib Require Import ZArith.
From S2P Require Import Prelude Exceptions Values.

Class Clock (W : Type) := { now : W -> time }.
Class IdGenerator (W : Type) := { new_id : W -> string * W }.

Definition read_clock {W} `{Clock W} : M W exn time := gets now.
Definition fresh_id {W} `{IdGenerator W} : M W exn string := fun w =>
  let '(i, w') := new_id w in (Ok i, w').

(** What the operating system gives: the time of day, and random identifiers. *)
Class Os (W : Type) := {
  datetime_now : W -> time;
  uuid4 : W -> string * W;
}.

(** [SystemClock] and [UuidGenerator], the clock and the ids of a process. *)
Definition SystemClock {W} `{Os W} : Clock W := {| now := datetime_now |}.
Definition UuidGenerator {W} `{Os W} : IdGenerator W := {| new_id := uuid4 |}.

(** [FixedClock]: [tick] advances it, [set] replaces its time.  A time is an instant:
    a value without a time zone is taken to be in UTC before it gets here. *)
Record FixedClock := { fc_now : time }.
#[export] Instance fixed_clock : Clock FixedClock := {| now := fc_now |}.
Definition tick (seconds : float) (c : FixedClock) : res FixedClock :=
  d ← timedelta_seconds seconds; Ok {| fc_now := fc_now c + d |}.
Definition set_clock (value : time) (c : FixedClock) : FixedClock := {| fc_now := value |}.

(** [SequentialIdGenerator]: [prefix-1], [prefix-2], ... *)
Record SequentialIdGenerator := { sg_prefix : string; sg_counter : Z }.
#[export] Instance sequential_ids : IdGenerator SequentialIdGenerator := {|
  new_id g := (sg_prefix g +:+ "-" +:+ pretty (sg_counter g),
               {| sg_prefix := sg_prefix g; sg_counter := sg_counter g + 1 |})
|}.
