(* ===== verification/SideEffects.v ===== *)
(** The side-effect guard ([core/side_effects.py]) and the provider seam
    ([integrations/actions/base.py]).

    The guard is written against the [OutboxStore] protocol; an action provider
    is a record of the operations of [ActionProvider], which act on the world. *)

From stdpp Require Import base strings list gmap relations.
From Stdlib Require Import ZArith Lia.
From S2P Require Import Prelude Exceptions Values Enums Definitions Instance Events Tables Outbox.
From S2P Require Import Ports Digests.

(** [EffectStatus]: a [StrEnum], whose members are their values. *)
Module EffectStatus.
Definition PENDING : string := "pending".
Definition EXECUTED : string := "executed".
Definition FAILED : string := "failed".
Definition COMPENSATED : string := "compensated".
End EffectStatus.

Module SideEffects.

Record EffectRequest := {
  erq_effect_name : string;
  erq_params : dict;
  erq_idempotency_key : string;
  erq_instance_id : string;
  erq_tenant_id : string;
  erq_step_id : string;
}.

Record EffectResult := {
  ers_ok : bool;
  ers_data : dict;
  ers_provider_ref : option string;
  ers_error : option string;
}.

Record EffectOutcome := {
  eo_idempotency_key : string;
  eo_effect_name : string;
  eo_step_id : string;
  eo_params : dict;
  eo_result : EffectResult;
  eo_deduplicated : bool;
  eo_guarantee : string;
}.

Record ActionProvider (W : Type) := {
  ap_name : string;
  supports_idempotency_key : string -> bool;
  ap_execute : EffectRequest -> M W exn EffectResult;
  ap_reconcile : EffectRequest -> M W exn (option EffectResult);
  ap_compensate : EffectRequest -> EffectResult -> M W exn (option EffectResult);
}.
Arguments ap_name {W}. Arguments supports_idempotency_key {W}.
Arguments ap_execute {W}. Arguments ap_reconcile {W}. Arguments ap_compensate {W}.

Abbreviation ProviderRegistry W := (gmap string (ActionProvider W)).

Definition register {W} (p : ActionProvider W) (reg : ProviderRegistry W) : ProviderRegistry W :=
  <[ap_name p := p]> reg.

Definition has_provider {W} (reg : ProviderRegistry W) (name : string) : bool :=
  bool_decide (is_Some (reg !! name)).

(** [BaseActionProvider]: what a provider that defines only its name does. *)
Definition BaseActionProvider {W} (name : string) : ActionProvider W := {|
  ap_name := name;
  supports_idempotency_key _ := false;
  ap_execute _ := raise (Exn (PyExc "NotImplementedError") "");
  ap_reconcile _ := mret None;
  ap_compensate _ _ := mret None |}.

Definition get_provider {W} (reg : ProviderRegistry W) (name : string)
    : res (ActionProvider W) :=
  match reg !! name with
  | Some p => Ok p
  | None => Err (Exn ConfigurationError ("no action provider registered as " +:+ py_repr name))
  end.

(** [str(exc)] where the message is formatted into another one. *)
Definition show_opt (o : option string) : string := match o with Some s => s | None => "None" end.

Section guard.
Context `{Hashing} {W : Type} `{OutboxStore W, Clock W}.
Context (providers : ProviderRegistry W).

Definition idempotency_key (instance_id step_id effect_name : string) (params : dict) : string :=
  digest (JObj (<["instance_id" := JStr instance_id]> (<["step_id" := JStr step_id]>
    (<["effect_name" := JStr effect_name]> {["params" := JObj params]})))).

Definition SideEffectErr (msg : string) : exn := Exn SideEffectError msg.

(** Reconcile a resumed attempt of a provider without idempotency keys, and
    execute unless that already found the effect. *)
Definition call_provider (p : ActionProvider W) (req : EffectRequest) (resuming : bool)
    : M W exn EffectResult :=
  found ← (if resuming && negb (supports_idempotency_key p (erq_effect_name req))
           then ap_reconcile p req else mret None);
  match found with
  | Some result => mret result
  | None => ap_execute p req
  end.

Definition outcome_of (req : EffectRequest) (result : EffectResult) (dedup : bool)
    (guarantee : string) : EffectOutcome := {|
  eo_idempotency_key := erq_idempotency_key req;
  eo_effect_name := erq_effect_name req;
  eo_step_id := erq_step_id req;
  eo_params := erq_params req;
  eo_result := result;
  eo_deduplicated := dedup;
  eo_guarantee := guarantee |}.

(** The request and the outbox entry that [execute] builds. *)
Definition request (instance_id tenant_id step_id effect_name : string) (params : dict)
    : EffectRequest := {|
  erq_effect_name := effect_name;
  erq_params := params;
  erq_idempotency_key := idempotency_key instance_id step_id effect_name params;
  erq_instance_id := instance_id;
  erq_tenant_id := tenant_id;
  erq_step_id := step_id |}.

Definition guarantee_of (p : ActionProvider W) (effect_name : string) : string :=
  if supports_idempotency_key p effect_name then "exactly_once" else "at_least_once_dedup".

Definition entry_of (p : ActionProvider W) (provider_name : string) (req : EffectRequest)
    : OutboxEntry := {|
  oe_idempotency_key := erq_idempotency_key req;
  oe_instance_id := erq_instance_id req;
  oe_tenant_id := erq_tenant_id req;
  oe_step_id := erq_step_id req;
  oe_effect_name := erq_effect_name req;
  oe_provider := provider_name;
  oe_params := erq_params req;
  oe_guarantee := guarantee_of p (erq_effect_name req);
  oe_status := "pending";
  oe_attempts := 0;
  oe_result := None;
  oe_provider_ref := None;
  oe_error := None;
  oe_compensation_status := None |}.

(** Marking the row failed before re-raising. *)
Definition fail_effect (key : string) (error : option string) (msg : string)
    : M W exn EffectResult :=
  t ← read_clock;
  _ ← mark key [FStatus EffectStatus.FAILED; FError error; FUpdatedAt t];
  raise (SideEffectErr msg).

(** Run the provider and record the outcome in the outbox. *)
Definition perform (p : ActionProvider W) (req : EffectRequest) (resuming : bool)
    : M W exn EffectResult :=
  result ← try_except (call_provider p req resuming) is_Exception
             (fun exc => fail_effect (erq_idempotency_key req) (Some (exn_msg exc))
                ("effect " +:+ erq_effect_name req +:+ " raised: " +:+ exn_msg exc));
  if negb (ers_ok result) then
    fail_effect (erq_idempotency_key req) (ers_error result)
      ("effect " +:+ erq_effect_name req +:+ " returned not-ok: " +:+ show_opt (ers_error result))
  else
    t ← read_clock;
    _ ← mark (erq_idempotency_key req)
          [FStatus EffectStatus.EXECUTED; FResult (Some (ers_data result));
           FProviderRef (ers_provider_ref result); FError None; FUpdatedAt t];
    mret result.

(** The result stored in an executed row. *)
Definition stored_result (row : OutboxEntry) : EffectResult := {|
  ers_ok := true; ers_data := default ∅ (oe_result row);
  ers_provider_ref := oe_provider_ref row; ers_error := None |}.

Definition execute (instance_id tenant_id step_id effect_name : string) (params : dict)
    (provider_name : string) : M W exn EffectOutcome :=
  p ← lift (get_provider providers provider_name);
  let req := request instance_id tenant_id step_id effect_name params in
  row ← claim (entry_of p provider_name req);
  if bool_decide (oe_status row = EffectStatus.EXECUTED) then
    mret (outcome_of req (stored_result row) true (oe_guarantee row))
  else if bool_decide (oe_status row = EffectStatus.COMPENSATED) then
    raise (SideEffectErr ("effect " +:+ effect_name +:+ " (" +:+ erq_idempotency_key req
                            +:+ ") was already compensated"))
  else
    result ← perform p req (1 <? oe_attempts row)%Z;
    mret (outcome_of req result false (guarantee_of p effect_name)).

(** One iteration of the loop of [compensate_instance]. *)
Definition compensate_row (instance_id tenant_id : string) (row : OutboxEntry)
    : M W exn EffectOutcome :=
  p ← lift (get_provider providers (oe_provider row));
  let req := {| erq_effect_name := oe_effect_name row; erq_params := oe_params row;
                erq_idempotency_key := oe_idempotency_key row;
                erq_instance_id := instance_id; erq_tenant_id := tenant_id;
                erq_step_id := oe_step_id row |} in
  comp ← try_except (ap_compensate p req (stored_result row)) is_Exception
           (fun exc =>
              t ← read_clock;
              _ ← mark (oe_idempotency_key row)
                    [FCompensationStatus "failed"; FError (Some (exn_msg exc)); FUpdatedAt t];
              raise (Exn CompensationError
                ("compensation for " +:+ oe_effect_name row +:+ " failed: " +:+ exn_msg exc)));
  t ← read_clock;
  _ ← mark (oe_idempotency_key row)
        [FStatus EffectStatus.COMPENSATED; FCompensationStatus "done"; FUpdatedAt t];
  mret (outcome_of req
          (default {| ers_ok := true; ers_data := ∅; ers_provider_ref := None; ers_error := None |}
             comp) false (oe_guarantee row)).

Definition compensate_instance (instance_id tenant_id : string) : M W exn (list EffectOutcome) :=
  rows ← list_for_instance instance_id tenant_id (Some EffectStatus.EXECUTED);
  mapM_ (compensate_row instance_id tenant_id) (rev rows).

Definition list_effects (instance_id tenant_id : string) : M W exn (list OutboxEntry) :=
  list_for_instance instance_id tenant_id None.

End guard.
End SideEffects.
