(* ===== verification/SideEffectsTheory.v ===== *)
(** Exactly-once and compensation properties of the side-effect guard, proved
    against the [OutboxStore] protocol and therefore for both outboxes. *)

From stdpp Require Import base strings list gmap relations.
From Stdlib Require Import ZArith Lia.
From S2P Require Import Prelude Exceptions Values Enums Definitions Instance Events Tables Outbox.
From S2P Require Import Ports SideEffects Digests.

Import SideEffects.

Section theory.
Context {Hh : Hashing} {W : Type} {O : OutboxStore W} {L : OutboxLaws W} {Ck : Clock W}.
Context (providers : ProviderRegistry W).

(** Runs of [m] leave the outbox alone. *)
Definition outbox_frame {A} (m : M W exn A) : Prop :=
  forall w, outbox_ok w -> outbox_ok (snd (m w)) /\ outbox_rows (snd (m w)) = outbox_rows w.

(** The external systems are not the outbox. *)
Record provider_frame (p : ActionProvider W) : Prop := {
  pf_execute : forall req, outbox_frame (ap_execute p req);
  pf_reconcile : forall req, outbox_frame (ap_reconcile p req);
  pf_compensate : forall req r, outbox_frame (ap_compensate p req r);
}.

Lemma entry_unrecorded (p : ActionProvider W) name req : unrecorded (entry_of p name req).
Proof. by split_and!. Qed.

(** ** What a call leaves in the outbox *)

Lemma frame_ret {A} (a : A) : outbox_frame (mret a).
Proof. by intros w Hw. Qed.

Lemma frame_bind {A B} (m : M W exn A) (k : A -> M W exn B) :
  outbox_frame m -> (forall a, outbox_frame (k a)) -> outbox_frame (mbind k m).
Proof.
  intros Hm Hk w Hw. unfold mbind, M_bind. destruct (Hm w Hw) as [H1 H2].
  destruct (m w) as [[a|e] w1]; cbn in *; [|done].
  destruct (Hk a w1 H1) as [H3 H4]. by rewrite H4.
Qed.

Lemma call_provider_frame p req resuming :
  provider_frame p -> outbox_frame (call_provider p req resuming).
Proof.
  intros [He Hr _]. unfold call_provider. apply frame_bind.
  - destruct (_ && _); [apply Hr|apply frame_ret].
  - intros [r|]; [apply frame_ret|apply He].
Qed.

(** The row after [perform]: executed with the result, or failed. *)
Lemma perform_spec p req resuming w r w' :
  provider_frame p -> outbox_ok w -> perform p req resuming w = (r, w') ->
  outbox_ok w' /\
  match r with
  | Ok res => ers_ok res = true /\
      exists t, outbox_rows w' = alter (set_fields
        [FStatus "executed"; FResult (Some (ers_data res)); FProviderRef (ers_provider_ref res);
         FError None; FUpdatedAt t]) (erq_idempotency_key req) (outbox_rows w)
  | Err e => outbox_rows w' = outbox_rows w \/
      exists t err, outbox_rows w' = alter (set_fields
        [FStatus "failed"; FError err; FUpdatedAt t]) (erq_idempotency_key req) (outbox_rows w)
  end.
Proof.
  intros Hpf Hok. unfold perform, try_except, try_catch.
  destruct (call_provider_frame p req resuming Hpf w Hok) as [Hok1 Hr1].
  unfold mbind at 1, M_bind at 1.
  destruct (call_provider p req resuming w) as [[res|e] w1]; cbn [fst snd] in *.
  - destruct (ers_ok res) eqn:Hres; cbn [negb].
    + unfold mbind, M_bind, read_clock, gets.
      edestruct (mark_law w1) as (w2 & -> & Hok2 & Hr2); [done|]. intros [= <- <-].
      rewrite Hr2, Hr1. eauto.
    + unfold fail_effect, mbind, M_bind, read_clock, gets.
      edestruct (mark_law w1) as (w2 & -> & Hok2 & Hr2); [done|]. intros [= <- <-].
      rewrite Hr2, Hr1. eauto.
  - destruct (is_Exception e).
    + unfold fail_effect, mbind, M_bind, read_clock, gets.
      edestruct (mark_law w1) as (w2 & -> & Hok2 & Hr2); [done|]. intros [= <- <-].
      rewrite Hr2, Hr1. eauto.
    + intros [= <- <-]. eauto.
Qed.

(** [execute] unfolded around the claim. *)
Lemma execute_claim iid tid sid name params pname p w w1 row :
  providers !! pname = Some p ->
  claim (entry_of p pname (request iid tid sid name params)) w = (Ok row, w1) ->
  execute providers iid tid sid name params pname w =
  if bool_decide (oe_status row = "executed")
  then (Ok (outcome_of (request iid tid sid name params) (stored_result row) true
              (oe_guarantee row)), w1)
  else if bool_decide (oe_status row = "compensated")
  then (Err (SideEffectErr ("effect " +:+ name +:+ " (" +:+ idempotency_key iid sid name params
                            +:+ ") was already compensated")), w1)
  else (result ← perform p (request iid tid sid name params) (1 <? oe_attempts row)%Z;
        mret (outcome_of (request iid tid sid name params) result false
                (guarantee_of p name))) w1.
Proof.
  intros Hp Hc. unfold execute.
  rewrite (M_bind_step _ _ w p w) by (unfold lift, get_provider; by rewrite Hp).
  cbv zeta. rewrite (M_bind_step _ _ _ _ _ Hc).
  repeat case_bool_decide; done.
Qed.

(** Once is enough: after [execute] returns normally, running the same effect
    again (a retry, or a recovery that replays the step) returns the same data
    and provider reference, flagged as deduplicated, and does not call the
    provider. *)
Theorem execute_then_deduplicated iid tid sid name params pname p w o w1 :
  outbox_ok w -> providers !! pname = Some p -> provider_frame p ->
  execute providers iid tid sid name params pname w = (Ok o, w1) ->
  exists o' w2,
    execute providers iid tid sid name params pname w1 = (Ok o', w2) /\
    eo_deduplicated o' = true /\ ers_data (eo_result o') = ers_data (eo_result o) /\
    ers_provider_ref (eo_result o') = ers_provider_ref (eo_result o) /\
    w2 = snd (claim (entry_of p pname (request iid tid sid name params)) w1).
Proof.
  intros Hok Hp Hpf Hex. set (key := idempotency_key iid sid name params).
  set (req := request iid tid sid name params) in *.
  assert (exists row, outbox_ok w1 /\ outbox_rows w1 !! key = Some row /\
            oe_status row = "executed" /\ ers_data (stored_result row) = ers_data (eo_result o) /\
            ers_provider_ref (stored_result row) = ers_provider_ref (eo_result o))
    as (row & Hok1 & Hrow & Hst & Hd & Hpr).
  { destruct (claim_law w (entry_of p pname req) Hok (entry_unrecorded p pname req))
      as (wc & Hc & Hokc & Hrc).
    rewrite (execute_claim _ _ _ _ _ _ _ _ _ _ Hp Hc) in Hex.
    set (row := claimed _ _) in *. case_bool_decide as Hx.
    - injection Hex as <- <-. exists row. rewrite Hrc. split_and!; try done.
      apply lookup_insert_eq.
    - case_bool_decide; [done|]. apply M_bind_Ok in Hex as (res & wp & Hperf & Hret).
      injection Hret as <- <-.
      destruct (perform_spec _ _ _ _ _ _ Hpf Hokc Hperf) as (Hokp & Hres & t & Hrp).
      eexists. split_and!; [done| |..].
      + rewrite Hrp, Hrc. change (erq_idempotency_key req) with key.
        change (oe_idempotency_key (entry_of p pname req)) with key.
        rewrite lookup_alter_eq, lookup_insert_eq. reflexivity.
      + reflexivity.
      + reflexivity.
      + reflexivity. }
  destruct (claim_law w1 (entry_of p pname req) Hok1 (entry_unrecorded p pname req))
    as (wc & Hc & _ & _).
  eexists _, wc. rewrite (execute_claim _ _ _ _ _ _ _ _ _ _ Hp Hc).
  change (oe_idempotency_key (entry_of p pname req)) with key in *. rewrite Hrow in *.
  cbn [claimed oe_status with_claim] in *. rewrite bool_decide_true by done.
  split; [reflexivity|]. cbn in *. rewrite Hc. by split_and!.
Qed.

(** ** At most once, whatever crashes

    [landed w] lists the idempotency keys of the effects that took place in the
    external world, one entry per occurrence. *)
Section at_most_once.
Context (landed : W -> list string).

Definition landed_frame {A} (m : M W exn A) : Prop := forall w, landed (snd (m w)) = landed w.

(** Outbox operations do not reach the external world. *)
Hypothesis claim_external : forall e, landed_frame (claim e).
Hypothesis mark_external : forall key fs, landed_frame (mark key fs).

Definition occurrences (key : string) (w : W) : nat := py_count key (landed w).

(** What a provider must offer for an effect to happen at most once: either it
    honours the idempotency key, or its [reconcile] finds every effect that
    landed.  In both cases a call performs the requested effect at most once. *)
Definition lands_once (p : ActionProvider W) (req : EffectRequest) : Prop :=
  (forall w, landed (snd (ap_execute p req w)) = landed w \/
             landed (snd (ap_execute p req w)) = landed w ++ [erq_idempotency_key req]) /\
  (if supports_idempotency_key p (erq_effect_name req)
   then forall w, erq_idempotency_key req ∈ landed w -> landed (snd (ap_execute p req w)) = landed w
   else landed_frame (ap_reconcile p req) /\
        forall w, erq_idempotency_key req ∈ landed w -> fst (ap_reconcile p req w) <> Ok None).

Context (iid tid sid name pname : string) (params : dict) (p : ActionProvider W).
Let key := idempotency_key iid sid name params.
Let req := request iid tid sid name params.

(** One attempt at the effect, which may die after the claim, after the provider
    call or nowhere, with unrelated work in between. *)
Inductive attempt : W -> W -> Prop :=
| AttCrashAfterClaim w row w1 :
    claim (entry_of p pname req) w = (Ok row, w1) -> attempt w w1
| AttCrashAfterProvider w row w1 w2 r :
    claim (entry_of p pname req) w = (Ok row, w1) ->
    oe_status row <> "executed" -> oe_status row <> "compensated" ->
    call_provider p req (1 <? oe_attempts row)%Z w1 = (r, w2) -> attempt w w2
| AttFull w w' r :
    execute providers iid tid sid name params pname w = (r, w') -> attempt w w'
| AttOther w w' :
    outbox_ok w' -> outbox_rows w' !! key = outbox_rows w !! key ->
    occurrences key w' = occurrences key w -> attempt w w'.

(** The effect landed at most once, and only after a claim. *)
Definition once_inv (w : W) : Prop :=
  outbox_ok w /\ (occurrences key w <= 1)%nat /\
  (occurrences key w <> 0%nat -> exists row, outbox_rows w !! key = Some row) /\
  (forall row, outbox_rows w !! key = Some row -> (1 <= oe_attempts row)%Z).

Lemma occurrences_in w : occurrences key w = 0%nat <-> key ∉ landed w.
Proof.
  unfold occurrences, py_count. split.
  - intros H0 Hin. assert (key ∈ filter (fun j => j = key) (landed w)) as Hf
      by (by apply list_elem_of_filter).
    destruct (filter (fun j => j = key) (landed w)); [by apply not_elem_of_nil in Hf|done].
  - intros Hni. rewrite filter_all_false; [done|]. intros x Hx ->. done.
Qed.

Lemma occurrences_app w l : landed w = l ++ [key] -> key ∉ l -> occurrences key w = 1%nat.
Proof.
  intros Hl Hni. unfold occurrences, py_count. rewrite Hl, filter_app, length_app.
  rewrite filter_all_false; [|by intros x Hx ->]. by rewrite filter_cons_True.
Qed.

(** A provider call never makes a second occurrence. *)
Lemma call_provider_once w row r w' :
  lands_once p req -> (occurrences key w <= 1)%nat ->
  (oe_attempts row = 1%Z -> occurrences key w = 0%nat) ->
  (1 <= oe_attempts row)%Z ->
  call_provider p req (1 <? oe_attempts row)%Z w = (r, w') -> (occurrences key w' <= 1)%nat.
Proof.
  intros [Hone Hmode] Hle Hfresh Hatt Hcall. unfold call_provider in Hcall.
  assert (forall v r' v', ap_execute p req v = (r', v') -> landed v = landed w ->
            (occurrences key w = 0%nat \/ landed v' = landed v) ->
            (occurrences key v' <= 1)%nat) as Hexec.
  { intros v r' v' Hv Hlv Hor. specialize (Hone v). rewrite Hv in Hone. cbn in Hone.
    destruct Hor as [H0|Heq]; [|unfold occurrences in *; by rewrite Heq, Hlv].
    destruct Hone as [Heq|Heq]; [unfold occurrences in *; by rewrite Heq, Hlv|].
    rewrite (occurrences_app v' (landed v)); [done|done|].
    rewrite Hlv. by apply occurrences_in. }
  destruct (supports_idempotency_key p (erq_effect_name req)) eqn:Hs.
  - rewrite andb_false_r in Hcall.
    rewrite (M_bind_step _ _ w None w) in Hcall by done. eapply Hexec; [exact Hcall|done|].
    destruct (decide (key ∈ landed w)) as [Hin|Hni]; [right|left; by apply occurrences_in].
    specialize (Hmode w Hin). by rewrite Hcall in Hmode.
  - rewrite andb_true_r in Hcall. destruct (Z.ltb_spec 1 (oe_attempts row)) as [Hr|Hr].
    + destruct Hmode as [Hfr Hfind]. specialize (Hfr w). specialize (Hfind w).
      unfold mbind, M_bind in Hcall.
      destruct (ap_reconcile p req w) as [[[found|]|e] w1]; cbn in *.
      * injection Hcall as _ <-. unfold occurrences in *. by rewrite Hfr.
      * eapply Hexec; [exact Hcall|done|]. left. apply occurrences_in. naive_solver.
      * injection Hcall as _ <-. unfold occurrences in *. by rewrite Hfr.
    + rewrite (M_bind_step _ _ w None w) in Hcall by done. eapply Hexec; [exact Hcall|done|]. left. apply Hfresh. lia.
Qed.

(** What the claim at the start of an attempt leaves. *)
Lemma claim_once w row w1 :
  once_inv w -> claim (entry_of p pname req) w = (Ok row, w1) ->
  once_inv w1 /\ outbox_rows w1 !! key = Some row /\ landed w1 = landed w /\
  (oe_attempts row = 1%Z -> occurrences key w1 = 0%nat).
Proof.
  intros (Hok & Hle & Hc & Hatt) Hcl.
  pose proof (claim_external (entry_of p pname req) w) as Hext. rewrite Hcl in Hext. cbn in Hext.
  destruct (claim_law w (entry_of p pname req) Hok (entry_unrecorded p pname req))
    as (w1' & Hcl' & Hok1 & Hr1). rewrite Hcl in Hcl'. injection Hcl' as Hrow' <-.
  assert (row = claimed (outbox_rows w !! key) (entry_of p pname req)) as Hrow by exact Hrow'.
  assert (outbox_rows w1 !! key = Some row) as Hlk
    by (rewrite Hr1, Hrow; apply lookup_insert_eq).
  clear Hrow'.
  assert (occurrences key w1 = occurrences key w) as Hocc by (unfold occurrences; by rewrite Hext).
  assert (1 <= oe_attempts row)%Z as Hpos.
  { rewrite Hrow. destruct (outbox_rows w !! key) as [old|] eqn:E; cbn; [|done].
    pose proof (Hatt old eq_refl). lia. }
  split_and!; [|done|done|].
  - split_and!; [done|by rewrite Hocc|by eauto|]. intros row' Hr'. congruence.
  - intros H1. rewrite Hocc. destruct (decide (occurrences key w = 0%nat)) as [|Hn]; [done|].
    exfalso. destruct (Hc Hn) as [old Hold]. rewrite Hold in Hrow. rewrite Hrow in H1. cbn in H1.
    pose proof (Hatt old Hold). lia.
Qed.

Lemma landed_mark_occ w fs w' : mark key fs w = (Ok tt, w') -> occurrences key w' = occurrences key w.
Proof.
  intros Hm. pose proof (mark_external key fs w) as H. rewrite Hm in H. cbn in H.
  unfold occurrences. by rewrite H.
Qed.

Lemma fail_effect_landed e msg w : landed (snd (fail_effect key e msg w)) = landed w.
Proof.
  unfold fail_effect, mbind, M_bind, read_clock, gets.
  pose proof (mark_external key [FStatus "failed"; FError e; FUpdatedAt (now w)] w) as H.
  by destruct (mark _ _ w) as [[[]|] w'].
Qed.

(** Recording the outcome does not touch the external world. *)
Lemma perform_landed resuming w :
  landed (snd (perform p req resuming w)) = landed (snd (call_provider p req resuming w)).
Proof.
  unfold perform, try_except, try_catch. unfold mbind at 1, M_bind at 1.
  destruct (call_provider p req resuming w) as [[res|e] w1]; cbn [snd].
  - destruct (negb (ers_ok res)); [apply fail_effect_landed|].
    unfold mbind, M_bind, read_clock, gets. change (erq_idempotency_key req) with key.
    match goal with |- context [mark key ?fs w1] => pose proof (mark_external key fs w1) as H end.
    by destruct (mark _ _ w1) as [[[]|] w2].
  - destruct (is_Exception e); [|done].
    match goal with |- context [fail_effect ?k ?x ?m w1] =>
      pose proof (fail_effect_landed x m w1) as H end.
    change (erq_idempotency_key req) with key.
    by destruct (fail_effect _ _ _ w1) as [[r|] w2] eqn:Hf; cbn in *;
      [unfold fail_effect, mbind, M_bind, read_clock, gets in Hf;
       destruct (mark _ _ w1) as [[[]|] ?]|].
Qed.

Hypothesis registered : providers !! pname = Some p.
Hypothesis frame : provider_frame p.
Hypothesis once : lands_once p req.

(** Any state reached from [w1] whose outbox row for [key] survives and that has
    at most one occurrence satisfies the invariant. *)
Lemma once_inv_kept w1 w2 :
  once_inv w1 -> outbox_ok w2 -> (occurrences key w2 <= 1)%nat ->
  (forall row, outbox_rows w1 !! key = Some row -> exists row',
     outbox_rows w2 !! key = Some row' /\ oe_attempts row' = oe_attempts row) ->
  is_Some (outbox_rows w1 !! key) -> once_inv w2.
Proof.
  intros (_ & _ & _ & Hatt) Hok Hle Hrow [row Hr].
  destruct (Hrow row Hr) as (row' & Hr' & Ha). split_and!; [done|done|by eauto|].
  intros row'' Hr''. rewrite Hr' in Hr''. injection Hr'' as <-. rewrite Ha. by apply Hatt.
Qed.

Lemma set_fields_attempts fs e : oe_attempts (set_fields fs e) = oe_attempts e.
Proof.
  unfold set_fields. revert e; induction fs as [|f fs IH]; intros e; [done|]. cbn. by rewrite IH.
Qed.

(** A complete run keeps the invariant. *)
Lemma execute_once_inv w w' r :
  once_inv w -> execute providers iid tid sid name params pname w = (r, w') -> once_inv w'.
Proof.
  intros Hinv Hex.
  destruct (claim_law w (entry_of p pname req) (proj1 Hinv) (entry_unrecorded p pname req))
    as (w1 & Hc & _ & _).
  rewrite (execute_claim _ _ _ _ _ _ _ _ _ _ registered Hc) in Hex.
  destruct (claim_once _ _ _ Hinv Hc) as (Hinv1 & Hrow & Hl & Hfresh).
  set (row := claimed _ _) in *.
  case_bool_decide; [by injection Hex as _ <-|]. case_bool_decide; [by injection Hex as _ <-|].
  pose proof Hinv1 as (Hok1 & Hle1 & _ & Hatt1). fold req in Hex.
  assert (w' = snd (perform p req (1 <? oe_attempts row)%Z w1)) as ->.
  { unfold mbind, M_bind in Hex.
    destruct (perform p req _ w1) as [[res|e] w2]; by injection Hex as _ <-. }
  destruct (perform p req (1 <? oe_attempts row)%Z w1) as [r2 w2] eqn:Hp.
  destruct (perform_spec _ _ _ _ _ _ frame Hok1 Hp) as [Hok2 Hrows].
  apply (once_inv_kept w1); [done|done| | |by eauto].
  - pose proof (perform_landed (1 <? oe_attempts row)%Z w1) as Hpl.
    destruct (call_provider p req (1 <? oe_attempts row)%Z w1) as [r3 w3] eqn:Hcall.
    rewrite Hp in Hpl. cbn in *. unfold occurrences. rewrite Hpl.
    apply (call_provider_once w1 row r3 w3); auto.
  - intros row0 Hr0. cbn. change (erq_idempotency_key req) with key in Hrows.
    assert (forall fs, exists row', alter (set_fields fs) key (outbox_rows w1) !! key = Some row' /\
              oe_attempts row' = oe_attempts row0) as Halt.
    { intros fs. rewrite lookup_alter_eq, Hr0. eexists. split; [done|].
      apply set_fields_attempts. }
    destruct r2; [destruct Hrows as (_ & t & ->); apply Halt|].
    destruct Hrows as [->|(t & err & ->)]; [by eauto|apply Halt].
Qed.

Lemma attempt_inv w w' : once_inv w -> attempt w w' -> once_inv w'.
Proof.
  intros Hinv Hat.
  destruct Hat as [w row w1 Hc|w row w1 w2 r Hc Hs1 Hs2 Hcall|w w' r Hex|w w' Hok Hrow Hocc].
  - by destruct (claim_once _ _ _ Hinv Hc).
  - destruct (claim_once _ _ _ Hinv Hc) as (Hinv1 & Hrow & Hl & Hfresh).
    pose proof Hinv1 as (Hok1 & Hle1 & _ & Hatt1).
    destruct (call_provider_frame p req (1 <? oe_attempts row)%Z frame w1 Hok1) as [Hok2 Hr2].
    rewrite Hcall in Hok2, Hr2. cbn in Hok2, Hr2.
    apply (once_inv_kept w1); [done|done| |by rewrite Hr2; eauto|by eauto].
    by apply (call_provider_once w1 row r w2); auto.
  - by eapply execute_once_inv.
  - destruct Hinv as (_ & Hle & Hc & Hatt). split_and!; [done|lia| |].
    + rewrite Hocc, Hrow. exact Hc.
    + rewrite Hrow. exact Hatt.
Qed.

(** C3: At most once, crashes included.  However many times the effect is
    attempted, dying after the claim, between the provider call and its
    recording, or not at all, and whatever unrelated work happens in between, it
    takes place at most once in the external world, provided the provider
    honours idempotency keys or can reconcile what landed. *)
Theorem effect_at_most_once w0 w :
  outbox_ok w0 -> outbox_rows w0 !! key = None -> key ∉ landed w0 ->
  rtc attempt w0 w -> (occurrences key w <= 1)%nat.
Proof.
  intros Hok Hrow Hni Hr.
  assert (once_inv w0) as H0.
  { apply occurrences_in in Hni. split_and!; [done|lia|done|]. intros row. by rewrite Hrow. }
  assert (once_inv w) as (_ & Hle & _); [|done].
  clear Hok Hrow Hni. induction Hr as [|w1 w2 w3 Hs _ IH]; [done|].
  by apply IH, (attempt_inv w1).
Qed.
End at_most_once.

(** ** Compensation *)

Section compensation.
Hypothesis frames : forall name p, providers !! name = Some p -> provider_frame p.

(** The row of [key] now, if it is there, has status [s]. *)
Definition row_status (w : W) (key s : string) : Prop :=
  exists e, outbox_rows w !! key = Some e /\ oe_status e = s.

Lemma compensate_row_spec iid tid row w r w' :
  outbox_ok w -> outbox_rows w !! oe_idempotency_key row = Some row ->
  compensate_row providers iid tid row w = (r, w') ->
  outbox_ok w' /\
  (forall k, k <> oe_idempotency_key row -> outbox_rows w' !! k = outbox_rows w !! k) /\
  match r with
  | Ok o => eo_idempotency_key o = oe_idempotency_key row /\
            row_status w' (oe_idempotency_key row) "compensated"
  | Err _ => row_status w' (oe_idempotency_key row) (oe_status row)
  end.
Proof.
  intros Hok Hrow. unfold compensate_row. unfold mbind at 1, M_bind at 1, lift, get_provider.
  destruct (providers !! oe_provider row) as [p|] eqn:Hp.
  2:{ intros [= <- <-]. split_and!; try done. by exists row. }
  cbv zeta. set (req := {| erq_effect_name := oe_effect_name row |}).
  destruct (pf_compensate _ (frames _ _ Hp) req (stored_result row) w Hok) as [Hok1 Hr1].
  unfold try_except, try_catch. unfold mbind at 1, M_bind at 1.
  destruct (ap_compensate p req (stored_result row) w) as [[comp|e] w1]; cbn [fst snd] in *.
  - unfold mbind, M_bind, read_clock, gets.
    edestruct (mark_law w1 (oe_idempotency_key row)) as (w2 & -> & Hok2 & Hr2); [done|].
    intros [= <- <-]. rewrite Hr1 in Hr2. split_and!; [done| |done|].
    + intros k Hk. rewrite Hr2. by rewrite lookup_alter_ne.
    + eexists. rewrite Hr2, lookup_alter_eq, Hrow. done.
  - destruct (is_Exception e).
    + unfold mbind, M_bind, read_clock, gets.
      edestruct (mark_law w1 (oe_idempotency_key row)) as (w2 & -> & Hok2 & Hr2); [done|].
      intros [= <- <-]. rewrite Hr1 in Hr2. split_and!; [done| |].
      * intros k Hk. rewrite Hr2. by rewrite lookup_alter_ne.
      * eexists. rewrite Hr2, lookup_alter_eq, Hrow. done.
    + intros [= <- <-]. split_and!; [done|by intros; rewrite Hr1|]. exists row. by rewrite Hr1.
Qed.

(** The loop compensates a prefix of its rows and leaves the rest alone. *)
Lemma compensate_rows_spec iid tid rows w r w' :
  outbox_ok w -> NoDup (oe_idempotency_key <$> rows) ->
  Forall (fun e => outbox_rows w !! oe_idempotency_key e = Some e /\ oe_status e = "executed") rows ->
  mapM_ (compensate_row providers iid tid) rows w = (r, w') ->
  exists k,
    Forall (fun e => row_status w' (oe_idempotency_key e) "compensated") (take k rows) /\
    Forall (fun e => row_status w' (oe_idempotency_key e) "executed") (drop k rows) /\
    (forall key, key ∉ oe_idempotency_key <$> rows -> outbox_rows w' !! key = outbox_rows w !! key) /\
    match r with
    | Ok outs => k = length rows /\ eo_idempotency_key <$> outs = oe_idempotency_key <$> rows
    | Err _ => (k < length rows)%nat
    end.
Proof.
  revert w r w'; induction rows as [|row rows IH]; intros w r w' Hok Hnd Hrows; cbn [mapM_].
  { intros [= <- <-]. exists 0%nat. done. }
  apply NoDup_cons in Hnd as [Hni Hnd]. apply Forall_cons in Hrows as [[Hrow Hst] Hrows].
  unfold mbind at 1, M_bind at 1.
  destruct (compensate_row providers iid tid row w) as [[o|e] w1] eqn:Hc.
  - destruct (compensate_row_spec _ _ _ _ _ _ Hok Hrow Hc) as (Hok1 & Hoth & Hkey & Hcomp).
    assert (forall e, e ∈ rows -> outbox_rows w1 !! oe_idempotency_key e
                                  = outbox_rows w !! oe_idempotency_key e) as Hsame.
    { intros e He. apply Hoth. intros Heq. apply Hni. rewrite <- Heq. by apply list_elem_of_fmap_2. }
    unfold mbind at 1, M_bind at 1.
    destruct (mapM_ (compensate_row providers iid tid) rows w1) as [r2 w2] eqn:Hm.
    destruct (IH w1 r2 w2 Hok1 Hnd) as (k & Htk & Hdr & Hout & Hend); [|done|].
    { rewrite Forall_forall in *. intros e He. rewrite Hsame by done. by apply Hrows. }
    intros Hr. exists (S k). assert (w' = w2) as ->.
    { destruct r2; by injection Hr as _ <-. }
    split_and!; [constructor|..]; try done.
    + destruct Hcomp as (e & He & Hs). exists e. split; [|done]. by rewrite Hout.
    + intros key [Hne Hnk]%not_elem_of_cons. by rewrite Hout, Hoth.
    + destruct r2 as [outs|e]; injection Hr as <-; cbn.
      * destruct Hend as [-> Hk]. by rewrite Hkey, Hk.
      * lia.
  - destruct (compensate_row_spec _ _ _ _ _ _ Hok Hrow Hc) as (Hok1 & Hoth & Hcomp).
    intros [= <- <-]. exists 0%nat. cbn. split_and!; [constructor| | |lia].
    + constructor; [by rewrite Hst in Hcomp|]. rewrite Forall_forall in *. intros x Hx.
      destruct (Hrows x Hx) as [Hr Hs]. exists x. split; [|done]. rewrite Hoth; [done|].
      intros Heq. apply Hni. rewrite <- Heq. by apply list_elem_of_fmap_2.
    + intros key [Hne _]%not_elem_of_cons. by apply Hoth.
Qed.


(** A compensation that reports failure is recorded as done: when the provider
    returns a not-ok result (rather than raising), [compensate_row] still marks
    the effect compensated and returns normally, so the rollback goes on as if
    the effect had been undone. *)
Theorem compensation_not_ok_is_recorded_done iid tid row p w w1 res :
  outbox_ok w -> outbox_rows w !! oe_idempotency_key row = Some row ->
  providers !! oe_provider row = Some p ->
  ap_compensate p {| erq_effect_name := oe_effect_name row; erq_params := oe_params row;
                     erq_idempotency_key := oe_idempotency_key row;
                     erq_instance_id := iid; erq_tenant_id := tid;
                     erq_step_id := oe_step_id row |} (stored_result row) w = (Ok (Some res), w1) ->
  ers_ok res = false ->
  exists o w', compensate_row providers iid tid row w = (Ok o, w') /\
    eo_result o = res /\ row_status w' (oe_idempotency_key row) "compensated".
Proof.
  intros Hok Hrow Hp Hc Hres.
  destruct (compensate_row providers iid tid row w) as [r w'] eqn:E.
  destruct (compensate_row_spec iid tid row w r w' Hok Hrow E) as (_ & _ & Hr).
  unfold compensate_row in E. rewrite (M_bind_step _ _ w p w) in E
    by (unfold lift, get_provider; by rewrite Hp).
  cbv zeta in E. unfold try_except, try_catch in E. unfold mbind at 1, M_bind at 1 in E.
  rewrite Hc in E. unfold mbind, M_bind, read_clock, gets in E.
  destruct (pf_compensate _ (frames _ _ Hp) {| erq_effect_name := oe_effect_name row;
    erq_params := oe_params row; erq_idempotency_key := oe_idempotency_key row;
    erq_instance_id := iid; erq_tenant_id := tid; erq_step_id := oe_step_id row |}
    (stored_result row) w Hok) as [Hok1 _]. rewrite Hc in Hok1. cbn in Hok1.
  edestruct (mark_law w1 (oe_idempotency_key row)) as (w2 & Hm & _); [done|].
  rewrite Hm in E. injection E as <- <-. eexists _, _. split; [done|].
  split; [done|]. apply Hr.
Qed.
End compensation.
End theory.

(** ** Witnesses

    A mail provider without idempotency keys: the world is the in-memory outbox
    and the list of mails sent, which [reconcile] looks up. *)
Module EffectSample.

Definition World : Type := InMemoryOutbox * list string.

#[export] Instance store : OutboxStore World := {|
  claim e := on_fst (claim e);
  mark key fs := on_fst (mark key fs);
  list_for_instance i t s := on_fst (list_for_instance i t s) |}.

#[export] Instance laws : OutboxLaws World.
Proof.
  refine {| outbox_ok w := outbox_ok (fst w); outbox_rows w := outbox_rows (fst w) |}.
  - intros w key e. apply rows_keyed.
  - intros [s l] e Hok He. destruct (claim_law s e Hok He) as (s' & Hc & Hok' & Hr).
    exists (s', l). unfold claim, store, on_fst. cbn [fst snd]. rewrite Hc. done.
  - intros [s l] key fs Hok. destruct (mark_law s key fs Hok) as (s' & Hc & Hok' & Hr).
    exists (s', l). unfold mark, store, on_fst. cbn [fst snd]. rewrite Hc. done.
  - intros [s l] i t st Hok. destruct (list_law s i t st Hok) as (rows & Hc & Hnd & Hm).
    exists rows. unfold list_for_instance, store, on_fst. cbn [fst snd]. rewrite Hc. done.
Defined.

#[export] Instance clock : Clock World := {| now _ := 0%Z |}.
#[export] Instance hashing : Hashing := {| orjson_dumps _ := "k1"; sha256_hexdigest s := s |}.

Definition sent (ok : bool) : EffectResult :=
  {| ers_ok := ok; ers_data := ∅; ers_provider_ref := Some "m1"; ers_error := None |}.

Definition mailer : ActionProvider World := {|
  ap_name := "mail";
  supports_idempotency_key _ := false;
  ap_execute req w := (Ok (sent true), (fst w, snd w ++ [erq_idempotency_key req]));
  ap_reconcile req w :=
    (Ok (if bool_decide (erq_idempotency_key req ∈ snd w) then Some (sent true) else None), w);
  ap_compensate _ _ w := (Ok (Some (sent false)), w) |}.

Definition registry : ProviderRegistry World := register mailer ∅.

Lemma registered : registry !! "mail" = Some mailer.
Proof. reflexivity. Qed.

Lemma mailer_frame : provider_frame mailer.
Proof. by constructor. Qed.

Lemma registry_frames name p : registry !! name = Some p -> provider_frame p.
Proof.
  unfold registry, register.
  intros [[<- <-]|[_ H]]%lookup_insert_Some; [apply mailer_frame|by rewrite lookup_empty in H].
Qed.

Lemma mailer_once req : lands_once snd mailer req.
Proof.
  split; [by right|]. split; [done|]. intros w Hin. cbn. by rewrite bool_decide_true.
Qed.

Definition w0 : World := (MkMem ∅ [], []).

Lemma w0_ok : outbox_ok w0.
Proof.
  split_and!; [apply map_Forall_empty|constructor|]. intros k. cbn. rewrite lookup_empty.
  split; [by intros ?%not_elem_of_nil|by intros []].
Qed.

Definition send : M World exn EffectOutcome := execute registry "i1" "t1" "s1" "send" ∅ "mail".

Definition row1 : OutboxEntry :=
  default (entry_of mailer "mail" (request "i1" "t1" "s1" "send" ∅))
    (outbox_rows (snd (send w0)) !! "k1").
End EffectSample.

Import EffectSample.

Lemma w1_ok : outbox_ok (snd (send w0)).
Proof.
  destruct (execute registry "i1" "t1" "s1" "send" ∅ "mail" w0) as [r w1] eqn:E.
  change (send w0) with (execute registry "i1" "t1" "s1" "send" ∅ "mail" w0). rewrite E.
  destruct (claim_law w0 (entry_of mailer "mail" (request "i1" "t1" "s1" "send" ∅)) w0_ok
              (entry_unrecorded mailer "mail" _)) as (wc & Hc & Hokc & _).
  rewrite (execute_claim registry _ _ _ _ _ _ _ _ _ _ registered Hc) in E.
  set (row := claimed _ _) in E. change (oe_status row) with "pending" in E.
  change (1 <? oe_attempts row)%Z with false in E. cbn [bool_decide] in E.
  unfold mbind, M_bind in E.
  destruct (perform mailer (request "i1" "t1" "s1" "send" ∅) false wc) as [r2 w2] eqn:Hp.
  destruct (perform_spec _ _ _ _ _ _ mailer_frame Hokc Hp) as [Hok2 _].
  destruct r2; by injection E as _ <-.
Qed.

Lemma execute_then_deduplicated_witness :
  exists o' w2, send (snd (send w0)) = (Ok o', w2) /\ eo_deduplicated o' = true /\
                snd w2 = ["k1"].
Proof.
  destruct (send w0) as [[o|e] w1] eqn:E; [|vm_compute in E; discriminate E].
  destruct (execute_then_deduplicated registry "i1" "t1" "s1" "send" ∅ "mail" mailer w0 o w1
              w0_ok registered mailer_frame E) as (o' & w2 & H1 & H2 & _ & _ & H5).
  exists o', w2. split_and!; [exact H1|exact H2|]. rewrite H5.
  vm_compute in E. injection E as _ <-. reflexivity.
Defined.

(** Sent, but the worker died before recording it; the retry reconciles. *)
Lemma effect_at_most_once_witness :
  exists w1 w2, 
    attempt registry snd "i1" "t1" "s1" "send" "mail" ∅ mailer w0 w1 /\
    attempt registry snd "i1" "t1" "s1" "send" "mail" ∅ mailer w1 w2 /\
    snd w1 = ["k1"] /\ snd w2 = ["k1"] /\ (occurrences snd "k1" w2 <= 1)%nat.
Proof.
  set (wc := snd (claim (entry_of mailer "mail" (request "i1" "t1" "s1" "send" ∅)) w0)).
  set (w1 := snd (call_provider mailer (request "i1" "t1" "s1" "send" ∅) false wc)).
  set (w2 := snd (send w1)).
  assert (attempt registry snd "i1" "t1" "s1" "send" "mail" ∅ mailer w0 w1) as H1.
  { eapply AttCrashAfterProvider with (w1 := wc); [vm_compute; reflexivity| | |reflexivity];
      discriminate. }
  assert (attempt registry snd "i1" "t1" "s1" "send" "mail" ∅ mailer w1 w2) as H2.
  { apply AttFull with (r := fst (send w1)). apply surjective_pairing. }
  exists w1, w2. split_and!; [exact H1|exact H2|vm_compute; reflexivity..|].
  change "k1" with (idempotency_key "i1" "s1" "send" ∅).
  apply (effect_at_most_once registry snd) with (tid := "t1") (pname := "mail") (w0 := w0)
    (p := mailer).
  - intros e w. apply on_fst_snd.
  - intros key fs w. apply on_fst_snd.
  - exact registered.
  - exact mailer_frame.
  - apply mailer_once.
  - exact w0_ok.
  - reflexivity.
  - apply not_elem_of_nil.
  - eapply rtc_l; [exact H1|]. apply rtc_once. exact H2.
Defined.


Lemma compensation_not_ok_is_recorded_done_witness :
  exists o w', compensate_row registry "i1" "t1" row1 (snd (send w0)) = (Ok o, w') /\
    ers_ok (eo_result o) = false /\ row_status w' "k1" "compensated".
Proof.
  destruct (compensation_not_ok_is_recorded_done registry registry_frames "i1" "t1" row1 mailer
              (snd (send w0)) (snd (send w0)) (sent false)) as (o & w' & H1 & H2 & H3).
  - apply w1_ok.
  - vm_compute. reflexivity.
  - vm_compute. reflexivity.
  - reflexivity.
  - reflexivity.
  - exists o, w'. rewrite H2. split_and!; [exact H1|reflexivity|exact H3].
Defined.
