(* ===== verification/Cost.v ===== *)
(** Cost control ([core/cost/]): token estimation, the model registry, budgets
    and the cost-aware router. *)

From stdpp Require Import base strings list gmap sorting.
From Stdlib Require Import ZArith Lia.
From S2P Require Import Prelude Exceptions Values Enums Definitions Instance Events Tables.

(** [str(value)] of a JSON-like container and [str(x)] of a float, whose text
    depends on dict order and on the shortest-decimal algorithm. *)
Class PyStr := { py_str : json -> string; py_float : float -> string }.

Module Cost.

(** ** Estimator *)

Definition _CHARS_PER_TOKEN : Z := 4.
Definition _PER_MESSAGE_OVERHEAD : Z := 4.

(** Floor division of a negated length: a ceiling. *)
Definition estimate_text_tokens (text : string) : Z :=
  - ((- Z.of_nat (String.length text)) / _CHARS_PER_TOKEN).

Section estimator.
Context `{PyStr}.

Definition str_of (v : json) : string := match v with JStr s => s | _ => py_str v end.

Definition TypeError (msg : string) : exn := Exn (PyExc "TypeError") msg.
Definition AttributeError (msg : string) : exn := Exn (PyExc "AttributeError") msg.

(** [estimate_text_tokens(str(block.get("text", block)))] *)
Definition block_tokens (total : Z) (block : json) : res Z :=
  match block with
  | JObj o => Ok (total + estimate_text_tokens (str_of (default block (o !! "text"))))%Z
  | _ => Err (AttributeError "no attribute 'get'")
  end.

Definition message_tokens (total : Z) (msg : dict) : res Z :=
  total ← match default (JStr "") (msg !! "content") with
          | JStr s => Ok (total + estimate_text_tokens s)%Z
          | JArr blocks => foldM block_tokens total blocks
          | JObj o => match map_to_list o with
                      | [] => Ok total
                      | _ => Err (AttributeError "no attribute 'get'")
                      end
          | _ => Err (TypeError "object is not iterable")
          end;
  Ok (total + _PER_MESSAGE_OVERHEAD)%Z.

Definition estimate_message_tokens (messages : list dict) (system : option string)
    (tools : option (list dict)) : res Z :=
  let total := if truthy_str system then estimate_text_tokens (default "" system) else 0%Z in
  total ← foldM message_tokens total messages;
  Ok (foldl (fun t tool => t + estimate_text_tokens (py_str (JObj tool)))%Z total
        (default [] tools)).
End estimator.

(** ** Registry *)

Record ModelConfig := {
  mc_key : string;
  mc_model_id : string;
  mc_provider : string;
  mc_input_per_mtok : float;
  mc_output_per_mtok : float;
  mc_context_window : Z;
  mc_max_output_tokens : Z;
  mc_avg_latency_ms : Z;
  mc_reliability_score : float;
  mc_supports_tools : bool;
  mc_supports_vision : bool;
  mc_tiers : list CostTier;
}.

(** [in / 1e6 * in_price + out / 1e6 * out_price] *)
Definition cost_usd (m : ModelConfig) (input_tokens output_tokens : Z) : float :=
  fadd (fmul (fratio input_tokens 1000000) (mc_input_per_mtok m))
       (fmul (fratio output_tokens 1000000) (mc_output_per_mtok m)).

(** [_models] in the order of the configuration file, and [_chains]. *)
Record ModelRegistry := {
  reg_models : list (string * ModelConfig);
  reg_chains : list (CostTier * list string);
}.

Definition get_model (r : ModelRegistry) (key : string) : res ModelConfig :=
  match list_find (fun p => p.1 = key) (reg_models r) with
  | Some (_, (_, m)) => Ok m
  | None => Err (Exn ConfigurationError ("unknown model " +:+ py_repr key))
  end.

Definition all_models (r : ModelRegistry) : list ModelConfig := (reg_models r).*2.

(** [sorted(l, key=key)] on float keys: stable, ascending.  (With a NaN key
    Python's result depends on the sort's internals.) *)
Fixpoint insert_by {A} (key : A -> float) (x : A) (l : list A) : list A :=
  match l with
  | [] => [x]
  | y :: l' => if fltb (key y) (key x) then y :: insert_by key x l' else x :: l
  end.

Definition sorted_by {A} (key : A -> float) (l : list A) : list A :=
  foldr (insert_by key) [] l.

Definition for_tier (r : ModelRegistry) (tier : CostTier) : list ModelConfig :=
  sorted_by (fun m => cost_usd m 1000000 1000000)
    (filter (fun m => tier ∈ mc_tiers m) (all_models r)).

Definition fallback_chain (r : ModelRegistry) (tier : CostTier) : list string :=
  match list_find (fun p => p.1 = tier) (reg_chains r) with
  | Some (_, (_, keys)) => keys
  | None => []
  end.

(** ** Budgets *)

Record BudgetView := {
  remaining_workflow_usd : option float;
  remaining_tenant_daily_usd : option float;
}.

Definition within (projected : float) (limit : option float) : bool :=
  match limit with None => true | Some l => fleb projected l end.

Definition allows (b : BudgetView) (projected : float) : bool :=
  within projected (remaining_workflow_usd b) && within projected (remaining_tenant_daily_usd b).

Definition tightest_remaining (b : BudgetView) : option float :=
  match remaining_workflow_usd b, remaining_tenant_daily_usd b with
  | Some x, Some y => Some (fmin x y)
  | Some x, None => Some x
  | None, o => o
  end.

(** The [BudgetLedger] protocol; days are day numbers. *)
Class BudgetLedger (W : Type) := {
  spent_today : string -> Z -> W -> float;
  record_amount : string -> Z -> float -> M W exn unit;
}.

(** The upsert of one amount; amounts that are not positive are ignored. *)
Definition bump (tenant_id : string) (day : Z) (amount : float)
    (m : gmap (string * Z) float) : gmap (string * Z) float :=
  if fleb amount fzero then m
  else <[(tenant_id, day) := match m !! (tenant_id, day) with
                             | Some v => fadd v amount
                             | None => amount
                             end]> m.

#[export] Instance PgBudgetLedger {C : Codec} : BudgetLedger DB := {|
  spent_today tenant day db := default fzero (db_ledger db !! (tenant, day));
  record_amount tenant day amount db :=
    (Ok tt, set_ledger (bump tenant day amount (db_ledger db)) db)
|}.

(** The in-memory ledger adds to [0.0] where Postgres inserts the amount. *)
#[export] Instance InMemoryBudgetLedger : BudgetLedger (gmap (string * Z) float) := {|
  spent_today tenant day m := default fzero (m !! (tenant, day));
  record_amount tenant day amount m :=
    (Ok tt, if fleb amount fzero then m
            else <[(tenant, day) := fadd (default fzero (m !! (tenant, day))) amount]> m)
|}.

Section budget_service.
Context {W : Type} `{BudgetLedger W} (daily_limit : option float).

Definition view (i : WorkflowInstance) (now : time) (w : W) : BudgetView := {|
  remaining_workflow_usd := remaining_budget_usd i;
  remaining_tenant_daily_usd :=
    match daily_limit with
    | None => None
    | Some limit => Some (fsub limit (spent_today (wi_tenant_id i) (date_of now) w))
    end |}.

Definition record_spend (tenant_id : string) (amount : float) (now : time) : M W exn unit :=
  record_amount tenant_id (date_of now) amount.
End budget_service.

(** ** Router *)

Record RouteRequest := {
  rr_cost_tier : CostTier;
  rr_task_type : string;
  rr_estimated_input_tokens : Z;
  rr_expected_output_tokens : Z;
  rr_needs_tools : bool;
  rr_needs_vision : bool;
  rr_reliability_floor : float;
  rr_max_latency_ms : option Z;
  rr_exclude : list string;
}.

Record RouteDecision := {
  rd_model_key : string;
  rd_model : ModelConfig;
  rd_projected_cost_usd : float;
  rd_projected_input_tokens : Z;
  rd_projected_output_tokens : Z;
  rd_fallback_chain : list string;
}.

(** The chain of [continue] conditions, negated. *)
Definition eligible (req : RouteRequest) (m : ModelConfig) : bool :=
  negb (bool_decide (mc_key m ∈ rr_exclude req)) &&
  negb (rr_needs_tools req && negb (mc_supports_tools m)) &&
  negb (rr_needs_vision req && negb (mc_supports_vision m)) &&
  negb (fltb (mc_reliability_score m) (rr_reliability_floor req)) &&
  match rr_max_latency_ms req with Some l => (mc_avg_latency_ms m <=? l)%Z | None => true end &&
  (rr_estimated_input_tokens req + rr_expected_output_tokens req <=? mc_context_window m)%Z &&
  (rr_expected_output_tokens req <=? mc_max_output_tokens m)%Z.

Definition _eligible (r : ModelRegistry) (req : RouteRequest) : list ModelConfig :=
  filter (fun m => eligible req m = true) (for_tier r (rr_cost_tier req)).

Definition py_bool (b : bool) : string := if b then "True" else "False".

Definition projected (req : RouteRequest) (m : ModelConfig) : float :=
  cost_usd m (rr_estimated_input_tokens req) (rr_expected_output_tokens req).

Definition select `{PyStr} (r : ModelRegistry) (req : RouteRequest) (budget : option BudgetView)
    : res RouteDecision :=
  match sorted_by (projected req) (_eligible r req) with
  | [] => Err (Exn NoEligibleModelError
            ("no model satisfies tier=" +:+ CostTier.value (rr_cost_tier req)
             +:+ " tools=" +:+ py_bool (rr_needs_tools req)
             +:+ " vision=" +:+ py_bool (rr_needs_vision req)
             +:+ " reliability>=" +:+ py_float (rr_reliability_floor req)))
  | m :: _ =>
      if match budget with Some b => negb (allows b (projected req m)) | None => false end then
        Err (Exn BudgetExceededError
          ("projected $" +:+ fmt_4f (projected req m) +:+ " for " +:+ mc_key m
           +:+ " exceeds remaining budget $"
           +:+ match budget with
               | Some b => match tightest_remaining b with Some t => fmt_4f t | None => "" end
               | None => "" end))
      else Ok {| rd_model_key := mc_key m;
                 rd_model := m;
                 rd_projected_cost_usd := projected req m;
                 rd_projected_input_tokens := rr_estimated_input_tokens req;
                 rd_projected_output_tokens := rr_expected_output_tokens req;
                 rd_fallback_chain :=
                   filter (fun k => k <> mc_key m /\ k ∉ rr_exclude req)
                     (fallback_chain r (rr_cost_tier req)) |}
  end.

(** ** Properties *)

Lemma estimate_text_tokens_ceil text :
  (Z.of_nat (String.length text) <= _CHARS_PER_TOKEN * estimate_text_tokens text
   < Z.of_nat (String.length text) + _CHARS_PER_TOKEN)%Z.
Proof.
  unfold estimate_text_tokens, _CHARS_PER_TOKEN.
  pose proof (Z.div_mod (- Z.of_nat (String.length text)) 4 ltac:(lia)).
  pose proof (Z.mod_pos_bound (- Z.of_nat (String.length text)) 4 ltac:(lia)). lia.
Qed.

Section sorted_by_lemmas.
Context {A : Type} (key : A -> float).

Lemma insert_by_Permutation x l : insert_by key x l ≡ₚ x :: l.
Proof.
  induction l as [|y l IH]; [done|]. cbn. destruct (fltb _ _); [|done].
  rewrite IH. apply Permutation_swap.
Qed.

Lemma sorted_by_Permutation l : sorted_by key l ≡ₚ l.
Proof. induction l as [|x l IH]; [done|]. cbn. by rewrite insert_by_Permutation, IH. Qed.

(** The head of the sorted list is a minimum. *)
Lemma sorted_by_head l x l' :
  Forall (fun y => is_nan (key y) = false) l -> sorted_by key l = x :: l' ->
  forall y, y ∈ l -> fleb (key x) (key y) = true.
Proof.
  intros Hnan. revert x l'. induction l as [|z l IH]; intros x l' Hs; [done|].
  apply Forall_cons in Hnan as [Hz Hnan].
  change (sorted_by key (z :: l)) with (insert_by key z (sorted_by key l)) in Hs.
  destruct (sorted_by key l) as [|h t] eqn:E.
  - cbn in Hs. injection Hs as <- <-.
    assert (l = []) as ->.
    { apply Permutation_nil_r. rewrite <- (sorted_by_Permutation l). by rewrite E. }
    intros y ->%list_elem_of_singleton. by apply fleb_refl.
  - assert (is_nan (key h) = false) as Hh.
    { rewrite Forall_forall in Hnan. apply Hnan. rewrite <- (sorted_by_Permutation l), E. left. }
    pose proof (IH Hnan h t eq_refl) as Hmin. cbn in Hs.
    destruct (fltb (key h) (key z)) eqn:Hlt; injection Hs as <- _; intros y [->|Hy]%elem_of_cons.
    + by apply fltb_fleb.
    + by apply Hmin.
    + by apply fleb_refl.
    + rewrite Forall_forall in Hnan.
      apply (fleb_trans _ (key h)); [done|done|by apply Hnan| |by apply Hmin].
      rewrite fltb_negb_fleb in Hlt by done. by destruct (fleb (key z) (key h)).
Qed.
End sorted_by_lemmas.

Lemma eligible_spec r req m :
  m ∈ _eligible r req <->
  (m ∈ all_models r) /\ (rr_cost_tier req ∈ mc_tiers m) /\ eligible req m = true.
Proof.
  unfold _eligible, for_tier. rewrite list_elem_of_filter.
  rewrite (sorted_by_Permutation (fun m => cost_usd m 1000000 1000000)), list_elem_of_filter.
  naive_solver.
Qed.

Section select_lemmas.
Context `{PyStr}.

Lemma within_mono x y l :
  is_nan x = false -> is_nan y = false -> match l with Some l => is_nan l = false | None => True end ->
  fleb x y = true -> within y l = true -> within x l = true.
Proof. intros Hx Hy Hl Hle. destruct l as [l|]; [|done]. cbn. by apply fleb_trans. Qed.

(** A budget view whose limits are numbers. *)
Definition budget_num (b : BudgetView) : Prop :=
  match remaining_workflow_usd b with Some l => is_nan l = false | None => True end /\
  match remaining_tenant_daily_usd b with Some l => is_nan l = false | None => True end.

(** C24: The router picks the cheapest capable model within budget, or refuses for
    a good reason.  A decision names a registered model of the tier that meets
    every requirement of the request, whose projected cost is minimal among all
    such models and within both budgets; [NoEligibleModelError] means no model
    qualifies, and [BudgetExceededError] means that no qualifying model at all
    fits the budget.  (Prices and budgets are numbers, not NaN.) *)
Theorem select_cheapest_within_budget r req budget :
  Forall (fun m => is_nan (projected req m) = false) (all_models r) ->
  match budget with Some b => budget_num b | None => True end ->
  match select r req budget with
  | Ok d =>
      rd_model d ∈ all_models r /\ (rr_cost_tier req ∈ mc_tiers (rd_model d)) /\
      eligible req (rd_model d) = true /\ rd_model_key d = mc_key (rd_model d) /\
      rd_projected_cost_usd d = projected req (rd_model d) /\
      (forall b, budget = Some b -> allows b (rd_projected_cost_usd d) = true) /\
      (forall m, m ∈ all_models r -> rr_cost_tier req ∈ mc_tiers m -> eligible req m = true ->
         fleb (rd_projected_cost_usd d) (projected req m) = true)
  | Err e =>
      (exn_cls e = NoEligibleModelError /\
       forall m, m ∈ all_models r -> rr_cost_tier req ∈ mc_tiers m -> eligible req m = false) \/
      (exn_cls e = BudgetExceededError /\ exists b, budget = Some b /\
       forall m, m ∈ all_models r -> rr_cost_tier req ∈ mc_tiers m -> eligible req m = true ->
         allows b (projected req m) = false)
  end.
Proof.
  intros Hnan Hbud. unfold select.
  destruct (sorted_by (projected req) (_eligible r req)) as [|m l] eqn:E.
  - left. split; [done|]. intros m Hm Ht. destruct (eligible req m) eqn:He; [|done].
    assert (m ∈ sorted_by (projected req) (_eligible r req)) as Hin
      by (rewrite sorted_by_Permutation; by apply eligible_spec).
    rewrite E in Hin. by apply not_elem_of_nil in Hin.
  - assert (m ∈ _eligible r req) as Hm
      by (rewrite <- (sorted_by_Permutation (projected req)), E; left).
    assert (forall m', m' ∈ _eligible r req -> is_nan (projected req m') = false) as Hn.
    { intros m' [Hin _]%eligible_spec. rewrite Forall_forall in Hnan. by apply Hnan. }
    assert (forall m', m' ∈ all_models r -> rr_cost_tier req ∈ mc_tiers m' ->
              eligible req m' = true -> fleb (projected req m) (projected req m') = true) as Hmin.
    { intros m' H1 H2 H3. eapply sorted_by_head; [|exact E|by apply eligible_spec].
      by apply Forall_forall. }
    pose proof (Hn m Hm) as Hnm. apply eligible_spec in Hm as (Hall & Ht & He).
    destruct budget as [b|]; [destruct (allows b (projected req m)) eqn:Ha|]; cbn.
    + split_and!; try done. by intros b' [= <-].
    + right. split; [done|]. exists b. split; [done|]. intros m' H1 H2 H3.
      destruct (allows b (projected req m')) eqn:Ha'; [|done].
      unfold allows in *. apply andb_true_iff in Ha' as [Hw Hd]. destruct Hbud as [Hb1 Hb2].
      assert (is_nan (projected req m') = false) as Hn' by (by apply Hn, eligible_spec).
      rewrite <- Ha. symmetry. apply andb_true_iff.
      split; eapply within_mono; [..|exact Hw| | | | |exact Hd]; eauto.
    + split_and!; try done.
Qed.
End select_lemmas.

End Cost.
