(* ===== verification/Observability.v ===== *)
(** Observability ([observability/], [logging.py]): the counters the engine feeds, the
    spans it opens, the ids it puts on log lines, and the one-time configuration.

    [prometheus_client], OpenTelemetry and structlog are parameters: what a counter
    does with an increment and what a tracer does with an exception that leaves a
    span are laws, from their documentation. *)

From stdpp Require Import base strings list gmap.
From Stdlib Require Import ZArith Lia Ascii SpecFloat.
From S2P Require Import Prelude Exceptions Values Text Definitions Config Cost.

Import Config.

(** ** Metrics *)

(** A series of a metric: its name and the values of its labels, in order. *)
Abbreviation series := (string * list string)%type.

(** [prometheus_client]: [Counter.inc], [Histogram.observe], [Gauge.set]. *)
Class Prometheus (R : Type) := {
  counter_inc : series -> float -> M R exn unit;
  histogram_observe : series -> float -> M R exn unit;
  gauge_set : series -> float -> M R exn unit;
}.

Module Metrics.

Definition _STEP_BUCKETS : list float :=
  [fratio 5 100; fratio 1 10; fratio 25 100; fratio 5 10; fone; float_of_Z 2; float_of_Z 5;
   float_of_Z 10; float_of_Z 30; float_of_Z 60; float_of_Z 120; float_of_Z 300].
Definition _COST_BUCKETS : list float :=
  [fratio 1 10000; fratio 1 1000; fratio 5 1000; fratio 1 100; fratio 5 100; fratio 1 10;
   fratio 5 10; fone; float_of_Z 5].

Inductive kind := Counter | Gauge | Histogram (buckets : list float).

Record Metric := {
  mt_name : string;
  mt_help : string;
  mt_kind : kind;
  mt_labels : list string;
}.

(** The metric objects. *)
Definition STEPS_TOTAL : Metric := {|
  mt_name := "agentforge_steps_total"; mt_help := "Step attempts by agent type and outcome.";
  mt_kind := Counter; mt_labels := ["agent_type"; "outcome"] |}.
Definition STEP_DURATION : Metric := {|
  mt_name := "agentforge_step_duration_seconds"; mt_help := "Wall time of a step attempt.";
  mt_kind := Histogram _STEP_BUCKETS; mt_labels := ["agent_type"] |}.
Definition DRIVES_TOTAL : Metric := {|
  mt_name := "agentforge_workflow_drives_total"; mt_help := "Completed driver passes by result.";
  mt_kind := Counter; mt_labels := ["result"] |}.
Definition LLM_REQUESTS_TOTAL : Metric := {|
  mt_name := "agentforge_llm_requests_total"; mt_help := "LLM provider calls by model and outcome.";
  mt_kind := Counter; mt_labels := ["model"; "outcome"] |}.
Definition LLM_TOKENS_TOTAL : Metric := {|
  mt_name := "agentforge_llm_tokens_total"; mt_help := "Tokens billed by model and direction.";
  mt_kind := Counter; mt_labels := ["model"; "direction"] |}.
Definition LLM_COST_USD_TOTAL : Metric := {|
  mt_name := "agentforge_llm_cost_usd_total"; mt_help := "Estimated LLM spend in USD by model.";
  mt_kind := Counter; mt_labels := ["model"] |}.
Definition LLM_COST_USD : Metric := {|
  mt_name := "agentforge_llm_call_cost_usd"; mt_help := "Per-call LLM cost in USD.";
  mt_kind := Histogram _COST_BUCKETS; mt_labels := [] |}.
Definition SIDE_EFFECTS_TOTAL : Metric := {|
  mt_name := "agentforge_side_effects_total"; mt_help := "Side effects by name, guarantee, and outcome.";
  mt_kind := Counter; mt_labels := ["effect"; "guarantee"; "outcome"] |}.
Definition ESCALATIONS_TOTAL : Metric := {|
  mt_name := "agentforge_escalations_total"; mt_help := "Escalations raised by reason.";
  mt_kind := Counter; mt_labels := ["reason"] |}.
Definition DEAD_LETTERS_TOTAL : Metric := {|
  mt_name := "agentforge_dead_letters_total"; mt_help := "Instances sent to the dead-letter queue.";
  mt_kind := Counter; mt_labels := [] |}.
Definition BUDGET_REFUSALS_TOTAL : Metric := {|
  mt_name := "agentforge_budget_refusals_total"; mt_help := "Pre-flight budget refusals by scope.";
  mt_kind := Counter; mt_labels := ["scope"] |}.
Definition ACTIVE_LEASES : Metric := {|
  mt_name := "agentforge_active_leases"; mt_help := "Instances currently leased by this worker.";
  mt_kind := Gauge; mt_labels := ["worker_id"] |}.

(** [metric.labels(...)] *)
Definition labels (m : Metric) (values : list string) : series := (mt_name m, values).

Section record.
Context {R : Type} {Pr : Prometheus R}.

Definition inc (s : series) : M R exn unit := counter_inc s fone.

Definition record_step (agent_type outcome : string) (duration_seconds : float) : M R exn unit :=
  _ ← inc (labels STEPS_TOTAL [agent_type; outcome]);
  histogram_observe (labels STEP_DURATION [agent_type]) (fmax duration_seconds fzero).

Definition record_drive (result : string) : M R exn unit := inc (labels DRIVES_TOTAL [result]).

(** [if tokens_in:] and [if cost_usd:] skip zeros. *)
Definition record_llm (model outcome : string) (tokens_in tokens_out : Z) (cost_usd : float)
    : M R exn unit :=
  _ ← inc (labels LLM_REQUESTS_TOTAL [model; outcome]);
  _ ← (if truthy (JInt tokens_in)
       then counter_inc (labels LLM_TOKENS_TOTAL [model; "input"]) (float_of_Z tokens_in)
       else mret tt);
  _ ← (if truthy (JInt tokens_out)
       then counter_inc (labels LLM_TOKENS_TOTAL [model; "output"]) (float_of_Z tokens_out)
       else mret tt);
  if truthy (JFloat cost_usd)
  then _ ← counter_inc (labels LLM_COST_USD_TOTAL [model]) cost_usd;
       histogram_observe (labels LLM_COST_USD []) cost_usd
  else mret tt.

Definition record_side_effect (effect guarantee outcome : string) : M R exn unit :=
  inc (labels SIDE_EFFECTS_TOTAL [effect; guarantee; outcome]).

Definition record_escalation (reason : string) : M R exn unit :=
  inc (labels ESCALATIONS_TOTAL [reason]).

Definition record_dead_letter : M R exn unit := inc (labels DEAD_LETTERS_TOTAL []).

Definition record_budget_refusal (scope : string) : M R exn unit :=
  inc (labels BUDGET_REFUSALS_TOTAL [scope]).

Definition set_active_leases (worker_id : string) (count : Z) : M R exn unit :=
  gauge_set (labels ACTIVE_LEASES [worker_id]) (float_of_Z count).
End record.

(** *** What recording does

    A counter accepts what is not negative and adds it; it refuses the rest with
    [ValueError].  Histograms and gauges accept anything and are no counters. *)
Class PrometheusLaws (R : Type) `{Prometheus R} := {
  counter : R -> series -> float;
  counter_inc_law s x r : fltb x fzero = false ->
    exists r', counter_inc s x r = (Ok tt, r') /\
      forall s', counter r' s' = if bool_decide (s' = s) then fadd (counter r s) x else counter r s';
  counter_refuses_law s x r : fltb x fzero = true ->
    exists msg, counter_inc s x r = (Err (Exn (PyExc "ValueError") msg), r);
  observe_law s x r :
    exists r', histogram_observe s x r = (Ok tt, r') /\ forall s', counter r' s' = counter r s';
  gauge_law s x r :
    exists r', gauge_set s x r = (Ok tt, r') /\ forall s', counter r' s' = counter r s';
}.

Lemma float_of_Z_nonneg z : (0 <= z)%Z -> fltb (float_of_Z z) fzero = false.
Proof.
  intros Hz. destruct z as [|p|p]; [done| |lia]. unfold float_of_Z, fratio, fdiv, SFdiv.
  destruct (SFdiv_core_binary _ _ _ _ _ _) as [[m e] l]. unfold binary_round_aux. cbv zeta.
  repeat case_match; done.
Qed.

Section laws.
Context {R : Type} {Pr : Prometheus R} {Pl : PrometheusLaws R}.

(** The counter after an increment. *)
Definition bumped (s : series) (x : float) (f : series -> float) (s' : series) : float :=
  if bool_decide (s' = s) then fadd (f s) x else f s'.

(** [m] returns, having done to the counters what [g] says. *)
Definition counts (m : M R exn unit) (g : (series -> float) -> series -> float) : Prop :=
  forall r, exists r', m r = (Ok tt, r') /\ forall s, counter r' s = g (counter r) s.

Lemma counts_ret : counts (mret tt) id.
Proof. intros r. by exists r. Qed.

Lemma counts_inc s x : fltb x fzero = false -> counts (counter_inc s x) (bumped s x).
Proof. intros Hx r. apply (counter_inc_law s x r Hx). Qed.

Lemma counts_observe s x : counts (histogram_observe s x) id.
Proof. intros r. apply (observe_law s x r). Qed.

Lemma counts_bind m1 m2 g1 g2 :
  (forall f f', (forall s, f s = f' s) -> forall s, g2 f s = g2 f' s) ->
  counts m1 g1 -> counts m2 g2 -> counts (_ ← m1; m2) (fun f => g2 (g1 f)).
Proof.
  intros Hp H1 H2 r. destruct (H1 r) as (r1 & E1 & C1), (H2 r1) as (r2 & E2 & C2).
  exists r2. split; [by rewrite (M_bind_step _ _ _ _ _ E1)|]. intros s. rewrite C2. by apply Hp.
Qed.

Lemma bumped_ext s x f f' : (forall t, f t = f' t) -> forall t, bumped s x f t = bumped s x f' t.
Proof. intros H t. unfold bumped. by rewrite !H. Qed.

Definition bumped_if (b : bool) (s : series) (x : float) (f : series -> float) : series -> float :=
  if b then bumped s x f else f.

Lemma bumped_if_ext b s x f f' :
  (forall t, f t = f' t) -> forall t, bumped_if b s x f t = bumped_if b s x f' t.
Proof. intros H. destruct b; [by apply bumped_ext|exact H]. Qed.

Lemma counts_if (b : bool) s x : fltb x fzero = false ->
  counts (if b then counter_inc s x else mret tt) (bumped_if b s x).
Proof. intros Hx. destruct b; [by apply counts_inc|apply counts_ret]. Qed.

(** Recording a step attempt never fails, whatever the clock did. *)
Lemma record_step_counts agent_type outcome d :
  counts (record_step agent_type outcome d) (bumped (labels STEPS_TOTAL [agent_type; outcome]) fone).
Proof.
  unfold record_step. apply (counts_bind _ _ _ id); [done|by apply counts_inc|apply counts_observe].
Qed.

(** [record_llm] is "always safe to call" when nothing is negative: it counts the
    request and adds what was billed, skipping what is zero. *)
Lemma record_llm_counts model outcome tin tout cost :
  (0 <= tin)%Z -> (0 <= tout)%Z -> fltb cost fzero = false ->
  counts (record_llm model outcome tin tout cost) (fun f =>
    bumped_if (truthy (JFloat cost)) (labels LLM_COST_USD_TOTAL [model]) cost
    (bumped_if (truthy (JInt tout)) (labels LLM_TOKENS_TOTAL [model; "output"]) (float_of_Z tout)
    (bumped_if (truthy (JInt tin)) (labels LLM_TOKENS_TOTAL [model; "input"]) (float_of_Z tin)
    (bumped (labels LLM_REQUESTS_TOTAL [model; outcome]) fone f)))).
Proof.
  intros Hi Ho Hc. unfold record_llm.
  eapply (counts_bind _ _ (bumped _ _) (fun f => bumped_if _ _ _ (bumped_if _ _ _ (bumped_if _ _ _ f))));
    [intros f f' H; by repeat apply bumped_if_ext|by apply counts_inc|].
  eapply (counts_bind _ _ (bumped_if _ _ _) (fun f => bumped_if _ _ _ (bumped_if _ _ _ f)));
    [intros f f' H; by repeat apply bumped_if_ext|by apply counts_if, float_of_Z_nonneg|].
  eapply (counts_bind _ _ (bumped_if _ _ _) (bumped_if _ _ _));
    [intros f f' H; by apply bumped_if_ext|by apply counts_if, float_of_Z_nonneg|].
  unfold bumped_if. destruct (truthy (JFloat cost)); [|apply counts_ret].
  apply (counts_bind _ _ _ id); [done|by apply counts_inc|apply counts_observe].
Qed.

(** A negative cost is refused, after the request and its tokens were counted. *)
Lemma record_llm_negative model outcome cost r :
  fltb cost fzero = true ->
  exists msg r', record_llm model outcome 0 0 cost r = (Err (Exn (PyExc "ValueError") msg), r') /\
    forall s, counter r' s = bumped (labels LLM_REQUESTS_TOTAL [model; outcome]) fone (counter r) s.
Proof.
  intros Hc. destruct (counter_inc_law (labels LLM_REQUESTS_TOTAL [model; outcome]) fone r)
    as (r1 & E1 & C1); [done|].
  destruct (counter_refuses_law (labels LLM_COST_USD_TOTAL [model]) cost r1 Hc) as (msg & E2).
  exists msg, r1. split; [|done]. unfold record_llm, inc. rewrite (M_bind_step _ _ _ _ _ E1).
  assert (truthy (JFloat cost) = true) as -> by (destruct cost as [[]|[]| |]; done).
  cbn. unfold mbind, M_bind. cbn. by rewrite E2.
Qed.
End laws.
End Metrics.

(** A registry that keeps its counters in a map. *)
Module CounterMap.
#[export] Instance prometheus : Prometheus (gmap series float) := {|
  counter_inc s x r :=
    if fltb x fzero
    then (Err (Exn (PyExc "ValueError") "Counters can only be incremented by non-negative amounts."), r)
    else (Ok tt, <[s := fadd (default fzero (r !! s)) x]> r);
  histogram_observe s x r := (Ok tt, r);
  gauge_set s x r := (Ok tt, r) |}.

#[export] Instance prometheus_laws : Metrics.PrometheusLaws (gmap series float).
Proof.
  refine {| Metrics.counter r s := default fzero (r !! s) |}.
  - intros s x r Hx. cbn. rewrite Hx. eexists. split; [done|]. intros s'. cbn.
    case_bool_decide as Hs; [subst; by rewrite lookup_insert_eq|by rewrite lookup_insert_ne].
  - intros s x r Hx. cbn. rewrite Hx. by eexists.
  - intros s x r. by exists r.
  - intros s x r. by exists r.
Defined.

Example record_llm_ex :
  let r := snd (Metrics.record_llm "m" "ok" 10 0 (fratio 1 4) ∅) in
  r !! ("agentforge_llm_requests_total", ["m"; "ok"]) = Some fone /\
  r !! ("agentforge_llm_tokens_total", ["m"; "input"]) = Some (float_of_Z 10) /\
  r !! ("agentforge_llm_tokens_total", ["m"; "output"]) = None /\
  r !! ("agentforge_llm_cost_usd_total", ["m"]) = Some (fratio 1 4).
Proof. split_and!; vm_compute; reflexivity. Qed.
End CounterMap.

(** ** Tracing *)

(** OpenTelemetry: spans are numbers, and the world knows what each has recorded. *)
Class Otel (W : Type) := {
  start_as_current_span : forall {A}, string -> (nat -> M W exn A) -> M W exn A;
  set_attribute : nat -> string -> json -> M W exn unit;
  record_exception : nat -> exn -> M W exn unit;
  set_error_status : nat -> string -> M W exn unit;
  get_current_span : W -> nat;
}.

Module Tracing.

(** *** Attributes and spans *)
Section span.
Context {Ps : PyStr} {W : Type} {Ot : Otel W}.

(** [value if isinstance(value, str | bool | int | float) else str(value)] *)
Definition clean (value : json) : json :=
  match value with
  | JStr _ | JBool _ | JInt _ | JFloat _ => value
  | _ => JStr (py_str value)
  end.

Fixpoint _set_attrs (target : nat) (attributes : list (string * json)) : M W exn unit :=
  match attributes with
  | [] => mret tt
  | (_, JNull) :: attributes => _set_attrs target attributes
  | (key, value) :: attributes =>
      _ ← set_attribute target key (clean value);
      _set_attrs target attributes
  end.

Definition span {A} (name : string) (attributes : list (string * json)) (body : nat -> M W exn A)
    : M W exn A :=
  start_as_current_span name (fun current =>
    _ ← _set_attrs current attributes;
    try_except (body current) is_Exception (fun exc =>
      _ ← record_exception current exc;
      _ ← set_error_status current (exn_msg exc);
      raise exc)).

Definition set_span_attributes (attributes : list (string * json)) : M W exn unit :=
  current ← gets get_current_span;
  _set_attrs current attributes.

(** What the tracer documents: attributes, statuses and records never fail and change
    nothing else of what spans have recorded; a span that is started has recorded
    nothing; and, by the default [record_exception=True], an exception that leaves
    the block is recorded on the span before it goes on. *)
Class OtelLaws := {
  recorded : W -> nat -> list exn;
  attribute_law sp k v w :
    exists w', set_attribute sp k v w = (Ok tt, w') /\ recorded w' = recorded w;
  status_law sp msg w :
    exists w', set_error_status sp msg w = (Ok tt, w') /\ recorded w' = recorded w;
  record_law sp e w :
    exists w', record_exception sp e w = (Ok tt, w') /\ recorded w' sp = recorded w sp ++ [e];
  start_law A name (k : nat -> M W exn A) w :
    exists sp w0, recorded w0 sp = [] /\
      (fst (start_as_current_span name k w) = fst (k sp w0)) /\
      recorded (snd (start_as_current_span name k w)) sp =
        recorded (snd (k sp w0)) sp ++
          match fst (k sp w0) with Err e => if is_Exception e then [e] else [] | Ok _ => [] end;
}.
Context {Ol : OtelLaws}.

Lemma set_attrs_quiet sp attrs w :
  exists w', _set_attrs sp attrs w = (Ok tt, w') /\ recorded w' = recorded w.
Proof.
  revert w. induction attrs as [|[k v] attrs IH]; intros w; [by exists w|].
  destruct (attribute_law sp k (clean v) w) as (w1 & E1 & R1).
  destruct (IH w1) as (w2 & E2 & R2).
  destruct v; [apply IH|..]; cbn [_set_attrs]; rewrite (M_bind_step _ _ _ _ _ E1);
    exists w2; (split; [exact E2|by rewrite R2, R1]).
Qed.

(** A span is transparent, and an exception of its body is recorded twice on it: by
    the handler, and by the tracer as the handler raises it again. *)
Lemma span_records_twice A name attrs (body : nat -> M W exn A) w :
  (forall sp w, recorded (snd (body sp w)) sp = recorded w sp) ->
  exists sp w1, fst (span name attrs body w) = fst (body sp w1) /\
    recorded (snd (span name attrs body w)) sp =
      match fst (body sp w1) with
      | Err e => if is_Exception e then [e; e] else []
      | Ok _ => []
      end.
Proof.
  intros Hb. unfold span.
  match goal with |- context [start_as_current_span name ?k w] =>
    destruct (start_law A name k w) as (sp & w0 & H0 & Hr & Hrec) end.
  destruct (set_attrs_quiet sp attrs w0) as (w1 & E1 & R1).
  exists sp, w1. rewrite Hr, Hrec. rewrite (M_bind_step _ _ _ _ _ E1).
  specialize (Hb sp w1). rewrite R1, H0 in Hb. unfold try_except, try_catch.
  destruct (body sp w1) as [[a|e] w2]; cbn in Hb |- *; [by rewrite Hb|].
  destruct (is_Exception e) eqn:He; cbn; [|by rewrite He, Hb].
  destruct (record_law sp e w2) as (w3 & E3 & R3).
  destruct (status_law sp (exn_msg e) w3) as (w4 & E4 & R4).
  rewrite (M_bind_step _ _ _ _ _ E3), (M_bind_step _ _ _ _ _ E4). cbn.
  by rewrite He, R4, R3, Hb.
Qed.
End span.

(** *** Configuration *)

Inductive processor := Otlp (endpoint : string) | Extra (name : string).

(** The process: the SDK provider installed, if any, with its service name,
    environment and processors, and [_configured]. *)
Record state := {
  tr_provider : option (string * string * list processor);
  tr_configured : bool;
}.

Definition configure_tracing (settings : Settings) (extra_processor : option processor) (st : state)
    : state :=
  let '(name, env, ps) := default (otel_service_name settings, environment settings, [])
                            (tr_provider st) in
  let ps := if tr_configured st then ps
            else if truthy_str (otel_exporter_otlp_endpoint settings)
                 then ps ++ [Otlp (default "" (otel_exporter_otlp_endpoint settings))]
                 else ps in
  {| tr_provider := Some (name, env, match extra_processor with Some p => ps ++ [p] | None => ps end);
     tr_configured := true |}.

Definition fresh : state := {| tr_provider := None; tr_configured := false |}.

(** [_reset_for_tests] *)
Definition _reset_for_tests (st : state) : state :=
  {| tr_provider := tr_provider st; tr_configured := false |}.

(** Configuring again, even with other settings, adds only the extra processor. *)
Lemma configure_tracing_idempotent s s' extra st :
  let st1 := configure_tracing s extra st in
  configure_tracing s' None st1 = st1 /\
  exists name env ps, tr_provider st1 = Some (name, env, ps) /\
    forall p, tr_provider (configure_tracing s' (Some p) st1) = Some (name, env, ps ++ [p]).
Proof.
  unfold configure_tracing. destruct (default _ (tr_provider st)) as [[name env] ps]. cbn.
  split; [done|]. by eexists _, _, _.
Qed.
End Tracing.

(** A tracer that numbers its spans and keeps what each has recorded. *)
Module SpanLog.
Definition world : Type := nat * (nat -> list exn).

Definition note (sp : nat) (e : exn) (w : world) : world :=
  (w.1, fun n => if (n =? sp)%nat then w.2 n ++ [e] else w.2 n).

#[export] Instance otel : Otel world := {|
  start_as_current_span A name k w :=
    let '(r, w1) := k w.1 (S w.1, fun n => if (n =? w.1)%nat then [] else w.2 n) in
    (r, match r with Err e => if is_Exception e then note w.1 e w1 else w1 | Ok _ => w1 end);
  set_attribute sp k v w := (Ok tt, w);
  record_exception sp e w := (Ok tt, note sp e w);
  set_error_status sp msg w := (Ok tt, w);
  get_current_span w := pred w.1 |}.

#[export] Instance otel_laws : Tracing.OtelLaws (W := world).
Proof.
  refine {| Tracing.recorded w := w.2 |}.
  - intros sp k v w. by exists w.
  - intros sp msg w. by exists w.
  - intros sp e w. exists (note sp e w). split; [done|]. cbn. by rewrite Nat.eqb_refl.
  - intros A name k w. exists w.1, (S w.1, fun n => if (n =? w.1)%nat then [] else w.2 n).
    cbn. rewrite Nat.eqb_refl. split; [done|]. destruct (k _ _) as [[a|e] w1]; cbn.
    + split; [done|by rewrite app_nil_r].
    + split; [done|]. destruct (is_Exception e); cbn; [by rewrite Nat.eqb_refl|by rewrite app_nil_r].
Defined.
End SpanLog.

(** ** Logging *)
Module Logging.

(** [f"{n:0{width}x}"] of a number below [16 ** width] *)
Fixpoint hex_pad (width : nat) (n : Z) : string :=
  match width with
  | O => ""
  | S width => hex_pad width (n / 16) +:+ String (hex_digit (Z.to_nat (n mod 16))) ""
  end.

(** The span context: its ids, if it is valid. *)
Abbreviation span_context := (option (Z * Z)).

(** [event_dict.setdefault(key, value)] *)
Definition setdefault (key : string) (value : json) (d : dict) : dict :=
  match d !! key with Some _ => d | None => <[key := value]> d end.

Definition _add_trace_context (ctx : span_context) (event_dict : dict) : dict :=
  match ctx with
  | Some (trace_id, span_id) =>
      setdefault "span_id" (JStr (hex_pad 16 span_id))
        (setdefault "trace_id" (JStr (hex_pad 32 trace_id)) event_dict)
  | None => event_dict
  end.

Inductive renderer := JSONRenderer | ConsoleRenderer.

(** [configure_logging]: the level and the renderer of the first call are kept
    ([_configured]). *)
Definition configure_logging (settings : Settings) (configured : option (string * renderer))
    : option (string * renderer) :=
  match configured with
  | Some c => Some c
  | None => Some (log_level settings, if log_json settings then JSONRenderer else ConsoleRenderer)
  end.

(** [configure_observability] ([observability/__init__.py]) *)
Definition configure_observability (settings : Settings)
    (p : option (string * renderer) * Tracing.state) : option (string * renderer) * Tracing.state :=
  (configure_logging settings p.1, Tracing.configure_tracing settings None p.2).

(** Configuring twice is configuring once. *)
Lemma configure_observability_idempotent s s' p :
  configure_observability s' (configure_observability s p) = configure_observability s p.
Proof.
  unfold configure_observability. cbn. f_equal; [by destruct p as [[c|] ?]|].
  apply (Tracing.configure_tracing_idempotent s s' None).
Qed.

Lemma append_char_inj s t a b :
  String.length s = String.length t ->
  (s +:+ String a "")%string = (t +:+ String b "")%string -> s = t /\ a = b.
Proof.
  revert t. induction s as [|c s IH]; intros [|d t] Hl; cbn; try discriminate Hl.
  - by intros [= ->].
  - intros [= -> H]. injection Hl as Hl. by destruct (IH t Hl H) as [-> ->].
Qed.

Lemma hex_digit_inj n m : n < 16 -> m < 16 -> hex_digit n = hex_digit m -> n = m.
Proof.
  intros Hn Hm H.
  assert (forallb (fun n => forallb (fun m => negb (Ascii.eqb (hex_digit n) (hex_digit m)) ||
    (n =? m)%nat) (seq 0 16)) (seq 0 16) = true) as Hall by (vm_compute; reflexivity).
  rewrite forallb_forall in Hall. specialize (Hall n (proj2 (in_seq 16 0 n) ltac:(lia))).
  rewrite forallb_forall in Hall. specialize (Hall m (proj2 (in_seq 16 0 m) ltac:(lia))).
  rewrite H, Ascii.eqb_refl in Hall. by apply Nat.eqb_eq.
Qed.

Lemma hex_pad_length width n : String.length (hex_pad width n) = width.
Proof.
  assert (forall s c, String.length (s +:+ String c "") = S (String.length s)) as Hs
    by (intros s c; induction s as [|a s IH]; [done|exact (f_equal S IH)]).
  revert n. induction width as [|width IH]; intros n; [done|]. cbn [hex_pad]. by rewrite Hs, IH.
Qed.

(** Distinct ids have distinct texts. *)
Lemma hex_pad_inj width n m :
  (0 <= n < 16 ^ Z.of_nat width)%Z -> (0 <= m < 16 ^ Z.of_nat width)%Z ->
  hex_pad width n = hex_pad width m -> n = m.
Proof.
  revert n m. induction width as [|width IH]; intros n m Hn Hm; [cbn in *; lia|].
  rewrite Nat2Z.inj_succ, Z.pow_succ_r in Hn, Hm by lia. cbn [hex_pad]. intros H.
  apply append_char_inj in H as [H1 H2]; [|by rewrite !hex_pad_length].
  apply IH in H1; [|split; [apply Z.div_pos; lia|apply Z.div_lt_upper_bound; lia]..].
  apply hex_digit_inj in H2; [|apply Nat2Z.inj_lt; rewrite Z2Nat.id; apply Z.mod_pos_bound; lia..].
  apply Z2Nat.inj in H2; [|apply Z.mod_pos_bound; lia..].
  rewrite (Z.div_mod n 16), (Z.div_mod m 16) by lia. lia.
Qed.

(** A log line keeps the ids it already has, gets those of the active span
    otherwise, and nothing else of it changes. *)
Lemma trace_context_spec t s d key :
  _add_trace_context (Some (t, s)) d !! key =
    match d !! key with
    | Some v => Some v
    | None => if bool_decide (key = "trace_id") then Some (JStr (hex_pad 32 t))
              else if bool_decide (key = "span_id") then Some (JStr (hex_pad 16 s)) else None
    end.
Proof.
  unfold _add_trace_context.
  assert (forall k v (e : dict), setdefault k v e !! key =
    match e !! key with Some x => Some x | None => if bool_decide (key = k) then Some v else None end)
    as Hs.
  { intros k v e. unfold setdefault. destruct (e !! k) as [x|] eqn:E.
    - destruct (e !! key) eqn:Ek; [done|]. rewrite bool_decide_false; [done|]. by intros ->; congruence.
    - case_bool_decide as Hk; [subst; by rewrite lookup_insert_eq, E|].
      rewrite lookup_insert_ne by done. by destruct (e !! key). }
  rewrite !Hs. destruct (d !! key); [done|]. by destruct (bool_decide (key = "trace_id")).
Qed.
End Logging.
