(* ===== verification/LlmClient.v ===== *)
(** The LLM client ([core/llm_client.py]) and the provider surface
    ([integrations/llm/base.py]): route, call, and walk the fallback chain on a
    retryable failure. *)

From stdpp Require Import base strings list gmap.
From Stdlib Require Import ZArith Lia.
From S2P Require Import Prelude Exceptions Values Enums Definitions Instance Events Tables Cost.

Module Llm.
Import Cost.

Record LLMMessage := { msg_role : string; msg_content : string }.

Record LLMRequest := {
  lrq_model_id : string;
  lrq_messages : list LLMMessage;
  lrq_system : option string;
  lrq_tools : list dict;
  lrq_max_tokens : Z;
  lrq_stop : list string;
}.

Record ToolCall := { tc_id : string; tc_name : string; tc_arguments : dict }.

Record LLMResponse := {
  lr_model_id : string;
  lr_text : string;
  lr_tool_calls : list ToolCall;
  lr_tokens_input : Z;
  lr_tokens_output : Z;
  lr_stop_reason : option string;
  lr_raw : dict;
}.

(** [provider.complete] by provider name. *)
Abbreviation LLMProviderRegistry W := (gmap string (LLMRequest -> M W exn LLMResponse)).

(** [register]: [name] is the provider's own. *)
Definition register_llm_provider {W} (name : string) (provider : LLMRequest -> M W exn LLMResponse)
    (reg : LLMProviderRegistry W) : LLMProviderRegistry W := <[name := provider]> reg.

Definition has_llm_provider {W} (reg : LLMProviderRegistry W) (name : string) : bool :=
  bool_decide (is_Some (reg !! name)).

Definition get_llm_provider {W} (reg : LLMProviderRegistry W) (name : string)
    : res (LLMRequest -> M W exn LLMResponse) :=
  match reg !! name with
  | Some p => Ok p
  | None => Err (Exn ConfigurationError ("no LLM provider registered as " +:+ py_repr name))
  end.

(** [_RETRYABLE_LLM] *)
Definition retryable_llm (e : exn) : bool :=
  isinstance e LLMTimeoutError || isinstance e RateLimitError || isinstance e MalformedOutputError.

Record LLMCompletion := {
  cp_response : LLMResponse;
  cp_decision : RouteDecision;
  cp_cost_usd : float;
  cp_models_tried : list string;
}.

(** The arguments of [complete]. *)
Record CompleteArgs := {
  ca_messages : list LLMMessage;
  ca_system : option string;
  ca_tools : option (list dict);
  ca_max_tokens : Z;
  ca_tier : CostTier;
  ca_task_type : string;
  ca_needs_vision : bool;
  ca_reliability_floor : float;
  ca_expected_output_tokens : option Z;
  ca_budget : option BudgetView;
}.

Section client.
Context `{PyStr} {W : Type}.
Context (registry : ModelRegistry) (providers : LLMProviderRegistry W).

Definition message_dict (m : LLMMessage) : dict :=
  <["role" := JStr (msg_role m)]> {[ "content" := JStr (msg_content m) ]}.

(** [expected_output_tokens or min(max_tokens, 1024)] *)
Definition expected_output (a : CompleteArgs) : Z :=
  match ca_expected_output_tokens a with
  | Some n => if (n =? 0)%Z then Z.min (ca_max_tokens a) 1024 else n
  | None => Z.min (ca_max_tokens a) 1024
  end.

Definition route_request (a : CompleteArgs) (est_input : Z) : RouteRequest := {|
  rr_cost_tier := ca_tier a;
  rr_task_type := ca_task_type a;
  rr_estimated_input_tokens := est_input;
  rr_expected_output_tokens := expected_output a;
  rr_needs_tools := match ca_tools a with Some (_ :: _) => true | _ => false end;
  rr_needs_vision := ca_needs_vision a;
  rr_reliability_floor := ca_reliability_floor a;
  rr_max_latency_ms := None;
  rr_exclude := [] |}.

Definition llm_request (a : CompleteArgs) (m : ModelConfig) : LLMRequest := {|
  lrq_model_id := mc_model_id m;
  lrq_messages := ca_messages a;
  lrq_system := ca_system a;
  lrq_tools := default [] (ca_tools a);
  lrq_max_tokens := ca_max_tokens a;
  lrq_stop := [] |}.

(** The [for model_key in chain] loop, with [tried] and [last_exc]. *)
Fixpoint try_chain (a : CompleteArgs) (decision : RouteDecision) (chain tried : list string)
    (last_exc : option exn) : M W exn LLMCompletion :=
  match chain with
  | [] => raise (default (Exn LLMError "every model in the fallback chain failed") last_exc)
  | model_key :: rest =>
      model ← lift (get_model registry model_key);
      provider ← lift (get_llm_provider providers (mc_provider model));
      attempt ← observe (provider (llm_request a model));
      match attempt with
      | Ok resp =>
          mret {| cp_response := resp;
                  cp_decision := decision;
                  cp_cost_usd := cost_usd model (lr_tokens_input resp) (lr_tokens_output resp);
                  cp_models_tried := tried ++ [model_key] |}
      | Err e =>
          if retryable_llm e then try_chain a decision rest (tried ++ [model_key]) (Some e)
          else raise e
      end
  end.

Definition complete (a : CompleteArgs) : M W exn LLMCompletion :=
  est_input ← lift (estimate_message_tokens (message_dict <$> ca_messages a)
                      (ca_system a) (ca_tools a));
  decision ← lift (select registry (route_request a est_input) (ca_budget a));
  try_chain a decision (rd_model_key decision :: rd_fallback_chain decision) [] None.

(** ** Properties *)

Lemma try_chain_ok a d chain tried last w c w' :
  try_chain a d chain tried last w = (Ok c, w') ->
  exists pre key post model provider w1,
    chain = pre ++ key :: post /\ cp_models_tried c = tried ++ pre ++ [key] /\
    get_model registry key = Ok model /\
    providers !! mc_provider model = Some provider /\
    provider (llm_request a model) w1 = (Ok (cp_response c), w') /\
    cp_decision c = d /\
    cp_cost_usd c = cost_usd model (lr_tokens_input (cp_response c))
                      (lr_tokens_output (cp_response c)).
Proof.
  revert tried last w. induction chain as [|key chain IH]; intros tried last w; [done|].
  cbn [try_chain]. unfold mbind at 1, M_bind at 1, lift at 1.
  destruct (get_model registry key) as [model|] eqn:Hm; [|done].
  unfold mbind at 1, M_bind at 1, lift at 1, get_llm_provider.
  destruct (providers !! mc_provider model) as [provider|] eqn:Hp; [|done].
  unfold mbind at 1, M_bind at 1, observe.
  destruct (provider (llm_request a model) w) as [[resp|e] w1] eqn:Hc.
  - intros [= <- <-]. exists [], key, chain, model, provider, w. by split_and!.
  - destruct (retryable_llm e); [|done]. intros Hr.
    destruct (IH _ _ _ Hr) as (pre & k & post & mo & pr & w2 & -> & Ht & H1 & H2 & H3 & H4 & H5).
    exists (key :: pre), k, post, mo, pr, w2. split_and!; try done.
    rewrite Ht. by rewrite <- !app_assoc.
Qed.
End client.

(** A completion is accounted for exactly: [complete] tries the routed model
    first and then the fallback chain in order; the response it returns comes
    from the last model tried, and the cost it reports is that model's price for
    the tokens the response used (not the projection of the model first chosen). *)
Theorem complete_charges_answering_model `{PyStr} {W} registry
    (providers : LLMProviderRegistry W) a w c w' :
  complete registry providers a w = (Ok c, w') ->
  exists pre key post model provider w1,
    rd_model_key (cp_decision c) :: rd_fallback_chain (cp_decision c) = pre ++ key :: post /\
    cp_models_tried c = pre ++ [key] /\
    get_model registry key = Ok model /\ providers !! mc_provider model = Some provider /\
    provider (llm_request a model) w1 = (Ok (cp_response c), w') /\
    cp_cost_usd c = cost_usd model (lr_tokens_input (cp_response c))
                      (lr_tokens_output (cp_response c)).
Proof.
  unfold complete. intros (est & w1 & H1 & Hrest)%M_bind_Ok.
  apply M_bind_Ok in Hrest as (d & w2 & H2 & Hrest).
  apply try_chain_ok in Hrest
    as (pre & key & post & model & provider & w3 & Hc & Ht & Hm & Hp & Hcall & <- & Hcost).
  by exists pre, key, post, model, provider, w3.
Qed.

(** ** Examples: a cheap model and an expensive fallback *)
Module LlmSample.

#[export] Instance py : PyStr := {| py_str _ := ""; py_float _ := "" |}.

Definition model (key provider : string) (price : float) (tools : bool) : ModelConfig := {|
  mc_key := key; mc_model_id := key; mc_provider := provider;
  mc_input_per_mtok := price; mc_output_per_mtok := price;
  mc_context_window := 100000; mc_max_output_tokens := 8000; mc_avg_latency_ms := 100;
  mc_reliability_score := fone; mc_supports_tools := tools; mc_supports_vision := false;
  mc_tiers := [CostTier.STANDARD] |}.

Definition small : ModelConfig := model "small" "flaky" (float_of_Z 1) true.
Definition large : ModelConfig := model "large" "steady" (float_of_Z 1000) false.

Definition registry : ModelRegistry := {|
  reg_models := [("large", large); ("small", small)];
  reg_chains := [(CostTier.STANDARD, ["small"; "large"])] |}.

Definition answer (id : string) : LLMResponse := {|
  lr_model_id := id; lr_text := "ok"; lr_tool_calls := []; lr_tokens_input := 1000;
  lr_tokens_output := 1000; lr_stop_reason := None; lr_raw := ∅ |}.

(** The small model is rate limited. *)
Definition providers : LLMProviderRegistry unit :=
  <["flaky" := fun _ w => (Err (Exn RateLimitError "429"), w)]>
    {[ "steady" := fun _ w => (Ok (answer "large"), w) ]}.

Definition args : CompleteArgs := {|
  ca_messages := [{| msg_role := "user"; msg_content := "hello" |}]; ca_system := None;
  ca_tools := Some [{[ "name" := JStr "search" ]}]; ca_max_tokens := 1000;
  ca_tier := CostTier.STANDARD; ca_task_type := "general"; ca_needs_vision := false;
  ca_reliability_floor := fzero; ca_expected_output_tokens := None;
  ca_budget := Some {| remaining_workflow_usd := Some (fratio 1 100);
                       remaining_tenant_daily_usd := None |} |}.

Definition request1 : RouteRequest := route_request args 10.
End LlmSample.

Import LlmSample.

Lemma select_cheapest_within_budget_witness :
  match select registry request1 (ca_budget args) with
  | Ok d => rd_model_key d = "small" /\
            forall m, m ∈ all_models registry -> rr_cost_tier request1 ∈ mc_tiers m ->
              eligible request1 m = true -> fleb (rd_projected_cost_usd d) (projected request1 m) = true
  | Err _ => False
  end.
Proof.
  pose proof (select_cheapest_within_budget registry request1 (ca_budget args)) as H.
  destruct (select registry request1 (ca_budget args)) as [d|e] eqn:E;
    [|vm_compute in E; discriminate E].
  destruct H as (_ & _ & _ & _ & _ & _ & Hmin).
  - repeat constructor.
  - split; reflexivity.
  - split; [vm_compute in E; by injection E as <-|exact Hmin].
Defined.

Lemma complete_charges_answering_model_witness :
  exists c, complete registry providers args tt = (Ok c, tt) /\
    cp_models_tried c = ["small"; "large"] /\ cp_cost_usd c = float_of_Z 2 /\
    exists model, get_model registry "large" = Ok model.
Proof.
  destruct (complete registry providers args tt) as [[c|e] []] eqn:E; [|vm_compute in E; discriminate E].
  destruct (complete_charges_answering_model registry providers args tt c tt E)
    as (pre & key & post & model & provider & w1 & _ & Ht & Hm & _).
  exists c. split; [reflexivity|].
  assert (cp_models_tried c = ["small"; "large"] /\ cp_cost_usd c = float_of_Z 2) as [H1 H2]
    by (vm_compute in E; injection E as <-; split; reflexivity).
  split_and!; [exact H1|exact H2|]. exists model. rewrite Ht in H1.
  destruct pre as [|p [|q [|]]]; cbn in H1; try discriminate H1. injection H1 as -> ->. exact Hm.
Defined.

(** The budget check does not cover the fallback chain: with one cent left, the
    router admits the call for the cheap model, and when that model is rate
    limited the client answers with a fallback that costs two dollars and does
    not support the tools the request needs. *)
Theorem fallback_escapes_budget :
  exists a c,
    ca_budget a = Some {| remaining_workflow_usd := Some (fratio 1 100);
                          remaining_tenant_daily_usd := None |} /\
    complete registry providers a tt = (Ok c, tt) /\
    (forall b, ca_budget a = Some b -> allows b (cp_cost_usd c) = false) /\
    ca_tools a <> None /\ lr_model_id (cp_response c) = "large" /\ mc_supports_tools large = false.
Proof.
  eexists args, _. split_and!; [reflexivity|vm_compute; reflexivity| |discriminate|reflexivity|reflexivity].
  intros b [= <-]. vm_compute. reflexivity.
Qed.

End Llm.
