(* ===== verification/LlmProviders.v ===== *)
(** The LLM providers ([integrations/llm/anthropic_provider.py] and
    [openai_provider.py]): the request each builds, the normalisation of the SDK's
    errors onto the engine's hierarchy, and the reading of the SDK's answer.

    The SDKs are parameters.  Arguments of a tool call are JSON objects, as the
    source's annotations say. *)

From stdpp Require Import base strings list gmap.
From Stdlib Require Import ZArith Lia.
From S2P Require Import Prelude Exceptions Values Enums Definitions Instance Events Tables.
From S2P Require Import Cost LlmClient.

Import Cost Llm.

(** What an SDK call may raise: the four classes the providers catch, in the order
    they catch them, and any other. *)
Inductive sdk_failure :=
| SdkRateLimit (msg : string)
| SdkTimeout (msg : string)
| SdkConnection (msg : string)
| SdkStatus (code : option Z) (msg : string)
| SdkOther (cls msg : string).

Definition _SERVER_ERROR : Z := 500.

(** Failures worth another model. *)
Definition transient (f : sdk_failure) : bool :=
  match f with
  | SdkRateLimit _ | SdkTimeout _ | SdkConnection _ => true
  | SdkStatus (Some code) _ => (_SERVER_ERROR <=? code)%Z
  | SdkStatus None _ | SdkOther _ _ => false
  end.

(** [req.as_dicts()] *)
Definition as_dicts (req : LLMRequest) : list json :=
  (fun m => JObj (message_dict m)) <$> lrq_messages req.

(** [if value: kwargs[key] = value] *)
Definition set_if (key : string) (v : json) (kwargs : dict) : dict :=
  if truthy v then <[key := v]> kwargs else kwargs.

Definition opt_str (o : option string) : json :=
  match o with Some s => JStr s | None => JNull end.

(** The call with its [except] clauses. *)
Definition calling {W A B} (normalise : sdk_failure -> exn) (m : W -> result sdk_failure A * W)
    (k : A -> res B) : M W exn B := fun w =>
  match m w with
  | (Ok a, w') => (k a, w')
  | (Err f, w') => (Err (normalise f), w')
  end.

(** ** Anthropic *)
Module Anthropic.

Inductive block :=
| TextBlock (text : string)
| ToolUse (id name : string) (input : dict)
| OtherBlock (type : string).

Record Message := {
  m_content : list block;
  m_input_tokens : Z;
  m_output_tokens : Z;
  m_stop_reason : option string;
  m_id : string;
}.

Class Sdk (W : Type) := {
  messages_create : dict -> W -> result sdk_failure Message * W;
  messages_count_tokens : dict -> M W exn Z;
}.

Definition text_of (b : block) : option string :=
  match b with TextBlock t => Some t | _ => None end.
Definition tool_of (b : block) : option ToolCall :=
  match b with
  | ToolUse id name input => Some {| tc_id := id; tc_name := name; tc_arguments := input |}
  | _ => None
  end.

Definition normalise (f : sdk_failure) : exn :=
  match f with
  | SdkRateLimit msg => Exn RateLimitError msg
  | SdkTimeout msg | SdkConnection msg => Exn LLMTimeoutError msg
  | SdkStatus (Some code) msg =>
      if (_SERVER_ERROR <=? code)%Z then Exn LLMTimeoutError msg else Exn LLMError msg
  | SdkStatus None _ => Exn (PyExc "AttributeError") "status_code"
  | SdkOther cls msg => Exn (PyExc cls) msg
  end.

Definition count_kwargs (req : LLMRequest) : dict :=
  set_if "tools" (JArr (JObj <$> lrq_tools req))
    (set_if "system" (opt_str (lrq_system req))
      (list_to_map [("model", JStr (lrq_model_id req)); ("messages", JArr (as_dicts req))])).

Definition kwargs (req : LLMRequest) : dict :=
  set_if "stop_sequences" (JArr (JStr <$> lrq_stop req))
    (set_if "tools" (JArr (JObj <$> lrq_tools req))
      (set_if "system" (opt_str (lrq_system req))
        (list_to_map [("model", JStr (lrq_model_id req)); ("max_tokens", JInt (lrq_max_tokens req));
                      ("messages", JArr (as_dicts req))]))).

Definition read_message (req : LLMRequest) (msg : Message) : res LLMResponse :=
  let text_parts := omap text_of (m_content msg) in
  let tool_calls := omap tool_of (m_content msg) in
  if bool_decide (text_parts = []) && (length tool_calls =? 0)%nat
  then Err (Exn MalformedOutputError "empty completion from Anthropic")
  else Ok {| lr_model_id := lrq_model_id req; lr_text := String.concat "" text_parts;
             lr_tool_calls := tool_calls; lr_tokens_input := m_input_tokens msg;
             lr_tokens_output := m_output_tokens msg; lr_stop_reason := m_stop_reason msg;
             lr_raw := {[ "id" := JStr (m_id msg) ]} |}.

Definition complete {W} {S : Sdk W} (req : LLMRequest) : M W exn LLMResponse :=
  calling normalise (messages_create (kwargs req)) (read_message req).

Definition count_tokens {W} {S : Sdk W} (req : LLMRequest) : M W exn (option Z) :=
  try_except (n ← messages_count_tokens (count_kwargs req); mret (Some n))
    is_Exception (fun _ => mret None).
End Anthropic.

(** ** OpenAI *)
Module OpenAI.

Record FunctionCall := { fc_id : string; fc_name : string; fc_arguments : option string }.

Record Choice := {
  ch_content : option string;
  ch_tool_calls : list FunctionCall;
  ch_finish_reason : option string;
}.

Record Completion := {
  c_choices : list Choice;
  c_usage : option (Z * Z);
  c_id : string;
}.

(** [json_loads] gives nothing where [json.loads] raises [JSONDecodeError]. *)
Class Sdk (W : Type) := {
  completions_create : dict -> W -> result sdk_failure Completion * W;
  json_loads : string -> option dict;
}.

Definition normalise (f : sdk_failure) : exn :=
  match f with
  | SdkRateLimit msg => Exn RateLimitError msg
  | SdkTimeout msg | SdkConnection msg => Exn LLMTimeoutError msg
  | SdkStatus code msg =>
      if (_SERVER_ERROR <=? default _SERVER_ERROR code)%Z then Exn LLMTimeoutError msg
      else Exn LLMError msg
  | SdkOther cls msg => Exn (PyExc cls) msg
  end.

Definition kwargs (req : LLMRequest) : dict :=
  let system := if truthy_str (lrq_system req)
                then [JObj (<["role" := JStr "system"]>
                              {[ "content" := JStr (default "" (lrq_system req)) ]})]
                else [] in
  set_if "stop" (JArr (JStr <$> lrq_stop req))
    (set_if "tools" (JArr (JObj <$> lrq_tools req))
      (list_to_map [("model", JStr (lrq_model_id req));
                    ("messages", JArr (system ++ as_dicts req));
                    ("max_tokens", JInt (lrq_max_tokens req))])).

Section openai.
Context {W : Type} {S : Sdk W}.

(** [json.loads(arguments or "{}")], with the text itself when it does not parse. *)
Definition arguments_of (tc : FunctionCall) : dict :=
  match json_loads (if truthy_str (fc_arguments tc) then default "" (fc_arguments tc) else "{}") with
  | Some args => args
  | None => {[ "_raw" := opt_str (fc_arguments tc) ]}
  end.

Definition tool_call (tc : FunctionCall) : ToolCall :=
  {| tc_id := fc_id tc; tc_name := fc_name tc; tc_arguments := arguments_of tc |}.

Definition read_completion (req : LLMRequest) (resp : Completion) : res LLMResponse :=
  match c_choices resp with
  | [] => Err (Exn (PyExc "IndexError") "list index out of range")
  | choice :: _ =>
      let tool_calls := tool_call <$> ch_tool_calls choice in
      let text := default "" (ch_content choice) in
      if bool_decide (text = "") && (length tool_calls =? 0)%nat
      then Err (Exn MalformedOutputError "empty completion from OpenAI")
      else Ok {| lr_model_id := lrq_model_id req; lr_text := text; lr_tool_calls := tool_calls;
                 lr_tokens_input := match c_usage resp with Some u => u.1 | None => 0%Z end;
                 lr_tokens_output := match c_usage resp with Some u => u.2 | None => 0%Z end;
                 lr_stop_reason := ch_finish_reason choice;
                 lr_raw := {[ "id" := JStr (c_id resp) ]} |}
  end.

Definition complete (req : LLMRequest) : M W exn LLMResponse :=
  calling normalise (completions_create (kwargs req)) (read_completion req).

Definition count_tokens (req : LLMRequest) : M W exn (option Z) := mret None.
End openai.
End OpenAI.

(** ** Theorems *)

Definition coded (f : sdk_failure) : Prop := forall msg, f <> SdkStatus None msg.

(** Both providers raise an exception that the client retries with another model
    exactly on a transient failure. *)
Lemma anthropic_classifies f : coded f -> retryable_llm (Anthropic.normalise f) = transient f.
Proof.
  intros Hc. destruct f as [| | |[code|] msg|]; try reflexivity.
  cbn. by destruct (_SERVER_ERROR <=? code)%Z.
Qed.

Lemma openai_classifies f : coded f -> retryable_llm (OpenAI.normalise f) = transient f.
Proof.
  intros Hc. destruct f as [| | |[code|] msg|]; try reflexivity.
  - cbn. by destruct (_SERVER_ERROR <=? code)%Z.
  - by destruct (Hc msg).
Qed.

(** The client on a model whose provider raises. *)
Lemma try_chain_raises `{PyStr} {W} registry (providers : LLMProviderRegistry W) a d key rest tried
    last w model (p : LLMRequest -> M W exn LLMResponse) e w' :
  get_model registry key = Ok model -> providers !! mc_provider model = Some p ->
  p (llm_request a model) w = (Err e, w') ->
  try_chain registry providers a d (key :: rest) tried last w
  = if retryable_llm e then try_chain registry providers a d rest (tried ++ [key]) (Some e) w'
    else (Err e, w').
Proof.
  intros Hm Hp Hc. cbn [try_chain].
  rewrite (M_bind_step _ _ w model w) by (unfold lift; by rewrite Hm).
  rewrite (M_bind_step (lift (get_llm_provider providers (mc_provider model))) _ w p w)
    by (unfold lift, get_llm_provider; by rewrite Hp).
  unfold mbind at 1, M_bind at 1, observe. rewrite Hc. by destruct (retryable_llm e).
Qed.

Section clients.
Context `{PyStr} {W : Type} {Sa : Anthropic.Sdk W} {So : OpenAI.Sdk W}.
Context (registry : ModelRegistry) (providers : LLMProviderRegistry W).

(** The SDK behind [model]'s provider fails with [f] on the request for it. *)
Definition sdk_fails (a : CompleteArgs) (model : ModelConfig) (w : W) (f : sdk_failure) (w' : W) : Prop :=
  (providers !! mc_provider model = Some Anthropic.complete /\
   Anthropic.messages_create (Anthropic.kwargs (llm_request a model)) w = (Err f, w')) \/
  (providers !! mc_provider model = Some OpenAI.complete /\
   OpenAI.completions_create (OpenAI.kwargs (llm_request a model)) w = (Err f, w')).

(** A failing model is replaced exactly when its failure is transient.  When the
    SDK call of the next model of the chain fails, with either vendor, the client
    goes on to the rest of the chain if the failure is a rate limit, a timeout, a
    lost connection or a status of 500 and above, keeping the normalised exception
    in case no model is left; any other failure ends the completion at once, with an
    exception that the retry classifier will not retry either. *)
Theorem failing_model_falls_back a d key rest tried last w model f w' :
  get_model registry key = Ok model -> coded f -> sdk_fails a model w f w' ->
  exists e, retryable_llm e = transient f /\
    try_chain registry providers a d (key :: rest) tried last w
    = if transient f then try_chain registry providers a d rest (tried ++ [key]) (Some e) w'
      else (Err e, w').
Proof.
  intros Hm Hcode [[Hp Hc]|[Hp Hc]].
  - exists (Anthropic.normalise f). rewrite <- (anthropic_classifies f Hcode). split; [done|].
    eapply try_chain_raises; [done|done|]. unfold Anthropic.complete, calling. by rewrite Hc.
  - exists (OpenAI.normalise f). rewrite <- (openai_classifies f Hcode). split; [done|].
    eapply try_chain_raises; [done|done|]. unfold OpenAI.complete, calling. by rewrite Hc.
Qed.

(** A completion from OpenAI carries text or a tool call; so the client never takes
    silence for an answer. *)
Theorem openai_never_empty req w r w' :
  OpenAI.complete req w = (Ok r, w') -> lr_text r <> "" \/ lr_tool_calls r <> [].
Proof.
  unfold OpenAI.complete, calling. destruct (OpenAI.completions_create _ w) as [[resp|f] w1]; [|done].
  intros [= Hr <-]. unfold OpenAI.read_completion in Hr. destruct (OpenAI.c_choices resp) as [|c cs]; [done|].
  case_bool_decide as Ht; cbn [andb] in Hr; [|injection Hr as <-; by left].
  destruct (length _ =? 0)%nat eqn:El; [done|]. injection Hr as <-. right. cbn. intros E.
  rewrite E in El. done.
Qed.
End clients.

(** From Anthropic it need not: a message made of an empty text block passes. *)
Lemma anthropic_blank_text_passes req :
  let msg := {| Anthropic.m_content := [Anthropic.TextBlock ""]; Anthropic.m_input_tokens := 1;
                Anthropic.m_output_tokens := 0; Anthropic.m_stop_reason := None;
                Anthropic.m_id := "m" |} in
  exists r, Anthropic.read_message req msg = Ok r /\ lr_text r = "" /\ lr_tool_calls r = [].
Proof. eexists. split; [reflexivity|]. done. Qed.

(** ** Example: Anthropic is overloaded, OpenAI answers *)
Module VendorSample.
Import LlmSample.

#[export] Instance anthropic : Anthropic.Sdk unit := {|
  Anthropic.messages_create _ w := (Err (SdkStatus (Some 529%Z) "overloaded"), w);
  Anthropic.messages_count_tokens _ := mret 1%Z |}.

#[export] Instance openai : OpenAI.Sdk unit := {|
  OpenAI.completions_create _ w := (Ok {|
    OpenAI.c_choices := [{| OpenAI.ch_content := Some "hi"; OpenAI.ch_tool_calls := [];
                            OpenAI.ch_finish_reason := None |}];
    OpenAI.c_usage := Some (10, 2)%Z; OpenAI.c_id := "c" |}, w);
  OpenAI.json_loads _ := None |}.

Definition vendors : LLMProviderRegistry unit :=
  <["flaky" := Anthropic.complete]> {[ "steady" := OpenAI.complete ]}.

Definition decision : RouteDecision := {|
  rd_model_key := "small"; rd_model := small; rd_projected_cost_usd := fzero;
  rd_projected_input_tokens := 0; rd_projected_output_tokens := 0; rd_fallback_chain := ["large"] |}.
End VendorSample.
Import VendorSample LlmSample.

Lemma failing_model_falls_back_witness :
  exists c, try_chain registry vendors args decision ["small"; "large"] [] None tt = (Ok c, tt) /\
    cp_models_tried c = ["small"; "large"] /\ lr_text (cp_response c) = "hi".
Proof.
  destruct (failing_model_falls_back registry vendors args decision "small" ["large"] [] None tt small
    (SdkStatus (Some 529%Z) "overloaded") tt) as (e & _ & ->); [reflexivity|by intros msg| |].
  - left. split; reflexivity.
  - eexists. vm_compute. done.
Defined.
