(* ===== verification/Runners.v ===== *)
(** Step runners ([core/runners.py]) and the step executor
    ([core/executor.py]).

    A runner is user code: an async function that charges costs, asks for a
    review, performs side effects and calls LLMs through its [StepContext], and
    finally returns or raises.  It is modelled by the tree [rprog] of what it
    asks of the context, each continuation being a function of the reply (a
    result or the exception raised at that point, which the runner may catch);
    [RTimeout] is a point where it outlives the step's timeout. *)

From stdpp Require Import base strings list gmap pretty.
From Stdlib Require Import ZArith Lia.
From S2P Require Import Prelude Exceptions Values Enums Definitions Instance Events Tables Outbox.
From S2P Require Import Ports SideEffects Cost LlmClient Digests.

Import SideEffects Cost Llm.

Record CostEntry := {
  ce_amount_usd : float;
  ce_model : option string;
  ce_tokens_input : Z;
  ce_tokens_output : Z;
}.

Record ReviewRequest := {
  rq_reason : string;
  rq_confidence : float;
  rq_recommendation : string;
  rq_options : list dict;
  rq_auto_action : string;
  rq_timeout_seconds : option Z;
}.

Record StepResult := { sr_output : dict; sr_model_used : option string }.

(** The fields of the context; the last five are its private accumulators. *)
Record StepContext := {
  sc_instance_id : string;
  sc_tenant_id : string;
  sc_step_id : string;
  sc_agent_type : string;
  sc_attempt : Z;
  sc_inputs : dict;
  sc_instance_context : dict;
  sc_budget : option BudgetView;
  sc_replay_llm : list LLMRecording;
  sc_charges : list CostEntry;
  sc_effects : list EffectOutcome;
  sc_review : option ReviewRequest;
  sc_llm_index : nat;
  sc_llm_recordings : list LLMRecording;
}.

Definition with_acc (c : StepContext) (charges : list CostEntry) (effects : list EffectOutcome)
    (review : option ReviewRequest) (index : nat) (recs : list LLMRecording) : StepContext := {|
  sc_instance_id := sc_instance_id c;
  sc_tenant_id := sc_tenant_id c;
  sc_step_id := sc_step_id c;
  sc_agent_type := sc_agent_type c;
  sc_attempt := sc_attempt c;
  sc_inputs := sc_inputs c;
  sc_instance_context := sc_instance_context c;
  sc_budget := sc_budget c;
  sc_replay_llm := sc_replay_llm c;
  sc_charges := charges;
  sc_effects := effects;
  sc_review := review;
  sc_llm_index := index;
  sc_llm_recordings := recs |}.

Definition ctx_charge (e : CostEntry) (c : StepContext) : StepContext :=
  with_acc c (sc_charges c ++ [e]) (sc_effects c) (sc_review c) (sc_llm_index c)
    (sc_llm_recordings c).
Definition ctx_review (r : ReviewRequest) (c : StepContext) : StepContext :=
  with_acc c (sc_charges c) (sc_effects c) (Some r) (sc_llm_index c) (sc_llm_recordings c).
Definition ctx_effect (o : EffectOutcome) (c : StepContext) : StepContext :=
  with_acc c (sc_charges c) (sc_effects c ++ [o]) (sc_review c) (sc_llm_index c)
    (sc_llm_recordings c).
Definition ctx_next_llm (c : StepContext) : StepContext :=
  with_acc c (sc_charges c) (sc_effects c) (sc_review c) (S (sc_llm_index c))
    (sc_llm_recordings c).
Definition ctx_record (r : LLMRecording) (c : StepContext) : StepContext :=
  with_acc c (sc_charges c) (sc_effects c) (sc_review c) (sc_llm_index c)
    (sc_llm_recordings c ++ [r]).

(** ** Recording LLM responses *)

Definition tool_call_json (tc : ToolCall) : json :=
  JObj (<["id" := JStr (tc_id tc)]> (<["name" := JStr (tc_name tc)]>
    {[ "arguments" := JObj (tc_arguments tc) ]})).

Definition opt_str (o : option string) : json := match o with Some s => JStr s | None => JNull end.

Definition _recording_from_response (r : LLMResponse) : dict :=
  <["model_id" := JStr (lr_model_id r)]> (<["text" := JStr (lr_text r)]>
  (<["tokens_input" := JInt (lr_tokens_input r)]>
  (<["tokens_output" := JInt (lr_tokens_output r)]>
  (<["stop_reason" := opt_str (lr_stop_reason r)]>
  {[ "tool_calls" := JArr (tool_call_json <$> lr_tool_calls r) ]})))).

(** Recordings hold strings, integers and objects where the dataclass expects
    them; a value of another type is never written. *)
Definition as_str (v : json) : res string :=
  match v with JStr s => Ok s | _ => Err (TypeError "str expected") end.
Definition as_int (v : json) : res Z :=
  match v with JInt z => Ok z | _ => Err (TypeError "int expected") end.
Definition as_opt_str (v : json) : res (option string) :=
  match v with JStr s => Ok (Some s) | JNull => Ok None | _ => Err (TypeError "str expected") end.
Definition as_obj (v : json) : res dict :=
  match v with JObj o => Ok o | _ => Err (TypeError "dict expected") end.

(** [rec[key]] *)
Definition item (d : dict) (key : string) : res json :=
  match d !! key with Some v => Ok v | None => Err (KeyError key) end.

(** [ToolCall( **tc)] *)
Definition tool_call_of (v : json) : res ToolCall :=
  o ← as_obj v;
  i ← item o "id"; i ← as_str i;
  n ← item o "name"; n ← as_str n;
  a ← item o "arguments"; a ← as_obj a;
  Ok {| tc_id := i; tc_name := n; tc_arguments := a |}.

Definition _response_from_recording (rec : dict) : res LLMResponse :=
  mid ← item rec "model_id"; mid ← as_str mid;
  text ← item rec "text"; text ← as_str text;
  tcs ← match default (JArr []) (rec !! "tool_calls") with
        | JArr l => mapM tool_call_of l
        | _ => Err (TypeError "list expected")
        end;
  ti ← as_int (default (JInt 0) (rec !! "tokens_input"));
  to ← as_int (default (JInt 0) (rec !! "tokens_output"));
  stop ← as_opt_str (default JNull (rec !! "stop_reason"));
  Ok {| lr_model_id := mid; lr_text := text; lr_tool_calls := tcs; lr_tokens_input := ti;
        lr_tokens_output := to; lr_stop_reason := stop;
        lr_raw := {[ "replayed" := JBool true ]} |}.

(** ** The context's operations *)

(** The arguments of [ctx.llm]; the tier may be given by name. *)
Record LlmArgs := {
  la_messages : list LLMMessage;
  la_system : option string;
  la_tools : option (list dict);
  la_tier : string;
  la_max_tokens : Z;
  la_task_type : string;
  la_expected_output_tokens : option Z;
  la_reliability_floor : float;
}.

(** [CostTier(tier)] *)
Definition parse_tier (s : string) : res CostTier :=
  if bool_decide (s = "cheap") then Ok CostTier.CHEAP
  else if bool_decide (s = "standard") then Ok CostTier.STANDARD
  else if bool_decide (s = "premium") then Ok CostTier.PREMIUM
  else if bool_decide (s = "critical") then Ok CostTier.CRITICAL
  else Err (Exn (PyExc "ValueError") (py_repr s +:+ " is not a valid CostTier")).

(** What the worker wired into the contexts it builds. *)
Record Wiring (W : Type) := {
  wg_guard : option (ProviderRegistry W);
  wg_llm : option (ModelRegistry * LLMProviderRegistry W);
}.
Arguments wg_guard {W}. Arguments wg_llm {W}.

Section context.
Context {Hh : Hashing} {Ps : PyStr} {W : Type} {Os : OutboxStore W} {Ck : Clock W}.
Context (wiring : Wiring W).

Abbreviation Step := (M (W * StepContext) exn).

Definition ctx_modify (f : StepContext -> StepContext) : Step unit :=
  modify (fun s => (fst s, f (snd s))).

Definition request_review (r : ReviewRequest) : Step unit := ctx_modify (ctx_review r).

Definition charge (e : CostEntry) : Step unit := ctx_modify (ctx_charge e).

Definition execute_effect (effect_name : string) (params : dict) (provider : string)
    : Step EffectResult :=
  match wg_guard wiring with
  | None => raise (Exn ConfigurationError
                     "step attempted a side effect but no SideEffectGuard is wired")
  | Some providers =>
      c ← gets snd;
      outcome ← on_fst (execute providers (sc_instance_id c) (sc_tenant_id c) (sc_step_id c)
                          effect_name params provider);
      _ ← ctx_modify (ctx_effect outcome);
      mret (eo_result outcome)
  end.

Definition _digest_messages (messages : list LLMMessage) (system : option string) : string :=
  digest (JArr [JStr (default "" system);
                JArr ((fun m => JArr [JStr (msg_role m); JStr (msg_content m)]) <$> messages)]).

Definition complete_args (c : StepContext) (a : LlmArgs) (tier : CostTier) : CompleteArgs := {|
  ca_messages := la_messages a;
  ca_system := la_system a;
  ca_tools := la_tools a;
  ca_max_tokens := la_max_tokens a;
  ca_tier := tier;
  ca_task_type := if bool_decide (la_task_type a = "") then sc_agent_type c else la_task_type a;
  ca_needs_vision := false;
  ca_reliability_floor := la_reliability_floor a;
  ca_expected_output_tokens := la_expected_output_tokens a;
  ca_budget := sc_budget c |}.

Definition llm (a : LlmArgs) : Step LLMResponse :=
  c ← gets snd;
  _ ← ctx_modify ctx_next_llm;
  match sc_replay_llm c !! sc_llm_index c with
  | Some rec => lift (_response_from_recording (rec_response rec))
  | None =>
      match wg_llm wiring with
      | None => raise (Exn ConfigurationError
                         "step attempted an LLM call but no LLMClient is wired")
      | Some (registry, providers) =>
          tier ← lift (parse_tier (la_tier a));
          completion ← on_fst (complete registry providers (complete_args c a tier));
          let r := cp_response completion in
          _ ← charge {| ce_amount_usd := cp_cost_usd completion;
                        ce_model := Some (lr_model_id r);
                        ce_tokens_input := lr_tokens_input r;
                        ce_tokens_output := lr_tokens_output r |};
          _ ← ctx_modify (ctx_record {|
                rec_request_digest := _digest_messages (la_messages a) (la_system a);
                rec_model := lr_model_id r;
                rec_response := _recording_from_response r;
                rec_tokens_input := lr_tokens_input r;
                rec_tokens_output := lr_tokens_output r;
                rec_cost_usd := cp_cost_usd completion |});
          mret r
      end
  end.

(** ** Runners *)

Inductive rprog :=
| RReturn (r : StepResult)
| RRaise (e : exn)
| RTimeout
| RCharge (e : CostEntry) (k : rprog)
| RReview (r : ReviewRequest) (k : rprog)
| REffect (name : string) (params : dict) (provider : string)
    (k : result exn EffectResult -> rprog)
| RLlm (a : LlmArgs) (k : result exn LLMResponse -> rprog).

(** [asyncio.wait_for] raises [TimeoutError] when the runner is too slow. *)
Fixpoint run (p : rprog) : Step StepResult :=
  match p with
  | RReturn r => mret r
  | RRaise e => raise e
  | RTimeout => raise (Exn (PyExc "TimeoutError") "")
  | RCharge e k => _ ← charge e; run k
  | RReview r k => _ ← request_review r; run k
  | REffect name params provider k =>
      reply ← observe (execute_effect name params provider); run (k reply)
  | RLlm a k => reply ← observe (llm a); run (k reply)
  end.

Definition StepRunner : Type := StepContext -> rprog.

Definition EchoRunner : StepRunner := fun ctx =>
  RReturn {| sr_output := <["inputs" := JObj (sc_inputs ctx)]>
                            {[ "attempt" := JInt (sc_attempt ctx) ]};
             sr_model_used := None |}.

(** What the function of a [FunctionRunner] may return. *)
Inductive FunctionOutput := OutputDict (output : dict) | OutputResult (r : StepResult).

(** [FunctionRunner(fn)]: the function is a coroutine, given what to do with its value. *)
Definition FunctionRunner (fn : StepContext -> (FunctionOutput -> rprog) -> rprog) : StepRunner :=
  fun ctx => fn ctx (fun out => RReturn match out with
    | OutputResult r => r
    | OutputDict d => {| sr_output := d; sr_model_used := None |}
    end).

Abbreviation StepRegistry := (gmap string StepRunner).

Definition register_runner (agent_type : string) (runner : StepRunner) (reg : StepRegistry)
    : StepRegistry := <[agent_type := runner]> reg.

Definition has_runner (reg : StepRegistry) (agent_type : string) : bool :=
  bool_decide (is_Some (reg !! agent_type)).

Definition get_runner (reg : StepRegistry) (agent_type : string) : res StepRunner :=
  match reg !! agent_type with
  | Some r => Ok r
  | None => Err (Exn ConfigurationError
                   ("no step runner registered for agent_type " +:+ py_repr agent_type))
  end.

Definition default_registry : StepRegistry := register_runner "echo_agent" EchoRunner ∅.

(** ** The executor *)

Inductive StepOutcome :=
| StepSuccess (output : dict) (model_used : option string) (charges : list CostEntry)
    (effects : list EffectOutcome) (review : option ReviewRequest)
    (llm_recordings : list LLMRecording)
| StepFailure (error_type error_message : string) (retryable : bool)
    (charges : list CostEntry) (effects : list EffectOutcome)
    (llm_recordings : list LLMRecording).

Definition _classify (e : exn) : bool :=
  if isinstance e AgentForgeError then retryable_attr (exn_cls e)
  else bool_decide (class_name (exn_cls e) ∈ RETRYABLE_BY_NAME).

(** The three [except] clauses, on the exception and the context it left. *)
Definition failure_of (timeout_seconds : Z) (c : StepContext) (e : exn) : res StepOutcome :=
  if bool_decide (exn_cls e = PyExc "TimeoutError") then
    Ok (StepFailure "StepTimeoutError" ("step exceeded " +:+ pretty timeout_seconds +:+ "s") true
          (sc_charges c) (sc_effects c) [])
  else if bool_decide (exn_cls e = PyExc "CancelledError") then Err e
  else Ok (StepFailure (class_name (exn_cls e))
             (if bool_decide (exn_msg e = "") then class_name (exn_cls e) else exn_msg e)
             (_classify e) (sc_charges c) (sc_effects c) (sc_llm_recordings c)).

Definition run_attempt (reg : StepRegistry) (ctx : StepContext) (timeout_seconds : Z)
    : M W exn StepOutcome := fun w =>
  match get_runner reg (sc_agent_type ctx) with
  | Err e => (Err e, w)
  | Ok runner =>
      let '(r, (w', c)) := run (runner ctx) (w, ctx) in
      (match r with
       | Ok result => Ok (StepSuccess (sr_output result) (sr_model_used result) (sc_charges c)
                            (sc_effects c) (sc_review c) (sc_llm_recordings c))
       | Err e => failure_of timeout_seconds c e
       end, w')
  end.
End context.

(** ** Properties *)

Lemma tool_call_roundtrip tc : tool_call_of (tool_call_json tc) = Ok tc.
Proof. destruct tc. reflexivity. Qed.

Lemma mapM_tool_calls l : mapM tool_call_of (tool_call_json <$> l) = Ok l.
Proof.
  induction l as [|tc l IH]; [done|]. cbn [fmap list_fmap mapM].
  rewrite tool_call_roundtrip. cbn [mbind result_bind]. by rewrite IH.
Qed.

(** A replayed response is the original up to the provider's raw payload. *)
Definition as_replayed (r : LLMResponse) : LLMResponse := {|
  lr_model_id := lr_model_id r; lr_text := lr_text r; lr_tool_calls := lr_tool_calls r;
  lr_tokens_input := lr_tokens_input r; lr_tokens_output := lr_tokens_output r;
  lr_stop_reason := lr_stop_reason r; lr_raw := {[ "replayed" := JBool true ]} |}.

Lemma recording_roundtrip r :
  _response_from_recording (_recording_from_response r) = Ok (as_replayed r).
Proof.
  set (rec := _recording_from_response r). unfold _response_from_recording, item.
  assert (rec !! "model_id" = Some (JStr (lr_model_id r))) as -> by reflexivity.
  assert (rec !! "text" = Some (JStr (lr_text r))) as -> by reflexivity.
  assert (rec !! "tool_calls" = Some (JArr (tool_call_json <$> lr_tool_calls r))) as ->
    by reflexivity.
  assert (rec !! "tokens_input" = Some (JInt (lr_tokens_input r))) as -> by reflexivity.
  assert (rec !! "tokens_output" = Some (JInt (lr_tokens_output r))) as -> by reflexivity.
  assert (rec !! "stop_reason" = Some (opt_str (lr_stop_reason r))) as -> by reflexivity.
  cbn. rewrite mapM_tool_calls. unfold as_replayed. by destruct (lr_stop_reason r).
Qed.

(** Recordings round trip: the response rebuilt from a recording is the
    response that was recorded (model, text, tool calls, token counts and stop
    reason), with only the provider's raw payload replaced by the replay mark. *)
Theorem response_recording_roundtrip r :
  _response_from_recording (_recording_from_response r) = Ok (as_replayed r).
Proof. apply recording_roundtrip. Qed.

Section replay.
Context {Hh : Hashing} {Ps : PyStr} {W : Type} {Os : OutboxStore W} {Ck : Clock W}.
Context (wiring : Wiring W).

(** Runners that only call LLMs and do not look at the raw payload. *)
Inductive llm_only : rprog -> Prop :=
| LOReturn r : llm_only (RReturn r)
| LORaise e : llm_only (RRaise e)
| LOReview r k : llm_only k -> llm_only (RReview r k)
| LOLlm a k :
    (forall reply, llm_only (k reply)) ->
    (forall r, k (Ok (as_replayed r)) = k (Ok r)) -> llm_only (RLlm a k).

(** A context that replays [recs] from position [index] on. *)
Definition replaying (c : StepContext) (recs : list LLMRecording) (index : nat) : StepContext := {|
  sc_instance_id := sc_instance_id c; sc_tenant_id := sc_tenant_id c;
  sc_step_id := sc_step_id c; sc_agent_type := sc_agent_type c; sc_attempt := sc_attempt c;
  sc_inputs := sc_inputs c; sc_instance_context := sc_instance_context c;
  sc_budget := sc_budget c; sc_replay_llm := recs; sc_charges := []; sc_effects := [];
  sc_review := sc_review c; sc_llm_index := index; sc_llm_recordings := [] |}.

(** One live call: it answers and records, or raises. *)
Lemma llm_live a w c r w' c' :
  sc_replay_llm c = [] -> llm wiring a (w, c) = (Ok r, (w', c')) ->
  sc_replay_llm c' = [] /\ sc_review c' = sc_review c /\
  exists rec, sc_llm_recordings c' = sc_llm_recordings c ++ [rec] /\
              rec_response rec = _recording_from_response r.
Proof.
  intros Hr Hl. unfold llm in Hl. unfold mbind at 1, M_bind at 1, gets in Hl.
  cbn [snd] in Hl. rewrite Hr in Hl. cbn in Hl.
  unfold mbind at 1, M_bind at 1, ctx_modify, modify in Hl. cbn in Hl.
  destruct (wg_llm wiring) as [[registry providers]|]; [|done].
  apply M_bind_Ok in Hl as (tier & s1 & H1 & Hl). injection H1 as _ <-.
  apply M_bind_Ok in Hl as (cp & s2 & H2 & Hl). unfold on_fst in H2. cbn in H2.
  destruct (complete _ _ _ w) as [rc w1]. injection H2 as -> <-.
  unfold mbind, M_bind, charge, ctx_modify, modify in Hl. cbn in Hl.
  injection Hl as <- <- <-. cbn. split_and!; [done|done|]. by eexists.
Qed.

(** The same call replayed: no world change, no charge, no new recording. *)
Lemma llm_replayed a w c recs index rec r :
  recs !! index = Some rec -> rec_response rec = _recording_from_response r ->
  llm wiring a (w, replaying c recs index)
  = (Ok (as_replayed r), (w, replaying c recs (S index))).
Proof.
  intros Hi Hr. unfold llm. unfold mbind at 1, M_bind at 1, gets. cbn [snd].
  cbn [sc_replay_llm sc_llm_index replaying]. rewrite Hi.
  unfold mbind, M_bind, ctx_modify, modify, lift. by rewrite Hr, recording_roundtrip.
Qed.

(** A live run (nothing to replay) in which every LLM call answered. *)
Inductive clean_run : rprog -> W * StepContext -> StepResult -> W * StepContext -> Prop :=
| CRReturn r s : clean_run (RReturn r) s r s
| CRReview q k s r s' :
    clean_run k (fst s, ctx_review q (snd s)) r s' -> clean_run (RReview q k) s r s'
| CRLlm a k s reply s1 r s' :
    llm wiring a s = (Ok reply, s1) -> clean_run (k (Ok reply)) s1 r s' ->
    clean_run (RLlm a k) s r s'.

Lemma clean_run_run p s r s' : clean_run p s r s' -> run wiring p s = (Ok r, s').
Proof.
  induction 1 as [r s|q k s r s' _ IH|a k s reply s1 r s' Hl _ IH]; cbn [run]; [done| |].
  - by rewrite (M_bind_step _ _ s tt (fst s, ctx_review q (snd s))).
  - rewrite (M_bind_step _ _ s (Ok reply) s1); [done|]. unfold observe. by rewrite Hl.
Qed.

(** Replaying [p] from position [length recs0] with the recordings of a clean run. *)
Lemma replay_clean p s r s' recs0 w2 cc :
  clean_run p s r s' -> llm_only p -> sc_replay_llm (snd s) = [] ->
  sc_review cc = sc_review (snd s) ->
  exists more, sc_llm_recordings (snd s') = sc_llm_recordings (snd s) ++ more /\
    forall tail, exists cc',
      run wiring p (w2, replaying cc (recs0 ++ more ++ tail) (length recs0)) = (Ok r, (w2, cc')) /\
      sc_charges cc' = [] /\ sc_llm_recordings cc' = [] /\ sc_review cc' = sc_review (snd s').
Proof.
  intros Hrun. revert recs0 cc.
  induction Hrun as [r s|q k s r s' _ IH|a k [w c] reply [w1 c1] r s' Hl Hrest IH];
    intros recs0 cc Hlo Hrep Hrev.
  - exists []. rewrite app_nil_r. split; [done|]. intros tail. eexists. by split_and!.
  - inversion_clear Hlo as [| |? ? Hk|]. destruct (IH recs0 (ctx_review q cc) Hk Hrep eq_refl)
      as (more & Hm & Hall). exists more. split; [done|]. intros tail.
    destruct (Hall tail) as (cc' & Hr & Hrest'). exists cc'. split; [|done]. cbn [run].
    by rewrite (M_bind_step _ _ _ tt (w2, replaying (ctx_review q cc) (recs0 ++ more ++ tail)
      (length recs0))).
  - inversion_clear Hlo as [| | |? ? Hk Hraw]. cbn in Hrep, Hrev.
    destruct (llm_live a w c reply w1 c1 Hrep Hl) as (Hrep1 & Hrev1 & rec & Hrecs & Hresp).
    destruct (IH (recs0 ++ [rec]) cc (Hk _) Hrep1) as (more & Hm & Hall).
    { cbn. by rewrite Hrev1. }
    exists (rec :: more). split; [cbn in *; rewrite Hm, Hrecs; by rewrite <- app_assoc|].
    intros tail. destruct (Hall tail) as (cc' & Hr & Hrest'). exists cc'. split; [|done].
    cbn [run].
    rewrite (M_bind_step _ _ _ (Ok (as_replayed reply))
               (w2, replaying cc (recs0 ++ (rec :: more) ++ tail) (S (length recs0)))).
    + rewrite Hraw. rewrite <- app_assoc, length_app in Hr. cbn in Hr.
      by replace (length recs0 + 1)%nat with (S (length recs0)) in Hr by lia.
    + unfold observe. rewrite (llm_replayed a w2 cc _ _ rec reply); [done| |done].
      rewrite lookup_app_r by lia. by rewrite Nat.sub_diag.
Qed.

(** C25: Deterministic replay.  Take a runner that only calls LLMs (and asks for
    reviews) and ignores the raw payload, and a run in which every call answered;
    re-running it in any world with its recordings gives the same result and the
    same review request without calling a provider: the world is untouched,
    nothing is charged and nothing is recorded again. *)
Theorem replay_reproduces_run p w c r w' c' w2 cc :
  clean_run p (w, c) r (w', c') -> llm_only p ->
  sc_replay_llm c = [] -> sc_llm_recordings c = [] -> sc_review cc = sc_review c ->
  run wiring p (w, c) = (Ok r, (w', c')) /\
  exists cc', run wiring p (w2, replaying cc (sc_llm_recordings c') 0) = (Ok r, (w2, cc')) /\
    sc_charges cc' = [] /\ sc_llm_recordings cc' = [] /\ sc_review cc' = sc_review c'.
Proof.
  intros Hrun Hlo Hrep Hrecs Hrev. split; [by apply clean_run_run|].
  destruct (replay_clean p (w, c) r (w', c') [] w2 cc Hrun Hlo Hrep Hrev) as (more & Hm & Hall).
  cbn in Hm. rewrite Hrecs in Hm. cbn in Hm. destruct (Hall []) as (cc' & Hr & Hrest).
  exists cc'. split; [|done]. cbn in Hr. rewrite app_nil_r in Hr. by rewrite Hm.
Qed.

(** What the executor reports is what the context accumulated. *)
Definition outcome_charges (o : StepOutcome) : list CostEntry :=
  match o with StepSuccess _ _ cs _ _ _ => cs | StepFailure _ _ _ cs _ _ => cs end.
Definition outcome_effects (o : StepOutcome) : list EffectOutcome :=
  match o with StepSuccess _ _ _ es _ _ => es | StepFailure _ _ _ _ es _ => es end.

(** The executor accounts for failed attempts too: whatever a runner does
    (return, raise, time out), the outcome reports every charge and every effect
    made before, a failure is retryable exactly when its class says so, and the
    executor itself raises only for an unregistered agent type or a
    cancellation. *)
Theorem run_attempt_accounts reg ctx timeout w :
  match get_runner reg (sc_agent_type ctx) with
  | Err e => run_attempt wiring reg ctx timeout w = (Err e, w)
  | Ok runner =>
      let '(r, (w', c)) := run wiring (runner ctx) (w, ctx) in
      match run_attempt wiring reg ctx timeout w with
      | (Ok o, w1) => w1 = w' /\ outcome_charges o = sc_charges c /\ outcome_effects o = sc_effects c /\
          match o with
          | StepSuccess out m _ _ rv recs =>
              r = Ok {| sr_output := out; sr_model_used := m |} /\ rv = sc_review c /\
              recs = sc_llm_recordings c
          | StepFailure et _ retryable _ _ _ =>
              exists e, r = Err e /\
                if bool_decide (exn_cls e = PyExc "TimeoutError")
                then et = "StepTimeoutError" /\ retryable = true
                else et = class_name (exn_cls e) /\ retryable = _classify e
          end
      | (Err e, w1) => w1 = w' /\ r = Err e /\ exn_cls e = PyExc "CancelledError"
      end
  end.
Proof.
  unfold run_attempt. destruct (get_runner reg (sc_agent_type ctx)) as [runner|]; [|done].
  destruct (run wiring (runner ctx) (w, ctx)) as [[res|e] [w' c]]; cbn.
  - destruct res. by split_and!.
  - unfold failure_of. case_bool_decide as Ht; cbn.
    + split_and!; try done. exists e. by rewrite bool_decide_true.
    + case_bool_decide as Hc; cbn; [done|]. split_and!; try done.
      exists e. by rewrite bool_decide_false.
Qed.
End replay.

(** ** Witness: a two-call runner replayed without a provider *)
Module ReplaySample.
Import LlmSample.

#[export] Instance hashing : Hashing := {| orjson_dumps _ := "d"; sha256_hexdigest s := s |}.
#[export] Instance no_outbox : OutboxStore unit := {|
  claim e := raise AssertionError; mark _ _ := raise AssertionError;
  list_for_instance _ _ _ := raise AssertionError |}.
#[export] Instance clock : Clock unit := {| now _ := 0%Z |}.

Definition wiring : Wiring unit :=
  {| wg_guard := None; wg_llm := Some (registry, {[ "flaky" := fun _ w => (Ok (answer "small"), w) ]}) |}.

Definition ask : LlmArgs := {|
  la_messages := [{| msg_role := "user"; msg_content := "hello" |}]; la_system := None;
  la_tools := None; la_tier := "standard"; la_max_tokens := 100; la_task_type := "general";
  la_expected_output_tokens := None; la_reliability_floor := fzero |}.

(** Ask once and return the text. *)
Definition prog : rprog :=
  RLlm ask (fun reply => match reply with
    | Ok r => RReturn {| sr_output := {[ "text" := JStr (lr_text r) ]}; sr_model_used := None |}
    | Err e => RRaise e
    end).

Definition ctx : StepContext := {|
  sc_instance_id := "i1"; sc_tenant_id := "t1"; sc_step_id := "s1"; sc_agent_type := "agent";
  sc_attempt := 1; sc_inputs := ∅; sc_instance_context := ∅; sc_budget := None;
  sc_replay_llm := []; sc_charges := []; sc_effects := []; sc_review := None;
  sc_llm_index := 0; sc_llm_recordings := [] |}.

Lemma prog_llm_only : llm_only prog.
Proof. constructor; [intros [r|e]; constructor|reflexivity]. Qed.
End ReplaySample.

Import LlmSample ReplaySample.

Lemma replay_reproduces_run_witness :
  exists r c' cc',
    run ReplaySample.wiring ReplaySample.prog (tt, ReplaySample.ctx) = (Ok r, (tt, c')) /\
    length (sc_charges c') = 1%nat /\
    run ReplaySample.wiring ReplaySample.prog
      (tt, replaying ReplaySample.ctx (sc_llm_recordings c') 0) = (Ok r, (tt, cc')) /\
    sc_charges cc' = [].
Proof.
  destruct (llm ReplaySample.wiring ReplaySample.ask (tt, ReplaySample.ctx))
    as [[reply|e] [[] c1]] eqn:E; [|vm_compute in E; discriminate E].
  destruct (replay_reproduces_run ReplaySample.wiring ReplaySample.prog tt ReplaySample.ctx
    {| sr_output := {[ "text" := JStr (lr_text reply) ]}; sr_model_used := None |} tt c1
    tt ReplaySample.ctx) as (H1 & cc' & H2 & H3 & _).
  - eapply CRLlm; [exact E|]. constructor.
  - apply ReplaySample.prog_llm_only.
  - reflexivity.
  - reflexivity.
  - reflexivity.
  - eexists _, c1, cc'. split_and!; [exact H1| |exact H2|exact H3].
    vm_compute in E. injection E as _ <-. reflexivity.
Defined.
