(* ===== verification/Evals.v ===== *)
(** The eval harness ([evals/]): suites and reports ([models.py]), the scorers
    ([scorers.py]) and the runner ([runner.py]).

    Scorers read JSON; [None] stands for the sentinel of a path that leads nowhere.
    Parameters: [re.search], the representation of the sentinel, and the texts of
    [PyStr].  A case has no timeout: a runner outliving one is not modelled here. *)

From stdpp Require Import base strings list gmap sorting pretty.
From Corelib Require Import SpecFloat.
From Stdlib Require Import ZArith Lia Ascii.
From S2P Require Import Prelude Exceptions Values Text PyOps Enums Dag Definitions Instance.
From S2P Require Import Events Tables Outbox Ports SideEffects Cost LlmClient Runners.
From S2P Require Import Digests.

Import Cost Llm.

(** ** Models *)

Record Check_ := {
  ck_scorer : string;
  ck_args : dict;
  ck_weight : float;
}.

Record EvalCase := {
  ca_name : string;
  ca_inputs : dict;
  ca_checks : list Check_;
  ca_tags : list string;
}.

Record EvalSuite := {
  su_name : string;
  su_target : string;
  su_description : string;
  su_threshold : float;
  su_cases : list EvalCase;
}.

(** The field constraints of the suite, which loading it checks. *)
Definition unit_interval (x : float) : bool := fleb fzero x && fleb x fone.

Definition suite_valid (s : EvalSuite) : bool :=
  unit_interval (su_threshold s) && negb (bool_decide (su_cases s = [])) &&
  forallb (fun c => match ca_checks c with [] => false | cs => forallb (fun k => fltb fzero (ck_weight k)) cs end)
    (su_cases s).

Record ScoreResult := {
  so_scorer : string;
  so_passed : bool;
  so_score : float;
  so_weight : float;
  so_detail : string;
}.

Record CaseResult := {
  cr_name : string;
  cr_passed : bool;
  cr_weighted_score : float;
  cr_scores : list ScoreResult;
  cr_output : dict;
  cr_cost_usd : float;
  cr_tokens_input : Z;
  cr_tokens_output : Z;
  cr_latency_seconds : float;
  cr_error : option string;
}.

Record SuiteReport := {
  rp_suite : string;
  rp_target : string;
  rp_threshold : float;
  rp_passed : bool;
  rp_pass_rate : float;
  rp_case_count : Z;
  rp_cases : list CaseResult;
  rp_total_cost_usd : float;
  rp_total_tokens_input : Z;
  rp_total_tokens_output : Z;
}.

Definition failed_cases (r : SuiteReport) : list CaseResult :=
  filter (fun c => cr_passed c = false) (rp_cases r).

Definition ValidationError (msg : string) : exn := Exn (PyExc "ValidationError") msg.

(** Building a model whose field must lie in the unit interval. *)
Definition in_unit {A} (x : float) (a : A) : res A :=
  if unit_interval x then Ok a else Err (ValidationError "Input should be between 0 and 1").

(** ** Scorers *)

Class EvalText := {
  missing_repr : string;                        (* [repr(_MISSING)] *)
  re_search : json -> string -> res bool;       (* [re.search(p, s) is not None] *)
}.

Section scorers.
Context {Ps : PyStr} {Et : EvalText}.

(** [repr(v)] *)
Definition repr_of (v : option json) : string :=
  match v with None => missing_repr | Some (JStr s) => py_repr s | Some v => py_str v end.

Definition is_minus (c : ascii) : bool := bool_decide (c = "-"%char).

(** [part.lstrip("-").isdigit()] *)
Definition index_like (part : string) : bool :=
  match lstrip is_minus (chars part) with
  | [] => false
  | ds => forallb (fun c => bool_decide (is_Some (digit c))) ds
  end.

(** [int(part)] of such a part: one sign at most. *)
Definition int_of_part (part : string) : res Z :=
  let '(neg, ds) := sign (chars part) in
  if forallb (fun c => bool_decide (is_Some (digit c))) ds
  then let n := number (omap digit ds) in Ok (if neg then - n else n)%Z
  else Err (Exn (PyExc "ValueError")
         ("invalid literal for int() with base 10: " +:+ py_repr part)).

(** [cur[idx] if -len(cur) <= idx < len(cur) else _MISSING] *)
Definition list_index (l : list json) (idx : Z) : option json :=
  let n := Z.of_nat (length l) in
  if ((- n <=? idx) && (idx <? n))%Z
  then l !! Z.to_nat (if idx <? 0 then n + idx else idx)%Z else None.

(** One step of a path. *)
Definition path_step (cur : json) (part : string) : res (option json) :=
  match cur with
  | JObj o => Ok (o !! part)
  | JArr l => if index_like part then idx ← int_of_part part; Ok (list_index l idx) else Ok None
  | _ => Ok None
  end.

Fixpoint walk_path (cur : json) (parts : list string) : res (option json) :=
  match parts with
  | [] => Ok (Some cur)
  | part :: rest =>
      next ← path_step cur part;
      match next with Some v => walk_path v rest | None => Ok None end
  end.

Definition resolve_path (root path : json) : res (option json) :=
  if negb (truthy path) then Ok (Some root)
  else match path with
       | JStr p => walk_path root (split_on "." p)
       | _ => Err (Exn (PyExc "AttributeError")
                (py_repr (type_name path) +:+ " object has no attribute 'split'"))
       end.

(** [args[key]], [args.get(key, d)] and the value at [args["path"]]. *)
Definition arg (args : dict) (key : string) : res json :=
  match args !! key with Some v => Ok v | None => Err (KeyError key) end.
Definition arg_or (args : dict) (key : string) (d : json) : json := default d (args !! key).
Definition at_path (root : json) (args : dict) : res (option json) :=
  resolve_path root (arg_or args "path" (JStr "")).

Definition _ok (scorer : string) (passed : bool) (detail : string) : ScoreResult := {|
  so_scorer := scorer; so_passed := passed; so_score := if passed then fone else fzero;
  so_weight := fone; so_detail := detail |}.

Definition PureScorer : Type := json -> dict -> res ScoreResult.

Definition _equals : PureScorer := fun root args =>
  actual ← at_path root args;
  expected ← arg args "value";
  Ok (_ok "equals" match actual with Some a => py_eq a expected | None => false end
        ("expected " +:+ repr_of (Some expected) +:+ ", got " +:+ repr_of actual)).

(** [n.lower()] *)
Definition lowered (v : json) : res string :=
  match v with
  | JStr s => Ok (lower s)
  | _ => Err (Exn (PyExc "AttributeError")
            (py_repr (type_name v) +:+ " object has no attribute 'lower'"))
  end.

Definition text_at (v : option json) : string :=
  match v with None => "" | Some v => str_of v end.

Definition needles (args : dict) : json :=
  or_else (match args !! "substring" with Some n => JArr [n] | None => JArr [] end)
    (args !! "substrings").

Fixpoint missing_needles (text : string) (ns : list json) : res (list json) :=
  match ns with
  | [] => Ok []
  | n :: rest =>
      low ← lowered n;
      more ← missing_needles text rest;
      Ok (if contains low (lower text) then more else n :: more)
  end.

Definition _contains : PureScorer := fun root args =>
  actual ← at_path root args;
  ns ← py_iter (needles args);
  missing ← missing_needles (text_at actual) ns;
  Ok (_ok "contains" (bool_decide (length missing = 0%nat))
        (match missing with [] => "all present" | _ => "missing " +:+ py_str (JArr missing) end)).

Definition _regex : PureScorer := fun root args =>
  actual ← at_path root args;
  pattern ← arg args "pattern";
  hit ← re_search pattern (text_at actual);
  Ok (_ok "regex" hit ("/" +:+ str_of pattern +:+ "/ "
                       +:+ if hit : bool then "matched" else "did not match")).

Definition is_number_error (e : exn) : bool :=
  bool_decide (exn_cls e = PyExc "TypeError" \/ exn_cls e = PyExc "ValueError").

Definition _in_range : PureScorer := fun root args =>
  path ← arg args "path";
  actual ← resolve_path root path;
  match py_float_of actual with
  | Err e => if is_number_error e
             then Ok (_ok "in_range" false (repr_of actual +:+ " is not numeric")) else Err e
  | Ok num =>
      let lo := arg_or args "min" (JFloat (S754_infinity true)) in
      let hi := arg_or args "max" (JFloat (S754_infinity false)) in
      above ← py_le lo (JFloat num);
      within ← (if above : bool then py_le (JFloat num) hi else Ok false);
      Ok (_ok "in_range" within (py_float num +:+ " in [" +:+ str_of lo +:+ ", " +:+ str_of hi +:+ "]"))
  end.

Definition _one_of : PureScorer := fun root args =>
  actual ← at_path root args;
  options ← arg args "options";
  hit ← py_in actual options;
  Ok (_ok "one_of" hit (repr_of actual +:+ " in " +:+ str_of options)).

Fixpoint missing_keys (o : dict) (ks : list json) : res (list json) :=
  match ks with
  | [] => Ok []
  | k :: rest =>
      there ← in_keys k o;
      more ← missing_keys o rest;
      Ok (if there : bool then more else k :: more)
  end.

Definition _json_keys : PureScorer := fun root args =>
  actual ← at_path root args;
  match actual with
  | Some (JObj o) =>
      required ← arg args "required";
      ks ← py_iter required;
      missing ← missing_keys o ks;
      Ok (_ok "json_keys" (bool_decide (length missing = 0%nat))
            (match missing with
             | [] => "all keys present"
             | _ => "missing keys " +:+ py_str (JArr missing)
             end))
  | _ => Ok (_ok "json_keys" false ("not an object: "
               +:+ match actual with Some v => type_name v | None => "object" end))
  end.

(** [actual in (None, "", [], {}, ())] *)
Definition is_empty (v : json) : bool :=
  match v with JNull => true | JStr _ | JArr _ | JObj _ => negb (truthy v) | _ => false end.

Definition _safe_len (v : json) : Z :=
  match v with
  | JStr s => Z.of_nat (String.length s)
  | JArr l => Z.of_nat (length l)
  | JObj o => Z.of_nat (size o)
  | _ => 1
  end.

Definition _non_empty : PureScorer := fun root args =>
  actual ← at_path root args;
  Ok match actual with
     | Some v => _ok "non_empty" (negb (is_empty v))
                   (if is_empty v then "empty" else "len=" +:+ pretty (_safe_len v))
     | None => _ok "non_empty" false "empty"
     end.

(** *** The judge *)

(** The first run of digits, with its fraction if any: [\d+(\.\d+)?]. *)
Fixpoint first_number (l : list ascii) : option (list ascii) :=
  match l with
  | [] => None
  | c :: l' =>
      match digit c with
      | None => first_number l'
      | Some _ =>
          let fix run (l : list ascii) : list ascii * list ascii :=
            match l with
            | c :: l' => if digit c then let '(ds, r) := run l' in (c :: ds, r) else ([], l)
            | [] => ([], [])
            end in
          let '(whole, rest) := run l in
          Some (match rest with
                | p :: rest' =>
                    match bool_decide (p = "."%char), (run rest').1 with
                    | true, d :: ds => whole ++ p :: d :: ds
                    | _, _ => whole
                    end
                | [] => whole
                end)
      end
  end.

Definition judged (raw : string) : float :=
  match first_number (chars raw) with
  | Some l => fmin (fmax (fdiv (default fzero (literal l)) (float_of_Z 10)) fzero) fone
  | None => fzero
  end.

Definition _JUDGE_SYSTEM : string :=
  "You are a strict evaluation judge. Score how well the OUTPUT satisfies the " +:+
  "RUBRIC on a 0-10 integer scale. Respond with only the number.".

(** [CostTier(value) if isinstance(value, str) else value]; no tier but a [CostTier]
    gets past the router. *)
Definition _coerce_tier (v : json) : res CostTier :=
  match v with
  | JStr s => parse_tier s
  | _ => Err (Exn (PyExc "AttributeError")
            (py_repr (type_name v) +:+ " object has no attribute 'value'"))
  end.

Section judge.
Context {W : Type}.

Record ScorerDeps := {
  judge : option (ModelRegistry * LLMProviderRegistry W);
  judge_tier : string;
}.

Definition judge_args (content : string) (tier : CostTier) : CompleteArgs := {|
  ca_messages := [{| msg_role := "user"; msg_content := content |}];
  ca_system := Some _JUDGE_SYSTEM; ca_tools := None; ca_max_tokens := 8; ca_tier := tier;
  ca_task_type := "eval_judge"; ca_needs_vision := false; ca_reliability_floor := fzero;
  ca_expected_output_tokens := None; ca_budget := None |}.

Definition _llm_judge (root : json) (args : dict) (deps : ScorerDeps) : M W exn ScoreResult :=
  match judge deps with
  | None => mret {| so_scorer := "llm_judge"; so_passed := false; so_score := fzero;
                    so_weight := fone; so_detail := "no judge LLM configured" |}
  | Some (registry, providers) =>
      target ← lift (at_path root args);
      rubric ← lift (arg args "rubric");
      pass_at ← lift (py_float_of (Some (arg_or args "threshold" (JFloat (fratio 7 10)))));
      tier ← lift (_coerce_tier (arg_or args "tier" (JStr (judge_tier deps))));
      completion ← complete registry providers (judge_args
        ("RUBRIC:" +:+ nl +:+ str_of rubric +:+ nl +:+ nl +:+ "OUTPUT:" +:+ nl
         +:+ match target with Some v => str_of v | None => missing_repr end) tier);
      let raw := strip (lr_text (cp_response completion)) in
      let score01 := judged raw in
      lift (in_unit score01 {| so_scorer := "llm_judge"; so_passed := fleb pass_at score01; so_score := score01;
                 so_weight := fone;
                 so_detail := "judge said " +:+ py_repr raw +:+ " -> " +:+ fmt_fixed 2 score01
                              +:+ " (need " +:+ fmt_fixed 2 pass_at +:+ ")" |})
  end.

Definition Scorer : Type := json -> dict -> ScorerDeps -> M W exn ScoreResult.

Definition pure (s : PureScorer) : Scorer := fun root args _ => lift (s root args).

Definition SCORERS : list (string * Scorer) :=
  [("equals", pure _equals); ("contains", pure _contains); ("regex", pure _regex);
   ("in_range", pure _in_range); ("one_of", pure _one_of); ("json_keys", pure _json_keys);
   ("non_empty", pure _non_empty); ("llm_judge", _llm_judge)].

Definition get_scorer (name : string) : res Scorer :=
  match filter (fun p => p.1 = name) SCORERS with
  | p :: _ => Ok p.2
  | [] => Err (Exn ConfigurationError ("unknown scorer " +:+ py_repr name +:+ "; available: "
            +:+ py_str (JArr (JStr <$> Dag.py_sorted SCORERS.*1))))
  end.
End judge.
End scorers.
Arguments ScorerDeps W : clear implicits.

(** ** The runner *)

Section runner.
Context {Hh : Hashing} {Ps : PyStr} {Et : EvalText} {W : Type} {Os : OutboxStore W} {Ck : Clock W}.

(** [EvalRunner]: the registry, the LLM client and the judge it was given, if any. *)
Record EvalRunner := {
  er_registry : gmap string StepRunner;
  er_llm : ModelRegistry * LLMProviderRegistry W;
  er_judge : option (ModelRegistry * LLMProviderRegistry W);
  er_judge_tier : string;
}.
Context (self : EvalRunner).

(** [ScorerDeps(judge=judge or llm, ...)] *)
Definition deps : ScorerDeps W := {|
  judge := Some (default (er_llm self) (er_judge self)); judge_tier := er_judge_tier self |}.

Definition eval_context (suite : EvalSuite) (case : EvalCase) : StepContext := {|
  sc_instance_id := "eval-" +:+ su_name suite; sc_tenant_id := "eval";
  sc_step_id := ca_name case; sc_agent_type := su_target suite; sc_attempt := 1;
  sc_inputs := ca_inputs case; sc_instance_context := ∅; sc_budget := None;
  sc_replay_llm := []; sc_charges := []; sc_effects := []; sc_review := None;
  sc_llm_index := 0; sc_llm_recordings := [] |}.

Definition wiring : Wiring W := {| wg_guard := None; wg_llm := Some (er_llm self) |}.

(** [(later - earlier).total_seconds()] *)
Definition total_seconds (d : Z) : float := fratio d 1000000.

Definition with_weight (w : float) (s : ScoreResult) : ScoreResult := {|
  so_scorer := so_scorer s; so_passed := so_passed s; so_score := so_score s;
  so_weight := w; so_detail := so_detail s |}.

Definition _score (output : dict) (check : Check_) : M W exn ScoreResult :=
  scorer ← lift (get_scorer (ck_scorer check));
  result ← scorer (JObj output) (ck_args check) deps;
  mret (with_weight (ck_weight check) result).

(** [runner.run(ctx)]: its outcome and what it charged; cancellation passes. *)
Definition run_agent (runner : StepRunner) (ctx : StepContext)
    : M W exn (res StepResult * StepContext) := fun w =>
  let '(r, (w', c)) := run wiring (runner ctx) (w, ctx) in
  (match r with
   | Err e => if is_Exception e then Ok (Err e, c) else Err e
   | Ok result => Ok (Ok result, c)
   end, w').

Definition charged (c : StepContext) : float := fsum (ce_amount_usd <$> sc_charges c).
Definition zsum (l : list Z) : Z := foldl Z.add 0%Z l.

Definition crashed_case (case : EvalCase) (c : StepContext) (e : exn) (elapsed : Z) : CaseResult := {|
  cr_name := ca_name case; cr_passed := false; cr_weighted_score := fzero; cr_scores := [];
  cr_output := ∅; cr_cost_usd := charged c; cr_tokens_input := 0; cr_tokens_output := 0;
  cr_latency_seconds := total_seconds elapsed;
  cr_error := Some (class_name (exn_cls e) +:+ ": " +:+ exn_msg e) |}.

(** [sum(weights) or 1.0] *)
Definition total_weight (scores : list ScoreResult) : float :=
  match fsum (so_weight <$> scores) with S754_zero _ => fone | t => t end.

Definition weighted_score (scores : list ScoreResult) : float :=
  fdiv (fsum ((fun s => fmul (so_score s) (so_weight s)) <$> scores)) (total_weight scores).

Definition scored_case (case : EvalCase) (c : StepContext) (output : dict)
    (scores : list ScoreResult) (elapsed : Z) : CaseResult := {|
  cr_name := ca_name case; cr_passed := forallb so_passed scores;
  cr_weighted_score := weighted_score scores; cr_scores := scores; cr_output := output;
  cr_cost_usd := charged c; cr_tokens_input := zsum (ce_tokens_input <$> sc_charges c);
  cr_tokens_output := zsum (ce_tokens_output <$> sc_charges c);
  cr_latency_seconds := total_seconds elapsed; cr_error := None |}.

Definition _run_case (suite : EvalSuite) (runner : StepRunner) (case : EvalCase)
    : M W exn CaseResult :=
  started ← read_clock;
  '(outcome, c) ← run_agent runner (eval_context suite case);
  ended ← read_clock;
  match outcome with
  | Err e => mret (crashed_case case c e (ended - started))
  | Ok result =>
      scores ← mapM_ (_score (sr_output result)) (ca_checks case);
      lift (in_unit (weighted_score scores)
              (scored_case case c (sr_output result) scores (ended - started)))
  end.

Definition pass_rate (results : list CaseResult) : float :=
  match results with
  | [] => fzero
  | _ => fdiv (fsum (cr_weighted_score <$> results)) (float_of_Z (Z.of_nat (length results)))
  end.

Definition report_of (suite : EvalSuite) (results : list CaseResult) : SuiteReport := {|
  rp_suite := su_name suite; rp_target := su_target suite; rp_threshold := su_threshold suite;
  rp_passed := fleb (su_threshold suite) (pass_rate results);
  rp_pass_rate := pass_rate results; rp_case_count := Z.of_nat (length results);
  rp_cases := results; rp_total_cost_usd := fsum (cr_cost_usd <$> results);
  rp_total_tokens_input := zsum (cr_tokens_input <$> results);
  rp_total_tokens_output := zsum (cr_tokens_output <$> results) |}.

Definition run_suite (suite : EvalSuite) : M W exn SuiteReport :=
  runner ← lift (get_runner (er_registry self) (su_target suite));
  results ← mapM_ (_run_case suite runner) (su_cases suite);
  lift (in_unit (pass_rate results) (report_of suite results)).
End runner.
Arguments EvalRunner W : clear implicits.

(** ** Theorems *)

Lemma in_unit_Ok {A} x (a b : A) : in_unit x a = Ok b -> b = a /\ unit_interval x = true.
Proof. unfold in_unit. destruct (unit_interval x); [|done]. by intros [= ->]. Qed.

Section paths.
Context {Ps : PyStr} {Et : EvalText}.

Lemma walk_path_app v ps qs :
  walk_path v (ps ++ qs)
  = (u ← walk_path v ps; match u with Some u => walk_path u qs | None => Ok None end).
Proof.
  revert v. induction ps as [|p ps IH]; intros v; [done|]. cbn [app walk_path].
  destruct (path_step v p) as [[u|]|e]; cbn; [apply IH|done|done].
Qed.

(** Paths compose: following [a.b] is following [a] and then [b] from what was found. *)
Theorem resolve_path_compose root a b :
  a <> "" -> b <> "" ->
  resolve_path root (JStr (a +:+ "." +:+ b))
  = (u ← resolve_path root (JStr a);
     match u with Some u => resolve_path u (JStr b) | None => Ok None end).
Proof.
  intros Ha Hb. assert (forall s, s <> "" -> truthy (JStr s) = true) as Ht
    by (intros s Hs; cbn; by rewrite bool_decide_false).
  unfold resolve_path. rewrite !Ht by (by destruct a). cbn [negb].
  change ("." +:+ b) with (String "."%char b). rewrite split_on_app, walk_path_app.
  destruct (walk_path root _) as [[u|]|e]; cbn [mbind result_bind]; done.
Qed.
End paths.

Section theorems.
Context {Hh : Hashing} {Ps : PyStr} {Et : EvalText} {W : Type} {Os : OutboxStore W} {Ck : Clock W}.
Context (self : EvalRunner W).

(** The score of a check: the scorer's name, the check's weight, a score in range. *)
Definition score_sound (ck : Check_) (s : ScoreResult) : Prop :=
  so_scorer s = ck_scorer ck /\ so_weight s = ck_weight ck /\ unit_interval (so_score s) = true.

(** The result of a case: a crash is a failure without scores; otherwise every check
    was scored, in order, and the case passes when they all pass. *)
Definition case_sound (case : EvalCase) (r : CaseResult) : Prop :=
  cr_name r = ca_name case /\ unit_interval (cr_weighted_score r) = true /\
  match cr_error r with
  | Some _ => cr_passed r = false /\ cr_scores r = [] /\ cr_weighted_score r = fzero
  | None => Forall2 score_sound (ca_checks case) (cr_scores r) /\
            (cr_passed r = true <-> Forall (fun s => so_passed s = true) (cr_scores r))
  end.

Definition named (name : string) (s : ScoreResult) : Prop :=
  so_scorer s = name /\ unit_interval (so_score s) = true.

Lemma ok_named name b detail : named name (_ok name b detail).
Proof. by split; [|destruct b]. Qed.

Lemma get_scorer_in name (scorer : Scorer (W := W)) :
  get_scorer name = Ok scorer -> (name, scorer) ∈ SCORERS.
Proof.
  unfold get_scorer. destruct (filter _ SCORERS) as [|[n s] l] eqn:E; [done|]. intros [= <-].
  assert ((n, s) ∈ (n, s) :: l) as Hin by left. rewrite <- E, list_elem_of_filter in Hin.
  destruct Hin as [<- Hin]. exact Hin.
Qed.

Ltac bind_ok :=
  repeat match goal with
  | H : mbind _ _ = Ok _ |- _ => apply bind_Ok in H as (? & ? & H)
  end.

(** Every pure scorer makes its result with [_ok]. *)
Definition makes_ok (name : string) (p : PureScorer) : Prop :=
  forall root args s, p root args = Ok s -> exists b detail, s = _ok name b detail.

Lemma pure_scorers_ok :
  makes_ok "equals" _equals /\ makes_ok "contains" _contains /\ makes_ok "regex" _regex /\
  makes_ok "in_range" _in_range /\ makes_ok "one_of" _one_of /\ makes_ok "json_keys" _json_keys /\
  makes_ok "non_empty" _non_empty.
Proof.
  split_and!; intros root args s Hs;
    unfold _equals, _contains, _regex, _in_range, _one_of, _json_keys, _non_empty in Hs; bind_ok;
    try (injection Hs as <-; eauto).
  - destruct (py_float_of _) as [num|e]; bind_ok; [injection Hs as <-; eauto|].
    destruct (is_number_error e); [|done]. injection Hs as <-. eauto.
  - destruct x as [[]|]; try (injection Hs as <-; eauto). bind_ok. injection Hs as <-. eauto.
  - destruct x as [v|]; eauto.
Qed.

Lemma get_scorer_named name scorer root args w s w' :
  get_scorer name = Ok scorer -> scorer root args (deps self) w = (Ok s, w') -> named name s.
Proof.
  intros Hg%get_scorer_in Hs. destruct pure_scorers_ok as (H1 & H2 & H3 & H4 & H5 & H6 & H7).
  assert (forall n p, makes_ok n p -> (name, scorer) = (n, pure p) -> named name s) as Hpure.
  { intros n p Hp [= -> ->]. unfold pure, lift in Hs. injection Hs as Hs _.
    apply Hp in Hs as (b & d & ->). apply ok_named. }
  unfold SCORERS in Hg. rewrite !elem_of_cons in Hg.
  destruct Hg as [Hg|[Hg|[Hg|[Hg|[Hg|[Hg|[Hg|[Hg|Hg]]]]]]]]; eauto; [|by apply elem_of_nil in Hg].
  injection Hg as -> ->. unfold _llm_judge in Hs. cbn [judge deps] in Hs.
  destruct (default _ _) as [registry providers].
  do 4 apply M_bind_Ok in Hs as (? & ? & _ & Hs). apply M_bind_Ok in Hs as (c & w2 & _ & Hs).
  unfold lift in Hs. injection Hs as Hs _. apply in_unit_Ok in Hs as [-> Hu]. by split.
Qed.

Abbreviation anything := (fun _ : W => True).
Abbreviation always := (fun _ _ : W => True).

#[local] Instance always_preorder : PreOrder always.
Proof. by split. Qed.

Lemma score_spec output ck :
  triple anything always (_score self output ck) (fun s _ => True /\ score_sound ck s).
Proof.
  intros w _. split; [done|]. destruct (_score self output ck w) as [[s|e] w'] eqn:E; [|done].
  cbn. split; [done|]. unfold _score in E. apply M_bind_Ok in E as (scorer & w1 & Hg & E).
  apply M_bind_Ok in E as (r & w2 & Hr & E). injection E as <- _. unfold lift in Hg.
  injection Hg as Hg _. by destruct (get_scorer_named _ _ _ _ _ _ _ Hg Hr).
Qed.

Lemma run_case_spec suite runner case :
  triple anything always (_run_case self suite runner case) (fun r _ => True /\ case_sound case r).
Proof.
  unfold _run_case. eapply triple_bind; [apply _|apply triple_gets, _|intros t0].
  eapply (triple_bind _ _ _ _ (fun _ => anything)); [by intros w _; split; [|case_match]|intros [outcome c]].
  eapply (triple_bind _ _ _ _ (fun _ => anything)); [by intros w _|intros t1].
  destruct outcome as [result|e].
  - eapply triple_bind; [apply _|apply triple_mapM; [apply _|intros ck _; apply score_spec]|].
    intros scores. apply triple_pure. intros Hs. intros w _. split; [done|]. unfold lift. cbn.
    destruct (in_unit _ _) as [r|e] eqn:Hu; [|done]. apply in_unit_Ok in Hu as [-> Hu].
    split; [done|]. split; [done|]. split; [done|]. cbn. split; [done|].
    rewrite forallb_forall, Forall_forall. by setoid_rewrite list_elem_of_In.
  - apply triple_ret_post; [apply _|]. intros w _. by split.
Qed.

(** A report says what happened.  When a suite runs to a report, the report has one
    result per case, in order; a case whose agent crashed is a failed case without
    scores, and in any other case every check was scored by the scorer it names, with
    the check's weight and a score between 0 and 1, and the case passes exactly when
    all its checks do.  The pass rate is between 0 and 1, the verdict is its comparison
    with the suite's threshold, and the totals are the sums over the cases. *)
Theorem eval_report_sound suite w r w' :
  run_suite self suite w = (Ok r, w') ->
  Forall2 case_sound (su_cases suite) (rp_cases r) /\
  rp_case_count r = Z.of_nat (length (su_cases suite)) /\
  unit_interval (rp_pass_rate r) = true /\ rp_pass_rate r = pass_rate (rp_cases r) /\
  (rp_passed r = true <-> fleb (su_threshold suite) (rp_pass_rate r) = true) /\
  rp_total_cost_usd r = fsum (cr_cost_usd <$> rp_cases r) /\
  rp_total_tokens_input r = zsum (cr_tokens_input <$> rp_cases r) /\
  rp_total_tokens_output r = zsum (cr_tokens_output <$> rp_cases r).
Proof.
  unfold run_suite. intros (runner & w1 & _ & H)%M_bind_Ok.
  apply M_bind_Ok in H as (results & w2 & Hm & H). unfold lift in H. injection H as H _.
  apply in_unit_Ok in H as [-> Hu].
  pose proof (triple_mapM always anything (_run_case self suite runner) case_sound (su_cases suite)) as Ht.
  destruct (Ht (fun c _ => run_case_spec suite runner c) w1 I) as [_ Hall]. rewrite Hm in Hall.
  cbn in Hall. destruct Hall as [_ Hall]. split_and!; try done.
  cbn. by rewrite (Forall2_length _ _ _ Hall).
Qed.

(** A crash stays in its case: the case of an agent that raises has a result, whatever
    it raised (short of cancellation), with what it had spent. *)
Lemma crash_is_a_failed_case suite runner case w e w1 c :
  run (wiring self) (runner (eval_context suite case)) (w, eval_context suite case) = (Err e, (w1, c)) ->
  is_Exception e = true ->
  _run_case self suite runner case w = (Ok (crashed_case case c e (now w1 - now w)), w1).
Proof.
  intros Hr He. unfold _run_case, run_agent, read_clock, mbind, M_bind, gets.
  rewrite Hr, He. reflexivity.
Qed.

(** A scorer's error does not: a check that raises ends the whole run, and the results
    of the cases already run, and paid for, are lost. *)
Lemma bad_check_aborts_suite suite runner pre case post done_ w w1 result c w2 e w3 :
  get_runner (er_registry self) (su_target suite) = Ok runner ->
  su_cases suite = pre ++ case :: post ->
  mapM_ (_run_case self suite runner) pre w = (Ok done_, w1) ->
  run_agent self runner (eval_context suite case) w1 = (Ok (Ok result, c), w2) ->
  mapM_ (_score self (sr_output result)) (ca_checks case) w2 = (Err e, w3) ->
  run_suite self suite w = (Err e, w3).
Proof.
  intros Hg Hc Hpre Ha Hs. unfold run_suite.
  rewrite (M_bind_step _ _ w runner w) by (unfold lift; by rewrite Hg).
  assert (_run_case self suite runner case w1 = (Err e, w3)) as Hcase.
  { unfold _run_case, read_clock, mbind, M_bind, gets. rewrite Ha. by rewrite Hs. }
  assert (mapM_ (_run_case self suite runner) (su_cases suite) w = (Err e, w3)) as Hm.
  { rewrite Hc. clear Hc. revert w done_ Hpre. induction pre as [|c0 pre IH]; intros w done_ Hpre.
    - injection Hpre as _ ->. cbn [app mapM_]. unfold mbind, M_bind. by rewrite Hcase.
    - cbn [app mapM_] in *. apply M_bind_Ok in Hpre as (r0 & w0 & H0 & Hpre).
      apply M_bind_Ok in Hpre as (rs & w0' & H1 & [= <- <-]).
      rewrite (M_bind_step _ _ _ _ _ H0). unfold mbind at 1, M_bind at 1. by rewrite (IH _ _ H1). }
  unfold mbind, M_bind. by rewrite Hm.
Qed.
End theorems.

(** ** Example: the echo agent under three checks *)
Module EvalSample.
Import LlmSample.

#[export] Instance text : EvalText := {| missing_repr := "<object>"; re_search _ _ := Ok true |}.
#[export] Instance hashing : Hashing := {| orjson_dumps _ := ""; sha256_hexdigest s := s |}.
#[export] Instance clock : Clock unit := {| now _ := 0%Z |}.
#[export] Instance outbox : OutboxStore unit := {|
  claim e := mret e; mark _ _ := mret tt; list_for_instance _ _ _ := mret [] |}.

Definition runner : EvalRunner unit := {|
  er_registry := default_registry; er_llm := (registry, providers); er_judge := None;
  er_judge_tier := "standard" |}.

Definition check (scorer : string) (args : list (string * json)) : Check_ :=
  {| ck_scorer := scorer; ck_args := list_to_map args; ck_weight := fone |}.

Definition suite : EvalSuite := {|
  su_name := "echo"; su_target := "echo_agent"; su_description := ""; su_threshold := fratio 6 10;
  su_cases := [{| ca_name := "c1"; ca_inputs := {[ "tags" := JArr [JStr "a"; JStr "b"] ]};
    ca_checks := [check "equals" [("path", JStr "attempt"); ("value", JFloat fone)];
                  check "one_of" [("path", JStr "inputs.tags.-1"); ("options", JArr [JStr "b"])];
                  check "non_empty" [("path", JStr "inputs.tags.7")]]; ca_tags := [] |}] |}.

(** A check that names no value. *)
Definition careless : EvalSuite := {|
  su_name := "echo"; su_target := "echo_agent"; su_description := ""; su_threshold := fone;
  su_cases := su_cases suite ++
    [{| ca_name := "c2"; ca_inputs := ∅; ca_checks := [check "equals" []]; ca_tags := [] |}] |}.
End EvalSample.
Import EvalSample LlmSample.

Lemma eval_report_sound_witness :
  exists r, run_suite EvalSample.runner suite tt = (Ok r, tt) /\
    Forall2 case_sound (su_cases suite) (rp_cases r) /\
    rp_passed r = true /\ rp_pass_rate r = fratio 2 3 /\
    (cr_passed <$> rp_cases r) = [false].
Proof.
  destruct (run_suite EvalSample.runner suite tt) as [[r|e] []] eqn:E; [|vm_compute in E; discriminate E].
  destruct (eval_report_sound EvalSample.runner suite tt r tt E) as [H _].
  exists r. split; [done|]. split; [exact H|]. vm_compute in E. injection E as <-. done.
Defined.

(** The first case ran; its result is lost to the second case's check. *)
Lemma careless_check_loses_the_run :
  fst (run_suite EvalSample.runner careless tt) = Err (KeyError "value").
Proof. vm_compute. reflexivity. Qed.
