(* ===== verification/ModelFiles.v ===== *)
(** The files the engine reads and writes as data: the model registry
    ([core/cost/registry.py], [config/models.yaml]), eval suites ([evals/models.py],
    [evals/runner.py]) and the JSON of a report ([evals/report.py]).

    The file system and PyYAML are parameters ([Files]): a document is a tree whose
    mappings keep the order of their keys, which are strings and distinct. *)

From stdpp Require Import base strings list gmap.
From Corelib Require Import SpecFloat.
From Stdlib Require Import ZArith Lia.
From S2P Require Import Prelude Exceptions Values Text Enums Cost Evals EventCodec ModelCodec.

Import EventModels StateModels Cost.

(** ** Documents *)

Inductive yaml :=
| YNull
| YBool (b : bool)
| YInt (z : Z)
| YFloat (x : float)
| YStr (s : string)
| YSeq (l : list yaml)
| YMap (o : list (string * yaml)).

Fixpoint json_of (y : yaml) : json :=
  match y with
  | YNull => JNull
  | YBool b => JBool b
  | YInt z => JInt z
  | YFloat x => JFloat x
  | YStr s => JStr s
  | YSeq l => JArr (json_of <$> l)
  | YMap o => JObj (list_to_map ((fun p => (p.1, json_of p.2)) <$> o))
  end.

(** [y or {}] *)
Definition yaml_truthy (y : yaml) : bool :=
  match y with
  | YNull | YBool false | YInt 0 | YFloat (S754_zero _) | YSeq [] | YMap [] => false
  | YStr s => negb (bool_decide (s = ""))
  | _ => true
  end.
Definition or_empty (y : yaml) : yaml := if yaml_truthy y then y else YMap [].

Definition AttributeError (name : string) : exn := Exn (PyExc "AttributeError") name.
Definition TypeError (msg : string) : exn := Exn (PyExc "TypeError") msg.

(** [y.get(key)] and [y.items()] *)
Definition yaml_get (key : string) (y : yaml) : res yaml :=
  match y with
  | YMap o => Ok (match list_find (fun p => p.1 = key) o with
                  | Some (_, (_, v)) => v
                  | None => YNull
                  end)
  | _ => Err (AttributeError "get")
  end.
Definition yaml_items (y : yaml) : res (list (string * yaml)) :=
  match y with YMap o => Ok o | _ => Err (AttributeError "items") end.

(** What [for k in y] goes through. *)
Definition yaml_iter (y : yaml) : res (list yaml) :=
  match y with
  | YSeq l => Ok l
  | YMap o => Ok (YStr <$> o.*1)
  | YStr s => Ok ((fun c => YStr (String c "")) <$> chars s)
  | _ => Err (TypeError "object is not iterable")
  end.

Class Files := {
  path_str : string -> string;              (* [str(Path(path))] *)
  is_file : string -> bool;
  read_text : string -> res string;
  safe_load : string -> res yaml;
}.

(** ** The model registry *)

Definition model_config_valid (m : ModelConfig) : bool :=
  fleb fzero (mc_input_per_mtok m) && fleb fzero (mc_output_per_mtok m) &&
  (0 <? mc_context_window m)%Z && (0 <? mc_max_output_tokens m)%Z &&
  (0 <=? mc_avg_latency_ms m)%Z && unit_interval (mc_reliability_score m).

Section registry.
Context {L : Lax} {Ps : PyStr}.

Definition ModelConfig_model : ModelOf ModelConfig := {|
  mo_fields := ["key"; "model_id"; "provider"; "input_per_mtok"; "output_per_mtok";
                "context_window"; "max_output_tokens"; "avg_latency_ms"; "reliability_score";
                "supports_tools"; "supports_vision"; "tiers"];
  mo_dump m :=
    [("key", ty_dump t_str (mc_key m)); ("model_id", ty_dump t_str (mc_model_id m));
     ("provider", ty_dump t_str (mc_provider m));
     ("input_per_mtok", ty_dump t_float (mc_input_per_mtok m));
     ("output_per_mtok", ty_dump t_float (mc_output_per_mtok m));
     ("context_window", ty_dump t_int (mc_context_window m));
     ("max_output_tokens", ty_dump t_int (mc_max_output_tokens m));
     ("avg_latency_ms", ty_dump t_int (mc_avg_latency_ms m));
     ("reliability_score", ty_dump t_float (mc_reliability_score m));
     ("supports_tools", ty_dump t_bool (mc_supports_tools m));
     ("supports_vision", ty_dump t_bool (mc_supports_vision m));
     ("tiers", ty_dump (t_list t_cost_tier) (mc_tiers m))];
  mo_build o :=
    key ← req t_str "key" o; model_id ← req t_str "model_id" o; provider ← req t_str "provider" o;
    input ← req (t_where t_float (fleb fzero)) "input_per_mtok" o;
    output ← req (t_where t_float (fleb fzero)) "output_per_mtok" o;
    window ← req (t_where t_int (fun n => 0 <? n)%Z) "context_window" o;
    most ← req (t_where t_int (fun n => 0 <? n)%Z) "max_output_tokens" o;
    latency ← req (t_ge 0) "avg_latency_ms" o;
    reliability ← req (t_where t_float unit_interval) "reliability_score" o;
    tools ← opt t_bool true "supports_tools" o; vision ← opt t_bool false "supports_vision" o;
    tiers ← opt (t_list t_cost_tier) [] "tiers" o;
    Ok {| mc_key := key; mc_model_id := model_id; mc_provider := provider;
          mc_input_per_mtok := input; mc_output_per_mtok := output; mc_context_window := window;
          mc_max_output_tokens := most; mc_avg_latency_ms := latency;
          mc_reliability_score := reliability; mc_supports_tools := tools;
          mc_supports_vision := vision; mc_tiers := tiers |};
  mo_ok := model_config_valid |}.

(** [ModelConfig(key=key, **spec)] *)
Definition model_config (key : string) (spec : yaml) : res ModelConfig :=
  match spec with
  | YMap o =>
      if bool_decide ("key" ∈ o.*1)
      then Err (TypeError "got multiple values for keyword argument 'key'")
      else build_model ModelConfig_model (json_of (YMap (("key", YStr key) :: o)))
  | _ => Err (TypeError "argument after ** must be a mapping")
  end.

(** [CostTier(tier_name)] *)
Definition cost_tier_of (name : string) : res CostTier :=
  match ty_validate t_cost_tier (JStr name) with
  | Some tier => Ok tier
  | None => Err (Exn (PyExc "ValueError") (py_repr name +:+ " is not a valid CostTier"))
  end.

(** [repr(k)] of a scalar. *)
Definition repr_scalar (k : yaml) : string :=
  match k with YStr s => py_repr s | k => py_str (json_of k) end.

(** One link of a chain: [k not in models] hashes [k] first. *)
Definition chain_link (models : list (string * ModelConfig)) (tier_name : string) (k : yaml)
    : res string :=
  let unknown := Err (Exn ConfigurationError
    ("fallback_chains[" +:+ tier_name +:+ "] references unknown model " +:+ repr_scalar k)) in
  match k with
  | YStr s => if bool_decide (s ∈ models.*1) then Ok s else unknown
  | YSeq _ | YMap _ => Err (TypeError "unhashable type")
  | _ => unknown
  end.

Definition load_chain (models : list (string * ModelConfig)) (chain : string * yaml)
    : res (CostTier * list string) :=
  tier ← cost_tier_of chain.1;
  keys ← yaml_iter chain.2;
  links ← mapM (chain_link models chain.1) keys;
  Ok (tier, links).

Definition from_dict (raw : yaml) : res ModelRegistry :=
  models_raw ← yaml_get "models" raw;
  if negb (yaml_truthy models_raw)
  then Err (Exn ConfigurationError "model registry has no 'models'")
  else
    specs ← yaml_items models_raw;
    models ← mapM (fun p => m ← model_config p.1 p.2; Ok (p.1, m)) specs;
    chains_raw ← yaml_get "fallback_chains" raw;
    chains_raw ← yaml_items (or_empty chains_raw);
    chains ← mapM (load_chain models) chains_raw;
    Ok {| reg_models := models; reg_chains := chains |}.

Context {Fs : Files}.

Definition from_path (path : string) : res ModelRegistry :=
  if is_file path then
    text ← read_text path;
    raw ← safe_load text;
    from_dict (or_empty raw)
  else Err (Exn ConfigurationError ("model registry not found: " +:+ path_str path)).

(** The registry is the object's state. *)
Definition reload (path : string) : M ModelRegistry exn unit := fun self =>
  match from_path path with
  | Ok fresh => (Ok tt, fresh)
  | Err e => (Err e, self)
  end.
End registry.

(** ** Eval suites *)

Section suites.
Context {L : Lax}.

Definition check_valid (k : Check_) : bool := fltb fzero (ck_weight k).
Definition case_valid (c : EvalCase) : bool :=
  match ca_checks c with [] => false | cs => forallb check_valid cs end.

Definition nonempty {A} (l : list A) : bool := match l with [] => false | _ => true end.

Definition Check_model : ModelOf Check_ := {|
  mo_fields := ["scorer"; "args"; "weight"];
  mo_dump k := [("scorer", ty_dump t_str (ck_scorer k)); ("args", ty_dump t_dict (ck_args k));
                ("weight", ty_dump t_float (ck_weight k))];
  mo_build o :=
    scorer ← req t_str "scorer" o; args ← opt_dict "args" o;
    weight ← opt (t_where t_float (fltb fzero)) fone "weight" o;
    Ok {| ck_scorer := scorer; ck_args := args; ck_weight := weight |};
  mo_ok := check_valid |}.

Definition EvalCase_model : ModelOf EvalCase := {|
  mo_fields := ["name"; "inputs"; "checks"; "tags"];
  mo_dump c := [("name", ty_dump t_str (ca_name c)); ("inputs", ty_dump t_dict (ca_inputs c));
                ("checks", ty_dump (t_list (t_model Check_model)) (ca_checks c));
                ("tags", ty_dump (t_list t_str) (ca_tags c))];
  mo_build o :=
    name ← req t_str "name" o; inputs ← opt_dict "inputs" o;
    checks ← req (t_where (t_list (t_model Check_model)) nonempty) "checks" o;
    tags ← opt (t_list t_str) [] "tags" o;
    Ok {| ca_name := name; ca_inputs := inputs; ca_checks := checks; ca_tags := tags |};
  mo_ok := case_valid |}.

Definition EvalSuite_model : ModelOf EvalSuite := {|
  mo_fields := ["name"; "target"; "description"; "threshold"; "cases"];
  mo_dump s := [("name", ty_dump t_str (su_name s)); ("target", ty_dump t_str (su_target s));
                ("description", ty_dump t_str (su_description s));
                ("threshold", ty_dump t_float (su_threshold s));
                ("cases", ty_dump (t_list (t_model EvalCase_model)) (su_cases s))];
  mo_build o :=
    name ← req t_str "name" o; target ← req t_str "target" o;
    description ← opt t_str "" "description" o;
    threshold ← opt (t_where t_float unit_interval) (fratio 8 10) "threshold" o;
    cases ← req (t_where (t_list (t_model EvalCase_model)) nonempty) "cases" o;
    Ok {| su_name := name; su_target := target; su_description := description;
          su_threshold := threshold; su_cases := cases |};
  mo_ok := suite_valid |}.

Definition validate_suite (y : yaml) : res EvalSuite := build_model EvalSuite_model (json_of y).

Context {Fs : Files}.

Definition load_suite (path : string) : res EvalSuite :=
  if is_file path then
    text ← read_text path;
    raw ← safe_load text;
    validate_suite raw
  else Err (Exn (PyExc "FileNotFoundError") ("eval suite not found: " +:+ path_str path)).
End suites.

(** ** Reports *)

Section reports.
Context {L : Lax}.

(** [report.model_dump()] *)
Definition dump_score (s : ScoreResult) : json := JObj (list_to_map
  [("scorer", JStr (so_scorer s)); ("passed", JBool (so_passed s)); ("score", JFloat (so_score s));
   ("weight", JFloat (so_weight s)); ("detail", JStr (so_detail s))]).

Definition dump_case (c : CaseResult) : json := JObj (list_to_map
  [("name", JStr (cr_name c)); ("passed", JBool (cr_passed c));
   ("weighted_score", JFloat (cr_weighted_score c)); ("scores", JArr (dump_score <$> cr_scores c));
   ("output", JObj (cr_output c)); ("cost_usd", JFloat (cr_cost_usd c));
   ("tokens_input", JInt (cr_tokens_input c)); ("tokens_output", JInt (cr_tokens_output c));
   ("latency_seconds", JFloat (cr_latency_seconds c));
   ("error", ty_dump (t_opt t_str) (cr_error c))]).

Definition dump_report (r : SuiteReport) : json := JObj (list_to_map
  [("suite", JStr (rp_suite r)); ("target", JStr (rp_target r));
   ("threshold", JFloat (rp_threshold r)); ("passed", JBool (rp_passed r));
   ("pass_rate", JFloat (rp_pass_rate r)); ("case_count", JInt (rp_case_count r));
   ("cases", JArr (dump_case <$> rp_cases r)); ("total_cost_usd", JFloat (rp_total_cost_usd r));
   ("total_tokens_input", JInt (rp_total_tokens_input r));
   ("total_tokens_output", JInt (rp_total_tokens_output r))]).
End reports.

(** [orjson.dumps(..., option=OPT_INDENT_2)], which raises on an integer of more than
    64 bits, and [Path(path).write_bytes]. *)
Class Disk (W : Type) := {
  dumps_indented : json -> res string;
  write_bytes : string -> string -> M W exn unit;
}.

Definition report_json {W} `{Disk W} (report : SuiteReport) : res string :=
  dumps_indented (dump_report report).

Definition write_json {W} `{Disk W} (report : SuiteReport) (path : string) : M W exn unit :=
  bytes ← lift (report_json report);
  write_bytes path bytes.

(** ** What loading lets through *)

Section loading.
Context {L : Lax} {Ll : LaxLaws} {Ps : PyStr}.

Lemma lawful_model_config : lawful_model ModelConfig_model.
Proof.
  split; [done|..].
  - intros [] H. unfold ModelConfig_model, mo_ok, model_config_valid in H. cbn in H.
    rewrite !andb_true_iff in H. destruct_and! H. unfold ModelConfig_model. cbn [mo_build mo_dump].
    read_fields. reflexivity.
  - intros o m H. unfold ModelConfig_model, mo_build in H. fields_of H. fields_sound.
    cbn in *. unfold model_config_valid. cbn. rewrite !andb_true_iff. by split_and!.
Qed.

Lemma lawful_check : lawful_model Check_model.
Proof.
  split; [done|..].
  - intros [] H. unfold Check_model, mo_ok, check_valid in H. cbn in H.
    unfold Check_model. cbn [mo_build mo_dump]. unfold opt_dict. read_fields. reflexivity.
  - intros o k H. unfold Check_model, mo_build, opt_dict in H. fields_of H. fields_sound.
    cbn in *. done.
Qed.
#[local] Hint Resolve lawful_check : lawful.

Lemma lawful_case : lawful_model EvalCase_model.
Proof.
  split; [done|..].
  - intros [] H. unfold EvalCase_model, mo_ok, case_valid in H. cbn in H.
    assert (ty_ok (t_where (t_list (t_model Check_model)) nonempty) ca_checks = true) as Hc
      by (cbn; destruct ca_checks; [done|]; by rewrite andb_true_r).
    unfold EvalCase_model. cbn [mo_build mo_dump]. unfold opt_dict. read_fields. reflexivity.
  - intros o c H. unfold EvalCase_model, mo_build, opt_dict in H. fields_of H. fields_sound.
    cbn in *. unfold case_valid. cbn.
    match goal with H : _ && nonempty ?l = true |- _ => destruct l end; [done|].
    by apply andb_prop in Hf1 as [Hc _].
Qed.
#[local] Hint Resolve lawful_case : lawful.

(** The constraints [Evals.suite_valid] states are those loading a suite checks. *)
Lemma suite_valid_unfold s :
  suite_valid s = unit_interval (su_threshold s) &&
    (nonempty (su_cases s) && forallb case_valid (su_cases s)).
Proof.
  unfold suite_valid. rewrite <- andb_assoc. f_equal. f_equal.
  by destruct (su_cases s); [rewrite bool_decide_true|rewrite bool_decide_false].
Qed.

Lemma lawful_suite : lawful_model EvalSuite_model.
Proof.
  split; [done|..].
  - intros [] H. unfold EvalSuite_model, mo_ok in H. rewrite suite_valid_unfold in H. cbn in H.
    rewrite !andb_true_iff in H. destruct_and! H.
    assert (ty_ok (t_where (t_list (t_model EvalCase_model)) nonempty) su_cases = true) as Hc
      by (cbn; by apply andb_true_iff).
    unfold EvalSuite_model. cbn [mo_build mo_dump]. read_fields. reflexivity.
  - intros o s H. unfold EvalSuite_model, mo_build in H. fields_of H. fields_sound.
    unfold EvalSuite_model, mo_ok. rewrite suite_valid_unfold.
    cbn in *. rewrite !andb_true_iff in *. tauto.
Qed.

(** *** The registry *)

Lemma model_config_sound key spec m :
  model_config key spec = Ok m -> mc_key m = key /\ model_config_valid m = true.
Proof.
  unfold model_config. destruct spec as [| | | | | |o]; try done. case_bool_decide; [done|].
  intros Hb. split; [|exact (build_model_ok ModelConfig_model _ m lawful_model_config Hb)].
  cbn [json_of build_model fmap list_fmap list_to_map foldr fst snd] in Hb.
  case_bool_decide; [|done]. unfold ModelConfig_model, mo_build in Hb. fields_of Hb. cbn.
  unfold req in Hf. rewrite lookup_insert in Hf. rewrite decide_True in Hf by done.
  by injection Hf as <-.
Qed.

Lemma chain_link_known models tier k s : chain_link models tier k = Ok s -> s ∈ models.*1.
Proof.
  unfold chain_link. destruct k; try done. case_bool_decide; [|done]. by intros [= <-].
Qed.

Lemma mapM_Ok_Forall {A B} (f : A -> res B) (P : B -> Prop) l bs :
  (forall a b, f a = Ok b -> P b) -> mapM f l = Ok bs -> Forall P bs.
Proof.
  intros Hf. revert bs. induction l as [|a l IH]; cbn; [by intros bs [= <-]|].
  intros bs (b & Hb & (bs' & Hbs & [= <-])%bind_Ok)%bind_Ok. constructor; [by eapply Hf|by apply IH].
Qed.

Lemma load_chain_known models p c : load_chain models p = Ok c -> Forall (.∈ models.*1) c.2.
Proof.
  unfold load_chain. intros (tier & _ & (keys & _ & (links & Hl & [= <-])%bind_Ok)%bind_Ok)%bind_Ok.
  cbn. eapply mapM_Ok_Forall; [|exact Hl]. intros k s. apply chain_link_known.
Qed.

Lemma mapM_keys {A} (f : string * yaml -> res (string * A)) l bs :
  (forall p b, f p = Ok b -> b.1 = p.1) -> mapM f l = Ok bs -> bs.*1 = l.*1.
Proof.
  intros Hf. revert bs. induction l as [|a l IH]; cbn; [by intros bs [= <-]|].
  intros bs (b & Hb & (bs' & Hbs & [= <-])%bind_Ok)%bind_Ok. cbn.
  by rewrite (Hf _ _ Hb), (IH _ Hbs).
Qed.

(** A registry that is loaded can be used.  It has a model; its models are those of the
    document, in the document's order, each under its own key and within the bounds of
    its fields; and every model a fallback chain names, for whatever tier, is one that
    [get] finds: falling back never ends in an unknown model. *)
Theorem loaded_registry_sound raw reg :
  from_dict raw = Ok reg ->
  reg_models reg <> [] /\
  (exists specs, yaml_get "models" raw = Ok (YMap specs) /\ (reg_models reg).*1 = specs.*1) /\
  Forall (fun p => mc_key p.2 = p.1 /\ model_config_valid p.2 = true) (reg_models reg) /\
  (forall tier key, key ∈ fallback_chain reg tier -> exists m, get_model reg key = Ok m).
Proof.
  unfold from_dict. intros (models_raw & Hm & H)%bind_Ok.
  destruct (yaml_truthy models_raw) eqn:Ht; [|done]. cbn [negb] in H.
  apply bind_Ok in H as (specs & Hi & H). apply bind_Ok in H as (models & Hms & H).
  apply bind_Ok in H as (craw & _ & H). apply bind_Ok in H as (items & _ & H).
  apply bind_Ok in H as (chains & Hc & [= <-]). cbn [reg_models].
  destruct models_raw as [| | | | | |o]; try done. injection Hi as <-.
  assert (models.*1 = o.*1) as Hk.
  { eapply mapM_keys; [|exact Hms]. by intros p b (m & _ & [= <-])%bind_Ok. }
  split_and!.
  - intros ->. by destruct o.
  - by exists o.
  - eapply mapM_Ok_Forall; [|exact Hms]. intros p b (m & Hp & [= <-])%bind_Ok.
    by apply model_config_sound in Hp.
  - intros tier key. unfold fallback_chain, get_model. cbn [reg_chains reg_models].
    destruct (list_find _ chains) as [[n [t keys]]|] eqn:E; [|by intros ?%not_elem_of_nil].
    intros Hin. apply list_find_Some in E as (El & _).
    assert (Forall (fun c : CostTier * list string => Forall (.∈ models.*1) c.2) chains) as Hall
      by (eapply mapM_Ok_Forall; [|exact Hc]; intros p c; apply load_chain_known).
    pose proof (Forall_lookup_1 _ _ _ _ Hall El) as Hkeys.
    pose proof (proj1 (Forall_forall _ _) Hkeys key Hin) as Hkey. cbn in Hkey.
    apply list_elem_of_fmap in Hkey as ([k m] & -> & Hkm).
    destruct (list_find (fun p => p.1 = (k, m).1) models) as [[i [k' m']]|] eqn:Ef; [by exists m'|].
    apply list_find_None in Ef. by destruct (proj1 (Forall_forall _ _) Ef _ Hkm).
Qed.

(** Reloading replaces the whole registry or leaves it as it was. *)
Lemma reload_atomic {Fs : Files} path self :
  match reload path self with
  | (Ok _, fresh) => from_path path = Ok fresh
  | (Err e, kept) => kept = self /\ from_path path = Err e
  end.
Proof. unfold reload. by destruct (from_path path). Qed.

(** *** Suites *)

(** A suite that is loaded has cases, each case checks, each check a positive weight,
    and a threshold between 0 and 1. *)
Theorem loaded_suite_valid {Fs : Files} path suite :
  load_suite path = Ok suite -> suite_valid suite = true.
Proof.
  unfold load_suite. destruct (is_file path); [|done].
  intros (text & _ & (raw & _ & H)%bind_Ok)%bind_Ok.
  exact (build_model_ok EvalSuite_model _ suite lawful_suite H).
Qed.
End loading.

(** ** Documents of the repository *)
Module FilesSample.
Import CodecSample.

Definition spec (provider : string) (input output : float) (window most latency : Z)
    (reliability : float) (tiers : list string) (id : string) : string * yaml :=
  (id, YMap [("model_id", YStr id); ("provider", YStr provider); ("input_per_mtok", YFloat input);
    ("output_per_mtok", YFloat output); ("context_window", YInt window);
    ("max_output_tokens", YInt most); ("avg_latency_ms", YInt latency);
    ("reliability_score", YFloat reliability); ("supports_tools", YBool true);
    ("supports_vision", YBool true); ("tiers", YSeq (YStr <$> tiers))]).

(** [config/models.yaml] *)
Definition models_yaml : yaml := YMap
  [("models", YMap
     [spec "anthropic" fone (float_of_Z 5) 200000 64000 1200 (fratio 97 100)
        ["cheap"; "standard"] "claude-haiku-4-5";
      spec "anthropic" (float_of_Z 3) (float_of_Z 15) 1000000 128000 2400 (fratio 98 100)
        ["standard"; "premium"; "critical"] "claude-sonnet-5";
      spec "anthropic" (float_of_Z 5) (float_of_Z 25) 1000000 128000 4200 (fratio 99 100)
        ["premium"; "critical"] "claude-opus-5";
      spec "openai" (fratio 15 100) (fratio 60 100) 128000 16384 800 (fratio 95 100)
        ["cheap"; "standard"] "gpt-4o-mini";
      spec "openai" (fratio 25 10) (float_of_Z 10) 128000 16384 2000 (fratio 97 100)
        ["standard"; "premium"] "gpt-4o"]);
   ("fallback_chains", YMap
     [("cheap", YSeq (YStr <$> ["claude-haiku-4-5"; "gpt-4o-mini"]));
      ("standard", YSeq (YStr <$> ["claude-haiku-4-5"; "gpt-4o-mini"; "claude-sonnet-5"]));
      ("premium", YSeq (YStr <$> ["claude-sonnet-5"; "gpt-4o"; "claude-opus-5"]));
      ("critical", YSeq (YStr <$> ["claude-opus-5"; "claude-sonnet-5"]))])].

(** The beginning of [evals/suites/sales_scoring.yaml]. *)
Definition suite_yaml : yaml := YMap
  [("name", YStr "sales-scoring"); ("target", YStr "sales_scoring_agent");
   ("threshold", YFloat (fratio 8 10));
   ("cases", YSeq [YMap
     [("name", YStr "strong-fit-hot");
      ("inputs", YMap [("research", YMap [("lead", YMap [("contact_title", YStr "VP Engineering")])])]);
      ("checks", YSeq
        [YMap [("scorer", YStr "one_of");
               ("args", YMap [("path", YStr "tier"); ("options", YSeq [YStr "hot"; YStr "warm"])])];
         YMap [("scorer", YStr "non_empty"); ("args", YMap [("path", YStr "rationale")])]])]])].

#[export] Instance files : Files := {|
  path_str p := p;
  is_file p := bool_decide (p ∈ ["config/models.yaml"; "evals/suites/sales_scoring.yaml"]);
  read_text p := Ok p;
  safe_load text := Ok (if bool_decide (text = "config/models.yaml") then models_yaml
                        else suite_yaml) |}.

#[local] Instance str : PyStr := {| py_str _ := ""; py_float _ := "" |}.

(** What the shipped registry answers: the cheap models by price, the chain of the
    premium tier, and the prices in force. *)
Lemma shipped_registry : exists reg, from_path "config/models.yaml" = Ok reg /\
  mc_key <$> for_tier reg CostTier.CHEAP = ["gpt-4o-mini"; "claude-haiku-4-5"] /\
  fallback_chain reg CostTier.PREMIUM = ["claude-sonnet-5"; "gpt-4o"; "claude-opus-5"] /\
  (exists m, get_model reg "claude-opus-5" = Ok m /\ mc_output_per_mtok m = float_of_Z 25).
Proof.
  eexists. split; [vm_compute; reflexivity|]. split; [vm_compute; reflexivity|].
  split; [vm_compute; reflexivity|]. eexists. split; vm_compute; reflexivity.
Qed.

Lemma shipped_suite : exists suite,
  load_suite "evals/suites/sales_scoring.yaml" = Ok suite /\ suite_valid suite = true /\
  (ck_scorer <$> (su_cases suite ≫= ca_checks)) = ["one_of"; "non_empty"].
Proof.
  destruct (load_suite "evals/suites/sales_scoring.yaml") as [suite|e] eqn:E;
    [|vm_compute in E; discriminate E].
  exists suite. split; [done|]. split; [exact (loaded_suite_valid _ suite E)|].
  vm_compute in E. injection E as <-. reflexivity.
Qed.

(** Documents that are refused, and with what. *)
Definition refusal (y : yaml) : option exn_class :=
  match from_dict y with Ok _ => None | Err e => Some (exn_cls e) end.

Definition one_model (extra : list (string * yaml)) (chain : string) (keys : yaml) : yaml := YMap
  [("models", YMap [("m", match snd (spec "openai" fone fone 1 1 1 fone [] "m") with
                          | YMap o => YMap (o ++ extra) | y => y end)]);
   ("fallback_chains", YMap [(chain, keys)])].

Lemma refused_documents :
  refusal (YMap []) = Some ConfigurationError /\
  refusal (YSeq [YNull]) = Some (PyExc "AttributeError") /\
  refusal (one_model [] "cheap" (YSeq [YStr "m"])) = None /\
  refusal (one_model [] "cheap" (YStr "m")) = None /\
  refusal (one_model [] "cheap" (YSeq [YStr "n"])) = Some ConfigurationError /\
  refusal (one_model [] "cheap" YNull) = Some (PyExc "TypeError") /\
  refusal (one_model [] "dear" (YSeq [YStr "m"])) = Some (PyExc "ValueError") /\
  refusal (one_model [("key", YStr "m")] "cheap" (YSeq [])) = Some (PyExc "TypeError") /\
  refusal (one_model [("price", YInt 1)] "cheap" (YSeq [])) = Some (PyExc "ValidationError").
Proof. vm_compute. repeat split. Qed.
End FilesSample.
