(* ===== verification/Journal.v ===== *)
(** The narrow interfaces the engine is written against
    ([core/persistence/protocols.py], and the [Notifier] and dead-letter
    collaborators of the driver), as type classes over the state of the world,
    with the laws a journal promises its clients. *)

From stdpp Require Import base strings list gmap.
From Stdlib Require Import ZArith Lia.
From S2P Require Import Prelude Exceptions Values Enums Definitions Instance Events Fold.
From S2P Require Import FoldTheory Tables EventStore EventStoreTheory.

(** [EventJournal]; a guard inspects the world in which the append runs. *)
Class EventJournal (W : Type) := {
  append_new : string -> string -> list event -> Z -> option (W -> res unit) -> option time ->
               M W exn (Z * list event);
  get_instance : string -> string -> option WorkflowDefinition ->
                 M W exn (option WorkflowInstance);
}.

(** [DefinitionSource] *)
Class DefinitionSource (W : Type) := {
  get_definition : string -> string -> string -> M W exn (option WorkflowDefinition);
  get_active : string -> string -> M W exn (option WorkflowDefinition);
}.

Record Notification := {
  no_channel : string;
  no_subject : string;
  no_body : string;
  no_metadata : dict;
}.

(** [Notifier] *)
Class Notifier (W : Type) := { notify : Notification -> M W exn unit }.

(** The dead-letter service as the driver sees it. *)
Class DeadLetters (W : Type) := {
  record_dead_letter : WorkflowInstance -> option string -> string -> M W exn unit;
}.

Definition guard_result {W} (g : option (W -> res unit)) (w : W) : res unit :=
  match g with Some g => g w | None => Ok tt end.

(** What a journal promises: a log per instance; an append either extends the log
    of its instance by the whole sequenced batch, after passing the guard and
    with the version it expected, to a log that still folds, or leaves every log
    alone; it does append whenever those conditions hold; and it reads an instance
    by folding its log, with the definition the journal lets through
    ([journal_defn]: whether a definition given to [get_instance] seeds the
    steps). *)
Class JournalLaws (W : Type) `{EventJournal W} := {
  journal_ok : W -> Prop;
  jlog : W -> string -> list event;
  journal_defn : option WorkflowDefinition -> option WorkflowDefinition;
  no_defn : journal_defn None = None;
  owner_law w iid : journal_ok w -> Forall (fun e => ev_instance_id e = iid) (jlog w iid);
  append_ok_law w iid tid drafts ver g nw v evs w' :
    journal_ok w -> valid_bodies drafts ->
    append_new iid tid drafts ver g nw w = (Ok (v, evs), w') ->
    journal_ok w' /\ evs = sequenced ver drafts /\ drafts <> [] /\
    ver = Z.of_nat (length (jlog w iid)) /\ guard_result g w = Ok tt /\
    is_ok (Fold.fold (jlog w iid ++ evs) None None) = true /\
    jlog w' iid = jlog w iid ++ evs /\ (forall j, j <> iid -> jlog w' j = jlog w j);
  append_err_law w iid tid drafts ver g nw e w' :
    journal_ok w -> valid_bodies drafts ->
    append_new iid tid drafts ver g nw w = (Err e, w') ->
    journal_ok w' /\ forall j, jlog w' j = jlog w j;
  append_total_law w iid tid drafts g nw i :
    journal_ok w -> drafts <> [] -> valid_bodies drafts -> jlog w iid <> [] ->
    Forall (fun e => ev_instance_id e = iid /\ ev_tenant_id e = tid) drafts ->
    guard_result g w = Ok tt ->
    Fold.fold (jlog w iid ++ sequenced (Z.of_nat (length (jlog w iid))) drafts) None None = Ok i ->
    wi_tenant_id i = tid ->
    exists w', append_new iid tid drafts (Z.of_nat (length (jlog w iid))) g nw w
      = (Ok (wi_version i, sequenced (Z.of_nat (length (jlog w iid))) drafts), w');
  get_law w iid tid defn :
    journal_ok w -> one_genesis (jlog w iid) ->
    exists o, get_instance iid tid defn w = (Ok o, w) /\
      o = match Fold.fold (jlog w iid) (journal_defn defn) None with
          | Ok i => if bool_decide (wi_tenant_id i = tid) then Some i else None
          | Err _ => None
          end;
}.

(** ** The Postgres event store is a journal *)

Section pg.
Context {C : Codec} {CL : CodecLaws}.

#[export] Instance PgJournal : EventJournal DB := {|
  append_new iid tid drafts ver g nw :=
    EventStore.append_new EventStore.RedisEventPublisher id iid tid drafts ver g nw;
  get_instance iid tid defn := fun db => (EventStore.get_instance db iid tid defn, db) |}.

#[export] Instance PgJournalLaws : JournalLaws DB.
Proof.
  refine {| journal_ok := store_inv; jlog := log; journal_defn := fun _ => None |}.
  - done.
  - intros w iid Hinv. apply log_owner, Hinv.
  - intros w iid tid drafts ver g nw v evs w' Hinv Hb%(sequenced_valid ver) Hap. cbn in Hap.
    unfold EventStore.append_new in Hap.
    apply commit_ok in Hap as (-> & Hv & Hg & [H1 H2 H3 H4 H5 H6] & (i & Hf & _)).
    + cbn in *. split_and!; try done.
      * intros ->. done.
      * rewrite <- H4, Hf. done.
    + done.
    + by apply no_interference.
    + by rewrite sequenced_numbers, length_sequenced.
    + done.
  - intros w iid tid drafts ver g nw e w' Hinv Hb%(sequenced_valid ver) Hap. cbn in Hap.
    unfold EventStore.append_new in Hap.
    apply commit_err in Hap as (H1 & H2); [|done|by apply no_interference| |done].
    + split; [done|]. by destruct H2.
    + by rewrite sequenced_numbers, length_sequenced.
  - intros w iid tid drafts g nw i Hinv Hne Hb Hl Hown Hg Hf Ht.
    apply (append_total _ iid tid drafts g nw w i); auto.
  - intros w iid tid defn Hinv Hone. cbn.
    rewrite (get_instance_defn _ _ _ defn Hinv Hone). unfold EventStore.get_instance.
    destruct (decide (length (log w iid) = 0)) as [Hl%nil_length_inv|Hne].
    + eexists. split; [by rewrite project_empty by (done || apply Hinv)|]. by rewrite Hl.
    + assert (log w iid <> []) as Hne' by (intros Hl; by rewrite Hl in Hne).
      destruct (live_nonempty _ _ (Hinv iid) Hne') as (i & r & Hf & _).
      eexists. rewrite (project_log _ _ _ _ (ii_stream _ _ (Hinv iid)) Hne'), Hf. cbn.
      split; [|reflexivity]. by destruct (bool_decide _).
Defined.
End pg.
