(* ===== verification/Integrations.v ===== *)
(** The adapters to external systems: the n8n action provider
    ([integrations/actions/n8n.py]), the dry-run and HTTP providers
    ([integrations/actions/providers.py]), the sales webhook
    ([use_cases/sales_intelligence/provider.py]) and the notifiers
    ([integrations/notifications/__init__.py]).

    [httpx] is a parameter: a request may raise or give a response, whose status
    check and body are what the library says they are.  Bodies are JSON objects, as
    the source's annotations say. *)

From stdpp Require Import base strings list gmap.
From Stdlib Require Import ZArith Lia Ascii.
From S2P Require Import Prelude Exceptions Values Text Enums Definitions Instance Events Tables.
From S2P Require Import Outbox Ports SideEffects SideEffectsTheory Cost Journal.

Import SideEffects.

(** ** HTTP *)

Record Response := {
  rs_status_code : Z;
  rs_content : string;
  rs_raise_for_status : res unit;
  rs_json : res dict;
}.

Class Httpx (W : Type) := {
  http_post : string -> dict -> dict -> M W exn Response;   (* url, json, headers *)
  http_get : string -> dict -> dict -> M W exn Response;    (* url, params, headers *)
  is_HTTPError : exn -> bool;
}.

(** [resp.json() if resp.content else {}] *)
Definition json_body (r : Response) : res dict :=
  if bool_decide (rs_content r = "") then Ok ∅ else rs_json r.

(** ** n8n *)
Module N8n.

Record config := {
  _base_url : string;
  _api_key : option string;
  _prefix : string;
  _idempotent : gset string;
  _reconcilable : gset string;
  _compensable : gset string;
}.

Definition is_slash (c : ascii) : bool := bool_decide (c = "/"%char).

(** [__init__] *)
Definition init (base_url : string) (api_key : option string) (webhook_prefix : string)
    (idempotent_effects reconcile_effects compensate_effects : option (gset string)) : config := {|
  _base_url := of_chars (rstrip is_slash (chars base_url));
  _api_key := api_key;
  _prefix := "/" +:+ strip_with is_slash webhook_prefix;
  _idempotent := default ∅ idempotent_effects;
  _reconcilable := default ∅ reconcile_effects;
  _compensable := default ∅ compensate_effects |}.

Section provider.
Context {Ps : PyStr} {W : Type} {Hx : Httpx W} (self : config).

Definition _url (effect_name suffix : string) : string :=
  _base_url self +:+ _prefix self +:+ "/" +:+ effect_name +:+ suffix.

Definition _headers (req : EffectRequest) : dict :=
  let headers := list_to_map
    [("Idempotency-Key", JStr (erq_idempotency_key req));
     ("X-AgentForge-Instance", JStr (erq_instance_id req));
     ("X-AgentForge-Tenant", JStr (erq_tenant_id req))] in
  if truthy_str (_api_key self)
  then <["X-N8N-API-KEY" := JStr (default "" (_api_key self))]> headers else headers.

Definition _payload (req : EffectRequest) : dict := list_to_map
  [("effect", JStr (erq_effect_name req)); ("params", JObj (erq_params req));
   ("instance_id", JStr (erq_instance_id req)); ("tenant_id", JStr (erq_tenant_id req));
   ("step_id", JStr (erq_step_id req)); ("idempotency_key", JStr (erq_idempotency_key req))].

Definition succeeded (data : dict) (ref : option string) : EffectResult :=
  {| ers_ok := true; ers_data := data; ers_provider_ref := ref; ers_error := None |}.

Definition execute (req : EffectRequest) : M W exn EffectResult :=
  resp ← http_post (_url (erq_effect_name req) "") (_payload req) (_headers req);
  _ ← lift (rs_raise_for_status resp);
  body ← lift (json_body resp);
  let ref := or_else (or_else (JStr (erq_idempotency_key req)) (body !! "ref")) (body !! "id") in
  mret (succeeded body (Some (Cost.str_of ref))).

Definition reconcile (req : EffectRequest) : M W exn (option EffectResult) :=
  if negb (bool_decide (erq_effect_name req ∈ _reconcilable self)) then mret None
  else
    oresp ← try_except
      (r ← http_get (_url (erq_effect_name req) "/status")
             {[ "idempotency_key" := JStr (erq_idempotency_key req) ]} (_headers req);
       mret (Some r))
      is_HTTPError (fun _ => mret None);
    match oresp with
    | None => mret None
    | Some resp =>
        if (rs_status_code resp =? 404)%Z then mret None
        else
          _ ← lift (rs_raise_for_status resp);
          body ← lift (json_body resp);
          if negb (truthy (default JNull (body !! "found"))) then mret None
          else mret (Some (succeeded body
                 (Some (Cost.str_of (or_else (JStr "") (body !! "id"))))))
    end.

Definition compensate (req : EffectRequest) (executed : EffectResult)
    : M W exn (option EffectResult) :=
  if negb (bool_decide (erq_effect_name req ∈ _compensable self)) then mret None
  else
    resp ← http_post (_url (erq_effect_name req) "/compensate")
      (<["ref" := match ers_provider_ref executed with Some r => JStr r | None => JNull end]>
         (<["executed" := JObj (ers_data executed)]> (_payload req))) (_headers req);
    _ ← lift (rs_raise_for_status resp);
    body ← lift (json_body resp);
    mret (Some (succeeded body None)).

Definition N8nActionProvider : ActionProvider W := {|
  ap_name := "n8n";
  supports_idempotency_key e := bool_decide (e ∈ _idempotent self);
  ap_execute := execute;
  ap_reconcile := reconcile;
  ap_compensate := compensate |}.
End provider.

Definition build_n8n_provider {Ps : PyStr} {W} {Hx : Httpx W} (base_url : string)
    (api_key : option string) (idempotent_effects : option (gset string)) : ActionProvider W :=
  N8nActionProvider
    (init base_url api_key "/webhook" idempotent_effects idempotent_effects None).
End N8n.

(** ** The dry-run provider *)
Module Noop.

(** [calls.append]: the provider's own list, somewhere in the world. *)
Class NoopCalls (W : Type) := { record_call : EffectRequest -> W -> W }.

Definition NoopActionProvider {W} {Nc : NoopCalls W} : ActionProvider W := {|
  ap_name := "noop";
  supports_idempotency_key _ := true;
  ap_execute req := _ ← modify (record_call req);
    mret {| ers_ok := true; ers_data := {[ "noop" := JBool true ]};
            ers_provider_ref := Some (erq_idempotency_key req); ers_error := None |};
  ap_reconcile _ := mret None;
  ap_compensate _ _ := mret None |}.
End Noop.

(** ** Plain webhooks: [HttpActionProvider], and the sales workflow's
    [WebhookSalesProvider] *)
Module Webhooks.

(** A result as the two constructors make it: nothing checks that the reference found
    in a body is a string. *)
Record Untyped := {
  un_ok : bool;
  un_data : dict;
  un_provider_ref : json;
  un_error : option string;
}.

(** As the guard takes it: the reference goes to a text column. *)
Definition typed (r : Untyped) : option EffectResult :=
  let result ref := {| ers_ok := un_ok r; ers_data := un_data r; ers_provider_ref := ref;
                       ers_error := un_error r |} in
  match un_provider_ref r with
  | JStr ref => Some (result (Some ref))
  | JNull => Some (result None)
  | _ => None
  end.

Section webhooks.
Context {W : Type} {Hx : Httpx W}.

Definition post_effect (url : string) (req : EffectRequest) : M W exn dict :=
  resp ← http_post url
    (list_to_map [("effect", JStr (erq_effect_name req)); ("params", JObj (erq_params req))])
    {[ "Idempotency-Key" := JStr (erq_idempotency_key req) ]};
  _ ← lift (rs_raise_for_status resp);
  lift (json_body resp).

Record HttpActionProvider := {
  _endpoints : gmap string string;
  _idempotent : gset string;
}.

Definition init (endpoints : gmap string string) (idempotent_effects : option (gset string))
    : HttpActionProvider :=
  {| _endpoints := endpoints; _idempotent := default ∅ idempotent_effects |}.

Definition supports_key (self : HttpActionProvider) (effect_name : string) : bool :=
  bool_decide (effect_name ∈ _idempotent self).

(** [body.get("id") or req.idempotency_key] *)
Definition http_ref (req : EffectRequest) (body : dict) : json :=
  or_else (JStr (erq_idempotency_key req)) (body !! "id").

Definition execute (self : HttpActionProvider) (req : EffectRequest) : M W exn Untyped :=
  match _endpoints self !! erq_effect_name req with
  | None => mret {| un_ok := false; un_data := ∅; un_provider_ref := JNull;
                    un_error := Some ("no endpoint configured for "
                                      +:+ py_repr (erq_effect_name req)) |}
  | Some url =>
      body ← post_effect url req;
      mret {| un_ok := true; un_data := body; un_provider_ref := http_ref req body;
              un_error := None |}
  end.

(** [WebhookSalesProvider.execute] *)
Definition sales_execute (webhook_url : string) (req : EffectRequest) : M W exn Untyped :=
  body ← post_effect webhook_url req;
  mret {| un_ok := true; un_data := body; un_provider_ref := default JNull (body !! "ref");
          un_error := None |}.

(** When the guard gets a result it can store: exactly when the id of the body is a
    string or falsy, and then the reference is that string or the effect's key.  A
    receiver that answers with a numeric id has performed the effect, and its answer
    cannot be recorded. *)
Theorem http_result_typed self url req w resp w' body :
  _endpoints self !! erq_effect_name req = Some url ->
  http_post url
    (list_to_map [("effect", JStr (erq_effect_name req)); ("params", JObj (erq_params req))])
    {[ "Idempotency-Key" := JStr (erq_idempotency_key req) ]} w = (Ok resp, w') ->
  rs_raise_for_status resp = Ok tt -> json_body resp = Ok body ->
  exists r, execute self req w = (Ok r, w') /\ un_ok r = true /\ un_data r = body /\
    typed r = match body !! "id" with
      | Some (JStr ref) => Some (N8n.succeeded body
          (Some (if bool_decide (ref = "") then erq_idempotency_key req else ref)))
      | Some v => if truthy v then None
                  else Some (N8n.succeeded body (Some (erq_idempotency_key req)))
      | None => Some (N8n.succeeded body (Some (erq_idempotency_key req)))
      end.
Proof.
  intros Hu Hp Hs Hb. unfold execute, post_effect. rewrite Hu.
  erewrite M_bind_step; [|erewrite M_bind_step by exact Hp; by rewrite Hs, Hb].
  eexists. split; [reflexivity|]. split; [done|]. split; [done|].
  unfold typed, http_ref, or_else, N8n.succeeded. cbn.
  destruct (body !! "id") as [v|]; [|done]. destruct (truthy v) eqn:Ht.
  - destruct v; try done. cbn in Ht. by case_bool_decide.
  - destruct v; try done. cbn in Ht. by case_bool_decide.
Qed.
End webhooks.
End Webhooks.

(** ** Notifiers *)
Module Notifications.
Section notifiers.
Context {W : Type} {Hx : Httpx W}.

(** The parameters of the logger's method, and the keywords [LogNotifier] passes next
    to [**note.metadata]: a metadata key that repeats one of them is a [TypeError]. *)
Definition taken : list string := ["self"; "event"; "channel"; "subject"; "body"].

Definition LogNotifier (note : Notification) : M W exn unit :=
  match filter (fun k => is_Some (no_metadata note !! k)) taken with
  | [] => mret tt
  | k :: _ => raise (Exn (PyExc "TypeError") ("got multiple values for argument " +:+ py_repr k))
  end.

Definition note_json (note : Notification) : dict := list_to_map
  [("channel", JStr (no_channel note)); ("subject", JStr (no_subject note));
   ("body", JStr (no_body note)); ("metadata", JObj (no_metadata note))].

Definition WebhookNotifier (endpoints : gmap string string) (note : Notification) : M W exn unit :=
  match endpoints !! no_channel note with
  | None => mret tt
  | Some url =>
      try_except (resp ← http_post url (note_json note) ∅; lift (rs_raise_for_status resp))
        is_Exception (fun _ => mret tt)
  end.

Fixpoint MultiNotifier (notifiers : list (Notification -> M W exn unit)) (note : Notification)
    : M W exn unit :=
  match notifiers with
  | [] => mret tt
  | n :: rest => _ ← try_except (n note) is_Exception (fun _ => mret tt); MultiNotifier rest note
  end.
End notifiers.
End Notifications.

(** ** Theorems *)

Section contract.
Context {Ps : PyStr} {W : Type} {Hx : Httpx W} (c : N8n.config) (landed : W -> list string).

(** What the workflows on the n8n side are asked to do ("treat the [Idempotency-Key]
    header as a dedupe key"; "did a prior attempt land?"): a POST lands the effect of
    its key at most once, not again for an idempotent effect that landed; a GET lands
    nothing; and the status of an effect that landed, when there is a response, is
    found.  Any request may raise. *)
Record n8n_honours : Prop := {
  post_lands : forall url body headers key w, headers !! "Idempotency-Key" = Some (JStr key) ->
    landed (snd (http_post url body headers w)) = landed w \/
    landed (snd (http_post url body headers w)) = landed w ++ [key];
  post_dedupes : forall effect body headers key w,
    effect ∈ N8n._idempotent c -> headers !! "Idempotency-Key" = Some (JStr key) ->
    key ∈ landed w -> landed (snd (http_post (N8n._url c effect "") body headers w)) = landed w;
  get_lands : forall url params headers w, landed (snd (http_get url params headers w)) = landed w;
  status_found : forall effect headers key w r,
    effect ∈ N8n._reconcilable c -> key ∈ landed w ->
    fst (http_get (N8n._url c effect "/status") {[ "idempotency_key" := JStr key ]} headers w) = Ok r ->
    rs_status_code r <> 404%Z /\
    forall b, json_body r = Ok b -> truthy (default JNull (b !! "found")) = true;
}.

(** The status request of [req], and whether it fails in the way the adapter
    swallows: a timeout, a refused connection. *)
Definition status_request (req : EffectRequest) (w : W) : res Response * W :=
  http_get (N8n._url c (erq_effect_name req) "/status")
    {[ "idempotency_key" := JStr (erq_idempotency_key req) ]} (N8n._headers c req) w.
Definition status_unavailable (req : EffectRequest) (w : W) : Prop :=
  exists e, fst (status_request req w) = Err e /\ is_HTTPError e = true.

Lemma headers_key req : N8n._headers c req !! "Idempotency-Key" = Some (JStr (erq_idempotency_key req)).
Proof.
  unfold N8n._headers. destruct (truthy_str _); [rewrite lookup_insert_ne by done|]; cbn;
    by rewrite lookup_insert_eq.
Qed.

Lemma execute_posts req w :
  snd (N8n.execute c req w)
  = snd (http_post (N8n._url c (erq_effect_name req) "") (N8n._payload req) (N8n._headers c req) w).
Proof.
  unfold N8n.execute, mbind, M_bind, lift. destruct (http_post _ _ _ w) as [[r|e] w1]; [|done].
  destruct (rs_raise_for_status r); [|done]. by destruct (json_body r).
Qed.

Lemma reconcile_gets req w :
  (forall url params headers w, landed (snd (http_get url params headers w)) = landed w) ->
  landed (snd (N8n.reconcile c req w)) = landed w.
Proof.
  intros Hg. unfold N8n.reconcile. destruct (negb _); [done|].
  unfold mbind, M_bind, try_except, try_catch, lift.
  pose proof (Hg (N8n._url c (erq_effect_name req) "/status")
    {[ "idempotency_key" := JStr (erq_idempotency_key req) ]} (N8n._headers c req) w) as H.
  destruct (http_get _ _ _ w) as [[r|e] w1]; cbn in *; [|by destruct (is_HTTPError e)].
  destruct (_ =? _)%Z; [done|]. destruct (rs_raise_for_status r); [|done].
  destruct (json_body r); [|done]. by destruct (negb _).
Qed.

(** A swallowed failure of the status request is the answer "did not land". *)
Lemma reconcile_unavailable req w :
  erq_effect_name req ∈ N8n._reconcilable c -> status_unavailable req w ->
  N8n.reconcile c req w = (Ok None, snd (status_request req w)).
Proof.
  intros Hr (e & He & Hh). unfold N8n.reconcile. rewrite bool_decide_true by done. cbn [negb].
  unfold status_request in *. unfold mbind, M_bind, try_except, try_catch.
  destruct (http_get _ _ _ w) as [r w1]. cbn in He. subst r. cbn. by rewrite Hh.
Qed.

(** Any other outcome for an effect that landed is not that answer. *)
Lemma reconcile_available req w :
  n8n_honours -> erq_effect_name req ∈ N8n._reconcilable c ->
  erq_idempotency_key req ∈ landed w -> ~ status_unavailable req w ->
  fst (N8n.reconcile c req w) <> Ok None.
Proof.
  intros Hn Hr Hw Hav. unfold N8n.reconcile. rewrite bool_decide_true by done. cbn [negb].
  assert (forall r, fst (status_request req w) = Ok r -> rs_status_code r <> 404%Z /\
    forall b, json_body r = Ok b -> truthy (default JNull (b !! "found")) = true) as Hs
    by (intros r; by eapply (status_found Hn)).
  unfold status_unavailable, status_request in *. unfold mbind, M_bind, try_except, try_catch, lift.
  destruct (http_get _ _ _ w) as [[r|e] w1]; cbn in *.
  - destruct (Hs r eq_refl) as [Hne Hfound]. destruct (Z.eqb_spec (rs_status_code r) 404); [done|].
    destruct (rs_raise_for_status r); [|done]. destruct (json_body r) as [b|] eqn:Hb; [|done].
    by rewrite (Hfound b eq_refl).
  - destruct (is_HTTPError e) eqn:Hh; [|done]. destruct Hav. by exists e.
Qed.

(** C34: When the n8n adapter keeps the guard's contract, exactly.  Suppose the
    workflows behind the webhooks dedupe by the [Idempotency-Key] header and report
    the status of what they did, while any request may fail.  An effect configured as
    idempotent then lands at most once per call of the provider and not again once it
    has landed, unconditionally: what [SideEffectGuard] needs for an effect to happen
    at most once.  For an effect that is only reconcilable the contract holds if and
    only if the status request of a landed effect never fails with an HTTP error:
    when it does, the adapter swallows the error, and the guard, resuming an effect
    that already landed, POSTs it again. *)
Theorem n8n_lands_once req :
  n8n_honours ->
  let p := N8n.N8nActionProvider c in
  (erq_effect_name req ∈ N8n._idempotent c -> lands_once landed p req) /\
  (erq_effect_name req ∉ N8n._idempotent c -> erq_effect_name req ∈ N8n._reconcilable c ->
   (lands_once landed p req <->
    forall w, erq_idempotency_key req ∈ landed w -> ~ status_unavailable req w) /\
   forall w, status_unavailable req w ->
     call_provider p req true w = ap_execute p req (snd (status_request req w))).
Proof.
  intros Hn. pose proof Hn as [Hp Hd Hg _]. cbn zeta.
  assert (forall w, landed (snd (N8n.execute c req w)) = landed w \/
    landed (snd (N8n.execute c req w)) = landed w ++ [erq_idempotency_key req]) as Hone.
  { intros w. rewrite execute_posts. apply Hp, headers_key. }
  split; [intros Hi|intros Hi Hr]; unfold lands_once, call_provider;
    cbn [ap_execute ap_reconcile supports_idempotency_key N8n.N8nActionProvider].
  - rewrite bool_decide_true by done. split; [done|]. intros w Hw. rewrite execute_posts.
    by eapply Hd; [|apply headers_key|].
  - rewrite bool_decide_false by done. cbn [negb andb]. split; [split|].
    + intros (_ & _ & Hrec) w Hw Hun. apply (Hrec w Hw). by rewrite reconcile_unavailable.
    + intros Hav. split; [done|]. split; [intros w; by apply reconcile_gets|].
      intros w Hw. apply reconcile_available; auto.
    + intros w Hun. unfold mbind, M_bind. by rewrite reconcile_unavailable.
Qed.
End contract.

(** The status webhook of the provider the engine builds is never called.
    [build_n8n_provider] makes reconcilable exactly the effects it declares
    idempotent, and the guard reconciles only effects that are not: whatever the
    request and whether or not a previous attempt may have landed, calling the
    provider is calling [execute].  An effect that is not declared idempotent is thus
    performed again when a worker dies after performing it. *)
Theorem built_n8n_never_reconciles {Ps : PyStr} {W} {Hx : Httpx W} base_url api_key effects
    (req : EffectRequest) (resuming : bool) (w : W) :
  call_provider (N8n.build_n8n_provider base_url api_key effects) req resuming w
  = N8n.execute (N8n.init base_url api_key "/webhook" effects effects None) req w.
Proof.
  unfold call_provider. cbn [supports_idempotency_key ap_reconcile ap_execute N8n.build_n8n_provider
    N8n.N8nActionProvider]. unfold N8n.reconcile. cbn [N8n._idempotent N8n._reconcilable N8n.init].
  case_bool_decide; cbn [negb]; [by rewrite andb_false_r|]. by destruct resuming.
Qed.

(** Notifications are best effort: whatever the sub-notifiers raise (short of
    cancellation), the fan-out returns, and each of them was run, in order, on what
    the ones before it left. *)
Lemma multi_notifier_total {W} (ns : list (Notification -> M W exn unit)) note w :
  Forall (fun n => forall w e, fst (n note w) = Err e -> is_Exception e = true) ns ->
  Notifications.MultiNotifier ns note w = (Ok tt, foldl (fun w n => snd (n note w)) w ns).
Proof.
  intros H. revert w. induction H as [|n ns Hn _ IH]; intros w; [done|].
  cbn [Notifications.MultiNotifier foldl]. unfold mbind, M_bind, try_except, try_catch.
  specialize (Hn w). destruct (n note w) as [[[]|e] w1]; cbn in *; [apply IH|].
  rewrite (Hn e eq_refl). apply IH.
Qed.

Lemma webhook_notifier_total {W} {Hx : Httpx W} endpoints note (w : W) e :
  fst (Notifications.WebhookNotifier endpoints note w) = Err e -> is_Exception e = false.
Proof.
  unfold Notifications.WebhookNotifier. destruct (endpoints !! _) as [url|]; [|done].
  unfold try_except, try_catch.
  match goal with |- context [match ?m w with _ => _ end] => destruct (m w) as [[[]|x] w1] end; [done|].
  destruct (is_Exception x) eqn:Hx'; [done|]. by intros [= <-].
Qed.

(** ** An n8n that dedupes: its state is the keys of the effects that landed *)
Module N8nSample.

Definition response (b : dict) : Response := {|
  rs_status_code := 200; rs_content := "json"; rs_raise_for_status := Ok tt; rs_json := Ok b |}.

Definition deliver (headers : dict) (w : list string) : list string :=
  match headers !! "Idempotency-Key" with
  | Some (JStr k) => if bool_decide (k ∈ w) then w else w ++ [k]
  | _ => w
  end.

Definition found (params : dict) (w : list string) : bool :=
  match params !! "idempotency_key" with Some (JStr k) => bool_decide (k ∈ w) | _ => false end.

#[export] Instance httpx : Httpx (list string) := {|
  http_post url body headers w := (Ok (response ∅), deliver headers w);
  http_get url params headers w := (Ok (response {[ "found" := JBool (found params w) ]}), w);
  is_HTTPError e := bool_decide (exn_cls e = PyExc "ConnectError") |}.

#[export] Instance pystr : PyStr := {| py_str _ := ""; py_float _ := "" |}.

Definition remote : N8n.config :=
  N8n.init "http://n8n/" None "webhook/" (Some {["send"]}) (Some {["log"]}) None.

Definition email : EffectRequest := {|
  erq_effect_name := "send"; erq_params := ∅; erq_idempotency_key := "k1";
  erq_instance_id := "i1"; erq_tenant_id := "t1"; erq_step_id := "notify" |}.

Lemma remote_honours : n8n_honours remote (fun w => w).
Proof.
  split.
  - intros url body headers key w Hk. cbn. unfold deliver. rewrite Hk. case_bool_decide; auto.
  - intros effect body headers key w _ Hk Hin. cbn. unfold deliver. by rewrite Hk, bool_decide_true.
  - done.
  - intros effect headers key w r _ Hin [= <-]. split; [done|]. intros b [= <-].
    rewrite lookup_singleton_eq. cbn. unfold found. rewrite lookup_singleton_eq. by apply bool_decide_eq_true.
Qed.
End N8nSample.
Import N8nSample.

(** The "log" effect is only reconcilable.  It landed, the connection fails once,
    and it is performed again. *)
Definition logged : EffectRequest := {|
  erq_effect_name := "log"; erq_params := ∅; erq_idempotency_key := "k2";
  erq_instance_id := "i1"; erq_tenant_id := "t1"; erq_step_id := "notify" |}.

Lemma n8n_lands_once_witness :
  lands_once (fun w => w) (N8n.N8nActionProvider remote) email /\
  lands_once (fun w => w) (N8n.N8nActionProvider remote) logged /\
  snd (ap_execute (N8n.N8nActionProvider remote) email []) = ["k1"] /\
  snd (ap_execute (N8n.N8nActionProvider remote) email ["k1"]) = ["k1"] /\
  N8n._url remote "send" "" = "http://n8n/webhook/send".
Proof.
  split; [|split; [|vm_compute; done]].
  - refine (proj1 (n8n_lands_once remote (fun w => w) email remote_honours) _). reflexivity.
  - refine (proj2 (proj1 (proj2 (n8n_lands_once remote (fun w => w) logged remote_honours) _ _)) _).
    + apply (bool_decide_unpack _). vm_compute. exact I.
    + reflexivity.
    + intros ws _ (x & Hx & _). discriminate Hx.
Defined.

(** An n8n whose answers to status requests are lost, and that has no dedupe for
    "log". *)
Module N8nOutage.
#[export] Instance httpx : Httpx (list string) := {|
  http_post url body headers w := (Ok (response ∅),
    match headers !! "Idempotency-Key" with Some (JStr k) => w ++ [k] | _ => w end);
  http_get url params headers w := (Err (Exn (PyExc "ConnectError") "status"), w);
  is_HTTPError e := bool_decide (exn_cls e = PyExc "ConnectError") |}.

(** A resumed attempt at an effect that landed lands it a second time. *)
Lemma outage_repeats_effect :
  snd (call_provider (N8n.N8nActionProvider remote) logged true ["k2"]) = ["k2"; "k2"].
Proof. vm_compute. reflexivity. Qed.
End N8nOutage.
