(* ===== verification/Driver.v ===== *)
(** The workflow driver ([core/driver.py]): plan, dispatch, retry, escalate,
    roll back and complete one leased instance.

    The driver is written against its collaborators' interfaces (journal,
    definition source, ledger, outbox, dead letters, notifier, clock, ids), all
    acting on a world [W].  [asyncio.gather] is modelled by running the attempts
    one after the other, every one to its end, and raising the first exception
    afterwards; metrics, spans and log lines are left out.  Iteration over the
    dict of step states follows the order of [map_to_list]. *)

From stdpp Require Import base strings list gmap pretty.
From Stdlib Require Import ZArith.
From S2P Require Import Prelude Exceptions Values Enums Dag Definitions Instance Events Fold.
From S2P Require Import Tables EventStore Leasing Outbox Ports SideEffects Cost LlmClient Runners.
From S2P Require Import Journal Digests.

Import SideEffects Cost Llm Leasing.

Module Driver.

Definition _DONE : list StepStatus := [StepStatus.COMPLETED; StepStatus.SKIPPED].
Definition _SETTLED : list StepStatus :=
  [StepStatus.COMPLETED; StepStatus.SKIPPED; StepStatus.COMPENSATED].
Definition _MAX_DRIVE_ITERATIONS : nat := 1000.

Module DriveResult.
Inductive t :=
| COMPLETED | PAUSED | DEAD_LETTERED | ROLLED_BACK | PARKED | WAITING_APPROVAL
| LEASE_LOST | IDLE.

Global Instance eq_dec : EqDecision t.
Proof. solve_decision. Defined.
End DriveResult.

Record DriveReport := {
  rp_instance_id : string;
  rp_result : DriveResult.t;
  rp_next_wakeup_at : option time;
}.

Definition report (instance_id : string) (r : DriveResult.t) : DriveReport :=
  {| rp_instance_id := instance_id; rp_result := r; rp_next_wakeup_at := None |}.

Record _Plan := {
  pl_dispatch : list (string * Z);
  pl_approval_needed : list string;
  pl_terminal_failure : option (string * string);
  pl_retry_wakeup : option time;
  pl_all_settled : bool;
  pl_budget_blocked_step : option string;
}.

(** ** Planning *)

(** [all(instance.step_states[d].status in _DONE for d in deps)], which stops at
    the first dependency that is not done. *)
Fixpoint deps_done (i : WorkflowInstance) (deps : list string) : res bool :=
  match deps with
  | [] => Ok true
  | d :: rest => st ← get_step i d;
                 if bool_decide (st_status st ∈ _DONE) then deps_done i rest else Ok false
  end.

(** What the first loop of [_plan] accumulates. *)
Record scan := {
  sn_candidates : list (string * Z);
  sn_failure : option (string * string);
  sn_wakeup : option time;
}.

Definition add_candidate (sn : scan) (sid : string) (att : Z) : scan := {|
  sn_candidates := sn_candidates sn ++ [(sid, att)];
  sn_failure := sn_failure sn; sn_wakeup := sn_wakeup sn |}.

Definition add_failure (sn : scan) (sid reason : string) : scan := {|
  sn_candidates := sn_candidates sn;
  sn_failure := match sn_failure sn with Some f => Some f | None => Some (sid, reason) end;
  sn_wakeup := sn_wakeup sn |}.

Definition add_wakeup (sn : scan) (t : time) : scan := {|
  sn_candidates := sn_candidates sn; sn_failure := sn_failure sn;
  sn_wakeup := Some match sn_wakeup sn with None => t | Some w => Z.min w t end |}.

Definition scan_step (i : WorkflowInstance) (now : time) (sn : scan) (step : WorkflowStep)
    : res scan :=
  let sid := ws_step_id step in
  st ← get_step i sid;
  done_ ← deps_done i (ws_dependencies step);
  if bool_decide (st_status st ∈ [StepStatus.PENDING; StepStatus.READY]) then
    Ok (if (done_ : bool) then add_candidate sn sid (st_attempts st + 1) else sn)
  else if bool_decide (st_status st = StepStatus.FAILED) then
    match st_next_retry_at st with
    | None => Ok (add_failure sn sid ("step " +:+ sid +:+ " failed: "
                                      +:+ show_opt (st_error_message st)))
    | Some at_ => Ok (if (at_ <=? now)%Z then add_candidate sn sid (st_attempts st + 1)
                      else add_wakeup sn at_)
    end
  else Ok sn.

Definition scan_steps (i : WorkflowInstance) (d : WorkflowDefinition) (now : time) : res scan :=
  foldM (scan_step i now) {| sn_candidates := []; sn_failure := None; sn_wakeup := None |}
    (wd_steps d).

Definition running_steps (i : WorkflowInstance) : list string :=
  fst <$> filter (fun p => st_status p.2 = StepStatus.RUNNING) (map_to_list (wi_step_states i)).

Definition budget_out (i : WorkflowInstance) : bool :=
  match remaining_budget_usd i with Some r => fleb r fzero | None => false end.

(** [{e.step_id for e in instance.escalations if not e.resolved}] *)
Definition open_esc (i : WorkflowInstance) : list string :=
  esc_step_id <$> filter (fun e => esc_resolved e = false) (wi_escalations i).

Definition _approval_granted (i : WorkflowInstance) (step_id : string) : bool :=
  existsb (fun e => bool_decide (esc_step_id e = step_id) && esc_resolved e) (wi_escalations i).

(** The candidates that must be approved first. *)
Fixpoint approvals (i : WorkflowInstance) (d : WorkflowDefinition)
    (candidates : list (string * Z)) : res (list string) :=
  match candidates with
  | [] => Ok []
  | (sid, _) :: rest =>
      step ← def_step d sid;
      more ← approvals i d rest;
      Ok (if ws_requires_approval step && negb (bool_decide (sid ∈ open_esc i))
             && negb (_approval_granted i sid)
          then sid :: more else more)
  end.

(** [all(instance.step_states[s.step_id].status in _SETTLED for s in steps)] *)
Fixpoint all_in_settled (i : WorkflowInstance) (steps : list WorkflowStep) : res bool :=
  match steps with
  | [] => Ok true
  | s :: rest => st ← get_step i (ws_step_id s);
                 if bool_decide (st_status st ∈ _SETTLED) then all_in_settled i rest
                 else Ok false
  end.

Definition base_plan (sn : scan) : _Plan := {|
  pl_dispatch := []; pl_approval_needed := []; pl_terminal_failure := sn_failure sn;
  pl_retry_wakeup := sn_wakeup sn; pl_all_settled := false; pl_budget_blocked_step := None |}.

Definition _plan (i : WorkflowInstance) (d : WorkflowDefinition) (now : time) : res _Plan :=
  let running := length (running_steps i) in
  sn ← scan_steps i d now;
  match sn_failure sn with
  | Some _ => Ok (base_plan sn)
  | None =>
      needed ← approvals i d (sn_candidates sn);
      match needed with
      | _ :: _ => Ok {| pl_dispatch := []; pl_approval_needed := needed;
                        pl_terminal_failure := None; pl_retry_wakeup := sn_wakeup sn;
                        pl_all_settled := false; pl_budget_blocked_step := None |}
      | [] =>
          let dispatchable := filter (fun c => c.1 ∉ open_esc i) (sn_candidates sn) in
          match dispatchable, budget_out i with
          | c :: _, true =>
              Ok {| pl_dispatch := []; pl_approval_needed := [];
                    pl_terminal_failure := None; pl_retry_wakeup := sn_wakeup sn;
                    pl_all_settled := false; pl_budget_blocked_step := Some c.1 |}
          | _, _ =>
              let free := Z.max (wd_max_concurrent_steps d - Z.of_nat running) 0 in
              let dispatch := take (Z.to_nat free) dispatchable in
              all_settled ←
                (if bool_decide (dispatch = []) && bool_decide (sn_wakeup sn = None)
                    && (running =? 0)%nat
                 then all_in_settled i (wd_steps d) else Ok false);
              Ok {| pl_dispatch := dispatch; pl_approval_needed := [];
                    pl_terminal_failure := None; pl_retry_wakeup := sn_wakeup sn;
                    pl_all_settled := all_settled; pl_budget_blocked_step := None |}
          end
      end
  end.

Definition _resolve_inputs (i : WorkflowInstance) (step : WorkflowStep) : dict :=
  foldl (fun inputs dep =>
           <[dep := JObj match wi_step_states i !! dep with
                         | Some st => default ∅ (st_output st)
                         | None => ∅
                         end]> inputs)
    (wi_context i) (ws_dependencies step).

(** ** Turning outcomes into events *)

Definition outcome_ok (o : StepOutcome) : bool :=
  match o with StepSuccess _ _ _ _ _ _ => true | StepFailure _ _ _ _ _ _ => false end.
Definition outcome_recordings (o : StepOutcome) : list LLMRecording :=
  match o with StepSuccess _ _ _ _ _ r => r | StepFailure _ _ _ _ _ r => r end.
Definition outcome_review (o : StepOutcome) : option ReviewRequest :=
  match o with StepSuccess _ _ _ _ r _ => r | StepFailure _ _ _ _ _ _ => None end.
Definition outcome_retryable (o : StepOutcome) : bool :=
  match o with StepSuccess _ _ _ _ _ _ => false | StepFailure _ _ r _ _ _ => r end.

Definition recording_body (sid : string) (att : Z) (rec : LLMRecording) : event_body :=
  LLMCallRecorded sid att (rec_request_digest rec) (rec_model rec) (rec_response rec)
    (rec_tokens_input rec) (rec_tokens_output rec) (rec_cost_usd rec).

Definition charge_body (sid : string) (c : CostEntry) : event_body :=
  CostCharged (Some sid) (ce_amount_usd c) (ce_model c) (ce_tokens_input c) (ce_tokens_output c).

Definition effect_bodies (sid : string) (eff : EffectOutcome) : list event_body :=
  (if eo_deduplicated eff then []
   else [SideEffectIntentRecorded sid (eo_effect_name eff) (eo_idempotency_key eff)
           (eo_params eff) (eo_guarantee eff)]) ++
  [SideEffectExecuted sid (eo_idempotency_key eff) (ers_data (eo_result eff))
     (eo_deduplicated eff)].

Definition verdict_body (sid : string) (att : Z) (o : StepOutcome) : event_body :=
  match o with
  | StepSuccess output model_used _ _ _ _ =>
      StepCompleted sid att output model_used fzero 0 0 0
  | StepFailure et em retryable _ _ _ => StepFailed sid att et em retryable
  end.

Record attempt_result := {
  ar_step_id : string;
  ar_attempt : Z;
  ar_step : WorkflowStep;
  ar_outcome : StepOutcome;
}.

Definition outcome_bodies (r : attempt_result) : list event_body :=
  let sid := ar_step_id r in
  let o := ar_outcome r in
  (recording_body sid (ar_attempt r) <$> outcome_recordings o) ++
  (charge_body sid <$> outcome_charges o) ++
  (outcome_effects o ≫= effect_bodies sid) ++
  [verdict_body sid (ar_attempt r) o].

(** ** The driver's collaborators *)

Record Wired (W : Type) := {
  dr_side_effects : option (ProviderRegistry W);
  dr_llm : option (ModelRegistry * LLMProviderRegistry W);
  dr_registry : gmap string StepRunner;
  dr_budget : option (option float);
  dr_notifier : bool;
}.
Arguments dr_side_effects {W}. Arguments dr_llm {W}. Arguments dr_registry {W}.
Arguments dr_budget {W}. Arguments dr_notifier {W}.

Section driver.
Context {Hh : Hashing} {Ps : PyStr} {Cm : CMath} {W : Type}.
Context {Os : OutboxStore W} {Ck : Clock W} {Ig : IdGenerator W} {Ej : EventJournal W}
        {Ds : DefinitionSource W} {Bl : BudgetLedger W} {Dl : DeadLetters W} {Nt : Notifier W}.
Context (self : Wired W).

Definition Guard : Type := W -> res unit.
Abbreviation D := (M W exn).

(** ** Append plumbing *)

Definition _event (i : WorkflowInstance) (b : event_body) : D event :=
  eid ← fresh_id;
  t ← read_clock;
  if body_valid b then
    mret {| ev_event_id := eid; ev_instance_id := wi_instance_id i;
            ev_tenant_id := wi_tenant_id i; ev_sequence := 1; ev_occurred_at := t;
            ev_body := b |}
  else raise (Exn (PyExc "ValidationError") (event_type b)).

(** [journal.append_new], then the new events folded onto the local copy. *)
Definition _append (i : WorkflowInstance) (d : WorkflowDefinition) (drafts : list event)
    (guard : Guard) (next_wakeup_at : option time) : D WorkflowInstance :=
  match drafts with
  | [] => mret i
  | _ => out ← append_new (wi_instance_id i) (wi_tenant_id i) drafts (wi_version i)
                 (Some guard) next_wakeup_at;
         lift (Fold.fold out.2 (Some d) (Some i))
  end.

Definition _transition (i : WorkflowInstance) (d : WorkflowDefinition)
    (frm to : WorkflowStatus) (guard : Guard) (reason : option string)
    (next_wakeup_at : option time) : D WorkflowInstance :=
  draft ← _event i (InstanceStatusChanged frm to reason);
  _append i d [draft] guard next_wakeup_at.

Definition _notify (i : WorkflowInstance) (reason detail : string) : D unit :=
  if dr_notifier self then
    try_except
      (notify {| no_channel := "escalations";
                 no_subject := "Approval needed: " +:+ reason +:+ " on " +:+ wi_instance_id i;
                 no_body := detail;
                 no_metadata := <["instance_id" := JStr (wi_instance_id i)]>
                   (<["tenant_id" := JStr (wi_tenant_id i)]> {["reason" := JStr reason]}) |})
      is_Exception (fun _ => mret tt)
  else mret tt.

(** An escalation draft: its id is drawn before the event's. *)
Definition raise_escalation (i : WorkflowInstance) (sid reason recommendation : string)
    (confidence : float) (options : list dict) (deadline : option time) (auto_action : string)
    : D event :=
  eid ← fresh_id;
  _event i (EscalationRaised eid sid reason recommendation confidence options deadline auto_action).

(** Append one escalation and park the instance for approval. *)
Definition park_for_human (i : WorkflowInstance) (d : WorkflowDefinition)
    (sid reason recommendation wf_reason : string) (guard : Guard) : D unit :=
  e1 ← raise_escalation i sid reason recommendation fzero [] None "abort";
  e2 ← _event i (InstanceStatusChanged WorkflowStatus.RUNNING WorkflowStatus.WAITING_APPROVAL
                   (Some wf_reason));
  _ ← _append i d [e1; e2] guard None;
  mret tt.

(** ** Recovery *)

Definition _recover_in_flight (i : WorkflowInstance) (d : WorkflowDefinition) (guard : Guard)
    : D WorkflowInstance :=
  match running_steps i with
  | [] => mret i
  | stale => drafts ← mapM_ (fun sid => _event i (StepStatusChanged sid StepStatus.RUNNING
                               StepStatus.READY (Some "worker-recovered"))) stale;
             _append i d drafts guard None
  end.

(** ** Dispatch *)

Definition start_drafts (i : WorkflowInstance) (worker_id : string) (c : string * Z)
    : D (list event) :=
  st ← lift (get_step i c.1);
  pre ← (if bool_decide (st_status st = StepStatus.PENDING)
         then e ← _event i (StepStatusChanged c.1 StepStatus.PENDING StepStatus.READY
                              (Some "dependencies satisfied"));
              mret [e]
         else mret []);
  e ← _event i (StepStarted c.1 c.2 worker_id None);
  mret (pre ++ [e]).

Definition step_context (i : WorkflowInstance) (step : WorkflowStep) (sid agent_type : string)
    (att : Z) (inputs : dict) (budget : option BudgetView) (replay : list LLMRecording)
    : StepContext := {|
  sc_instance_id := wi_instance_id i; sc_tenant_id := wi_tenant_id i; sc_step_id := sid;
  sc_agent_type := agent_type; sc_attempt := att; sc_inputs := inputs;
  sc_instance_context := wi_context i; sc_budget := budget; sc_replay_llm := replay;
  sc_charges := []; sc_effects := []; sc_review := None; sc_llm_index := 0;
  sc_llm_recordings := [] |}.

Definition wiring : Wiring W := {| wg_guard := dr_side_effects self; wg_llm := dr_llm self |}.

(** Compensation handlers get no LLM client. *)
Definition compensation_wiring : Wiring W :=
  {| wg_guard := dr_side_effects self; wg_llm := None |}.

Definition one_attempt (i : WorkflowInstance) (d : WorkflowDefinition)
    (budget : option BudgetView) (c : string * Z) : D attempt_result :=
  step ← lift (def_step d c.1);
  st ← lift (get_step i c.1);
  outcome ← run_attempt wiring (dr_registry self)
    (step_context i step c.1 (ws_agent_type step) c.2 (_resolve_inputs i step) budget
       (st_recorded_llm_calls st))
    (ws_timeout_seconds step);
  mret {| ar_step_id := c.1; ar_attempt := c.2; ar_step := step; ar_outcome := outcome |}.

(** The first exception among the replies, or all the results. *)
Fixpoint all_replies {A} (l : list (result exn A)) : res (list A) :=
  match l with
  | [] => Ok []
  | r :: rest => a ← r; more ← all_replies rest; Ok (a :: more)
  end.

Definition gather {A} (tasks : list (D A)) : D (list A) :=
  replies ← mapM_ observe tasks;
  lift (all_replies replies).

Definition seconds_later (now : time) (timeout : option Z) : option time :=
  match timeout with
  | Some n => if (n =? 0)%Z then None else Some (now + seconds n)%Z
  | None => None
  end.

Definition review_draft (i : WorkflowInstance) (now : time) (r : string * ReviewRequest)
    : D event :=
  let req := r.2 in
  raise_escalation i r.1 (rq_reason req) (rq_recommendation req) (rq_confidence req)
    (rq_options req) (seconds_later now (rq_timeout_seconds req)) (rq_auto_action req).

Definition _raise_review_escalations (i : WorkflowInstance) (d : WorkflowDefinition)
    (reviews : list (string * ReviewRequest)) (guard : Guard) : D WorkflowInstance :=
  now ← read_clock;
  raised ← mapM_ (review_draft i now) reviews;
  e ← _event i (InstanceStatusChanged WorkflowStatus.RUNNING WorkflowStatus.WAITING_APPROVAL
        (Some ("review requested: " +:+ str_join ", " (fst <$> reviews))));
  i ← _append i d (raised ++ [e]) guard None;
  _ ← _notify i (str_join ", " (Dag.py_sorted (remove_dups ((fun r => rq_reason r.2) <$> reviews))))
        ("steps awaiting review: " +:+ str_join ", " (fst <$> reviews));
  mret i.

(** A retry is scheduled while the attempt number is within [max_retries]. *)
Definition retries (r : attempt_result) : bool :=
  negb (outcome_ok (ar_outcome r)) && outcome_retryable (ar_outcome r) &&
  (ar_attempt r <=? max_retries (ws_retry_policy (ar_step r)))%Z.

Definition retry_draft (i : WorkflowInstance) (now : time) (r : attempt_result) : D event :=
  delay ← lift (backoff_delay (ws_retry_policy (ar_step r)) (ar_attempt r));
  dt ← lift (timedelta_seconds delay);
  _event i (StepRetryScheduled (ar_step_id r) (ar_attempt r + 1) (now + dt)%Z).

Definition reviews_of (results : list attempt_result) : list (string * ReviewRequest) :=
  omap (fun r => (fun q => (ar_step_id r, q)) <$> outcome_review (ar_outcome r)) results.

Definition record_wave_spend (i : WorkflowInstance) (results : list attempt_result) : D unit :=
  match dr_budget self with
  | None => mret tt
  | Some limit =>
      let spent := fsum (results ≫= fun r => ce_amount_usd <$> outcome_charges (ar_outcome r)) in
      if fltb fzero spent
      then t ← read_clock; record_spend (wi_tenant_id i) spent t
      else mret tt
  end.

Definition budget_view (i : WorkflowInstance) : D (option BudgetView) :=
  match dr_budget self with
  | None => mret None
  | Some limit => t ← read_clock; gets (fun w => Some (view limit i t w))
  end.

Definition _dispatch_wave (i : WorkflowInstance) (d : WorkflowDefinition)
    (dispatch : list (string * Z)) (lease : Lease) (guard : Guard) : D WorkflowInstance :=
  started ← mapM_ (start_drafts i (le_worker_id lease)) dispatch;
  i ← _append i d (mjoin started) guard None;
  bv ← budget_view i;
  results ← gather (one_attempt i d bv <$> dispatch);
  drafts ← mapM_ (_event i) (results ≫= outcome_bodies);
  i ← _append i d drafts guard None;
  _ ← record_wave_spend i results;
  now ← read_clock;
  retry_drafts ← mapM_ (retry_draft i now) (filter (fun r => retries r = true) results);
  i ← _append i d retry_drafts guard None;
  match reviews_of results with
  | [] => mret i
  | reviews => _raise_review_escalations i d reviews guard
  end.

(** ** Terminal transitions *)

Definition step_outputs (i : WorkflowInstance) : dict :=
  omap (fun st => if bool_decide (st_status st = StepStatus.COMPLETED)
                  then JObj <$> st_output st else None) (wi_step_states i).

Definition _complete (i : WorkflowInstance) (d : WorkflowDefinition) (guard : Guard)
    : D DriveReport :=
  e1 ← _event i (InstanceStatusChanged WorkflowStatus.RUNNING WorkflowStatus.COMPLETED None);
  e2 ← _event i (InstanceCompleted (step_outputs i));
  _ ← _append i d [e1; e2] guard None;
  mret (report (wi_instance_id i) DriveResult.COMPLETED).

Definition _escalate_max_retries (i : WorkflowInstance) (d : WorkflowDefinition)
    (step_id reason : string) (guard : Guard) : D DriveReport :=
  let detail := match wi_step_states i !! step_id with
                | Some st => show_opt (st_error_message st)
                | None => reason
                end in
  _ ← park_for_human i d step_id "max_retries"
        ("step " +:+ step_id +:+ " exhausted its retries: " +:+ detail
         +:+ ". resolve with retry / skip / abort.") reason guard;
  _ ← _notify i "max_retries" reason;
  mret (report (wi_instance_id i) DriveResult.WAITING_APPROVAL).

Definition _escalate_cost_threshold (i : WorkflowInstance) (d : WorkflowDefinition)
    (step_id : string) (guard : Guard) : D DriveReport :=
  _ ← park_for_human i d step_id "cost_threshold"
        "raise the workflow / tenant budget, then resume" "budget exceeded (pre-flight)" guard;
  _ ← _notify i "cost_threshold" "a step's projected cost exceeds the budget";
  mret (report (wi_instance_id i) DriveResult.WAITING_APPROVAL).

Definition _escalate_compensation_failure (i : WorkflowInstance) (d : WorkflowDefinition)
    (detail : string) (guard : Guard) : D DriveReport :=
  _ ← park_for_human i d "" "compensation_failed" detail
        "compensation failed — needs a human" guard;
  _ ← _notify i "compensation_failed" detail;
  mret (report (wi_instance_id i) DriveResult.WAITING_APPROVAL).

Definition _run_step_compensation (i : WorkflowInstance) (step : WorkflowStep) : D unit :=
  st ← lift (get_step i (ws_step_id step));
  let action := default "" (ws_compensation_action step) in
  outcome ← run_attempt compensation_wiring (dr_registry self)
    (step_context i step (ws_step_id step) action 1
       {[ "output" := JObj (default ∅ (st_output st)) ]} None [])
    (ws_timeout_seconds step);
  match outcome with
  | StepSuccess _ _ _ _ _ _ => mret tt
  | StepFailure _ em _ _ _ _ => raise (Exn CompensationError em)
  end.

(** The steps whose handler must run, in reverse order of definition. *)
Fixpoint compensable (i : WorkflowInstance) (steps : list WorkflowStep)
    : res (list WorkflowStep) :=
  match steps with
  | [] => Ok []
  | s :: rest =>
      here ← (if truthy_str (ws_compensation_action s)
              then st ← get_step i (ws_step_id s);
                   Ok (bool_decide (st_status st = StepStatus.COMPLETED))
              else Ok false);
      more ← compensable i rest;
      Ok (if (here : bool) then s :: more else more)
  end.

(** Run the handlers in order; the message of the first that fails. *)
Fixpoint run_compensations (i : WorkflowInstance) (steps : list WorkflowStep)
    : D (option string) :=
  match steps with
  | [] => mret None
  | s :: rest =>
      failed ← try_except (_ ← _run_step_compensation i s; mret None) is_Exception
        (fun exc => mret (Some ("compensation for step " +:+ ws_step_id s +:+ " failed: "
                                +:+ exn_msg exc)));
      match failed with
      | Some detail => mret (Some detail)
      | None => run_compensations i rest
      end
  end.

(** [compensate_instance], with a [CompensationError] turned into its message. *)
Definition undo_effects (i : WorkflowInstance) : D (list EffectOutcome + string) :=
  match dr_side_effects self with
  | None => mret (inl [])
  | Some providers =>
      try_except
        (undone ← compensate_instance providers (wi_instance_id i) (wi_tenant_id i);
         mret (inl undone))
        (fun e => isinstance e CompensationError)
        (fun e => mret (inr (exn_msg e)))
  end.

Definition rollback_bodies (undone : list EffectOutcome) (steps : list WorkflowStep)
    (reason : string) : list event_body :=
  ((fun eff => SideEffectCompensated (eo_step_id eff) (eo_idempotency_key eff)
                 (ers_data (eo_result eff))) <$> undone) ++
  ((fun s => StepCompensated (ws_step_id s) (default "" (ws_compensation_action s))) <$> steps) ++
  [InstanceStatusChanged WorkflowStatus.RUNNING WorkflowStatus.ROLLED_BACK (Some reason)].

Definition _rollback (i : WorkflowInstance) (d : WorkflowDefinition) (reason : string)
    (guard : Guard) : D DriveReport :=
  undone ← undo_effects i;
  match undone with
  | inr detail => _escalate_compensation_failure i d detail guard
  | inl undone =>
      steps ← lift (compensable i (rev (wd_steps d)));
      failed ← run_compensations i steps;
      match failed with
      | Some detail => _escalate_compensation_failure i d detail guard
      | None =>
          drafts ← mapM_ (_event i) (rollback_bodies undone steps reason);
          _ ← _append i d drafts guard None;
          mret (report (wi_instance_id i) DriveResult.ROLLED_BACK)
      end
  end.

Definition _apply_failure_policy (i : WorkflowInstance) (d : WorkflowDefinition)
    (failure : string * string) (guard : Guard) : D DriveReport :=
  let '(step_id, reason) := failure in
  if match wi_step_states i !! step_id with
     | Some st => bool_decide (st_error_type st = Some "BudgetExceededError")
     | None => false
     end
  then _escalate_cost_threshold i d step_id guard
  else match wd_on_failure d with
  | OnFailure.ESCALATE => _escalate_max_retries i d step_id reason guard
  | OnFailure.ROLLBACK => _rollback i d reason guard
  | OnFailure.DEAD_LETTER =>
      i ← _transition i d WorkflowStatus.RUNNING WorkflowStatus.DEAD_LETTERED guard
            (Some reason) None;
      _ ← record_dead_letter i (Some step_id) reason;
      mret (report (wi_instance_id i) DriveResult.DEAD_LETTERED)
  | OnFailure.PAUSE =>
      _ ← _transition i d WorkflowStatus.RUNNING WorkflowStatus.PAUSED guard (Some reason) None;
      mret (report (wi_instance_id i) DriveResult.PAUSED)
  end.

Definition approval_drafts (i : WorkflowInstance) (d : WorkflowDefinition) (now : time)
    (sid : string) : D (list event) :=
  step ← lift (def_step d sid);
  st ← lift (get_step i sid);
  pre ← (if bool_decide (st_status st = StepStatus.PENDING)
         then e ← _event i (StepStatusChanged sid StepStatus.PENDING StepStatus.READY
                              (Some "dependencies satisfied"));
              mret [e]
         else mret []);
  e ← raise_escalation i sid "explicit_approval" "" fzero []
        (seconds_later now (ws_approval_timeout_seconds step)) (ws_approval_auto_action step);
  mret (pre ++ [e]).

Definition _escalate_for_approval (i : WorkflowInstance) (d : WorkflowDefinition)
    (step_ids : list string) (guard : Guard) : D DriveReport :=
  now ← read_clock;
  drafts ← mapM_ (approval_drafts i d now) step_ids;
  e ← _event i (InstanceStatusChanged WorkflowStatus.RUNNING WorkflowStatus.WAITING_APPROVAL
        (Some ("approval required: " +:+ str_join ", " step_ids)));
  _ ← _append i d (mjoin drafts ++ [e]) guard None;
  _ ← _notify i "explicit_approval" ("steps awaiting sign-off: " +:+ str_join ", " step_ids);
  mret (report (wi_instance_id i) DriveResult.WAITING_APPROVAL).

(** [x or 0.0]: a zero of either sign becomes [0.0]. *)
Definition or_zero (x : option float) : float :=
  match x with Some (SpecFloat.S754_zero _) | None => fzero | Some x => x end.

Definition _block_on_budget (i : WorkflowInstance) (d : WorkflowDefinition) (step_id : string)
    (guard : Guard) : D DriveReport :=
  e1 ← _event i (BudgetExceeded step_id fzero (or_zero (remaining_budget_usd i)) "workflow");
  e2 ← _event i (InstanceStatusChanged WorkflowStatus.RUNNING WorkflowStatus.PAUSED
                   (Some "budget exhausted"));
  _ ← _append i d [e1; e2] guard None;
  mret (report (wi_instance_id i) DriveResult.PAUSED).

(** ** The main loop *)

(** The statuses on which the loop returns at once. *)
Definition resting (s : WorkflowStatus) : option DriveResult.t :=
  match s with
  | WorkflowStatus.COMPLETED => Some DriveResult.COMPLETED
  | WorkflowStatus.ROLLED_BACK => Some DriveResult.ROLLED_BACK
  | WorkflowStatus.PAUSED => Some DriveResult.PAUSED
  | WorkflowStatus.DEAD_LETTERED => Some DriveResult.DEAD_LETTERED
  | WorkflowStatus.WAITING_APPROVAL => Some DriveResult.WAITING_APPROVAL
  | WorkflowStatus.FAILED => Some DriveResult.PAUSED
  | _ => None
  end.

(** What one iteration leaves: a report, or the instance to continue with. *)
Definition act_on_plan (i : WorkflowInstance) (d : WorkflowDefinition) (plan : _Plan)
    (lease : Lease) (guard : Guard) : D (WorkflowInstance + DriveReport) :=
  match pl_budget_blocked_step plan with
  | Some sid => r ← _block_on_budget i d sid guard; mret (inr r)
  | None =>
  match pl_approval_needed plan with
  | _ :: _ => r ← _escalate_for_approval i d (pl_approval_needed plan) guard; mret (inr r)
  | [] =>
  match pl_terminal_failure plan with
  | Some failure => r ← _apply_failure_policy i d failure guard; mret (inr r)
  | None =>
  match pl_dispatch plan with
  | _ :: _ => i ← _dispatch_wave i d (pl_dispatch plan) lease guard; mret (inl i)
  | [] =>
  if pl_all_settled plan then r ← _complete i d guard; mret (inr r)
  else match pl_retry_wakeup plan with
  | Some wake =>
      i ← _transition i d WorkflowStatus.RUNNING WorkflowStatus.RETRYING guard None (Some wake);
      mret (inr {| rp_instance_id := wi_instance_id i; rp_result := DriveResult.PARKED;
                   rp_next_wakeup_at := Some wake |})
  | None => mret (inr (report (wi_instance_id i) DriveResult.IDLE))
  end end end end end.

Definition iteration (i : WorkflowInstance) (d : WorkflowDefinition) (lease : Lease)
    (guard : Guard) : D (WorkflowInstance + DriveReport) :=
  match resting (wi_status i) with
  | Some r => mret (inr (report (wi_instance_id i) r))
  | None =>
      match wi_status i with
      | WorkflowStatus.PENDING =>
          i ← _transition i d WorkflowStatus.PENDING WorkflowStatus.RUNNING guard None None;
          mret (inl i)
      | WorkflowStatus.RETRYING =>
          i ← _transition i d WorkflowStatus.RETRYING WorkflowStatus.RUNNING guard None None;
          mret (inl i)
      | _ =>
          now ← read_clock;
          plan ← lift (_plan i d now);
          act_on_plan i d plan lease guard
      end
  end.

Fixpoint run_loop (fuel : nat) (i : WorkflowInstance) (d : WorkflowDefinition) (lease : Lease)
    (guard : Guard) : D DriveReport :=
  match fuel with
  | O => raise (RuntimeError ("drive did not converge for " +:+ wi_instance_id i))
  | S fuel =>
      next ← iteration i d lease guard;
      match next with
      | inl i => run_loop fuel i d lease guard
      | inr r => mret r
      end
  end.

Definition _run : WorkflowInstance -> WorkflowDefinition -> Lease -> Guard -> D DriveReport :=
  run_loop _MAX_DRIVE_ITERATIONS.

(** The rest of [_drive] once the definition is found. *)
Definition drive_with (d : WorkflowDefinition) (lease : Lease) (guard : Guard) : D DriveReport :=
  oi ← get_instance (le_instance_id lease) (le_tenant_id lease) (Some d);
  match oi with
  | None => mret (report (le_instance_id lease) DriveResult.IDLE)
  | Some i =>
      try_except (i ← _recover_in_flight i d guard; _run i d lease guard)
        (fun e => isinstance e ConflictError)
        (fun _ => mret (report (le_instance_id lease) DriveResult.LEASE_LOST))
  end.

Definition drive (lease : Lease) (guard : Guard) : D DriveReport :=
  defn ← get_definition (le_workflow_id lease) (le_workflow_version lease) (le_tenant_id lease);
  match defn with
  | None => raise (Exn ConfigurationError ("definition " +:+ le_workflow_id lease +:+ " v"
                     +:+ le_workflow_version lease +:+ " missing"))
  | Some d => drive_with d lease guard
  end.

End driver.
End Driver.
