(* ===== verification/PlanTheory.v ===== *)
(** The planner of the driver ([_plan]): what a plan guarantees of the steps it
    dispatches, blocks on, fails on or declares settled. *)

From stdpp Require Import base strings list gmap.
From Stdlib Require Import ZArith Lia.
From S2P Require Import Prelude Exceptions Values Enums Dag Definitions Instance Events Fold.
From S2P Require Import Samples SideEffects Driver.

Import SideEffects Driver.

(** ** The first loop as three independent selections *)

(** The attempt a step is a candidate for. *)
Definition candidate (i : WorkflowInstance) (now : time) (s : WorkflowStep)
    : option (string * Z) :=
  st ← wi_step_states i !! ws_step_id s;
  if bool_decide (st_status st ∈ [StepStatus.PENDING; StepStatus.READY])
     && forallb (step_done i) (ws_dependencies s)
     || bool_decide (st_status st = StepStatus.FAILED)
        && match st_next_retry_at st with Some t => (t <=? now)%Z | None => false end
  then Some (ws_step_id s, st_attempts st + 1)%Z else None.

(** The failure a step that will not be retried reports. *)
Definition failed_for_good (i : WorkflowInstance) (s : WorkflowStep) : option (string * string) :=
  st ← wi_step_states i !! ws_step_id s;
  match st_status st, st_next_retry_at st with
  | StepStatus.FAILED, None =>
      Some (ws_step_id s, "step " +:+ ws_step_id s +:+ " failed: " +:+ show_opt (st_error_message st))
  | _, _ => None
  end.

(** The time a step waits for. *)
Definition retry_wait (i : WorkflowInstance) (now : time) (s : WorkflowStep) : option time :=
  st ← wi_step_states i !! ws_step_id s;
  match st_status st, st_next_retry_at st with
  | StepStatus.FAILED, Some t => if (t <=? now)%Z then None else Some t
  | _, _ => None
  end.

Definition earliest (w : option time) (t : time) : option time :=
  Some match w with None => t | Some w => Z.min w t end.

Lemma deps_done_step_done i deps b : deps_done i deps = Ok b -> b = forallb (step_done i) deps.
Proof.
  induction deps as [|x deps IH]; cbn; [by intros [= <-]|].
  intros (st & Hst%get_step_ok & H)%bind_Ok. unfold step_done at 1. rewrite Hst.
  fold _DONE. case_bool_decide; cbn; [by apply IH|by injection H as <-].
Qed.

Lemma scan_step_spec i now sn s sn' :
  scan_step i now sn s = Ok sn' ->
  is_Some (wi_step_states i !! ws_step_id s) /\
  sn_candidates sn' = sn_candidates sn ++ option_list (candidate i now s) /\
  sn_failure sn' = match sn_failure sn with Some f => Some f | None => failed_for_good i s end /\
  sn_wakeup sn' = foldl earliest (sn_wakeup sn) (option_list (retry_wait i now s)).
Proof.
  intros (st & Hst%get_step_ok & (b & Hb%deps_done_step_done & H)%bind_Ok)%bind_Ok.
  split; [by eexists|]. unfold candidate, failed_for_good, retry_wait. rewrite Hst, <- Hb. cbn.
  destruct (st_status st); cbn in *; try destruct b; try destruct (st_next_retry_at st) as [t|];
    cbn in *; try destruct (t <=? now)%Z; simplify_res; rewrite ?app_nil_r;
    split_and!; try done; by case_match.
Qed.

Lemma foldM_scan i now sn steps sn' :
  foldM (scan_step i now) sn steps = Ok sn' ->
  Forall (fun s => is_Some (wi_step_states i !! ws_step_id s)) steps /\
  sn_candidates sn' = sn_candidates sn ++ omap (candidate i now) steps /\
  sn_failure sn' = match sn_failure sn with
                   | Some f => Some f
                   | None => head (omap (failed_for_good i) steps)
                   end /\
  sn_wakeup sn' = foldl earliest (sn_wakeup sn) (omap (retry_wait i now) steps).
Proof.
  revert sn. induction steps as [|s steps IH]; intros sn.
  { intros [= <-]. cbn. rewrite app_nil_r. split_and!; [constructor|done| |done].
    by destruct (sn_failure sn). }
  intros (sn1 & (Hs & Hc & Hf & Hw)%scan_step_spec & (Hss & -> & -> & ->)%IH)%foldM_cons_Ok.
  rewrite Hc, Hf, Hw. cbn. split_and!; [by constructor| | |].
  - rewrite <- app_assoc. by destruct (candidate i now s).
  - destruct (sn_failure sn); [done|]. by destruct (failed_for_good i s).
  - by destruct (retry_wait i now s).
Qed.

(** The scan succeeds as soon as the copy knows every step. *)
Definition knows (i : WorkflowInstance) (d : WorkflowDefinition) : Prop :=
  forall s, s ∈ wd_steps d -> is_Some (wi_step_states i !! ws_step_id s) /\
    forall dep, dep ∈ ws_dependencies s -> is_Some (wi_step_states i !! dep).

Lemma deps_done_total i deps :
  (forall dep, dep ∈ deps -> is_Some (wi_step_states i !! dep)) -> exists b, deps_done i deps = Ok b.
Proof.
  induction deps as [|x deps IH]; intros Hd; cbn; [by eexists|].
  destruct (Hd x ltac:(left)) as [st Hst]. apply get_step_ok in Hst. rewrite Hst. cbn.
  destruct (bool_decide _); [|by eexists]. apply IH. intros dep Hin. apply Hd. by right.
Qed.

Lemma scan_total i d now : knows i d -> exists sn, scan_steps i d now = Ok sn.
Proof.
  intros Hk. unfold scan_steps.
  edestruct (foldM_total (scan_step i now) (fun _ => True)) as (sn & Hsn & _); [|done|by eexists].
  intros sn s Hs _. destruct (Hk s Hs) as ([st Hst] & Hdeps).
  destruct (deps_done_total i _ Hdeps) as [b Hb]. unfold scan_step.
  apply get_step_ok in Hst. rewrite Hst, Hb. cbn.
  destruct (bool_decide _); [by eexists|]. destruct (bool_decide _); [|by eexists].
  destruct (st_next_retry_at st); [destruct (_ <=? _)%Z|]; by eexists.
Qed.

(** ** The plan in terms of the selections *)

(** What [approvals] selects. *)
Definition must_approve (i : WorkflowInstance) (d : WorkflowDefinition) (sid : string) : bool :=
  match def_step d sid with
  | Ok step => ws_requires_approval step && negb (bool_decide (sid ∈ open_esc i))
               && negb (_approval_granted i sid)
  | Err _ => false
  end.

Lemma approvals_spec i d cs l :
  approvals i d cs = Ok l -> l = fst <$> filter (fun c => must_approve i d c.1 = true) cs.
Proof.
  revert l. induction cs as [|[sid att] cs IH]; intros l; [by intros [= <-]|].
  cbn [approvals]. intros (step & Hs & (more & ->%IH & [= <-])%bind_Ok)%bind_Ok.
  assert (must_approve i d sid = ws_requires_approval step && negb (bool_decide (sid ∈ open_esc i))
               && negb (_approval_granted i sid)) as <- by (unfold must_approve; by rewrite Hs).
  rewrite filter_cons. cbn. by destruct (must_approve i d sid).
Qed.

Lemma approvals_total i d cs :
  (forall c, c ∈ cs -> exists s, def_step d c.1 = Ok s) -> exists l, approvals i d cs = Ok l.
Proof.
  induction cs as [|[sid att] cs IH]; intros Hc; cbn; [by eexists|].
  destruct (Hc (sid, att) ltac:(left)) as [s Hs]. cbn in Hs. rewrite Hs. cbn.
  destruct IH as [l ->]; [|by eexists]. intros c Hin. apply Hc. by right.
Qed.

Lemma all_in_settled_ok i steps b :
  all_in_settled i steps = Ok b -> b = true -> forall s, s ∈ steps -> exists st,
    wi_step_states i !! ws_step_id s = Some st /\ st_status st ∈ _SETTLED.
Proof.
  revert b. induction steps as [|s steps IH]; intros b; cbn; [by intros _ _ s ?%not_elem_of_nil|].
  intros (st & Hst%get_step_ok & H)%bind_Ok ->. case_bool_decide; [|done].
  intros s' [->|Hin]%elem_of_cons; [by exists st|by eapply IH].
Qed.

(** The candidates outside an open escalation. *)
Definition dispatchable (i : WorkflowInstance) (d : WorkflowDefinition) (now : time)
    : list (string * Z) :=
  filter (fun c => c.1 ∉ open_esc i) (omap (candidate i now) (wd_steps d)).

Definition free_slots (i : WorkflowInstance) (d : WorkflowDefinition) : nat :=
  Z.to_nat (Z.max (wd_max_concurrent_steps d - Z.of_nat (length (running_steps i))) 0).

Definition blocked_on_budget (i : WorkflowInstance) (d : WorkflowDefinition) (now : time) : bool :=
  budget_out i && bool_decide (dispatchable i d now <> []).

Definition no_wave (p : _Plan) : Prop :=
  pl_dispatch p = [] /\ pl_all_settled p = false.

(** The plan, branch by branch. *)
Lemma plan_spec i d now p :
  _plan i d now = Ok p ->
  pl_terminal_failure p = head (omap (failed_for_good i) (wd_steps d)) /\
  pl_retry_wakeup p = foldl earliest None (omap (retry_wait i now) (wd_steps d)) /\
  match pl_terminal_failure p with
  | Some _ => no_wave p /\ pl_approval_needed p = [] /\ pl_budget_blocked_step p = None
  | None =>
      pl_approval_needed p = fst <$> filter (fun c => must_approve i d c.1 = true)
                                       (omap (candidate i now) (wd_steps d)) /\
      if bool_decide (pl_approval_needed p <> []) then no_wave p /\ pl_budget_blocked_step p = None
      else if blocked_on_budget i d now
      then no_wave p /\ pl_budget_blocked_step p = fst <$> head (dispatchable i d now)
      else pl_budget_blocked_step p = None /\
           pl_dispatch p = take (free_slots i d) (dispatchable i d now) /\
           (if bool_decide (pl_dispatch p = []) && bool_decide (pl_retry_wakeup p = None)
               && (length (running_steps i) =? 0)%nat
            then all_in_settled i (wd_steps d) else Ok false) = Ok (pl_all_settled p)
  end.
Proof.
  unfold _plan. intros (sc & Hsc & H)%bind_Ok. unfold scan_steps in Hsc.
  apply foldM_scan in Hsc as (_ & Hc & Hf & Hw). cbn in Hc, Hf, Hw. rewrite Hf in H.
  destruct (head (omap (failed_for_good i) (wd_steps d))) as [f|] eqn:Hff.
  { injection H as <-. cbn. by rewrite Hf, Hw. }
  apply bind_Ok in H as (needed & Hn%approvals_spec & H). rewrite Hc in Hn, H.
  fold (dispatchable i d now) in H. unfold blocked_on_budget.
  destruct needed as [|n needed]; [|injection H as <-; cbn; by rewrite <- Hn].
  destruct (dispatchable i d now) as [|c cs] eqn:Hd.
  - apply bind_Ok in H as (b & Hb & [= <-]). cbn in *. rewrite andb_false_r, <- Hn, Hw. cbn.
    split_and!; try done. by rewrite Hw in Hb.
  - destruct (budget_out i).
    + injection H as <-. cbn in *. by rewrite <- Hn, Hw.
    + apply bind_Ok in H as (b & Hb & [= <-]). cbn in *. rewrite <- Hn, Hw. cbn.
      split_and!; try done. by rewrite Hw in Hb.
Qed.

Lemma candidate_some i now s c :
  candidate i now s = Some c -> exists st, wi_step_states i !! ws_step_id s = Some st /\
    c = (ws_step_id s, st_attempts st + 1)%Z /\
    ((st_status st ∈ [StepStatus.PENDING; StepStatus.READY] /\
      forall dep, dep ∈ ws_dependencies s -> step_done i dep = true) \/
     (st_status st = StepStatus.FAILED /\ exists t, st_next_retry_at st = Some t /\ (t <= now)%Z)).
Proof.
  unfold candidate. intros (st & Hst & H)%bind_Some. case_match eqn:E; [|done].
  injection H as <-. exists st. split_and!; [done..|].
  apply orb_true_iff in E as [[E1%bool_decide_eq_true E2]%andb_true_iff|[E1%bool_decide_eq_true E2]%andb_true_iff].
  - left. split; [done|]. intros dep Hdep. rewrite forallb_forall in E2. apply E2.
    by apply list_elem_of_In.
  - right. split; [done|]. destruct (st_next_retry_at st) as [t|]; [|done]. exists t. split; [done|lia].
Qed.

(** A plan that dispatches something, or settles, comes from the last branch. *)
Lemma plan_wave i d now p :
  _plan i d now = Ok p -> pl_dispatch p <> [] \/ pl_all_settled p = true ->
  head (omap (failed_for_good i) (wd_steps d)) = None /\
  (forall c, c ∈ omap (candidate i now) (wd_steps d) -> must_approve i d c.1 = false) /\
  blocked_on_budget i d now = false /\
  pl_dispatch p = take (free_slots i d) (dispatchable i d now) /\
  (pl_all_settled p = true -> pl_dispatch p = [] /\ running_steps i = [] /\
     all_in_settled i (wd_steps d) = Ok true).
Proof.
  intros (Hf & _ & H)%plan_spec Hor. rewrite Hf in H.
  assert (no_wave p -> False) as Hno.
  { intros [H1 H2]. destruct Hor as [Hx|Hx]; [by apply Hx|congruence]. }
  destruct (head (omap (failed_for_good i) (wd_steps d))) as [f|] eqn:Hff; [tauto|].
  destruct H as [Ha H]. case_bool_decide as Hne; [tauto|].
  destruct (blocked_on_budget i d now) eqn:Hb; [tauto|].
  destruct H as (_ & Hd & Hs). split_and!; try done.
  - intros c Hc. destruct (must_approve i d c.1) eqn:E; [|done]. rewrite Hne in Ha.
    assert (c.1 ∈ ([] : list string)) as Hx; [|by apply not_elem_of_nil in Hx].
    rewrite Ha. apply list_elem_of_fmap_2, list_elem_of_filter. done.
  - intros Ht. rewrite Ht in Hs. case_match eqn:E; [|done].
    rewrite !andb_true_iff, !bool_decide_eq_true, Nat.eqb_eq in E. destruct E as [[E1 _] E2].
    split_and!; [done| |done]. by apply nil_length_inv.
Qed.

Lemma no_failure i d s st :
  head (omap (failed_for_good i) (wd_steps d)) = None -> s ∈ wd_steps d ->
  wi_step_states i !! ws_step_id s = Some st -> st_status st = StepStatus.FAILED ->
  is_Some (st_next_retry_at st).
Proof.
  intros Hf Hs Hst Hfail. destruct (st_next_retry_at st) eqn:Hn; [by eexists|].
  destruct (omap (failed_for_good i) (wd_steps d)) as [|f l] eqn:E; [|done].
  exfalso. eapply not_elem_of_nil. rewrite <- E. apply list_elem_of_omap. exists s. split; [done|].
  unfold failed_for_good. rewrite Hst. cbn. by rewrite Hfail, Hn.
Qed.

(** What the plan checked of an attempt it dispatches. *)
Record cleared (i : WorkflowInstance) (d : WorkflowDefinition) (now : time) (c : string * Z)
    (s : WorkflowStep) (st : StepState) : Prop := {
  cl_step : s ∈ wd_steps d;
  cl_state : wi_step_states i !! ws_step_id s = Some st;
  cl_attempt : c = (ws_step_id s, st_attempts st + 1)%Z;
  cl_runnable :
    (st_status st ∈ [StepStatus.PENDING; StepStatus.READY] /\
     forall dep, dep ∈ ws_dependencies s -> step_done i dep = true) \/
    (st_status st = StepStatus.FAILED /\ exists t, st_next_retry_at st = Some t /\ (t <= now)%Z);
  cl_not_open : ws_step_id s ∉ open_esc i;
  cl_budget : budget_out i = false;
  cl_approved : forall s', def_step d (ws_step_id s) = Ok s' -> ws_requires_approval s' = true ->
    _approval_granted i (ws_step_id s) = true;
}.

Lemma plan_dispatch_cleared i d now p c :
  _plan i d now = Ok p -> c ∈ pl_dispatch p -> exists s st, cleared i d now c s st.
Proof.
  intros Hp Hc. destruct (plan_wave i d now p Hp) as (_ & Hma & Hb & Hd & _).
  { left. intros Hn. rewrite Hn in Hc. by apply not_elem_of_nil in Hc. }
  rewrite Hd in Hc. eapply elem_of_sublist in Hc; [|apply sublist_take].
  assert (dispatchable i d now <> []) as Hne by (intros Hn; by rewrite Hn in Hc; apply not_elem_of_nil in Hc).
  apply list_elem_of_filter in Hc as [Hopen Hc]. pose proof (Hma c Hc) as Hm.
  apply list_elem_of_omap in Hc as (s & Hs & (st & Hst & -> & Hcase)%candidate_some).
  exists s, st. cbn in *. constructor; try done.
  - unfold blocked_on_budget in Hb. rewrite bool_decide_true in Hb by done. by destruct (budget_out i).
  - intros s' Hdef Hreq. unfold must_approve in Hm. rewrite Hdef, Hreq, bool_decide_false in Hm by done.
    by destruct (_approval_granted _ _).
Qed.

(** C11: Plans are safe.  Every attempt a plan dispatches is the next attempt of a
    step of the definition that is either not started with all its dependencies
    completed or skipped, or failed with its retry due; the step is not under an
    open escalation, has its approval if it requires one, and the budget is not
    exhausted.  A wave never exceeds the concurrency limit together with the steps
    already running and never starts beside a step that failed for good; and a
    plan calls the workflow settled only if every step is. *)
Theorem plan_safe i d now p :
  _plan i d now = Ok p ->
  (forall c, c ∈ pl_dispatch p -> exists s st, cleared i d now c s st) /\
  (pl_dispatch p <> [] ->
   (Z.of_nat (length (pl_dispatch p) + length (running_steps i)) <= wd_max_concurrent_steps d)%Z /\
   forall s st, s ∈ wd_steps d -> wi_step_states i !! ws_step_id s = Some st ->
     st_status st = StepStatus.FAILED -> is_Some (st_next_retry_at st)) /\
  (pl_all_settled p = true -> pl_dispatch p = [] /\ running_steps i = [] /\
   forall s, s ∈ wd_steps d -> exists st, wi_step_states i !! ws_step_id s = Some st /\
     st_status st ∈ _SETTLED).
Proof.
  intros Hp. split_and!.
  - intros c. by apply plan_dispatch_cleared.
  - intros Hne. destruct (plan_wave i d now p Hp) as (Hf & _ & _ & Hd & _); [by left|]. split.
    + rewrite Hd, length_take. unfold free_slots in *.
      destruct (decide (0 < wd_max_concurrent_steps d - Z.of_nat (length (running_steps i)))%Z); [lia|].
      exfalso. apply Hne. rewrite Hd. by replace (Z.to_nat _) with 0%nat by lia.
    + intros s st. by apply no_failure.
  - intros Ht. destruct (plan_wave i d now p Hp) as (_ & _ & _ & _ & Hset); [by right|].
    destruct (Hset Ht) as (H1 & H2 & H3). split_and!; [done..|]. by eapply all_in_settled_ok.
Qed.

(** Nothing to do now: the loop reports [IDLE]. *)
Definition idle (p : _Plan) : Prop :=
  pl_budget_blocked_step p = None /\ pl_approval_needed p = [] /\ pl_terminal_failure p = None /\
  pl_dispatch p = [] /\ pl_all_settled p = false /\ pl_retry_wakeup p = None.

(** Steps whose completion or skip the others wait for. *)
Definition done_ids (i : WorkflowInstance) (d : WorkflowDefinition) : list string :=
  filter (fun sid => step_done i sid = true) (step_ids d).

Lemma earliest_some l w : is_Some w -> is_Some (foldl earliest w l).
Proof. revert w. induction l as [|t l IH]; intros w Hw; [done|]. apply IH. by eexists. Qed.

(** In a valid definition there is a first step that is not done. *)
Lemma first_undone i d :
  valid_definition d -> (exists s, s ∈ wd_steps d /\ step_done i (ws_step_id s) = false) ->
  exists s, s ∈ wd_steps d /\ step_done i (ws_step_id s) = false /\
    forall dep, dep ∈ ws_dependencies s -> step_done i dep = true.
Proof.
  intros Hv (s0 & Hs0 & Hu0).
  set (rem := filter (fun p => step_done i p.1 = false) (definition_deps d)).
  assert (Dag.ready_steps rem (done_ids i d) <> []) as Hr.
  { apply Dag.ready_exists.
    - assert ((ws_step_id s0, ws_dependencies s0) ∈ rem) as Hin.
      { apply list_elem_of_filter. split; [done|]. apply list_elem_of_fmap. by exists s0. }
      intros Hn. rewrite Hn in Hin. by apply not_elem_of_nil in Hin.
    - intros s dep (ds & [_ Hin]%list_elem_of_filter & Hdep).
      assert (dep ∈ (definition_deps d).*1) as Hkey by (apply (vd_closed _ Hv s); by exists ds).
      destruct (step_done i dep) eqn:E.
      + left. apply list_elem_of_filter. split; [done|]. by rewrite <- definition_deps_keys.
      + right. apply list_elem_of_fmap in Hkey as (p & -> & Hp).
        apply list_elem_of_fmap_2, list_elem_of_filter. done.
    - intros s Htc. apply (vd_acyclic _ Hv s). eapply (tc_congruence id); [|exact Htc].
      intros x y (ds & [_ Hin]%list_elem_of_filter & Hdep). by exists ds. }
  destruct (Dag.ready_steps rem (done_ids i d)) as [|sid l] eqn:E; [done|].
  assert (sid ∈ Dag.ready_steps rem (done_ids i d)) as Hsid by (rewrite E; left).
  apply Dag.elem_of_ready in Hsid as (ds & [Hu Hin]%list_elem_of_filter & Hds).
  apply list_elem_of_fmap in Hin as (s & [= -> ->] & Hs). exists s. split_and!; [done..|].
  intros dep Hdep. by apply Hds, list_elem_of_filter in Hdep as [? _].
Qed.

(** Planning a valid definition never raises. *)
Lemma plan_total i d now : valid_definition d -> knows i d -> exists p, _plan i d now = Ok p.
Proof.
  intros Hv Hk. unfold _plan. destruct (scan_total i d now Hk) as [sc Hsc]. rewrite Hsc. cbn.
  unfold scan_steps in Hsc. apply foldM_scan in Hsc as (_ & Hc & _ & _). cbn in Hc.
  destruct (sn_failure sc); [by eexists|].
  destruct (approvals_total i d (sn_candidates sc)) as [l ->]; cbn.
  { intros c Hin. rewrite Hc in Hin.
    apply list_elem_of_omap in Hin as (s & Hs & (st & _ & -> & _)%candidate_some).
    exists s. by apply def_step_in; [apply vd_nodup|]. }
  destruct l; [|by eexists].
  assert (forall b : bool, exists r, (if b then all_in_settled i (wd_steps d) else Ok false) = Ok r)
    as Hset.
  { intros []; [|by eexists]. clear -Hk. unfold knows in Hk.
    induction (wd_steps d) as [|s steps IH]; cbn; [by eexists|].
    destruct (Hk s ltac:(left)) as ([st Hst] & _). apply get_step_ok in Hst. rewrite Hst. cbn.
    destruct (bool_decide _); [|by eexists]. apply IH. intros s' Hs'. apply Hk. by right. }
  destruct (filter _ (sn_candidates sc)); [|destruct (budget_out i)];
    match goal with |- context [if ?b then all_in_settled _ _ else _] =>
      destruct (Hset b) as [r Hr]; cbn in Hr |- *; rewrite ?Hr end || idtac; by eexists.
Qed.

Lemma all_in_settled_false i steps :
  all_in_settled i steps = Ok false -> exists s, s ∈ steps /\ step_done i (ws_step_id s) = false.
Proof.
  induction steps as [|s steps IH]; cbn; [done|].
  intros (st & Hst%get_step_ok & H)%bind_Ok. case_bool_decide as Hs.
  - destruct (IH H) as (s' & Hin & Hd). exists s'. split; [by right|done].
  - exists s. split; [left|]. unfold step_done. rewrite Hst. apply bool_decide_eq_false.
    intros Hd. apply Hs. unfold _SETTLED. set_solver.
Qed.

(** No step is in the hands of a worker, a reviewer or a rollback. *)
Definition at_rest (i : WorkflowInstance) : Prop :=
  forall sid st, wi_step_states i !! sid = Some st ->
    st_status st ∉ [StepStatus.RUNNING; StepStatus.WAITING_APPROVAL; StepStatus.COMPENSATED].

Lemma at_rest_or i :
  at_rest i \/ exists sid st, wi_step_states i !! sid = Some st /\
    st_status st ∈ [StepStatus.RUNNING; StepStatus.WAITING_APPROVAL; StepStatus.COMPENSATED].
Proof.
  destruct (decide (Exists (fun q : string * StepState => st_status q.2 ∈ [StepStatus.RUNNING;
    StepStatus.WAITING_APPROVAL; StepStatus.COMPENSATED]) (map_to_list (wi_step_states i))))
    as [([sid st] & Hin%elem_of_map_to_list & Hst)%Exists_exists|Hno]; [right; by exists sid, st|left].
  rewrite <- Forall_Exists_neg, Forall_forall in Hno.
  intros sid st Hst. apply (Hno (sid, st)). by apply elem_of_map_to_list.
Qed.

Lemma at_rest_no_running i : at_rest i -> running_steps i = [].
Proof.
  intros Hr. unfold running_steps. rewrite filter_all_false; [done|]. intros [sid st] Hin Hst.
  apply elem_of_map_to_list in Hin. apply (Hr sid st Hin). cbn in Hst. rewrite Hst. left.
Qed.

(** An empty dispatch with free slots and no open escalation: there is no candidate. *)
Lemma nothing_to_dispatch i d now :
  (0 < wd_max_concurrent_steps d)%Z -> open_esc i = [] -> running_steps i = [] ->
  take (free_slots i d) (dispatchable i d now) = [] -> omap (candidate i now) (wd_steps d) = [].
Proof.
  intros Hmax Hopen Hrun Hd. unfold free_slots in Hd. rewrite Hrun in Hd.
  unfold dispatchable in Hd. rewrite filter_all_true in Hd.
  - destruct (omap (candidate i now) (wd_steps d)); [done|].
    destruct (Z.to_nat (Z.max (wd_max_concurrent_steps d - Z.of_nat (length ([] : list string))) 0)) eqn:E;
      [cbn in E; lia|done].
  - intros c _. rewrite Hopen. apply not_elem_of_nil.
Qed.

(** An undone step at rest whose dependencies are done, and which is no candidate, has
    failed and waits for its retry: the plan has a time to wake up. *)
Lemma undone_waits i d now s :
  knows i d -> at_rest i -> head (omap (failed_for_good i) (wd_steps d)) = None ->
  s ∈ wd_steps d -> step_done i (ws_step_id s) = false ->
  (forall dep, dep ∈ ws_dependencies s -> step_done i dep = true) -> candidate i now s = None ->
  is_Some (foldl earliest None (omap (retry_wait i now) (wd_steps d))).
Proof.
  intros Hk Hr Hf Hin Hu Hdeps Hnc. destruct (Hk s Hin) as ([st Hst] & _).
  assert (forallb (step_done i) (ws_dependencies s) = true) as Hdall.
  { apply forallb_forall. intros dep Hdep%list_elem_of_In. by apply Hdeps. }
  unfold candidate in Hnc. rewrite Hst in Hnc. cbn in Hnc. rewrite Hdall in Hnc.
  unfold step_done in Hu. rewrite Hst in Hu. pose proof (Hr _ _ Hst) as Hns.
  assert (st_status st = StepStatus.FAILED) as E.
  { clear -Hnc Hu Hns. destruct (st_status st); try done; exfalso; apply Hns; by repeat constructor. }
  destruct (no_failure i d s st Hf Hin Hst E) as [t Ht]. rewrite E in Hnc. cbn in Hnc.
  rewrite Ht in Hnc. destruct (t <=? now)%Z eqn:Et; [done|].
  assert (t ∈ omap (retry_wait i now) (wd_steps d)) as Hin2.
  { apply list_elem_of_omap. exists s. split; [done|]. unfold retry_wait. rewrite Hst. cbn.
    rewrite E, Ht. by rewrite Et. }
  destruct (omap (retry_wait i now) (wd_steps d)); [by apply not_elem_of_nil in Hin2|].
  cbn [foldl]. apply earliest_some. by eexists.
Qed.

(** C12: A plan is idle only for a reason.  In a valid definition whose steps the
    instance knows, planning never raises; and if it finds nothing to do, then
    some step is still running, waiting for approval or compensated, or an
    escalation is open, or there is no concurrency at all. *)
Theorem plan_idle_only_when_blocked i d now :
  valid_definition d -> knows i d ->
  exists p, _plan i d now = Ok p /\
    (idle p -> (wd_max_concurrent_steps d <= 0)%Z \/ open_esc i <> [] \/
       exists sid st, wi_step_states i !! sid = Some st /\
         st_status st ∈ [StepStatus.RUNNING; StepStatus.WAITING_APPROVAL; StepStatus.COMPENSATED]).
Proof.
  intros Hv Hk. destruct (plan_total i d now Hv Hk) as [p Hp]. exists p. split; [done|].
  intros (Hb & Ha & Hf & Hd & Hs & Hw). apply plan_spec in Hp as (Hf' & Hw' & H).
  rewrite Hf in H. destruct H as [_ H]. rewrite Ha, bool_decide_false in H by tauto.
  destruct (decide (wd_max_concurrent_steps d <= 0)%Z) as [|Hmax]; [by left|right].
  destruct (decide (open_esc i = [])) as [Hopen|]; [right|by left].
  destruct (at_rest_or i) as [Hrest|]; [exfalso|done].
  pose proof (at_rest_no_running i Hrest) as Hrun.
  destruct (blocked_on_budget i d now) eqn:Hbb.
  { destruct H as [_ H]. rewrite Hb in H. unfold blocked_on_budget in Hbb.
    destruct (dispatchable i d now); [|done]. by rewrite andb_comm in Hbb. }
  destruct H as (_ & Hdisp & Hset). rewrite Hd, Hw, Hs, Hrun in Hset. cbn in Hset.
  rewrite Hd in Hdisp. symmetry in Hdisp.
  pose proof (nothing_to_dispatch i d now ltac:(lia) Hopen Hrun Hdisp) as Hnone.
  destruct (first_undone i d Hv (all_in_settled_false _ _ Hset)) as (s & Hin & Hu & Hdeps).
  rewrite Hf in Hf'. destruct (undone_waits i d now s Hk Hrest (eq_sym Hf') Hin Hu Hdeps) as [w Hw2];
    [|congruence].
  destruct (candidate i now s) as [c|] eqn:E; [|done]. exfalso. eapply not_elem_of_nil.
  rewrite <- Hnone. apply list_elem_of_omap. by exists s.
Qed.

(** ** Witnesses *)

Lemma sample_valid : valid_definition Sample.defn.
Proof.
  assert (NoDup (definition_deps Sample.defn).*1) as Hnd.
  { apply (bool_decide_unpack _). vm_compute. exact I. }
  destruct (proj1 (Dag.validate_dependencies_iff _ Hnd) ltac:(vm_compute; reflexivity)) as [Hc Ha].
  constructor; [by rewrite <- definition_deps_keys|done|done|].
  repeat constructor; vm_compute; done.
Qed.

(** The instance when [fetch] has completed and [publish] has not begun. *)
Lemma plan_safe_witness :
  exists p, _plan (Sample.at_ 7) Sample.defn 0%Z = Ok p /\ pl_dispatch p = [("publish", 1%Z)] /\
    exists st, wi_step_states (Sample.at_ 7) !! "publish" = Some st /\
      st_status st ∈ [StepStatus.PENDING; StepStatus.READY].
Proof.
  destruct (_plan (Sample.at_ 7) Sample.defn 0%Z) as [p|e] eqn:Hp; [|vm_compute in Hp; discriminate Hp].
  exists p. destruct (plan_safe (Sample.at_ 7) Sample.defn 0%Z p Hp) as (Hd & _ & _).
  assert (pl_dispatch p = [("publish", 1%Z)]) as Heq by (vm_compute in Hp; by injection Hp as <-).
  split_and!; [done|done|].
  destruct (Hd ("publish", 1%Z)) as (s & st & [Hs Hst Hc Hcase _ _ _]); [rewrite Heq; left|].
  injection Hc as Hid _. rewrite <- Hid in Hst. exists st. split; [done|].
  destruct Hcase as [[H _]|[H _]]; [done|]. vm_compute in Hst. injection Hst as <-. discriminate H.
Defined.

(** ... and when [publish] is running. *)
Lemma plan_idle_only_when_blocked_witness :
  exists p, _plan (Sample.at_ 8) Sample.defn 0%Z = Ok p /\ idle p /\
    ((wd_max_concurrent_steps Sample.defn <= 0)%Z \/ open_esc (Sample.at_ 8) <> [] \/
       exists sid st, wi_step_states (Sample.at_ 8) !! sid = Some st /\
         st_status st ∈ [StepStatus.RUNNING; StepStatus.WAITING_APPROVAL; StepStatus.COMPENSATED]).
Proof.
  destruct (plan_idle_only_when_blocked (Sample.at_ 8) Sample.defn 0%Z) as (p & Hp & Hi).
  - apply sample_valid.
  - intros s Hs. cbn in Hs. repeat (apply elem_of_cons in Hs as [->|Hs]);
      [| |by apply not_elem_of_nil in Hs]; (split; [vm_compute; by eexists|]); intros dep Hdep.
    + by apply not_elem_of_nil in Hdep.
    + apply elem_of_cons in Hdep as [->|Hdep]; [vm_compute; by eexists|by apply not_elem_of_nil in Hdep].
  - exists p. assert (idle p) as Hid.
    { vm_compute in Hp. injection Hp as <-. unfold idle. cbn. by split_and!. }
    split_and!; [done|done|]. by apply Hi.
Defined.
