(* ===== verification/DriverTheory.v ===== *)
(** The driver: what one [drive] does to the journal.

    The driver's code is followed once, for an arbitrary relation [R] between the
    worlds before and after it that the collaborators respect; the theorems
    instantiate [R].  Alongside, the local copy of the instance is shown to be
    the fold of the log at every point where the driver acts on it. *)

From stdpp Require Import base strings list gmap relations.
From Stdlib Require Import ZArith Lia.
From S2P Require Import Prelude Exceptions Values Enums Dag Definitions Instance Events Fold.
From S2P Require Import FoldTheory Tables EventStore EventStoreTheory Leasing Outbox Ports.
From S2P Require Import SideEffects Cost LlmClient Runners Journal Driver Digests.

Import SideEffects Cost Llm Leasing Driver.

(** ** Computations that move the world along a relation *)

Section trivial_triples.
Context {W E : Type} (R : W -> W -> Prop) `{!PreOrder R}.

(** [triple] with nothing said of the states: [m] moves along [R]. *)
Definition moves {A} (m : M W E A) : Prop := triple (fun _ => True) R m (fun _ _ => True).

Lemma moves_ret {A} (a : A) : moves (mret a).
Proof. by apply triple_ret_post. Qed.
Lemma moves_raise {A} (e : E) : moves (raise e : M W E A).
Proof. by apply triple_raise. Qed.
Lemma moves_lift {A} (r : result E A) : moves (lift r).
Proof. eapply triple_weaken; [by apply (triple_lift R (fun _ => True))|done|done]. Qed.
Lemma moves_gets {A} (f : W -> A) : moves (gets f).
Proof. eapply triple_weaken; [by apply (triple_gets R (fun _ => True))|done|done]. Qed.
Lemma moves_bind {A B} (m : M W E A) (k : A -> M W E B) :
  moves m -> (forall a, moves (k a)) -> moves (mbind k m).
Proof. intros Hm Hk. eapply triple_bind; [done|exact Hm|]. intros a. apply Hk. Qed.
Lemma moves_bind_lift {A B} (r : result E A) (k : A -> M W E B) :
  (forall a, r = Ok a -> moves (k a)) -> moves (mbind k (lift r)).
Proof.
  intros Hk w _. unfold mbind, M_bind, lift. destruct r as [a|e]; cbn; [|by split].
  by apply (Hk a).
Qed.
Lemma moves_try {A} (m : M W E A) c h :
  moves m -> (forall e, moves (h e)) -> moves (try_except m c h).
Proof.
  intros Hm Hh. eapply triple_try; [done|exact Hm|]. intros e.
  eapply triple_weaken; [apply Hh|done|done].
Qed.
Lemma moves_observe {A} (m : M W E A) : moves m -> moves (observe m).
Proof.
  intros Hm. eapply triple_weaken; [apply (triple_observe R (fun _ => True)); [exact Hm|done]|done|done].
Qed.
Lemma moves_mapM {A B} (f : A -> M W E B) l : (forall a, moves (f a)) -> moves (mapM_ f l).
Proof.
  intros Hf. induction l as [|a l IH]; cbn; [apply moves_ret|].
  apply moves_bind; [done|]. intros b. apply moves_bind; [done|]. intros bs. apply moves_ret.
Qed.
Lemma moves_case {A B} (x : A + B) {C} (f : A -> M W E C) (g : B -> M W E C) :
  (forall a, moves (f a)) -> (forall b, moves (g b)) ->
  moves match x with inl a => f a | inr b => g b end.
Proof. destruct x; auto. Qed.
End trivial_triples.

(** Follow the structure of a computation down to the calls known to move. *)
Create HintDb moves.
Ltac walk_step :=
  match goal with
  | |- moves _ (mbind _ (lift _)) => apply moves_bind_lift; [apply _|intros ? ?; try discriminate]
  | |- moves _ (mbind _ _) => apply moves_bind; [apply _| |intros ?]
  | |- moves _ (mret _) => apply moves_ret, _
  | |- moves _ (raise _) => apply moves_raise, _
  | |- moves _ (lift _) => apply moves_lift, _
  | |- moves _ (gets _) => apply moves_gets, _
  | |- moves _ (try_except _ _ _) => apply moves_try; [apply _| |intros ?]
  | |- moves _ (observe _) => apply moves_observe
  | |- moves _ (mapM_ _ _) => apply moves_mapM; [apply _|intros ?]
  | |- moves _ (if ?b then _ else _) => destruct b
  | |- moves _ (match ?x with _ => _ end) => destruct x eqn:?
  | |- moves _ _ => solve [eauto with moves]
  end.
Ltac walk := repeat walk_step.


(** ** Collaborators that leave the journal alone *)

Section frames.
Context {W : Type} {Ej : EventJournal W} {Jl : JournalLaws W}.

Definition same (w w' : W) : Prop :=
  journal_ok w -> journal_ok w' /\ forall j, jlog w' j = jlog w j.

#[export] Instance same_preorder : PreOrder same.
Proof.
  split; [by intros w|]. intros w1 w2 w3 H12 H23 Hok.
  destruct (H12 Hok) as [Hok2 H2], (H23 Hok2) as [Hok3 H3]. split; [done|].
  intros j. by rewrite H3, H2.
Qed.

Definition keeps {A} (m : M W exn A) : Prop := moves same m.

End frames.

(** Collaborators write their own tables, not the journal. *)
Class JournalFrame (W : Type) {Ej : EventJournal W} {Jl : JournalLaws W} {Os : OutboxStore W}
    {Ig : IdGenerator W} {Ds : DefinitionSource W} {Bl : BudgetLedger W} {Dl : DeadLetters W}
    {Nt : Notifier W} := {
  frame_id w : same w (snd (new_id w));
  frame_claim e : keeps (Outbox.claim e);
  frame_mark key fs : keeps (mark key fs);
  frame_list i t s : keeps (list_for_instance i t s);
  frame_definition a b c : keeps (get_definition a b c);
  frame_ledger t day x : keeps (record_amount t day x);
  frame_dead_letter i s r : keeps (record_dead_letter i s r);
  frame_notify n : keeps (notify n);
}.

(** The calls an attempt makes to its collaborators move the world along [R]. *)
Class AttemptFrame {W : Type} (R : W -> W -> Prop) {Os : OutboxStore W} {Ig : IdGenerator W} := {
  along_id w : R w (snd (new_id w));
  along_claim e : moves R (Outbox.claim e);
  along_mark key fs : moves R (mark key fs);
  along_list i t s : moves R (list_for_instance i t s);
}.

#[export] Instance journal_attempt_frame `{JournalFrame W} : AttemptFrame (same (W := W)) := {|
  along_id := frame_id; along_claim := frame_claim; along_mark := frame_mark;
  along_list := frame_list |}.

(** All the calls of the driver move the world along [R], which leaves the journal
    alone. *)
Class FrameAlong {W : Type} (R : W -> W -> Prop) {Ej : EventJournal W} {Jl : JournalLaws W}
    {Os : OutboxStore W} {Ig : IdGenerator W} {Ds : DefinitionSource W} {Bl : BudgetLedger W}
    {Dl : DeadLetters W} {Nt : Notifier W} := {
  fa_preorder :: PreOrder R;
  fa_attempt :: AttemptFrame R;
  fa_same w w' : R w w' -> same w w';
  along_definition a b c : moves R (get_definition a b c);
  along_ledger t day x : moves R (record_amount t day x);
  along_dead_letter i s r : moves R (record_dead_letter i s r);
  along_notify n : moves R (notify n);
}.

#[export] Instance journal_frame_along `{JournalFrame W} : FrameAlong (same (W := W)).
Proof.
  constructor; try apply _; [done|apply frame_definition|apply frame_ledger
    |apply frame_dead_letter|apply frame_notify].
Qed.

(** A larger relation that still leaves the journal alone will do. *)
Lemma frame_along_weaken `{FrameAlong W R1} (R2 : W -> W -> Prop) `{!PreOrder R2} :
  (forall w w', R1 w w' -> R2 w w') -> (forall w w', R2 w w' -> same w w') -> FrameAlong R2.
Proof.
  intros H12 H2. assert (forall A (m : M W exn A), moves R1 m -> moves R2 m) as Hm.
  { intros A m Hm w _. destruct (Hm w I) as [? ?]. split; [by apply H12|done]. }
  constructor; try done; [constructor| | | |]; intros.
  - apply H12, along_id.
  - apply Hm, along_claim.
  - apply Hm, along_mark.
  - apply Hm, along_list.
  - apply Hm, along_definition.
  - apply Hm, along_ledger.
  - apply Hm, along_dead_letter.
  - apply Hm, along_notify.
Qed.

(** So do the providers the worker is wired to. *)
Record wired_along {W} (R : W -> W -> Prop) (self : Wired W) : Prop := {
  wf_effects : forall reg name p, dr_side_effects self = Some reg -> reg !! name = Some p ->
    (forall r, moves R (ap_execute p r)) /\ (forall r, moves R (ap_reconcile p r)) /\
    (forall r x, moves R (ap_compensate p r x));
  wf_llm : forall reg ps name p, dr_llm self = Some (reg, ps) -> ps !! name = Some p ->
    forall r, moves R (p r);
}.

Abbreviation wired_frame := (wired_along same).

Section keeps.
Context {Hh : Hashing} {Ps : PyStr} {Cm : CMath} {W : Type}.
Context {Os : OutboxStore W} {Ck : Clock W} {Ig : IdGenerator W}.
Context {R : W -> W -> Prop} {HR : PreOrder R} {Fr : AttemptFrame R}.
Context (self : Wired W) (Hself : wired_along R self).

(** The relation on worlds paired with something else. *)
#[local] Instance on_fst_preorder {B} : PreOrder (fun s s' : W * B => R (fst s) (fst s')).
Proof. split; [by intros s|]. intros s1 s2 s3 H1 H2. by etransitivity. Qed.

Lemma moves_on_fst {A B} (m : M W exn A) :
  moves R m -> moves (fun s s' : W * B => R (fst s) (fst s')) (on_fst m).
Proof.
  intros Hm [w b] _. unfold on_fst. cbn. specialize (Hm w I).
  destruct (m w) as [[a|e] w']; cbn in *; tauto.
Qed.

Lemma keeps_clock : moves R (read_clock : M W exn time).
Proof. apply moves_gets. apply _. Qed.

Lemma keeps_fresh : moves R (fresh_id : M W exn string).
Proof.
  intros w _. unfold fresh_id. pose proof (along_id w) as Hs. by destruct (new_id w) as [i w'].
Qed.
Hint Resolve keeps_clock keeps_fresh along_claim along_mark along_list : moves.

Lemma keeps_execute reg iid tid sid name params pname :
  dr_side_effects self = Some reg -> moves R (execute reg iid tid sid name params pname).
Proof.
  intros Hreg. unfold execute, get_provider, perform, fail_effect, call_provider.
  destruct (reg !! pname) as [p|] eqn:Hp; [|walk].
  destruct (wf_effects _ _ Hself _ _ _ Hreg Hp) as (He & Hr & _).
  apply moves_bind_lift; [apply _|]. intros a [= <-]. walk.
Qed.

Lemma keeps_compensate reg iid tid :
  dr_side_effects self = Some reg -> moves R (compensate_instance reg iid tid).
Proof.
  intros Hreg. unfold compensate_instance. walk. unfold compensate_row, get_provider.
  destruct (reg !! _) as [p|] eqn:Hp; [|walk].
  destruct (wf_effects _ _ Hself _ _ _ Hreg Hp) as (_ & _ & Hc).
  apply moves_bind_lift; [apply _|]. intros p' [= <-]. walk.
Qed.

Lemma keeps_complete reg ps a :
  dr_llm self = Some (reg, ps) -> moves R (complete reg ps a).
Proof.
  intros Hl. unfold complete. do 2 (apply moves_bind_lift; [apply _|intros ? _]). generalize (@nil string) as tried, (@None exn) as last.
  generalize (rd_model_key a1 :: rd_fallback_chain a1) as chain.
  induction chain as [|key chain IH]; intros tried last; cbn [try_chain]; [walk|].
  unfold get_llm_provider.
  apply moves_bind_lift; [apply _|]. intros model Hm. destruct (ps !! mc_provider model) as [p|] eqn:Hp; [|walk].
  pose proof (wf_llm _ _ Hself _ _ _ _ Hl Hp) as Hk.
  apply moves_bind_lift; [apply _|]. intros p' [= <-]. walk.
Qed.

Lemma keeps_ctx f :
  moves (fun s s' : W * StepContext => R (fst s) (fst s')) (ctx_modify f).
Proof. by intros s _. Qed.
Hint Resolve keeps_ctx moves_on_fst keeps_execute keeps_complete : moves.

Lemma keeps_run wg p :
  (wg_guard wg = dr_side_effects self \/ wg_guard wg = None) ->
  (wg_llm wg = dr_llm self \/ wg_llm wg = None) ->
  moves (fun s s' : W * StepContext => R (fst s) (fst s')) (run wg p).
Proof.
  intros Hg Hl.
  induction p as [r|e| |e k IH|r k IH|name params pname k IH|a k IH]; cbn [run];
    unfold charge, request_review; [walk..| |].
  - unfold execute_effect. destruct (wg_guard wg) as [reg|] eqn:Hw; [|walk].
    assert (dr_side_effects self = Some reg) as Hs by (destruct Hg; congruence). walk.
  - unfold llm, charge. destruct (wg_llm wg) as [[reg ps]|] eqn:Hw; [|walk].
    assert (dr_llm self = Some (reg, ps)) as Hs by (destruct Hl; congruence). walk.
Qed.

Lemma keeps_run_attempt wg reg ctx t :
  (wg_guard wg = dr_side_effects self \/ wg_guard wg = None) ->
  (wg_llm wg = dr_llm self \/ wg_llm wg = None) -> moves R (run_attempt wg reg ctx t).
Proof.
  intros Hg Hl w _. unfold run_attempt. destruct (get_runner reg (sc_agent_type ctx)) as [runner|e]; [|by split].
  destruct (keeps_run wg (runner ctx) Hg Hl (w, ctx) I) as [Hs _].
  destruct (run wg (runner ctx) (w, ctx)) as [r [w' c]]. cbn in *. split; [done|].
  destruct r; cbn; [done|]. by destruct (failure_of _ _ _).
Qed.
End keeps.

(** ** The driver, statement by statement *)

Section follow.
Context {Hh : Hashing} {Ps : PyStr} {Cm : CMath} {W : Type}.
Context {Os : OutboxStore W} {Ck : Clock W} {Ig : IdGenerator W} {Ej : EventJournal W}
        {Ds : DefinitionSource W} {Bl : BudgetLedger W} {Dl : DeadLetters W} {Nt : Notifier W}.
Context {Jl : JournalLaws W}.
(** The relation the collaborators move the world along. *)
Context {Rc : W -> W -> Prop} {Fr : FrameAlong Rc}.
Context (self : Wired W) (Hself : wired_along Rc self).
Context (iid tid : string) (d : WorkflowDefinition) (guard : W -> res unit).

(** The local copy is the fold of the log, seeded as the journal seeded it. *)
Record at_ (i : WorkflowInstance) (w : W) : Prop := {
  at_ok : journal_ok w;
  at_genesis : one_genesis (jlog w iid);
  at_nonempty : jlog w iid <> [];
  at_fold : Fold.fold (jlog w iid) (journal_defn (Some d)) None = Ok i;
  at_tenant : wi_tenant_id i = tid;
}.

Lemma at_id i w : at_ i w -> wi_instance_id i = iid.
Proof. intros [Hok _ _ Hf _]. eapply fold_owner; [|exact Hf]. by apply owner_law. Qed.

Lemma at_same i w w' : same w w' -> at_ i w -> at_ i w'.
Proof.
  intros Hs [Hok Hg Hn Hf Ht]. destruct (Hs Hok) as [Hok' Hl]. constructor; rewrite ?Hl; done.
Qed.

(** [e] is the driver's draft of [b]. *)
Definition is_draft (b : event_body) (e : event) : Prop :=
  ev_body e = b /\ ev_instance_id e = iid /\ ev_tenant_id e = tid /\ body_valid b = true.

Lemma drafts_valid bodies es : Forall2 is_draft bodies es -> valid_bodies es.
Proof. induction 1 as [|b e bs es (Hb & _ & _ & Hv) _ IH]; constructor; [by rewrite Hb|done]. Qed.

Definition creates (b : event_body) : bool :=
  match b with InstanceCreated _ _ _ _ _ _ => true | _ => false end.
Definition starts (b : event_body) : bool :=
  match b with StepStarted _ _ _ _ => true | _ => false end.
Definition plain (b : event_body) : bool := negb (creates b) && negb (starts b).

(** The events that begin the attempts of a wave. *)
Definition start_bodies (i : WorkflowInstance) (worker_id : string) (c : string * Z)
    : list event_body :=
  match wi_step_states i !! c.1 with
  | Some st => if bool_decide (st_status st = StepStatus.PENDING)
               then [StepStatusChanged c.1 StepStatus.PENDING StepStatus.READY
                       (Some "dependencies satisfied")]
               else []
  | None => []
  end ++ [StepStarted c.1 c.2 worker_id None].

(** Drawing an id does not turn the clock back. *)
Definition ids_onward : Prop := forall w : W, (now w <= now (snd (new_id w)))%Z.

(** A batch of the driver: no attempt begins, or exactly those of a plan's wave
    made from the current copy, stamped no earlier than the plan was made. *)
Definition batch (i : WorkflowInstance) (bodies : list event_body) (drafts : list event) : Prop :=
  Forall (fun b => plain b = true) bodies \/
  exists t plan worker_id, wi_status i = WorkflowStatus.RUNNING /\ _plan i d t = Ok plan /\
    pl_terminal_failure plan = None /\ pl_dispatch plan <> [] /\
    bodies = (pl_dispatch plan ≫= start_bodies i worker_id) /\
    (ids_onward -> Forall (fun e => t <= ev_occurred_at e)%Z drafts).

Lemma plain_no_creates bodies :
  Forall (fun b => plain b = true) bodies -> Forall (fun b => creates b = false) bodies.
Proof.
  intros Hp. eapply Forall_impl; [exact Hp|]. intros b Hb. unfold plain in Hb.
  by destruct (creates b).
Qed.

Lemma starts_no_creates i wid cs :
  Forall (fun b => creates b = false) (cs ≫= start_bodies i wid).
Proof.
  apply Forall_bind, Forall_forall. intros c _. unfold start_bodies. apply Forall_app.
  split; [|by repeat constructor].
  destruct (wi_step_states i !! c.1); [case_bool_decide|]; by repeat constructor.
Qed.

Lemma batch_no_creates i bodies drafts :
  batch i bodies drafts -> Forall (fun b => creates b = false) bodies.
Proof.
  intros [Hp|(t & plan & wid & _ & _ & _ & _ & -> & _)];
    [by apply plain_no_creates|apply starts_no_creates].
Qed.

(** The relation followed: any one the collaborators and the appends respect. *)
Context (R : W -> W -> Prop) {HR : PreOrder R}.
Context (Hsame : forall w w', Rc w w' -> R w w').
Context (Hbatch : forall i bodies drafts nw w, at_ i w -> batch i bodies drafts ->
  Forall2 is_draft bodies drafts ->
  R w (snd (append_new iid tid drafts (wi_version i) (Some guard) nw w))).

Abbreviation D := (M W exn).

(** A step of the driver that keeps [P]; [phi] is what its result satisfies. *)
Definition holding {A} (P : W -> Prop) (m : D A) (phi : A -> Prop) : Prop :=
  triple P R m (fun a w => P w /\ phi a).

(** A step of the driver from the copy [i]. *)
Abbreviation stays i := (holding (at_ i)).

(** ... that leaves a new copy. *)
Definition advances (i : WorkflowInstance) (m : D WorkflowInstance) : Prop :=
  triple (at_ i) R m (fun i' w => at_ i' w).

(** ... after which the copy is not used. *)
Definition finishes {A} (i : WorkflowInstance) (m : D A) : Prop :=
  triple (at_ i) R m (fun _ _ => True).

Lemma stays_keeps {A} i (m : D A) : moves Rc m -> stays i m (fun _ => True).
Proof.
  intros Hm w Hw. destruct (Hm w I) as [Hs _]. split; [by apply Hsame|].
  destruct (fst (m w)); [|done]. split; [|done]. eapply at_same; [|exact Hw]. by apply fa_same.
Qed.

Lemma holding_bind {A B} P (m : D A) (k : A -> D B) phi psi :
  holding P m phi -> (forall a, phi a -> holding P (k a) psi) -> holding P (mbind k m) psi.
Proof.
  intros Hm Hk. eapply triple_bind; [done|exact Hm|]. intros a. apply triple_pure. apply Hk.
Qed.

Lemma holding_lift {A} P (r : res A) : holding P (lift r) (fun a => r = Ok a).
Proof. by apply triple_lift. Qed.

Lemma holding_ret {A} P (a : A) (phi : A -> Prop) : phi a -> holding P (mret a) phi.
Proof. intros Ha. by apply triple_ret_post. Qed.

Lemma holding_mapM {A B} P (f : A -> D B) (phi : A -> B -> Prop) l :
  (forall a, a ∈ l -> holding P (f a) (phi a)) -> holding P (mapM_ f l) (Forall2 phi l).
Proof. intros Hf. by apply triple_mapM. Qed.

Lemma advances_bind {A} i (m : D A) (k : A -> D WorkflowInstance) phi :
  stays i m phi -> (forall a, phi a -> advances i (k a)) -> advances i (mbind k m).
Proof.
  intros Hm Hk. eapply triple_bind; [done|exact Hm|]. intros a. apply triple_pure. apply Hk.
Qed.

Lemma advances_then i (m : D WorkflowInstance) (k : WorkflowInstance -> D WorkflowInstance) :
  advances i m -> (forall j, advances j (k j)) -> advances i (mbind k m).
Proof. intros Hm Hk. eapply triple_bind; [done|exact Hm|]. intros a. apply Hk. Qed.

Lemma finishes_bind {A B} i (m : D A) (k : A -> D B) phi :
  stays i m phi -> (forall a, phi a -> finishes i (k a)) -> finishes i (mbind k m).
Proof.
  intros Hm Hk. eapply triple_bind; [done|exact Hm|]. intros a. apply triple_pure. apply Hk.
Qed.

Lemma finishes_then {B} i (m : D WorkflowInstance) (k : WorkflowInstance -> D B) :
  advances i m -> (forall j, finishes j (k j)) -> finishes i (mbind k m).
Proof. intros Hm Hk. eapply triple_bind; [done|exact Hm|]. intros a. apply Hk. Qed.

Lemma finishes_ret {A} i (a : A) : finishes i (mret a : D A).
Proof. by apply triple_ret_post. Qed.

Lemma advances_ret i : advances i (mret i).
Proof. by apply triple_ret_post. Qed.

Lemma finishes_keeps {A} i (m : D A) : moves Rc m -> finishes i m.
Proof. intros Hm. eapply triple_weaken; [by apply (stays_keeps i)|done|done]. Qed.

Lemma finishes_weaken {A} i (m : D A) phi : stays i m phi -> finishes i m.
Proof. intros Hm. eapply triple_weaken; [exact Hm|done|done]. Qed.

(** ** Drafts and appends *)

Lemma event_stays i b : wi_instance_id i = iid -> wi_tenant_id i = tid ->
  stays i (_event i b) (is_draft b).
Proof.
  intros Hi Ht. unfold _event.
  eapply holding_bind; [apply stays_keeps, keeps_fresh|]. intros eid _.
  eapply holding_bind; [apply stays_keeps, keeps_clock|]. intros t _.
  destruct (body_valid b) eqn:Hb; [|by apply triple_raise]. by apply holding_ret.
Qed.

(** The same without asking for the identity: it follows from the copy. *)
Lemma stays_at {A} i (m : D A) phi :
  (wi_instance_id i = iid -> wi_tenant_id i = tid -> stays i m phi) -> stays i m phi.
Proof. intros Hm w Hw. apply Hm; [by eapply at_id|apply Hw|done]. Qed.

Lemma draft_event i b : stays i (_event i b) (is_draft b).
Proof. apply stays_at. apply event_stays. Qed.

Lemma draft_events i bodies : stays i (mapM_ (_event i) bodies) (Forall2 is_draft bodies).
Proof. apply holding_mapM. intros b _. apply draft_event. Qed.

(** What a successful append returns is again exact. *)
Lemma append_exact i bodies drafts nw w j w' :
  at_ i w -> Forall2 is_draft bodies drafts -> Forall (fun b => creates b = false) bodies ->
  _append i d drafts guard nw w = (Ok j, w') -> at_ j w'.
Proof.
  intros Hw Hd Hnb Ha. unfold _append in Ha. destruct drafts as [|e es]; [by injection Ha as <- <-|].
  set (drafts := e :: es) in *. rewrite (at_id _ _ Hw), (at_tenant _ _ Hw) in Ha.
  apply M_bind_Ok in Ha as ([v evs] & w1 & Ha & Hf'). cbn [snd] in Hf'. unfold lift in Hf'.
  injection Hf' as Hf' <-. destruct Hw as [Hok Hg Hn Hf Ht].
  destruct (append_ok_law _ _ _ _ _ _ _ _ _ _ Hok (drafts_valid _ _ Hd) Ha)
    as (Hok' & -> & _ & Hver & _ & _ & Hl & _).
  set (evs := sequenced (wi_version i) drafts) in *.
  assert (Forall (fun e => ~ is_created e) evs) as Hnc.
  { apply Forall_forall. intros x (y & Hy & ->)%elem_of_sequenced.
    apply list_elem_of_lookup in Hy as (n & Hy).
    destruct (Forall2_lookup_r _ _ _ _ _ Hd Hy) as (b & Hbn & Hbody & _).
    rewrite Forall_forall in Hnb. specialize (Hnb b (list_elem_of_lookup_2 _ _ _ Hbn)).
    unfold is_created. cbn. rewrite Hbody. destruct b; (discriminate Hnb || tauto). }
  constructor; rewrite ?Hl.
  - done.
  - unfold one_genesis. destruct (jlog w iid) as [|g l]; [done|]. cbn. by apply Forall_app.
  - intros []%app_nil. done.
  - rewrite fold_app by (by right). rewrite Hf. cbn [mbind result_bind].
    by rewrite (fold_defn_irrelevant _ (Some d)).
  - apply fold_from_Ok in Hf' as [_ Hr]. by apply spec_run_identity in Hr as (_ & -> & _).
Qed.

Lemma append_advances i bodies drafts nw :
  Forall2 is_draft bodies drafts -> batch i bodies drafts ->
  advances i (_append i d drafts guard nw).
Proof.
  intros Hd Hb w Hw. split.
  - unfold _append. destruct drafts as [|e es]; [reflexivity|].
    rewrite (at_id _ _ Hw), (at_tenant _ _ Hw).
    pose proof (Hbatch i bodies (e :: es) nw w Hw Hb Hd) as HRw.
    destruct (append_new iid tid (e :: es) (wi_version i) (Some guard) nw w) as [[a|x] w'] eqn:Ha;
      [by rewrite (M_bind_step _ _ w a w' Ha)|by rewrite (M_bind_raise _ _ w x w' Ha)].
  - destruct (_append i d drafts guard nw w) as [[j|x] w'] eqn:Ha; cbn [fst snd]; [|done].
    by apply (append_exact _ _ _ _ _ _ _ Hw Hd (batch_no_creates _ _ _ Hb) Ha).
Qed.

Lemma Forall2_join {A B C} (P : B -> C -> Prop) (f : A -> list B) (l : list A) (ls : list (list C)) :
  Forall2 (fun a cs => Forall2 P (f a) cs) l ls -> Forall2 P (l ≫= f) (mjoin ls).
Proof. induction 1; cbn; [constructor|]. by apply Forall2_app. Qed.

Lemma plain_batch i bodies drafts :
  Forall (fun b => plain b = true) bodies -> batch i bodies drafts.
Proof. by left. Qed.

Lemma one_draft b e : is_draft b e -> Forall2 is_draft [b] [e].
Proof. intros H. by apply Forall2_cons. Qed.

Lemma append_one i b e nw :
  is_draft b e -> plain b = true -> advances i (_append i d [e] guard nw).
Proof.
  intros Hd Hb. eapply append_advances; [apply one_draft, Hd|].
  apply plain_batch. by repeat constructor.
Qed.

Lemma transition_advances i frm to reason nw : advances i (_transition i d frm to guard reason nw).
Proof.
  eapply advances_bind; [apply draft_event|]. intros e He.
  eapply append_one; [exact He|reflexivity].
Qed.

Lemma keeps_notify i reason detail : moves Rc (_notify self i reason detail).
Proof.
  unfold _notify. destruct (dr_notifier self); [|apply moves_ret, _].
  apply moves_try; [apply _|apply along_notify|]. intros e. apply moves_ret, _.
Qed.

Lemma raise_stays i sid reason rc cf opts dl auto :
  stays i (raise_escalation i sid reason rc cf opts dl auto)
    (fun e => exists eid, is_draft (EscalationRaised eid sid reason rc cf opts dl auto) e).
Proof.
  eapply holding_bind; [apply stays_keeps, keeps_fresh|]. intros eid _.
  eapply triple_weaken; [apply draft_event|done|]. cbn. intros e w [Hw He]. split; [done|by exists eid].
Qed.

Lemma park_finishes i sid reason rc wr : finishes i (park_for_human i d sid reason rc wr guard).
Proof.
  eapply finishes_bind; [apply raise_stays|]. intros e1 [eid H1].
  eapply finishes_bind; [apply draft_event|]. intros e2 H2.
  eapply finishes_then; [|intros j; apply finishes_ret].
  eapply append_advances; [apply Forall2_cons; split; [exact H1|apply one_draft, H2]|].
  apply plain_batch. by repeat constructor.
Qed.

Lemma Forall2_map_l {A B C} (P : B -> C -> Prop) (f : A -> B) l k :
  Forall2 (fun a => P (f a)) l k -> Forall2 P (f <$> l) k.
Proof. by rewrite Forall2_fmap_l. Qed.

Lemma recover_advances i : advances i (_recover_in_flight i d guard).
Proof.
  unfold _recover_in_flight. destruct (running_steps i) as [|s stale]; [apply advances_ret|].
  eapply advances_bind; [apply holding_mapM; intros sid _; apply draft_event|]. intros drafts Hd.
  apply (Forall2_map_l is_draft (fun sid => StepStatusChanged sid StepStatus.RUNNING
    StepStatus.READY (Some "worker-recovered"))) in Hd.
  eapply append_advances; [exact Hd|].
  apply plain_batch. apply Forall_fmap, Forall_forall. by intros sid _.
Qed.

(** ** A wave *)

(** The driver has read the clock, and it showed [t]. *)
Definition onward (t : time) (w : W) : Prop := ids_onward -> (t <= now w)%Z.

Lemma stamp_stays i t b :
  holding (fun w => at_ i w /\ onward t w) (_event i b)
    (fun e => is_draft b e /\ (ids_onward -> t <= ev_occurred_at e)%Z).
Proof.
  intros w [Hw Ht]. pose proof (draft_event i b w Hw) as [HRw Hev]. split; [done|].
  unfold _event, fresh_id, read_clock, mbind, M_bind, gets in *.
  assert (ids_onward -> (t <= now (snd (new_id w)))%Z) as Ht'.
  { intros Ho. specialize (Ht Ho). specialize (Ho w). lia. }
  destruct (new_id w) as [eid w1]. cbn [fst snd] in *.
  destruct (body_valid b); [|done]. cbn in Hev |- *. destruct Hev as [Hat Hd].
  split; [by split|by split].
Qed.

Lemma start_stays i t wid c :
  holding (fun w => at_ i w /\ onward t w) (start_drafts i wid c)
    (Forall2 (fun b e => is_draft b e /\ (ids_onward -> t <= ev_occurred_at e)%Z)
       (start_bodies i wid c)).
Proof.
  set (stamped := fun b e => is_draft b e /\ (ids_onward -> t <= ev_occurred_at e)%Z).
  assert (forall b e, stamped b e -> Forall2 stamped [b] [e]) as Hone
    by (intros; by apply Forall2_cons).
  eapply holding_bind; [apply holding_lift|]. intros st Hst%get_step_ok.
  unfold start_bodies. rewrite Hst. case_bool_decide.
  - eapply holding_bind with (phi := Forall2 stamped [StepStatusChanged c.1 StepStatus.PENDING
      StepStatus.READY (Some "dependencies satisfied")]).
    + eapply holding_bind; [apply stamp_stays|]. intros e He. by apply holding_ret, Hone.
    + intros pre Hpre. eapply holding_bind; [apply stamp_stays|]. intros e He.
      apply holding_ret. apply Forall2_app; [done|by apply Hone].
  - eapply holding_bind; [by apply (holding_ret _ [] (fun l => l = []))|]. intros pre ->.
    eapply holding_bind; [apply stamp_stays|]. intros e He. by apply holding_ret, Hone.
Qed.

Lemma keeps_one i bv c : moves Rc (one_attempt self i d bv c).
Proof.
  unfold one_attempt. do 2 (apply moves_bind_lift; [apply _|intros ? _]).
  apply moves_bind; [apply _| |intros o; apply moves_ret, _].
  apply (keeps_run_attempt self Hself); by left.
Qed.

Lemma keeps_gather {A} (tasks : list (D A)) :
  Forall (moves Rc) tasks -> moves Rc (gather tasks).
Proof.
  intros Ht. unfold gather. apply moves_bind; [apply _| |intros r; apply moves_lift, _].
  induction Ht as [|t tasks Ht _ IH]; cbn; [apply moves_ret, _|].
  apply moves_bind; [apply _|by apply moves_observe|]. intros a.
  apply moves_bind; [apply _|done|]. intros b. apply moves_ret, _.
Qed.

Lemma keeps_budget_view i : moves Rc (budget_view self i).
Proof. unfold budget_view. pose proof (keeps_clock (R := Rc)). walk. Qed.

Lemma keeps_spend i results : moves Rc (record_wave_spend self i results).
Proof. unfold record_wave_spend, record_spend. pose proof (keeps_clock (R := Rc)). walk. apply along_ledger. Qed.

Lemma outcome_plain r : Forall (fun b => plain b = true) (outcome_bodies r).
Proof.
  unfold outcome_bodies. rewrite !Forall_app, !Forall_fmap. split_and!.
  - apply Forall_forall. by intros x _.
  - apply Forall_forall. by intros x _.
  - apply Forall_forall. intros b (e & Hb & _)%list_elem_of_bind. unfold effect_bodies in Hb.
    destruct (eo_deduplicated e); cbn in Hb; set_solver.
  - constructor; [|done]. by destruct (ar_outcome r).
Qed.

Lemma retry_stays i now r :
  stays i (retry_draft i now r)
    (fun e => exists at_, is_draft (StepRetryScheduled (ar_step_id r) (ar_attempt r + 1) at_) e).
Proof.
  eapply holding_bind; [apply holding_lift|]. intros delay _.
  eapply holding_bind; [apply holding_lift|]. intros dt _.
  eapply triple_weaken; [apply draft_event|done|]. cbn. intros e w [Hw He]. split; [done|by eexists].
Qed.

(** Drafts whose bodies are known up to existentials make a plain batch. *)
Lemma plain_drafts {A} (P : A -> event -> Prop) (l : list A) (es : list event) :
  (forall a e, P a e -> exists b, plain b = true /\ is_draft b e) -> Forall2 P l es ->
  exists bodies, Forall2 is_draft bodies es /\ Forall (fun b => plain b = true) bodies.
Proof.
  intros HP. induction 1 as [|a e l es Ha _ IH]; [by exists []|].
  destruct IH as (bs & H1 & H2), (HP a e Ha) as (b & Hb & He). exists (b :: bs). by split; constructor.
Qed.

Lemma reviews_advance i reviews : advances i (_raise_review_escalations self i d reviews guard).
Proof.
  eapply advances_bind; [apply stays_keeps, keeps_clock|]. intros now _.
  eapply advances_bind; [apply holding_mapM; intros r _; apply raise_stays|]. intros raised Hr.
  eapply advances_bind; [apply draft_event|]. intros e He.
  eapply plain_drafts in Hr as (bs & H1 & H2); [|by intros r x [eid Hx]; eexists; split; [|exact Hx]].
  eapply advances_then.
  { eapply append_advances; [apply Forall2_app; [exact H1|apply one_draft, He]|].
    apply plain_batch, Forall_app. split; [done|by repeat constructor]. }
  intros j. eapply advances_bind; [apply stays_keeps, keeps_notify|]. intros _ _. apply advances_ret.
Qed.

Lemma wave_advances i t plan lease :
  wi_status i = WorkflowStatus.RUNNING -> _plan i d t = Ok plan ->
  pl_terminal_failure plan = None -> pl_dispatch plan <> [] ->
  triple (fun w => at_ i w /\ onward t w) R
    (_dispatch_wave self i d (pl_dispatch plan) lease guard) at_.
Proof.
  intros Hrun Hplan Hnf Hne. eapply triple_bind; [done| |].
  { apply holding_mapM. intros c _. apply (start_stays i t (le_worker_id lease)). }
  intros started. apply triple_pure.
  intros Hs. apply (Forall2_join _ (start_bodies i (le_worker_id lease))) in Hs.
  assert (ids_onward -> Forall (fun e => t <= ev_occurred_at e)%Z (mjoin started)) as Ht.
  { intros Ho. clear -Hs Ho. induction Hs as [|b e bs es [_ He] _ IH]; constructor; auto. }
  apply (Forall2_impl _ is_draft) in Hs; [|by intros b e []].
  apply (triple_weaken R (at_ i)) with (Q := at_); [|by intros w []|done].
  eapply advances_then.
  { eapply append_advances; [exact Hs|]. right.
    exists t, plan, (le_worker_id lease). by split_and!. }
  intros j. eapply advances_bind; [apply stays_keeps, keeps_budget_view|]. intros bv _.
  eapply advances_bind.
  { apply stays_keeps, keeps_gather, Forall_fmap, Forall_forall. intros c _. apply keeps_one. }
  intros results _. eapply advances_bind; [apply draft_events|]. intros drafts Hd.
  eapply advances_then.
  { eapply append_advances; [exact Hd|]. apply plain_batch, Forall_bind, Forall_forall.
    intros r _. apply outcome_plain. }
  intros k. eapply advances_bind; [apply stays_keeps, keeps_spend|]. intros _ _.
  eapply advances_bind; [apply stays_keeps, keeps_clock|]. intros now' _.
  eapply advances_bind; [apply holding_mapM; intros r _; apply retry_stays|]. intros rds Hr.
  eapply plain_drafts in Hr as (bs & H1 & H2); [|by intros r x [eid Hx]; eexists; split; [|exact Hx]].
  eapply advances_then; [eapply append_advances; [exact H1|by apply plain_batch]|].
  intros l. destruct (reviews_of results); [apply advances_ret|apply reviews_advance].
Qed.

(** ** Terminal transitions and policies *)

Lemma append_plain_ret {A} i bodies drafts nw (a : A) :
  Forall2 is_draft bodies drafts -> Forall (fun b => plain b = true) bodies ->
  finishes i (_ ← _append i d drafts guard nw; mret a).
Proof.
  intros Hd Hp. eapply finishes_then; [|intros j; apply finishes_ret].
  eapply append_advances; [exact Hd|by apply plain_batch].
Qed.

Lemma complete_finishes i : finishes i (_complete i d guard).
Proof.
  eapply finishes_bind; [apply draft_event|]. intros e1 H1.
  eapply finishes_bind; [apply draft_event|]. intros e2 H2.
  eapply append_plain_ret; [apply Forall2_cons; split; [exact H1|apply one_draft, H2]|].
  by repeat constructor.
Qed.

Lemma finishes_bind_any {A B} i (m : D A) (k : A -> D B) :
  finishes i m -> (forall a, moves Rc (k a)) -> finishes i (mbind k m).
Proof.
  intros Hm Hk. eapply triple_bind; [done|exact Hm|]. intros a w _.
  destruct (Hk a w I) as [H1 H2]. split; [by apply Hsame|]. by destruct (fst (k a w)).
Qed.

Lemma park_notify_finishes i sid reason rc wr nr nd (r : DriveReport) :
  finishes i (_ ← park_for_human i d sid reason rc wr guard; _ ← _notify self i nr nd; mret r).
Proof.
  apply finishes_bind_any; [apply park_finishes|]. intros _.
  apply moves_bind; [apply _|apply keeps_notify|]. intros _. apply moves_ret, _.
Qed.

Lemma keeps_undo i : moves Rc (undo_effects self i).
Proof.
  unfold undo_effects. destruct (dr_side_effects self) as [reg|] eqn:Hr; [|apply moves_ret, _].
  apply moves_try; [apply _| |intros e; apply moves_ret, _].
  apply moves_bind; [apply _| |intros l; apply moves_ret, _].
  by apply (keeps_compensate self Hself).
Qed.

Lemma keeps_compensations i steps : moves Rc (run_compensations self i steps).
Proof.
  induction steps as [|s steps IH]; cbn [run_compensations]; [apply moves_ret, _|].
  apply moves_bind; [apply _| |by intros [msg|]; [apply moves_ret, _|]].
  apply moves_try; [apply _| |intros e; apply moves_ret, _].
  apply moves_bind; [apply _| |intros _; apply moves_ret, _].
  unfold _run_step_compensation. apply moves_bind_lift; [apply _|]. intros st _.
  apply moves_bind; [apply _| |intros []; [apply moves_ret, _|apply moves_raise, _]].
  apply (keeps_run_attempt self Hself); [by left|by right].
Qed.

Lemma rollback_plain undone steps reason :
  Forall (fun b => plain b = true) (rollback_bodies undone steps reason).
Proof.
  unfold rollback_bodies. rewrite !Forall_app, !Forall_fmap.
  split_and!; [by apply Forall_forall..|by repeat constructor].
Qed.

Lemma rollback_finishes i reason : finishes i (_rollback self i d reason guard).
Proof.
  eapply finishes_bind; [apply stays_keeps, keeps_undo|]. intros [undone|detail] _;
    [|apply park_notify_finishes].
  eapply finishes_bind; [apply holding_lift|]. intros steps _.
  eapply finishes_bind; [apply stays_keeps, keeps_compensations|]. intros [detail|] _;
    [apply park_notify_finishes|].
  eapply finishes_bind; [apply draft_events|]. intros drafts Hd.
  eapply append_plain_ret; [exact Hd|apply rollback_plain].
Qed.

Lemma failure_finishes i failure : finishes i (_apply_failure_policy self i d failure guard).
Proof.
  destruct failure as [sid reason]. unfold _apply_failure_policy.
  destruct (match _ with Some _ => _ | None => _ end); [apply park_notify_finishes|].
  destruct (wd_on_failure d).
  - eapply finishes_then; [apply transition_advances|]. intros j. apply finishes_ret.
  - apply rollback_finishes.
  - eapply finishes_then; [apply transition_advances|]. intros j.
    apply finishes_keeps. apply moves_bind; [apply _|apply along_dead_letter|].
    intros _. apply moves_ret, _.
  - apply park_notify_finishes.
Qed.

Lemma approval_stays i now sid :
  stays i (approval_drafts i d now sid)
    (fun es => exists bodies, Forall2 is_draft bodies es /\ Forall (fun b => plain b = true) bodies).
Proof.
  eapply holding_bind; [apply holding_lift|]. intros step _.
  eapply holding_bind; [apply holding_lift|]. intros st _.
  eapply holding_bind with (phi := fun es => exists bodies,
    Forall2 is_draft bodies es /\ Forall (fun b => plain b = true) bodies).
  { case_bool_decide.
    - eapply holding_bind; [apply draft_event|]. intros e He. apply holding_ret.
      eexists. split; [apply one_draft, He|by repeat constructor].
    - apply holding_ret. by exists []. }
  intros pre (bs & H1 & H2). eapply holding_bind; [apply raise_stays|]. intros e [eid He].
  apply holding_ret. eexists. split; [apply Forall2_app; [exact H1|apply one_draft, He]|].
  apply Forall_app. split; [done|by repeat constructor].
Qed.

Lemma approval_finishes i sids : finishes i (_escalate_for_approval self i d sids guard).
Proof.
  eapply finishes_bind; [apply stays_keeps, keeps_clock|]. intros now _.
  eapply finishes_bind; [apply holding_mapM; intros s _; apply approval_stays|]. intros drafts Hd.
  eapply finishes_bind; [apply draft_event|]. intros e He.
  assert (exists bodies, Forall2 is_draft bodies (mjoin drafts) /\
    Forall (fun b => plain b = true) bodies) as (bs & H1 & H2).
  { clear -Hd. induction Hd as [|s es sids drafts (b & Hb & Hp) _ (bs & H1 & H2)]; [by exists []|].
    exists (b ++ bs). split; [by apply Forall2_app|by apply Forall_app]. }
  eapply finishes_then.
  { eapply append_advances; [apply Forall2_app; [exact H1|apply one_draft, He]|].
    apply plain_batch, Forall_app. split; [done|by repeat constructor]. }
  intros j. apply finishes_keeps. apply moves_bind; [apply _|apply keeps_notify|].
  intros _. apply moves_ret, _.
Qed.

Lemma budget_finishes i sid : finishes i (_block_on_budget i d sid guard).
Proof.
  eapply finishes_bind; [apply draft_event|]. intros e1 H1.
  eapply finishes_bind; [apply draft_event|]. intros e2 H2.
  eapply append_plain_ret; [apply Forall2_cons; split; [exact H1|apply one_draft, H2]|].
  by repeat constructor.
Qed.

(** ** The loop *)

(** A result of an iteration: the copy to continue with is again exact. *)
Definition next_ok (r : WorkflowInstance + DriveReport) (w : W) : Prop :=
  match r with inl i => at_ i w | inr _ => True end.

Lemma finishes_inr i (m : D DriveReport) :
  finishes i m -> triple (at_ i) R (r ← m; mret (inr r)) next_ok.
Proof.
  intros Hm. eapply triple_bind; [done|exact Hm|]. intros r. by apply triple_ret_post.
Qed.

Lemma advances_inl i (m : D WorkflowInstance) :
  advances i m -> triple (at_ i) R (j ← m; mret (inl j)) next_ok.
Proof.
  intros Hm. eapply triple_bind; [done|exact Hm|]. intros j. by apply triple_ret_post.
Qed.

Lemma act_ok i t plan lease :
  wi_status i = WorkflowStatus.RUNNING -> _plan i d t = Ok plan ->
  triple (fun w => at_ i w /\ onward t w) R (act_on_plan self i d plan lease guard) next_ok.
Proof.
  intros Hrun Hplan. unfold act_on_plan.
  assert (forall m : D _, triple (at_ i) R m next_ok ->
    triple (fun w => at_ i w /\ onward t w) R m next_ok) as Hat.
  { intros m Hm. eapply triple_weaken; [exact Hm|by intros w []|done]. }
  destruct (pl_budget_blocked_step plan); [apply Hat, finishes_inr, budget_finishes|].
  destruct (pl_approval_needed plan); [|apply Hat, finishes_inr, approval_finishes].
  destruct (pl_terminal_failure plan) eqn:Hf; [apply Hat, finishes_inr, failure_finishes|].
  destruct (pl_dispatch plan) as [|c cs] eqn:Hd.
  - apply Hat. destruct (pl_all_settled plan); [apply finishes_inr, complete_finishes|].
    destruct (pl_retry_wakeup plan); [|by apply triple_ret_post].
    eapply triple_bind; [done|apply transition_advances|]. intros j. by apply triple_ret_post.
  - rewrite <- Hd. eapply triple_bind; [done| |intros j; by apply triple_ret_post].
    eapply wave_advances; [done|exact Hplan|done|by rewrite Hd].
Qed.

Lemma iteration_ok i lease : triple (at_ i) R (iteration self i d lease guard) next_ok.
Proof.
  unfold iteration. destruct (resting (wi_status i)) eqn:Hr; [by apply triple_ret_post|].
  destruct (wi_status i) eqn:Hs; try discriminate Hr.
  - apply advances_inl, transition_advances.
  - eapply triple_bind with (Q := fun t w => at_ i w /\ onward t w); [done| |intros t].
    { intros w Hw. split; [by cbn|]. cbn. split; [done|]. intros _. apply Z.le_refl. }
    eapply triple_bind; [done|by apply triple_lift|]. intros plan.
    apply triple_pure. intros Hp. eapply act_ok; [done|exact Hp].
  - apply advances_inl, transition_advances.
Qed.

Lemma loop_finishes fuel i lease : finishes i (run_loop self fuel i d lease guard).
Proof.
  revert i. induction fuel as [|fuel IH]; intros i; cbn [run_loop]; [by apply triple_raise|].
  eapply triple_bind; [done|apply iteration_ok|]. intros [j|r]; [apply IH|].
  by apply triple_ret_post.
Qed.

(** Every read of the journal gives an exact copy, or nothing. *)
Lemma read_at w : journal_ok w -> one_genesis (jlog w iid) ->
  exists o, get_instance iid tid (Some d) w = (Ok o, w) /\
    match o with Some i => at_ i w | None => True end.
Proof.
  intros Hok Hg. destruct (get_law w iid tid (Some d) Hok Hg) as (o & Hget & Ho).
  exists o. split; [done|]. subst o. destruct (Fold.fold _ _ _) as [i|] eqn:Hf; [|done].
  case_bool_decide; [|done]. constructor; try done. intros Hl. by rewrite Hl in Hf.
Qed.

Lemma drive_with_moves lease w :
  le_instance_id lease = iid -> le_tenant_id lease = tid ->
  journal_ok w -> one_genesis (jlog w iid) -> R w (snd (drive_with self d lease guard w)).
Proof.
  intros Hi Ht Hok Hg. unfold drive_with. rewrite Hi, Ht.
  destruct (read_at w Hok Hg) as (o & Hget & Ho). rewrite (M_bind_step _ _ w o w Hget).
  destruct o as [i|]; [|cbn; reflexivity].
  eapply (triple_try R (at_ i) _ _ _ (fun _ _ => True)); [| |exact Ho].
  - eapply finishes_then; [apply recover_advances|]. intros j. apply loop_finishes.
  - intros e. by apply triple_ret_post.
Qed.
End follow.
