(* ===== verification/DriverProps.v ===== *)
(** The driver: its theorems. *)

From stdpp Require Import base strings list gmap relations.
From Stdlib Require Import ZArith Lia.
From S2P Require Import Prelude Exceptions Values Enums Dag Definitions Instance Events Fold.
From S2P Require Import FoldTheory Tables EventStore EventStoreTheory Leasing Outbox Ports.
From S2P Require Import SideEffects Cost LlmClient Runners Journal Driver DriverTheory PlanTheory.
From S2P Require Import Digests.

Import SideEffects Cost Llm Leasing Driver.

Section props.
Context {Hh : Hashing} {Ps : PyStr} {Cm : CMath} {W : Type}.
Context {Os : OutboxStore W} {Ck : Clock W} {Ig : IdGenerator W} {Ej : EventJournal W}
        {Ds : DefinitionSource W} {Bl : BudgetLedger W} {Dl : DeadLetters W} {Nt : Notifier W}.
Context {Jl : JournalLaws W} {Fr : JournalFrame W}.

(** A refused append changes no log; an accepted one extends one log. *)
Lemma append_cases w iid tid drafts ver g nw :
  journal_ok w -> valid_bodies drafts ->
  let w' := snd (append_new iid tid drafts ver g nw w) in
  journal_ok w' /\ (forall j, j <> iid -> jlog w' j = jlog w j) /\
  (jlog w' iid = jlog w iid \/
   (guard_result g w = Ok tt /\ jlog w' iid = jlog w iid ++ sequenced ver drafts)).
Proof.
  intros Hok Hb. destruct (append_new iid tid drafts ver g nw w) as [[[v evs]|x] w'] eqn:Ha; cbn.
  - destruct (append_ok_law _ _ _ _ _ _ _ _ _ _ Hok Hb Ha)
      as (H1 & -> & _ & _ & Hg & _ & Hl & Hoth). split_and!; [done..|]. by right.
  - destruct (append_err_law _ _ _ _ _ _ _ _ _ Hok Hb Ha) as [H1 H2]. split_and!; [done|..].
    + intros j _. apply H2.
    + left. apply H2.
Qed.

(** ** A worker without a lease *)

(** Once refused, always refused: if nothing a drive calls, its own appends
    included, makes a refusing guard pass again, then a drive begun while the guard
    refuses changes no log. *)
Lemma refused_drive {Rc : W -> W -> Prop} {Fa : FrameAlong Rc} self lease guard w :
  wired_along Rc self ->
  (forall w0 w1, Rc w0 w1 -> guard w0 <> Ok tt -> guard w1 <> Ok tt) ->
  (forall drafts ver nw w0, guard w0 <> Ok tt ->
     guard (snd (append_new (le_instance_id lease) (le_tenant_id lease) drafts ver (Some guard) nw w0))
       <> Ok tt) ->
  journal_ok w -> one_genesis (jlog w (le_instance_id lease)) -> guard w <> Ok tt ->
  let w' := snd (drive self lease guard w) in
  journal_ok w' /\ (forall j, jlog w' j = jlog w j) /\ guard w' <> Ok tt.
Proof.
  intros Hself Hkeep Happ Hok Hg Hrefuse. unfold drive.
  assert (forall w1, Rc w w1 ->
    journal_ok w1 /\ (forall j, jlog w1 j = jlog w j) /\ guard w1 <> Ok tt) as Hmoved.
  { intros w1 H1. destruct (fa_same _ _ H1 Hok) as [Hok1 Hl1]. split_and!; [done..|by eapply Hkeep]. }
  destruct (along_definition (R := Rc) (le_workflow_id lease) (le_workflow_version lease)
    (le_tenant_id lease) w I) as [Hs _].
  destruct (get_definition _ _ _ w) as [[[d|]|e] w1] eqn:Hd; cbn in Hs; apply Hmoved in Hs;
    [rewrite (M_bind_step _ _ w (Some d) w1 Hd)|by rewrite (M_bind_step _ _ w None w1 Hd)
    |by rewrite (M_bind_raise _ _ w e w1 Hd)].
  destruct Hs as (Hok1 & Hl1 & Hr1).
  set (R := fun w0 w2 : W => journal_ok w0 -> guard w0 <> Ok tt ->
    journal_ok w2 /\ (forall j, jlog w2 j = jlog w0 j) /\ guard w2 <> Ok tt).
  assert (PreOrder R) as HR.
  { split; [by intros w0|]. intros w0 w2 w3 H02 H23 Ho Hn. destruct (H02 Ho Hn) as (Ho2 & Hl2 & Hn2).
    destruct (H23 Ho2 Hn2) as (Ho3 & Hl3 & Hn3). split_and!; [done| |done]. intros j. by rewrite Hl3. }
  assert (R w1 (snd (drive_with self d lease guard w1))) as Hm.
  { eapply (drive_with_moves self Hself (le_instance_id lease) (le_tenant_id lease) d guard R);
      [| |done|done|done|by rewrite Hl1].
    - intros w0 w2 H02 Ho Hn. destruct (fa_same _ _ H02 Ho) as [Ho2 Hl2].
      split_and!; [done..|by eapply Hkeep].
    - intros i bodies drafts nw w0 _ _ Hds%drafts_valid Ho Hn.
      destruct (append_cases w0 (le_instance_id lease) (le_tenant_id lease) drafts (wi_version i)
        (Some guard) nw Ho Hds) as (H1 & H2 & H3).
      split_and!; [done| |by apply Happ]. intros j.
      destruct (decide (j = le_instance_id lease)) as [->|]; [|by apply H2].
      destruct H3 as [H3|[H3 _]]; [done|]. by apply Hn in H3. }
  destruct (Hm Hok1 Hr1) as (H1 & H2 & H3). split_and!; [done| |done]. intros j. by rewrite H2.
Qed.

(** ** What a worker with a lease writes *)

(** The events with which a wave begins its attempts. *)
Definition wave_event (e : event) : Prop :=
  match ev_body e with
  | StepStarted _ _ _ _ => True
  | StepStatusChanged _ from to _ => from = StepStatus.PENDING /\ to = StepStatus.READY
  | _ => False
  end.

(** A [StepStarted] after the log [l]: at the beginning of its wave, the instance
    rebuilt from the log was running and a plan made from it cleared the attempt. *)
Definition licensed (d : WorkflowDefinition) (l : list event) (e : event) : Prop :=
  forall sid att wid m, ev_body e = StepStarted sid att wid m ->
  exists l1 l2 i t p s st, l = l1 ++ l2 /\ Forall wave_event l2 /\
    Fold.fold l1 (journal_defn (Some d)) None = Ok i /\ wi_status i = WorkflowStatus.RUNNING /\
    _plan i d t = Ok p /\ (sid, att) ∈ pl_dispatch p /\ cleared i d t (sid, att) s st /\
    (ids_onward (W := W) -> (t <= ev_occurred_at e)%Z).

Definition all_licensed (d : WorkflowDefinition) (l more : list event) : Prop :=
  forall pre e post, more = pre ++ e :: post -> licensed d (l ++ pre) e.

(** Only the log of [iid] grows, and every attempt begun in it was cleared. *)
Definition driven (d : WorkflowDefinition) (iid : string) (w w' : W) : Prop :=
  journal_ok w -> journal_ok w' /\ (forall j, j <> iid -> jlog w' j = jlog w j) /\
  exists more, jlog w' iid = jlog w iid ++ more /\ all_licensed d (jlog w iid) more.

Lemma all_licensed_nil d l : all_licensed d l [].
Proof. intros pre e post Heq. by destruct pre. Qed.

Lemma all_licensed_app d l m1 m2 :
  all_licensed d l m1 -> all_licensed d (l ++ m1) m2 -> all_licensed d l (m1 ++ m2).
Proof.
  intros H1 H2 pre e post Heq. apply app_eq_inv in Heq as [(k & -> & Hk)|(k & -> & Hk)].
  - destruct k as [|x k].
    + rewrite app_nil_r in *. cbn in Hk. subst m2.
      replace (l ++ pre) with ((l ++ pre) ++ []) by apply app_nil_r. by apply (H2 [] e post).
    + injection Hk as <- ->. by apply (H1 pre e k).
  - rewrite app_assoc. by apply (H2 k e post).
Qed.

#[local] Instance driven_preorder d iid : PreOrder (driven d iid).
Proof.
  split.
  - intros w Hok. split_and!; [done..|]. exists []. rewrite app_nil_r. split; [done|].
    apply all_licensed_nil.
  - intros w1 w2 w3 H12 H23 Hok. destruct (H12 Hok) as (Hok2 & Ho2 & m1 & Hl1 & Ha1).
    destruct (H23 Hok2) as (Hok3 & Ho3 & m2 & Hl2 & Ha2). split_and!; [done|by intros; rewrite Ho3, Ho2|].
    exists (m1 ++ m2). rewrite Hl2, Hl1, app_assoc. split; [done|]. rewrite Hl1 in Ha2.
    by apply all_licensed_app.
Qed.

Lemma same_driven d iid w w' : same w w' -> driven d iid w w'.
Proof.
  intros Hs Hok. destruct (Hs Hok) as [Hok' Hl]. split_and!; [done|by intros|].
  exists []. rewrite app_nil_r. split; [done|]. apply all_licensed_nil.
Qed.

Lemma is_draft_body iid tid bodies drafts :
  Forall2 (is_draft iid tid) bodies drafts -> bodies = ev_body <$> drafts.
Proof. induction 1 as [|b e bs es (<- & _) _ IH]; [done|]. cbn. by f_equal. Qed.

Lemma wave_bodies i wid dispatch b :
  b ∈ (dispatch ≫= start_bodies i wid) ->
  (exists sid, b = StepStatusChanged sid StepStatus.PENDING StepStatus.READY
                     (Some "dependencies satisfied")) \/
  (exists c, c ∈ dispatch /\ b = StepStarted c.1 c.2 wid None).
Proof.
  intros (c & Hb & Hc)%list_elem_of_bind. unfold start_bodies in Hb.
  apply elem_of_app in Hb as [Hb|Hb%list_elem_of_singleton]; [left|right; by exists c].
  destruct (wi_step_states i !! c.1); [case_bool_decide|]; try by apply not_elem_of_nil in Hb.
  apply list_elem_of_singleton in Hb. by exists c.1.
Qed.

(** Every batch of the driver is licensed. *)
Lemma batch_licensed iid tid d i w bodies drafts n :
  at_ iid tid d i w -> batch d i bodies drafts -> Forall2 (is_draft iid tid) bodies drafts ->
  all_licensed d (jlog w iid) (sequenced n drafts).
Proof.
  intros Hat Hb Hd pre e post Heq sid att wid m He.
  assert (bodies = ev_body <$> sequenced n drafts) as Hbodies.
  { rewrite sequenced_bodies. by eapply is_draft_body. }
  assert (StepStarted sid att wid m ∈ bodies) as Hin.
  { rewrite Hbodies, Heq, <- He. apply list_elem_of_fmap_2. set_solver. }
  destruct Hb as [Hp|(t & p & wk & Hrun & Hplan & _ & _ & Hw & Ht)].
  { rewrite Forall_forall in Hp. by apply Hp in Hin. }
  rewrite Hw in Hin. apply wave_bodies in Hin as [(s & [=])|(c & Hc & [= -> -> -> ->])].
  destruct (plan_dispatch_cleared i d t p c Hplan Hc) as (s & st & Hcl).
  exists (jlog w iid), pre, i, t, p, s, st. destruct c as [sid att]. cbn in *.
  split_and!; [done| |apply Hat|done..|].
  2: { intros Ho. specialize (Ht Ho). rewrite Forall_forall in Ht.
       assert (e ∈ sequenced n drafts) as (e' & He' & Hee)%elem_of_sequenced
         by (rewrite Heq; set_solver). rewrite Hee. by apply (Ht e'). }
  apply Forall_forall. intros x Hx.
  assert (ev_body x ∈ bodies) as Hxb.
  { rewrite Hbodies, Heq. apply list_elem_of_fmap_2. set_solver. }
  rewrite Hw in Hxb. unfold wave_event.
  by apply wave_bodies in Hxb as [(? & ->)|(? & _ & ->)].
Qed.

Lemma drive_with_driven self d lease guard w :
  wired_frame self -> journal_ok w -> one_genesis (jlog w (le_instance_id lease)) ->
  driven d (le_instance_id lease) w (snd (drive_with self d lease guard w)).
Proof.
  intros Hself Hok Hg.
  eapply (drive_with_moves self Hself (le_instance_id lease) (le_tenant_id lease) d guard
    (driven d (le_instance_id lease)));
    [apply same_driven| |done..].
  intros i bodies drafts nw w0 Hat Hb Hd Hok0.
  destruct (append_cases w0 (le_instance_id lease) (le_tenant_id lease) drafts (wi_version i)
    (Some guard) nw Hok0 (drafts_valid _ _ _ _ Hd)) as (H1 & H2 & [H3|[_ H3]]); split_and!; try done.
  - exists []. rewrite app_nil_r. split; [done|apply all_licensed_nil].
  - eexists. split; [exact H3|]. by eapply batch_licensed.
Qed.

Lemma drive_keeps_journal self lease guard w :
  wired_frame self -> journal_ok w -> one_genesis (jlog w (le_instance_id lease)) ->
  journal_ok (snd (drive self lease guard w)).
Proof.
  intros Hself Hok Hg. unfold drive.
  destruct (frame_definition (le_workflow_id lease) (le_workflow_version lease)
    (le_tenant_id lease) w I) as [Hs _].
  destruct (get_definition _ _ _ w) as [[[d|]|e] w1] eqn:Hd; cbn in Hs;
    destruct (Hs Hok) as [Hok1 Hl1];
    [rewrite (M_bind_step _ _ w (Some d) w1 Hd)|rewrite (M_bind_step _ _ w None w1 Hd)
    |rewrite (M_bind_raise _ _ w e w1 Hd)]; [|done|done].
  by apply (drive_with_driven self d lease guard w1 Hself Hok1); [rewrite Hl1|].
Qed.

(** What is cleared stays so as time passes. *)
Lemma cleared_later i d t t' c s st : (t <= t')%Z -> cleared i d t c s st -> cleared i d t' c s st.
Proof.
  intros Ht [H1 H2 H3 H4 H5 H6 H7]. constructor; try done.
  destruct H4 as [H4|(H4 & t0 & H & Hle)]; [by left|]. right. split; [done|]. exists t0.
  split; [done|lia].
Qed.

(** C4: The driver starts only what may start.  Whatever [drive] does, and
    whether it returns or raises, it only extends the log of the leased instance;
    and for every [StepStarted] it appends, the instance rebuilt from the log at
    the beginning of that wave was running, and, by the definition that the
    leased workflow and version name and at the time the event carries, the
    attempt was the next one of a step that is not started with every dependency
    completed or skipped, or failed with its retry due, that is not under an open
    escalation, is approved if approval is required, and is within budget.  (The
    clock is taken not to run back while an id is drawn.) *)
Theorem drive_starts_only_cleared_steps self lease guard w :
  wired_frame self -> journal_ok w -> one_genesis (jlog w (le_instance_id lease)) ->
  (forall w0 : W, (now w0 <= now (snd (new_id w0)))%Z) ->
  let w' := snd (drive self lease guard w) in
  let iid := le_instance_id lease in
  journal_ok w' /\ (forall j, j <> iid -> jlog w' j = jlog w j) /\
  exists more, jlog w' iid = jlog w iid ++ more /\
    forall pre e post sid att wid m,
      more = pre ++ e :: post -> ev_body e = StepStarted sid att wid m ->
      exists d l1 l2 i s st,
        fst (get_definition (le_workflow_id lease) (le_workflow_version lease)
               (le_tenant_id lease) w) = Ok (Some d) /\
        jlog w iid ++ pre = l1 ++ l2 /\ Forall wave_event l2 /\
        Fold.fold l1 (journal_defn (Some d)) None = Ok i /\
        wi_status i = WorkflowStatus.RUNNING /\ cleared i d (ev_occurred_at e) (sid, att) s st.
Proof.
  intros Hself Hok Hg Hon. unfold drive.
  destruct (frame_definition (le_workflow_id lease) (le_workflow_version lease)
    (le_tenant_id lease) w I) as [Hs _].
  assert (forall w1, same w w1 -> journal_ok w1 /\
    (forall j, j <> le_instance_id lease -> jlog w1 j = jlog w j) /\
    exists more, jlog w1 (le_instance_id lease) = jlog w (le_instance_id lease) ++ more /\ more = []) as Hnone.
  { intros w1 Hw1. destruct (Hw1 Hok) as [H1 H2]. split_and!; [done|by intros|].
    exists []. by rewrite app_nil_r. }
  destruct (get_definition _ _ _ w) as [[[d|]|e] w1] eqn:Hd; cbn in Hs;
    [|rewrite (M_bind_step _ _ w None w1 Hd)|rewrite (M_bind_raise _ _ w e w1 Hd)].
  2, 3: destruct (Hnone w1 Hs) as (H1 & H2 & more & H3 & ->); split_and!; [done..|];
        exists []; split; [done|]; intros [] ? ? ? ? ? ? [=].
  rewrite (M_bind_step _ _ w (Some d) w1 Hd). destruct (Hs Hok) as [Hok1 Hl1].
  destruct (drive_with_driven self d lease guard w1 Hself Hok1) as (H1 & H2 & more & H3 & H4);
    [by rewrite Hl1|done|]. cbn. split_and!; [done|by intros; rewrite H2|].
  exists more. rewrite H3, Hl1. split; [done|]. intros pre e post sid att wid m Heq He.
  destruct (H4 pre e post Heq sid att wid m He)
    as (l1 & l2 & i & t & p & s & st & Hl & Hw & Hf & Hr & _ & _ & Hc & Ht).
  rewrite Hl1 in Hl. exists d, l1, l2, i, s, st. split_and!; [done..|].
  by eapply cleared_later; [apply Ht|].
Qed.

(** ** The local copy *)

(** C13: No re-read is needed.  If the copy the driver holds is what the journal
    would return, then after one iteration of its loop (a status change, or a
    whole wave with its retries and reviews) that continues, the new local copy
    is again exactly what the journal returns, although it was only folded
    locally. *)
Theorem local_copy_exact self d lease guard iid tid i w j w' :
  wired_frame self -> journal_ok w -> one_genesis (jlog w iid) ->
  get_instance iid tid (Some d) w = (Ok (Some i), w) ->
  iteration self i d lease guard w = (Ok (inl j), w') ->
  get_instance iid tid (Some d) w' = (Ok (Some j), w').
Proof.
  intros Hself Hok Hg Hget Hit.
  destruct (read_at iid tid d w Hok Hg) as (o & Hget' & Ho). rewrite Hget in Hget'.
  injection Hget' as <-.
  assert (PreOrder (fun _ _ : W => True)) as Hpre by by split.
  destruct (iteration_ok self Hself iid tid d guard (fun _ _ => True)
    (fun _ _ _ => I) (fun _ _ _ _ _ _ _ _ => I) i lease w Ho) as [_ Hn].
  rewrite Hit in Hn. cbn in Hn. destruct Hn as [Hok' Hg' _ Hf' Ht'].
  destruct (get_law w' iid tid (Some d) Hok' Hg') as (o & -> & Ho'). subst o.
  by rewrite Hf', bool_decide_true.
Qed.

(** ** What an append folds *)

Lemma append_run i d drafts guard nw w j w' :
  journal_ok w -> valid_bodies drafts -> drafts <> [] ->
  _append i d drafts guard nw w = (Ok j, w') ->
  spec_run (Some d) i (sequenced (wi_version i) drafts) = Some j.
Proof.
  intros Hok Hb Hne Ha. unfold _append in Ha. destruct drafts as [|e es]; [done|].
  apply M_bind_Ok in Ha as ([v evs] & w1 & Ha & Hf).
  destruct (append_ok_law _ _ _ _ _ _ _ _ _ _ Hok Hb Ha) as (_ & -> & _).
  unfold lift in Hf. injection Hf as Hf _. by apply fold_from_Ok in Hf as [_ Hf].
Qed.

(** Triples that only follow [journal_ok]. *)
Abbreviation sound m Q := (triple journal_ok (fun _ _ : W => True) m
  (fun a w => journal_ok w /\ Q a)).

#[local] Instance true_preorder : PreOrder (fun _ _ : W => True).
Proof. by split. Qed.

Lemma keeps_sound {A} (m : M W exn A) : moves same m -> sound m (fun _ => True).
Proof.
  intros Hm w Hok. destruct (Hm w I) as [Hs _]. split; [done|].
  destruct (fst (m w)); [|done]. split; [by apply Hs|done].
Qed.

(** A draft has the body it was asked for. *)
Lemma event_sound i b :
  sound (_event i b) (fun e => ev_body e = b /\ body_valid (ev_body e) = true).
Proof.
  unfold _event. eapply triple_bind; [apply _|apply keeps_sound, keeps_fresh|]. intros eid.
  apply triple_pure. intros _.
  eapply triple_bind; [apply _|apply keeps_sound, keeps_clock|]. intros t.
  apply triple_pure. intros _. destruct (body_valid b) eqn:Hb;
    [|by apply triple_raise; apply _].
  by apply triple_ret_post.
Qed.

Lemma events_sound i bodies :
  sound (mapM_ (_event i) bodies) (fun es => ev_body <$> es = bodies /\ valid_bodies es).
Proof.
  eapply triple_weaken.
  - apply (triple_mapM _ journal_ok (_event i)
             (fun b e => ev_body e = b /\ body_valid (ev_body e) = true)).
    intros b _. apply event_sound.
  - done.
  - intros es w [Hw Hes]. split; [done|]. 
    induction Hes as [|b e bs es [<- Hv] _ [IH1 IH2]]; [done|].
    split; [cbn; by f_equal|by constructor].
Qed.

(** ** Recovery *)

Definition handed_back (st : StepState) : StepState :=
  if bool_decide (st_status st = StepStatus.RUNNING) then set_st_status StepStatus.READY st else st.

Definition hand_back_body (sid : string) : event_body :=
  StepStatusChanged sid StepStatus.RUNNING StepStatus.READY (Some "worker-recovered").

Lemma recover_run dd stale evs i j :
  NoDup stale -> (ev_body <$> evs) = (hand_back_body <$> stale) ->
  (forall sid, sid ∈ stale -> exists st, wi_step_states i !! sid = Some st /\
     st_status st = StepStatus.RUNNING) ->
  spec_run dd i evs = Some j ->
  wi_status j = wi_status i /\ forall sid, wi_step_states j !! sid =
    (if bool_decide (sid ∈ stale) then set_st_status StepStatus.READY else id)
      <$> wi_step_states i !! sid.
Proof.
  revert evs i. induction stale as [|s stale IH]; intros evs i Hnd Hb Hrun Hr.
  { destruct evs; [|done]. injection Hr as <-. split; [done|]. intros sid.
    rewrite bool_decide_false by apply not_elem_of_nil. by destruct (wi_step_states i !! sid). }
  destruct evs as [|ev evs]; [done|]. injection Hb as Hb1 Hb. cbn in Hr.
  apply bind_Some in Hr as (i1 & H1 & Hr). apply NoDup_cons in Hnd as [Hs Hnd].
  apply spec_step_inv in H1 as [_ ->]. rewrite Hb1 in Hr. unfold hand_back_body in Hr.
  destruct (Hrun s ltac:(left)) as (st & Hst & Hstat).
  match type of Hr with spec_run _ ?x _ = _ => set (i1 := x) in * end.
  assert (wi_step_states i1 = <[s := set_st_status StepStatus.READY st]> (wi_step_states i)) as Hi1.
  { subst i1. cbn. unfold upd_step, step_or_new. by rewrite Hst. }
  destruct (IH evs i1 Hnd Hb) as [H1 H2]; [|done|].
  { intros sid Hin. destruct (Hrun sid ltac:(by right)) as (st' & ? & ?). exists st'.
    rewrite Hi1, lookup_insert_ne; [done|]. by intros ->. }
  split; [done|]. intros sid. rewrite H2, Hi1. destruct (decide (sid = s)) as [->|Hne].
  - rewrite lookup_insert_eq, bool_decide_false, bool_decide_true, Hst by (done || by left). done.
  - rewrite lookup_insert_ne by done. rewrite (bool_decide_ext (sid ∈ stale) (sid ∈ s :: stale)); [done|].
    rewrite elem_of_cons. tauto.
Qed.

Lemma elem_of_running i sid :
  sid ∈ running_steps i <-> exists st, wi_step_states i !! sid = Some st /\
    st_status st = StepStatus.RUNNING.
Proof.
  unfold running_steps. rewrite list_elem_of_fmap. split.
  - intros ([s st] & -> & [Hs Hin%elem_of_map_to_list]%list_elem_of_filter). by exists st.
  - intros (st & Hst & Hs). exists (sid, st). split; [done|]. apply list_elem_of_filter.
    split; [done|]. by apply elem_of_map_to_list.
Qed.

Lemma NoDup_running i : NoDup (running_steps i).
Proof.
  eapply sublist_NoDup; [apply (NoDup_fst_map_to_list (wi_step_states i))|].
  apply fmap_sublist, sublist_filter.
Qed.

(** Recovery hands every interrupted step back.  When [_recover_in_flight]
    returns, no step is running: a step that was running is ready again with its
    attempt count, output and retry state as they were (so the interrupted
    attempt counts against its retries), and every other step is untouched. *)
Theorem recovery_resets_running_steps d guard i w j w' :
  journal_ok w -> _recover_in_flight i d guard w = (Ok j, w') ->
  running_steps j = [] /\ wi_status j = wi_status i /\
  forall sid, wi_step_states j !! sid = handed_back <$> wi_step_states i !! sid.
Proof.
  intros Hok Hrec.
  assert (wi_status j = wi_status i /\ forall sid, wi_step_states j !! sid =
    (if bool_decide (sid ∈ running_steps i) then set_st_status StepStatus.READY else id)
      <$> wi_step_states i !! sid) as [H1 H2].
  { unfold _recover_in_flight in Hrec. pose proof (elem_of_running i) as Hin.
    pose proof (NoDup_running i) as Hnd.
    destruct (running_steps i) as [|s stale] eqn:E.
    { injection Hrec as -> _. split; [done|]. intros sid.
      rewrite bool_decide_false by apply not_elem_of_nil. by destruct (wi_step_states j !! sid). }
    apply M_bind_Ok in Hrec as (drafts & w1 & Hd & Ha).
    assert (journal_ok w1 /\ ev_body <$> drafts = hand_back_body <$> (s :: stale) /\
            valid_bodies drafts) as (Hok1 & Hb & Hv).
    { pose proof (events_sound i (hand_back_body <$> (s :: stale)) w Hok) as [_ H].
      assert (mapM_ (_event i) (hand_back_body <$> (s :: stale)) w = (Ok drafts, w1)) as Hm.
      { rewrite <- Hd. generalize (s :: stale). clear. intros l. revert w.
        induction l as [|x l IH]; intros w; [done|]. cbn. unfold hand_back_body at 1, mbind, M_bind.
        destruct (_event i _ w) as [[e|e] w1]; [|done].
        by rewrite IH. }
      rewrite Hm in H. exact H. }
    eapply (recover_run (Some d) (s :: stale)); [done| |by apply Hin|].
    - by rewrite sequenced_bodies.
    - eapply append_run; [exact Hok1|exact Hv| |exact Ha]. intros ->. done. }
  assert (forall sid, wi_step_states j !! sid = handed_back <$> wi_step_states i !! sid) as H3.
  { intros sid. rewrite H2. destruct (wi_step_states i !! sid) as [st|] eqn:E; [|done]. cbn. f_equal.
    unfold handed_back. case_bool_decide as Hr; case_bool_decide as Hs; try done; exfalso.
    - apply elem_of_running in Hr as (st' & Hst' & ?). congruence.
    - apply Hr, elem_of_running. by exists st. }
  split_and!; [|done|done]. unfold running_steps. rewrite filter_all_false; [done|].
  intros [sid st] Hin%elem_of_map_to_list Hs. cbn in Hs. rewrite H3 in Hin.
  destruct (wi_step_states i !! sid) as [st0|]; [|done]. injection Hin as <-.
  unfold handed_back in Hs. case_bool_decide; [done|]. done.
Qed.

(** ** Resting instances *)

(** A finished, parked or paused instance is left alone.  If nothing is
    running and the status is one on which the driver rests, [drive_with] changes
    nothing and reports that status. *)
Theorem drive_rests self d lease guard w i r :
  get_instance (le_instance_id lease) (le_tenant_id lease) (Some d) w = (Ok (Some i), w) ->
  running_steps i = [] -> resting (wi_status i) = Some r ->
  drive_with self d lease guard w = (Ok (report (wi_instance_id i) r), w).
Proof.
  intros Hget Hrun Hr. unfold drive_with. rewrite (M_bind_step _ _ w (Some i) w Hget).
  unfold try_except, try_catch, _recover_in_flight. rewrite Hrun.
  rewrite (M_bind_step (mret i) _ w i w eq_refl). unfold _run, _MAX_DRIVE_ITERATIONS.
  change 1000%nat with (S 999). cbn [run_loop].
  rewrite (M_bind_step _ _ w (inr (report (wi_instance_id i) r)) w); [done|].
  unfold iteration. by rewrite Hr.
Qed.

(** ** Unseeded instances *)

Lemma created_fresh e0 i0 :
  Fold.fold [e0] None None = Ok i0 ->
  wi_step_states i0 = ∅ /\ wi_status i0 = WorkflowStatus.PENDING /\ wi_version i0 = 1%Z.
Proof.
  intros Hf. pose proof (fold_version _ _ _ _ Hf) as [_ Hv]. cbn in Hv.
  apply fold_Ok in Hf as (_ & i & Hst & Hr). cbn in Hst.
  destruct (Fold.genesis e0) as [j|] eqn:Hg; [|done]. injection Hst as <-.
  unfold Fold.genesis in Hg. destruct (ev_body e0) eqn:Hb; try discriminate Hg. injection Hg as <-.
  cbn in Hr. unfold spec_step in Hr. rewrite Hb in Hr. cbn in Hr. injection Hr as <-. done.
Qed.

(** The plan of an instance that knows no step. *)
Lemma plan_unknown i d now s rest :
  wi_step_states i = ∅ -> wd_steps d = s :: rest ->
  _plan i d now = Err (KeyError (ws_step_id s)).
Proof. intros Hi Hd. unfold _plan, scan_steps. rewrite Hd. cbn. unfold scan_step, get_step. by rewrite Hi. Qed.

(** A draft that is valid is made. *)
Lemma event_made i b w : body_valid b = true ->
  exists e, let w' := snd (new_id w) in _event i b w = (Ok e, w') /\ same w w' /\
    is_draft (wi_instance_id i) (wi_tenant_id i) b e.
Proof.
  intros Hb. unfold _event, fresh_id. unfold mbind, M_bind, read_clock, gets.
  pose proof (frame_id w) as Hs. destruct (new_id w) as [eid w1]. cbn in *. rewrite Hb.
  eexists. by split_and!.
Qed.

(** The first iteration on an instance that was only created: it starts to run. *)
Lemma fresh_iteration self d lease guard w e0 i0 iid tid :
  journal_ok w -> jlog w iid = [e0] -> Fold.fold [e0] None None = Ok i0 ->
  wi_tenant_id i0 = tid -> guard (snd (new_id w)) = Ok tt ->
  exists w2 e, let i1 := set_wi_version 2 (set_wi_updated_at (Some (ev_occurred_at e))
                           (set_wi_status WorkflowStatus.RUNNING i0)) in
    iteration self i0 d lease guard w = (Ok (inl i1), w2) /\
    jlog w2 iid = [e0; with_sequence e 2] /\
    ev_body e = InstanceStatusChanged WorkflowStatus.PENDING WorkflowStatus.RUNNING None.
Proof.
  intros Hok Hl Hf Ht Hguard. destruct (created_fresh _ _ Hf) as (Hss & Hst & Hv).
  assert (wi_instance_id i0 = iid) as Hi.
  { eapply fold_owner; [|exact Hf]. rewrite <- Hl. by apply owner_law. }
  destruct (event_made i0 (InstanceStatusChanged WorkflowStatus.PENDING WorkflowStatus.RUNNING None)
    w eq_refl) as (e & He & Hs & Hb & Hei & Het & _). set (w1 := snd (new_id w)) in *.
  destruct (Hs Hok) as [Hok1 Hl1]. set (i1 := set_wi_version 2 (set_wi_updated_at
    (Some (ev_occurred_at e)) (set_wi_status WorkflowStatus.RUNNING i0))).
  assert (spec_run (Some d) i0 (sequenced 1 [e]) = Some i1) as Hrun.
  { cbn. unfold spec_step, accepts. cbn. rewrite Hb, Hst. reflexivity. }
  assert (Fold.fold (sequenced 1 [e]) (Some d) (Some i0) = Ok i1) as Hf1.
  { apply fold_from_Ok. split; [cbn; by rewrite Hv|exact Hrun]. }
  assert (jlog w1 iid = [e0]) as Hlw1 by (by rewrite Hl1).
  assert (valid_bodies [e]) as Hve by (constructor; [by rewrite Hb|done]).
  destruct (append_total_law w1 iid tid [e] (Some guard) None i1 Hok1)
    as (w2 & Happ); [done|done|by rewrite Hlw1| |exact Hguard| |done|].
  { constructor; [|done]. by rewrite Hei, Het, Hi, Ht. }
  { rewrite Hlw1. rewrite fold_app by (by right). rewrite Hf. cbn [mbind result_bind].
    rewrite (fold_defn_irrelevant None (Some d)); [exact Hf1|]. constructor; [|done].
    unfold is_created. cbn. rewrite Hb. tauto. }
  destruct (append_ok_law _ _ _ _ _ _ _ _ _ _ Hok1 Hve Happ) as (_ & _ & _ & _ & _ & _ & Hl2 & _).
  rewrite Hlw1 in Happ, Hl2. change (Z.of_nat (length [e0])) with 1%Z in Happ, Hl2.
  exists w2, e. split; [|split; [exact Hl2|exact Hb]].
  unfold iteration, _transition, _append. rewrite Hst. cbn [resting].
  rewrite (M_bind_step _ _ w i1 w2); [done|].
  rewrite (M_bind_step _ _ w e w1 He). rewrite Hi, Ht, Hv.
  rewrite (M_bind_step _ _ w1 _ w2 Happ). cbn [snd]. unfold lift. by rewrite Hf1.
Qed.

(** C28: Without seeding, a fresh instance cannot be driven.  If the journal does
    not let the definition seed the steps (the Postgres store does not), then
    driving an instance that was only created, under a guard that passes when its
    one event is appended, moves it to running and then raises [KeyError] on the
    first step of the definition; the exception is not one the driver handles. *)
Theorem unseeded_instance_raises self d lease guard w e0 i0 s rest :
  journal_ok w -> journal_defn (W := W) (Some d) = None ->
  jlog w (le_instance_id lease) = [e0] -> Fold.fold [e0] None None = Ok i0 ->
  wi_tenant_id i0 = le_tenant_id lease -> wd_steps d = s :: rest ->
  guard (snd (new_id w)) = Ok tt ->
  exists w' e, drive_with self d lease guard w = (Err (KeyError (ws_step_id s)), w') /\
    jlog w' (le_instance_id lease) = [e0; e] /\
    ev_body e = InstanceStatusChanged WorkflowStatus.PENDING WorkflowStatus.RUNNING None.
Proof.
  intros Hok Hseed Hl Hf Ht Hd Hguard. set (iid := le_instance_id lease) in *.
  destruct (created_fresh _ _ Hf) as (Hss & Hst & Hv).
  destruct (get_law w iid (le_tenant_id lease) (Some d) Hok) as (o & Hget & Ho).
  { rewrite Hl. constructor. }
  rewrite Hseed, Hl, Hf, bool_decide_true in Ho by done. subst o.
  destruct (fresh_iteration self d lease guard w e0 i0 iid _ Hok Hl Hf Ht Hguard)
    as (w2 & e & Hit1 & Hl2 & Hb). cbv zeta in Hit1. set (i1 := set_wi_version 2 _) in Hit1.
  exists w2, (with_sequence e 2). split; [|split; [exact Hl2|exact Hb]].
  unfold drive_with. fold iid. rewrite (M_bind_step _ _ w (Some i0) w Hget).
  assert (_recover_in_flight i0 d guard w = (Ok i0, w)) as Hrec.
  { unfold _recover_in_flight, running_steps. by rewrite Hss, map_to_list_empty. }
  assert (_run self i0 d lease guard w = (Err (KeyError (ws_step_id s)), w2)) as Hr.
  { unfold _run, _MAX_DRIVE_ITERATIONS. change 1000%nat with (S (S 998)). cbn [run_loop].
    rewrite (M_bind_step _ _ w _ w2 Hit1). apply M_bind_raise.
    unfold iteration. cbn [i1 wi_status set_wi_version set_wi_updated_at set_wi_status resting].
    rewrite (M_bind_step read_clock _ w2 (now w2) w2 eq_refl).
    rewrite (plan_unknown i1 d _ s rest). all: done. }
  unfold try_except, try_catch. by rewrite (M_bind_step _ _ w i0 w Hrec), Hr.
Qed.
End props.
