(* ===== verification/WaveTheory.v ===== *)
(** The events of a wave, as the driver's local copy sees them: the drafts that
    begin the attempts, those of their outcomes and those of a recovery are all
    accepted, and move exactly the steps they are about; and the plan of an
    instance on which nothing failed either dispatches or settles. *)

From stdpp Require Import base strings list gmap.
From Stdlib Require Import ZArith Lia.
From S2P Require Import Prelude Exceptions Values Enums Dag Definitions Instance Events Fold.
From S2P Require Import FoldTheory EventStoreTheory SideEffects Cost Runners.
From S2P Require Import Journal Driver PlanTheory DriverTheory DriverProps.

Import Fold SideEffects Cost Driver.

(** ** Copies that differ only in how they were seeded *)

(** Every event is accepted by both or by neither. *)
Record same_progress (x y : WorkflowInstance) : Prop := {
  sp_status : wi_status x = wi_status y;
  sp_steps : forall sid, step_or_new x sid = step_or_new y sid;
}.

Lemma same_progress_accepts x y b : same_progress x y -> accepts x b = accepts y b.
Proof.
  intros [Hs Hst]. unfold accepts, step_status. rewrite Hs.
  f_equal; [f_equal; destruct b; by rewrite ?Hst|].
  by destruct (step_target b) as [[sid t]|]; rewrite ?Hst.
Qed.

Lemma same_progress_step d d' x y ev x' :
  same_progress x y -> spec_step d x ev = Some x' ->
  exists y', spec_step d' y ev = Some y' /\ same_progress x' y'.
Proof.
  intros Hp [Ha ->]%spec_step_inv. unfold spec_step.
  rewrite <- (same_progress_accepts x y) by done. rewrite Ha. eexists. split; [done|].
  destruct Hp as [Hs Hst]. constructor; cbn.
  - by rewrite !effect_status, Hs.
  - intros sid.
    change (step_or_new (effect x (ev_occurred_at ev) (ev_body ev) d) sid
            = step_or_new (effect y (ev_occurred_at ev) (ev_body ev) d') sid).
    rewrite !effect_step_or_new, Hst. done.
Qed.

Lemma same_progress_run d d' x y evs x' :
  same_progress x y -> spec_run d x evs = Some x' ->
  exists y', spec_run d' y evs = Some y' /\ same_progress x' y'.
Proof.
  revert x y. induction evs as [|ev evs IH]; intros x y Hp; cbn; [intros [= <-]; by exists y|].
  intros (x1 & H1 & H2)%bind_Some.
  destruct (same_progress_step _ d' _ _ _ _ Hp H1) as (y1 & -> & Hp1). cbn. by eapply IH.
Qed.

(** A log that folds with one definition folds with any other, to a copy at the
    same point. *)
Lemma fold_reseed d d' evs i :
  Fold.fold evs d None = Ok i -> exists j, Fold.fold evs d' None = Ok j /\ same_progress i j.
Proof.
  intros (Hseq & i0 & Hst & Hr)%fold_Ok.
  destruct (same_progress_run _ d' i0 i0 _ _ ltac:(by constructor) Hr) as (j & Hj & Hp).
  exists j. split; [|done]. apply fold_Ok. split; [done|]. by exists i0.
Qed.

(** ** One event of a wave *)

(** The events a wave or a recovery writes when nothing fails. *)
Definition wave_body (b : event_body) : bool :=
  match b with
  | StepStatusChanged _ _ to _ => negb (bool_decide (to = StepStatus.FAILED))
  | StepStarted _ _ _ _ | StepCompleted _ _ _ _ _ _ _ _
  | LLMCallRecorded _ _ _ _ _ _ _ _ | SideEffectIntentRecorded _ _ _ _ _
  | SideEffectExecuted _ _ _ _ | CostCharged _ _ _ _ _ => true
  | _ => false
  end.

Definition attempts_of (i : WorkflowInstance) (sid : string) : Z := st_attempts (step_or_new i sid).
Definition retry_of (i : WorkflowInstance) (sid : string) : option time :=
  st_next_retry_at (step_or_new i sid).

(** What such events leave alone. *)
Record carried (i j : WorkflowInstance) : Prop := {
  ca_status : wi_status j = wi_status i;
  ca_escalations : wi_escalations j = wi_escalations i;
  ca_budget : wi_budget_limit_usd j = wi_budget_limit_usd i;
  ca_known sid : is_Some (wi_step_states i !! sid) -> is_Some (wi_step_states j !! sid);
  ca_attempts sid : (0 <= attempts_of i sid)%Z -> (0 <= attempts_of j sid)%Z;
  ca_failed sid : step_status j sid = StepStatus.FAILED ->
    step_status i sid = StepStatus.FAILED /\ retry_of j sid = retry_of i sid;
}.

#[export] Instance carried_preorder : PreOrder carried.
Proof.
  split; [by constructor|]. intros i j k [H1 H2 H3 H4 H5 H6] [K1 K2 K3 K4 K5 K6].
  constructor; [congruence..| | |]; auto.
  intros sid (Hj & ->)%K6. by apply H6.
Qed.

Lemma effect_escalations i at_ b d :
  wave_body b = true -> wi_escalations (effect i at_ b d) = wi_escalations i.
Proof. intros Hb. solve_effect at_ b. Qed.

Lemma effect_budget i at_ b d :
  wave_body b = true -> wi_budget_limit_usd (effect i at_ b d) = wi_budget_limit_usd i.
Proof. intros Hb. solve_effect at_ b. Qed.

Lemma step_update_attempts at_ b s f st :
  body_valid b = true -> step_update at_ b = Some (s, f) ->
  (0 <= st_attempts st)%Z -> (0 <= st_attempts (f st))%Z.
Proof.
  intros Hv H Ha. destruct b; cbn in *; try discriminate H; repeat case_match; simplify_eq/=;
    unfold set_model; repeat case_match; cbn; lia.
Qed.

Lemma step_update_failed at_ b s f st :
  wave_body b = true -> step_update at_ b = Some (s, f) -> st_status (f st) = StepStatus.FAILED ->
  st_status st = StepStatus.FAILED /\ st_next_retry_at (f st) = st_next_retry_at st.
Proof.
  intros Hw H. destruct b; cbn in *; try discriminate H; repeat case_match; simplify_eq/=;
    unfold set_model; repeat case_match; cbn; try done.
  all: case_bool_decide; [discriminate Hw|done].
Qed.

Lemma wave_step dd i ev :
  wave_body (ev_body ev) = true -> body_valid (ev_body ev) = true ->
  accepts i (ev_body ev) = true ->
  exists j, spec_step dd i ev = Some j /\ carried i j /\
    forall sid, step_status j sid =
      match step_target (ev_body ev) with
      | Some (s, t) => if bool_decide (s = sid) then t else step_status i sid
      | None => step_status i sid
      end.
Proof.
  intros Hw Hv Ha. unfold spec_step. rewrite Ha. eexists. split; [done|].
  set (at_ := ev_occurred_at ev). set (b := ev_body ev) in *.
  match goal with |- carried _ ?x /\ _ => set (j := x) end.
  assert (forall sid, step_or_new j sid = step_or_new (effect i at_ b dd) sid) as Hj by done.
  split.
  - constructor.
    + change (wi_status (effect i at_ b dd) = wi_status i). rewrite effect_status. by destruct b.
    + by apply effect_escalations.
    + by apply effect_budget.
    + intros sid Hs. eapply (spec_step_keeps_steps dd i ev); [done|]. unfold spec_step.
      fold b. by rewrite Ha.
    + intros sid Hs. unfold attempts_of in *. rewrite Hj, effect_step_or_new.
      destruct (step_update at_ b) as [[s f]|] eqn:Hu; [|done]. case_bool_decide; [|done].
      by eapply step_update_attempts.
    + intros sid. unfold step_status, retry_of. rewrite Hj, effect_step_or_new.
      destruct (step_update at_ b) as [[s f]|] eqn:Hu; [|done]. case_bool_decide; [|done].
      by eapply step_update_failed.
  - intros sid. unfold step_status. rewrite Hj, effect_step_or_new.
    destruct (step_update at_ b) as [[s f]|] eqn:Hu.
    + destruct (step_update_status _ _ _ _ (step_or_new i sid) Hu) as [Hst Ht].
      destruct (step_target b) as [[s' t]|] eqn:Htg.
      * rewrite (Ht s' t) by done. by case_bool_decide.
      * case_bool_decide; [|done]. rewrite Hst. by destruct b.
    + destruct (step_target b) as [[s' t]|] eqn:Htg; [|done].
      destruct b; cbn in *; try discriminate; by repeat case_match.
Qed.

(** ** Batches of a wave *)

(** [j] is [i] with the steps [ids] moved to [t], nothing else that the driver
    looks at having changed. *)
Record moved (ids : list string) (t : StepStatus) (i j : WorkflowInstance) : Prop := {
  mv_carried : carried i j;
  mv_status sid : step_status j sid = if bool_decide (sid ∈ ids) then t else step_status i sid;
}.

Lemma moved_nil t i : moved [] t i i.
Proof. by constructor. Qed.

Lemma moved_app ids1 ids2 t i j k :
  moved ids1 t i j -> moved ids2 t j k -> moved (ids1 ++ ids2) t i k.
Proof.
  intros [H1 H2] [K1 K2]. constructor; [by etransitivity|]. intros sid. rewrite K2, H2.
  repeat case_bool_decide; set_solver.
Qed.

Lemma moved_over ids t u i j k : moved ids t i j -> moved ids u j k -> moved ids u i k.
Proof.
  intros [H1 H2] [K1 K2]. constructor; [by etransitivity|]. intros sid. rewrite K2, H2.
  by case_bool_decide.
Qed.

Section runs.
Context (dd : option WorkflowDefinition).

(** Events with these bodies are all accepted from [i], and move [ids] to [t]. *)
Definition runs_to (bodies : list event_body) (ids : list string) (t : StepStatus)
    (i : WorkflowInstance) : Prop :=
  forall evs, ev_body <$> evs = bodies -> exists j, spec_run dd i evs = Some j /\ moved ids t i j.

Lemma runs_nil t i : runs_to [] [] t i.
Proof. intros [|] [=]. exists i. split; [done|apply moved_nil]. Qed.

Lemma runs_after b1 b2 ids1 t1 ids t i :
  runs_to b1 ids1 t1 i ->
  (forall j, moved ids1 t1 i j -> forall evs, ev_body <$> evs = b2 ->
     exists k, spec_run dd j evs = Some k /\ moved ids t i k) ->
  runs_to (b1 ++ b2) ids t i.
Proof.
  intros H1 H2 evs (e1 & e2 & -> & He2 & ->)%fmap_app_inv.
  destruct (H1 e1 eq_refl) as (j & Hj & Hm).
  destruct (H2 j Hm e2 (eq_sym He2)) as (k & Hk & Hmk).
  exists k. split; [|done]. by rewrite spec_run_app, Hj.
Qed.

Lemma runs_app b1 b2 ids1 ids2 t i :
  runs_to b1 ids1 t i -> (forall j, moved ids1 t i j -> runs_to b2 ids2 t j) ->
  runs_to (b1 ++ b2) (ids1 ++ ids2) t i.
Proof.
  intros H1 H2. eapply runs_after; [exact H1|]. intros j Hj evs He.
  destruct (H2 j Hj evs He) as (k & Hk & Hm). exists k. split; [done|]. by eapply moved_app.
Qed.

Lemma runs_over b1 b2 ids t u i :
  runs_to b1 ids t i -> (forall j, moved ids t i j -> runs_to b2 ids u j) ->
  runs_to (b1 ++ b2) ids u i.
Proof.
  intros H1 H2. eapply runs_after; [exact H1|]. intros j Hj evs He.
  destruct (H2 j Hj evs He) as (k & Hk & Hm). exists k. split; [done|]. by eapply moved_over.
Qed.

Lemma runs_one b sid t i :
  wave_body b = true -> body_valid b = true -> step_target b = Some (sid, t) ->
  accepts i b = true -> runs_to [b] [sid] t i.
Proof.
  intros Hw Hv Ht Ha [|ev [|]] [=]. subst b.
  destruct (wave_step dd i ev Hw Hv Ha) as (j & Hj & Hc & Hs).
  exists j. split; [cbn; by rewrite Hj|]. constructor; [done|]. intros s. rewrite Hs, Ht.
  rewrite (bool_decide_ext (sid = s) (s ∈ [sid])); [done|]. rewrite list_elem_of_singleton. naive_solver.
Qed.

(** Recordings, charges and effects move no step. *)
Definition quiet (b : event_body) : Prop :=
  wave_body b = true /\ body_valid b = true /\ step_target b = None.

Lemma quiet_accepted i b : quiet b -> accepts i b = true.
Proof. intros (Hw & _ & Ht). by destruct b. Qed.

Lemma runs_quiet bodies t i : Forall quiet bodies -> runs_to bodies [] t i.
Proof.
  intros Hq. revert i. induction Hq as [|b bodies Hb _ IH]; intros i; [apply runs_nil|].
  intros [|ev evs] [=]. subst b bodies. pose proof (quiet_accepted i _ Hb) as Ha.
  destruct Hb as (Hw & Hv & Ht). destruct (wave_step dd i ev Hw Hv Ha) as (j & Hj & Hc & Hs).
  rewrite Ht in Hs. destruct (IH j evs eq_refl) as (k & Hk & Hm).
  exists k. split; [cbn; by rewrite Hj|].
  apply (moved_app [] [] t i j); [by constructor|done].
Qed.

(** Blocks about different steps, one after the other. *)
Lemma runs_blocks {A} (key : A -> string) (f : A -> list event_body)
    (from : A -> StepStatus -> Prop) t (l : list A) i :
  NoDup (key <$> l) ->
  (forall a i, a ∈ l -> from a (step_status i (key a)) -> runs_to (f a) [key a] t i) ->
  (forall a, a ∈ l -> from a (step_status i (key a))) ->
  runs_to (l ≫= f) (key <$> l) t i.
Proof.
  revert i. induction l as [|a l IH]; intros i Hnd Hf Hi; [apply runs_nil|].
  cbn in Hnd |- *. apply NoDup_cons in Hnd as [Ha Hnd].
  apply (runs_app _ _ [key a]); [apply Hf; [left|apply Hi; left]|].
  intros j [_ Hj]. apply IH; [done|intros; apply Hf; [by right|done]|].
  intros b Hb. rewrite Hj, bool_decide_false; [apply Hi; by right|].
  intros Heq%list_elem_of_singleton. apply Ha. rewrite <- Heq. by apply list_elem_of_fmap_2.
Qed.
End runs.

Lemma step_status_lookup i sid st :
  wi_step_states i !! sid = Some st -> step_status i sid = st_status st.
Proof. intros H. unfold step_status, step_or_new. by rewrite H. Qed.

(** ** The three batches *)

Section batches.
Context (dd : option WorkflowDefinition).

(** A queued step (or one whose retry is due), as the copy [i0] from which its drafts
    are made saw it. *)
Definition queued (i0 : WorkflowInstance) (c : string * Z) (s : StepStatus) : Prop :=
  s ∈ [StepStatus.PENDING; StepStatus.READY; StepStatus.FAILED] /\ s = step_status i0 c.1 /\
  is_Some (wi_step_states i0 !! c.1) /\ (1 <= c.2)%Z.

Lemma start_block i0 wid c i :
  queued i0 c (step_status i c.1) -> runs_to dd (start_bodies i0 wid c) [c.1] StepStatus.RUNNING i.
Proof.
  intros (Hq & Heq & [st Hst] & Hc). unfold start_bodies. rewrite Hst.
  rewrite (step_status_lookup _ _ _ Hst) in Heq.
  assert (forall j, step_status j c.1 ∈ [StepStatus.READY; StepStatus.FAILED] ->
    runs_to dd [StepStarted c.1 c.2 wid None] [c.1] StepStatus.RUNNING j) as Hready.
  { intros j Hj. apply runs_one; [done| |done|].
    - by apply Z.leb_le.
    - unfold accepts. cbn. rewrite !elem_of_cons, elem_of_nil in Hj.
      by destruct Hj as [->|[->|[]]]. }
  case_bool_decide as Hp.
  - apply (runs_over _ _ _ _ StepStatus.READY).
    + apply runs_one; [done..|]. unfold accepts. cbn. by rewrite Heq, Hp.
    + intros j [_ Hj]. apply Hready. rewrite Hj, bool_decide_true by left. left.
  - apply Hready. rewrite Heq in Hq |- *. set_solver.
Qed.

(** The outcome of an effect comes from its row, or with a guarantee the event
    knows. *)
Definition declared (e : EffectOutcome) : Prop :=
  eo_deduplicated e = true \/ eo_guarantee e ∈ ["exactly_once"; "at_least_once_dedup"].

(** An attempt that succeeded and asks for no review. *)
Definition succeeded (r : attempt_result) : Prop :=
  exists out m charges effects recs,
    ar_outcome r = StepSuccess out m charges effects None recs /\
    Forall declared effects /\
    (1 <= ar_attempt r)%Z.

Lemma effect_quiet sid e : declared e -> Forall quiet (effect_bodies sid e).
Proof.
  intros [He|He]; unfold effect_bodies.
  - rewrite He. by apply Forall_singleton.
  - apply Forall_app. split; [|by apply Forall_singleton].
    destruct (eo_deduplicated e); [done|]. apply Forall_singleton.
    split_and!; [done|by apply bool_decide_eq_true|done].
Qed.

Lemma success_bodies r :
  succeeded r -> exists bodies out m, Forall quiet bodies /\
    outcome_bodies r = bodies ++ [StepCompleted (ar_step_id r) (ar_attempt r) out m fzero 0 0 0] /\
    (1 <= ar_attempt r)%Z.
Proof.
  intros (out & m & charges & effects & recs & Ho & He & Ha).
  exists ((recording_body (ar_step_id r) (ar_attempt r) <$> recs) ++
          (charge_body (ar_step_id r) <$> charges) ++
          (effects ≫= effect_bodies (ar_step_id r))), out, m.
  split; [|split; [unfold outcome_bodies; rewrite Ho; cbn [outcome_recordings outcome_charges
    outcome_effects verdict_body]; by rewrite <- !app_assoc|done]].
  rewrite !Forall_app, !Forall_fmap. split_and!.
  - apply Forall_forall. intros x _. split_and!; [done|by apply Z.leb_le|done].
  - by apply Forall_forall.
  - apply Forall_bind. eapply Forall_impl; [exact He|]. intros e. apply effect_quiet.
Qed.

Lemma outcome_block r i :
  succeeded r -> step_status i (ar_step_id r) = StepStatus.RUNNING ->
  runs_to dd (outcome_bodies r) [ar_step_id r] StepStatus.COMPLETED i.
Proof.
  intros (bodies & out & m & Hq & -> & Ha)%success_bodies Hi.
  apply (runs_app _ _ _ []); [by apply runs_quiet|]. intros j [_ Hj].
  apply runs_one; [done|by apply Z.leb_le|done|].
  unfold accepts. cbn. by rewrite Hj, bool_decide_false, Hi by apply not_elem_of_nil.
Qed.

Lemma outcome_valid r : succeeded r -> Forall (fun b => body_valid b = true) (outcome_bodies r).
Proof.
  intros (bodies & out & m & Hq & -> & Ha)%success_bodies.
  apply Forall_app. split; [eapply Forall_impl; [exact Hq|by intros b (_ & ? & _)]|].
  repeat constructor. by apply Z.leb_le.
Qed.

Lemma outcome_begins_nothing r :
  succeeded r -> Forall (fun b => plain b = true) (outcome_bodies r).
Proof.
  intros (bodies & out & m & Hq & -> & _)%success_bodies. apply Forall_app.
  split; [|by repeat constructor]. eapply Forall_impl; [exact Hq|].
  intros b (Hw & _ & Ht). by destruct b.
Qed.

Lemma recover_block sid i :
  step_status i sid = StepStatus.RUNNING ->
  runs_to dd [hand_back_body sid] [sid] StepStatus.READY i.
Proof.
  intros Hi. apply runs_one; [done..|]. unfold accepts. cbn. by rewrite Hi.
Qed.
End batches.

(** ** Planning when nothing failed for good *)

(** A failed step has a retry, due by [due]. *)
Definition retry_due (due : time) (i : WorkflowInstance) (sid : string) : Prop :=
  step_status i sid = StepStatus.FAILED -> exists t, retry_of i sid = Some t /\ (t <= due)%Z.

(** Every step of the definition is queued, done or due for a retry, approved if it
    has to be, and nothing else stands in the way. *)
Record steady (due : time) (d : WorkflowDefinition) (i : WorkflowInstance) : Prop := {
  sd_steps s : s ∈ wd_steps d -> is_Some (wi_step_states i !! ws_step_id s) /\
    step_status i (ws_step_id s) ∈ [StepStatus.PENDING; StepStatus.READY; StepStatus.FAILED;
                                    StepStatus.COMPLETED; StepStatus.SKIPPED] /\
    (0 <= attempts_of i (ws_step_id s))%Z /\ retry_due due i (ws_step_id s);
  sd_running sid : step_status i sid <> StepStatus.RUNNING;
  sd_escalations : open_esc i = [];
  sd_budget : wi_budget_limit_usd i = None;
  sd_approved s : s ∈ wd_steps d -> ws_requires_approval s = true ->
    _approval_granted i (ws_step_id s) = true;
}.

Lemma step_done_status i sid :
  is_Some (wi_step_states i !! sid) -> step_done i sid = bool_decide (step_status i sid ∈ _DONE).
Proof. intros [st Hst]. unfold step_done. by rewrite (step_status_lookup _ _ _ Hst), Hst. Qed.

Lemma steady_knows due d i : valid_definition d -> steady due d i -> knows i d.
Proof.
  intros Hv Hi s Hs. split; [by apply (sd_steps _ _ _ Hi)|]. intros dep Hdep.
  assert (dep ∈ step_ids d) as Hin.
  { rewrite <- definition_deps_keys. apply (vd_closed _ Hv (ws_step_id s)).
    exists (ws_dependencies s). split; [|done]. apply list_elem_of_fmap. by exists s. }
  apply list_elem_of_fmap in Hin as (s' & -> & Hs'). by apply (sd_steps _ _ _ Hi).
Qed.

Lemma steady_no_running due d i : steady due d i -> running_steps i = [].
Proof.
  intros Hi. unfold running_steps. rewrite filter_all_false; [done|]. intros [sid st] Hin Hst.
  apply elem_of_map_to_list in Hin. apply (sd_running _ _ _ Hi sid).
  by rewrite (step_status_lookup _ _ _ Hin).
Qed.

Lemma steady_retry due d i s st :
  steady due d i -> s ∈ wd_steps d -> wi_step_states i !! ws_step_id s = Some st ->
  st_status st = StepStatus.FAILED -> exists t, st_next_retry_at st = Some t /\ (t <= due)%Z.
Proof.
  intros Hi Hs Hst Hf. destruct (sd_steps _ _ _ Hi s Hs) as (_ & _ & _ & Hd).
  unfold retry_due, retry_of, step_status, step_or_new in Hd. rewrite Hst in Hd. by apply Hd.
Qed.

Lemma omap_none {A B} (f : A -> option B) l : (forall a, a ∈ l -> f a = None) -> omap f l = [].
Proof.
  intros Hf. induction l as [|a l IH]; [done|]. cbn. rewrite (Hf a) by left.
  apply IH. intros b Hb. apply Hf. by right.
Qed.

Lemma steady_no_failure due d i : steady due d i -> omap (failed_for_good i) (wd_steps d) = [].
Proof.
  intros Hi. apply omap_none. intros s Hs. unfold failed_for_good.
  destruct (wi_step_states i !! ws_step_id s) as [st|] eqn:Hst; [|done]. cbn.
  destruct (st_status st) eqn:E; try done.
  by destruct (steady_retry _ _ _ _ _ Hi Hs Hst E) as (t & -> & _).
Qed.

Lemma steady_no_wait due d i now :
  (due <= now)%Z -> steady due d i -> omap (retry_wait i now) (wd_steps d) = [].
Proof.
  intros Hnow Hi. apply omap_none. intros s Hs. unfold retry_wait.
  destruct (wi_step_states i !! ws_step_id s) as [st|] eqn:Hst; [|done]. cbn.
  destruct (st_status st) eqn:E; try done.
  destruct (steady_retry _ _ _ _ _ Hi Hs Hst E) as (t & -> & Ht).
  by rewrite (proj2 (Z.leb_le t now)) by lia.
Qed.

Lemma steady_approved due d i now c :
  valid_definition d -> steady due d i -> c ∈ omap (candidate i now) (wd_steps d) ->
  must_approve i d c.1 = false.
Proof.
  intros Hv Hi (s & Hs & (st & _ & -> & _)%candidate_some)%list_elem_of_omap. cbn.
  unfold must_approve. rewrite def_step_in by (done || apply vd_nodup, Hv).
  destruct (ws_requires_approval s) eqn:Hr; [|done].
  rewrite (sd_approved _ _ _ Hi s Hs Hr). by rewrite andb_false_r.
Qed.

Lemma steady_candidate due d i now c :
  steady due d i -> c ∈ omap (candidate i now) (wd_steps d) ->
  c.1 ∈ step_ids d /\ queued i c (step_status i c.1).
Proof.
  intros Hi (s & Hs & (st & Hst & -> & Hcase)%candidate_some)%list_elem_of_omap. cbn.
  split; [by apply list_elem_of_fmap_2|].
  destruct (sd_steps _ _ _ Hi s Hs) as (_ & _ & Ha & _). unfold attempts_of, step_or_new in Ha.
  rewrite Hst in Ha. cbn in Ha. rewrite <- (step_status_lookup _ _ _ Hst) in Hcase.
  split_and!; [set_solver|reflexivity|by eexists|cbn; lia].
Qed.

(** At most one candidate per step, in the order of the definition. *)
Lemma candidates_sublist i now steps :
  (omap (candidate i now) steps).*1 `sublist_of` (ws_step_id <$> steps).
Proof.
  induction steps as [|s steps IH]; [done|]. cbn.
  destruct (candidate i now s) as [c|] eqn:Hc; [|by apply sublist_cons].
  apply candidate_some in Hc as (st & _ & -> & _). cbn. by apply sublist_skip.
Qed.

(** A wave the driver may begin: queued attempts of different steps. *)
Record good_wave (d : WorkflowDefinition) (i : WorkflowInstance) (cs : list (string * Z)) : Prop := {
  gw_some : cs <> [];
  gw_nodup : NoDup cs.*1;
  gw_queued c : c ∈ cs -> c.1 ∈ step_ids d /\ queued i c (step_status i c.1);
}.

Lemma steady_settles due d i now :
  valid_definition d -> (due <= now)%Z -> steady due d i ->
  omap (candidate i now) (wd_steps d) = [] ->
  forall s, s ∈ wd_steps d -> step_done i (ws_step_id s) = true.
Proof.
  intros Hv Hnow Hi Hnone s0 Hs0. destruct (step_done i (ws_step_id s0)) eqn:Hu0; [done|exfalso].
  destruct (first_undone i d Hv) as (s & Hs & Hu & Hdeps); [by exists s0|].
  destruct (sd_steps _ _ _ Hi s Hs) as ([st Hst] & Hq & _).
  rewrite (step_done_status _ _ (ex_intro _ _ Hst)) in Hu. apply bool_decide_eq_false in Hu.
  assert (candidate i now s = Some (ws_step_id s, st_attempts st + 1)%Z) as Hc.
  { unfold candidate. rewrite Hst. cbn. rewrite (step_status_lookup _ _ _ Hst) in Hq.
    rewrite (step_status_lookup _ _ _ Hst) in Hu.
    rewrite (proj2 (forallb_forall _ _)) by (intros dep Hdep; by apply Hdeps, list_elem_of_In).
    destruct (decide (st_status st = StepStatus.FAILED)) as [E|Hnf].
    - destruct (steady_retry _ _ _ _ _ Hi Hs Hst E) as (t & Ht & Hle). rewrite E, Ht. cbn.
      by rewrite (proj2 (Z.leb_le t now)) by lia.
    - rewrite bool_decide_true; [done|]. unfold _DONE in Hu.
      clear -Hq Hu Hnf. set_solver. }
  eapply not_elem_of_nil. rewrite <- Hnone. apply list_elem_of_omap. by exists s.
Qed.

Lemma plan_steady due d i now :
  valid_definition d -> (0 < wd_max_concurrent_steps d)%Z -> (due <= now)%Z -> steady due d i ->
  exists p, _plan i d now = Ok p /\ pl_budget_blocked_step p = None /\
    pl_approval_needed p = [] /\ pl_terminal_failure p = None /\
    (good_wave d i (pl_dispatch p) \/
     (pl_dispatch p = [] /\ pl_all_settled p = true /\
      forall s, s ∈ wd_steps d -> step_done i (ws_step_id s) = true)).
Proof.
  intros Hv Hmax Hnow Hi. pose proof (steady_knows _ _ _ Hv Hi) as Hk.
  destruct (plan_total i d now Hv Hk) as [p Hp]. exists p. split; [done|].
  apply plan_spec in Hp as (Hf & Hw & H). rewrite (steady_no_failure _ _ _ Hi) in Hf. cbn in Hf.
  rewrite (steady_no_wait _ _ _ _ Hnow Hi) in Hw. cbn in Hw. rewrite Hf in H. destruct H as [Ha H].
  rewrite filter_all_false in Ha.
  2:{ intros c Hc. by rewrite (steady_approved _ _ _ _ _ Hv Hi Hc). }
  cbn in Ha. rewrite Ha, bool_decide_false in H by tauto.
  assert (blocked_on_budget i d now = false) as Hb.
  { unfold blocked_on_budget, budget_out, remaining_budget_usd. by rewrite (sd_budget _ _ _ Hi). }
  rewrite Hb in H. destruct H as (Hbs & Hd & Hset). split_and!; try done.
  assert (dispatchable i d now = omap (candidate i now) (wd_steps d)) as Hdisp.
  { unfold dispatchable. rewrite (sd_escalations _ _ _ Hi). apply filter_all_true.
    intros c _. apply not_elem_of_nil. }
  pose proof (steady_no_running _ _ _ Hi) as Hrun.
  destruct (decide (pl_dispatch p = [])) as [He|Hne]; [right|left].
  - rewrite He in Hd. symmetry in Hd.
    pose proof (nothing_to_dispatch i d now Hmax (sd_escalations _ _ _ Hi) Hrun Hd) as Hnone.
    pose proof (steady_settles _ _ _ _ Hv Hnow Hi Hnone) as Hdone. split_and!; [done| |done].
    rewrite He, Hw, Hrun in Hset. cbn in Hset. destruct (pl_all_settled p); [done|].
    apply all_in_settled_false in Hset as (s & Hs & Hu). by rewrite Hdone in Hu.
  - constructor; [done| |].
    + eapply sublist_NoDup; [exact (vd_nodup _ Hv)|]. etrans; [|apply (candidates_sublist i now)].
      rewrite Hd, Hdisp, fmap_take. apply sublist_take.
    + intros c Hc. eapply steady_candidate; [done|]. rewrite Hd, Hdisp in Hc.
      eapply elem_of_sublist; [exact Hc|apply sublist_take].
Qed.

(** ** Progress *)

Lemma carried_open i j : carried i j -> open_esc j = open_esc i.
Proof. intros Hc. unfold open_esc. by rewrite (ca_escalations _ _ Hc). Qed.

Lemma carried_granted i j sid :
  carried i j -> _approval_granted j sid = _approval_granted i sid.
Proof. intros Hc. unfold _approval_granted. by rewrite (ca_escalations _ _ Hc). Qed.

(** What a drive can resume: as [steady], but steps may still be running in the
    hands of a worker that is gone. *)
Record resumable (due : time) (d : WorkflowDefinition) (i : WorkflowInstance) : Prop := {
  rs_steps s : s ∈ wd_steps d -> is_Some (wi_step_states i !! ws_step_id s) /\
    step_status i (ws_step_id s) ∈ [StepStatus.PENDING; StepStatus.READY; StepStatus.FAILED;
                                    StepStatus.COMPLETED; StepStatus.SKIPPED; StepStatus.RUNNING] /\
    (0 <= attempts_of i (ws_step_id s))%Z /\ retry_due due i (ws_step_id s);
  rs_escalations : open_esc i = [];
  rs_budget : wi_budget_limit_usd i = None;
  rs_approved s : s ∈ wd_steps d -> ws_requires_approval s = true ->
    _approval_granted i (ws_step_id s) = true;
}.

Lemma carried_due due i j sid : carried i j -> retry_due due i sid -> retry_due due j sid.
Proof. intros Hc Hd (Hf & ->)%(ca_failed _ _ Hc). by apply Hd. Qed.

Lemma running_status i sid : sid ∈ running_steps i <-> step_status i sid = StepStatus.RUNNING.
Proof.
  rewrite elem_of_running. split.
  - intros (st & Hst & <-). by apply step_status_lookup.
  - intros H. unfold step_status, step_or_new in H.
    destruct (wi_step_states i !! sid) as [st|]; [by exists st|discriminate H].
Qed.

(** Handing back what was running makes a copy steady. *)
Lemma resumable_steady due d i j :
  resumable due d i -> moved (running_steps i) StepStatus.READY i j -> steady due d j.
Proof.
  intros [Hs He Hb Ha] [Hc Hm]. constructor.
  - intros s Hin. destruct (Hs s Hin) as (Hk & Hq & Hat & Hd). split_and!.
    + by apply (ca_known _ _ Hc).
    + rewrite Hm. case_bool_decide as Hr; [by right; left|].
      rewrite running_status in Hr. set_solver.
    + by apply (ca_attempts _ _ Hc).
    + by eapply carried_due.
  - intros sid. rewrite Hm. case_bool_decide as Hr; [done|]. by rewrite running_status in Hr.
  - by rewrite (carried_open _ _ Hc).
  - by rewrite (ca_budget _ _ Hc).
  - intros s Hin Hr. rewrite (carried_granted _ _ _ Hc). by apply Ha.
Qed.

Lemma steady_moved due d i j ids :
  steady due d i -> moved ids StepStatus.COMPLETED i j -> steady due d j.
Proof.
  intros [Hs Hr He Hb Ha] [Hc Hm]. constructor.
  - intros s Hin. destruct (Hs s Hin) as (Hk & Hq & Hat & Hd). split_and!.
    + by apply (ca_known _ _ Hc).
    + rewrite Hm. case_bool_decide; [set_solver|done].
    + by apply (ca_attempts _ _ Hc).
    + by eapply carried_due.
  - intros sid. rewrite Hm. by case_bool_decide.
  - by rewrite (carried_open _ _ Hc).
  - by rewrite (ca_budget _ _ Hc).
  - intros s Hin Hq. rewrite (carried_granted _ _ _ Hc). by apply Ha.
Qed.

(** The variant of the loop: how many steps are not done. *)
Definition undone (d : WorkflowDefinition) (i : WorkflowInstance) : nat :=
  length (filter (fun s => step_done i (ws_step_id s) = false) (wd_steps d)).

Lemma length_filter_fewer {A} (P Q : A -> Prop) `{forall x, Decision (P x), forall x, Decision (Q x)}
    (l : list A) :
  (forall x, x ∈ l -> P x -> Q x) -> (length (filter P l) <= length (filter Q l))%nat /\
  ((exists x, x ∈ l /\ Q x /\ ~ P x) -> (length (filter P l) < length (filter Q l))%nat).
Proof.
  induction l as [|x l IH]; intros Hl; [split; [done|by intros (x & ?%not_elem_of_nil & _)]|].
  destruct IH as [IH1 IH2]; [intros y Hy; apply Hl; by right|]. rewrite !filter_cons.
  pose proof (Hl x ltac:(left)) as Hx.
  split; [destruct (decide (P x)), (decide (Q x)); cbn; try lia; tauto|].
  intros (y & [->|Hy]%elem_of_cons & HQ & HP).
  - rewrite decide_False, decide_True by done. cbn. lia.
  - assert (length (filter P l) < length (filter Q l))%nat by (apply IH2; by exists y).
    destruct (decide (P x)), (decide (Q x)); cbn; try lia; tauto.
Qed.

Lemma queued_not_done s :
  s ∈ [StepStatus.PENDING; StepStatus.READY; StepStatus.FAILED] -> bool_decide (s ∈ _DONE) = false.
Proof.
  intros Hs. apply (bool_decide_eq_true_2 _) in Hs.
  destruct s; try reflexivity; vm_compute in Hs; discriminate Hs.
Qed.

Lemma undone_wave due d i j cs :
  steady due d i -> steady due d j -> good_wave d i cs -> moved cs.*1 StepStatus.COMPLETED i j ->
  (undone d j < undone d i)%nat.
Proof.
  intros Hi Hj Hg [_ Hm]. unfold undone.
  assert (forall s, s ∈ wd_steps d -> step_done j (ws_step_id s) =
    bool_decide (ws_step_id s ∈ cs.*1) || step_done i (ws_step_id s)) as Hd.
  { intros s Hs. rewrite !step_done_status, Hm by by (apply Hi || apply Hj).
    by destruct (bool_decide (ws_step_id s ∈ cs.*1)). }
  apply length_filter_fewer.
  - intros s Hs. rewrite (Hd s Hs). by intros [_ ?]%orb_false_iff.
  - destruct cs as [|c cs]; [by destruct (gw_some _ _ _ Hg)|].
    destruct (gw_queued _ _ _ Hg c ltac:(left)) as [Hin (Hq & _ & Hk & _)].
    apply list_elem_of_fmap in Hin as (s & Heq & Hs). exists s. split_and!; [done|..].
    + rewrite <- Heq, step_done_status by done. by apply queued_not_done.
    + rewrite (Hd s Hs), <- Heq, bool_decide_true by (cbn; left). done.
Qed.
