(* ===== verification/Completion.v ===== *)
(** Liveness of the driver: a workflow whose attempts succeed runs to completion.

    The world is allowed to change under the driver as long as a predicate [live]
    survives: it grants that the lease guard passes, that the ledger records and
    that attempts succeed ([healthy]).  From a resumable copy, whatever a dead
    worker left running included, one drive then returns [COMPLETED], within the
    iterations the loop allows, and leaves a completed instance in the journal. *)

From stdpp Require Import base strings list gmap relations.
From Stdlib Require Import ZArith Lia.
From S2P Require Import Prelude Exceptions Values Enums Dag Definitions Instance Events Fold.
From S2P Require Import FoldTheory Tables EventStore EventStoreTheory Leasing Outbox Ports.
From S2P Require Import SideEffects Cost LlmClient Runners Journal Driver DriverTheory PlanTheory.
From S2P Require Import DriverProps WaveTheory Digests.

Import Fold SideEffects Cost Llm Leasing Driver.

(** ** Total triples

    From a state satisfying [P], [m] returns a value that satisfies [Q] with the
    state it leaves. *)
Definition returns {W E A} (P : W -> Prop) (m : M W E A) (Q : A -> W -> Prop) : Prop :=
  forall w, P w -> exists a w', m w = (Ok a, w') /\ Q a w'.

Section returns_rules.
Context {W E : Type}.

Lemma returns_ret {A} (P : W -> Prop) (a : A) (Q : A -> W -> Prop) :
  (forall w, P w -> Q a w) -> returns (E := E) P (mret a) Q.
Proof. intros HQ w Hw. exists a, w. by split; [|apply HQ]. Qed.

Lemma returns_bind {A B} (P : W -> Prop) (m : M W E A) (k : A -> M W E B) Q Q' :
  returns P m Q -> (forall a, returns (Q a) (k a) Q') -> returns P (mbind k m) Q'.
Proof.
  intros Hm Hk w Hw. destruct (Hm w Hw) as (a & w1 & Ha & Hq).
  destruct (Hk a w1 Hq) as (b & w2 & Hb & Hq2). exists b, w2. split; [|done].
  by rewrite (M_bind_step _ _ _ _ _ Ha).
Qed.

Lemma returns_weaken {A} (P P' : W -> Prop) (m : M W E A) (Q Q' : A -> W -> Prop) :
  returns P m Q -> (forall w, P' w -> P w) -> (forall a w, Q a w -> Q' a w) -> returns P' m Q'.
Proof.
  intros Hm HP HQ w Hw. destruct (Hm w (HP w Hw)) as (a & w1 & Ha & Hq). eauto.
Qed.

Lemma returns_pure {A} (P : W -> Prop) (phi : Prop) (m : M W E A) Q :
  (phi -> returns P m Q) -> returns (fun w => P w /\ phi) m Q.
Proof. intros Hm w [Hw Hphi]. by apply Hm. Qed.

Lemma returns_lift {A} (P : W -> Prop) (r : result E A) a :
  r = Ok a -> returns P (lift r) (fun x w => P w /\ x = a).
Proof. intros -> w Hw. by exists a, w. Qed.

Lemma returns_gets {A} (P : W -> Prop) (f : W -> A) :
  returns (E := E) P (gets f) (fun _ w => P w).
Proof. intros w Hw. by exists (f w), w. Qed.

Lemma M_bind_assoc {A B C} (m : M W E A) (f : A -> M W E B) (g : B -> M W E C) w :
  mbind g (mbind f m) w = mbind (fun a => mbind g (f a)) m w.
Proof. unfold mbind, M_bind. by destruct (m w) as [[a|e] w1]. Qed.

(** Regrouping the first two statements of a block. *)
Lemma returns_regroup {A B C} (P : W -> Prop) (m : M W E A) (f : A -> M W E B)
    (g : B -> M W E C) Q :
  returns P (mbind g (mbind f m)) Q -> returns P (mbind (fun a => mbind g (f a)) m) Q.
Proof.
  intros H w Hw. destruct (H w Hw) as (a & w' & Ha & Hq). exists a, w'. split; [|done].
  by rewrite <- M_bind_assoc.
Qed.

Lemma returns_mapM {A B} (P : W -> Prop) (f : A -> M W E B) (phi : A -> B -> Prop) l :
  (forall a, a ∈ l -> returns P (f a) (fun b w => P w /\ phi a b)) ->
  returns P (mapM_ f l) (fun bs w => P w /\ Forall2 phi l bs).
Proof.
  induction l as [|a l IH]; intros Hf; cbn [mapM_]; [by apply returns_ret|].
  eapply returns_bind; [apply Hf; left|]. intros b. apply returns_pure. intros Hb.
  eapply returns_bind; [apply IH; intros a' Ha; apply Hf; by right|]. intros bs.
  apply returns_pure. intros Hbs. apply returns_ret. intros w Hw. by split; [|constructor].
Qed.
End returns_rules.

Lemma mapM_fmap {W E A B C} (g : B -> M W E C) (f : A -> B) l :
  mapM_ g (f <$> l) = mapM_ (fun a => g (f a)) l.
Proof. induction l as [|a l IH]; [done|]. cbn. by rewrite IH. Qed.

Lemma all_replies_Ok {A} (l : list A) : all_replies (Ok <$> l) = Ok l.
Proof. induction l as [|a l IH]; [done|]. cbn. cbn in IH. by rewrite IH. Qed.

Lemma returns_gather {W A B} (P : W -> Prop) (f : A -> M W exn B) (phi : A -> B -> Prop) l :
  (forall a, a ∈ l -> returns P (f a) (fun b w => P w /\ phi a b)) ->
  returns P (gather (f <$> l)) (fun bs w => P w /\ Forall2 phi l bs).
Proof.
  intros Hf. unfold gather. rewrite mapM_fmap. eapply returns_bind.
  - apply (returns_mapM P _ (fun a r => exists b, r = Ok b /\ phi a b)).
    intros a Ha w Hw. destruct (Hf a Ha w Hw) as (b & w' & Hb & Hw' & Hphi).
    exists (Ok b), w'. unfold observe. rewrite Hb. split; [done|]. split; [done|by exists b].
  - intros rs. apply returns_pure. intros Hrs.
    assert (exists bs, rs = Ok <$> bs /\ Forall2 phi l bs) as (bs & -> & Hbs).
    { induction Hrs as [|a r l rs (b & -> & Hb) _ IH]; [by exists []|].
      destruct IH as (bs & -> & Hbs); [intros; apply Hf; by right|].
      exists (b :: bs). by split; [|constructor]. }
    eapply returns_weaken; [apply (returns_lift P _ bs), all_replies_Ok|done|].
    by intros bs' w [Hw ->].
Qed.

(** ** The effects of an attempt are declared *)

Section declared.
Context {Hh : Hashing} {Ps : PyStr} {W : Type} {Os : OutboxStore W} {Ck : Clock W}.

Lemma execute_declared reg iid tid sid name params pname w o w' :
  execute reg iid tid sid name params pname w = (Ok o, w') -> declared o.
Proof.
  unfold execute. intros (p & w1 & _ & H)%M_bind_Ok. cbn in H.
  apply M_bind_Ok in H as (row & w2 & _ & H).
  destruct (bool_decide (oe_status row = EffectStatus.EXECUTED)); [injection H as <- _; by left|].
  destruct (bool_decide _); [discriminate H|].
  apply M_bind_Ok in H as (r & w3 & _ & H). injection H as <- _. right. cbn.
  unfold guarantee_of. destruct (supports_idempotency_key _ _); set_solver.
Qed.

(** Whatever the runner does, it only adds declared effects. *)
Definition declares (s s' : W * StepContext) : Prop :=
  Forall declared (sc_effects (snd s)) -> Forall declared (sc_effects (snd s')).

#[export] Instance declares_preorder : PreOrder declares.
Proof. split; [intros s H; exact H|]. intros s1 s2 s3 H1 H2 H. exact (H2 (H1 H)). Qed.

Lemma declares_ctx f : (forall c, sc_effects (f c) = sc_effects c) -> moves declares (ctx_modify f).
Proof. intros Hf s _. split; [|done]. intros H. cbn. by rewrite Hf. Qed.

Lemma declares_on_fst {A} (m : M W exn A) : moves declares (on_fst m).
Proof.
  intros s _. split; [|by destruct (fst (on_fst m s))]. intros H. by rewrite on_fst_snd.
Qed.
Hint Resolve declares_ctx declares_on_fst : moves.

Lemma declares_effect wg name params pname : moves declares (execute_effect wg name params pname).
Proof.
  unfold execute_effect. destruct (wg_guard wg) as [reg|]; [|apply moves_raise, _].
  intros [w c] _. unfold mbind, M_bind, gets, on_fst. cbn.
  destruct (execute _ _ _ _ _ _ _ w) as [[o|e] w'] eqn:E; cbn; (split; [|done]); intros H; [|done].
  cbn. apply Forall_app. split; [done|]. apply Forall_singleton. by eapply execute_declared.
Qed.
Hint Resolve declares_effect : moves.

Lemma run_declares wg p : moves declares (run wg p).
Proof.
  induction p as [r|e| |e k IH|r k IH|name params pname k IH|a k IH]; cbn [run];
    unfold charge, request_review, llm, charge; walk; by apply declares_ctx.
Qed.

Lemma attempt_declared wg reg ctx t w out m charges effects rv recs w' :
  sc_effects ctx = [] ->
  run_attempt wg reg ctx t w = (Ok (StepSuccess out m charges effects rv recs), w') ->
  Forall declared effects.
Proof.
  intros Hc. unfold run_attempt. destruct (get_runner reg _) as [runner|]; [|done].
  destruct (run_declares wg (runner ctx) (w, ctx) I) as [H _].
  destruct (run wg (runner ctx) (w, ctx)) as [[r|e] [w1 c]]; cbn in *.
  - intros [= _ _ _ <- _ _ _]. apply H. cbn. by rewrite Hc.
  - unfold failure_of. repeat case_match; intros [=].
Qed.
End declared.

(** ** Driving to completion *)

Section completion.
Context {Hh : Hashing} {Ps : PyStr} {Cm : CMath} {W : Type}.
Context {Os : OutboxStore W} {Ck : Clock W} {Ig : IdGenerator W} {Ej : EventJournal W}
        {Ds : DefinitionSource W} {Bl : BudgetLedger W} {Dl : DeadLetters W} {Nt : Notifier W}.
Context {Jl : JournalLaws W} {Fr : JournalFrame W}.
Context (self : Wired W) (d : WorkflowDefinition) (lease : Lease) (guard : W -> res unit).

Abbreviation iid := (le_instance_id lease).
Abbreviation tid := (le_tenant_id lease).

(** What the world grants the drive while [live] holds, and that nothing the drive
    does to the world ends it: the clock is past [due], the guard passes, the ledger
    records, and every attempt at a step of the definition succeeds without asking
    for a review. *)
Record healthy (due : time) (live : W -> Prop) : Prop := {
  hl_clock w : live w -> (due <= now w)%Z;
  hl_guard w : live w -> guard w = Ok tt;
  hl_id w : live w -> live (snd (new_id w));
  hl_append drafts ver nw w : valid_bodies drafts ->
    live w -> live (snd (append_new iid tid drafts ver (Some guard) nw w));
  hl_spend day x w : live w -> exists u w', record_amount tid day x w = (Ok u, w') /\ live w';
  hl_attempt i s att inputs bv replay w : live w -> s ∈ wd_steps d ->
    exists out m charges effects recs w',
      run_attempt (wiring self) (dr_registry self)
        (step_context i s (ws_step_id s) (ws_agent_type s) att inputs bv replay)
        (ws_timeout_seconds s) w
      = (Ok (StepSuccess out m charges effects None recs), w') /\ live w';
}.

Context (Hself : wired_frame self) (due : time) (live : W -> Prop) (Hlive : healthy due live).
Context (Hvalid : valid_definition d) (Hmax : (0 < wd_max_concurrent_steps d)%Z).

(** The driver holds an exact copy in a live world. *)
Definition ready (i : WorkflowInstance) (w : W) : Prop := at_ iid tid d i w /\ live w.

Lemma ready_version i w : ready i w -> wi_version i = Z.of_nat (length (jlog w iid)).
Proof. intros [[_ _ _ Hf _] _]. by apply fold_version in Hf as [_ ->]. Qed.

Lemma event_returns i b :
  body_valid b = true ->
  returns (ready i) (_event i b) (fun e w => ready i w /\ is_draft iid tid b e).
Proof.
  intros Hb w [Hat Hl]. unfold _event, fresh_id, read_clock.
  pose proof (frame_id w) as Hs. pose proof (hl_id _ _ Hlive w Hl) as Hl'.
  destruct (new_id w) as [eid w1] eqn:Hid. cbn in Hs, Hl'. unfold mbind, M_bind, gets.
  rewrite Hid, Hb. eexists _, w1. split; [reflexivity|]. split; [split; [by eapply at_same|done]|].
  split_and!; cbn; [done|by eapply at_id|by eapply at_tenant|done].
Qed.

Lemma events_return i bodies :
  Forall (fun b => body_valid b = true) bodies ->
  returns (ready i) (mapM_ (_event i) bodies)
    (fun es w => ready i w /\ Forall2 (is_draft iid tid) bodies es).
Proof.
  intros Hb. apply returns_mapM. intros b Hin. rewrite Forall_forall in Hb. by apply event_returns, Hb.
Qed.

#[local] Instance anywhere : PreOrder (fun _ _ : W => True).
Proof. by split. Qed.

(** What the copy accepts extends the log to one that folds without a definition too. *)
Lemma bare_fold i w drafts j :
  ready i w -> spec_run (Some d) i (sequenced (wi_version i) drafts) = Some j ->
  exists k, Fold.fold (jlog w iid ++ sequenced (wi_version i) drafts) None None = Ok k /\
    wi_tenant_id k = tid.
Proof.
  intros Hw Hj. pose proof (ready_version i w Hw) as Hver. destruct Hw as [[Hok Hg Hn Hf Ht] _].
  destruct (fold_reseed _ None _ _ Hf) as (i0 & Hi0 & Hsame).
  destruct (same_progress_run _ None _ _ _ _ Hsame Hj) as (k & Hk & _).
  exists k. pose proof (fold_version _ _ _ _ Hi0) as [_ Hv0]. cbn in Hv0. split.
  - rewrite fold_app by (by right). rewrite Hi0. cbn [mbind result_bind]. apply fold_from_Ok.
    split; [|done]. by rewrite sequenced_numbers, length_sequenced, Hv0, Hver.
  - apply spec_run_identity in Hk as (_ & -> & _).
    apply fold_identity in Hf as (ev & l & Hl & _ & Hti), Hi0 as (ev' & l' & Hl' & _ & ->).
    rewrite Hl in Hl'. injection Hl' as <- _. by rewrite <- Hti.
Qed.

(** An append of accepted drafts goes through, and its copy is the one the drafts
    lead to. *)
Lemma append_returns i bodies drafts nw (post : WorkflowInstance -> Prop) :
  Forall2 (is_draft iid tid) bodies drafts -> Forall (fun b => creates b = false) bodies ->
  (forall evs, ev_body <$> evs = bodies -> exists j, spec_run (Some d) i evs = Some j /\ post j) ->
  returns (ready i) (_append i d drafts guard nw) (fun j w => ready j w /\ post j).
Proof.
  intros Hd Hb Hrun w Hw. destruct (decide (drafts = [])) as [->|Hne].
  { destruct (Hrun []) as (j & [= <-] & Hp); [by inversion Hd|]. by exists i, w. }
  destruct (Hrun (sequenced (wi_version i) drafts)) as (j & Hj & Hp).
  { clear -Hd. generalize (wi_version i) as n.
    induction Hd as [|b x bs xs (<- & _) _ IH]; intros n; [done|]. cbn. f_equal. apply IH. }
  destruct (bare_fold i w drafts j Hw Hj) as (k & Hk & Hkt).
  pose proof (ready_version i w Hw) as Hver. destruct Hw as [Hat Hl]. rewrite Hver in Hk.
  destruct (append_total_law w iid tid drafts (Some guard) nw k (at_ok _ _ _ _ _ Hat) Hne
    (drafts_valid _ _ _ _ Hd)
    (at_nonempty _ _ _ _ _ Hat)) as (w' & Ha); [|by apply (hl_guard _ _ Hlive)|done..|].
  { clear -Hd. induction Hd as [|b x bs xs (_ & ? & ? & _) _ IH]; by constructor. }
  rewrite <- Hver in Ha. exists j, w'.
  assert (_append i d drafts guard nw w = (Ok j, w')) as Heq.
  { unfold _append. rewrite (at_id _ _ _ _ _ Hat), (at_tenant _ _ _ _ _ Hat).
    destruct drafts as [|e es]; [done|]. rewrite (M_bind_step _ _ _ _ _ Ha). cbn [snd].
    unfold lift. f_equal. apply fold_from_Ok. split; [|done].
    by rewrite sequenced_numbers, length_sequenced. }
  split; [done|]. split; [|done]. split.
  - by apply (append_exact iid tid d guard i bodies drafts nw w).
  - pose proof (hl_append _ _ Hlive drafts (wi_version i) nw w (drafts_valid _ _ _ _ Hd) Hl) as H. by rewrite Ha in H.
Qed.

(** ** Status changes *)

Lemma status_run i frm to reason dd evs :
  wi_status i = frm -> wf_allowed frm to = true ->
  ev_body <$> evs = [InstanceStatusChanged frm to reason] ->
  exists j, spec_run dd i evs = Some j /\ wi_status j = to /\
    wi_step_states j = wi_step_states i /\ wi_escalations j = wi_escalations i /\
    wi_budget_limit_usd j = wi_budget_limit_usd i.
Proof.
  intros Hs Ha Hb. destruct evs as [|ev [|]]; try discriminate Hb. injection Hb as Hb.
  cbn [spec_run]. unfold spec_step. rewrite Hb. unfold accepts. cbn [wf_target step_target].
  rewrite <- Hs in Ha |- *. rewrite Ha, bool_decide_true by done. cbn [andb mbind option_bind].
  eexists. split; [done|]. unfold effect. cbn. unfold is_terminal. cbn. by case_bool_decide.
Qed.

Lemma resumable_frame i j :
  wi_step_states j = wi_step_states i -> wi_escalations j = wi_escalations i ->
  wi_budget_limit_usd j = wi_budget_limit_usd i -> resumable due d i -> resumable due d j.
Proof.
  intros Hs He Hb [H1 H2 H3 H4].
  assert (forall sid, step_or_new j sid = step_or_new i sid) as Hst
    by (intros sid; unfold step_or_new; by rewrite Hs).
  constructor.
  - intros s Hin. unfold retry_due, step_status, attempts_of, retry_of.
    rewrite Hs, Hst. by apply H1.
  - unfold open_esc. by rewrite He.
  - by rewrite Hb.
  - intros s Hin Hr. unfold _approval_granted. rewrite He. by apply H4.
Qed.

Lemma transition_returns i frm to reason nw :
  wi_status i = frm -> wf_allowed frm to = true -> resumable due d i ->
  returns (ready i) (_transition i d frm to guard reason nw)
    (fun j w => ready j w /\ wi_status j = to /\ resumable due d j /\ running_steps j = running_steps i).
Proof.
  intros Hs Ha Hr. unfold _transition. eapply returns_bind; [by apply event_returns|]. intros e.
  apply returns_pure. intros He. eapply append_returns.
  - apply one_draft, He.
  - apply plain_no_creates. by repeat constructor.
  - intros evs Hevs. destruct (status_run i frm to reason (Some d) evs Hs Ha Hevs)
      as (j & Hj & Hst & Hss & He' & Hb'). exists j. split; [done|]. split; [done|].
    split; [by eapply resumable_frame|]. unfold running_steps. by rewrite Hss.
Qed.

Lemma complete_returns i :
  wi_status i = WorkflowStatus.RUNNING ->
  returns (ready i) (_complete i d guard) (fun r w => r = report iid DriveResult.COMPLETED /\
    exists j, ready j w /\ wi_status j = WorkflowStatus.COMPLETED /\
      wi_step_states j = wi_step_states i).
Proof.
  intros Hs w Hw. pose proof (at_id _ _ _ _ _ (proj1 Hw)) as Hid. revert w Hw. unfold _complete.
  eapply returns_bind; [by apply event_returns|]. intros e1. apply returns_pure. intros H1.
  eapply returns_bind; [by apply event_returns|]. intros e2. apply returns_pure. intros H2.
  eapply returns_bind.
  - eapply (append_returns i) with (post := fun j => wi_status j = WorkflowStatus.COMPLETED /\
      wi_step_states j = wi_step_states i).
    + apply Forall2_cons. split; [exact H1|apply one_draft, H2].
    + apply plain_no_creates. by repeat constructor.
    + intros evs Hevs. destruct evs as [|ev1 [|ev2 [|]]]; try discriminate Hevs.
      injection Hevs as Hb1 Hb2.
      destruct (status_run i _ WorkflowStatus.COMPLETED None (Some d) [ev1] Hs eq_refl)
        as (j & Hj & Hst & Hss & _); [by cbn; rewrite Hb1|].
      change [ev1; ev2] with ([ev1] ++ [ev2]). rewrite spec_run_app, Hj. cbn.
      unfold spec_step. rewrite Hb2. unfold accepts. cbn. rewrite Hst. cbn.
      eexists. split; [done|]. unfold effect. cbn. rewrite <- Hss. by case_bool_decide.
  - intros j. apply returns_ret. intros w (Hw & Hj). rewrite Hid. split; [done|]. by exists j.
Qed.

(** ** A wave *)

Lemma start_returns i wid c :
  queued i c (step_status i c.1) ->
  returns (ready i) (start_drafts i wid c)
    (fun es w => ready i w /\ Forall2 (is_draft iid tid) (start_bodies i wid c) es).
Proof.
  intros (_ & _ & [st Hst] & Hc). unfold start_drafts, start_bodies. rewrite Hst.
  assert (forall pre bodies, Forall2 (is_draft iid tid) bodies pre ->
    returns (ready i) (e ← _event i (StepStarted c.1 c.2 wid None); mret (pre ++ [e]))
      (fun es w => ready i w /\
         Forall2 (is_draft iid tid) (bodies ++ [StepStarted c.1 c.2 wid None]) es)) as Hrest.
  { intros pre bodies Hpre. eapply returns_bind; [apply event_returns; by apply Z.leb_le|].
    intros e. apply returns_pure. intros He. apply returns_ret. intros w Hw. split; [done|].
    apply Forall2_app; [done|by apply one_draft]. }
  eapply returns_bind; [by apply returns_lift, get_step_ok|]. intros st'. apply returns_pure.
  intros ->. case_bool_decide; [|by apply Hrest].
  eapply returns_bind with (Q := fun es w => ready i w /\ Forall2 (is_draft iid tid)
    [StepStatusChanged c.1 StepStatus.PENDING StepStatus.READY (Some "dependencies satisfied")] es).
  - eapply returns_bind; [by apply event_returns|]. intros e. apply returns_pure. intros He.
    apply returns_ret. intros w Hw. split; [done|by apply one_draft].
  - intros pre. apply returns_pure. by apply Hrest.
Qed.

Lemma attempt_returns i bv c :
  c.1 ∈ step_ids d -> is_Some (wi_step_states i !! c.1) -> (1 <= c.2)%Z ->
  returns (ready i) (one_attempt self i d bv c)
    (fun r w => ready i w /\ (ar_step_id r = c.1 /\ succeeded r)).
Proof.
  intros (s & Heq & Hs)%list_elem_of_fmap [st Hst] Hc. unfold one_attempt. rewrite Heq in *.
  eapply returns_bind; [apply returns_lift, def_step_in; [apply vd_nodup, Hvalid|exact Hs]|].
  intros s'. apply returns_pure. intros ->.
  eapply returns_bind; [by apply returns_lift, get_step_ok|]. intros st'. apply returns_pure.
  intros ->. eapply returns_bind with (Q := fun o w => ready i w /\
    exists out m charges effects recs, o = StepSuccess out m charges effects None recs /\
      Forall declared effects).
  - intros w [Hat Hl].
    destruct (hl_attempt _ _ Hlive i s c.2 (_resolve_inputs i s) bv (st_recorded_llm_calls st) w Hl Hs)
      as (out & m & charges & effects & recs & w' & Hrun & Hl').
    eexists _, w'. split; [exact Hrun|]. split.
    + split; [|done]. eapply at_same; [|exact Hat].
      destruct (keeps_run_attempt self Hself (wiring self) (dr_registry self)
        (step_context i s (ws_step_id s) (ws_agent_type s) c.2 (_resolve_inputs i s) bv
           (st_recorded_llm_calls st)) (ws_timeout_seconds s)) with (w := w) as [Hsm _];
        [by left|by left|done|]. by rewrite Hrun in Hsm.
    + exists out, m, charges, effects, recs. split; [done|].
      eapply attempt_declared; [|exact Hrun]. done.
  - intros o. apply returns_pure. intros (out & m & charges & effects & recs & -> & He).
    apply returns_ret. intros w Hw. split; [done|]. split; [done|].
    exists out, m, charges, effects, recs. done.
Qed.

Lemma spend_returns i results :
  returns (ready i) (record_wave_spend self i results) (fun _ w => ready i w).
Proof.
  intros w [Hat Hl]. pose proof (keeps_spend self i results w I) as [Hs _]. revert Hs.
  unfold record_wave_spend. destruct (dr_budget self) as [limit|]; [|by exists tt, w].
  destruct (fltb _ _); [|by exists tt, w]. unfold record_spend, mbind, M_bind, read_clock, gets.
  cbn beta iota.
  destruct (hl_spend _ _ Hlive (date_of (now w))
    (fsum (results ≫= fun r => ce_amount_usd <$> outcome_charges (ar_outcome r))) w Hl)
    as (u & w' & Hr & Hl'). rewrite (at_tenant _ _ _ _ _ Hat).
  match goal with |- same _ (snd ?t) -> _ => replace t with (Ok u : res unit, w') end.
  - intros Hs. exists u, w'. split; [done|]. split; [by eapply at_same|done].
Qed.

(** The results of a wave that went well. *)
Definition all_succeeded (cs : list (string * Z)) (results : list attempt_result) : Prop :=
  Forall2 (fun c r => ar_step_id r = c.1 /\ succeeded r) cs results.

Lemma all_succeeded_ids cs results : all_succeeded cs results -> ar_step_id <$> results = cs.*1.
Proof. induction 1 as [|c r cs rs [H _] _ IH]; [done|]. cbn. by rewrite H, IH. Qed.

Lemma all_succeeded_each cs results r : all_succeeded cs results -> r ∈ results -> succeeded r.
Proof.
  intros Ha (n & Hr)%list_elem_of_lookup.
  by destruct (Forall2_lookup_r _ _ _ _ _ Ha Hr) as (c & _ & _ & ?).
Qed.

Lemma no_retries cs results :
  all_succeeded cs results -> filter (fun r => retries r = true) results = [].
Proof.
  intros Ha. apply filter_all_false. intros r Hr.
  destruct (all_succeeded_each _ _ _ Ha Hr) as (? & ? & ? & ? & ? & Ho & _).
  unfold retries. by rewrite Ho.
Qed.

Lemma no_reviews cs results : all_succeeded cs results -> reviews_of results = [].
Proof.
  intros Ha. apply omap_none. intros r Hr.
  destruct (all_succeeded_each _ _ _ Ha Hr) as (? & ? & ? & ? & ? & Ho & _). by rewrite Ho.
Qed.

(** Beginning the attempts of a good wave. *)
Lemma begin_returns i now p :
  wi_status i = WorkflowStatus.RUNNING -> _plan i d now = Ok p ->
  pl_terminal_failure p = None -> good_wave d i (pl_dispatch p) ->
  returns (ready i)
    (started ← mapM_ (start_drafts i (le_worker_id lease)) (pl_dispatch p);
     _append i d (mjoin started) guard None)
    (fun j w => ready j w /\ moved (pl_dispatch p).*1 StepStatus.RUNNING i j).
Proof.
  intros Hs Hp Hf Hg. eapply returns_bind.
  { apply returns_mapM. intros c Hc. apply start_returns. by apply (gw_queued _ _ _ Hg). }
  intros started. apply returns_pure. intros Hst. apply Forall2_join in Hst.
  eapply append_returns; [exact Hst| |].
  - apply starts_no_creates.
  - apply (runs_blocks (Some d) fst (start_bodies i (le_worker_id lease)) (queued i)).
    + apply (gw_nodup _ _ _ Hg).
    + intros c j _. apply start_block.
    + intros c Hc. by apply (gw_queued _ _ _ Hg).
Qed.

(** Ending them, once they all succeeded. *)
Lemma end_returns j cs results :
  NoDup cs.*1 -> all_succeeded cs results ->
  (forall sid, sid ∈ cs.*1 -> step_status j sid = StepStatus.RUNNING) ->
  returns (ready j)
    (drafts ← mapM_ (_event j) (results ≫= outcome_bodies); _append j d drafts guard None)
    (fun k w => ready k w /\ moved cs.*1 StepStatus.COMPLETED j k).
Proof.
  intros Hnd Ha Hrun. rewrite <- (all_succeeded_ids _ _ Ha) in *. eapply returns_bind.
  { apply events_return, Forall_bind, Forall_forall. intros r Hr.
    apply outcome_valid. by eapply all_succeeded_each. }
  intros drafts. apply returns_pure. intros Hd. eapply append_returns; [exact Hd| |].
  - apply plain_no_creates, Forall_bind, Forall_forall. intros r Hr.
    apply outcome_begins_nothing. by eapply all_succeeded_each.
  - apply (runs_blocks (Some d) ar_step_id outcome_bodies (fun _ s => s = StepStatus.RUNNING));
      [done| |].
    + intros r k Hr. apply outcome_block. by eapply all_succeeded_each.
    + intros r Hr. by apply Hrun, list_elem_of_fmap_2.
Qed.

Lemma wave_returns i now p :
  wi_status i = WorkflowStatus.RUNNING -> _plan i d now = Ok p ->
  pl_terminal_failure p = None -> good_wave d i (pl_dispatch p) ->
  returns (ready i) (_dispatch_wave self i d (pl_dispatch p) lease guard)
    (fun j w => ready j w /\ moved (pl_dispatch p).*1 StepStatus.COMPLETED i j).
Proof.
  intros Hs Hp Hf Hg. unfold _dispatch_wave. apply returns_regroup.
  eapply returns_bind; [by eapply begin_returns|]. intros j. apply returns_pure. intros Hj.
  eapply returns_bind with (Q := fun _ w => ready j w).
  { unfold budget_view. destruct (dr_budget self); [|by apply returns_ret].
    unfold read_clock. eapply returns_bind; [apply returns_gets|]. intros t. apply returns_gets. }
  intros bv. eapply returns_bind.
  { apply (returns_gather (ready j) _ (fun c r => ar_step_id r = c.1 /\ succeeded r)).
    intros c Hc. destruct (gw_queued _ _ _ Hg c Hc) as (Hin & _ & _ & Hk & Hatt).
    apply attempt_returns; [done|by apply (ca_known _ _ (mv_carried _ _ _ _ Hj))|done]. }
  intros results. apply returns_pure. intros Ha. fold (all_succeeded (pl_dispatch p) results) in Ha.
  rewrite (no_retries _ _ Ha), (no_reviews _ _ Ha). apply returns_regroup.
  eapply returns_bind.
  { eapply end_returns; [apply (gw_nodup _ _ _ Hg)|exact Ha|].
    intros sid Hsid. by rewrite (mv_status _ _ _ _ Hj), bool_decide_true. }
  intros k. apply returns_pure. intros Hk.
  eapply returns_bind; [apply spend_returns|]. intros ?.
  eapply returns_bind; [apply returns_gets|]. intros now'.
  apply (returns_ret (ready k) k). intros w Hw. split; [done|]. by eapply moved_over.
Qed.

(** ** The loop *)

(** What a drive that went through leaves. *)
Definition finished (r : DriveReport) (w : W) : Prop :=
  r = report iid DriveResult.COMPLETED /\ exists j, ready j w /\
    wi_status j = WorkflowStatus.COMPLETED /\
    forall s, s ∈ wd_steps d -> step_done j (ws_step_id s) = true.

(** One turn: another wave, with fewer steps to do after it, or the end. *)
Lemma iteration_returns i :
  wi_status i = WorkflowStatus.RUNNING -> steady due d i ->
  returns (ready i) (iteration self i d lease guard) (fun next w =>
    match next with
    | inl j => ready j w /\ wi_status j = WorkflowStatus.RUNNING /\ steady due d j /\
               (undone d j < undone d i)%nat
    | inr r => finished r w
    end).
Proof.
  intros Hs Hi w Hw. unfold iteration. rewrite Hs. cbn [resting].
  unfold mbind at 1, M_bind at 1, read_clock, gets.
  pose proof (hl_clock _ _ Hlive w (proj2 Hw)) as Hnow.
  destruct (plan_steady due d i (now w) Hvalid Hmax Hnow Hi) as (p & Hp & Hb & Ha & Hf & Hcase).
  rewrite Hp. unfold mbind at 1, M_bind at 1, lift. unfold act_on_plan. rewrite Hb, Ha, Hf.
  destruct Hcase as [Hg|(Hd & Hset & Hdone)].
  - destruct (pl_dispatch p) as [|c cs] eqn:E; [by destruct (gw_some _ _ _ Hg)|]. rewrite <- E in *.
    revert w Hw Hnow Hp. intros w Hw Hnow Hp.
    destruct (wave_returns i (now w) p Hs Hp Hf Hg w Hw) as (j & w' & Hj & Hr & Hm).
    rewrite (M_bind_step _ _ _ _ _ Hj). exists (inl j), w'. split; [done|].
    pose proof (steady_moved _ _ _ _ _ Hi Hm) as Hsj. split; [done|].
    split; [by rewrite (ca_status _ _ (mv_carried _ _ _ _ Hm))|]. split; [done|].
    by eapply undone_wave.
  - rewrite Hd, Hset. destruct (complete_returns i Hs w Hw) as (r & w' & Hr & -> & j & Hj & Hst & Hss).
    rewrite (M_bind_step _ _ _ _ _ Hr). eexists (inr _), w'. split; [done|]. split; [done|].
    exists j. split; [done|]. split; [done|]. intros s Hin. unfold step_done. rewrite Hss.
    by apply Hdone.
Qed.

(** The number of steps left bounds the turns. *)
Lemma loop_returns fuel i :
  (undone d i < fuel)%nat -> wi_status i = WorkflowStatus.RUNNING -> steady due d i ->
  returns (ready i) (run_loop self fuel i d lease guard) finished.
Proof.
  revert i. induction fuel as [|fuel IH]; intros i Hn Hs Hi; [lia|]. cbn [run_loop].
  eapply returns_bind; [by apply iteration_returns|]. intros [j|r].
  - intros w (Hw & Hsj & Hj & Hlt). apply (IH j); [lia|done..].
  - by apply returns_ret.
Qed.

Lemma steady_resumable i : steady due d i -> resumable due d i.
Proof.
  intros [Hs Hr He Hb Ha]. constructor; [|done..]. intros s Hin.
  destruct (Hs s Hin) as (Hk & Hq & Hat & Hd). split_and!; [done| |done..].
  clear -Hq. set_solver.
Qed.

Lemma undone_bound i : (undone d i <= length (wd_steps d))%nat.
Proof. unfold undone. apply length_filter. Qed.

(** From a status the loop leaves for [RUNNING], one turn more. *)
Lemma run_returns fuel i :
  (S (length (wd_steps d)) < fuel)%nat ->
  wi_status i ∈ [WorkflowStatus.PENDING; WorkflowStatus.RUNNING; WorkflowStatus.RETRYING] ->
  steady due d i -> returns (ready i) (run_loop self fuel i d lease guard) finished.
Proof.
  intros Hn Hs Hi. pose proof (undone_bound i) as Hu.
  assert (forall frm, wi_status i = frm -> wf_allowed frm WorkflowStatus.RUNNING = true ->
    returns (ready i) (next ← (j ← _transition i d frm WorkflowStatus.RUNNING guard None None;
                               mret (inl j));
       match next with inl j => run_loop self (pred fuel) j d lease guard | inr r => mret r end)
      finished) as Hgo.
  { intros frm Hf Ha. eapply returns_bind.
    { eapply returns_bind; [by apply transition_returns, steady_resumable|]. intros j.
      apply (returns_ret _ _ (fun next w => exists j, next = inl j /\ ready j w /\
        wi_status j = WorkflowStatus.RUNNING /\ resumable due d j /\
        running_steps j = running_steps i)). intros w Hj. by exists j. }
    intros next w (j & -> & Hw & Hsj & Hrj & Hrun).
    apply (loop_returns (pred fuel) j); [pose proof (undone_bound j); lia|done| |done].
    eapply resumable_steady; [exact Hrj|]. rewrite Hrun, (steady_no_running _ _ _ Hi).
    apply moved_nil. }
  destruct fuel as [|fuel]; [lia|]. cbn [run_loop pred] in *.
  assert (wi_status i = WorkflowStatus.PENDING \/ wi_status i = WorkflowStatus.RUNNING \/
    wi_status i = WorkflowStatus.RETRYING) as [E|[E|E]] by (clear -Hs; set_solver).
  - unfold iteration. rewrite E. by apply Hgo.
  - apply (loop_returns (S fuel) i); [lia|done..].
  - unfold iteration. rewrite E. by apply Hgo.
Qed.

(** ** The whole drive *)

Lemma recover_returns i :
  returns (ready i) (_recover_in_flight i d guard)
    (fun j w => ready j w /\ moved (running_steps i) StepStatus.READY i j).
Proof.
  unfold _recover_in_flight. destruct (running_steps i) as [|s stale] eqn:E.
  { apply (returns_ret (ready i) i). intros w Hw. split; [done|apply moved_nil]. }
  rewrite <- E. eapply returns_bind.
  { apply (returns_mapM (ready i) _ (fun sid => is_draft iid tid (hand_back_body sid))).
    intros sid _. by apply event_returns. }
  intros drafts. apply returns_pure. intros Hd. apply Forall2_map_l in Hd.
  eapply append_returns; [exact Hd| |].
  - apply plain_no_creates, Forall_fmap, Forall_forall. by intros sid _.
  - assert (hand_back_body <$> running_steps i = running_steps i ≫= (fun sid => [hand_back_body sid]))
      as -> by (generalize (running_steps i) as l; induction l as [|x l IH]; [done|]; cbn; by f_equal).
    pose proof (runs_blocks (Some d) id (fun sid => [hand_back_body sid])
      (fun _ st => st = StepStatus.RUNNING) StepStatus.READY (running_steps i) i) as Hruns.
    rewrite list_fmap_id in Hruns. apply Hruns.
    + apply NoDup_running.
    + intros sid k _. apply recover_block.
    + intros sid. apply running_status.
Qed.

Lemma drive_with_returns i :
  (length (wd_steps d) <= 998)%nat ->
  wi_status i ∈ [WorkflowStatus.PENDING; WorkflowStatus.RUNNING; WorkflowStatus.RETRYING] ->
  resumable due d i ->
  returns (ready i) (i ← _recover_in_flight i d guard; _run self i d lease guard) finished.
Proof.
  intros Hn Hs Hi. eapply returns_bind; [apply recover_returns|]. intros j. apply returns_pure.
  intros Hj. unfold _run, _MAX_DRIVE_ITERATIONS. apply run_returns; [lia| |].
  - by rewrite (ca_status _ _ (mv_carried _ _ _ _ Hj)).
  - by eapply resumable_steady.
Qed.

(** [drive] itself, from what the journal holds. *)
Lemma drive_finishes i w :
  (length (wd_steps d) <= 998)%nat -> journal_ok w -> one_genesis (jlog w iid) -> live w ->
  get_definition (le_workflow_id lease) (le_workflow_version lease) tid w = (Ok (Some d), w) ->
  get_instance iid tid (Some d) w = (Ok (Some i), w) ->
  wi_status i ∈ [WorkflowStatus.PENDING; WorkflowStatus.RUNNING; WorkflowStatus.RETRYING] ->
  resumable due d i ->
  exists r w', drive self lease guard w = (Ok r, w') /\ finished r w'.
Proof.
  intros Hn Hok Hg Hl Hdef Hget Hs Hr.
  destruct (read_at iid tid d w Hok Hg) as (o & Hget' & Hat).
  rewrite Hget in Hget'. injection Hget' as <-.
  destruct (drive_with_returns i Hn Hs Hr w) as (r & w' & Hrun & Hf); [by split|].
  exists r, w'. split; [|done]. unfold drive. rewrite (M_bind_step _ _ _ _ _ Hdef).
  unfold drive_with. rewrite (M_bind_step _ _ _ _ _ Hget). unfold try_except, try_catch.
  by rewrite Hrun.
Qed.

Lemma at_get i w : at_ iid tid d i w -> get_instance iid tid (Some d) w = (Ok (Some i), w).
Proof.
  intros [Hok Hg _ Hf Ht]. destruct (get_law w iid tid (Some d) Hok Hg) as (o & -> & ->).
  by rewrite Hf, bool_decide_true.
Qed.
End completion.

(** C5: Workflows whose attempts succeed complete.  Take a valid definition of at most
    998 steps with some concurrency, and an instance that is pending, running or
    retrying, whose steps are known, queued, done, due for a retry, or left running by
    a worker that is gone, with its approvals given, no open escalation and no budget.
    If the lease guard passes, the ledger records and the attempts succeed for as
    long as a predicate of the world holds that the drive's own writes do not end,
    then the drive returns [COMPLETED], and the journal then holds the instance
    completed, with every step completed or skipped. *)
Theorem drive_completes {Hh : Hashing} {Ps : PyStr} {Cm : CMath} {W : Type}
    {Os : OutboxStore W} {Ck : Clock W} {Ig : IdGenerator W} {Ej : EventJournal W}
    {Ds : DefinitionSource W} {Bl : BudgetLedger W} {Dl : DeadLetters W} {Nt : Notifier W}
    {Jl : JournalLaws W} {Fr : JournalFrame W}
    (self : Wired W) d lease guard due live i w :
  wired_frame self -> healthy self d lease guard due live ->
  valid_definition d -> (0 < wd_max_concurrent_steps d)%Z -> (length (wd_steps d) <= 998)%nat ->
  journal_ok w -> one_genesis (jlog w (le_instance_id lease)) -> live w ->
  get_definition (le_workflow_id lease) (le_workflow_version lease) (le_tenant_id lease) w
    = (Ok (Some d), w) ->
  get_instance (le_instance_id lease) (le_tenant_id lease) (Some d) w = (Ok (Some i), w) ->
  wi_status i ∈ [WorkflowStatus.PENDING; WorkflowStatus.RUNNING; WorkflowStatus.RETRYING] ->
  resumable due d i ->
  exists w' j,
    drive self lease guard w = (Ok (report (le_instance_id lease) DriveResult.COMPLETED), w') /\
    get_instance (le_instance_id lease) (le_tenant_id lease) (Some d) w' = (Ok (Some j), w') /\
    wi_status j = WorkflowStatus.COMPLETED /\
    forall s, s ∈ wd_steps d -> step_done j (ws_step_id s) = true.
Proof.
  intros Hself Hlive Hv Hmax Hn Hok Hg Hl Hdef Hget Hs Hr.
  destruct (drive_finishes self d lease guard Hself due live Hlive Hv Hmax i w)
    as (r & w' & Hd & -> & j & [Hj _] & Hst & Hdone); [done..|].
  exists w', j. split_and!; [done|by apply at_get|done|done].
Qed.
