(* ===== verification/Escalation.v ===== *)
(** Human-in-the-loop ([core/escalation.py]): the escalation read store and the
    controller that resolves escalations or expires them by their deadline. *)

From stdpp Require Import base strings list gmap pretty.
From Stdlib Require Import ZArith.
From S2P Require Import Prelude Exceptions Values Enums Definitions Instance Events Fold Tables.
From S2P Require Import Ports Journal.

Module Escalation.

Record PendingEscalation := {
  pe_escalation_id : string;
  pe_instance_id : string;
  pe_tenant_id : string;
  pe_step_id : string;
  pe_reason : string;
  pe_recommendation : string;
  pe_confidence : float;
  pe_options : list dict;
  pe_auto_action : string;
  pe_deadline : option time;
  pe_status : string;
  pe_created_at : time;
}.

(** [EscalationReason]: the reasons the engine knows. *)
Module EscalationReason.
Inductive t :=
| LOW_CONFIDENCE | COST_THRESHOLD | SENSITIVE_ACTION | MAX_RETRIES | EXPLICIT_APPROVAL
| ANOMALY_DETECTED | COMPENSATION_FAILED.

Definition value (r : t) : string :=
  match r with
  | LOW_CONFIDENCE => "low_confidence"
  | COST_THRESHOLD => "cost_threshold"
  | SENSITIVE_ACTION => "sensitive_action"
  | MAX_RETRIES => "max_retries"
  | EXPLICIT_APPROVAL => "explicit_approval"
  | ANOMALY_DETECTED => "anomaly_detected"
  | COMPENSATION_FAILED => "compensation_failed"
  end.
End EscalationReason.

(** [EscalationReadStore] *)
Class EscalationReadStore (W : Type) := {
  esc_get : string -> W -> option PendingEscalation;
  esc_list_pending : string -> Z -> W -> res (list PendingEscalation);
  esc_due : time -> Z -> W -> res (list PendingEscalation);
}.

Section pg.
Context {C : Codec}.

Definition _row_to_pending (r : EscalationRow) : PendingEscalation := {|
  pe_escalation_id := escr_escalation_id r;
  pe_instance_id := escr_instance_id r;
  pe_tenant_id := escr_tenant_id r;
  pe_step_id := escr_step_id r;
  pe_reason := escr_reason r;
  pe_recommendation := escr_recommendation r;
  pe_confidence := escr_confidence r;
  pe_options := escr_options r;
  pe_auto_action := escr_auto_action r;
  pe_deadline := escr_deadline r;
  pe_status := escr_status r;
  pe_created_at := escr_created_at r |}.

(** [.limit(n)]: a negative limit is refused by the database. *)
Definition sql_limit {A} (limit : Z) (l : list A) : res (list A) :=
  if (limit <? 0)%Z then Err (Exn (PyExc "DBAPIError") "LIMIT must not be negative")
  else Ok (take (Z.to_nat limit) l).

Definition escalation_rows (db : DB) : list EscalationRow := snd <$> map_to_list (db_escalations db).

Definition pg_list_pending (tenant_id : string) (limit : Z) (db : DB)
    : res (list PendingEscalation) :=
  (fun rows : list EscalationRow => _row_to_pending <$> rows) <$> sql_limit limit (order_by escr_created_at
    (filter (fun r => escr_tenant_id r = tenant_id /\ escr_status r = "pending")
       (escalation_rows db))).

(** Rows without a deadline are never due. *)
Definition is_due (now : time) (r : EscalationRow) : bool :=
  bool_decide (escr_status r = "pending") &&
  match escr_deadline r with Some t => (t <=? now)%Z | None => false end.

Definition pg_due (now : time) (limit : Z) (db : DB) : res (list PendingEscalation) :=
  (fun rows : list EscalationRow => _row_to_pending <$> rows) <$> sql_limit limit (order_by (fun r => default 0%Z (escr_deadline r))
    (filter (fun r => is_due now r = true) (escalation_rows db))).

#[export] Instance PgEscalationReadStore : EscalationReadStore DB := {|
  esc_get eid db := _row_to_pending <$> db_escalations db !! eid;
  esc_list_pending := pg_list_pending;
  esc_due := pg_due |}.
End pg.

Section controller.
Context {W : Type} {Ck : Clock W} {Ig : IdGenerator W} {Ej : EventJournal W}
        {Rs : EscalationReadStore W} {Nt : Notifier W}.
Context (has_notifier : bool).

Abbreviation D := (M W exn).

Definition list_pending (tenant_id : string) (limit : Z) : D (list PendingEscalation) := fun w =>
  (esc_list_pending tenant_id limit w, w).

Definition get (escalation_id tenant_id : string) : D (option PendingEscalation) :=
  gets (fun w => match esc_get escalation_id w with
                 | Some esc => if bool_decide (pe_tenant_id esc = tenant_id) then Some esc else None
                 | None => None
                 end).

(** [deadline.isoformat()] is left to the parameter [iso]. *)
Definition notify_raised (iso : time -> string) (escalation_id tenant_id : string) : D unit :=
  if has_notifier then
    oesc ← get escalation_id tenant_id;
    match oesc with
    | None => mret tt
    | Some esc =>
        notify {|
          no_channel := "escalations";
          no_subject := "Approval needed: " +:+ pe_reason esc +:+ " on " +:+ pe_instance_id esc;
          no_body := if bool_decide (pe_recommendation esc = "")
                     then "A workflow step is waiting for a human." else pe_recommendation esc;
          no_metadata := <["instance_id" := JStr (pe_instance_id esc)]>
            (<["escalation_id" := JStr (pe_escalation_id esc)]>
            (<["step_id" := JStr (pe_step_id esc)]>
            {["deadline" := match pe_deadline esc with
                            | Some t => JStr (iso t) | None => JNull end]})) |}
    end
  else mret tt.

Definition _load (escalation_id tenant_id : string) : D (PendingEscalation * WorkflowInstance) :=
  oesc ← get escalation_id tenant_id;
  match oesc with
  | None => raise (Exn ConfigurationError ("escalation " +:+ escalation_id +:+ " not found"))
  | Some esc =>
      if negb (bool_decide (pe_status esc = "pending"))
      then raise (Exn ConfigurationError ("escalation " +:+ escalation_id +:+ " is "
                    +:+ pe_status esc))
      else
        oi ← get_instance (pe_instance_id esc) tenant_id None;
        match oi with
        | None => raise (Exn ConfigurationError ("instance " +:+ pe_instance_id esc
                           +:+ " not found"))
        | Some i =>
            if negb (bool_decide (wi_status i = WorkflowStatus.WAITING_APPROVAL))
            then raise (Exn ConfigurationError ("instance " +:+ pe_instance_id esc +:+ " is "
                          +:+ WorkflowStatus.value (wi_status i) +:+ ", not waiting_approval"))
            else mret (esc, i)
        end
  end.

(** Events of the controller carry the time of the decision. *)
Definition _event (i : WorkflowInstance) (now : time) (b : event_body) : D event :=
  eid ← fresh_id;
  if body_valid b then
    mret {| ev_event_id := eid; ev_instance_id := wi_instance_id i;
            ev_tenant_id := wi_tenant_id i; ev_sequence := 1; ev_occurred_at := now;
            ev_body := b |}
  else raise (Exn (PyExc "ValidationError") (event_type b)).

Definition _wf_body (i : WorkflowInstance) (to : WorkflowStatus) (reason : string) : event_body :=
  InstanceStatusChanged (wi_status i) to (Some reason).

(** The transitions that a decision implies. *)
Definition transition_bodies (i : WorkflowInstance) (step_id resolution actor : string)
    : list event_body :=
  match (if bool_decide (step_id = "") then None else wi_step_states i !! step_id) with
  | Some st =>
      if bool_decide (resolution ∈ ["approve"; "modify"]) then
        [ StepStatusChanged step_id (st_status st)
            match st_output st with Some _ => StepStatus.COMPLETED | None => StepStatus.READY end
            (Some ("approved by " +:+ actor));
          _wf_body i WorkflowStatus.RUNNING ("resumed by " +:+ actor) ]
      else if bool_decide (resolution = "skip") then
        [ StepStatusChanged step_id (st_status st) StepStatus.SKIPPED
            (Some ("skipped by " +:+ actor));
          _wf_body i WorkflowStatus.RUNNING ("resumed by " +:+ actor) ]
      else [ _wf_body i WorkflowStatus.FAILED ("aborted by " +:+ actor) ]
  | None =>
      [ _wf_body i (if bool_decide (resolution ∈ ["approve"; "modify"; "skip"])
                    then WorkflowStatus.ROLLED_BACK else WorkflowStatus.FAILED)
          (resolution +:+ " by " +:+ actor) ]
  end.

Definition _transition_events (i : WorkflowInstance) (now : time)
    (step_id resolution actor : string) : D (list event) :=
  mapM_ (_event i now) (transition_bodies i step_id resolution actor).

Definition budget_bodies (escalation_id resolved_by : string) (new_budget_usd : option float)
    : list event_body :=
  match new_budget_usd with
  | Some b => [WorkflowBudgetAdjusted (Some b) resolved_by
                 (Some ("escalation " +:+ escalation_id +:+ " resolved"))]
  | None => []
  end.

Definition resolve (escalation_id tenant_id resolution resolved_by : string)
    (modified_context : option dict) (new_budget_usd : option float) : D string :=
  p ← _load escalation_id tenant_id;
  let '(esc, i) := p in
  now ← read_clock;
  e ← _event i now (EscalationResolved escalation_id (pe_step_id esc) resolution resolved_by
                      modified_context);
  b ← mapM_ (_event i now) (budget_bodies escalation_id resolved_by new_budget_usd);
  ts ← _transition_events i now (pe_step_id esc) resolution resolved_by;
  _ ← append_new (pe_instance_id esc) tenant_id (e :: b ++ ts) (wi_version i) None None;
  mret (pe_instance_id esc).

Definition auto_resolution (auto_action : string) : string :=
  if bool_decide (auto_action ∈ ["approve"; "skip"; "abort"]) then auto_action else "abort".

(** One due escalation: its id when the timeout was recorded. *)
Definition expire_one (now : time) (row : PendingEscalation) : D (list string) :=
  oi ← get_instance (pe_instance_id row) (pe_tenant_id row) None;
  match oi with
  | None => mret []
  | Some i =>
      if negb (bool_decide (wi_status i = WorkflowStatus.WAITING_APPROVAL)) then mret []
      else
        let action := auto_resolution (pe_auto_action row) in
        e ← _event i now (EscalationTimedOut (pe_escalation_id row) (pe_step_id row) action);
        ts ← _transition_events i now (pe_step_id row) action "auto";
        try_except
          (_ ← append_new (pe_instance_id row) (pe_tenant_id row) (e :: ts) (wi_version i)
                 None None;
           mret [pe_escalation_id row])
          is_Exception (fun _ => mret [])
  end.

Definition expire_due (now : time) (limit : Z) : D (list string) :=
  rows ← (fun w => (esc_due now limit w, w));
  fired ← mapM_ (expire_one now) rows;
  mret (mjoin fired).

End controller.
End Escalation.
