(* ===== verification/Control.v ===== *)
(** Operator control ([core/control.py]): pause, resume and abort, with a short
    optimistic retry. *)

From stdpp Require Import base strings list gmap pretty.
From Stdlib Require Import ZArith.
From S2P Require Import Prelude Exceptions Values Enums Definitions Instance Events Fold Tables.
From S2P Require Import Ports Journal.

Module Control.

Definition _RETRIES : nat := 5.

Section control.
Context {W : Type} {Ck : Clock W} {Ig : IdGenerator W} {Ej : EventJournal W}.

Abbreviation D := (M W exn).

(** One pass of the retry loop: [true] when it returned. *)
Definition try_once (instance_id tenant_id : string) (to : WorkflowStatus) (reason : string)
    : D bool :=
  oi ← get_instance instance_id tenant_id None;
  match oi with
  | None => raise (Exn ConfigurationError ("instance " +:+ instance_id +:+ " not found"))
  | Some i =>
      if is_terminal i then
        raise (Exn ConfigurationError ("instance " +:+ instance_id +:+ " is "
                 +:+ WorkflowStatus.value (wi_status i) +:+ " (terminal)"))
      else if bool_decide (wi_status i = to) then mret true
      else if negb (workflow_transition_allowed (wi_status i) to) then
        raise (Exn ConfigurationError ("cannot move " +:+ WorkflowStatus.value (wi_status i)
                 +:+ " -> " +:+ WorkflowStatus.value to))
      else
        eid ← fresh_id;
        t ← read_clock;
        let ev := {| ev_event_id := eid; ev_instance_id := instance_id;
                     ev_tenant_id := tenant_id; ev_sequence := 1; ev_occurred_at := t;
                     ev_body := InstanceStatusChanged (wi_status i) to (Some reason) |} in
        try_except
          (_ ← append_new instance_id tenant_id [ev] (wi_version i) None None; mret true)
          (fun e => isinstance e ConflictError) (fun _ => mret false)
  end.

Fixpoint retry (n : nat) (instance_id tenant_id : string) (to : WorkflowStatus)
    (reason : string) : D unit :=
  match n with
  | O => raise (Exn ConflictError ("instance " +:+ instance_id +:+ ": could not apply "
           +:+ WorkflowStatus.value to +:+ " after " +:+ pretty (Z.of_nat _RETRIES) +:+ " tries"))
  | S n =>
      done_ ← try_once instance_id tenant_id to reason;
      if (done_ : bool) then mret tt else retry n instance_id tenant_id to reason
  end.

Definition _transition (instance_id tenant_id : string) (to : WorkflowStatus) (reason : string)
    : D unit := retry _RETRIES instance_id tenant_id to reason.

Definition pause (instance_id tenant_id by_ : string) : D unit :=
  _transition instance_id tenant_id WorkflowStatus.PAUSED ("paused by " +:+ by_).
Definition resume (instance_id tenant_id by_ : string) : D unit :=
  _transition instance_id tenant_id WorkflowStatus.RUNNING ("resumed by " +:+ by_).
Definition abort (instance_id tenant_id by_ : string) : D unit :=
  _transition instance_id tenant_id WorkflowStatus.FAILED ("aborted by " +:+ by_).

End control.
End Control.
