(* ===== verification/DeadLetter.v ===== *)
(** The dead-letter queue ([core/dead_letter.py]). *)

From stdpp Require Import base strings list gmap pretty.
From Stdlib Require Import ZArith.
From S2P Require Import Prelude Exceptions Values Enums Definitions Instance Events Fold Tables.
From S2P Require Import Ports Journal Escalation.

Module DeadLetter.

Record DeadLetter := {
  dl_id : Z;
  dl_instance_id : string;
  dl_tenant_id : string;
  dl_step_id : option string;
  dl_reason : string;
  dl_error_type : option string;
  dl_error_message : option string;
  dl_at_version : Z;
  dl_resolved : bool;
  dl_created_at : time;
}.

(** The width of the [reason] column ([String(256)]). *)
Definition reason_width : nat := 256.

Section queue.
Context {C : Codec}.

Definition last_error (i : WorkflowInstance) : option ErrorRecord := last (wi_error_history i).

Definition dead_letter_row (id : Z) (now : time) (i : WorkflowInstance) (step_id : option string)
    (reason : string) : DeadLetterRow := {|
  dlr_id := id;
  dlr_instance_id := wi_instance_id i;
  dlr_tenant_id := wi_tenant_id i;
  dlr_step_id := step_id;
  dlr_reason := reason;
  dlr_error_type := er_error_type <$> last_error i;
  dlr_error_message := er_error_message <$> last_error i;
  dlr_at_version := wi_version i;
  dlr_resolved := false;
  dlr_created_at := now;
  dlr_resolved_at := None |}.

(** The insert fails, and the transaction is rolled back, when the reason does
    not fit its column. *)
Definition record (i : WorkflowInstance) (step_id : option string) (reason : string)
    : M DB exn unit := fun db =>
  if (reason_width <? String.length reason)%nat
  then (Err (Exn (PyExc "DBAPIError") "value too long for type character varying(256)"), db)
  else (Ok tt, set_next_id (db_next_id db + 1)%Z
                 (set_dead_letters
                    (<[db_next_id db := dead_letter_row (db_next_id db) (db_now db) i step_id reason]>
                       (db_dead_letters db)) db)).

#[export] Instance PgDeadLetters : DeadLetters DB := {| record_dead_letter := record |}.

Definition dead_letter_of (r : DeadLetterRow) : DeadLetter := {|
  dl_id := dlr_id r;
  dl_instance_id := dlr_instance_id r;
  dl_tenant_id := dlr_tenant_id r;
  dl_step_id := dlr_step_id r;
  dl_reason := dlr_reason r;
  dl_error_type := dlr_error_type r;
  dl_error_message := dlr_error_message r;
  dl_at_version := dlr_at_version r;
  dl_resolved := dlr_resolved r;
  dl_created_at := dlr_created_at r |}.

(** Newest first. *)
Definition list_ (tenant_id : string) (resolved : bool) (limit : Z) (db : DB)
    : res (list DeadLetter) :=
  (fun rows : list DeadLetterRow => dead_letter_of <$> rows) <$> Escalation.sql_limit limit (order_by (fun r => - dlr_created_at r)%Z
    (filter (fun r => dlr_tenant_id r = tenant_id /\ dlr_resolved r = resolved)
       (snd <$> map_to_list (db_dead_letters db)))).

Definition resolved_row (at_ : time) (r : DeadLetterRow) : DeadLetterRow := {|
  dlr_id := dlr_id r;
  dlr_instance_id := dlr_instance_id r;
  dlr_tenant_id := dlr_tenant_id r;
  dlr_step_id := dlr_step_id r;
  dlr_reason := dlr_reason r;
  dlr_error_type := dlr_error_type r;
  dlr_error_message := dlr_error_message r;
  dlr_at_version := dlr_at_version r;
  dlr_resolved := true;
  dlr_created_at := dlr_created_at r;
  dlr_resolved_at := Some at_ |}.

Definition mark_resolved (dlq_id : Z) (tenant_id : string) (at_ : time) : M DB exn unit := fun db =>
  (Ok tt, match db_dead_letters db !! dlq_id with
          | Some r => if bool_decide (dlr_tenant_id r = tenant_id)
                      then set_dead_letters (<[dlq_id := resolved_row at_ r]> (db_dead_letters db)) db
                      else db
          | None => db
          end).
End queue.

(** [requeue] needs a journal, a clock and ids besides the table: a world made of
    the database and the rest. *)
Section requeue.
Context {C : Codec} {B : Type}.
Abbreviation W := (DB * B)%type.
Context {Ck : Clock W} {Ig : IdGenerator W} {Ej : EventJournal W}.

Definition requeue (dlq_id : Z) (tenant_id requeued_by : string) : M W exn string :=
  orow ← gets (fun w => db_dead_letters (fst w) !! dlq_id);
  match orow with
  | None => raise (Exn ConfigurationError ("dead-letter entry " +:+ pretty dlq_id +:+ " not found"))
  | Some row =>
      if negb (bool_decide (dlr_tenant_id row = tenant_id)) then
        raise (Exn ConfigurationError ("dead-letter entry " +:+ pretty dlq_id +:+ " not found"))
      else if dlr_resolved row then
        raise (Exn ConfigurationError ("dead-letter entry " +:+ pretty dlq_id
                 +:+ " already resolved"))
      else
        oi ← get_instance (dlr_instance_id row) tenant_id None;
        match oi with
        | None => raise (Exn ConfigurationError ("instance " +:+ dlr_instance_id row
                           +:+ " not found"))
        | Some i =>
            if negb (bool_decide (WorkflowStatus.value (wi_status i) = "dead_lettered")) then
              raise (Exn ConfigurationError ("instance " +:+ dlr_instance_id row +:+ " is "
                       +:+ WorkflowStatus.value (wi_status i) +:+ ", not dead_lettered"))
            else
              eid ← fresh_id;
              t ← read_clock;
              let ev := {| ev_event_id := eid; ev_instance_id := dlr_instance_id row;
                           ev_tenant_id := tenant_id; ev_sequence := 1; ev_occurred_at := t;
                           ev_body := WorkflowRequeued (dlr_step_id row) requeued_by
                                        (Some dlq_id) |} in
              _ ← append_new (dlr_instance_id row) tenant_id [ev] (wi_version i) None None;
              t ← read_clock;
              _ ← on_fst (mark_resolved dlq_id tenant_id t);
              mret (dlr_instance_id row)
        end
  end.
End requeue.
End DeadLetter.
