(* ===== verification/Instances.v ===== *)
(** Instance creation ([core/instances.py]) and the definition repository
    ([core/persistence/definition_repo.py]). *)

From stdpp Require Import base strings list gmap sorting pretty.
From Stdlib Require Import ZArith.
From S2P Require Import Prelude Exceptions Values Enums Dag Definitions Instance Events Fold.
From S2P Require Import Tables Ports Journal.

Module DefinitionRepo.
Section repo.
Context {C : Codec}.

Definition def_key (tenant_id : string) (d : WorkflowDefinition) : string * string * string :=
  (tenant_id, wd_workflow_id d, wd_version d).

Definition set_active (b : bool) (now : time) (r : WorkflowDefinitionRow)
    : WorkflowDefinitionRow := {|
  dr_tenant_id := dr_tenant_id r; dr_workflow_id := dr_workflow_id r; dr_version := dr_version r;
  dr_name := dr_name r; dr_description := dr_description r; dr_definition := dr_definition r;
  dr_checksum := dr_checksum r; dr_is_active := b; dr_created_at := dr_created_at r;
  dr_updated_at := now |}.

(** [update(...).where(tenant, name).values(is_active=False)] *)
Definition deactivate (tenant_id name : string) (now : time)
    (m : gmap (string * string * string) WorkflowDefinitionRow)
    : gmap (string * string * string) WorkflowDefinitionRow :=
  (fun r => if bool_decide (dr_tenant_id r = tenant_id) && bool_decide (dr_name r = name)
            then set_active false now r else r) <$> m.

Definition definition_row (tenant_id : string) (d : WorkflowDefinition) (activate : bool)
    (now : time) : WorkflowDefinitionRow := {|
  dr_tenant_id := tenant_id;
  dr_workflow_id := wd_workflow_id d;
  dr_version := wd_version d;
  dr_name := wd_name d;
  dr_description := wd_description d;
  dr_definition := dump_definition d;
  dr_checksum := checksum d;
  dr_is_active := activate;
  dr_created_at := now;
  dr_updated_at := now |}.

Definition register (d : WorkflowDefinition) (tenant_id : string) (activate : bool)
    : M DB exn WorkflowDefinition := fun db =>
  match db_definitions db !! def_key tenant_id d with
  | Some existing =>
      if bool_decide (dr_checksum existing = checksum d) then (Ok d, db)
      else (Err (Exn ConfigurationError
                   (wd_workflow_id d +:+ " v" +:+ wd_version d
                    +:+ " already registered with different content — bump the version")), db)
  | None =>
      let m := if activate then deactivate tenant_id (wd_name d) (db_now db) (db_definitions db)
               else db_definitions db in
      (Ok d, set_definitions
               (<[def_key tenant_id d := definition_row tenant_id d activate (db_now db)]> m) db)
  end.

Definition load_row (o : option WorkflowDefinitionRow) : res (option WorkflowDefinition) :=
  match o with
  | Some r => d ← validate_definition (dr_definition r); Ok (Some d)
  | None => Ok None
  end.

Definition repo_get (workflow_id version tenant_id : string) (db : DB)
    : res (option WorkflowDefinition) :=
  load_row (db_definitions db !! (tenant_id, workflow_id, version)).

Definition is_active_row (tenant_id name : string) (r : WorkflowDefinitionRow) : bool :=
  bool_decide (dr_tenant_id r = tenant_id) && bool_decide (dr_name r = name) && dr_is_active r.

(** [session.scalar(select(...))]: the first row, if any. *)
Definition repo_get_active (name tenant_id : string) (db : DB) : res (option WorkflowDefinition) :=
  load_row (head (filter (fun r => is_active_row tenant_id name r = true)
                    (snd <$> map_to_list (db_definitions db)))).

(** [order_by(name, version)] *)
Definition name_order (a b : WorkflowDefinitionRow) : Prop :=
  if bool_decide (dr_name a = dr_name b) then String.leb (dr_version a) (dr_version b) = true
  else String.leb (dr_name a) (dr_name b) = true.

Global Instance name_order_dec : RelDecision name_order.
Proof. intros a b. unfold name_order. destruct (bool_decide _); apply _. Defined.

Definition repo_list (tenant_id : string) (active_only : bool) (db : DB)
    : res (list WorkflowDefinition) :=
  mapM (fun r => validate_definition (dr_definition r))
    (merge_sort name_order
       (filter (fun r => dr_tenant_id r = tenant_id /\ (active_only = true -> dr_is_active r = true))
          (snd <$> map_to_list (db_definitions db)))).

#[export] Instance PgDefinitions : DefinitionSource DB := {|
  get_definition wid ver tid := fun db => (repo_get wid ver tid db, db);
  get_active name tid := fun db => (repo_get_active name tid db, db) |}.
End repo.
End DefinitionRepo.

Module Instances.
Section service.
Context {W : Type} {Ck : Clock W} {Ig : IdGenerator W} {Ej : EventJournal W}
        {Ds : DefinitionSource W}.

Abbreviation D := (M W exn).

Definition _resolve_definition (tenant_id : string) (workflow_id version name : option string)
    : D WorkflowDefinition :=
  odefn ← (if truthy_str workflow_id && truthy_str version
           then get_definition (default "" workflow_id) (default "" version) tenant_id
           else if truthy_str name then get_active (default "" name) tenant_id
           else raise (Exn ConfigurationError "provide (workflow_id, version) or name"));
  match odefn with
  | Some d => mret d
  | None => raise (Exn ConfigurationError "workflow definition not found")
  end.

Definition create_instance (tenant_id : string) (workflow_id version name : option string)
    (context : option dict) (budget_limit_usd : option float) (trigger_source : TriggerSource)
    (trigger_metadata : option dict) : D WorkflowInstance :=
  defn ← _resolve_definition tenant_id workflow_id version name;
  instance_id ← fresh_id;
  eid ← fresh_id;
  t ← read_clock;
  let genesis := {|
    ev_event_id := eid; ev_instance_id := instance_id; ev_tenant_id := tenant_id;
    ev_sequence := 1; ev_occurred_at := t;
    ev_body := InstanceCreated (wd_workflow_id defn) (wd_version defn) (default ∅ context)
                 budget_limit_usd (TriggerSource.value trigger_source)
                 (default ∅ trigger_metadata) |} in
  _ ← append_new instance_id tenant_id [genesis] 0 None None;
  result ← get_instance instance_id tenant_id (Some defn);
  match result with
  | Some i => mret i
  | None => raise AssertionError
  end.

Definition service_get (instance_id tenant_id : string) : D (option WorkflowInstance) :=
  head ← get_instance instance_id tenant_id None;
  match head with
  | None => mret None
  | Some i =>
      defn ← get_definition (wi_workflow_id i) (wi_workflow_version i) tenant_id;
      get_instance instance_id tenant_id defn
  end.
End service.
End Instances.
