(* ===== verification/RegistryTheory.v ===== *)
(** Properties of the registry of workflow definitions
    ([core/persistence/definition_repo.py]): what it is registered with is what it is
    read with, versions never change, and a name has one active version. *)

From stdpp Require Import base strings list gmap sorting.
From Stdlib Require Import ZArith.
From S2P Require Import Prelude Exceptions Values Digests Enums Definitions Instance Events.
From S2P Require Import EventCodec ModelCodec Samples Tables Ports Journal Instances.

Import DefinitionRepo.

Section theory.
Context {C : Codec} {CL : CodecLaws}.

(** The row of a registered definition. *)
Record row_of (r : WorkflowDefinitionRow) (k : string * string * string) (d : WorkflowDefinition)
    : Prop := {
  ro_valid : definition_valid d = true;
  ro_key : k = def_key (dr_tenant_id r) d;
  ro_name : dr_name r = wd_name d;
  ro_definition : dr_definition r = dump_definition d;
  ro_checksum : dr_checksum r = checksum d;
}.

(** Every row holds a valid definition under its key, and at most one version of a
    name is active for a tenant. *)
Record registry_ok (db : DB) : Prop := {
  rg_rows k r : db_definitions db !! k = Some r -> exists d, row_of r k d;
  rg_active t name k r k' r' :
    db_definitions db !! k = Some r -> is_active_row t name r = true ->
    db_definitions db !! k' = Some r' -> is_active_row t name r' = true -> k = k';
}.

(** The definition registered under a key, and the active one of a name. *)
Definition registered_at (db : DB) (k : string * string * string) (d : WorkflowDefinition) : Prop :=
  exists r, db_definitions db !! k = Some r /\ row_of r k d.

Definition active_as (db : DB) (t name : string) (d : WorkflowDefinition) : Prop :=
  exists k r, db_definitions db !! k = Some r /\ is_active_row t name r = true /\ row_of r k d.

Lemma load_row_of r k d : row_of r k d -> load_row (Some r) = Ok (Some d).
Proof. intros [Hv _ _ Hd _]. cbn. by rewrite Hd, definition_roundtrip. Qed.

Lemma get_registered db wid ver t :
  registry_ok db ->
  (exists d, registered_at db (t, wid, ver) d /\ repo_get wid ver t db = Ok (Some d)) \/
  (db_definitions db !! (t, wid, ver) = None /\ repo_get wid ver t db = Ok None).
Proof.
  intros [Hrows _]. unfold repo_get. destruct (_ !! _) as [r|] eqn:Hr; [left|by right].
  destruct (Hrows _ _ Hr) as (d & Hd). exists d. split; [by exists r|by eapply load_row_of].
Qed.

Lemma rows_elem (m : gmap (string * string * string) WorkflowDefinitionRow) r :
  r ∈ snd <$> map_to_list m <-> exists k, m !! k = Some r.
Proof.
  rewrite list_elem_of_fmap. split.
  - intros ([k r'] & -> & Hk%elem_of_map_to_list). by exists k.
  - intros (k & Hk). exists (k, r). split; [done|by apply elem_of_map_to_list].
Qed.

Lemma get_active_registered db t name :
  registry_ok db ->
  (exists d, active_as db t name d /\ repo_get_active name t db = Ok (Some d)) \/
  ((forall d, ~ active_as db t name d) /\ repo_get_active name t db = Ok None).
Proof.
  intros [Hrows _]. unfold repo_get_active.
  destruct (filter _ _) as [|r l] eqn:Hf.
  - right. split; [|done]. intros d (k & r & Hr & Ha & _).
    assert (r ∈ filter (fun r => is_active_row t name r = true) (snd <$> map_to_list (db_definitions db)))
      as Hin by (apply list_elem_of_filter; split; [done|apply rows_elem; by exists k]).
    rewrite Hf in Hin. by apply not_elem_of_nil in Hin.
  - left. assert (r ∈ r :: l) as Hin by left. rewrite <- Hf in Hin.
    apply list_elem_of_filter in Hin as [Ha (k & Hk)%rows_elem].
    destruct (Hrows _ _ Hk) as (d & Hd). exists d. cbn [head].
    split; [by exists k, r|by eapply load_row_of].
Qed.

Lemma row_of_unique r k d d' : row_of r k d -> row_of r k d' -> d = d'.
Proof.
  intros [Hv _ _ Hd _] [Hv' _ _ Hd' _]. rewrite Hd in Hd'.
  pose proof (definition_roundtrip d Hv) as H. rewrite Hd', definition_roundtrip in H by done. congruence.
Qed.

Lemma active_unique db t name d d' :
  registry_ok db -> active_as db t name d -> active_as db t name d' -> d = d'.
Proof.
  intros [_ Hact] (k & r & Hr & Ha & Hd) (k' & r' & Hr' & Ha' & Hd').
  assert (k' = k) as -> by eauto. rewrite Hr in Hr'. injection Hr' as <-. by eapply row_of_unique.
Qed.

(** ** Registering *)

(** What registering [d] does to the row of another version. *)
Definition kept (tid : string) (activate : bool) (d : WorkflowDefinition) (now : time)
    (r : WorkflowDefinitionRow) : WorkflowDefinitionRow :=
  if activate && (bool_decide (dr_tenant_id r = tid) && bool_decide (dr_name r = wd_name d))
  then set_active false now r else r.

Lemma kept_row tid activate d now r k d0 : row_of r k d0 -> row_of (kept tid activate d now r) k d0.
Proof. unfold kept. by destruct (_ && _); intros []. Qed.

Lemma kept_active tid activate d now t name r :
  is_active_row t name (kept tid activate d now r) = true <->
  is_active_row t name r = true /\ ~ (activate = true /\ t = tid /\ name = wd_name d).
Proof.
  unfold kept, is_active_row. destruct activate; cbn; [|naive_solver].
  repeat case_bool_decide; cbn; naive_solver.
Qed.

Lemma new_row tid activate d now :
  definition_valid d = true -> row_of (definition_row tid d activate now) (def_key tid d) d.
Proof. by intros Hv; split. Qed.

Lemma new_row_active tid activate d now t name :
  is_active_row t name (definition_row tid d activate now) = true <->
  activate = true /\ t = tid /\ name = wd_name d.
Proof. unfold is_active_row. cbn. repeat case_bool_decide; destruct activate; naive_solver. Qed.

(** The table after a new version was registered. *)
Definition grown (tid : string) (activate : bool) (d : WorkflowDefinition) (db db' : DB) : Prop :=
  db_definitions db !! def_key tid d = None /\
  db_definitions db' = <[def_key tid d := definition_row tid d activate (db_now db)]>
                         (kept tid activate d (db_now db) <$> db_definitions db).

Lemma register_grows tid activate d db :
  db_definitions db !! def_key tid d = None ->
  exists db', register d tid activate db = (Ok d, db') /\ grown tid activate d db db'.
Proof.
  intros Hnone. unfold register. rewrite Hnone. eexists. split; [done|]. split; [done|].
  assert ((if activate then deactivate tid (wd_name d) (db_now db) (db_definitions db)
           else db_definitions db) = kept tid activate d (db_now db) <$> db_definitions db) as ->.
  { destruct activate; [done|]. by rewrite map_fmap_id. }
  by destruct db.
Qed.

Lemma grown_cases tid activate d db db' k r :
  grown tid activate d db db' -> db_definitions db' !! k = Some r ->
  (k = def_key tid d /\ r = definition_row tid d activate (db_now db)) \/
  (k <> def_key tid d /\ exists r0, db_definitions db !! k = Some r0 /\
     r = kept tid activate d (db_now db) r0).
Proof.
  intros [_ ->] [[<- <-]|[Hne Hr]]%lookup_insert_Some; [by left|right]. split; [done|].
  apply lookup_fmap_Some in Hr as (r0 & <- & Hr0). by exists r0.
Qed.

Lemma grown_ok tid activate d db db' :
  registry_ok db -> definition_valid d = true -> grown tid activate d db db' -> registry_ok db'.
Proof.
  intros [Hrows Hact] Hv Hg. split.
  - intros k r Hr. destruct (grown_cases _ _ _ _ _ _ _ Hg Hr) as [[-> ->]|(_ & r0 & H0 & ->)].
    + exists d. by apply new_row.
    + destruct (Hrows _ _ H0) as (d0 & Hd0). exists d0. by apply kept_row.
  - intros t name k r k' r' Hr Ha Hr' Ha'.
    destruct (grown_cases _ _ _ _ _ _ _ Hg Hr) as [[-> ->]|(Hk & r0 & H0 & ->)],
      (grown_cases _ _ _ _ _ _ _ Hg Hr') as [[-> ->]|(Hk' & r0' & H0' & ->)]; [done|..];
      rewrite ?kept_active, ?new_row_active in *; [tauto|tauto|].
    destruct Ha as [Ha _], Ha' as [Ha' _]. by eapply Hact.
Qed.

Lemma grown_registered tid activate d db db' k d0 :
  definition_valid d = true -> grown tid activate d db db' ->
  registered_at db' k d0 <-> (k = def_key tid d /\ d0 = d) \/ registered_at db k d0.
Proof.
  intros Hv Hg. split.
  - intros (r & Hr & Hd). destruct (grown_cases _ _ _ _ _ _ _ Hg Hr) as [[-> ->]|(_ & r0 & H0 & ->)].
    + left. split; [done|]. eapply row_of_unique; [exact Hd|by apply new_row].
    + right. exists r0. split; [done|]. revert Hd. unfold kept. by destruct (_ && _); intros [].
  - destruct Hg as [Hnone Hdb]. intros [[-> ->]|(r & Hr & Hd)]; unfold registered_at; rewrite Hdb.
    + eexists. rewrite lookup_insert_eq. split; [done|by apply new_row].
    + eexists. rewrite lookup_insert_ne, lookup_fmap, Hr by congruence.
      split; [done|by apply kept_row].
Qed.

Lemma grown_active tid activate d db db' t name d0 :
  definition_valid d = true -> grown tid activate d db db' ->
  active_as db' t name d0 <->
  (activate = true /\ t = tid /\ name = wd_name d /\ d0 = d) \/
  (active_as db t name d0 /\ ~ (activate = true /\ t = tid /\ name = wd_name d)).
Proof.
  intros Hv Hg. split.
  - intros (k & r & Hr & Ha & Hd).
    destruct (grown_cases _ _ _ _ _ _ _ Hg Hr) as [[-> ->]|(_ & r0 & H0 & ->)].
    + apply new_row_active in Ha as (? & ? & ?). left. split_and!; [done..|].
      eapply row_of_unique; [exact Hd|by apply new_row].
    + apply kept_active in Ha as [Ha Hn]. right. split; [|done]. exists k, r0.
      split_and!; [done..|]. revert Hd. unfold kept. by destruct (_ && _); intros [].
  - destruct Hg as [Hnone Hdb]. intros [(Ht & -> & -> & ->)|[(k & r & Hr & Ha & Hd) Hn]].
    + exists (def_key tid d), (definition_row tid d activate (db_now db)).
      rewrite Hdb, lookup_insert_eq. split_and!; [done|by apply new_row_active|by apply new_row].
    + exists k, (kept tid activate d (db_now db) r).
      rewrite Hdb, lookup_insert_ne, lookup_fmap, Hr by congruence.
      split_and!; [done|by apply kept_active|by apply kept_row].
Qed.

Lemma grown_get tid activate d db db' wid ver t :
  registry_ok db -> definition_valid d = true -> grown tid activate d db db' ->
  repo_get wid ver t db' =
  if bool_decide ((t, wid, ver) = def_key tid d) then Ok (Some d) else repo_get wid ver t db.
Proof.
  intros Hok Hv Hg. unfold repo_get. rewrite (proj2 Hg). case_bool_decide as Hk.
  - rewrite Hk, lookup_insert_eq. by eapply load_row_of, new_row.
  - rewrite lookup_insert_ne, lookup_fmap by congruence.
    destruct (_ !! (t, wid, ver)) as [r|] eqn:Hr; [|done]. cbn [fmap option_fmap option_map].
    destruct (rg_rows _ Hok _ _ Hr) as (d0 & Hd0).
    rewrite (load_row_of _ _ _ Hd0). by eapply load_row_of, kept_row.
Qed.

Lemma grown_get_active tid activate d db db' name t :
  registry_ok db -> definition_valid d = true -> grown tid activate d db db' ->
  repo_get_active name t db' =
  if bool_decide (activate = true /\ t = tid /\ name = wd_name d) then Ok (Some d)
  else repo_get_active name t db.
Proof.
  intros Hok Hv Hg. pose proof (grown_ok _ _ _ _ _ Hok Hv Hg) as Hok'.
  destruct (get_active_registered db' t name Hok') as [(d1 & H1 & ->)|[H1 ->]]; case_bool_decide as Hc.
  - f_equal. f_equal. apply (grown_active _ _ _ _ _ _ _ _ Hv Hg) in H1. tauto.
  - apply (grown_active _ _ _ _ _ _ _ _ Hv Hg) in H1 as [H1|[H1 _]]; [tauto|].
    destruct (get_active_registered db t name Hok) as [(d2 & H2 & ->)|[H2 _]]; [|by apply H2 in H1].
    by rewrite (active_unique _ _ _ _ _ Hok H1 H2).
  - destruct (H1 d). apply (grown_active _ _ _ _ _ _ _ _ Hv Hg). tauto.
  - destruct (get_active_registered db t name Hok) as [(d2 & H2 & _)|[_ ->]]; [|done].
    destruct (H1 d2). apply (grown_active _ _ _ _ _ _ _ _ Hv Hg). by right.
Qed.

(** C35: The registry is a map from versions to definitions, with one active version per
    name.  Registering a valid definition keeps it so, and does one of three things:
    a version that is new is read back as exactly this definition from then on, by its
    key, and by its name for its tenant if it is to be active, and every other read, of
    any tenant, answers what it did; a version registered with the same content
    changes nothing; with other content it raises [ConfigurationError] and changes
    nothing. *)
Theorem register_exact tid activate d db :
  registry_ok db -> definition_valid d = true ->
  let '(r, db') := register d tid activate db in
  registry_ok db' /\
  match r with
  | Ok out =>
      out = d /\
      ((repo_get (wd_workflow_id d) (wd_version d) tid db = Ok None /\
        (forall wid ver t, repo_get wid ver t db' =
           if bool_decide ((t, wid, ver) = def_key tid d) then Ok (Some d)
           else repo_get wid ver t db) /\
        (forall name t, repo_get_active name t db' =
           if bool_decide (activate = true /\ t = tid /\ name = wd_name d) then Ok (Some d)
           else repo_get_active name t db)) \/
       (db' = db /\ exists d0, repo_get (wd_workflow_id d) (wd_version d) tid db = Ok (Some d0) /\
          checksum d0 = checksum d))
  | Err e =>
      exn_cls e = ConfigurationError /\ db' = db /\
      exists d0, repo_get (wd_workflow_id d) (wd_version d) tid db = Ok (Some d0) /\
        checksum d0 <> checksum d
  end.
Proof.
  intros Hok Hv. destruct (db_definitions db !! def_key tid d) as [r|] eqn:Hr.
  - destruct (rg_rows _ Hok _ _ Hr) as (d0 & Hd0).
    assert (repo_get (wd_workflow_id d) (wd_version d) tid db = Ok (Some d0)) as Hget
      by (unfold repo_get, def_key in *; rewrite Hr; by eapply load_row_of).
    unfold register. rewrite Hr, (ro_checksum _ _ _ Hd0). case_bool_decide.
    + split; [done|]. split; [done|right]. split; [done|by exists d0].
    + split; [done|]. split; [done|split; [done|by exists d0]].
  - destruct (register_grows tid activate d db Hr) as (db' & -> & Hg).
    split; [by eapply grown_ok|]. split; [done|left]. split_and!.
    + unfold repo_get, def_key in *. by rewrite Hr.
    + intros. by apply (grown_get _ _ _ _ _ _ _ _ Hok Hv Hg).
    + intros. by apply (grown_get_active _ _ _ _ _ _ _ Hok Hv Hg).
Qed.

Lemma read_rows rows :
  (forall r, r ∈ rows -> exists k d, row_of r k d) ->
  exists l, mapM (fun r => validate_definition (dr_definition r)) rows = Ok l /\
    Forall2 (fun r d => exists k, row_of r k d) rows l.
Proof.
  induction rows as [|r rows IH]; intros Hrows; [by exists []|].
  destruct (Hrows r ltac:(by left)) as (k & d & Hd).
  destruct IH as (l & Hl & HF); [intros r' Hr; apply Hrows; by right|].
  exists (d :: l). cbn. destruct Hd as [Hv Hk Hn Hdef Hc].
  rewrite Hdef, definition_roundtrip by done. cbn. rewrite Hl. split; [done|].
  constructor; [by exists k|done].
Qed.

(** A listing gives the definitions of the tenant, and nothing else. *)
Lemma list_registered db t active_only :
  registry_ok db ->
  exists l, repo_list t active_only db = Ok l /\
    forall d, d ∈ l <-> exists k r, db_definitions db !! k = Some r /\ row_of r k d /\
      dr_tenant_id r = t /\ (active_only = true -> dr_is_active r = true).
Proof.
  intros Hok. unfold repo_list. set (rows := merge_sort _ _).
  assert (forall r, r ∈ rows <-> (dr_tenant_id r = t /\ (active_only = true -> dr_is_active r = true)) /\
            exists k, db_definitions db !! k = Some r) as Hrows.
  { intros r. subst rows. by rewrite merge_sort_Permutation, list_elem_of_filter, rows_elem. }
  destruct (read_rows rows) as (l & Hl & HF).
  { intros r [_ (k & Hk)]%Hrows. exists k. exact (rg_rows _ Hok _ _ Hk). }
  exists l. split; [exact Hl|]. intros d. split.
  - intros (n & Hn)%list_elem_of_lookup. destruct (Forall2_lookup_r _ _ _ _ _ HF Hn) as (r & Hr & k & Hd).
    apply list_elem_of_lookup_2, Hrows in Hr as [[Ht Ha] (k' & Hk')].
    destruct (rg_rows _ Hok _ _ Hk') as (d' & Hd'). exists k', r. split_and!; [done| |done|done].
    destruct Hd as [Hv _ Hn' Hdef Hc]. split; try done.
    rewrite (ro_key _ _ _ Hd'). f_equal. destruct Hd' as [Hv' _ _ Hdef' _].
    pose proof (definition_roundtrip d Hv) as E. rewrite <- Hdef, Hdef', definition_roundtrip in E by done.
    congruence.
  - intros (k & r & Hk & Hd & Ht & Ha).
    assert (r ∈ rows) as (n & Hn)%list_elem_of_lookup by (apply Hrows; split; [done|by exists k]).
    destruct (Forall2_lookup_l _ _ _ _ _ HF Hn) as (d' & Hd' & k' & Hr').
    assert (d' = d) as ->; [|by eapply list_elem_of_lookup_2].
    destruct Hd as [Hv _ _ Hdef _], Hr' as [Hv' _ _ Hdef' _].
    pose proof (definition_roundtrip d Hv) as E. rewrite <- Hdef, Hdef', definition_roundtrip in E by done.
    congruence.
Qed.

Lemma empty_registry_ok now : registry_ok (empty_db now).
Proof. by split. Qed.
End theory.

(** ** A registry of JSON *)

Module RegistrySample.
Import CodecSample.

#[export] Instance hashing : Hashing := {|
  orjson_dumps v := match v with
    | JObj o => match o !! "description" with Some (JStr s) => s | _ => "" end
    | _ => "" end;
  sha256_hexdigest s := s |}.
#[export] Existing Instance json_codec.
#[export] Existing Instance json_codec_laws.

(** The sample definition, a second version of it, and a change of the first. *)
Definition version (v text : string) : WorkflowDefinition := {|
  wd_workflow_id := wd_workflow_id Sample.defn; wd_name := wd_name Sample.defn;
  wd_description := text; wd_version := v; wd_steps := wd_steps Sample.defn;
  wd_global_timeout_seconds := 3600; wd_max_concurrent_steps := 2;
  wd_on_failure := OnFailure.PAUSE |}.
Definition v1 := version "1.0.0" "first".
Definition v2 := version "2.0.0" "second".
Definition altered := version "1.0.0" "altered".

Definition one : DB := snd (register v1 "t1" true (empty_db 0%Z)).
Definition two : DB := snd (register v2 "t1" true one).
End RegistrySample.
Import CodecSample RegistrySample.

Lemma versions_valid : forallb definition_valid [v1; v2; altered] = true.
Proof. vm_compute. reflexivity. Qed.

Lemma one_ok : registry_ok one.
Proof.
  destruct (register_grows "t1" true v1 (empty_db 0%Z) eq_refl) as (db & Hr & Hg).
  unfold one. rewrite Hr. exact (grown_ok "t1" true v1 _ _ (empty_registry_ok 0%Z) eq_refl Hg).
Qed.

Lemma register_exact_witness :
  repo_get "wf" "1.0.0" "t1" two = Ok (Some v1) /\ repo_get "wf" "2.0.0" "t1" two = Ok (Some v2) /\
  repo_get_active "Workflow" "t1" two = Ok (Some v2) /\
  repo_get_active "Workflow" "t2" two = Ok None /\
  exists e, register altered "t1" true two = (Err e, two) /\ exn_cls e = ConfigurationError.
Proof.
  pose proof (register_exact "t1" true v2 one one_ok eq_refl) as H2. unfold two.
  destruct (register v2 "t1" true one) as [r db] eqn:E. cbn [snd]. destruct H2 as [Hok H2].
  assert (r = Ok v2) as -> by (apply (f_equal fst) in E; symmetry; exact E).
  destruct H2 as [_ [(_ & Hget & Hact)|(_ & d0 & Hd0 & _)]]; [|vm_compute in Hd0; discriminate Hd0].
  assert (repo_get "wf" "1.0.0" "t1" db = Ok (Some v1)) as H1
    by (rewrite Hget; vm_compute; reflexivity).
  split; [exact H1|]. split; [rewrite Hget; vm_compute; reflexivity|].
  split; [rewrite Hact; vm_compute; reflexivity|]. split; [rewrite Hact; vm_compute; reflexivity|].
  pose proof (register_exact "t1" true altered db Hok eq_refl) as H3.
  destruct (register altered "t1" true db) as [[out|e] db'] eqn:E3; destruct H3 as [_ H3].
  - exfalso. destruct H3 as [_ [(Hn & _)|(_ & d0 & Hd0 & Hc)]].
    + change (repo_get "wf" "1.0.0" "t1" db = Ok None) in Hn. rewrite H1 in Hn. discriminate Hn.
    + change (repo_get "wf" "1.0.0" "t1" db = Ok (Some d0)) in Hd0. rewrite H1 in Hd0.
      injection Hd0 as <-. vm_compute in Hc. discriminate Hc.
  - destruct H3 as (He & -> & _). exists e. split; [reflexivity|exact He].
Defined.
