(* ===== verification/Operators.v ===== *)
(** What operators can do to an instance: resolve or expire an escalation, pause,
    resume and abort, requeue a dead letter.  Each either appends exactly the
    events of the decision or leaves the journal alone. *)

From stdpp Require Import base strings list gmap relations.
From Stdlib Require Import ZArith Lia.
From S2P Require Import Prelude Exceptions Values Enums Definitions Instance Events Fold.
From S2P Require Import FoldTheory Tables EventStoreTheory Ports Journal DriverTheory DriverProps.
From S2P Require Import Escalation Control.

Section operators.
Context {W : Type} {Ck : Clock W} {Ig : IdGenerator W} {Ej : EventJournal W} {Jl : JournalLaws W}.
Context (Hid : forall w : W, same w (snd (new_id w))).

(** Reading an instance without a definition. *)
Lemma read_plain w iid tid : journal_ok w -> one_genesis (jlog w iid) ->
  exists o, get_instance iid tid None w = (Ok o, w) /\
    forall i, o = Some i <-> Fold.fold (jlog w iid) None None = Ok i /\ wi_tenant_id i = tid.
Proof.
  intros Hok Hg. destruct (get_law w iid tid None Hok Hg) as (o & Hget & Ho). exists o.
  split; [done|]. intros i. rewrite no_defn in Ho. rewrite Ho. clear Ho Hget.
  destruct (Fold.fold _ _ _) as [j|e]; [case_bool_decide as Ht|].
  - split; [by intros [= ->]|by intros [[= ->] _]].
  - split; [done|]. intros [[= ->] ?]. done.
  - split; [done|by intros [? _]].
Qed.

(** Drafts that the specification machine accepts are appended. *)
Lemma append_accepted w iid tid i bodies es j nw :
  journal_ok w -> Fold.fold (jlog w iid) None None = Ok i -> wi_tenant_id i = tid ->
  Forall2 (is_draft iid tid) bodies es -> es <> [] ->
  spec_run None i (sequenced (wi_version i) es) = Some j ->
  exists w', append_new iid tid es (wi_version i) None nw w
      = (Ok (wi_version j, sequenced (wi_version i) es), w') /\
    journal_ok w' /\ jlog w' iid = jlog w iid ++ sequenced (wi_version i) es /\
    (forall k, k <> iid -> jlog w' k = jlog w k) /\
    Fold.fold (jlog w' iid) None None = Ok j.
Proof.
  intros Hok Hf Ht Hd Hne Hrun.
  destruct (fold_version _ _ _ _ Hf) as [_ Hv]. cbn [base_version] in Hv. rewrite Z.add_0_l in Hv.
  assert (Fold.fold (jlog w iid ++ sequenced (wi_version i) es) None None = Ok j) as Hf'.
  { rewrite fold_app by (right; intros Hn; by rewrite Hn in Hf). rewrite Hf. cbn [mbind result_bind].
    apply fold_from_Ok. split; [|done]. by rewrite sequenced_numbers, length_sequenced. }
  destruct (append_total_law w iid tid es None nw j Hok) as (w' & Ha).
  - done.
  - by eapply drafts_valid.
  - intros Hn. by rewrite Hn in Hf.
  - clear -Hd. induction Hd as [|b e bs es (_ & H1 & H2 & _) _ IH]; by constructor.
  - done.
  - by rewrite <- Hv.
  - apply spec_run_identity in Hrun as (_ & -> & _). done.
  - rewrite <- Hv in Ha. exists w'. split; [exact Ha|].
    destruct (append_ok_law _ _ _ _ _ _ _ _ _ _ Hok (drafts_valid _ _ _ _ Hd) Ha) as (H1 & _ & _ & _ & _ & _ & H2 & H3).
    split_and!; [done..|]. by rewrite H2.
Qed.

(** ** Pause, resume, abort *)

(** What the operator's request comes to, from the instance as it is. *)
Inductive request_outcome := Refused | AlreadyThere | Moved.

Definition outcome_of_request (i : WorkflowInstance) (to : WorkflowStatus) : request_outcome :=
  if is_terminal i then Refused
  else if bool_decide (wi_status i = to) then AlreadyThere
  else if workflow_transition_allowed (wi_status i) to then Moved
  else Refused.

(** C26: Operator control does exactly what the transition table allows.  For an
    instance that exists, [_transition] refuses with [ConfigurationError] if it is
    finished or the table has no such edge, returns without writing if it is
    already there, and otherwise appends exactly one status change, from the
    current status to the requested one; nothing else is ever written. *)
Theorem control_transition_exact w iid tid to reason i :
  journal_ok w -> one_genesis (jlog w iid) -> get_instance iid tid None w = (Ok (Some i), w) ->
  let '(r, w') := Control._transition iid tid to reason w in
  match outcome_of_request i to with
  | Refused => w' = w /\ exists msg, r = Err (Exn ConfigurationError msg)
  | AlreadyThere => w' = w /\ r = Ok tt
  | Moved => r = Ok tt /\ (forall j, j <> iid -> jlog w' j = jlog w j) /\
      exists e, jlog w' iid = jlog w iid ++ [e] /\
        ev_body e = InstanceStatusChanged (wi_status i) to (Some reason)
  end.
Proof.
  intros Hok Hg Hget. destruct (read_plain w iid tid Hok Hg) as (o & Hget' & Ho).
  rewrite Hget in Hget'. injection Hget' as <-. destruct (proj1 (Ho i) eq_refl) as [Hf Ht].
  unfold Control._transition, Control._RETRIES, outcome_of_request. cbn [Control.retry].
  unfold mbind at 1, M_bind at 1. unfold Control.try_once.
  rewrite (M_bind_step _ _ w (Some i) w Hget).
  destruct (is_terminal i) eqn:Hterm; [split; [done|by eexists]|].
  case_bool_decide as Heq; [done|].
  destruct (workflow_transition_allowed (wi_status i) to) eqn:Hal; cbn [negb]; [|split; [done|by eexists]].
  unfold fresh_id. unfold mbind at 1, M_bind at 1.
  pose proof (Hid w) as Hs. destruct (new_id w) as [eid w1]. cbn in Hs.
  destruct (Hs Hok) as [Hok1 Hl1].
  rewrite (M_bind_step read_clock _ w1 (now w1) w1 eq_refl).
  set (ev := {| ev_event_id := eid |}).
  assert (accepts i (ev_body ev) = true) as Hacc.
  { unfold accepts. cbn. rewrite bool_decide_true by done. cbn.
    unfold wf_allowed. by rewrite Hal, orb_true_r. }
  destruct (spec_run None i (sequenced (wi_version i) [ev])) as [j|] eqn:Hrun;
    [|cbn [sequenced spec_run] in Hrun; unfold spec_step in Hrun;
      cbn [ev_body with_sequence] in Hrun; by rewrite Hacc in Hrun].
  destruct (append_accepted w1 iid tid i [ev_body ev] [ev] j None Hok1)
    as (w2 & Ha & Hok2 & Hl2 & Ho2 & _);
    [by rewrite Hl1|done|by apply Forall2_cons|done|done|].
  unfold try_except, try_catch. rewrite (M_bind_step _ _ w1 _ w2 Ha). cbn.
  split_and!; [done|by intros k Hk; rewrite Ho2, Hl1|].
  eexists. rewrite Hl2, Hl1. by split.
Qed.

(** ** Escalations *)

Section escalations.
Context {Rs : Escalation.EscalationReadStore W}.

(** The events of a decision. *)
Definition decision_bodies (i : WorkflowInstance) (eid sid resolution by_ : string)
    (ctx : option dict) (budget : option float) : list event_body :=
  EscalationResolved eid sid resolution by_ ctx ::
  Escalation.budget_bodies eid by_ budget ++
  Escalation.transition_bodies i sid resolution by_.

(** The step a decision is about, if it names one the instance knows. *)
Definition decided_step (i : WorkflowInstance) (sid : string) : option StepState :=
  if bool_decide (sid = "") then None else wi_step_states i !! sid.

(** The workflow status a decision leads to. *)
Definition decided_status (i : WorkflowInstance) (sid resolution : string) : WorkflowStatus :=
  if bool_decide (resolution ∈ ["approve"; "modify"; "skip"])
  then match decided_step i sid with
       | Some _ => WorkflowStatus.RUNNING
       | None => WorkflowStatus.ROLLED_BACK
       end
  else WorkflowStatus.FAILED.

(** ... and the status of the step. *)
Definition decided_step_status (st : StepState) (resolution : string) : StepStatus :=
  if bool_decide (resolution ∈ ["approve"; "modify"]) then
    match st_output st with Some _ => StepStatus.COMPLETED | None => StepStatus.READY end
  else if bool_decide (resolution = "skip") then StepStatus.SKIPPED
  else st_status st.

(** Drafts of the controller are always valid, so they are made. *)
Lemma controller_event i t b w : body_valid b = true ->
  exists e w', Escalation._event i t b w = (Ok e, w') /\ same w w' /\
    is_draft (wi_instance_id i) (wi_tenant_id i) b e.
Proof.
  intros Hb. unfold Escalation._event, fresh_id, mbind, M_bind.
  pose proof (Hid w) as Hs. destruct (new_id w) as [eid w1]. cbn in *. rewrite Hb.
  eexists _, w1. by split_and!.
Qed.

Lemma controller_events i t bodies w : Forall (fun b => body_valid b = true) bodies ->
  exists es w', mapM_ (Escalation._event i t) bodies w = (Ok es, w') /\ same w w' /\
    Forall2 (is_draft (wi_instance_id i) (wi_tenant_id i)) bodies es.
Proof.
  intros Hv. revert w. induction Hv as [|b bodies Hb _ IH]; intros w.
  { exists [], w. split; [done|split; [reflexivity|constructor]]. }
  destruct (controller_event i t b w Hb) as (e & w1 & He & Hs & Hd).
  destruct (IH w1) as (es & w2 & Hes & Hs2 & Hd2). exists (e :: es), w2. cbn [mapM_].
  rewrite (M_bind_step _ _ w e w1 He), (M_bind_step _ _ w1 es w2 Hes).
  split; [done|split; [by etransitivity|by constructor]].
Qed.

Lemma transition_bodies_valid i sid resolution by_ :
  Forall (fun b => body_valid b = true) (Escalation.transition_bodies i sid resolution by_).
Proof.
  unfold Escalation.transition_bodies. repeat case_match; repeat constructor.
Qed.

(** One status change of a waiting workflow, or of a waiting step. *)
Lemma wf_change_run i e es to reason :
  wi_status i = WorkflowStatus.WAITING_APPROVAL ->
  to ∈ [WorkflowStatus.RUNNING; WorkflowStatus.ROLLED_BACK; WorkflowStatus.FAILED] ->
  ev_body e = InstanceStatusChanged (wi_status i) to reason ->
  exists j, spec_run None i (e :: es) = spec_run None j es /\ wi_status j = to /\
    wi_step_states j = wi_step_states i /\ wi_escalations j = wi_escalations i.
Proof.
  intros Hw Hto He. cbn [spec_run]. unfold spec_step, accepts. rewrite He, Hw. cbn.
  assert (wf_allowed WorkflowStatus.WAITING_APPROVAL to = true) as ->.
  { repeat (apply elem_of_cons in Hto as [->|Hto]; [reflexivity|]). by apply not_elem_of_nil in Hto. }
  cbn. eexists. split; [reflexivity|]. unfold is_terminal. by case_bool_decide.
Qed.

Lemma step_change_run i e es sid st to reason :
  wi_step_states i !! sid = Some st -> st_status st = StepStatus.WAITING_APPROVAL ->
  to ∈ [StepStatus.COMPLETED; StepStatus.READY; StepStatus.SKIPPED] ->
  ev_body e = StepStatusChanged sid (st_status st) to reason ->
  exists j, spec_run None i (e :: es) = spec_run None j es /\ wi_status j = wi_status i /\
    wi_step_states j = <[sid := set_st_status to st]> (wi_step_states i) /\
    wi_escalations j = wi_escalations i.
Proof.
  intros Hst Hw Hto He. cbn [spec_run]. unfold spec_step, accepts, step_status, step_or_new.
  rewrite He. cbn. rewrite Hst. cbn. rewrite Hw, bool_decide_true by done. cbn.
  assert (step_transition_allowed StepStatus.WAITING_APPROVAL to = true) as ->.
  { repeat (apply elem_of_cons in Hto as [->|Hto]; [reflexivity|]). by apply not_elem_of_nil in Hto. }
  eexists. split; [reflexivity|]. split_and!; [done| |done].
  cbn. unfold upd_step, step_or_new. by rewrite Hst.
Qed.

(** A waiting instance accepts the transitions of every decision about a waiting
    step (or about none). *)
Lemma transitions_run i sid resolution by_ es i1 :
  wi_status i = WorkflowStatus.WAITING_APPROVAL ->
  (forall st, decided_step i sid = Some st -> st_status st = StepStatus.WAITING_APPROVAL) ->
  (ev_body <$> es) = Escalation.transition_bodies i sid resolution by_ ->
  wi_status i1 = wi_status i -> wi_step_states i1 = wi_step_states i ->
  exists j, spec_run None i1 es = Some j /\ wi_status j = decided_status i sid resolution /\
    wi_escalations j = wi_escalations i1 /\
    wi_step_states j =
      match decided_step i sid with
      | Some st => <[sid := set_st_status (decided_step_status st resolution) st]> (wi_step_states i)
      | None => wi_step_states i
      end.
Proof.
  intros Hw Hstep Hb Hi1 Hs1. unfold Escalation.transition_bodies, Escalation._wf_body in Hb.
  fold (decided_step i sid) in Hb. unfold decided_status, decided_step_status.
  assert (resolution ∈ ["approve"; "modify"; "skip"] <->
    resolution ∈ ["approve"; "modify"] \/ resolution = "skip") as Hres by set_solver.
  destruct (decided_step i sid) as [st|] eqn:Hd.
  - assert (wi_step_states i !! sid = Some st) as Hst by (unfold decided_step in Hd; by destruct (bool_decide _)).
    pose proof (Hstep st eq_refl) as Hstat.
    assert (set_st_status (st_status st) st = st) as Hid' by by destruct st.
    destruct (bool_decide (resolution ∈ ["approve"; "modify"])) eqn:E1;
      [|destruct (bool_decide (resolution = "skip")) eqn:E2].
    3: { rewrite bool_decide_eq_false in E1, E2. rewrite bool_decide_false by tauto.
      destruct es as [|e []]; try discriminate Hb. injection Hb as Hb.
      edestruct (wf_change_run i1 e [] WorkflowStatus.FAILED) as (j & -> & H1 & H2 & H3);
        [by rewrite Hi1|set_solver|rewrite Hi1; exact Hb|].
      exists j. split_and!; [done..|]. by rewrite H2, Hs1, Hid', insert_id. }
    all: rewrite ?bool_decide_eq_true, ?bool_decide_eq_false in *; rewrite bool_decide_true by tauto;
      destruct es as [|e1 [|e2 []]]; try discriminate Hb; injection Hb as Hb1 Hb2;
      (edestruct (step_change_run i1 e1 [e2] sid st) as (j1 & -> & H1 & H2 & H3);
        [by rewrite Hs1|done| |exact Hb1|]; [by destruct (st_output st); set_solver|]);
      (edestruct (wf_change_run j1 e2 [] WorkflowStatus.RUNNING) as (j & -> & H4 & H5 & H6);
        [by rewrite H1, Hi1|set_solver|rewrite H1, Hi1; exact Hb2|]);
      exists j; split_and!; [done|done|by rewrite H6|by rewrite H5, H2, Hs1].
  - destruct es as [|e []]; try discriminate Hb. injection Hb as Hb.
    edestruct (wf_change_run i1 e []) as (j & -> & H1 & H2 & H3);
      [by rewrite Hi1| |rewrite Hi1; exact Hb|]; [case_bool_decide; set_solver|].
    exists j. split_and!; [done|done|done|by rewrite H2].
Qed.

Lemma decision_run i eid sid resolution by_ ctx budget es :
  wi_status i = WorkflowStatus.WAITING_APPROVAL ->
  (forall st, decided_step i sid = Some st -> st_status st = StepStatus.WAITING_APPROVAL) ->
  (ev_body <$> es) = decision_bodies i eid sid resolution by_ ctx budget ->
  exists j, spec_run None i es = Some j /\ wi_status j = decided_status i sid resolution /\
    wi_escalations j = Fold.resolve_ref eid <$> wi_escalations i /\
    wi_step_states j =
      match decided_step i sid with
      | Some st => <[sid := set_st_status (decided_step_status st resolution) st]> (wi_step_states i)
      | None => wi_step_states i
      end.
Proof.
  intros Hw Hstep Hb. unfold decision_bodies in Hb.
  destruct es as [|e1 es]; [done|]. injection Hb as Hb1 Hb.
  assert (exists i1, spec_run None i (e1 :: es) = spec_run None i1 es /\ wi_status i1 = wi_status i /\
    wi_step_states i1 = wi_step_states i /\
    wi_escalations i1 = Fold.resolve_ref eid <$> wi_escalations i) as (i1 & -> & H1 & H2 & H3).
  { cbn [spec_run]. unfold spec_step, accepts. rewrite Hb1. cbn. eexists. split; [reflexivity|].
    cbn. unfold Fold._on_escalation_resolved. by destruct ctx. }
  assert (exists i2 ts, spec_run None i1 es = spec_run None i2 ts /\ wi_status i2 = wi_status i1 /\
    wi_step_states i2 = wi_step_states i1 /\ wi_escalations i2 = wi_escalations i1 /\
    (ev_body <$> ts) = Escalation.transition_bodies i sid resolution by_)
    as (i2 & ts & -> & H4 & H5 & H6 & Hts).
  { destruct budget as [b|]; cbn [Escalation.budget_bodies app] in Hb; [|by exists i1, es].
    destruct es as [|e2 es]; [done|]. injection Hb as Hb2 Hb.
    cbn [spec_run]. unfold spec_step, accepts. rewrite Hb2. cbn. eexists _, es. by split_and!. }
  destruct (transitions_run i sid resolution by_ ts i2 Hw Hstep Hts) as (j & Hj & Hj1 & Hj2 & Hj3);
    [by rewrite H4|by rewrite H5|]. exists j. split_and!; [done..|by rewrite Hj2, H6|done].
Qed.

(** What makes an escalation resolvable. *)
Record resolvable (w : W) (eid tid : string) (esc : Escalation.PendingEscalation)
    (i : WorkflowInstance) : Prop := {
  rv_row : Escalation.esc_get eid w = Some esc;
  rv_tenant : Escalation.pe_tenant_id esc = tid;
  rv_pending : Escalation.pe_status esc = "pending";
  rv_instance : get_instance (Escalation.pe_instance_id esc) tid None w = (Ok (Some i), w);
  rv_waiting : wi_status i = WorkflowStatus.WAITING_APPROVAL;
}.

(** C27: A decision has exactly its meaning.  Resolving a pending escalation of a
    waiting instance, whose step, if it names one, is itself waiting for approval (as
    raising the escalation left it), succeeds and appends exactly the resolution, the new budget
    if one is given, and the transitions of the decision, to the log of that
    instance only; afterwards the escalation is resolved; approval or
    modification completes the step if it has an output and otherwise queues it,
    a skip skips it, and the workflow runs again; any other resolution fails the
    workflow and leaves the step; and an escalation about no step rolls the
    workflow back, or fails it. *)
Theorem resolve_decides w eid tid resolution by_ ctx budget esc i :
  journal_ok w -> one_genesis (jlog w (Escalation.pe_instance_id esc)) ->
  resolvable w eid tid esc i ->
  (forall st, decided_step i (Escalation.pe_step_id esc) = Some st ->
     st_status st = StepStatus.WAITING_APPROVAL) ->
  let iid := Escalation.pe_instance_id esc in
  let sid := Escalation.pe_step_id esc in
  exists w' evs j, Escalation.resolve eid tid resolution by_ ctx budget w = (Ok iid, w') /\
    jlog w' iid = jlog w iid ++ evs /\
    ev_body <$> evs = decision_bodies i eid sid resolution by_ ctx budget /\
    (forall k, k <> iid -> jlog w' k = jlog w k) /\
    Fold.fold (jlog w' iid) None None = Ok j /\
    wi_status j = decided_status i sid resolution /\
    wi_escalations j = Fold.resolve_ref eid <$> wi_escalations i /\
    wi_step_states j =
      match decided_step i sid with
      | Some st => <[sid := set_st_status (decided_step_status st resolution) st]> (wi_step_states i)
      | None => wi_step_states i
      end.
Proof.
  intros Hok Hg [Hrow Hten Hpend Hget Hwait] Hstep. cbn.
  set (iid := Escalation.pe_instance_id esc) in *. set (sid := Escalation.pe_step_id esc) in *.
  destruct (read_plain w iid tid Hok Hg) as (o & Hget' & Ho). rewrite Hget in Hget'.
  injection Hget' as <-. destruct (proj1 (Ho i) eq_refl) as [Hf Ht].
  assert (wi_instance_id i = iid) as Hi by (eapply fold_owner; [by apply owner_law|exact Hf]).
  destruct (controller_event i (now w) (EscalationResolved eid sid resolution by_ ctx) w eq_refl)
    as (e & wa & He & Hsa & Hda).
  destruct (controller_events i (now w) (Escalation.budget_bodies eid by_ budget) wa)
    as (bs & wb & Hbs & Hsb & Hdb); [by destruct budget; repeat constructor|].
  destruct (controller_events i (now w) (Escalation.transition_bodies i sid resolution by_) wb)
    as (ts & w1 & Hts & Hsc & Hdc); [apply transition_bodies_valid|].
  set (es := e :: bs ++ ts).
  assert (Forall2 (is_draft iid tid) (decision_bodies i eid sid resolution by_ ctx budget) es) as Hd.
  { rewrite <- Hi, <- Ht. apply Forall2_cons. split; [done|]. by apply Forall2_app. }
  assert (same w w1) as Hs by (etransitivity; [exact Hsa|etransitivity; [exact Hsb|exact Hsc]]).
  destruct (Hs Hok) as [Hok1 Hl1].
  assert (ev_body <$> sequenced (wi_version i) es
    = decision_bodies i eid sid resolution by_ ctx budget) as Hbody.
  { rewrite sequenced_bodies. symmetry. by eapply is_draft_body. }
  destruct (decision_run i eid sid resolution by_ ctx budget (sequenced (wi_version i) es) Hwait Hstep Hbody)
    as (j & Hrun & Hj1 & Hj2 & Hj3).
  destruct (append_accepted w1 iid tid i (decision_bodies i eid sid resolution by_ ctx budget) es j None Hok1)
    as (w2 & Ha & Hok2 & Hl2 & Ho2 & Hf2); [by rewrite Hl1|done|done|done|done|].
  rewrite Hl1 in Hl2.
  exists w2, (sequenced (wi_version i) es), j. split_and!; try done; [|by intros k Hk; rewrite Ho2, Hl1].
  assert (Escalation._load eid tid w = (Ok (esc, i), w)) as Hload.
  { unfold Escalation._load, Escalation.get.
    rewrite (M_bind_step (gets _) _ w (Some esc) w);
      [|unfold gets; by rewrite Hrow, bool_decide_true].
    rewrite bool_decide_true by done. cbn [negb]. rewrite (M_bind_step _ _ w (Some i) w Hget).
    by rewrite bool_decide_true. }
  unfold Escalation.resolve. rewrite (M_bind_step _ _ w (esc, i) w Hload).
  rewrite (M_bind_step read_clock _ w (now w) w eq_refl). fold sid iid.
  rewrite (M_bind_step _ _ w e wa He), (M_bind_step _ _ wa bs wb Hbs).
  unfold Escalation._transition_events. rewrite (M_bind_step _ _ wb ts w1 Hts).
  by rewrite (M_bind_step _ _ w1 _ w2 Ha).
Qed.

(** Everything else is refused.  Resolving an escalation that does not exist,
    belongs to another tenant, is no longer pending, or whose instance is gone or
    not waiting for approval raises [ConfigurationError] and changes nothing at
    all. *)
Theorem resolve_refuses_the_rest w eid tid resolution by_ ctx budget o :
  (match Escalation.esc_get eid w with
   | Some esc =>
       Escalation.pe_tenant_id esc <> tid \/ Escalation.pe_status esc <> "pending" \/
       (get_instance (Escalation.pe_instance_id esc) tid None w = (Ok o, w) /\
        match o with Some i => wi_status i <> WorkflowStatus.WAITING_APPROVAL | None => True end)
   | None => True
   end) ->
  exists msg, Escalation.resolve eid tid resolution by_ ctx budget w
    = (Err (Exn ConfigurationError msg), w).
Proof.
  intros H. assert (exists msg, Escalation._load eid tid w = (Err (Exn ConfigurationError msg), w))
    as [msg Hl].
  { unfold Escalation._load, Escalation.get, gets. unfold mbind at 1, M_bind at 1.
    destruct (Escalation.esc_get eid w) as [esc|]; [|by eexists].
    case_bool_decide as Ht; [|by eexists].
    case_bool_decide as Hp; cbn [negb]; [|by eexists].
    destruct H as [?|[?|[Hget Ho]]]; [done..|]. rewrite (M_bind_step _ _ w o w Hget).
    destruct o as [i|]; [|by eexists]. rewrite bool_decide_false by done. by eexists. }
  exists msg. unfold Escalation.resolve. by rewrite (M_bind_raise _ _ w _ w Hl).
Qed.
End escalations.
End operators.
