(* ===== verification/World.v ===== *)
(** The deployed world: the database together with the state of one process (its
    clock, its id generator and the notifications it has sent).

    Every interface the engine is written against is implemented on it by lifting
    the Postgres implementation, and the laws of the interfaces lift with it. *)

From stdpp Require Import base strings list gmap relations pretty.
From Stdlib Require Import ZArith Lia.
From S2P Require Import Prelude Exceptions Values Enums Definitions Instance Events Fold.
From S2P Require Import FoldTheory Tables EventStore EventStoreTheory Outbox Ports SideEffects.
From S2P Require Import Cost LlmClient Runners Journal Driver DriverTheory Escalation DeadLetter.
From S2P Require Import Instances.

Import Cost DefinitionRepo DeadLetter Escalation.

(** The process. *)
Record Env := {
  env_clock : FixedClock;
  env_ids : SequentialIdGenerator;
  env_sent : list Notification;
}.

Section world.
Context {C : Codec} {CL : CodecLaws}.

Abbreviation World := (DB * Env)%type.

Definition with_ids (e : Env) (g : SequentialIdGenerator) : Env :=
  {| env_clock := env_clock e; env_ids := g; env_sent := env_sent e |}.

#[export] Instance world_clock : Clock World := {| now w := fc_now (env_clock (snd w)) |}.

#[export] Instance world_ids : IdGenerator World := {|
  new_id w := let '(i, g) := new_id (env_ids (snd w)) in (i, (fst w, with_ids (snd w) g)) |}.

#[export] Instance world_journal : EventJournal World := {|
  append_new iid tid drafts ver g nw := fun w =>
    on_fst (append_new iid tid drafts ver ((fun h db => h (db, snd w)) <$> g) nw) w;
  get_instance iid tid defn := on_fst (get_instance iid tid defn) |}.

#[export] Instance world_definitions : DefinitionSource World := {|
  get_definition wid ver tid := on_fst (get_definition wid ver tid);
  get_active name tid := on_fst (get_active name tid) |}.

#[export] Instance world_outbox : OutboxStore World := {|
  claim e := on_fst (claim e);
  mark key fs := on_fst (mark key fs);
  list_for_instance i t s := on_fst (list_for_instance i t s) |}.

#[export] Instance world_ledger : BudgetLedger World := {|
  spent_today t day w := spent_today t day (fst w);
  record_amount t day x := on_fst (record_amount t day x) |}.

#[export] Instance world_dead_letters : DeadLetters World := {|
  record_dead_letter i s r := on_fst (record_dead_letter i s r) |}.

#[export] Instance world_escalations : Escalation.EscalationReadStore World := {|
  Escalation.esc_get e w := Escalation.esc_get e (fst w);
  Escalation.esc_list_pending t n w := Escalation.esc_list_pending t n (fst w);
  Escalation.esc_due t n w := Escalation.esc_due t n (fst w) |}.

#[export] Instance world_notifier : Notifier World := {|
  notify n := fun w => (Ok tt, (fst w, {| env_clock := env_clock (snd w);
                                          env_ids := env_ids (snd w);
                                          env_sent := env_sent (snd w) ++ [n] |})) |}.

Lemma on_fst_eq {A B R} (m : M A exn R) (w : A * B) r a :
  m (fst w) = (r, a) -> on_fst m w = (r, (a, snd w)).
Proof. intros H. unfold on_fst. by rewrite H. Qed.

Lemma on_fst_inv {A B R} (m : M A exn R) (w w' : A * B) r :
  on_fst m w = (r, w') -> m (fst w) = (r, fst w').
Proof. unfold on_fst. destruct (m (fst w)) as [r' a]. by intros [= -> <-]. Qed.

#[export] Instance world_journal_laws : JournalLaws World.
Proof.
  refine {| journal_ok w := store_inv (fst w); jlog w := log (fst w);
            journal_defn := fun _ => None |}.
  - done.
  - intros w iid Hok. exact (owner_law (W := DB) (fst w) iid Hok).
  - intros w iid tid drafts ver g nw v evs w' Hok Hb Ha. cbn in Ha. apply on_fst_inv in Ha.
    destruct (append_ok_law (JournalLaws := PgJournalLaws) _ _ _ _ _ _ _ _ _ _ Hok Hb Ha)
      as (H1 & H2 & H3 & H4 & H5 & H6 & H7 & H8).
    split_and!; try done. by destruct g, w.
  - intros w iid tid drafts ver g nw e w' Hok Hb Ha. cbn in Ha. apply on_fst_inv in Ha.
    by eapply (append_err_law (JournalLaws := PgJournalLaws)) in Ha.
  - intros w iid tid drafts g nw i Hok Hd Hb Hl Hown Hg Hf Ht.
    destruct (append_total_law (JournalLaws := PgJournalLaws) (fst w) iid tid drafts
      ((fun h db => h (db, snd w)) <$> g) nw i Hok Hd Hb Hl Hown) as (db' & Ha); [|done..|].
    + by destruct g, w.
    + exists (db', snd w). cbn. by apply on_fst_eq.
  - intros w iid tid defn Hok Hone.
    destruct (get_law (JournalLaws := PgJournalLaws) (fst w) iid tid defn Hok Hone) as (o & Hget & Ho).
    exists o. split; [|done]. destruct w as [db env]. exact (on_fst_eq _ (db, env) _ _ Hget).
Defined.

(** A table that is not the journal's. *)
Lemma db_frame db db' :
  db_events db' = db_events db -> db_snapshots db' = db_snapshots db ->
  db_index db' = db_index db -> store_inv db ->
  store_inv db' /\ forall j, log db' j = log db j.
Proof.
  intros He Hs Hi Hok. split; [by apply (store_inv_frame db)|]. intros j. by apply log_frame.
Qed.

#[export] Instance world_frame : JournalFrame World.
Proof.
  constructor.
  - intros [db e] Hok. split; [exact Hok|done].
  - intros e [db env] _. split; [|by destruct (fst _)]. intros Hok. cbn in *.
    apply db_frame; by destruct db.
  - intros key fs [db env] _. split; [|done]. intros Hok. apply db_frame; by destruct db.
  - intros i t s [db env] _. split; [|done]. intros Hok. by apply db_frame.
  - intros a b c [db env] _. unfold get_definition, world_definitions, on_fst. cbn.
    destruct (DefinitionRepo.repo_get _ _ _ db); split; try done; intros Hok; by apply db_frame.
  - intros t day x [db env] _. split; [|done]. intros Hok. apply db_frame; by destruct db.
  - intros i s r [db env] _. unfold record_dead_letter, world_dead_letters, on_fst. cbn.
    unfold DeadLetter.record. destruct (_ <? _)%nat; split; try done; intros Hok;
      apply db_frame; by destruct db.
  - intros n [db env] _. split; [|done]. intros Hok. by apply db_frame.
Qed.
End world.
