(* ===== verification/Worker.v ===== *)
(** The worker ([worker.py]) and the recovery scan ([core/recovery.py]).

    The claim, heartbeat, recovery and sweep loops are cut at their await points
    into atomic pieces; [step] interleaves the pieces with each other, with the
    tasks that drive instances and with the other processes of the deployment. *)

From stdpp Require Import base strings list gmap sorting relations.
From Stdlib Require Import ZArith Lia.
From S2P Require Import Prelude Exceptions Values Enums Definitions Instance Events Tables EventStore.
From S2P Require Import Leasing Ports Driver.

Import Leasing Driver.

(** [LeaseStore] ([core/persistence/protocols.py]); the guard is checked in the
    world of the append it protects. *)
Class LeaseStore (W : Type) := {
  ls_acquire_runnable : string -> Z -> time -> M W exn (list Lease);
  ls_heartbeat : string -> list string -> time -> M W exn (gset string);
  ls_release : string -> string -> M W exn unit;
  ls_reclaim_expired : time -> M W exn (list string);
  ls_make_guard : Lease -> W -> res unit;
}.

(** What a lease store promises a worker: at most as many leases as asked for,
    each its own. *)
Class LeaseStoreLaws (W : Type) `{LeaseStore W} := {
  acquire_law w limit t s ls s' :
    ls_acquire_runnable w limit t s = (Ok ls, s') ->
    (Z.of_nat (length ls) <= Z.max limit 0)%Z /\ Forall (fun l => le_worker_id l = w) ls;
}.

(** The Postgres store, for a lease duration and the rows other transactions
    have locked. *)
#[export] Instance PgLeaseStore {C : Codec} {B : Type} (lease_seconds : Z) (locked : gset string)
    : LeaseStore (DB * B) := {|
  ls_acquire_runnable w limit t := on_fst (acquire_runnable lease_seconds locked w limit t);
  ls_heartbeat w ids t := on_fst (heartbeat lease_seconds w ids t);
  ls_release w iid := on_fst (release w iid);
  ls_reclaim_expired t := gets (fun s => reclaim_expired t (fst s));
  ls_make_guard l s := make_guard l (fst s) |}.

Lemma take_leases_length ls w now leases rows :
  length (snd (take_leases ls w now leases rows)) = length rows /\
  Forall (fun L => le_worker_id L = w) (snd (take_leases ls w now leases rows)).
Proof.
  revert leases. induction rows as [|r rows IH]; intros leases; cbn; [done|].
  destruct (upsert_lease ls w now leases r) as [l1 f]. destruct (IH l1) as [H1 H2].
  destruct (take_leases ls w now l1 rows) as [l2 acq]. cbn in *. split; [by rewrite H1|by constructor].
Qed.

#[export] Instance PgLeaseStoreLaws {C : Codec} {B : Type} ls locked :
  LeaseStoreLaws (DB * B) (H := PgLeaseStore ls locked).
Proof.
  constructor. intros w limit t [db b] acq s'. cbn. unfold on_fst, acquire_runnable. cbn.
  destruct (Z.leb_spec limit 0) as [Hl|Hl].
  - intros [= <- _]. cbn. split; [lia|constructor].
  - pose proof (take_leases_length ls w t (db_leases db) (claim locked limit t db)) as [H1 H2].
    destruct (take_leases _ _ _ _ _) as [l2 a]. intros [= <- _]. cbn in *. split; [|done].
    rewrite H1. unfold claim. rewrite length_take. lia.
Qed.

(** ** Recovery scan *)
Module Recovery.
Section scan.
Context {C : Codec}.

Record RecoveryReport := {
  rr_scanned_at : time;
  rr_orphaned_instances : list string;
  rr_expired_leases : Z;
}.

Definition healthy (r : RecoveryReport) : bool :=
  bool_decide (length (rr_orphaned_instances r) = 0%nat).

(** The [where] clause of the query is the one of [acquire_runnable] and
    staleness. *)
Definition orphaned (stale_after_seconds : Z) (now : time) (db : DB) (r : InstanceIndexRow) : bool :=
  claimable (db_leases db) now r &&
  (ix_updated_at r <? now - seconds stale_after_seconds)%Z.

Definition scan (stale_after_seconds : Z) (now : time) (db : DB) : RecoveryReport := {|
  rr_scanned_at := now;
  rr_orphaned_instances :=
    (fun p => ix_instance_id p.2) <$>
      filter (fun p => orphaned stale_after_seconds now db p.2 = true)
        (map_to_list (db_index db));
  rr_expired_leases := Z.of_nat (length (reclaim_expired now db)) |}.

(** With room for every instance and no row locked, a claim takes every
    claimable row. *)
Lemma claim_all limit now db iid r :
  (Z.of_nat (size (db_index db)) <= limit)%Z -> db_index db !! iid = Some r ->
  claimable (db_leases db) now r = true -> r ∈ claim ∅ limit now db.
Proof.
  intros Hlim Hr Hc. unfold claim. rewrite take_ge.
  - unfold order_by. rewrite (merge_sort_Permutation (key_order ix_updated_at)).
    apply list_elem_of_filter. split; [by split; [|apply not_elem_of_empty]|].
    apply (list_elem_of_fmap_2 snd (map_to_list (db_index db)) (iid, r)).
    by apply elem_of_map_to_list.
  - unfold order_by. rewrite (merge_sort_Permutation (key_order ix_updated_at)).
    etransitivity; [apply length_filter|]. rewrite length_fmap, length_map_to_list. lia.
Qed.

(** C30: The scan and the claim agree, and claiming repairs.  An instance is
    reported as orphaned exactly when a worker could claim it now and it has not
    been updated for the staleness period; and once a worker has claimed with room
    for every instance, the scan at that moment is healthy. *)
Theorem recovery_converges stale ls w limit now db acq db' :
  index_keyed db -> (0 <= ls)%Z -> (0 < limit)%Z -> (Z.of_nat (size (db_index db)) <= limit)%Z ->
  acquire_runnable ls ∅ w limit now db = (Ok acq, db') ->
  (forall iid, iid ∈ rr_orphaned_instances (scan stale now db) <->
     exists r, db_index db !! iid = Some r /\ claimable (db_leases db) now r = true /\
       (ix_updated_at r < now - seconds stale)%Z) /\
  (forall iid, iid ∈ rr_orphaned_instances (scan stale now db) -> iid ∈ le_instance_id <$> acq) /\
  healthy (scan stale now db') = true.
Proof.
  intros Hk Hls Hpos Hlim Hacq. unfold acquire_runnable in Hacq.
  rewrite (proj2 (Z.leb_gt limit 0)) in Hacq by lia.
  destruct (take_leases ls w now (db_leases db) (claim ∅ limit now db)) as [leases acq'] eqn:Ht.
  injection Hacq as -> <-.
  apply take_leases_spec in Ht as (Hids & Hout & Hall); [|by apply claim_NoDup].
  assert (forall iid, iid ∈ rr_orphaned_instances (scan stale now db) <->
     exists r, db_index db !! iid = Some r /\ claimable (db_leases db) now r = true /\
       (ix_updated_at r < now - seconds stale)%Z) as Horph.
  { intros iid. unfold scan. cbn. rewrite list_elem_of_fmap. split.
    - intros ([i r] & -> & [Ho Hr%elem_of_map_to_list]%list_elem_of_filter). cbn in *.
      unfold orphaned in Ho. apply andb_true_iff in Ho as [Hc Hu]. exists r.
      rewrite (Hk i r Hr). split_and!; [done..|lia].
    - intros (r & Hr & Hc & Hu). exists (iid, r). split; [cbn; by rewrite (Hk iid r Hr)|].
      apply list_elem_of_filter. split; [|by apply elem_of_map_to_list].
      unfold orphaned. cbn. rewrite Hc. cbn. lia. }
  split_and!; [done| |].
  - intros iid (r & Hr & Hc & _)%Horph. rewrite Hids. rewrite <- (Hk iid r Hr).
    apply list_elem_of_fmap_2. by eapply claim_all.
  - unfold healthy, scan. cbn. apply bool_decide_eq_true, length_zero_iff_nil.
    rewrite index_set_leases. rewrite (filter_all_false _ (map_to_list (db_index db))); [done|].
    intros [iid r] Hr. apply elem_of_map_to_list in Hr. cbn.
    unfold orphaned. rewrite leases_set_leases.
    enough (claimable leases now r = false) as -> by done.
    destruct (claimable (db_leases db) now r) eqn:Hc.
    + assert (iid ∈ le_instance_id <$> acq) as HL.
      { rewrite Hids, <- (Hk iid r Hr). apply list_elem_of_fmap_2. by eapply claim_all. }
      apply list_elem_of_fmap in HL as (L & -> & HL). rewrite Forall_forall in Hall.
      destruct (Hall L HL) as ((row & Hrow & _ & _ & He) & _ & Hexp & _).
      unfold claimable. rewrite (Hk _ r Hr), Hrow, He, Hexp.
      rewrite (proj2 (Z.ltb_ge _ _)); [by rewrite !andb_false_r|]. unfold ttl, seconds. lia.
    + rewrite <- Hc. unfold claimable. rewrite (Hk iid r Hr), Hout; [done|].
      intros (r' & -> & Hr')%list_elem_of_fmap. apply claim_spec in Hr' as (Hr1 & Hr2 & _); [|done].
      congruence.
Qed.
End scan.
End Recovery.

(** ** The worker *)
Module Worker.
Section worker.
Context {W : Type} {Ls : LeaseStore W} {Ck : Clock W}.

(** The driver the worker was given. *)
Context (drive : Lease -> (W -> res unit) -> M W exn DriveReport).
Context (worker_id : string) (concurrency : Z).

(** How the task of one lease ended. *)
Inductive task_end := Drove (r : DriveReport) | Failed (e : exn).

(** [_drive_one]: an exception of the drive is logged, one of the release is
    suppressed; the lease is released either way. *)
Definition _drive_one (l : Lease) : M W exn task_end := fun w =>
  let '(r, w1) := drive l (ls_make_guard l) w in
  let '(_, w2) := ls_release worker_id (le_instance_id l) w1 in
  (match r with
   | Ok rep => Ok (Drove rep)
   | Err e => if is_Exception e then Ok (Failed e) else Err e
   end, w2).

(** [run_once]: no exception is caught, but the lease in hand is released. *)
Fixpoint drive_all (leases : list Lease) : M W exn (list DriveResult.t) :=
  match leases with
  | [] => mret []
  | l :: leases => fun w =>
      let '(r, w1) := drive l (ls_make_guard l) w in
      let '(f, w2) := ls_release worker_id (le_instance_id l) w1 in
      match r, f with
      | Ok rep, Ok _ => (rest ← drive_all leases; mret (rp_result rep :: rest)) w2
      | _, Err e => (Err e, w2)
      | Err e, Ok _ => (Err e, w2)
      end
  end.

Definition run_once : M W exn (list DriveResult.t) :=
  t ← read_clock;
  leases ← ls_acquire_runnable worker_id concurrency t;
  drive_all leases.

(** *** State

    [ws_active] holds the lease of each running task and whether it was cancelled;
    [ws_claiming] the number of free slots while an acquire is in flight, and
    [ws_beating] the instances held while a heartbeat is in flight. *)
Record state := {
  ws_active : gmap string (Lease * bool);
  ws_stopping : bool;
  ws_wakeup : bool;
  ws_claiming : option Z;
  ws_beating : option (list string);
}.

Definition init : state := {|
  ws_active := ∅; ws_stopping := false; ws_wakeup := false; ws_claiming := None;
  ws_beating := None |}.

Definition set_active (m : gmap string (Lease * bool)) (s : state) : state := {|
  ws_active := m; ws_stopping := ws_stopping s; ws_wakeup := ws_wakeup s;
  ws_claiming := ws_claiming s; ws_beating := ws_beating s |}.
Definition set_wakeup (b : bool) (s : state) : state := {|
  ws_active := ws_active s; ws_stopping := ws_stopping s; ws_wakeup := b;
  ws_claiming := ws_claiming s; ws_beating := ws_beating s |}.
Definition set_claiming (o : option Z) (s : state) : state := {|
  ws_active := ws_active s; ws_stopping := ws_stopping s; ws_wakeup := ws_wakeup s;
  ws_claiming := o; ws_beating := ws_beating s |}.
Definition set_beating (o : option (list string)) (s : state) : state := {|
  ws_active := ws_active s; ws_stopping := ws_stopping s; ws_wakeup := ws_wakeup s;
  ws_claiming := ws_claiming s; ws_beating := o |}.

Definition stop (s : state) : state := {|
  ws_active := ws_active s; ws_stopping := true; ws_wakeup := true;
  ws_claiming := ws_claiming s; ws_beating := ws_beating s |}.

Definition free_slots (s : state) : Z := (concurrency - Z.of_nat (size (ws_active s)))%Z.

Definition _spawn (s : state) (l : Lease) : state :=
  set_active (<[le_instance_id l := (l, false)]> (ws_active s)) s.

(** [if lease.instance_id not in self._active: self._spawn(lease)] *)
Definition spawn_new (s : state) (l : Lease) : state :=
  match ws_active s !! le_instance_id l with Some _ => s | None => _spawn s l end.

(** One turn of [_claim_loop] up to the acquire: the loop ends when stopping. *)
Definition begin_claim (s : state) : option state :=
  if ws_stopping s then None
  else if (0 <? free_slots s)%Z then Some (set_claiming (Some (free_slots s)) s)
  else Some (set_wakeup false s).

(** ... and from its reply to the wait. *)
Definition end_claim (r : res (list Lease)) (s : state) : state :=
  set_wakeup false (set_claiming None
    (foldl spawn_new s match r with Ok leases => leases | Err _ => [] end)).

(** The [finally] of [_drive_one] and the done callback. *)
Definition finished (iid : string) (s : state) : state :=
  set_wakeup true (set_active (delete iid (ws_active s)) s).

Definition begin_heartbeat (s : state) : state :=
  match (map_to_list (ws_active s)).*1 with
  | [] => s
  | held => set_beating (Some held) s
  end.

Definition cancel (iid : string) (m : gmap string (Lease * bool)) : gmap string (Lease * bool) :=
  alter (fun p => (p.1, true)) iid m.

Definition end_heartbeat (held : list string) (r : res (gset string)) (s : state) : state :=
  set_beating None match r with
  | Ok alive => set_active (foldr cancel (ws_active s) (filter (fun i => i ∉ alive) held)) s
  | Err _ => s
  end.

Definition recovery_tick (r : res (list string)) (s : state) : state :=
  match r with Ok (_ :: _) => set_wakeup true s | _ => s end.

Definition sweep_tick (r : res (list string)) (s : state) : state :=
  match r with Ok (_ :: _) => set_wakeup true s | _ => s end.

(** *** Interleaving

    [env] is whatever the running tasks and the other processes do to the world
    between two steps; a cancelled task ends in whatever world its last await left
    and still releases its lease. *)
Context (env : W -> W -> Prop) (expire_due : M W exn (list string)).

Inductive step : state * W -> state * W -> Prop :=
| SEnv s w w' : env w w' -> step (s, w) (s, w')
| SStop s w : step (s, w) (stop s, w)
| SBeginClaim s s' w : ws_claiming s = None -> begin_claim s = Some s' -> step (s, w) (s', w)
| SEndClaim s w free r w' : ws_claiming s = Some free ->
    ls_acquire_runnable worker_id free (now w) w = (r, w') ->
    step (s, w) (end_claim r s, w')
| SFinish s w iid l r w' : ws_active s !! iid = Some (l, false) ->
    _drive_one l w = (r, w') -> step (s, w) (finished iid s, w')
| SCancelled s w iid l w' : ws_active s !! iid = Some (l, true) ->
    snd (ls_release worker_id (le_instance_id l) w) = w' -> step (s, w) (finished iid s, w')
| SBeginBeat s w : ws_beating s = None -> step (s, w) (begin_heartbeat s, w)
| SEndBeat s w held r w' : ws_beating s = Some held ->
    ls_heartbeat worker_id held (now w) w = (r, w') -> step (s, w) (end_heartbeat held r s, w')
| SRecover s w r w' : ls_reclaim_expired (now w) w = (r, w') -> step (s, w) (recovery_tick r s, w')
| SSweep s w r w' : expire_due w = (r, w') -> step (s, w) (sweep_tick r s, w').

(** *** Invariants *)
Context {Ll : LeaseStoreLaws W}.

Record worker_inv (s : state) : Prop := {
  wi_bound : (Z.of_nat (size (ws_active s)) + default 0 (ws_claiming s) <= concurrency)%Z;
  wi_free : (0 <= default 0 (ws_claiming s))%Z;
  wi_own : map_Forall (fun iid p => le_instance_id p.1 = iid /\ le_worker_id p.1 = worker_id)
             (ws_active s);
}.

Lemma spawn_all_inv ls s :
  Forall (fun l => le_worker_id l = worker_id) ls ->
  map_Forall (fun iid p => le_instance_id p.1 = iid /\ le_worker_id p.1 = worker_id) (ws_active s) ->
  let s' := foldl spawn_new s ls in
  map_Forall (fun iid p => le_instance_id p.1 = iid /\ le_worker_id p.1 = worker_id) (ws_active s') /\
  size (ws_active s') <= size (ws_active s) + length ls /\
  ws_claiming s' = ws_claiming s /\ ws_stopping s' = ws_stopping s.
Proof.
  revert s. induction ls as [|l ls IH]; intros s Hw Hown; cbn; [split_and!; [done|lia|done..]|].
  apply Forall_cons in Hw as [Hl Hw].
  assert (map_Forall (fun iid p => le_instance_id p.1 = iid /\ le_worker_id p.1 = worker_id)
            (ws_active (spawn_new s l)) /\
          size (ws_active (spawn_new s l)) <= size (ws_active s) + 1 /\
          ws_claiming (spawn_new s l) = ws_claiming s /\
          ws_stopping (spawn_new s l) = ws_stopping s) as (H1 & H2 & H3 & H4).
  { unfold spawn_new. destruct (ws_active s !! le_instance_id l) eqn:E; [split_and!; [done|lia|done..]|].
    split_and!; [|by cbn; rewrite map_size_insert_None by done; lia|done..].
    cbn. by apply map_Forall_insert_2. }
  destruct (IH (spawn_new s l) Hw H1) as (H5 & H6 & H7 & H8).
  split_and!; [done|lia|by rewrite H7|by rewrite H8].
Qed.

Lemma cancel_keeps m held :
  let m' := foldr cancel m held in
  dom m' = dom m /\ forall iid, fst <$> m' !! iid = fst <$> m !! iid.
Proof.
  induction held as [|i held [IH1 IH2]]; cbn; [done|]. unfold cancel at 1 3. split.
  - by rewrite dom_alter_L.
  - intros iid. rewrite <- IH2. destruct (decide (i = iid)) as [->|Hne].
    + rewrite lookup_alter_eq. by destruct (foldr cancel m held !! iid).
    + by rewrite lookup_alter_ne.
Qed.

Lemma step_inv a b : worker_inv (fst a) -> step a b -> worker_inv (fst b).
Proof.
  intros [Hb Hf Ho] Hs. destruct Hs; cbn in *; try by split.
  - unfold begin_claim in *. destruct (ws_stopping s); [done|].
    destruct (Z.ltb_spec 0 (free_slots s)); simplify_eq; split; cbn; try done; [|lia].
    unfold free_slots. lia.
  - rewrite H in Hb, Hf. cbn in Hb, Hf. unfold end_claim. destruct r as [ls|e].
    + apply acquire_law in H0 as [Hlen Hw].
      destruct (spawn_all_inv ls s Hw Ho) as (H1 & H2 & H3 & H4). split; cbn; [lia|lia|done].
    + split; cbn; [lia|lia|done].
  - split; cbn; [|done|by apply map_Forall_delete].
    rewrite map_size_delete_Some by (by eexists). lia.
  - split; cbn; [|done|by apply map_Forall_delete].
    rewrite map_size_delete_Some by (by eexists). lia.
  - unfold begin_heartbeat. by destruct (_.*1).
  - unfold end_heartbeat. destruct r as [alive|e]; [|by split].
    destruct (cancel_keeps (ws_active s) (filter (fun i => i ∉ alive) held)) as [H1 H2].
    split; cbn; [|done|].
    + rewrite <- (size_dom (D := gset string)), H1, size_dom. done.
    + intros iid [l c] Hl. cbn. pose proof (f_equal (fmap (M := option) fst) Hl) as Hl'.
      specialize (H2 iid). rewrite Hl in H2. cbn in H2.
      destruct (ws_active s !! iid) as [p|] eqn:E; [|done]. injection H2 as ->. by apply (Ho iid).
  - unfold recovery_tick. destruct r as [[|]|]; by split.
  - unfold sweep_tick. destruct r as [[|]|]; by split.
Qed.

(** A worker never runs more than [concurrency] tasks.  In every state a
    worker reaches from its start, however its loops, its tasks and the other
    processes interleave, at most [concurrency] drives are running, counting the
    slots promised to an acquire in flight, and each runs under a lease of this
    worker for its own instance. *)
Theorem worker_bounded w0 s w :
  (0 <= concurrency)%Z -> rtc step (init, w0) (s, w) ->
  (Z.of_nat (size (ws_active s)) + default 0 (ws_claiming s) <= concurrency)%Z /\
  map_Forall (fun iid p => le_instance_id p.1 = iid /\ le_worker_id p.1 = worker_id) (ws_active s).
Proof.
  intros Hc Hr. assert (worker_inv s) as [H1 _ H3]; [|done].
  change s with (fst (s, w)).
  eapply (rtc_keeps step (fun a => worker_inv (fst a))); [apply step_inv|exact Hr|].
  split; cbn; [rewrite map_size_empty; lia|lia|apply map_Forall_empty].
Qed.

(** A stopping worker only drains.  Once [stop] was called and no acquire is
    in flight, no step starts a task: the tasks that run are among those that ran
    before, under the same leases, and the worker keeps stopping. *)
Theorem stopping_worker_drains s w s' w' :
  ws_stopping s = true -> ws_claiming s = None -> rtc step (s, w) (s', w') ->
  ws_stopping s' = true /\ ws_claiming s' = None /\
  forall iid l c, ws_active s' !! iid = Some (l, c) -> fst <$> ws_active s !! iid = Some l.
Proof.
  intros Hst Hcl Hr.
  set (P := fun a : state * W => ws_stopping (fst a) = true /\ ws_claiming (fst a) = None /\
    forall iid l c, ws_active (fst a) !! iid = Some (l, c) -> fst <$> ws_active s !! iid = Some l).
  change (P (s', w')). eapply (rtc_keeps step P); [|exact Hr|].
  - intros a b (H1 & H2 & H3) Hab. destruct Hab; unfold P in *; cbn in *; try done.
    + unfold begin_claim in *. by rewrite H1 in *.
    + by rewrite H2 in *.
    + split_and!; [done..|]. intros iid' l' c [_ Hl]%lookup_delete_Some. by eapply H3.
    + split_and!; [done..|]. intros iid' l' c [_ Hl]%lookup_delete_Some. by eapply H3.
    + unfold begin_heartbeat. by destruct (_.*1).
    + unfold end_heartbeat. destruct r as [alive|e]; [|done].
      destruct (cancel_keeps (ws_active s0) (filter (fun i => i ∉ alive) held)) as [_ Hk].
      split_and!; [done..|]. cbn. intros iid l c Hl. specialize (Hk iid). rewrite Hl in Hk.
      destruct (ws_active s0 !! iid) as [[l0 c0]|] eqn:E; [|done]. injection Hk as ->. by eapply H3.
    + unfold recovery_tick. by destruct r as [[|]|].
    + unfold sweep_tick. by destruct r as [[|]|].
  - split_and!; [done..|]. cbn. intros iid l c Hl. by rewrite Hl.
Qed.
End worker.
End Worker.
