(* ===== verification/RunOnce.v ===== *)
(** One pass of a worker ([Worker.run_once], [worker.py]) over the deployed world:
    claim what is runnable, drive each claimed instance under its own lease guard,
    release the lease.  Nothing a drive does reaches the leases, the definitions or
    the logs of other instances, so what is known of the instances still to be
    driven stays true; while their attempts succeed, all of them complete.  What the
    guard gives is stated on the same world: a worker whose lease is lost writes
    nothing, but a lease taken between the guard and the commit goes unnoticed. *)

From stdpp Require Import base strings list gmap relations sorting.
From Stdlib Require Import ZArith Lia.
From S2P Require Import Prelude Exceptions Values Enums Definitions Instance Events Fold.
From S2P Require Import FoldTheory Tables EventStore EventStoreTheory Leasing Outbox Ports.
From S2P Require Import SideEffects Cost LlmClient Runners Journal Driver DriverTheory PlanTheory.
From S2P Require Import DriverProps WaveTheory Completion Escalation DeadLetter Instances World.
From S2P Require Import Worker Digests.

Import SideEffects Cost Llm Leasing Driver.

(** ** What an append leaves alone *)

Section desk.
Context {C : Codec}.

(** The leases and the definitions. *)
Definition desk (db : DB) := (db_leases db, db_definitions db).

Lemma append_desk p iid tid drafts v g nw :
  preserves desk (EventStore.append_new p id iid tid drafts v g nw).
Proof.
  apply append_unwritten; [by constructor; intros ? []|]. intros evs db.
  unfold EventStore.publish. destruct p; [done|]. destruct (last _); [|done].
  destruct (db_bus_up db); by destruct db.
Qed.

(** ** A lease that is stolen between the guard and the commit *)

Context {CL : CodecLaws}.

(** C40: The fence is checked, not held.  The guard of an append reads the lease row
    and does not lock it.  So if the guard passes and then, before the flush, other
    transactions commit that leave this log alone but take the lease (as another
    worker's claim of a lapsed lease does), every append that would have succeeded
    without them still succeeds: its events are in the log although the lease was
    no longer the writer's own when they were written, and is not when it commits. *)
Theorem stolen_lease_still_writes p steal L iid tid drafts nw db i :
  store_inv db -> store_inv (steal db) -> log (steal db) iid = log db iid ->
  make_guard L db = Ok tt -> make_guard L (steal db) <> Ok tt ->
  drafts <> [] -> valid_bodies drafts ->
  Forall (fun e => ev_instance_id e = iid /\ ev_tenant_id e = tid) drafts ->
  let ver := Z.of_nat (length (log db iid)) in
  Fold.fold (log db iid ++ sequenced ver drafts) None None = Ok i -> wi_tenant_id i = tid ->
  log db iid <> [] ->
  exists db',
    EventStore.append_new p steal iid tid drafts ver (Some (make_guard L)) nw db
      = (Ok (wi_version i, sequenced ver drafts), db') /\
    store_inv db' /\ log db' iid = log db iid ++ sequenced ver drafts /\
    db_leases db' = db_leases (steal db) /\ make_guard L db' <> Ok tt.
Proof.
  intros Hok Hsok Hl Hg Hlost Hne Hb Hown ver Hfold Ht Hlog.
  pose proof (append_new_raced p steal iid tid drafts (Some (make_guard L)) nw db Hok Hsok Hl Hg Hown)
    as Hrace. fold ver in Hrace.
  destruct (append_total p iid tid drafts None nw (steal db) i Hsok Hne Hb Hown eq_refl)
    as (db' & Ha); [by rewrite Hl|done|left; by rewrite Hl|]. rewrite Hl in Ha. fold ver in Ha.
  pose proof (append_desk p iid tid drafts ver None nw (steal db)) as Hd. rewrite Ha in Hd.
  assert (db_leases db' = db_leases (steal db)) as Hls by (by injection Hd).
  destruct (commit_ok p id iid tid (sequenced ver drafts) ver None nw (steal db)
      (wi_version i) (sequenced ver drafts) db' Hsok (no_interference _ Hsok))
    as (_ & _ & _ & [Hok' _ _ Hlog' _ _] & _); [by rewrite sequenced_numbers, length_sequenced
    |by apply sequenced_valid|exact Ha|].
  exists db'. split; [by rewrite Hrace|]. split; [done|]. split; [by rewrite Hlog', Hl|].
  split; [done|]. intros (r & Hr & Hr')%guard_ok. apply Hlost, guard_ok. exists r. by rewrite <- Hls.
Qed.
End desk.

(** ** A drive on the deployed world *)

Section pass.
Context {Hh : Hashing} {Ps : PyStr} {Cm : CMath} {C : Codec} {CL : CodecLaws}.

Abbreviation World := (DB * Env)%type.

(** What providers and attempts leave alone: the journal, the leases, the
    definitions and the clock. *)
Definition aside (w w' : World) : Prop :=
  same w w' /\ desk (fst w') = desk (fst w) /\ now w' = now w.

#[export] Instance aside_preorder : PreOrder aside.
Proof.
  split; [by intros w; split|]. intros w1 w2 w3 (H1 & H2 & H3) (H4 & H5 & H6).
  split; [by etransitivity|]. split; [by rewrite H5, H2|by rewrite H6, H3].
Qed.

Lemma aside_frame (w w' : World) :
  same w w' -> desk (fst w') = desk (fst w) /\ env_clock (snd w') = env_clock (snd w) ->
  aside w w'.
Proof. intros Hs [Hd He]. split; [done|]. split; [done|]. cbn. by rewrite He. Qed.

Lemma aside_moves {A} (m : M World exn A) :
  keeps m -> (forall w, desk (fst (snd (m w))) = desk (fst w) /\
                env_clock (snd (snd (m w))) = env_clock (snd w)) -> moves aside m.
Proof.
  intros Hk Hd w _. destruct (Hk w I) as [Hs ?]. split; [|done]. by apply aside_frame.
Qed.

#[export] Instance world_attempt_frame : AttemptFrame aside.
Proof.
  constructor.
  - intros [db env]. split; [apply frame_id|]. by split.
  - intros e. apply aside_moves; [apply frame_claim|]. intros [db env]. cbn. by destruct db.
  - intros key fs. apply aside_moves; [apply frame_mark|]. intros [db env]. cbn. by destruct db.
  - intros i t s. by apply aside_moves; [apply frame_list|].
Qed.

#[export] Instance world_frame_along : FrameAlong aside.
Proof.
  constructor; try apply _; [by intros w w' []|..]; intros.
  - apply aside_moves; [apply frame_definition|]. intros [db env].
    unfold get_definition, world_definitions, on_fst. cbn.
    by destruct (DefinitionRepo.repo_get a b c db).
  - apply aside_moves; [apply frame_ledger|]. intros [db env]. cbn. by destruct db.
  - apply aside_moves; [apply frame_dead_letter|]. intros [db env].
    unfold record_dead_letter, world_dead_letters, on_fst. cbn. unfold DeadLetter.record.
    destruct (_ <? _)%nat; [done|]. by destruct db.
  - apply aside_moves; [apply frame_notify|]. by intros [db env].
Qed.

Lemma append_desk_world iid tid drafts ver g nw (w : World) :
  desk (fst (snd (append_new iid tid drafts ver g nw w))) = desk (fst w) /\
  now (snd (append_new iid tid drafts ver g nw w)) = now w.
Proof.
  destruct w as [db env]. cbn. unfold on_fst. cbn.
  match goal with |- context [EventStore.append_new ?p id iid tid drafts ver ?h nw db] =>
    pose proof (append_desk p iid tid drafts ver h nw db) as H;
    destruct (EventStore.append_new p id iid tid drafts ver h nw db) as [r db'] end.
  by split.
Qed.

Lemma guard_desk L db db' : desk db' = desk db -> make_guard L db = Ok tt -> make_guard L db' = Ok tt.
Proof. unfold desk, make_guard. by intros [= -> _]. Qed.

(** ** A worker that has lost its lease *)

(** What happens while the drive waits for its providers: they do not touch the
    journal, and nobody gives a lost lease back. *)
Definition not_regained (L : Lease) (w w' : World) : Prop :=
  same w w' /\ (make_guard L (fst w) <> Ok tt -> make_guard L (fst w') <> Ok tt).

#[export] Instance not_regained_preorder L : PreOrder (not_regained L).
Proof.
  split; [by intros w; split|]. intros w1 w2 w3 [H1 H2] [H3 H4].
  split; [by etransitivity|]. intros Hn. by apply H4, H2.
Qed.

Lemma refused_desk L db db' : desk db' = desk db -> make_guard L db <> Ok tt -> make_guard L db' <> Ok tt.
Proof. intros Hd Hn Hg. apply Hn. by apply (guard_desk L db'). Qed.

Lemma aside_not_regained L w w' : aside w w' -> not_regained L w w'.
Proof. intros (Hs & Hd & _). split; [done|]. by apply refused_desk. Qed.

#[export] Instance not_regained_frame L : FrameAlong (not_regained L).
Proof.
  apply (frame_along_weaken (R1 := aside) (not_regained L));
    [apply aside_not_regained|by intros w w' []].
Qed.

(** C7: A worker that has lost its lease cannot write.  Drive an instance of the
    deployed world under the guard the engine makes for the lease ([make_guard]),
    when the lease row is gone or names another worker or another fence token.
    Whatever the drive does (however it ends, whichever collaborators it calls, and
    whatever its providers or other workers do meanwhile, so long as they leave the
    logs alone and do not give the lease back), every event log is exactly as
    before, and the lease is still lost. *)
Theorem drive_without_lease_writes_nothing self lease_seconds locked L (w : World) :
  wired_along (not_regained L) self -> store_inv (fst w) ->
  one_genesis (log (fst w) (le_instance_id L)) -> make_guard L (fst w) <> Ok tt ->
  let w' := snd (drive self L
    (ls_make_guard (LeaseStore := PgLeaseStore lease_seconds locked) L) w) in
  store_inv (fst w') /\ (forall j, log (fst w') j = log (fst w) j) /\
  make_guard L (fst w') <> Ok tt.
Proof.
  intros Hself Hok Hg Hlost.
  refine (refused_drive (Jl := world_journal_laws) (Rc := not_regained L) self L _ w Hself _ _
    Hok Hg Hlost); [by intros w0 w1 []|].
  intros drafts ver nw w0 Hn. eapply refused_desk; [|exact Hn].
  apply append_desk_world.
Qed.

Context (self : Wired World) (Hself : wired_along aside self).

Lemma pass_frame : wired_frame self.
Proof.
  assert (forall A (m : M World exn A), moves aside m -> moves same m) as Hw.
  { intros A m Hm w _. by destruct (Hm w I) as [(? & _) ?]. }
  destruct Hself as [He Hl]. constructor.
  - intros reg name p Hr Hp. destruct (He reg name p Hr Hp) as (H1 & H2 & H3).
    split_and!; intros; by apply Hw.
  - intros reg ps name p Hr Hp r. apply Hw. by eapply Hl.
Qed.

(** Attempts at the steps of [d] succeed, whatever their inputs and the world, and
    ask for no review. *)
Definition attempts_succeed (d : WorkflowDefinition) : Prop :=
  forall i s att inputs bv replay w, s ∈ wd_steps d ->
    exists out m charges effects recs,
      fst (run_attempt (wiring self) (dr_registry self)
             (step_context i s (ws_step_id s) (ws_agent_type s) att inputs bv replay)
             (ws_timeout_seconds s) w)
      = Ok (StepSuccess out m charges effects None recs).

(** While the instance [iid] is driven from [w0]. *)
Definition undisturbed (w0 : World) (iid : string) (w : World) : Prop :=
  store_inv (fst w) /\ desk (fst w) = desk (fst w0) /\ now w = now w0 /\
  forall j, j <> iid -> log (fst w) j = log (fst w0) j.

Lemma undisturbed_aside w0 iid w w' :
  undisturbed w0 iid w -> aside w w' -> undisturbed w0 iid w'.
Proof.
  intros (Hok & Hd & Hn & Hl) (Hs & Hd' & Hn'). destruct (Hs Hok) as [Hok' Hl'].
  split_and!; [done|by rewrite Hd'|by rewrite Hn'|]. intros j Hj. cbn in Hl'. by rewrite Hl', Hl.
Qed.

Context (lease_seconds : Z) (locked : gset string).
#[local] Instance store : LeaseStore World := PgLeaseStore lease_seconds locked.

Lemma pass_healthy d L w0 :
  attempts_succeed d -> make_guard L (fst w0) = Ok tt ->
  Completion.healthy self d L (ls_make_guard L) (now w0) (undisturbed w0 (le_instance_id L)).
Proof.
  intros Ha Hg. constructor.
  - intros w (_ & _ & -> & _). done.
  - intros w (_ & Hd & _). cbn. by eapply guard_desk.
  - intros w Hw. eapply undisturbed_aside; [exact Hw|]. apply along_id.
  - intros drafts ver nw w Hb (Hok & Hd & Hn & Hl).
    destruct (append_desk_world (le_instance_id L) (le_tenant_id L) drafts ver
      (Some (ls_make_guard L)) nw w) as [Hd' Hn'].
    assert (store_inv (fst (snd (append_new (le_instance_id L) (le_tenant_id L) drafts ver
        (Some (ls_make_guard L)) nw w))) /\
      forall j, j <> le_instance_id L ->
        log (fst (snd (append_new (le_instance_id L) (le_tenant_id L) drafts ver
          (Some (ls_make_guard L)) nw w))) j = log (fst w) j) as [Hok' Hl'].
    { destruct (append_new _ _ _ _ _ _ w) as [[[v evs]|e] w'] eqn:E; cbn [snd].
      - destruct (append_ok_law (JournalLaws := world_journal_laws) _ _ _ _ _ _ _ _ _ _ Hok Hb E)
          as (H1 & _ & _ & _ & _ & _ & _ & H2). split; [exact H1|exact H2].
      - destruct (append_err_law (JournalLaws := world_journal_laws) _ _ _ _ _ _ _ _ _ Hok Hb E)
          as (H1 & H2). split; [exact H1|]. intros j _. exact (H2 j). }
    split_and!; [done|by rewrite Hd'|by rewrite Hn'|]. intros j Hj. by rewrite Hl', Hl.
  - intros day x w Hw. eexists tt, _. split; [reflexivity|]. eapply undisturbed_aside; [exact Hw|].
    destruct (frame_ledger (le_tenant_id L) day x w I) as [Hs _]. split; [exact Hs|].
    destruct w as [db env]. cbn. by destruct db.
  - intros i s att inputs bv replay w Hw Hs.
    destruct (Ha i s att inputs bv replay w Hs) as (out & m & ch & eff & recs & Hr).
    destruct (keeps_run_attempt self Hself (wiring self) (dr_registry self)
      (step_context i s (ws_step_id s) (ws_agent_type s) att inputs bv replay)
      (ws_timeout_seconds s)) with (w := w) as [Hm _]; [by left|by left|done|].
    destruct (run_attempt _ _ _ _ w) as [r w'] eqn:E. cbn in Hr, Hm. subst r.
    eexists _, _, _, _, _, w'. split; [reflexivity|]. by eapply undisturbed_aside.
Qed.

(** ** What reads depend on *)

Lemma definition_desk wid ver tid (w w' : World) o :
  db_definitions (fst w') = db_definitions (fst w) ->
  get_definition wid ver tid w = (Ok o, w) -> get_definition wid ver tid w' = (Ok o, w').
Proof.
  destruct w as [db env], w' as [db' env']. cbn. unfold on_fst, DefinitionRepo.repo_get. cbn.
  intros ->. by intros [= ->].
Qed.

Lemma instance_log iid tid defn (w w' : World) o :
  store_inv (fst w) -> store_inv (fst w') -> one_genesis (log (fst w) iid) ->
  log (fst w') iid = log (fst w) iid ->
  get_instance iid tid defn w = (Ok o, w) -> get_instance iid tid defn w' = (Ok o, w').
Proof.
  intros Hok Hok' Hg Hl Hget.
  destruct (get_law (JournalLaws := world_journal_laws) w iid tid defn Hok Hg) as (o1 & H1 & E1).
  destruct (get_law (JournalLaws := world_journal_laws) w' iid tid defn Hok') as (o2 & H2 & E2).
  { unfold jlog, world_journal_laws. by rewrite Hl. }
  rewrite Hget in H1. injection H1 as <-. rewrite H2. f_equal. f_equal. subst.
  unfold jlog, world_journal_laws. by rewrite Hl.
Qed.

Lemma release_leases me iid (w : World) j :
  let w' := snd (ls_release me iid w) in
  db_leases (fst w') !! j =
    (fun l => if bool_decide (lr_worker_id l = me /\ j = iid) then expire l else l)
      <$> db_leases (fst w) !! j.
Proof.
  destruct w as [db env]. cbn. rewrite leases_set_leases, lookup_union, lookup_fmap.
  destruct (db_leases db !! j) as [l|] eqn:E; cbn [fmap option_fmap option_map].
  - destruct (bool_decide _) eqn:Hd; [apply bool_decide_eq_true in Hd|apply bool_decide_eq_false in Hd].
    + assert (filter (owned me [iid]) (db_leases db) !! j = Some l) as ->.
      { apply map_lookup_filter_Some. split; [done|]. destruct Hd as [H1 ->]. split; [done|left]. }
      done.
    + assert (filter (owned me [iid]) (db_leases db) !! j = None) as ->; [|done].
      apply map_lookup_filter_None. right. intros l' Hl' [H1 H2%list_elem_of_singleton].
      rewrite E in Hl'. injection Hl' as <-. by apply Hd.
  - assert (filter (owned me [iid]) (db_leases db) !! j = None) as ->; [|done].
    apply map_lookup_filter_None. by left.
Qed.

(** A release touches the leases only. *)
Lemma release_frame me iid (w : World) :
  exists w', ls_release me iid w = (Ok tt, w') /\ now w' = now w /\
    db_definitions (fst w') = db_definitions (fst w) /\ (store_inv (fst w) -> store_inv (fst w')) /\
    forall j, log (fst w') j = log (fst w) j.
Proof.
  destruct w as [db env]. eexists. split; [reflexivity|]. split; [done|].
  split; [by destruct db|]. split.
  - apply store_inv_frame; by destruct db.
  - intros j. apply log_frame. by destruct db.
Qed.

(** ** The pass *)

(** The instance of [row] can be driven to its end: its definition is there and
    valid, its steps are queued, done, due for a retry or left running by a worker
    that is gone, nothing waits for an operator, and its attempts succeed. *)
Record completable (row : InstanceIndexRow) (w : World) (d : WorkflowDefinition)
    (i : WorkflowInstance) : Prop := {
  cp_definition : get_definition (ix_workflow_id row) (ix_workflow_version row)
                    (ix_tenant_id row) w = (Ok (Some d), w);
  cp_instance : get_instance (ix_instance_id row) (ix_tenant_id row) (Some d) w = (Ok (Some i), w);
  cp_genesis : one_genesis (log (fst w) (ix_instance_id row));
  cp_valid : valid_definition d;
  cp_concurrency : (0 < wd_max_concurrent_steps d)%Z;
  cp_steps : (length (wd_steps d) <= 998)%nat;
  cp_resumable : resumable (now w) d i;
  cp_attempts : attempts_succeed d;
}.

(** It has been. *)
Definition completed (row : InstanceIndexRow) (w : World) : Prop :=
  exists d j,
    get_definition (ix_workflow_id row) (ix_workflow_version row) (ix_tenant_id row) w
      = (Ok (Some d), w) /\
    get_instance (ix_instance_id row) (ix_tenant_id row) (Some d) w = (Ok (Some j), w) /\
    wi_status j = WorkflowStatus.COMPLETED /\
    forall s, s ∈ wd_steps d -> step_done j (ws_step_id s) = true.

(** What both depend on. *)
Definition steady_for (iid : string) (w w' : World) : Prop :=
  store_inv (fst w') /\ now w' = now w /\ db_definitions (fst w') = db_definitions (fst w) /\
  log (fst w') iid = log (fst w) iid.

Lemma completable_steady row w w' d i :
  store_inv (fst w) -> steady_for (ix_instance_id row) w w' ->
  completable row w d i -> completable row w' d i.
Proof.
  intros Hok (Hok' & Hn & Hd & Hl) [H1 H2 H3 H4 H5 H6 H7 H8].
  constructor; try done.
  - by eapply definition_desk.
  - by apply (instance_log _ _ _ w).
  - by rewrite Hl.
  - by rewrite Hn.
Qed.

Lemma completed_steady row w w' :
  store_inv (fst w) -> one_genesis (log (fst w) (ix_instance_id row)) ->
  steady_for (ix_instance_id row) w w' -> completed row w -> completed row w'.
Proof.
  intros Hok Hg (Hok' & Hn & Hd & Hl) (d & j & H1 & H2 & H3 & H4). exists d, j.
  split_and!; [by eapply definition_desk|by apply (instance_log _ _ _ w)|done..].
Qed.

Definition drivable (w : World) (row : InstanceIndexRow) : Prop :=
  exists d i, completable row w d i /\
    wi_status i ∈ [WorkflowStatus.PENDING; WorkflowStatus.RUNNING; WorkflowStatus.RETRYING].

(** [L] was claimed on [row] and is still held. *)
Definition holds (me : string) (t : time) (w : World) (row : InstanceIndexRow) (L : Lease) : Prop :=
  (exists f, L = lease_of lease_seconds me t row f) /\ make_guard L (fst w) = Ok tt.

Lemma drive_row me t row L w :
  store_inv (fst w) -> holds me t w row L -> drivable w row ->
  exists w1, drive self L (ls_make_guard L) w
      = (Ok (report (ix_instance_id row) DriveResult.COMPLETED), w1) /\
    undisturbed w (ix_instance_id row) w1 /\ one_genesis (log (fst w1) (ix_instance_id row)) /\
    completed row w1.
Proof.
  intros Hok [[f ->] Hg] (d & i & [H1 H2 H3 H4 H5 H6 H7 H8] & Hs).
  set (L := lease_of lease_seconds me t row f) in *.
  destruct (drive_finishes self d L (ls_make_guard L) pass_frame (now w)
    (undisturbed w (ix_instance_id row)) (pass_healthy d L w H8 Hg) H4 H5 i w)
    as (r & w1 & Hd & -> & j & [Hj Hu] & Hst & Hdone); [done..|].
  exists w1. split; [done|]. split; [done|]. split; [apply (at_genesis _ _ _ _ _ Hj)|].
  exists d, j. split_and!; [|exact (at_get d L j w1 Hj)|done|done].
  eapply definition_desk; [|exact H1]. destruct Hu as (_ & Hu & _). by injection Hu.
Qed.

Lemma leases_desk (w w' : World) :
  desk (fst w') = desk (fst w) ->
  db_leases (fst w') = db_leases (fst w) /\ db_definitions (fst w') = db_definitions (fst w).
Proof. by intros [= -> ->]. Qed.

(** A lease that is held stays so while others are released. *)
Lemma holds_release me t iid row L (w w1 : World) :
  desk (fst w1) = desk (fst w) -> holds me t w row L ->
  holds me t (snd (ls_release me iid w1)) row L.
Proof.
  intros [Hl _]%leases_desk [Hf (r & Hr & Hw & Hfe)%guard_ok]. split; [done|]. apply guard_ok.
  rewrite release_leases, Hl, Hr. cbn. eexists. split; [reflexivity|]. by destruct (bool_decide _).
Qed.

Lemma drive_all_completes me t rows ls w :
  store_inv (fst w) -> NoDup (ix_instance_id <$> rows) -> Forall2 (holds me t w) rows ls ->
  Forall (drivable w) rows ->
  exists w', Worker.drive_all (drive self) me ls w
      = (Ok (replicate (length rows) DriveResult.COMPLETED), w') /\
    store_inv (fst w') /\ now w' = now w /\ db_definitions (fst w') = db_definitions (fst w) /\
    (forall j, j ∉ ix_instance_id <$> rows -> log (fst w') j = log (fst w) j) /\
    (forall j, db_leases (fst w') !! j =
       (fun l => if bool_decide (j ∈ ix_instance_id <$> rows) then expire l else l)
         <$> db_leases (fst w) !! j) /\
    Forall (fun row => completed row w' /\ one_genesis (log (fst w') (ix_instance_id row))) rows.
Proof.
  revert ls w. induction rows as [|row rows IH]; intros ls w Hok Hnd Hheld Hc.
  { inversion Hheld; subst. exists w. split_and!; try done. intros j.
    rewrite bool_decide_false by apply not_elem_of_nil. by destruct (_ !! j). }
  inversion Hheld as [|? L ? ls' HL Hls]; subst. inversion Hc as [|? ? Hrow Hrows]; subst.
  cbn [fmap list_fmap] in Hnd. apply NoDup_cons in Hnd as [Hnin Hnd].
  destruct (drive_row me t row L w Hok HL Hrow) as (w1 & Hd & (Hok1 & Hk1 & Hn1 & Hl1) & Hg1 & Hdone).
  destruct (leases_desk _ _ Hk1) as [Hls1 Hdf1].
  assert (le_instance_id L = ix_instance_id row) as Hid by (destruct HL as [[f ->] _]; done).
  pose proof (release_leases me (ix_instance_id row) w1) as Hrel.
  assert (forall row' L', holds me t w row' L' ->
    holds me t (snd (ls_release me (ix_instance_id row) w1)) row' L') as Hhold
    by (intros; by eapply holds_release).
  destruct (release_frame me (ix_instance_id row) w1) as (w2 & Hr2 & Hn2 & Hd2 & Hok2 & Hl2).
  rewrite Hr2 in Hrel, Hhold. cbn [snd] in Hrel, Hhold. specialize (Hok2 Hok1).
  destruct (IH ls' w2 Hok2 Hnd) as (w' & Hw' & Hok' & Hn' & Hd' & Hl' & Hle' & Hc').
  { eapply Forall2_impl; [exact Hls|]. intros ? ?. apply Hhold. }
  { rewrite Forall_forall in Hrows |- *. intros r Hr. destruct (Hrows r Hr) as (d & i & Hci & Hs).
    exists d, i. split; [|done]. apply (completable_steady r w); [done| |done].
    split_and!; [done|by rewrite Hn2|by rewrite Hd2|]. rewrite Hl2. apply Hl1.
    intros Heq. apply Hnin. rewrite <- Heq. by apply list_elem_of_fmap_2. }
  exists w'. split_and!.
  - cbn [Worker.drive_all]. rewrite Hd, Hid, Hr2. cbn [length replicate].
    rewrite (M_bind_step _ _ _ _ _ Hw'). done.
  - done.
  - by rewrite Hn', Hn2.
  - by rewrite Hd', Hd2.
  - intros j [Hne Hj]%not_elem_of_cons. by rewrite Hl', Hl2, Hl1.
  - intros j. rewrite Hle', Hrel, Hls1. cbn [fmap list_fmap].
    destruct (db_leases (fst w) !! j) as [l|] eqn:El; [|done]. cbn. f_equal.
    destruct (decide (j = ix_instance_id row)) as [->|Hne].
    + rewrite (bool_decide_false (_ ∈ _)) by done.
      rewrite (bool_decide_true (_ ∈ _)) by left. rewrite bool_decide_true; [done|].
      split; [|done]. destruct HL as [[f ->] (r & Hr & Hw & _)%guard_ok]. cbn in Hr, Hw.
      rewrite El in Hr. by injection Hr as ->.
    + rewrite (bool_decide_false (_ /\ _)) by tauto.
      destruct (decide (j ∈ ix_instance_id <$> rows)) as [Hj|Hj].
      * rewrite !bool_decide_true; [done|by right|done].
      * rewrite !bool_decide_false; [done| |done]. by intros [?|?]%elem_of_cons.
  - constructor; [|done]. rewrite (Hl' _ Hnin), Hl2. split; [|done].
    apply (completed_steady row w1); [done|done| |done].
    split_and!; [done|by rewrite Hn', Hn2|by rewrite Hd', Hd2|by rewrite (Hl' _ Hnin), Hl2].
Qed.

(** *** Claiming *)

Lemma take_leases_rows me t leases rows leases' acq :
  take_leases lease_seconds me t leases rows = (leases', acq) ->
  Forall2 (fun row L => exists f, L = lease_of lease_seconds me t row f) rows acq /\
  forall j, (j ∈ ix_instance_id <$> rows ->
               exists l, leases' !! j = Some l /\ lr_worker_id l = me /\ lr_heartbeat_at l = t) /\
            (j ∉ ix_instance_id <$> rows -> leases' !! j = leases !! j).
Proof.
  revert leases leases' acq. induction rows as [|row rows IH]; intros leases leases' acq; cbn.
  { intros [= <- <-]. split; [constructor|]. intros j. split; [by intros ?%not_elem_of_nil|done]. }
  destruct (upsert_lease _ _ _ _ _) as [l1 f] eqn:Hu.
  destruct (take_leases _ _ _ l1 rows) as [l2 a] eqn:Ht. intros [= <- <-].
  destruct (IH _ _ _ Ht) as [Ha Hl]. split; [constructor; [by exists f|done]|].
  assert (exists l, l1 !! ix_instance_id row = Some l /\ lr_worker_id l = me /\
    lr_heartbeat_at l = t) as Hrow.
  { unfold upsert_lease in Hu. destruct (leases !! _); injection Hu as <- _;
      eexists; (split; [apply lookup_insert_eq|done]). }
  apply upsert_lease_spec in Hu as (_ & _ & Hoth).
  intros j. destruct (Hl j) as [Hin Hout]. split.
  - intros [->|Hj]%elem_of_cons; [|by apply Hin].
    destruct (decide (ix_instance_id row ∈ ix_instance_id <$> rows)) as [Hj|Hj]; [by apply Hin|].
    by rewrite (Hout Hj).
  - intros [Hne Hj]%not_elem_of_cons. by rewrite (Hout Hj), Hoth.
Qed.

(** The claim of a pass: the rows it took, each now leased to [me]. *)
Lemma acquire_claims me n t (w : World) :
  index_keyed (fst w) ->
  exists ls w1, ls_acquire_runnable me n t w = (Ok ls, w1) /\
    Forall2 (holds me t w1) (claim locked n t (fst w)) ls /\
    snd w1 = snd w /\ db_definitions (fst w1) = db_definitions (fst w) /\
    (store_inv (fst w) -> store_inv (fst w1)) /\ (forall j, log (fst w1) j = log (fst w) j) /\
    (forall j, j ∈ ix_instance_id <$> claim locked n t (fst w) ->
      exists l, db_leases (fst w1) !! j = Some l /\ lr_worker_id l = me /\ lr_heartbeat_at l = t) /\
    forall j, j ∉ ix_instance_id <$> claim locked n t (fst w) ->
      db_leases (fst w1) !! j = db_leases (fst w) !! j.
Proof.
  intros Hk. destruct w as [db env]. cbn [fst snd] in *.
  destruct (acquire_runnable lease_seconds locked me n t db) as [r db1] eqn:E.
  assert (exists leases ls, r = Ok ls /\ db1 = set_leases leases db /\
    take_leases lease_seconds me t (db_leases db) (claim locked n t db) = (leases, ls))
    as (leases & ls & -> & -> & Ht).
  { unfold acquire_runnable in E. destruct (Z.leb_spec n 0) as [Hn|Hn].
    - injection E as <- <-. exists (db_leases db), []. split; [done|]. split; [by destruct db|].
      unfold claim. by rewrite Z2Nat.nonpos by done.
    - destruct (take_leases _ _ _ _ _) as [l a]. injection E as <- <-. by exists l, a. }
  exists ls, (set_leases leases db, env). split; [cbn; unfold on_fst; cbn; by rewrite E|].
  pose proof (take_leases_rows _ _ _ _ _ _ Ht) as [Ha Hl].
  pose proof (claim_NoDup locked n t db Hk) as Hnd.
  destruct (take_leases_spec _ _ _ _ _ _ _ Hnd Ht) as (_ & _ & Hg). rewrite Forall_forall in Hg.
  split_and!.
  - apply Forall2_lookup. intros k. pose proof (proj1 (Forall2_lookup _ _ _) Ha k) as Hk'.
    destruct (ls !! k) as [L|] eqn:HL; inversion Hk' as [row ? Hf|]; subst; constructor.
    apply list_elem_of_lookup_2 in HL. split; [done|].
    destruct (Hg L HL) as ((r & Hr & Hw & Hfe & _) & _). apply guard_ok. cbn [fst].
    rewrite leases_set_leases. by exists r.
  - done.
  - by destruct db.
  - apply store_inv_frame; by destruct db.
  - intros j. apply log_frame. by destruct db.
  - intros j Hj. cbn [fst]. rewrite leases_set_leases. by apply Hl.
  - intros j Hj. cbn [fst]. rewrite leases_set_leases. by apply Hl.
Qed.

(** The index of a database that satisfies the invariant. *)
Lemma index_row db iid r :
  store_inv db -> db_index db !! iid = Some r ->
  exists i, log db iid <> [] /\ Fold.fold (log db iid) None None = Ok i /\ index_ok r i.
Proof.
  intros Hinv Hr. pose proof (ii_live _ _ (Hinv iid)) as Hl. unfold live_ok in Hl.
  destruct (log db iid) as [|e l]; [by rewrite Hr in Hl|].
  destruct Hl as (i & r' & Hf & _ & Hr' & Hi & _). rewrite Hr in Hr'. injection Hr' as <-. by exists i.
Qed.

Lemma index_keyed_inv db : store_inv db -> index_keyed db.
Proof.
  intros Hinv iid r Hr. destruct (index_row db iid r Hinv Hr) as (i & _ & Hf & Hi & _).
  rewrite Hi. eapply fold_owner; [|exact Hf]. apply log_owner, Hinv.
Qed.

(** The status of an instance that is read is the status of its index row. *)
Lemma read_index_status row iid tid defn (w : World) i :
  store_inv (fst w) -> one_genesis (log (fst w) iid) ->
  db_index (fst w) !! iid = Some row -> get_instance iid tid defn w = (Ok (Some i), w) ->
  ix_status row = WorkflowStatus.value (wi_status i).
Proof.
  intros Hok Hg Hr Hget. destruct (index_row _ _ _ Hok Hr) as (i' & _ & Hf & _ & _ & _ & _ & Hs & _).
  destruct (get_law (JournalLaws := world_journal_laws) w iid tid defn Hok Hg) as (o & Hget' & Ho).
  rewrite Hget in Hget'. injection Hget' as <-.
  unfold jlog, world_journal_laws, journal_defn in Ho. rewrite Hf in Ho.
  case_bool_decide; [|done]. by injection Ho as ->.
Qed.

Lemma claimed_status n t (w : World) row :
  store_inv (fst w) -> row ∈ claim locked n t (fst w) ->
  db_index (fst w) !! ix_instance_id row = Some row /\ ix_status row ∈ _RUNNABLE_STATUSES.
Proof.
  intros Hok Hrow. destruct (claim_spec _ _ _ _ _ (index_keyed_inv _ Hok) Hrow) as (Hr & Hcl & _).
  split; [done|]. unfold claimable in Hcl. rewrite !andb_true_iff, bool_decide_eq_true in Hcl.
  apply Hcl.
Qed.

(** What is claimed may be driven. *)
Lemma claimed_drivable n t (w : World) row d i :
  store_inv (fst w) -> row ∈ claim locked n t (fst w) -> completable row w d i -> drivable w row.
Proof.
  intros Hok Hrow Hc. exists d, i. split; [done|].
  destruct (claimed_status _ _ _ _ Hok Hrow) as [Hr Hs].
  rewrite (read_index_status _ _ _ _ _ _ Hok (cp_genesis _ _ _ _ Hc) Hr (cp_instance _ _ _ _ Hc)) in Hs.
  apply (bool_decide_eq_true_2 _) in Hs. apply (bool_decide_eq_true_1 _).
  by destruct (wi_status i); vm_compute in Hs |- *.
Qed.

(** A completed instance is never claimed again. *)
Lemma completed_unclaimable row w n t :
  store_inv (fst w) -> one_genesis (log (fst w) (ix_instance_id row)) -> completed row w ->
  ix_instance_id row ∉ ix_instance_id <$> claim locked n t (fst w).
Proof.
  intros Hok Hg (d & j & _ & Hget & Hst & _) (row' & Hid & Hrow)%list_elem_of_fmap.
  destruct (claimed_status _ _ _ _ Hok Hrow) as [Hr Hs]. rewrite <- Hid in Hr.
  rewrite (read_index_status _ _ _ _ _ _ Hok Hg Hr Hget), Hst in Hs.
  apply (bool_decide_eq_true_2 _) in Hs. by vm_compute in Hs.
Qed.
End pass.

(** C6: A pass of a worker completes what it claims.  Take a database that satisfies
    the invariant of the store, providers that leave the journal and the leases
    alone, and suppose every instance the pass claims can be driven to its end: its
    steps are queued, done, due for a retry or left running by a worker that is gone,
    nothing waits for an operator, and attempts at its steps succeed.  Then
    [run_once] returns [COMPLETED] once for each of them, whatever their number and
    order; afterwards each is completed with every step done, its lease has
    expired, no later claim takes it, at any time and by anyone; and the logs and
    the leases of all other instances are untouched. *)
Theorem run_once_completes {Hh : Hashing} {Ps : PyStr} {Cm : CMath} {C : Codec} {CL : CodecLaws}
    (self : Wired (DB * Env)) lease_seconds locked me n (w : DB * Env) :
  wired_along aside self -> store_inv (fst w) ->
  let rows := claim locked n (now w) (fst w) in
  (forall row, row ∈ rows -> exists d i, completable self row w d i) ->
  exists w',
    Worker.run_once (Ls := PgLeaseStore lease_seconds locked) (drive self) me n w
      = (Ok (replicate (length rows) DriveResult.COMPLETED), w') /\
    (forall row, row ∈ rows -> completed row w' /\
       (forall m t, ix_instance_id row ∉ ix_instance_id <$> claim locked m t (fst w')) /\
       exists l, db_leases (fst w') !! ix_instance_id row = Some l /\ lr_worker_id l = me /\
         (lr_expires_at l < now w')%Z) /\
    (forall iid, iid ∉ ix_instance_id <$> rows ->
       log (fst w') iid = log (fst w) iid /\
       db_leases (fst w') !! iid = db_leases (fst w) !! iid).
Proof.
  intros Hself Hok rows Hall. pose proof (index_keyed_inv _ Hok) as Hk.
  destruct (acquire_claims lease_seconds locked me n (now w) w Hk)
    as (ls & w1 & Hacq & Hholds & He & Hd & Hok1 & Hl & Hls & Hns). specialize (Hok1 Hok).
  assert (now w1 = now w) as Hn by (cbn; by rewrite He).
  destruct (drive_all_completes self Hself lease_seconds locked me (now w) rows ls w1)
    as (w' & Hrun & Hok' & Hn' & Hd' & Hl' & Hle' & Hc); [done|by apply claim_NoDup|done| |].
  { apply Forall_forall. intros row Hrow. destruct (Hall row Hrow) as (d & i & Hc).
    destruct (claimed_drivable self locked _ _ w row d i Hok Hrow Hc) as (d' & i' & Hc' & Hs).
    exists d', i'. split; [|done]. apply (completable_steady self row w w1); [done| |done].
    split_and!; [done|done|done|apply Hl]. }
  exists w'. split; [|split].
  - unfold Worker.run_once, read_clock. unfold mbind at 1, M_bind at 1, gets.
    rewrite (M_bind_step _ _ _ _ _ Hacq). exact Hrun.
  - intros row Hrow. rewrite Forall_forall in Hc. destruct (Hc row Hrow) as [Hdone Hg].
    split; [done|]. split; [by intros m t; apply completed_unclaimable|].
    assert (ix_instance_id row ∈ ix_instance_id <$> rows) as Hin by by apply list_elem_of_fmap_2.
    destruct (Hls _ Hin) as (l & Hll & Hw & Hb). rewrite Hle', Hll.
    cbn [fmap option_fmap option_map]. rewrite bool_decide_true by done. eexists. split; [done|]. split; [done|].
    rewrite Hn', Hn. unfold expire, seconds. cbn [lr_expires_at]. rewrite Hb. lia.
  - intros iid Hni. rewrite Hl', Hl by done. split; [done|].
    rewrite Hle', (Hns _ Hni). destruct (_ !! iid); [|done]. cbn. by rewrite bool_decide_false.
Qed.
