(* ===== verification/Heartbeats.v ===== *)
(** Heartbeats in time ([worker.py], [core/leasing.py]): a worker whose heartbeats are
    never further apart than the lease lasts keeps every lease it holds. *)

From stdpp Require Import base strings list gmap relations.
From Stdlib Require Import ZArith Lia.
From S2P Require Import Prelude Exceptions Values Tables EventStore Leasing.

Import Leasing.

Section timely.
Context {C : Codec}.

(** The worker, the instance it drives and the settings of the deployment:
    [lease_seconds], and the longest time between two heartbeats. *)
Context (lease_seconds : Z) (worker_id iid : string) (gap : Z).

(** The database, the present, and when the worker last beat for the instance. *)
Definition moment : Type := DB * time * time.

(** Everything that may happen: time passes, but no further than the gap after the
    last beat; the worker beats; workers claim, beat and release, the worker itself
    included, except that it does not release this instance; anything happens to the
    other tables. *)
Inductive passes : moment -> moment -> Prop :=
| PTime db t t' last : (t <= t')%Z -> (t' <= last + gap)%Z -> passes (db, t, last) (db, t', last)
| PBeat ids db t last alive db' : iid ∈ ids ->
    heartbeat lease_seconds worker_id ids t db = (Ok alive, db') ->
    passes (db, t, last) (db', t, t)
| PAcquire locked w limit db t last acq db' :
    acquire_runnable lease_seconds locked w limit t db = (Ok acq, db') ->
    passes (db, t, last) (db', t, last)
| PHeartbeat w ids db t last alive db' :
    heartbeat lease_seconds w ids t db = (Ok alive, db') ->
    passes (db, t, last) (db', t, last)
| PRelease w i db t last db' : (w, i) <> (worker_id, iid) ->
    release w i db = (Ok tt, db') -> passes (db, t, last) (db', t, last)
| POther db db' t last : db_leases db' = db_leases db -> index_keyed db' ->
    passes (db, t, last) (db', t, last).

(** The worker's row, good for the time to live from its last beat. *)
Definition holds (fence : Z) (m : moment) : Prop :=
  let '(db, t, last) := m in
  index_keyed db /\ (last <= t <= last + gap)%Z /\
  exists row, db_leases db !! iid = Some row /\ lr_worker_id row = worker_id /\
    lr_fence_token row = fence /\ (last + ttl lease_seconds <= lr_expires_at row)%Z.

(** What updating the owned rows does to one row. *)
Lemma touched_row P `{forall p, Decision (P p)} f (leases : gmap string InstanceLeaseRow) i row :
  leases !! i = Some row ->
  ((f <$> filter P leases) ∪ leases) !! i
  = Some (if decide (P (i, row)) then f row else row).
Proof.
  intros Hrow. rewrite lookup_union, lookup_fmap, Hrow.
  destruct (decide (P (i, row))) as [Hp|Hp].
  - by rewrite (map_lookup_filter_Some_2 P leases i row Hrow Hp).
  - by rewrite (map_lookup_filter_None_2 P leases i) by naive_solver.
Qed.

Lemma acquire_keyed ls locked w limit t db acq db' :
  index_keyed db -> acquire_runnable ls locked w limit t db = (Ok acq, db') -> index_keyed db'.
Proof.
  intros Hk. unfold acquire_runnable. destruct (limit <=? 0)%Z; [by intros [= _ <-]|].
  destruct (take_leases _ _ _ _ _). intros [= _ <-]. unfold index_keyed. by rewrite index_set_leases.
Qed.

(** The row of a lease just claimed. *)
Lemma acquired_row ls locked w limit t db acq db' L :
  index_keyed db -> acquire_runnable ls locked w limit t db = (Ok acq, db') -> L ∈ acq ->
  le_worker_id L = w /\ exists row, db_leases db' !! le_instance_id L = Some row /\
    lr_worker_id row = w /\ lr_fence_token row = le_fence_token L /\
    lr_expires_at row = (t + ttl ls)%Z.
Proof.
  intros Hk. unfold acquire_runnable. destruct (limit <=? 0)%Z.
  { by intros [= <- <-] ?%elem_of_nil. }
  destruct (take_leases _ _ _ _ _) as [leases acq'] eqn:Ht. intros [= <- <-] HL.
  apply take_leases_spec in Ht as (_ & _ & Hall); [|by apply claim_NoDup].
  rewrite Forall_forall in Hall. destruct (Hall L HL) as ((row & Hrow & Hw & Hf & He) & <- & <- & _).
  split; [done|]. exists row. by rewrite leases_set_leases.
Qed.

(** A lease that has not expired is claimed by nobody. *)
Lemma unexpired_unclaimed ls locked w limit t db acq db' i row :
  index_keyed db -> db_leases db !! i = Some row -> (t <= lr_expires_at row)%Z ->
  acquire_runnable ls locked w limit t db = (Ok acq, db') ->
  i ∉ le_instance_id <$> acq /\ db_leases db' !! i = Some row.
Proof.
  intros Hk Hrow Hexp. unfold acquire_runnable. destruct (limit <=? 0)%Z.
  { intros [= <- <-]. split; [apply not_elem_of_nil|done]. }
  destruct (take_leases _ _ _ _ _) as [leases acq'] eqn:Ht. intros [= <- <-].
  apply take_leases_spec in Ht as (Hids & Hout & _); [|by apply claim_NoDup].
  assert (i ∉ ix_instance_id <$> claim locked limit t db) as Hni.
  { intros (r & -> & Hr)%list_elem_of_fmap. apply claim_spec in Hr as (_ & Hc & _); [|done].
    unfold claimable in Hc. rewrite Hrow, !andb_true_iff in Hc. lia. }
  split; [by rewrite Hids|]. by rewrite leases_set_leases, Hout.
Qed.

Lemma heartbeat_row ls w ids t db alive db' i row :
  db_leases db !! i = Some row -> heartbeat ls w ids t db = (Ok alive, db') ->
  db_index db' = db_index db /\
  db_leases db' !! i = Some (if decide (owned w ids (i, row)) then beat ls t row else row) /\
  (owned w ids (i, row) -> i ∈ alive).
Proof.
  intros Hrow Hh. unfold heartbeat in Hh. destruct ids as [|i0 ids].
  { injection Hh as <- <-. split; [done|]. assert (~ owned w [] (i, row)) as Hn.
    { intros [_ Hin]. by apply elem_of_nil in Hin. }
    by rewrite (decide_False _ _ Hn). }
  injection Hh as <- <-. rewrite index_set_leases, leases_set_leases. split; [done|].
  split; [by apply (touched_row (owned w (i0 :: ids)))|].
  intros Ho. apply elem_of_dom. exists row. by apply map_lookup_filter_Some_2.
Qed.

Lemma release_row w j db db' i row :
  db_leases db !! i = Some row -> release w j db = (Ok tt, db') ->
  (lr_worker_id row, i) <> (w, j) ->
  db_index db' = db_index db /\ db_leases db' !! i = Some row.
Proof.
  intros Hrow [= <-] Hne. rewrite index_set_leases, leases_set_leases. split; [done|].
  rewrite (touched_row (owned w [j]) expire _ _ _ Hrow), decide_False; [done|].
  intros [Hw Hin%list_elem_of_singleton]. cbn in *. congruence.
Qed.

Lemma holds_passes fence m m' : (0 <= gap <= ttl lease_seconds)%Z ->
  holds fence m -> passes m m' -> holds fence m'.
Proof.
  intros Hg Hh Hp. destruct Hp as [db t t' last H1 H2|ids db t last alive db' Hin Hb
    |locked w limit db t last acq db' Ha|w ids db t last alive db' Hb|w i db t last db' Hne Hr
    |db db' t last Hl Hk']; destruct Hh as (Hk & Ht & row & Hrow & Hw & Hf & He).
  - split; [done|]. split; [lia|]. by exists row.
  - destruct (heartbeat_row _ _ _ _ _ _ _ _ _ Hrow Hb) as (Hix & Hrow' & _).
    rewrite decide_True in Hrow' by done. split; [unfold index_keyed; by rewrite Hix|].
    split; [lia|]. eexists. split; [exact Hrow'|]. cbn. split_and!; [done..|lia].
  - split; [by eapply acquire_keyed|]. split; [done|].
    eapply unexpired_unclaimed in Ha as [_ Hrow']; [by exists row|done..|lia].
  - destruct (heartbeat_row _ _ _ _ _ _ _ _ _ Hrow Hb) as (Hix & Hrow' & _).
    split; [unfold index_keyed; by rewrite Hix|]. split; [done|].
    eexists. split; [exact Hrow'|]. destruct (decide _); cbn; split_and!; try done; lia.
  - destruct (release_row _ _ _ _ _ _ Hrow Hr) as [Hix Hrow']; [by rewrite Hw|].
    split; [unfold index_keyed; by rewrite Hix|]. split; [done|]. by exists row.
  - split; [done|]. split; [done|]. exists row. by rewrite Hl.
Qed.

(** C10: A worker that beats in time never loses a lease.  From the claim on, if the
    gap between two heartbeats never exceeds the time a lease lasts, then whatever
    the other workers of the deployment claim, beat and release, and whatever happens
    to the other tables, at every moment the guard of the lease passes, no claim, by
    any worker, hands the instance out again, and the next heartbeat finds the
    instance alive. *)
Theorem timely_worker_keeps_lease locked limit t0 db acq db0 L m :
  (0 <= gap <= ttl lease_seconds)%Z -> index_keyed db ->
  acquire_runnable lease_seconds locked worker_id limit t0 db = (Ok acq, db0) ->
  L ∈ acq -> le_instance_id L = iid ->
  rtc passes (db0, t0, t0) m ->
  let '(db', t, _) := m in
  make_guard L db' = Ok tt /\
  (forall ls skip w n acq' db'',
     acquire_runnable ls skip w n t db' = (Ok acq', db'') -> iid ∉ le_instance_id <$> acq') /\
  (forall ids alive db'', iid ∈ ids ->
     heartbeat lease_seconds worker_id ids t db' = (Ok alive, db'') -> iid ∈ alive).
Proof.
  intros Hg Hk Ha HL Hid Hr.
  destruct (acquired_row _ _ _ _ _ _ _ _ _ Hk Ha HL) as (HwL & row0 & Hrow0 & Hw0 & Hf0 & He0).
  rewrite Hid in Hrow0. assert (holds (le_fence_token L) m) as Hm.
  { assert (holds (le_fence_token L) (db0, t0, t0)) as H0.
    { split; [by eapply acquire_keyed|]. split; [lia|]. exists row0. split_and!; [done..|lia]. }
    clear -Hr H0 Hg. induction Hr as [|a b c Hs _ IH]; [done|]. by apply IH, (holds_passes _ a). }
  destruct m as [[db' t] last]. destruct Hm as (Hk' & Ht & row & Hrow & Hw & Hf & He).
  split_and!.
  - apply guard_ok. exists row. by rewrite Hid, HwL.
  - intros ls skip w n acq' db'' Hacq.
    eapply unexpired_unclaimed in Hacq as [Hni _]; [done|done..|lia].
  - intros ids alive db'' Hin Hb.
    by destruct (heartbeat_row _ _ _ _ _ _ _ _ _ Hrow Hb) as (_ & _ & Hal); apply Hal.
Qed.
End timely.

(** ** Witness: forty seconds under a thirty-second lease, beating every ten *)
Module BeatSample.
Export LeaseSample.
#[local] Existing Instance plain_codec.

Definition beats (t : time) (db : DB) : DB := snd (heartbeat 30 "w1" ["i1"] t db).
Definition at10 : DB := beats (seconds 10) (snd first).
Definition at20 : DB := beats (seconds 20) at10.
Definition at30 : DB := beats (seconds 30) at20.

Lemma kept : rtc (passes 30 "w1" "i1" (seconds 10)) (snd first, 0%Z, 0%Z)
  (at30, seconds 40, seconds 30).
Proof.
  assert (Htick : forall db last, (0 <= last)%Z -> passes 30 "w1" "i1" (seconds 10)
    (db, last, last) (db, (last + seconds 10)%Z, last)) by (intros; constructor; unfold seconds; lia).
  assert (Hbeat : forall db t last, passes 30 "w1" "i1" (seconds 10) (db, t, last) (beats t db, t, t)).
  { intros db t last. unfold beats. destruct (heartbeat 30 "w1" ["i1"] t db) as [[al|e] db'] eqn:E.
    - by eapply PBeat; [|exact E]; left.
    - by unfold heartbeat in E. }
  eapply rtc_l; [apply (Htick _ 0%Z); lia|]. eapply rtc_l; [apply Hbeat|].
  eapply rtc_l; [apply (Htick _ (seconds 10)); unfold seconds; lia|]. eapply rtc_l; [apply Hbeat|].
  eapply rtc_l; [apply (Htick _ (seconds 20)); unfold seconds; lia|]. eapply rtc_l; [apply Hbeat|].
  apply rtc_once. apply (Htick _ (seconds 30)). unfold seconds. lia.
Qed.
End BeatSample.
Import BeatSample.
#[local] Existing Instance plain_codec.

Lemma timely_worker_keeps_lease_witness :
  make_guard lease1 at30 = Ok tt /\
  fst (acquire_runnable 30 ∅ "w2" 5 (seconds 40) at30) = Ok [].
Proof.
  assert (Hf : acquire_runnable 30 ∅ "w1" 5 0 db0 = (Ok [lease1], snd first))
    by (vm_compute; reflexivity).
  destruct (timely_worker_keeps_lease 30 "w1" "i1" (seconds 10) ∅ 5 0 db0 [lease1] (snd first)
    lease1 (at30, seconds 40, seconds 30)) as (Hg & _ & _);
    [unfold ttl, seconds; lia|exact db0_keyed|exact Hf|left|reflexivity|exact kept|].
  split; [exact Hg|]. vm_compute. reflexivity.
Defined.
