(* ===== verification/Auth.v ===== *)
(** Authentication and authorisation ([core/auth.py]): API keys, bearer tokens,
    principals and their scopes.

    SHA-256, the pepper and the random strings are parameters; so is JWT decoding,
    which may depend on the time of the world. *)

From stdpp Require Import base strings list gmap.
From Stdlib Require Import ZArith Ascii.
From S2P Require Import Prelude Exceptions Values PyOps Definitions Ports Cost.

Module Auth.

Module Scope.
Inductive t :=
| WORKFLOWS_READ | WORKFLOWS_WRITE | INSTANCES_READ | INSTANCES_WRITE
| ESCALATIONS_READ | ESCALATIONS_WRITE | DLQ_READ | DLQ_WRITE | ADMIN.

Definition value (s : t) : string :=
  match s with
  | WORKFLOWS_READ => "workflows:read"
  | WORKFLOWS_WRITE => "workflows:write"
  | INSTANCES_READ => "instances:read"
  | INSTANCES_WRITE => "instances:write"
  | ESCALATIONS_READ => "escalations:read"
  | ESCALATIONS_WRITE => "escalations:write"
  | DLQ_READ => "dlq:read"
  | DLQ_WRITE => "dlq:write"
  | ADMIN => "admin"
  end.
End Scope.

(** [frozenset] of scopes: a list of hashable values, read without regard to
    order or repetition. *)
Record Principal := {
  pr_name : string;
  pr_tenant_id : string;
  pr_scopes : list json;
  pr_kind : string;
}.

(** [s in scopes] for a string: only an equal string is equal to it. *)
Definition is_scope (s : string) (v : json) : bool :=
  match v with JStr s' => bool_decide (s' = s) | _ => false end.

Definition in_scopes (s : string) (scopes : list json) : bool := existsb (is_scope s) scopes.

Definition has (p : Principal) (scope : string) : bool :=
  in_scopes (Scope.value Scope.ADMIN) (pr_scopes p) || in_scopes scope (pr_scopes p).

Definition AuthError (msg : string) : exn := Exn (PyExc "AuthError") msg.
Definition ForbiddenError (msg : string) : exn := Exn (PyExc "ForbiddenError") msg.

Record ApiKeyRecord := {
  ak_key_id : string;
  ak_key_hash : string;
  ak_tenant_id : string;
  ak_principal_name : string;
  ak_scopes : list string;
  ak_disabled : bool;
}.

(** The table [api_keys]; [key_id] is its primary key. *)
Record ApiKeyRow := {
  kr_key_hash : string;
  kr_tenant_id : string;
  kr_principal_name : string;
  kr_scopes : list string;
  kr_disabled : bool;
  kr_created_at : time;
  kr_last_used_at : option time;
}.

(** [ApiKeyStore] *)
Class ApiKeyStore (W : Type) := {
  key_get : string -> M W exn (option ApiKeyRecord);
  key_create : ApiKeyRecord -> M W exn unit;
  key_touch : string -> time -> M W exn unit;
}.

(** *** The Postgres key store *)

Record KeyTable := {
  kt_rows : gmap string ApiKeyRow;
  kt_now : time;
}.

Definition set_rows (m : gmap string ApiKeyRow) (t : KeyTable) : KeyTable :=
  {| kt_rows := m; kt_now := kt_now t |}.

Definition record_of (key_id : string) (r : ApiKeyRow) : ApiKeyRecord := {|
  ak_key_id := key_id; ak_key_hash := kr_key_hash r; ak_tenant_id := kr_tenant_id r;
  ak_principal_name := kr_principal_name r; ak_scopes := kr_scopes r;
  ak_disabled := kr_disabled r |}.

Definition row_of (now : time) (r : ApiKeyRecord) : ApiKeyRow := {|
  kr_key_hash := ak_key_hash r; kr_tenant_id := ak_tenant_id r;
  kr_principal_name := ak_principal_name r; kr_scopes := ak_scopes r;
  kr_disabled := ak_disabled r; kr_created_at := now; kr_last_used_at := None |}.

Definition touched (at_ : time) (r : ApiKeyRow) : ApiKeyRow := {|
  kr_key_hash := kr_key_hash r; kr_tenant_id := kr_tenant_id r;
  kr_principal_name := kr_principal_name r; kr_scopes := kr_scopes r;
  kr_disabled := kr_disabled r; kr_created_at := kr_created_at r;
  kr_last_used_at := Some at_ |}.

Definition pg_key_get (key_id : string) : M KeyTable exn (option ApiKeyRecord) :=
  gets (fun t => record_of key_id <$> kt_rows t !! key_id).

Definition pg_key_create (r : ApiKeyRecord) : M KeyTable exn unit := fun t =>
  match kt_rows t !! ak_key_id r with
  | Some _ => (Err (IntegrityError "api_keys_pkey"), t)
  | None => (Ok tt, set_rows (<[ak_key_id r := row_of (kt_now t) r]> (kt_rows t)) t)
  end.

Definition pg_key_touch (key_id : string) (at_ : time) : M KeyTable exn unit := fun t =>
  (Ok tt, set_rows (alter (touched at_) key_id (kt_rows t)) t).

Definition pg_list_for_tenant (tenant_id : string) (t : KeyTable) : list ApiKeyRecord :=
  (fun p => record_of p.1 p.2) <$>
    filter (fun p => kr_tenant_id p.2 = tenant_id) (map_to_list (kt_rows t)).

#[export] Instance PgApiKeyStore : ApiKeyStore KeyTable := {|
  key_get := pg_key_get; key_create := pg_key_create; key_touch := pg_key_touch |}.

(** *** Keys *)

(** [s.partition("_")]: before and after the first underscore. *)
Fixpoint partition_ (s : string) : string * string :=
  match s with
  | EmptyString => ("", "")
  | String c s =>
      if bool_decide (c = "_"%char) then ("", s)
      else let '(a, b) := partition_ s in (String c a, b)
  end.

(** The process's secrets. *)
Class Secrets := {
  sha256_hex : string -> string;
  api_key_pepper : string;
  jwt_secret : string;
  jwt_algorithm : string;
}.

Section auth.
Context {Se : Secrets} {Ps : PyStr}.

Definition hash_secret (secret : string) : string := sha256_hex (api_key_pepper +:+ secret).

(** [token_hex] and [token_urlsafe] are the arguments [fresh_key_id] and
    [secret]. *)
Definition mint_api_key (tenant_id name : string) (scopes : list string)
    (key_id : option string) (fresh_key_id secret : string) : string * ApiKeyRecord :=
  let key_id := if truthy_str key_id then default "" key_id else fresh_key_id in
  ("af_" +:+ key_id +:+ "_" +:+ secret,
   {| ak_key_id := key_id; ak_key_hash := hash_secret secret; ak_tenant_id := tenant_id;
      ak_principal_name := name; ak_scopes := scopes; ak_disabled := false |}).

(** [jwt.decode]: the claims, or the message of a [PyJWTError]. *)
Class Jwt (W : Type) := { jwt_decode : string -> string -> string -> W -> result string dict }.

Context {W : Type} {Ks : ApiKeyStore W} {Ck : Clock W} {Jw : Jwt W}.

(** [frozenset(scopes)] *)
Definition frozenset_of (v : json) : res (list json) :=
  l ← py_iter v;
  match filter (fun x => hashable x = false) l with
  | [] => Ok l
  | x :: _ => Err (Exn (PyExc "TypeError") ("unhashable type: " +:+ py_repr (type_name x)))
  end.

Definition _from_jwt (token : string) : M W exn Principal :=
  decoded ← gets (jwt_decode token jwt_secret jwt_algorithm);
  match decoded with
  | Err msg => raise (AuthError ("invalid token: " +:+ msg))
  | Ok claims =>
      match claims !! "tenant" with
      | Some tenant =>
          if truthy tenant then
            scopes ← lift (frozenset_of (or_else (JArr []) (claims !! "scopes")));
            mret {| pr_name := Cost.str_of (default (JStr "jwt-user") (claims !! "sub"));
                    pr_tenant_id := Cost.str_of tenant; pr_scopes := scopes;
                    pr_kind := "jwt" |}
          else raise (AuthError "token has no tenant claim")
      | None => raise (AuthError "token has no tenant claim")
      end
  end.

Definition principal_of (r : ApiKeyRecord) : Principal := {|
  pr_name := ak_principal_name r; pr_tenant_id := ak_tenant_id r;
  pr_scopes := JStr <$> ak_scopes r; pr_kind := "api_key" |}.

Definition _from_api_key (raw : string) : M W exn Principal :=
  let '(prefix, rest) := partition_ raw in
  let '(key_id, secret) := partition_ rest in
  if negb (bool_decide (prefix = "af")) || bool_decide (key_id = "") || bool_decide (secret = "")
  then raise (AuthError "malformed API key")
  else
    record ← key_get key_id;
    match record with
    | None => raise (AuthError "unknown API key")
    | Some r =>
        if ak_disabled r then raise (AuthError "unknown API key")
        else if negb (bool_decide (ak_key_hash r = hash_secret secret))
        then raise (AuthError "bad API key")
        else
          t ← read_clock;
          _ ← key_touch key_id t;
          mret (principal_of r)
    end.

Definition authenticate (api_key bearer : option string) : M W exn Principal :=
  if truthy_str api_key then _from_api_key (default "" api_key)
  else if truthy_str bearer then _from_jwt (default "" bearer)
  else raise (AuthError "no credentials").
End auth.

(** ** Theorems *)

Definition no_underscore (s : string) : Prop := "_"%char ∉ String.list_ascii_of_string s.

Lemma partition_app a b : no_underscore a -> partition_ (a +:+ "_" +:+ b) = (a, b).
Proof.
  unfold no_underscore. induction a as [|c a IH]; [done|].
  change (String.list_ascii_of_string (String c a)) with (c :: String.list_ascii_of_string a).
  change (String c a +:+ "_" +:+ b) with (String c (a +:+ "_" +:+ b)). cbn [partition_].
  rewrite not_elem_of_cons. intros [Hc Ha]. rewrite bool_decide_false by congruence. by rewrite IH.
Qed.

Lemma partition_inv s a b : partition_ s = (a, b) -> b <> "" ->
  s = a +:+ "_" +:+ b /\ no_underscore a.
Proof.
  unfold no_underscore. revert a. induction s as [|c s IH]; intros a; cbn [partition_]; [by intros [= <- <-]|].
  case_bool_decide as Hc; [intros [= <- <-] _; subst c; split; [done|apply not_elem_of_nil]|].
  destruct (partition_ s) as [a' b'] eqn:E. intros [= <- <-] Hb.
  destruct (IH a' eq_refl Hb) as [-> Hn]. split; [done|]. cbn. rewrite not_elem_of_cons.
  split; [congruence|done].
Qed.

#[export] Instance table_clock : Clock KeyTable := {| now := kt_now |}.

Section theorems.
Context {Se : Secrets} {Ps : PyStr} {Jw : Jwt KeyTable}.

(** C31: A credential opens exactly its own door.  Authenticating with an API key
    either succeeds, and then the key reads [af_<id>_<secret>] with an id of a
    stored, enabled key whose hash is the hash of that secret, the principal
    carries that key's tenant and scopes, and the only change is the key's
    last-used time; or it raises [AuthError] and changes nothing. *)
Theorem api_key_exact raw t :
  match _from_api_key raw t with
  | (Ok p, t') => exists key_id secret r,
      raw = "af_" +:+ key_id +:+ "_" +:+ secret /\ no_underscore key_id /\
      kt_rows t !! key_id = Some r /\ kr_disabled r = false /\
      kr_key_hash r = hash_secret secret /\ p = principal_of (record_of key_id r) /\
      t' = set_rows (alter (touched (kt_now t)) key_id (kt_rows t)) t
  | (Err e, t') => t' = t /\ exists msg, e = AuthError msg
  end.
Proof.
  unfold _from_api_key. destruct (partition_ raw) as [prefix rest] eqn:E1.
  destruct (partition_ rest) as [key_id secret] eqn:E2.
  case_bool_decide as Hp; cbn [negb orb]; [subst prefix|split; [done|by eexists]].
  case_bool_decide as Hk; cbn [orb]; [split; [done|by eexists]|].
  case_bool_decide as Hs; [split; [done|by eexists]|].
  apply partition_inv in E2 as [-> Hn]; [|done].
  apply partition_inv in E1 as [-> _]; [|by destruct key_id].
  unfold key_get, PgApiKeyStore, pg_key_get, mbind, M_bind, gets. cbn.
  destruct (kt_rows t !! key_id) as [r|] eqn:Hr; cbn; [|split; [done|by eexists]].
  destruct (kr_disabled r) eqn:Hd; [split; [done|by eexists]|].
  case_bool_decide as Hh; cbn; [|split; [done|by eexists]].
  by exists key_id, secret, r.
Qed.

(** Minted keys work.  A key minted with an id that is not empty and has no
    underscore, and a secret that is not empty (it may contain underscores, as
    URL-safe base64 does), authenticates once its record is stored, as the
    principal it was minted for. *)
Theorem minted_key_authenticates tenant name scopes key_id fresh secret bearer t plaintext r t1 :
  mint_api_key tenant name scopes key_id fresh secret = (plaintext, r) ->
  ak_key_id r <> "" -> no_underscore (ak_key_id r) -> secret <> "" ->
  pg_key_create r t = (Ok tt, t1) ->
  fst (authenticate (Some plaintext) bearer t1)
  = Ok {| pr_name := name; pr_tenant_id := tenant; pr_scopes := JStr <$> scopes;
          pr_kind := "api_key" |}.
Proof.
  unfold mint_api_key. intros [= <- <-] Hne Hn Hs Hc. cbn [ak_key_id] in *.
  set (kid := if truthy_str key_id then _ else _) in *.
  unfold pg_key_create in Hc. cbn in Hc. destruct (kt_rows t !! kid) eqn:Hk; [done|].
  injection Hc as <-. unfold authenticate.
  change (truthy_str (Some ("af_" +:+ kid +:+ "_" +:+ secret))) with true.
  unfold _from_api_key. cbn [from_option id].
  change ("af_" +:+ kid +:+ "_" +:+ secret) with ("af" +:+ "_" +:+ (kid +:+ "_" +:+ secret)).
  rewrite partition_app by (unfold no_underscore; vm_compute; set_solver).
  rewrite partition_app by done. cbn.
  rewrite (bool_decide_false (kid = "")), (bool_decide_false (secret = "")) by done.
  rewrite bool_decide_true by done. cbn [negb orb].
  unfold key_get, PgApiKeyStore, pg_key_get, mbind, M_bind, gets. cbn [kt_rows set_rows].
  rewrite lookup_insert_eq. cbn. by rewrite bool_decide_true.
Qed.
End theorems.

Module KeySample.
#[export] Instance secrets : Secrets := {|
  sha256_hex s := "h:" +:+ s; api_key_pepper := "p"; jwt_secret := "j"; jwt_algorithm := "HS256" |}.
#[export] Instance pystr : PyStr := {| py_str _ := ""; py_float _ := "" |}.
#[export] Instance jwt : Jwt KeyTable := {| jwt_decode _ _ _ _ := Err "bad" |}.
Definition minted : string * ApiKeyRecord :=
  mint_api_key "t1" "ci" ["instances:read"] None "0a1b" "se_cret".
Definition table : KeyTable := {| kt_rows := ∅; kt_now := 0%Z |}.
End KeySample.
Import KeySample.

Lemma minted_key_authenticates_witness :
  exists p, fst (authenticate (Some "af_0a1b_se_cret") None
      (snd (pg_key_create (snd KeySample.minted) KeySample.table))) = Ok p /\
    pr_tenant_id p = "t1" /\ has p "instances:read" = true /\ has p "instances:write" = false.
Proof.
  eexists. split.
  - apply (minted_key_authenticates "t1" "ci" ["instances:read"] None "0a1b" "se_cret" None
      KeySample.table "af_0a1b_se_cret" (snd KeySample.minted)); try reflexivity; try done.
    unfold no_underscore. vm_compute. set_solver.
  - vm_compute. done.
Defined.
End Auth.
