(* ===== verification/Cli.v ===== *)
(** The command line ([cli.py]) and the report it prints ([evals/report.py]).

    [typer]'s parsing is outside, and so is [api], which hands over to uvicorn.  A suite
    is loaded and a report written as [ModelFiles] says; the whole [eval] command and
    [worker] are in [Runtime]. *)

From stdpp Require Import base strings list gmap pretty.
From Stdlib Require Import ZArith Lia Ascii.
From Corelib Require Import SpecFloat.
From S2P Require Import Prelude Exceptions Values Text Definitions Ports SideEffects Outbox Cost.
From S2P Require Import LlmClient Runners Evals Auth Config Digests.

Import Auth Config.

Module Cli.

(** ** [agentforge apikey] *)
Section apikey.
Context {Se : Secrets} {Ps : PyStr}.

(** What is printed, once the record is stored; [fresh] and [secret] are the random
    texts of [mint_api_key]. *)
Definition apikey (tenant name scopes fresh secret : string) : M KeyTable exn string :=
  let '(plaintext, record) := mint_api_key tenant name (comma_list scopes) None fresh secret in
  _ ← pg_key_create record;
  mret plaintext.

Context {Jw : Jwt KeyTable}.

Lemma in_scopes_str s l : in_scopes s (JStr <$> l) = true <-> s ∈ l.
Proof.
  unfold in_scopes. rewrite existsb_exists. split.
  - intros (v & Hv%list_elem_of_In & Hs). apply list_elem_of_fmap in Hv as (s' & -> & Hin).
    cbn in Hs. apply bool_decide_eq_true in Hs. by subst.
  - intros Hin. exists (JStr s). split; [by apply list_elem_of_In, list_elem_of_fmap_2|].
    by apply bool_decide_eq_true_2.
Qed.

(** C36: A key minted on the command line works.  Given an id that no stored key has,
    with no underscore, and a secret, the command prints a key that authenticates as
    the named principal of the tenant, and opens exactly the scopes of the
    comma-separated list, or everything if [admin] is among them; every other key is
    untouched.  If the id is taken the command raises, prints nothing and changes
    nothing. *)
Theorem cli_key_authenticates tenant name scopes fresh secret bearer t :
  fresh <> "" -> no_underscore fresh -> secret <> "" ->
  match kt_rows t !! fresh with
  | None => exists plaintext t' p,
      apikey tenant name scopes fresh secret t = (Ok plaintext, t') /\
      fst (authenticate (Some plaintext) bearer t') = Ok p /\
      pr_tenant_id p = tenant /\ pr_name p = name /\
      (forall scope, has p scope = true <->
         Scope.value Scope.ADMIN ∈ comma_list scopes \/ scope ∈ comma_list scopes) /\
      (forall k, k <> fresh -> kt_rows t' !! k = kt_rows t !! k)
  | Some _ => exists e, apikey tenant name scopes fresh secret t = (Err e, t)
  end.
Proof.
  intros Hf Hn Hs. unfold apikey.
  destruct (mint_api_key tenant name (comma_list scopes) None fresh secret) as [plaintext r] eqn:Hm.
  assert (Hid : ak_key_id r = fresh) by (by injection Hm as _ <-).
  unfold mbind, M_bind. destruct (pg_key_create r t) as [[[]|e] t'] eqn:Hc.
  - pose proof Hc as Hc'. unfold pg_key_create in Hc'. rewrite Hid in Hc'.
    destruct (kt_rows t !! fresh); [done|]. injection Hc' as <-.
    eexists _, _, _. split; [reflexivity|]. split.
    { eapply (minted_key_authenticates tenant name (comma_list scopes) None fresh secret);
        [exact Hm|by rewrite Hid..|done|exact Hc]. }
    cbn [pr_tenant_id pr_name kt_rows set_rows]. split_and!; [done..| |].
    + intros scope. unfold has. rewrite orb_true_iff. cbn [pr_scopes]. by rewrite !in_scopes_str.
    + intros k Hk. by rewrite lookup_insert_ne.
  - unfold pg_key_create in Hc. rewrite Hid in Hc. destruct (kt_rows t !! fresh); [|done].
    injection Hc as <- <-. by eexists.
Qed.
End apikey.

(** ** [agentforge eval] *)

(** [f"{x:.0%}"] *)
Definition fmt_percent (x : float) : string :=
  match fmul x (float_of_Z 100) with
  | S754_nan => "nan%"
  | S754_infinity s => (if s then "-inf" else "inf") +:+ "%"
  | S754_zero s => (if s then "-0" else "0") +:+ "%"
  | S754_finite s m e => (if s then "-" else "") +:+ pretty (round_scaled 1 m e) +:+ "%"
  end.

Definition render_case (case : CaseResult) : list string :=
  ("  " +:+ (if cr_passed case then "ok  " else "FAIL") +:+ " " +:+ cr_name case +:+ "  ("
     +:+ fmt_percent (cr_weighted_score case) +:+ ")") ::
  (if truthy_str (cr_error case) then ["        error: " +:+ default "" (cr_error case)] else []) ++
  ((fun score => "        " +:+ (if so_passed score then "·" else "✗") +:+ " " +:+ so_scorer score
                   +:+ ": " +:+ so_detail score) <$> cr_scores case).

Definition render_text (report : SuiteReport) : string :=
  String.concat nl
    (((if rp_passed report then "PASS" else "FAIL") +:+ "  " +:+ rp_suite report
        +:+ "  (target: " +:+ rp_target report +:+ ")") ::
     ("  pass rate " +:+ fmt_percent (rp_pass_rate report) +:+ "  threshold "
        +:+ fmt_percent (rp_threshold report) +:+ "  cases " +:+ pretty (rp_case_count report)) ::
     ("  cost $" +:+ fmt_4f (rp_total_cost_usd report) +:+ "  tokens "
        +:+ pretty (rp_total_tokens_input report) +:+ "in / "
        +:+ pretty (rp_total_tokens_output report) +:+ "out") ::
     "" :: (rp_cases report ≫= render_case)).

(** [spec.model_copy(update={"threshold": threshold})], which validates nothing. *)
Definition with_threshold (threshold : float) (spec : EvalSuite) : EvalSuite := {|
  su_name := su_name spec; su_target := su_target spec; su_description := su_description spec;
  su_threshold := threshold; su_cases := su_cases spec |}.

Section eval.
Context {Hh : Hashing} {Ps : PyStr} {Et : EvalText} {W : Type} {Os : OutboxStore W} {Ck : Clock W}.

(** The text printed and the exit code. *)
Definition eval (runner : EvalRunner W) (spec : EvalSuite) (threshold : float)
    : M W exn (string * Z) :=
  let spec := if fleb fzero threshold then with_threshold threshold spec else spec in
  report ← run_suite runner spec;
  mret (render_text report, if rp_passed report then 0 else 1)%Z.

Lemma mapM_length {A B} (f : A -> M W exn B) l w bs w' :
  mapM_ f l w = (Ok bs, w') -> length bs = length l.
Proof.
  revert w bs. induction l as [|a l IH]; intros w bs; cbn [mapM_]; [by intros [= <- _]|].
  intros (b & w1 & _ & (rest & w2 & Hr & [= <- <-])%M_bind_Ok)%M_bind_Ok.
  cbn. by rewrite (IH _ _ Hr).
Qed.

(** The exit code is the verdict printed, and the verdict is the mean score against
    the threshold: the option's, if it is not negative, the suite's otherwise. *)
Theorem eval_exit_code runner spec threshold w text code w' :
  eval runner spec threshold w = (Ok (text, code), w') ->
  exists results, length results = length (su_cases spec) /\
    code = (if fleb (if fleb fzero threshold then threshold else su_threshold spec)
                    (pass_rate results) then 0 else 1)%Z /\
    String.prefix (if bool_decide (code = 0%Z) then "PASS" else "FAIL") text = true.
Proof.
  unfold eval. set (spec' := if fleb fzero threshold then _ else _). unfold run_suite.
  intros Hr. apply M_bind_Ok in Hr as (report & w1 & Hr & [= <- <- <-]).
  apply M_bind_Ok in Hr as (agent & w2 & _ & Hr). apply M_bind_Ok in Hr as (results & w3 & Hm & Hr).
  unfold lift in Hr. injection Hr as Hr <-. apply in_unit_Ok in Hr as [-> _]. exists results.
  assert (Hcases : su_cases spec' = su_cases spec) by (unfold spec'; by destruct (fleb _ _)).
  assert (Hth : su_threshold spec' = if fleb fzero threshold then threshold else su_threshold spec)
    by (unfold spec'; by destruct (fleb _ _)).
  split; [by rewrite <- Hcases; eapply mapM_length|]. cbn [report_of rp_passed].
  rewrite Hth. split; [done|]. unfold render_text. cbn [report_of rp_passed].
  rewrite Hth. by destruct (fleb _ (pass_rate results)).
Qed.
End eval.
End Cli.

Import KeySample.

Lemma cli_key_authenticates_witness :
  exists t' p,
    Cli.apikey "t1" "ci" " instances:read, instances:write ,," "0a1b" "se_cret" table
      = (Ok "af_0a1b_se_cret", t') /\
    fst (authenticate (Some "af_0a1b_se_cret") None t') = Ok p /\
    has p "instances:read" = true /\ has p "workflows:write" = false.
Proof.
  pose proof (Cli.cli_key_authenticates "t1" "ci" " instances:read, instances:write ,," "0a1b"
    "se_cret" None table) as H.
  destruct H as (plaintext & t' & p & H1 & H2 & _ & _ & Hs & _).
  - discriminate.
  - unfold no_underscore. apply (bool_decide_unpack _). vm_compute. exact I.
  - discriminate.
  - assert (plaintext = "af_0a1b_se_cret") as -> by (vm_compute in H1; by injection H1 as <- _).
    exists t', p. split; [exact H1|]. split; [exact H2|]. split.
    + apply Hs. right. apply (bool_decide_unpack _). vm_compute. exact I.
    + apply not_true_iff_false. rewrite Hs.
      intros [Hin|Hin]; revert Hin; apply (bool_decide_unpack _); vm_compute; exact I.
Defined.
