(* ===== verification/Api.v ===== *)
(** The HTTP API ([api/]): credentials, scopes, rate limits, the routes over the
    services, and the mapping of exceptions to responses.

    FastAPI resolves a route's dependencies (the principal, its scopes, the rate
    limit), then validates the parameters, then runs the handler.  Redis is a
    parameter. *)

From stdpp Require Import base strings list gmap pretty.
From Stdlib Require Import ZArith Lia Ascii.
From S2P Require Import Prelude Exceptions Values Text Enums Definitions Instance Events Fold.
From S2P Require Import EventCodec ModelCodec FoldTheory Tables EventStore EventStoreTheory Ports SideEffects Cost.
From S2P Require Import Journal Driver DriverTheory Escalation Control DeadLetter Instances.
From S2P Require Import Operators World Auth.

Import Auth EventModels StateModels.

(** ** Rate limiting ([api/middleware/rate_limit.py]) *)

(** The two Redis commands the limiter uses, and [time.time()] in seconds. *)
Class RateRedis (W : Type) := {
  r_incr : string -> M W exn Z;
  r_expire : string -> Z -> M W exn unit;
  unix_time : W -> Z;
}.

Record RateDecision := {
  rd_allowed : bool;
  rd_limit : Z;
  rd_remaining : Z;
  rd_reset_in : Z;
}.

Section limiter.
Context {W : Type} {Rr : RateRedis W} (redis : bool).

(** [RateLimiter.check]; [redis] says whether a client is configured. *)
Definition check (tenant_id bucket : string) (limit window_seconds : Z) : M W exn RateDecision :=
  let open := {| rd_allowed := true; rd_limit := limit; rd_remaining := limit;
                 rd_reset_in := window_seconds |} in
  if negb redis || (limit <=? 0)%Z then mret open
  else
    t ← gets unix_time;
    let key := "agentforge:rl:" +:+ tenant_id +:+ ":" +:+ bucket +:+ ":"
               +:+ pretty (t / window_seconds)%Z in
    count ← try_except
      (n ← r_incr key;
       _ ← (if (n =? 1)%Z then r_expire key window_seconds else mret tt);
       mret (Some n))
      is_Exception (fun _ => mret None);
    match count with
    | None => mret open
    | Some n =>
        t ← gets unix_time;
        mret {| rd_allowed := (n <=? limit)%Z; rd_limit := limit;
                rd_remaining := Z.max (limit - n) 0;
                rd_reset_in := (window_seconds - t mod window_seconds)%Z |}
    end.
End limiter.

(** ** Requests and responses ([api/schemas.py]) *)

Record StepView := {
  sv_step_id : string;
  sv_status : string;
  sv_attempts : Z;
  sv_model_used : option string;
  sv_cost_usd : float;
  sv_error_type : option string;
  sv_error_message : option string;
}.

Record InstanceView := {
  iv_instance_id : string;
  iv_tenant_id : string;
  iv_workflow_id : string;
  iv_workflow_version : string;
  iv_status : string;
  iv_version : Z;
  iv_context : dict;
  iv_steps : list StepView;
  iv_cost_accumulated_usd : float;
  iv_budget_limit_usd : option float;
  iv_escalations : list json;
  iv_side_effects : list json;
  iv_created_at : option time;
  iv_updated_at : option time;
  iv_completed_at : option time;
}.

Record InstanceSummaryView := {
  isv_instance_id : string;
  isv_workflow_id : string;
  isv_workflow_version : string;
  isv_status : string;
  isv_cost_accumulated_usd : float;
  isv_budget_limit_usd : option float;
  isv_next_wakeup_at : option time;
  isv_created_at : option time;
  isv_updated_at : option time;
  isv_completed_at : option time;
}.

Record EventView := {
  ev_view_sequence : Z;
  ev_view_event_type : string;
  ev_view_occurred_at : time;
  ev_view_payload : dict;
}.

Record EscalationView := {
  escv_escalation_id : string;
  escv_instance_id : string;
  escv_step_id : string;
  escv_reason : string;
  escv_recommendation : string;
  escv_confidence : float;
  escv_options : list dict;
  escv_auto_action : string;
  escv_deadline : option time;
  escv_created_at : time;
}.

Record DeadLetterView := {
  dlv_id : Z;
  dlv_instance_id : string;
  dlv_step_id : option string;
  dlv_reason : string;
  dlv_error_type : option string;
  dlv_error_message : option string;
  dlv_at_version : Z;
  dlv_created_at : time;
}.

Record RequeueResponse := { rq_instance_id : string; rq_status : string }.

Record ExecuteResponse := {
  xp_instance_id : string;
  xp_workflow_id : string;
  xp_version : string;
  xp_status : string;
}.

(** [ControlRequest], and its default. *)
Record ControlRequest := { cr_actor : string }.
Definition default_control : ControlRequest := {| cr_actor := "operator" |}.

Section views.
Context {L : Lax}.

Definition step_view (s : StepState) : StepView := {|
  sv_step_id := st_step_id s; sv_status := StepStatus.value (st_status s);
  sv_attempts := st_attempts s; sv_model_used := st_model_used s; sv_cost_usd := st_cost_usd s;
  sv_error_type := st_error_type s; sv_error_message := st_error_message s |}.

(** The steps are listed in the order of the map; the code keeps the dict's. *)
Definition to_view (i : WorkflowInstance) : InstanceView := {|
  iv_instance_id := wi_instance_id i; iv_tenant_id := wi_tenant_id i;
  iv_workflow_id := wi_workflow_id i; iv_workflow_version := wi_workflow_version i;
  iv_status := WorkflowStatus.value (wi_status i); iv_version := wi_version i;
  iv_context := wi_context i;
  iv_steps := (fun p => step_view p.2) <$> map_to_list (wi_step_states i);
  iv_cost_accumulated_usd := wi_cost_accumulated_usd i;
  iv_budget_limit_usd := wi_budget_limit_usd i;
  iv_escalations := dump_model EscalationRef_model <$> wi_escalations i;
  iv_side_effects := dump_model SideEffectRef_model <$> wi_side_effects i;
  iv_created_at := wi_created_at i; iv_updated_at := wi_updated_at i;
  iv_completed_at := wi_completed_at i |}.

Definition summary_view (r : EventStore.InstanceSummary) : InstanceSummaryView := {|
  isv_instance_id := EventStore.sum_instance_id r; isv_workflow_id := EventStore.sum_workflow_id r;
  isv_workflow_version := EventStore.sum_workflow_version r;
  isv_status := EventStore.sum_status r;
  isv_cost_accumulated_usd := EventStore.sum_cost_accumulated_usd r;
  isv_budget_limit_usd := EventStore.sum_budget_limit_usd r;
  isv_next_wakeup_at := EventStore.sum_next_wakeup_at r;
  isv_created_at := Some (EventStore.sum_created_at r);
  isv_updated_at := Some (EventStore.sum_updated_at r);
  isv_completed_at := EventStore.sum_completed_at r |}.

Definition event_view (e : event) : EventView := {|
  ev_view_sequence := ev_sequence e; ev_view_event_type := event_type (ev_body e);
  ev_view_occurred_at := ev_occurred_at e; ev_view_payload := EventModels.dump_event e |}.

Definition escalation_view (p : Escalation.PendingEscalation) : EscalationView := {|
  escv_escalation_id := Escalation.pe_escalation_id p;
  escv_instance_id := Escalation.pe_instance_id p; escv_step_id := Escalation.pe_step_id p;
  escv_reason := Escalation.pe_reason p; escv_recommendation := Escalation.pe_recommendation p;
  escv_confidence := Escalation.pe_confidence p; escv_options := Escalation.pe_options p;
  escv_auto_action := Escalation.pe_auto_action p; escv_deadline := Escalation.pe_deadline p;
  escv_created_at := Escalation.pe_created_at p |}.

Definition dead_letter_view (r : DeadLetter.DeadLetter) : DeadLetterView := {|
  dlv_id := DeadLetter.dl_id r; dlv_instance_id := DeadLetter.dl_instance_id r;
  dlv_step_id := DeadLetter.dl_step_id r; dlv_reason := DeadLetter.dl_reason r;
  dlv_error_type := DeadLetter.dl_error_type r;
  dlv_error_message := DeadLetter.dl_error_message r;
  dlv_at_version := DeadLetter.dl_at_version r; dlv_created_at := DeadLetter.dl_created_at r |}.

Definition executed_view (i : WorkflowInstance) : ExecuteResponse := {|
  xp_instance_id := wi_instance_id i; xp_workflow_id := wi_workflow_id i;
  xp_version := wi_workflow_version i; xp_status := WorkflowStatus.value (wi_status i) |}.
End views.

Record ExecuteRequest := {
  xr_context : dict;
  xr_version : option string;
  xr_budget_limit_usd : option float;
  xr_priority : string;
  xr_idempotency_key : option string;
}.

Record ResolveRequest := {
  rr_resolution : string;
  rr_resolved_by : string;
  rr_modified_context : option dict;
  rr_new_budget_usd : option float;
}.

Inductive route :=
| ListInstances (status : option (list string)) (workflow_id : option string) (limit offset : Z)
| GetInstance (instance_id : string)
| GetEvents (instance_id : string) (after : Z)
| GetHistory (instance_id : string) (at_version : Z)
| Pause (instance_id : string) (body : ControlRequest)
| Resume (instance_id : string) (body : ControlRequest)
| Abort (instance_id : string) (body : ControlRequest)
| ListPending (limit : Z)
| Resolve (escalation_id : string) (body : ResolveRequest)
| ListDeadLetters (resolved : bool) (limit : Z)
| Requeue (dlq_id : Z)
| RegisterWorkflow (body : dict)
| ListWorkflows (active_only : bool)
| GetWorkflow (workflow_id version : string)
| ExecuteWorkflow (name : string) (body : ExecuteRequest)
| Trigger (workflow_name : string) (body : dict).

Definition positive (x : option float) : bool :=
  match x with Some x => fltb fzero x | None => true end.

(** The constraints of the [Query] parameters and of the body models. *)
Definition params_valid (r : route) : bool :=
  match r with
  | ListInstances _ _ limit offset => (1 <=? limit)%Z && (limit <=? 200)%Z && (0 <=? offset)%Z
  | GetEvents _ after => (0 <=? after)%Z
  | GetHistory _ v => (1 <=? v)%Z
  | Resolve _ b => bool_decide (rr_resolution b ∈ ["approve"; "modify"; "skip"; "abort"])
                   && positive (rr_new_budget_usd b)
  | ExecuteWorkflow _ b => positive (xr_budget_limit_usd b)
                           && bool_decide (xr_priority b ∈ ["low"; "normal"; "high"; "critical"])
  | _ => true
  end.

(** The scopes of [require(...)], any one of which suffices. *)
Definition scopes_of (r : route) : list Scope.t :=
  match r with
  | ListInstances _ _ _ _ | GetInstance _ | GetEvents _ _ | GetHistory _ _ =>
      [Scope.INSTANCES_READ; Scope.INSTANCES_WRITE]
  | Pause _ _ | Resume _ _ | Abort _ _ | ExecuteWorkflow _ _ | Trigger _ _ => [Scope.INSTANCES_WRITE]
  | ListPending _ => [Scope.ESCALATIONS_READ; Scope.ESCALATIONS_WRITE]
  | Resolve _ _ => [Scope.ESCALATIONS_WRITE]
  | ListDeadLetters _ _ => [Scope.DLQ_READ; Scope.DLQ_WRITE]
  | Requeue _ => [Scope.DLQ_WRITE]
  | RegisterWorkflow _ => [Scope.WORKFLOWS_WRITE]
  | ListWorkflows _ | GetWorkflow _ _ => [Scope.WORKFLOWS_READ; Scope.WORKFLOWS_WRITE]
  end.

Definition execute_limited (r : route) : bool :=
  match r with ExecuteWorkflow _ _ | Trigger _ _ => true | _ => false end.

(** What a handler returns. *)
Inductive body :=
| BInstance (v : InstanceView)
| BSummaries (l : list InstanceSummaryView)
| BEvents (l : list EventView)
| BEscalations (l : list EscalationView)
| BResolved (instance_id resolution : string)
| BDeadLetters (l : list DeadLetterView)
| BRequeued (r : RequeueResponse)
| BRegistered (workflow_id version checksum : string)
| BDefinitions (l : list json)
| BDefinition (d : json)
| BExecuted (r : ExecuteResponse).

Inductive response :=
| Success (status : Z) (b : body)
| Refused (status : Z) (error detail : string)
| Unhandled (e : exn).

Definition HTTP_429 : exn := Exn (PyExc "HTTPException") "rate limit exceeded".
Definition HTTP_422 : exn := Exn (PyExc "RequestValidationError") "".

(** [install_error_handlers]: the handler of the first class in the exception's
    method resolution order that has one. *)
Definition handler_of (c : exn_class) : option (Z * string) :=
  match c with
  | PyExc "AuthError" => Some (401, "unauthenticated")%Z
  | PyExc "ForbiddenError" => Some (403, "forbidden")%Z
  | WorkflowDefinitionError => Some (422, "invalid_workflow")%Z
  | ConfigurationError => Some (404, "not_found")%Z
  | ConflictError => Some (409, "conflict")%Z
  | BudgetExceededError => Some (402, "budget_exceeded")%Z
  | AgentForgeError => Some (400, "engine_error")%Z
  | PyExc "HTTPException" => Some (429, "")%Z
  | PyExc "RequestValidationError" => Some (422, "")%Z
  | _ => None
  end.

Definition detail_of (status : Z) (msg : string) : string :=
  if bool_decide (msg = "") then
    if (status =? 401)%Z then "authentication required"
    else if (status =? 403)%Z then "insufficient scope" else msg
  else msg.

Definition error_response (e : exn) : response :=
  match omap handler_of (mro (exn_cls e)) with
  | (status, code) :: _ => Refused status code (detail_of status (exn_msg e))
  | [] => Unhandled e
  end.

Definition _bearer (header : option string) : option string :=
  match header with
  | Some h => if String.prefix "bearer " (lower h)
              then Some (strip (drop_str 7 h)) else None
  | None => None
  end.

Section api.
Context {C : Codec} {Se : Secrets} {Ps : PyStr} {L : Lax}.
Abbreviation World := (DB * Env)%type.
Context {Ks : ApiKeyStore World} {Jw : Jwt World} {Rr : RateRedis World}.
Context (redis : bool) (execute_rate_limit_per_minute : Z).

Abbreviation H := (M World exn).

(** Reads of the database. *)
Definition read {A} (f : DB -> res A) : H A := fun w => (f (fst w), w).

Definition not_found {A} (what : string) : H A :=
  raise (Exn ConfigurationError (what +:+ " not found")).

(** [_load] *)
Definition load_instance (instance_id tenant_id : string) : H WorkflowInstance :=
  o ← Instances.service_get instance_id tenant_id;
  match o with
  | Some i => mret i
  | None => not_found ("instance " +:+ instance_id)
  end.

Definition view_of (instance_id tenant_id : string) : H body :=
  i ← load_instance instance_id tenant_id; mret (BInstance (to_view i)).

Definition executed (i : WorkflowInstance) : body := BExecuted (executed_view i).

(** The handlers, for a tenant. *)
Definition list_instances tid status workflow_id limit offset : H body :=
  rows ← read (fun db => EventStore.list_instances db tid status workflow_id limit offset);
  mret (BSummaries (summary_view <$> rows)).

Definition get_events tid instance_id after : H body :=
  evs ← read (fun db => EventStore.load db instance_id tid after);
  mret (BEvents (event_view <$> evs)).

Definition get_history tid instance_id at_version : H body :=
  o ← read (fun db => EventStore.state_at db instance_id tid at_version None);
  match o with
  | Some i => mret (BInstance (to_view i))
  | None => raise (Exn ConfigurationError
                     ("instance " +:+ instance_id +:+ " has no state at v" +:+ pretty at_version))
  end.

Definition list_pending tid limit : H body :=
  pending ← Escalation.list_pending tid limit; mret (BEscalations (escalation_view <$> pending)).

Definition list_dead_letters tid resolved limit : H body :=
  rows ← read (DeadLetter.list_ tid resolved limit);
  mret (BDeadLetters (dead_letter_view <$> rows)).

Definition list_workflows tid active_only : H body :=
  defns ← read (DefinitionRepo.repo_list tid active_only);
  mret (BDefinitions (dump_defn <$> defns)).

Definition controlled (act : string -> string -> string -> H unit) tid instance_id
    (b : ControlRequest) : H body :=
  _ ← act instance_id tid (cr_actor b); view_of instance_id tid.

Definition resolve_escalation tid escalation_id (b : ResolveRequest) : H body :=
  iid ← Escalation.resolve escalation_id tid (rr_resolution b) (rr_resolved_by b)
          (rr_modified_context b) (rr_new_budget_usd b);
  mret (BResolved iid (rr_resolution b)).

Definition requeue_dead_letter tid dlq_id : H body :=
  iid ← DeadLetter.requeue dlq_id tid "operator";
  o ← Instances.service_get iid tid;
  mret (BRequeued {| rq_instance_id := iid; rq_status :=
    match o with Some i => WorkflowStatus.value (wi_status i) | None => "unknown" end |}).

Definition register_workflow tid body : H Api.body :=
  d ← lift (validate_defn (JObj body));
  _ ← on_fst (DefinitionRepo.register d tid true);
  mret (BRegistered (wd_workflow_id d) (wd_version d) (checksum d)).

Definition get_workflow tid workflow_id version : H body :=
  o ← get_definition workflow_id version tid;
  match o with
  | Some d => mret (BDefinition (dump_defn d))
  | None => not_found ("workflow " +:+ workflow_id +:+ " v" +:+ version)
  end.

Definition execute_workflow tid name (b : ExecuteRequest) : H body :=
  i ← Instances.create_instance tid
        (name ← Some name; _ ← xr_version b; Some name) (xr_version b)
        (match xr_version b with Some _ => None | None => Some name end)
        (Some (xr_context b)) (xr_budget_limit_usd b) TriggerSource.API
        (Some {[ "priority" := JStr (xr_priority b) ]});
  mret (executed i).

(** [context or {}] where the context is any JSON value; the event's field takes a
    dict only. *)
Definition trigger_context (body : dict) : res dict :=
  match default (JObj body) (body !! "context") with
  | JObj o => Ok o
  | v => if truthy v then Err (Exn (PyExc "ValidationError") "Input should be a valid dictionary")
         else Ok ∅
  end.

(** [budget_limit_usd], as the field of the event reads it. *)
Definition parse_budget (j : json) : res (option float) :=
  match ty_validate (t_opt t_float) j with
  | Some budget => Ok budget
  | None => Err (ValidationError "budget_limit_usd")
  end.

(** The event of a context or a budget that does not validate cannot be built: that
    is noticed after the definition was found and two ids were drawn. *)
Definition trigger tid workflow_name body : H Api.body :=
  match trigger_context body, parse_budget (default JNull (body !! "budget_limit_usd")) with
  | Ok context, Ok budget =>
      i ← Instances.create_instance tid None None (Some workflow_name) (Some context) budget
            TriggerSource.N8N (Some {[ "source" := JStr "webhook" ]});
      mret (executed i)
  | Err e, _ | Ok _, Err e =>
      _ ← Instances._resolve_definition tid None None (Some workflow_name);
      _ ← fresh_id; _ ← fresh_id;
      raise e
  end.

Definition handle (tid : string) (r : route) : H body :=
  match r with
  | ListInstances status wid limit offset => list_instances tid status wid limit offset
  | GetInstance iid => view_of iid tid
  | GetEvents iid after => get_events tid iid after
  | GetHistory iid v => get_history tid iid v
  | Pause iid b => controlled Control.pause tid iid b
  | Resume iid b => controlled Control.resume tid iid b
  | Abort iid b => controlled Control.abort tid iid b
  | ListPending limit => list_pending tid limit
  | Resolve eid b => resolve_escalation tid eid b
  | ListDeadLetters resolved limit => list_dead_letters tid resolved limit
  | Requeue dlq_id => requeue_dead_letter tid dlq_id
  | RegisterWorkflow b => register_workflow tid b
  | ListWorkflows active_only => list_workflows tid active_only
  | GetWorkflow wid version => get_workflow tid wid version
  | ExecuteWorkflow name b => execute_workflow tid name b
  | Trigger name b => trigger tid name b
  end.

Definition success_status (r : route) : Z :=
  match r with
  | RegisterWorkflow _ => 201
  | ExecuteWorkflow _ _ | Trigger _ _ => 202
  | _ => 200
  end.

Definition current_principal (api_key authorization : option string) : H Principal :=
  authenticate api_key (_bearer authorization).

(** The dependency that [require] makes: any one of the scopes suffices. *)
Definition require (scopes : list Scope.t) (p : Principal) : res Principal :=
  if existsb (fun s => has p (Scope.value s)) scopes then Ok p
  else Err (ForbiddenError ("need one of: " +:+ String.concat ", " (Scope.value <$> scopes))).

Definition rate_limited (r : route) (p : Principal) : H unit :=
  if execute_limited r then
    d ← check redis (pr_tenant_id p) "execute" execute_rate_limit_per_minute 60;
    if rd_allowed d then mret tt else raise HTTP_429
  else mret tt.

(** The dependencies of a route. *)
Definition admission (api_key authorization : option string) (r : route) : H Principal :=
  p ← current_principal api_key authorization;
  p ← lift (require (scopes_of r) p);
  _ ← rate_limited r p;
  mret p.

Definition serve (api_key authorization : option string) (r : route) : H body :=
  p ← admission api_key authorization r;
  if params_valid r then handle (pr_tenant_id p) r else raise HTTP_422.

Definition respond (api_key authorization : option string) (r : route) (w : World)
    : response * World :=
  let '(reply, w') := serve api_key authorization r w in
  (match reply with Ok b => Success (success_status r) b | Err e => error_response e end, w').

(** *** The websocket ([stream]): how it opens *)

Inductive stream_opening :=
| Closed (code : Z)
| Accepted (first : InstanceView).

(** A credential from the query or the header; no scope is asked for. *)
Definition stream (query_key header_key token : option string) (instance_id : string)
    : H stream_opening :=
  op ← try_except (p ← authenticate (if truthy_str query_key then query_key else header_key) token;
                   mret (Some p))
         is_Exception (fun _ => mret None);
  match op with
  | None => mret (Closed 4401)
  | Some p =>
      o ← Instances.service_get instance_id (pr_tenant_id p);
      match o with
      | Some i => if redis then mret (Accepted (to_view i)) else mret (Closed 4404)
      | None => mret (Closed 4404)
      end
  end.
End api.

(** ** Health ([api/routes/system.py]) *)

Definition __version__ : string := "0.1.0".

Definition live : list (string * string) := [("status", "ok"); ("version", __version__)].

(** One check: [except Exception] turns what was raised into its text. *)
Definition checked (ping : res unit) : res string :=
  match ping with
  | Ok _ => Ok "ok"
  | Err e => if is_Exception e then Ok ("error: " +:+ exn_msg e) else Err e
  end.

(** The status and the checks: the database, and Redis when there is a client. *)
Definition ready (database : res unit) (redis : option (res unit))
    : res (Z * list (string * string)) :=
  db ← checked database;
  rest ← match redis with
         | Some ping => r ← checked ping; Ok [("redis", r)]
         | None => Ok []
         end;
  let checks := ("database", db) :: rest in
  Ok (if forallb (fun c => bool_decide (c.2 = "ok")) checks then 200 else 503, checks)%Z.

(** Ready means that everything configured answered: an error, whatever its text, is
    never taken for an answer. *)
Theorem ready_iff database redis status checks :
  ready database redis = Ok (status, checks) ->
  (status = 200 <-> database = Ok tt /\ (redis = None \/ redis = Some (Ok tt)))%Z /\
  (status = 200 \/ status = 503)%Z.
Proof.
  unfold ready, checked. destruct database as [[]|e]; [|destruct (is_Exception e); [|done]];
    (destruct redis as [[[]|x]|]; [|destruct (is_Exception x); [|done]|]);
    cbn; intros [= <- <-]; (split; [|by (left + right)]); split; try done; try naive_solver.
Qed.
