(* ===== verification/ApiTheory.v ===== *)
(** The API keeps tenants apart: what a request may change, whatever it asks for. *)

From stdpp Require Import base strings list gmap sorting pretty.
From Stdlib Require Import ZArith Lia.
From S2P Require Import Prelude Exceptions Values Text Enums Definitions Instance Events Fold.
From S2P Require Import FoldTheory Tables EventStore EventStoreTheory Ports SideEffects Cost.
From S2P Require Import Journal Driver DriverTheory Escalation Control DeadLetter Instances.
From S2P Require Import EventCodec ModelCodec Operators World Auth Api.

Import Auth EventModels StateModels.

Section theory.
Context {C : Codec} {CL : CodecLaws} {Se : Secrets} {Ps : PyStr} {L : Lax}.
Abbreviation World := (DB * Env)%type.
Context {Ks : ApiKeyStore World} {Jw : Jwt World} {Rr : RateRedis World}.

(** *** Appending touches neither definitions nor dead letters *)

Definition side_tables (db : DB) := (db_definitions db, db_dead_letters db).

Lemma side_insert iid tid e : preserves side_tables (EventStore.insert_event iid tid e).
Proof. intros db. unfold EventStore.insert_event. case_bool_decide; [done|]. by destruct db. Qed.

Lemma side_upsert i nw : preserves side_tables (EventStore._upsert_index i nw).
Proof.
  intros db. unfold EventStore._upsert_index.
  destruct (db_index db !! wi_instance_id i); [by destruct db|]. case_bool_decide; by destruct db.
Qed.

Lemma side_escalations evs : preserves side_tables (EventStore._project_escalations evs).
Proof.
  intros db. unfold EventStore._project_escalations, modify. cbn. revert db.
  induction evs as [|e evs IH]; intros db; cbn; [done|]. rewrite IH.
  unfold EventStore.project_escalation, EventStore.close_escalation.
  destruct (ev_body e); try done; destruct (db_escalations db !! _); by destruct db.
Qed.

Lemma side_snapshot i t : preserves side_tables (EventStore._write_snapshot i t).
Proof. intros db. by destruct db. Qed.

Lemma side_read {A} (f : DB -> res A) : preserves side_tables (fun db => (f db, db)).
Proof. done. Qed.

Lemma side_transaction {A} (m : M DB exn A) :
  preserves side_tables m -> preserves side_tables (transaction m).
Proof. intros H db. unfold transaction. specialize (H db). by destruct (m db) as [[]]. Qed.

Lemma side_publish p iid tid evs : preserves side_tables (EventStore.publish p iid tid evs).
Proof.
  intros db. unfold EventStore.publish. destruct p; [done|]. destruct (last evs); [|done].
  destruct db as [? ? ? ? ? ? ? ? ? ? ? ? []]; done.
Qed.

Lemma side_write iid tid evs ver nw : preserves side_tables (EventStore.write_events iid tid evs ver nw).
Proof.
  unfold EventStore.write_events. apply preserves_bind.
  - apply preserves_try.
    + apply preserves_bind; [apply preserves_mapM, side_insert|done].
    + intros e m. case_bool_decide; [by intros [= <-]|done].
  - intros _. apply preserves_bind; [apply side_read|]. intros [i|]; [|done].
    apply preserves_bind; [apply side_upsert|intros _].
    apply preserves_bind; [apply side_escalations|intros _].
    apply preserves_bind; [apply side_read|intros snap]. destruct (_ || _); [|done].
    apply preserves_bind; [done|intros lst]. apply side_snapshot.
Qed.

Lemma side_commit p iid tid evs ver g nw :
  preserves side_tables (EventStore._commit p id iid tid evs ver g nw).
Proof.
  unfold EventStore._commit. apply preserves_bind; [done|intros _].
  apply preserves_bind; [apply side_read|intros _].
  apply preserves_bind; [done|intros v]. apply preserves_bind; [by case_bool_decide|intros _].
  apply preserves_bind; [done|intros _].
  apply preserves_bind; [apply side_transaction, side_write|intros _].
  apply preserves_bind; [apply side_publish|intros _]. by apply preserves_bind.
Qed.

(** *** What a tenant's request may change *)

Definition tenant_of (l : list event) : option string := ev_tenant_id <$> head l.

Record others_kept (tid : string) (w w' : World) : Prop := {
  ok_inv : store_inv (fst w');
  ok_logs : forall iid, log (fst w) iid <> [] -> tenant_of (log (fst w) iid) <> Some tid ->
              log (fst w') iid = log (fst w) iid;
  ok_definitions : forall k r, db_definitions (fst w) !! k = Some r -> dr_tenant_id r <> tid ->
              db_definitions (fst w') !! k = Some r;
  ok_dead_letters : forall k r, db_dead_letters (fst w) !! k = Some r -> dlr_tenant_id r <> tid ->
              db_dead_letters (fst w') !! k = Some r;
}.

Definition isolated (tid : string) (w w' : World) : Prop :=
  store_inv (fst w) -> others_kept tid w w'.

#[local] Instance isolated_preorder tid : PreOrder (isolated tid).
Proof.
  split.
  - intros w Hw. by split.
  - intros w1 w2 w3 H12 H23 H1. specialize (H12 H1). destruct H12 as [I2 L2 D2 Q2].
    specialize (H23 I2) as [I3 L3 D3 Q3]. split; [done|..]; eauto.
    intros iid Hne Ht. rewrite <- (L2 iid Hne Ht). apply L3; by rewrite (L2 iid Hne Ht).
Qed.

Abbreviation stays_in tid := (moves (isolated tid)).

(** Steps that leave the database alone. *)
Lemma isolated_same tid (w w' : World) : fst w' = fst w -> isolated tid w w'.
Proof. intros H Hw. split; by rewrite ?H. Qed.

Lemma db_isolated {A} tid (m : M World exn A) : (forall w, fst (snd (m w)) = fst w) -> stays_in tid m.
Proof. intros H w _. split; [by apply isolated_same|by destruct (fst (m w))]. Qed.

Lemma append_isolated tid iid drafts ver g nw :
  valid_bodies drafts -> stays_in tid (append_new (W := World) iid tid drafts ver g nw).
Proof.
  intros Hb%(sequenced_valid ver) [db env] _. cbn. unfold on_fst. cbn.
  destruct (EventStore.append_new _ _ _ _ _ _ _ _ db) as [r db'] eqn:E. cbn.
  split; [|by destruct r]. intros Hinv. cbn in Hinv.
  pose proof (side_commit EventStore.RedisEventPublisher iid tid (sequenced ver drafts) ver
    ((fun h db => h (db, env)) <$> g) nw db) as Hside.
  unfold EventStore.append_new in E. rewrite E in Hside. cbn in Hside. injection Hside as Hd Hq.
  assert (ev_sequence <$> sequenced ver drafts = seqZ_from ver (length (sequenced ver drafts))) as Hseq
    by (by rewrite sequenced_numbers, length_sequenced).
  assert (store_inv db' /\ forall j, log db j <> [] -> tenant_of (log db j) <> Some tid ->
            log db' j = log db j) as [Hi Hl].
  { destruct r as [[v evs]|e].
    - apply commit_ok in E as (_ & _ & _ & [H1 _ _ H2 H3 _] & i & Hf & Ht);
        [|done|by apply no_interference|done|done].
      split; [done|]. intros j Hne Hj. destruct (decide (j = iid)) as [->|Hji]; [|by apply H3].
      exfalso. apply fold_identity in Hf as (ev & l' & Hlog & _ & Hev). apply Hj.
      rewrite H2 in Hlog. destruct (log db iid) as [|e0 l0]; [done|]. injection Hlog as -> _.
      unfold tenant_of. cbn. congruence.
    - apply commit_err in E as [H1 H2]; [|done|by apply no_interference|done|done].
      split; [done|]. intros j _ _. by destruct H2 as [H2|H2]. }
  split; cbn; [exact Hi|exact Hl|by rewrite Hd|by rewrite Hq].
Qed.

Lemma get_isolated tid iid t d : stays_in tid (get_instance (W := World) iid t d).
Proof. apply db_isolated. by intros []. Qed.

Lemma defn_isolated tid a b c : stays_in tid (get_definition (W := World) a b c).
Proof. apply db_isolated. by intros []. Qed.

Lemma active_isolated tid a b : stays_in tid (get_active (W := World) a b).
Proof. apply db_isolated. by intros []. Qed.

Lemma read_isolated {A} tid (f : DB -> res A) : stays_in tid (Api.read f).
Proof. apply db_isolated. by intros []. Qed.

Lemma fresh_isolated tid : stays_in tid (fresh_id (W := World)).
Proof. apply db_isolated. by intros []. Qed.

Lemma clock_isolated tid : stays_in tid (read_clock (W := World)).
Proof. apply db_isolated. by intros []. Qed.

(** Tables changed for this tenant only. *)
Lemma mark_resolved_isolated tid dlq_id t :
  stays_in tid (on_fst (DeadLetter.mark_resolved dlq_id tid t) : M World exn unit).
Proof.
  intros [db env] _. split; [|done]. unfold on_fst, DeadLetter.mark_resolved. cbn.
  destruct (db_dead_letters db !! dlq_id) as [r|] eqn:Hr; [|by apply isolated_same].
  case_bool_decide as Ht; [|by apply isolated_same]. intros Hinv. split; cbn.
  - by apply (store_inv_frame db); [destruct db..|].
  - intros iid _ _. apply log_frame. by destruct db.
  - by destruct db.
  - intros k r' Hk Ht'. destruct (decide (k = dlq_id)) as [->|Hne]; [congruence|].
    destruct db; cbn in *. by rewrite lookup_insert_ne.
Qed.

Lemma register_isolated tid d a :
  stays_in tid (on_fst (DefinitionRepo.register d tid a) : M World exn WorkflowDefinition).
Proof.
  intros [db env] _. unfold on_fst, DefinitionRepo.register. cbn.
  destruct (db_definitions db !! DefinitionRepo.def_key tid d) as [r|] eqn:Hr.
  { case_bool_decide; (split; [by apply isolated_same|done]). }
  split; [|done]. cbn. intros Hinv. split; cbn.
  - by apply (store_inv_frame db); [destruct db..|].
  - intros iid _ _. apply log_frame. by destruct db.
  - intros k r Hk Ht. destruct db; cbn in *.
    destruct (decide (k = DefinitionRepo.def_key tid d)) as [->|Hne]; [congruence|].
    rewrite lookup_insert_ne by done. destruct a; [|done].
    unfold DefinitionRepo.deactivate. rewrite lookup_fmap, Hk. cbn.
    by rewrite (bool_decide_false (dr_tenant_id r = tid)).
  - by destruct db.
Qed.

(** Following a service: bind, branch, and the steps above. *)
Ltac follow :=
  repeat first
    [ apply moves_ret, _ | apply moves_raise, _ | apply moves_lift, _ | apply moves_gets, _
    | apply append_isolated; by repeat constructor | apply get_isolated | apply defn_isolated | apply active_isolated
    | apply read_isolated | apply fresh_isolated | apply clock_isolated
    | apply mark_resolved_isolated | apply register_isolated
    | apply moves_bind; [apply _| |intros ?] | apply moves_try; [apply _| |intros ?]
    | apply moves_mapM; [apply _|intros ?]
    | progress case_match ].

Lemma try_once_isolated tid iid to reason :
  stays_in tid (Control.try_once (W := World) iid tid to reason).
Proof. unfold Control.try_once. follow. Qed.

Lemma transition_isolated tid iid to reason :
  stays_in tid (Control._transition (W := World) iid tid to reason).
Proof.
  unfold Control._transition. induction Control._RETRIES as [|n IH]; cbn [Control.retry];
    [apply moves_raise, _|].
  apply moves_bind; [apply _|apply try_once_isolated|]. intros [|]; [apply moves_ret, _|exact IH].
Qed.

Lemma service_get_isolated tid iid t : stays_in tid (Instances.service_get (W := World) iid t).
Proof. unfold Instances.service_get. follow. Qed.

Lemma create_isolated tid wid ver name ctx budget src meta :
  stays_in tid (Instances.create_instance (W := World) tid wid ver name ctx budget src meta).
Proof. unfold Instances.create_instance, Instances._resolve_definition. follow. Qed.

(** Steps whose results satisfy [phi]. *)
Abbreviation yields tid m phi :=
  (triple (fun _ => True) (isolated tid) m (fun a _ => True /\ phi a)).

Lemma yields_bind {A B} tid (m : M World exn A) (k : A -> M World exn B) phi :
  yields tid m phi -> (forall a, phi a -> stays_in tid (k a)) -> stays_in tid (mbind k m).
Proof.
  intros Hm Hk. eapply triple_bind; [apply _|exact Hm|]. intros a. apply triple_pure, Hk.
Qed.

Lemma controller_event_yields tid i t b :
  yields tid (Escalation._event (W := World) i t b) (fun e => body_valid (ev_body e) = true).
Proof.
  unfold Escalation._event. eapply triple_bind; [apply _|apply fresh_isolated|]. intros eid.
  destruct (body_valid b) eqn:Hb; [by apply triple_ret_post; [apply _|]|by apply triple_raise, _].
Qed.

Lemma controller_events_yield tid i t bodies :
  yields tid (mapM_ (Escalation._event (W := World) i t) bodies) (fun es => valid_bodies es).
Proof.
  eapply triple_weaken.
  - apply (triple_mapM _ (fun _ => True) _ (fun _ e => body_valid (ev_body e) = true)).
    intros b _. apply controller_event_yields.
  - done.
  - intros es w [_ Hes]. split; [done|]. clear -Hes. by induction Hes; constructor.
Qed.

Lemma resolve_isolated tid eid resolution by_ ctx budget :
  stays_in tid (Escalation.resolve (W := World) eid tid resolution by_ ctx budget).
Proof.
  unfold Escalation.resolve, Escalation._transition_events.
  apply moves_bind; [apply _|unfold Escalation._load, Escalation.get; follow|]. intros [esc i].
  apply moves_bind; [apply _|apply clock_isolated|]. intros t.
  eapply yields_bind; [apply controller_event_yields|]. intros e He.
  eapply yields_bind; [apply controller_events_yield|]. intros b Hb.
  eapply yields_bind; [apply controller_events_yield|]. intros ts Ht.
  apply moves_bind; [apply _| |intros; apply moves_ret, _].
  apply append_isolated. constructor; [done|by apply Forall_app].
Qed.

Lemma requeue_isolated tid dlq_id by_ : stays_in tid (DeadLetter.requeue (B := Env) dlq_id tid by_).
Proof. unfold DeadLetter.requeue. follow. Qed.

Lemma view_isolated tid iid : stays_in tid (view_of iid tid).
Proof.
  unfold view_of, load_instance, not_found. apply moves_bind; [apply _| |intros; follow].
  apply moves_bind; [apply _|apply service_get_isolated|intros; follow].
Qed.

Lemma controlled_isolated tid iid actor (act : string -> string -> string -> M World exn unit) :
  (forall reason, stays_in tid (act iid tid reason)) -> stays_in tid (controlled act tid iid actor).
Proof. intros H. apply moves_bind; [apply _|done|]. intros _. apply view_isolated. Qed.

Lemma executed_isolated tid m : stays_in tid m ->
  stays_in tid (i ← m; mret (executed i) : M World exn body).
Proof. intros H. apply moves_bind; [apply _|done|]. intros i. apply moves_ret, _. Qed.

Lemma trigger_isolated tid name b : stays_in tid (trigger tid name b).
Proof.
  unfold trigger. destruct (trigger_context b) as [ctx|e]; [destruct (parse_budget _) as [x|e]|].
  - apply executed_isolated, create_isolated.
  - unfold Instances._resolve_definition. follow.
  - unfold Instances._resolve_definition. follow.
Qed.

(** Whatever the route, the handler run for [tid] keeps to the data of [tid]. *)
Lemma handle_isolated tid r : stays_in tid (handle tid r).
Proof.
  destruct r; cbn [handle];
    try (apply moves_bind; [apply _|apply read_isolated|intros; apply moves_ret, _]).
  - apply view_isolated.
  - unfold get_history. apply moves_bind; [apply _|apply read_isolated|intros; follow].
  - apply controlled_isolated. intros. apply transition_isolated.
  - apply controlled_isolated. intros. apply transition_isolated.
  - apply controlled_isolated. intros. apply transition_isolated.
  - apply moves_bind; [apply _|apply resolve_isolated|intros; apply moves_ret, _].
  - apply moves_bind; [apply _|apply requeue_isolated|intros iid].
    apply moves_bind; [apply _|apply service_get_isolated|intros; apply moves_ret, _].
  - unfold register_workflow. follow.
  - unfold get_workflow, not_found. follow.
  - apply executed_isolated, create_isolated.
  - apply trigger_isolated.
Qed.
End theory.

Section claims.
Context {C : Codec} {CL : CodecLaws} {Se : Secrets} {Ps : PyStr} {L : Lax}.
Abbreviation World := (DB * Env)%type.
Context {Ks : ApiKeyStore World} {Jw : Jwt World} {Rr : RateRedis World}.
Context (redis : bool) (per_minute : Z).

(** Keys and rate counters are kept apart from the engine's tables: the four
    operations leave those alone. *)
Class DoorFrame : Prop := {
  key_get_frame : forall k w, fst (snd (key_get k w)) = fst w;
  key_touch_frame : forall k t w, fst (snd (key_touch k t w)) = fst w;
  r_incr_frame : forall k w, fst (snd (r_incr k w)) = fst w;
  r_expire_frame : forall k n w, fst (snd (r_expire k n w)) = fst w;
}.
Context {Fr : DoorFrame}.

(** Steps that leave the engine's tables alone. *)
Definition same_db (w w' : World) : Prop := fst w' = fst w.

#[local] Instance same_db_preorder : PreOrder same_db.
Proof. unfold same_db. split; [done|]. intros w1 w2 w3. congruence. Qed.

Abbreviation outside := (moves same_db).

Lemma same_frame {A} (m : M World exn A) : (forall w, fst (snd (m w)) = fst w) -> outside m.
Proof. intros H w _. split; [exact (H w)|by destruct (fst (m w))]. Qed.

Ltac go_outside :=
  repeat first
    [ apply moves_ret, _ | apply moves_raise, _ | apply moves_lift, _ | apply moves_gets, _
    | apply same_frame; solve [apply key_get_frame | apply key_touch_frame | apply r_incr_frame
                              | apply r_expire_frame | by intros []]
    | apply moves_bind; [apply _| |intros ?] | apply moves_try; [apply _| |intros ?]
    | progress case_match ].

Lemma authenticate_outside k b : outside (authenticate (W := World) k b).
Proof. unfold authenticate, _from_api_key, _from_jwt. go_outside. Qed.

Lemma check_outside t b n s : outside (check (W := World) redis t b n s).
Proof. unfold check. go_outside. Qed.

Lemma rate_limited_outside r p : outside (rate_limited redis per_minute r p).
Proof.
  unfold rate_limited. case_match; [|apply moves_ret, _].
  apply moves_bind; [apply _|apply check_outside|]. intros d. go_outside.
Qed.

(** Admission changes no table of the engine, and lets in only a principal with one
    of the route's scopes. *)
Lemma admission_spec k a r :
  triple (fun _ => True) same_db (admission redis per_minute k a r)
    (fun p _ => exists s, s ∈ scopes_of r /\ has p (Scope.value s) = true).
Proof.
  unfold admission. eapply (triple_bind _ _ _ _ (fun _ _ => True)); [apply authenticate_outside|intros p].
  eapply triple_bind; [apply _|apply triple_lift, _|intros q]. cbn. apply triple_pure. intros Hq.
  unfold require in Hq. destruct (existsb _ _) eqn:Hs; [|done]. injection Hq as <-.
  eapply (triple_bind _ _ _ _ (fun _ _ => True));
    [eapply triple_weaken; [apply rate_limited_outside|done|done]|intros _].
  apply triple_ret_post; [apply _|]. intros _ _. apply existsb_exists in Hs as (s & Hin & Hs).
  exists s. split; [by apply list_elem_of_In|done].
Qed.

(** C32: Tenants are kept apart, writes.  Whatever the credentials and the request:
    a request that admission refuses (credentials, scopes, rate limit) leaves every
    table of the engine as it was and is answered by the refusal; otherwise the
    principal has one of the route's scopes, and however the handler ends, the event
    store stays well formed and every event log, workflow definition and dead letter
    of another tenant is what it was. *)
Theorem tenant_write_isolation key authorization r w :
  store_inv (fst w) ->
  let '(reply, w') := respond redis per_minute key authorization r w in
  match fst (admission redis per_minute key authorization r w) with
  | Err e => reply = error_response e /\ fst w' = fst w
  | Ok p => (exists s, s ∈ scopes_of r /\ has p (Scope.value s) = true) /\
            others_kept (pr_tenant_id p) w w'
  end.
Proof.
  intros Hinv. unfold respond, serve. destruct (admission_spec key authorization r w I) as [Hdb Hp].
  unfold mbind at 1, M_bind at 1. destruct (admission _ _ _ _ r w) as [[p|e] w1]; cbn in *; [|done].
  destruct ((if params_valid r then handle (pr_tenant_id p) r else raise HTTP_422) w1)
    as [reply w2] eqn:E.
  split; [exact Hp|]. assert (isolated (pr_tenant_id p) w1 w2) as H12.
  { destruct (params_valid r); [|by injection E as _ <-].
    pose proof (proj1 (handle_isolated (pr_tenant_id p) r w1 I)) as H. by rewrite E in H. }
  unfold same_db in Hdb. destruct H12 as [I2 L2 D2 Q2]; [by rewrite Hdb|].
  split; [exact I2|..]; intros; rewrite <- Hdb in *; eauto.
Qed.

(** *** What a response may show *)

(** The definition was registered by [tid]. *)
Definition registered_by (tid : string) (db : DB) (d : WorkflowDefinition) : Prop :=
  exists k r, db_definitions db !! k = Some r /\ dr_tenant_id r = tid /\
              validate_definition (dr_definition r) = Ok d.

(** Everything in the body is the tenant's own. *)
Definition owned (tid : string) (db : DB) (b : body) : Prop :=
  match b with
  | BInstance v => iv_tenant_id v = tid
  | BSummaries l => Forall (fun v => exists r, r ∈ (map_to_list (db_index db)).*2 /\
                      ix_tenant_id r = tid /\ v = summary_view (EventStore.summary_of r)) l
  | BEvents l => Forall (fun v => exists iid e, e ∈ log db iid /\ ev_tenant_id e = tid /\
                           v = event_view e) l
  | BEscalations l => Forall (fun v => exists r, r ∈ Escalation.escalation_rows db /\
                        escr_tenant_id r = tid /\
                        v = escalation_view (Escalation._row_to_pending r)) l
  | BDeadLetters l => Forall (fun v => exists r, r ∈ (map_to_list (db_dead_letters db)).*2 /\
                        dlr_tenant_id r = tid /\
                        v = dead_letter_view (DeadLetter.dead_letter_of r)) l
  | BDefinitions l => Forall (fun j => exists d, registered_by tid db d /\ j = dump_defn d) l
  | BDefinition j => exists d, registered_by tid db d /\ j = dump_defn d
  | BResolved _ _ | BRequeued _ | BRegistered _ _ _ | BExecuted _ => True
  end.

(** Rows of [workflow_definitions] are found under their own tenant. *)
Definition definitions_keyed (db : DB) : Prop :=
  forall k r, db_definitions db !! k = Some r -> k.1.1 = dr_tenant_id r.

Lemma get_instance_tenant db iid tid d i :
  EventStore.get_instance db iid tid d = Ok (Some i) -> wi_tenant_id i = tid.
Proof.
  unfold EventStore.get_instance, EventStore._project. intros H.
  apply bind_Ok in H as (snap & _ & H). destruct (EventStore.snap_base snap) as [base after].
  apply bind_Ok in H as (tl & _ & H).
  assert ((j ← Fold.fold tl d base; if bool_decide (wi_tenant_id j = tid) then Ok (Some j)
           else Ok None) = Ok (Some i)) as (j & _ & Hj)%bind_Ok by (destruct base, tl; done).
  case_bool_decide; congruence.
Qed.

(** A loop that reads every element of a list reads each of them. *)
Lemma mapM_owned {A B} (f : A -> res B) (P : B -> Prop) l r :
  (forall a b, a ∈ l -> f a = Ok b -> P b) -> mapM f l = Ok r -> Forall P r.
Proof.
  revert r. induction l as [|a l IH]; intros r Hf; cbn; [by intros [= <-]|].
  intros (b & Hb & (bs & Hbs & [= <-])%bind_Ok)%bind_Ok. constructor.
  - by apply (Hf a); [left|].
  - apply IH; [|done]. intros a' b' Ha. apply Hf. by right.
Qed.

Lemma load_owned db iid tid n evs :
  store_inv db -> EventStore.load db iid tid n = Ok evs ->
  Forall (fun e => e ∈ log db iid /\ ev_tenant_id e = tid) evs.
Proof.
  intros Hinv. unfold EventStore.load, EventStore.parse_rows. apply mapM_owned. intros r e Hr He.
  rewrite order_by_Permutation, list_elem_of_filter in Hr. destruct Hr as [[Ht _] Hr].
  pose proof (si_rows _ _ (ii_stream _ _ (Hinv iid))) as Hrows. rewrite Forall_forall in Hrows.
  destruct (Hrows r Hr) as (e' & Hp & _ & Ht' & _ & Hv).
  rewrite Hp, event_roundtrip in He by done. injection He as <-. split; [|congruence].
  unfold log. apply list_elem_of_omap. exists r. split; [done|]. by rewrite Hp, event_roundtrip.
Qed.

Lemma state_at_owned db iid tid v i :
  store_inv db -> EventStore.state_at db iid tid v None = Ok (Some i) -> wi_tenant_id i = tid.
Proof.
  intros Hinv (evs & Hl & H)%bind_Ok. apply load_owned in Hl; [|done].
  destruct (filter _ evs) as [|e l] eqn:Hfil; [done|]. apply bind_Ok in H as (j & Hf & [= ->]).
  apply fold_identity in Hf as (e' & l' & [= <- <-] & _ & ->).
  rewrite Forall_forall in Hl. apply (Hl e).
  assert (e ∈ e :: l) as Hin by left. rewrite <- Hfil, list_elem_of_filter in Hin. apply Hin.
Qed.

Lemma limited_owned {A B} (f : A -> B) (P : B -> Prop) n (l : list A) r :
  (forall a, a ∈ l -> P (f a)) ->
  (fun rows : list A => f <$> rows) <$> Escalation.sql_limit n l = Ok r -> Forall P r.
Proof.
  intros H. unfold Escalation.sql_limit. destruct (_ <? _)%Z; [done|]. intros [= <-].
  apply Forall_fmap, Forall_forall. intros a Ha. apply H.
  rewrite <- (take_drop (Z.to_nat n) l). apply elem_of_app. by left.
Qed.

Lemma definitions_owned tid db active_only l :
  DefinitionRepo.repo_list tid active_only db = Ok l -> Forall (registered_by tid db) l.
Proof.
  unfold DefinitionRepo.repo_list. apply mapM_owned. intros r d Hr Hd.
  rewrite merge_sort_Permutation, list_elem_of_filter in Hr. destruct Hr as [[Ht _] Hr].
  apply list_elem_of_fmap in Hr as ([k r'] & -> & Hk). apply elem_of_map_to_list in Hk. by exists k, r'.
Qed.

(** Handlers that do not touch the world: what they return when they return. *)
Lemma read_shows {A} (f : DB -> res A) (k : A -> M World exn body) w b w' :
  mbind k (read f) w = (Ok b, w') -> exists a, f (fst w) = Ok a /\ k a w = (Ok b, w').
Proof. unfold mbind, M_bind, read. cbn. destruct (f (fst w)); [|done]. eauto. Qed.

Lemma view_shows tid iid w b w' :
  view_of iid tid w = (Ok b, w') -> owned tid (fst w) b.
Proof.
  intros (i & w1 & Hl & [= <- _])%M_bind_Ok. cbn. unfold load_instance, Instances.service_get in Hl.
  apply M_bind_Ok in Hl as (o & w2 & Hs & Ho).
  destruct o as [j|]; [|done]. injection Ho as <- _.
  apply M_bind_Ok in Hs as (h & w3 & _ & Hs). destruct h; [|done].
  apply M_bind_Ok in Hs as (d & w4 & _ & Hs). destruct w4 as [db env]. cbn in Hs.
  injection Hs as Hg _. by eapply get_instance_tenant.
Qed.

Lemma controlled_shows act tid iid actor w b w' :
  controlled act tid iid actor w = (Ok b, w') -> owned tid (fst w) b.
Proof.
  intros (u & w1 & _ & H)%M_bind_Ok.
  assert (owned tid (fst w1) b) as Ho by (by eapply view_shows). revert H Ho.
  unfold view_of. intros (i & w2 & _ & [= <- _])%M_bind_Ok Ho. exact Ho.
Qed.

(** What a handler returns to [tid] is the data of [tid]. *)
Lemma handle_shows tid r w b w' :
  store_inv (fst w) -> definitions_keyed (fst w) -> handle tid r w = (Ok b, w') ->
  owned tid (fst w) b.
Proof.
  intros Hinv Hkey. destruct r; cbn [handle].
  - intros (l & Hl & [= <- _])%read_shows. unfold EventStore.list_instances in Hl.
    destruct (_ <? _)%Z; [done|]. injection Hl as <-. cbn. rewrite !Forall_fmap. apply Forall_forall.
    intros x Hx. cbn. apply elem_of_take in Hx as (n & Hx & _). rewrite lookup_drop in Hx.
    apply list_elem_of_lookup_2 in Hx. rewrite order_by_Permutation, list_elem_of_filter in Hx.
    destruct Hx as [Ht Hx]. exists x. split; [done|]. split; [|done]. unfold EventStore.listed in Ht.
    by apply andb_true_iff in Ht as [[Ht%bool_decide_eq_true _]%andb_true_iff _].
  - apply view_shows.
  - intros (l & Hl & [= <- _])%read_shows. apply Forall_fmap. apply load_owned in Hl; [|done].
    eapply Forall_impl; [exact Hl|]. intros e [He Ht]. by exists instance_id, e.
  - intros (o & Ho & H)%read_shows. destruct o as [i|]; [|done]. injection H as <- _. cbn.
    by eapply state_at_owned.
  - apply controlled_shows.
  - apply controlled_shows.
  - apply controlled_shows.
  - intros (l & Hl & [= <- _])%(read_shows (fun db => Escalation.pg_list_pending tid limit db)).
    apply Forall_fmap. revert Hl. apply limited_owned. intros e He.
    rewrite order_by_Permutation, list_elem_of_filter in He. exists e. by destruct He as [[? _] ?].
  - intros (iid & w1 & _ & [= <- _])%M_bind_Ok. done.
  - intros (l & Hl & [= <- _])%read_shows. apply Forall_fmap. revert Hl. apply limited_owned.
    intros d Hd. rewrite order_by_Permutation, list_elem_of_filter in Hd. exists d.
    by destruct Hd as [[? _] ?].
  - intros (iid & w1 & _ & (o & w2 & _ & [= <- _])%M_bind_Ok)%M_bind_Ok. done.
  - intros (d & w1 & _ & (u & w2 & _ & [= <- _])%M_bind_Ok)%M_bind_Ok. done.
  - intros (l & Hl & [= <- _])%read_shows. apply Forall_fmap. apply definitions_owned in Hl.
    eapply Forall_impl; [exact Hl|]. intros d Hd. by exists d.
  - unfold get_workflow. intros (o & w1 & Ho & H)%M_bind_Ok. destruct w as [db env].
    injection Ho as Ho _. destruct o as [d|]; [|done]. injection H as <- _.
    cbn. unfold DefinitionRepo.repo_get, DefinitionRepo.load_row in Ho.
    destruct (db_definitions db !! _) as [row|] eqn:Hrow; [|done].
    apply bind_Ok in Ho as (d' & Hd & [= ->]). exists d. split; [|done]. exists (tid, workflow_id, version), row.
    split; [done|]. split; [|done]. by rewrite <- (Hkey _ _ Hrow).
  - intros (i & w1 & _ & [= <- _])%M_bind_Ok. done.
  - unfold trigger. destruct (trigger_context _) as [ctx|e]; [destruct (parse_budget _) as [x|e]|].
    + intros (i & w1 & _ & [= <- _])%M_bind_Ok. done.
    + intros (i & w1 & _ & (j & w2 & _ & (k & w3 & _ & [=])%M_bind_Ok)%M_bind_Ok)%M_bind_Ok.
    + intros (i & w1 & _ & (j & w2 & _ & (k & w3 & _ & [=])%M_bind_Ok)%M_bind_Ok)%M_bind_Ok.
Qed.

(** C33: Tenants are kept apart, reads.  A request that is answered with a body was
    made by a principal that admission let in, and all that the body shows (an
    instance and its history, instance summaries, events, escalations, dead letters,
    workflow definitions) belongs to that principal's tenant. *)
Theorem tenant_read_isolation key authorization r w b w' :
  store_inv (fst w) -> definitions_keyed (fst w) ->
  serve redis per_minute key authorization r w = (Ok b, w') ->
  exists p w1, admission redis per_minute key authorization r w = (Ok p, w1) /\
               owned (pr_tenant_id p) (fst w) b.
Proof.
  intros Hinv Hkey. unfold serve. intros (p & w1 & Ha & Hr)%M_bind_Ok. exists p, w1. split; [done|].
  destruct (admission_spec key authorization r w I) as [Hdb _]. rewrite Ha in Hdb. cbn in Hdb.
  destruct (params_valid r); [|done]. unfold same_db in Hdb. rewrite <- Hdb.
  eapply handle_shows; [by rewrite Hdb|by rewrite Hdb|exact Hr].
Qed.

(** The only writer of [workflow_definitions] keeps rows under their own tenant. *)
Lemma register_keyed tid d a db :
  definitions_keyed db -> definitions_keyed (snd (DefinitionRepo.register d tid a db)).
Proof.
  intros Hk. unfold DefinitionRepo.register. destruct (db_definitions db !! _) eqn:E.
  { by case_bool_decide. }
  intros k r. cbn. destruct db; cbn in *. intros [[<- <-]|[_ Hr]]%lookup_insert_Some; [done|].
  destruct a; [|by apply Hk]. unfold DefinitionRepo.deactivate in Hr. rewrite lookup_fmap in Hr.
  apply fmap_Some in Hr as (r' & Hr & ->). specialize (Hk k r' Hr). by case_match.
Qed.

Lemma service_get_same iid tid : outside (Instances.service_get (W := World) iid tid).
Proof. unfold Instances.service_get. go_outside. Qed.

Lemma service_get_tenant iid tid w i w' :
  Instances.service_get (W := World) iid tid w = (Ok (Some i), w') -> wi_tenant_id i = tid.
Proof.
  unfold Instances.service_get. intros (h & w3 & _ & Hs)%M_bind_Ok. destruct h; [|done].
  apply M_bind_Ok in Hs as (d & w4 & _ & Hs). destruct w4 as [db env]. cbn in Hs.
  injection Hs as Hg _. by eapply get_instance_tenant.
Qed.

(** The websocket shows a principal an instance of its tenant, and changes nothing; but
    any principal will do, whatever its scopes. *)
Theorem stream_isolated query_key header_key token iid :
  triple (fun _ => True) same_db (stream redis query_key header_key token iid)
    (fun o _ => forall v, o = Accepted v ->
       exists p w0 w1, iv_tenant_id v = pr_tenant_id p /\
         authenticate (if truthy_str query_key then query_key else header_key) token w0 = (Ok p, w1)).
Proof.
  unfold stream. set (auth := authenticate _ token).
  eapply (triple_bind _ _ _ _ (fun op _ => forall p, op = Some p -> exists w0 w1, auth w0 = (Ok p, w1))).
  { eapply triple_try; [apply _| |]; [|intros e w _; split; [reflexivity|intros p [=]]].
    intros w _. destruct (authenticate_outside (if truthy_str query_key then query_key else header_key)
      token w I) as [Ho _]. fold auth in Ho. unfold mbind, M_bind.
    destruct (auth w) as [[p|e] w1] eqn:E; cbn in *; split; try done. intros p' [= <-]. eauto. }
  intros [p|]; [|by intros w _; split].
  intros w Hp. destruct (Hp p eq_refl) as (w0 & w1 & Ha).
  destruct (service_get_same iid (pr_tenant_id p) w I) as [Hs _]. unfold mbind, M_bind.
  destruct (Instances.service_get _ _ w) as [[o|e] w2] eqn:E; cbn in *; [|done].
  destruct o as [i|]; [|by split]. destruct redis; [|by split]. split; [done|].
  intros v [= <-]. exists p, w0, w1. split; [|done]. exact (service_get_tenant _ _ _ _ _ E).
Qed.
End claims.
