(* ===== verification/Scenarios.v ===== *)
(** Complete runs of the engine on the deployed world: the database with a
    registered definition, a worker's process, and the operators.  They instantiate
    the theorems about the driver and the operators, and exhibit behaviours that
    only appear when several components work together. *)

From stdpp Require Import base strings list gmap pretty relations.
From Stdlib Require Import ZArith Lia Ascii.
From S2P Require Import Prelude Exceptions Values Enums Definitions Instance Events Fold.
From S2P Require Import FoldTheory Samples Tables EventStore EventStoreTheory Leasing Outbox.
From S2P Require Import Ports SideEffects Cost LlmClient Runners Journal Driver PlanTheory.
From S2P Require Import DriverTheory DriverProps Escalation Control DeadLetter Instances.
From S2P Require Import Operators World Worker RunOnce.

Import SideEffects Cost Llm Leasing Driver StoreSample ReplaySample LlmSample.

Module Scenario.

#[export] Existing Instance plain_codec.
#[export] Existing Instance plain_codec_laws.

(** [x ** n] by repeated multiplication; enough for backoffs. *)
#[export] Instance pow : CMath :=
  {| c_pow x n := Ok (Nat.iter (Z.to_nat n) (fmul x) fone) |}.

Abbreviation World := (DB * Env)%type.

(** A process at time [t], whose next id is [k]. *)
Definition env_at (t : time) (k : Z) : Env := {|
  env_clock := {| fc_now := t |};
  env_ids := {| sg_prefix := "id"; sg_counter := k |};
  env_sent := [] |}.

(** A worker whose agents are all [runner]; no effects and no LLM are wired. *)
Definition worker (runner : StepRunner) : Wired World := {|
  dr_side_effects := None; dr_llm := None; dr_registry := {[ "agent" := runner ]};
  dr_budget := None; dr_notifier := true |}.

Definition lease : Lease := {|
  le_instance_id := "i1"; le_tenant_id := "t1"; le_workflow_id := "wf";
  le_workflow_version := "1.0.0"; le_worker_id := "w"; le_fence_token := 1;
  le_expires_at := 0%Z; le_last_sequence := 0 |}.

Definition held : World -> res unit := fun _ => Ok tt.

(** A database in which [d] is registered and [i1] was created and then moved on
    by [bodies]. *)
Definition registered (d : WorkflowDefinition) : DB :=
  snd (DefinitionRepo.register d "t1" true (empty_db 0%Z)).

Definition extend (bodies : list event_body) (db : DB) : DB :=
  run (EventStore.append_new EventStore.RedisEventPublisher id "i1" "t1" (Sample.draft <$> bodies)
         (Z.of_nat (length (log db "i1"))) None None) db.

(** [extend] keeps the invariant of the store. *)
Lemma extend_inv bodies db :
  store_inv db -> forallb body_valid bodies = true -> store_inv (extend bodies db).
Proof.
  intros Hdb Hb. apply run_append_inv; [done|]. apply Forall_fmap, Forall_forall. intros b Hin.
  rewrite forallb_forall in Hb. by apply Hb, list_elem_of_In.
Qed.

(** The sample instance, with its two steps made known, ready to be driven. *)
Definition started_bodies : list event_body :=
  [InstanceStatusChanged WorkflowStatus.PENDING WorkflowStatus.RUNNING None;
   StepStatusChanged "fetch" StepStatus.PENDING StepStatus.READY None;
   StepStatusChanged "publish" StepStatus.PENDING StepStatus.READY None].

Definition started : World := (extend started_bodies created, env_at 0 1).

Lemma started_ok : store_inv (fst started).
Proof. by apply extend_inv; [apply created_inv|]. Qed.

Lemma started_genesis : one_genesis (log (fst started) "i1").
Proof. vm_compute. repeat constructor; done. Qed.

Lemma worker_frame runner : wired_frame (worker runner).
Proof. split; intros * [=]. Qed.

Lemma worker_along runner R : wired_along R (worker runner).
Proof. split; intros * [=]. Qed.

(** [w] claims what it can, at time [t]. *)
Definition claimed (w : string) (t : time) (db : DB) : DB :=
  snd (acquire_runnable 30 ∅ w 5 t db).

Lemma claimed_inv w t db : store_inv db -> store_inv (claimed w t db).
Proof.
  unfold claimed, acquire_runnable. destruct (_ <=? _)%Z; [done|].
  destruct (take_leases _ _ _ _ _) as [leases acq]. apply store_inv_frame; by destruct db.
Qed.

Lemma claimed_log w t db j : log (claimed w t db) j = log db j.
Proof.
  unfold claimed, acquire_runnable. destruct (_ <=? _)%Z; [done|].
  destruct (take_leases _ _ _ _ _) as [leases acq]. apply log_frame. by destruct db.
Qed.

(** [w1] claims the instance; a minute later, when its lease has lapsed, [w2] does. *)
Definition leased : DB := claimed "w1" 0 (fst started).
Definition thief : DB -> DB := claimed "w2" (seconds 60).

Definition lease_w1 : Lease := {|
  le_instance_id := "i1"; le_tenant_id := "t1"; le_workflow_id := "wf";
  le_workflow_version := "1.0.0"; le_worker_id := "w1"; le_fence_token := 1;
  le_expires_at := seconds 30; le_last_sequence := 4 |}.

End Scenario.
Import Scenario.

(** ** Witnesses for the driver *)

(** [w1] drives on although [w2] took its lapsed lease. *)
Lemma drive_without_lease_writes_nothing_witness :
  let w := (thief leased, env_at (seconds 60) 1) in
  let d := drive (worker EchoRunner) lease_w1 (fun w => make_guard lease_w1 (fst w)) w in
  fst d = Ok (report "i1" DriveResult.LEASE_LOST) /\
  log (fst (snd d)) "i1" = log (fst w) "i1" /\ make_guard lease_w1 leased = Ok tt.
Proof.
  split; [vm_compute; reflexivity|]. split; [|vm_compute; reflexivity].
  apply (drive_without_lease_writes_nothing (worker EchoRunner) 30 ∅ lease_w1
    (thief leased, env_at (seconds 60) 1) (worker_along _ _)).
  - do 2 apply claimed_inv. exact started_ok.
  - cbn [fst]. unfold thief, leased. rewrite !claimed_log. exact started_genesis.
  - vm_compute. discriminate.
Defined.

Lemma ids_steady (w : World) : (now w <= now (snd (new_id w)))%Z.
Proof. apply Z.le_refl. Qed.

Lemma drive_starts_only_cleared_steps_witness :
  let w' := snd (drive (worker EchoRunner) lease held started) in
  fst (drive (worker EchoRunner) lease held started) = Ok (report "i1" DriveResult.COMPLETED) /\
  exists d l1 l2 i e s st,
    fst (get_definition "wf" "1.0.0" "t1" started) = Ok (Some d) /\
    take 4 (log (fst w') "i1") = l1 ++ l2 /\ Forall wave_event l2 /\
    Fold.fold l1 None None = Ok i /\ wi_status i = WorkflowStatus.RUNNING /\
    log (fst w') "i1" !! 4%nat = Some e /\ cleared i d (ev_occurred_at e) ("fetch", 1%Z) s st.
Proof.
  split; [vm_compute; reflexivity|].
  destruct (drive_starts_only_cleared_steps (worker EchoRunner) lease held started
    (worker_frame _) started_ok started_genesis ids_steady) as (_ & _ & more & Hl & Hc).
  set (w' := snd _) in *.
  assert (log (fst w') "i1" = log (fst started) "i1" ++ drop 4 (log (fst w') "i1")) as Hsplit
    by (vm_compute; reflexivity).
  change (log (fst w') "i1" = log (fst started) "i1" ++ more) in Hl.
  rewrite Hl in Hsplit at 1. apply app_inv_head in Hsplit.
  assert (log (fst w') "i1" !! 4%nat = head (drop 4 (log (fst w') "i1"))) as Hhead
    by (vm_compute; reflexivity).
  destruct (drop 4 (log (fst w') "i1")) as [|e post] eqn:E; [vm_compute in E; discriminate E|].
  destruct (Hc [] e post "fetch" 1%Z "w" None Hsplit) as (d & l1 & l2 & i & s & st & H0 & H1 & H2 & H3 & H4 & H5);
    [vm_compute in E; injection E as <- _; reflexivity|].
  exists d, l1, l2, i, e, s, st. split; [exact H0|]. split.
  { rewrite <- H1, app_nil_r, Hl. vm_compute. reflexivity. }
  split; [exact H2|]. split; [exact H3|]. split; [exact H4|]. split; [exact Hhead|exact H5].
Defined.

Definition started_instance : WorkflowInstance := default (new_instance "" "" "" "")
  match fst (get_instance "i1" "t1" (Some Sample.defn) started) with Ok o => o | Err _ => None end.

Lemma local_copy_exact_witness :
  exists j w', iteration (worker EchoRunner) started_instance Sample.defn lease held started
      = (Ok (inl j), w') /\
    step_status j "fetch" = StepStatus.COMPLETED /\
    get_instance "i1" "t1" (Some Sample.defn) w' = (Ok (Some j), w').
Proof.
  destruct (iteration (worker EchoRunner) started_instance Sample.defn lease held started)
    as [[[j|r]|x] w'] eqn:E; try (vm_compute in E; discriminate E).
  exists j, w'. split; [done|split].
  - vm_compute in E. injection E as <- _. reflexivity.
  - apply (local_copy_exact (worker EchoRunner) Sample.defn lease held "i1" "t1" started_instance
      started j w' (worker_frame _) started_ok started_genesis); [vm_compute; reflexivity|exact E].
Defined.

(** The worker died while [fetch] was running. *)
Definition crashed_bodies : list event_body :=
  started_bodies ++ [StepStarted "fetch" 1 "dead" None].
Definition crashed : World := (extend crashed_bodies created, env_at 0 1).
Definition crashed_instance : WorkflowInstance := default (new_instance "" "" "" "")
  match fst (get_instance "i1" "t1" (Some Sample.defn) crashed) with Ok o => o | Err _ => None end.

Lemma recovery_resets_running_steps_witness :
  exists j w', _recover_in_flight crashed_instance Sample.defn held crashed = (Ok j, w') /\
    running_steps crashed_instance = ["fetch"] /\ running_steps j = [].
Proof.
  destruct (_recover_in_flight crashed_instance Sample.defn held crashed) as [[j|x] w'] eqn:E;
    [|vm_compute in E; discriminate E].
  exists j, w'. split; [done|split; [vm_compute; reflexivity|]].
  apply (recovery_resets_running_steps Sample.defn held crashed_instance crashed j w');
    [by apply extend_inv; [apply created_inv|]|exact E].
Defined.

Definition paused : World :=
  (extend (started_bodies ++
     [InstanceStatusChanged WorkflowStatus.RUNNING WorkflowStatus.PAUSED None]) created, env_at 0 1).

Lemma drive_rests_witness :
  drive_with (worker EchoRunner) Sample.defn lease held paused
  = (Ok (report "i1" DriveResult.PAUSED), paused).
Proof.
  destruct (get_instance "i1" "t1" (Some Sample.defn) paused) as [[[i|]|x] w'] eqn:E;
    try (vm_compute in E; discriminate E).
  assert (w' = paused) as -> by (vm_compute in E; injection E as _ <-; vm_compute; reflexivity).
  assert (wi_instance_id i = "i1") as <- by (vm_compute in E; injection E as <-; reflexivity).
  apply (drive_rests (worker EchoRunner) Sample.defn lease held paused i); [exact E|..];
    vm_compute in E; injection E as <-; vm_compute; reflexivity.
Defined.

(** Claimed by [w1], and driven under the guard of its lease. *)
Lemma unseeded_instance_raises_witness :
  exists w' e, drive_with (worker EchoRunner) Sample.defn lease_w1
        (fun w => make_guard lease_w1 (fst w)) (claimed "w1" 0 created, env_at 0 1)
      = (Err (KeyError "fetch"), w') /\
    log (fst w') "i1" = [with_sequence (Sample.draft Sample.created) 1; e] /\
    ev_body e = InstanceStatusChanged WorkflowStatus.PENDING WorkflowStatus.RUNNING None.
Proof.
  eapply (unseeded_instance_raises (Jl := world_journal_laws) (worker EchoRunner) Sample.defn
    lease_w1 _ (claimed "w1" 0 created, env_at 0 1)
    (with_sequence (Sample.draft Sample.created) 1) _ Sample.fetch [Sample.publish]).
  - apply claimed_inv. exact created_inv.
  - reflexivity.
  - etransitivity; [apply (claimed_log "w1" 0 created "i1")|apply created_log].
  - vm_compute; reflexivity.
  - reflexivity.
  - reflexivity.
  - vm_compute; reflexivity.
Defined.

(** ** Witnesses for the operators *)

Lemma new_id_same (w : World) : same w (snd (new_id w)).
Proof. apply frame_id. Qed.

Lemma control_transition_exact_witness :
  exists w' e, Control._transition "i1" "t1" WorkflowStatus.PAUSED "lunch" started = (Ok tt, w') /\
    log (fst w') "i1" = log (fst started) "i1" ++ [e] /\
    ev_body e = InstanceStatusChanged WorkflowStatus.RUNNING WorkflowStatus.PAUSED (Some "lunch").
Proof.
  destruct (get_instance "i1" "t1" None started) as [[[i|]|x] w0] eqn:E;
    try (vm_compute in E; discriminate E).
  assert (w0 = started) as -> by (vm_compute in E; injection E as _ <-; vm_compute; reflexivity).
  pose proof (control_transition_exact new_id_same started "i1" "t1" WorkflowStatus.PAUSED "lunch" i
    started_ok started_genesis E) as H.
  assert (wi_status i = WorkflowStatus.RUNNING) as Hs
    by (vm_compute in E; injection E as <-; reflexivity).
  unfold outcome_of_request, is_terminal in H. rewrite Hs in H.
  destruct (Control._transition "i1" "t1" WorkflowStatus.PAUSED "lunch" started) as [r w'].
  destruct H as (-> & _ & e & Hl & He). exists w', e.
  split; [reflexivity|split; [exact Hl|]]. exact He.
Defined.

(** Two independent steps that both need approval, run side by side. *)
Definition gated (sid : string) : WorkflowStep := {|
  ws_step_id := sid; ws_name := sid; ws_agent_type := "agent";
  ws_input_schema := ∅; ws_output_schema := ∅; ws_retry_policy := default_retry_policy;
  ws_timeout_seconds := 300; ws_cost_tier := CostTier.STANDARD;
  ws_side_effects := []; ws_compensation_action := None;
  ws_requires_approval := true; ws_approval_timeout_seconds := Some 60%Z;
  ws_approval_auto_action := "abort"; ws_dependencies := [] |}.

Definition twins : WorkflowDefinition := {|
  wd_workflow_id := "wf"; wd_name := "Twins"; wd_description := "";
  wd_version := "1.0.0"; wd_steps := [gated "a"; gated "b"];
  wd_global_timeout_seconds := 3600; wd_max_concurrent_steps := 2;
  wd_on_failure := OnFailure.PAUSE |}.

Definition twins_started : World :=
  (extend [InstanceStatusChanged WorkflowStatus.PENDING WorkflowStatus.RUNNING None;
           StepStatusChanged "a" StepStatus.PENDING StepStatus.READY None;
           StepStatusChanged "b" StepStatus.PENDING StepStatus.READY None]
     (extend [Sample.created] (registered twins)), env_at 0 1).

(** Both wait for a human. *)
Definition twins_waiting : World := snd (drive (worker EchoRunner) lease held twins_started).

Lemma twins_waiting_ok : store_inv (fst twins_waiting).
Proof.
  apply (drive_keeps_journal (Jl := world_journal_laws) (worker EchoRunner) lease held twins_started);
    [apply worker_frame| |vm_compute; repeat constructor; done].
  do 2 (apply extend_inv; [|done]). apply (store_inv_frame (empty_db 0%Z)); [done..|apply empty_store_inv].
Qed.

Lemma twins_waiting_genesis : one_genesis (log (fst twins_waiting) "i1").
Proof. vm_compute. repeat constructor; done. Qed.

Definition twins_instance : WorkflowInstance := default (new_instance "" "" "" "")
  match fst (get_instance "i1" "t1" None twins_waiting) with Ok o => o | Err _ => None end.

Definition twin_a : Escalation.PendingEscalation := default
  {| Escalation.pe_escalation_id := ""; Escalation.pe_instance_id := "";
     Escalation.pe_tenant_id := ""; Escalation.pe_step_id := ""; Escalation.pe_reason := "";
     Escalation.pe_recommendation := ""; Escalation.pe_confidence := fzero;
     Escalation.pe_options := []; Escalation.pe_auto_action := "";
     Escalation.pe_deadline := None; Escalation.pe_status := ""; Escalation.pe_created_at := 0%Z |}
  (Escalation.esc_get "id-1" twins_waiting).

Lemma twin_a_resolvable : resolvable twins_waiting "id-1" "t1" twin_a twins_instance.
Proof. by split; vm_compute. Qed.

Lemma resolve_decides_witness :
  exists w' j, Escalation.resolve "id-1" "t1" "skip" "ann" None None twins_waiting = (Ok "i1", w') /\
    Fold.fold (log (fst w') "i1") None None = Ok j /\ wi_status j = WorkflowStatus.RUNNING /\
    st_status <$> wi_step_states j !! "a" = Some StepStatus.SKIPPED.
Proof.
  destruct (resolve_decides new_id_same twins_waiting "id-1" "t1" "skip" "ann" None None twin_a
    twins_instance twins_waiting_ok twins_waiting_genesis twin_a_resolvable)
    as (w' & evs & j & H1 & _ & _ & _ & H2 & H3 & _ & H4).
  - intros st Hst. vm_compute in Hst. injection Hst as <-. reflexivity.
  - exists w', j. split; [exact H1|split; [exact H2|split; [exact H3|]]].
    rewrite H4. vm_compute. reflexivity.
Defined.

Lemma resolve_refuses_the_rest_witness :
  exists msg, Escalation.resolve "id-1" "t2" "approve" "eve" None None twins_waiting
    = (Err (Exn ConfigurationError msg), twins_waiting).
Proof.
  apply (resolve_refuses_the_rest twins_waiting "id-1" "t2" "approve" "eve" None None None).
  destruct (Escalation.esc_get "id-1" twins_waiting) as [esc|] eqn:E; [left|done].
  vm_compute in E. injection E as <-. done.
Defined.

(** ** Behaviours of whole runs *)

(** Resolve the escalation of [a], drive, and look again. *)
Definition twins_resolved : World :=
  snd (Escalation.resolve "id-1" "t1" "approve" "ann" None None twins_waiting).
Definition twins_driven : World := snd (drive (worker EchoRunner) lease held twins_resolved).

(** One decision strands the other escalation.  Two steps of one wave both
    need approval, and both escalations are raised; approving the first sets the
    workflow running again while the second step still waits.  From then on every
    drive, at any time, returns idle; resolving the second escalation is refused
    because the instance is not waiting, its timeout is never applied, and it
    stays pending. *)
Theorem second_escalation_stranded :
  fst (drive (worker EchoRunner) lease held twins_started)
    = Ok (report "i1" DriveResult.WAITING_APPROVAL) /\
  fst (Escalation.resolve "id-1" "t1" "approve" "ann" None None twins_waiting) = Ok "i1" /\
  fst (drive (worker EchoRunner) lease held twins_resolved) = Ok (report "i1" DriveResult.IDLE) /\
  (forall t k, drive (worker EchoRunner) lease held (fst twins_driven, env_at t k)
    = (Ok (report "i1" DriveResult.IDLE), (fst twins_driven, env_at t k))) /\
  (forall t k by_, exists msg,
    Escalation.resolve "id-3" "t1" "approve" by_ None None (fst twins_driven, env_at t k)
      = (Err (Exn ConfigurationError msg), (fst twins_driven, env_at t k))) /\
  fst (Escalation.expire_due 1000000000 100 twins_driven) = Ok [] /\
  Escalation.pe_status <$> Escalation.esc_get "id-3" twins_driven = Some "pending".
Proof.
  split_and!; try (vm_compute; reflexivity).
  intros t k by_. eexists. vm_compute. reflexivity.
Qed.

(** A worker of one definition, [wf], whose agents see the step they run for. *)
Definition run_of (runner : StepRunner) (w : World) : res DriveReport * World :=
  drive (worker runner) lease held w.

(** [fetch] asks for a review and returns; the other steps echo their inputs. *)
Definition reviewed_fetch : StepRunner := fun ctx =>
  if bool_decide (sc_step_id ctx = "fetch") then
    RReview {| rq_reason := "confidence"; rq_confidence := fratio 1 2; rq_recommendation := "";
               rq_options := []; rq_auto_action := "abort"; rq_timeout_seconds := None |}
      (RReturn {| sr_output := {[ "answer" := JInt 42 ]}; sr_model_used := None |})
  else EchoRunner ctx.

Definition review_waiting : World := snd (run_of reviewed_fetch started).
Definition review_skipped : World :=
  snd (Escalation.resolve "id-3" "t1" "skip" "ann" None None review_waiting).
Definition review_done : World := snd (run_of reviewed_fetch review_skipped).

Definition instance_of (w : World) : option WorkflowInstance :=
  match Fold.fold (log (fst w) "i1") None None with Ok i => Some i | Err _ => None end.

Definition input_of (w : World) (sid dep : string) : option json :=
  i ← instance_of w; st ← wi_step_states i !! sid; o ← st_output st;
  match o !! "inputs" with Some (JObj inputs) => inputs !! dep | _ => None end.

(** A skipped step still feeds its dependents.  A step completes and asks for
    a review; the reviewer skips it, which should discard its output; the step is
    marked skipped, yet its dependent runs with the rejected output among its
    inputs. *)
Theorem skipped_output_still_flows :
  fst (run_of reviewed_fetch started) = Ok (report "i1" DriveResult.WAITING_APPROVAL) /\
  fst (Escalation.resolve "id-3" "t1" "skip" "ann" None None review_waiting) = Ok "i1" /\
  fst (run_of reviewed_fetch review_skipped) = Ok (report "i1" DriveResult.COMPLETED) /\
  (fun i => step_status i "fetch") <$> instance_of review_done = Some StepStatus.SKIPPED /\
  input_of review_done "publish" "fetch" = Some (JObj {[ "answer" := JInt 42 ]}).
Proof. split_and!; vm_compute; reflexivity. Qed.

(** A step that fails for good with a message of 240 characters. *)
Definition long_message : string := Nat.iter 240 (String "x"%char) "".
Definition failing : StepRunner := fun _ => RRaise (Exn (PyExc "ValueError") long_message).

Definition to_dead_letter (d : WorkflowDefinition) : WorkflowDefinition := {|
  wd_workflow_id := wd_workflow_id d; wd_name := wd_name d;
  wd_description := wd_description d; wd_version := wd_version d; wd_steps := wd_steps d;
  wd_global_timeout_seconds := wd_global_timeout_seconds d;
  wd_max_concurrent_steps := wd_max_concurrent_steps d;
  wd_on_failure := OnFailure.DEAD_LETTER |}.

Definition doomed : World :=
  (extend started_bodies (extend [Sample.created] (registered (to_dead_letter Sample.defn))),
   env_at 0 1).
Definition buried : World := snd (run_of failing doomed).

(** A dead letter can be lost.  When a step fails for good under the
    dead-letter policy with a message too long for the queue's [reason] column,
    the instance is dead-lettered in its log before the entry is inserted; the
    insert fails, the drive raises, and the queue stays empty: every later drive
    just reports the instance as dead-lettered, and there is no entry that could
    be requeued. *)
Theorem long_reason_is_never_queued :
  (exists msg, fst (run_of failing doomed) = Err (Exn (PyExc "DBAPIError") msg)) /\
  wi_status <$> instance_of buried = Some WorkflowStatus.DEAD_LETTERED /\
  db_dead_letters (fst buried) = ∅ /\
  (forall t k, run_of failing (fst buried, env_at t k)
    = (Ok (report "i1" DriveResult.DEAD_LETTERED), (fst buried, env_at t k))) /\
  (forall dlq tid by_, exists e, fst (DeadLetter.requeue dlq tid by_ buried) = Err e).
Proof.
  assert (db_dead_letters (fst buried) = ∅) as Hdl by (vm_compute; reflexivity).
  split_and!; [eexists; vm_compute; reflexivity|vm_compute; reflexivity|done| |].
  - intros t k. vm_compute. reflexivity.
  - intros dlq tid by_. eexists. unfold DeadLetter.requeue.
    rewrite (M_bind_step (gets _) _ buried None buried); [done|].
    unfold gets. by rewrite Hdl, lookup_empty.
Qed.

(** ** A lease that is stolen between the guard and the commit *)

Definition late : list event :=
  [Sample.draft (InstanceStatusChanged WorkflowStatus.RUNNING WorkflowStatus.PAUSED None)].

Lemma stolen_lease_still_writes_witness :
  exists i db',
    EventStore.append_new EventStore.NoopPublisher thief "i1" "t1" late
      (Z.of_nat (length (log leased "i1"))) (Some (make_guard lease_w1)) None leased
      = (Ok (wi_version i, sequenced 4 late), db') /\
    log db' "i1" = log leased "i1" ++ sequenced 4 late /\ make_guard lease_w1 db' <> Ok tt.
Proof.
  assert (store_inv leased) as Hok by (apply claimed_inv; exact started_ok).
  assert (length (log leased "i1") = 4%nat) as Hlen by (vm_compute; reflexivity).
  destruct (Fold.fold (log leased "i1" ++ sequenced (Z.of_nat (length (log leased "i1"))) late) None None)
    as [i|x] eqn:E; [|vm_compute in E; discriminate E].
  assert (wi_tenant_id i = "t1") as Ht by (vm_compute in E; injection E as <-; reflexivity).
  destruct (stolen_lease_still_writes EventStore.NoopPublisher thief lease_w1 "i1" "t1" late None
    leased i Hok) as (db' & H1 & _ & H2 & _ & H3).
  - apply claimed_inv, Hok.
  - apply claimed_log.
  - vm_compute. reflexivity.
  - vm_compute. discriminate.
  - discriminate.
  - repeat constructor.
  - repeat constructor.
  - exact E.
  - exact Ht.
  - intros H. rewrite H in Hlen. discriminate Hlen.
  - exists i, db'. rewrite Hlen in H1, H2. rewrite Hlen. exact (conj H1 (conj H2 H3)).
Defined.
