(* ===== verification/CompletionRuns.v ===== *)
(** Workflows complete on the deployed world, under the lease guard the worker really
    uses: the instances of [drive_completes] and [run_once_completes]. *)

From stdpp Require Import base strings list gmap pretty relations.
From Stdlib Require Import ZArith Lia.
From S2P Require Import Prelude Exceptions Values Enums Definitions Instance Events Fold.
From S2P Require Import FoldTheory Samples Tables EventStore EventStoreTheory Leasing Outbox.
From S2P Require Import Ports SideEffects Cost LlmClient Runners Journal Driver PlanTheory.
From S2P Require Import DriverTheory DriverProps WaveTheory Completion Escalation DeadLetter.
From S2P Require Import Instances World Worker RunOnce Scenarios.

Import SideEffects Cost Llm Leasing Driver StoreSample ReplaySample LlmSample Scenario.

(** ** The scenario *)

Module Retried.

(** [fetch] is done, [publish] failed once and waits until second 3. *)
Definition bodies : list event_body :=
  [WorkflowBudgetAdjusted None "ops" None;
   InstanceStatusChanged WorkflowStatus.PENDING WorkflowStatus.RUNNING None;
   StepStatusChanged "fetch" StepStatus.PENDING StepStatus.READY None;
   StepStarted "fetch" 1 "dead" None;
   StepCompleted "fetch" 1 ∅ None fzero 0 0 0;
   StepStatusChanged "publish" StepStatus.PENDING StepStatus.READY None;
   StepStarted "publish" 1 "dead" None;
   StepFailed "publish" 1 "TimeoutError" "slow" true;
   StepRetryScheduled "publish" 2 3000000%Z;
   InstanceStatusChanged WorkflowStatus.RUNNING WorkflowStatus.RETRYING None].

Definition row : InstanceLeaseRow := {|
  lr_instance_id := "i1"; lr_tenant_id := "t1"; lr_worker_id := "w"; lr_acquired_at := 0;
  lr_heartbeat_at := 0; lr_expires_at := 9000000; lr_fence_token := 1 |}.

(** Second 3, with the lease in the hands of the worker. *)
Definition world : DB * Env :=
  (set_leases {[ "i1" := row ]} (extend bodies created), env_at 3000000 1).

Definition guard (w : DB * Env) : res unit := make_guard lease (fst w).

Definition live (w : DB * Env) : Prop := guard w = Ok tt /\ (3000000 <= now w)%Z.

Definition instance : WorkflowInstance := default (new_instance "" "" "" "")
  match fst (get_instance "i1" "t1" (Some Sample.defn) world) with Ok o => o | Err _ => None end.

End Retried.

(** What leaves the leases alone keeps the world live. *)
Lemma live_on_fst {A} (m : M DB exn A) w :
  preserves desk m -> Retried.live w -> Retried.live (snd (on_fst m w)).
Proof.
  destruct w as [db env]. intros Hm [Hg Ht]. specialize (Hm db). unfold on_fst. cbn in *.
  destruct (m db) as [r db']. split; [by apply (guard_desk _ db)|done].
Qed.

Lemma retried_healthy :
  healthy (worker EchoRunner) Sample.defn lease Retried.guard 3000000%Z Retried.live.
Proof.
  constructor.
  - by intros w [_ ?].
  - by intros w [? _].
  - intros [db env] [Hg Ht]. by split.
  - intros drafts ver nw w _ Hw. apply live_on_fst; [apply append_desk|done].
  - intros day x [db env] [Hg Ht]. destruct db.
    eexists tt, _. split; [reflexivity|]. split; [exact Hg|exact Ht].
  - intros i s att inputs bv replay w Hl Hs. eexists _, _, _, _, _, w. split; [|exact Hl].
    cbn in Hs. repeat (apply elem_of_cons in Hs as [->|Hs]); [reflexivity..|].
    by apply not_elem_of_nil in Hs.
Qed.

Lemma retried_ok : store_inv (fst Retried.world).
Proof.
  unfold Retried.world. cbn [fst].
  apply (store_inv_frame (extend Retried.bodies created)); [by destruct (extend _ _)..|].
  by apply extend_inv; [apply created_inv|].
Qed.

(** Both steps are known, and a failed one waits for a time that has come. *)
Lemma sample_resumable due i :
  forallb (fun sid => bool_decide (is_Some (wi_step_states i !! sid)) &&
    bool_decide (step_status i sid ∈ [StepStatus.PENDING; StepStatus.READY; StepStatus.FAILED;
      StepStatus.COMPLETED; StepStatus.SKIPPED; StepStatus.RUNNING]) &&
    (0 <=? attempts_of i sid)%Z &&
    (bool_decide (step_status i sid <> StepStatus.FAILED) ||
     match retry_of i sid with Some t => (t <=? due)%Z | None => false end))
    ["fetch"; "publish"] = true ->
  open_esc i = [] -> wi_budget_limit_usd i = None -> resumable due Sample.defn i.
Proof.
  rewrite forallb_forall. intros Hb He Hl. constructor; [|done..|].
  - intros s Hs.
    assert (ws_step_id s ∈ ["fetch"; "publish"]) as Hin.
    { change (wd_steps Sample.defn) with [Sample.fetch; Sample.publish] in Hs.
      repeat (apply elem_of_cons in Hs as [->|Hs]); [left|right; left|by apply not_elem_of_nil in Hs]. }
    specialize (Hb _ (proj1 (list_elem_of_In _ _) Hin)).
    rewrite !andb_true_iff, orb_true_iff, !bool_decide_eq_true, Z.leb_le in Hb.
    destruct Hb as [[[H1 H2] H3] H4]. split_and!; [done..|]. intros Hf.
    destruct H4 as [?|H4]; [done|]. destruct (retry_of i (ws_step_id s)) as [t|]; [|done].
    exists t. split; [done|by apply Z.leb_le].
  - intros s Hs Hr. cbn in Hs.
    repeat (apply elem_of_cons in Hs as [->|Hs]); [discriminate Hr..|by apply not_elem_of_nil in Hs].
Qed.

Lemma retried_resumable : resumable 3000000%Z Sample.defn Retried.instance.
Proof. by apply sample_resumable; vm_compute. Qed.

Lemma drive_completes_witness :
  wi_status Retried.instance = WorkflowStatus.RETRYING /\
  step_status Retried.instance "publish" = StepStatus.FAILED /\
  exists w' j,
    drive (worker EchoRunner) lease Retried.guard Retried.world
      = (Ok (report "i1" DriveResult.COMPLETED), w') /\
    wi_status j = WorkflowStatus.COMPLETED /\ step_done j "publish" = true.
Proof.
  split; [by vm_compute|]. split; [by vm_compute|].
  destruct (drive_completes (worker EchoRunner) Sample.defn lease Retried.guard 3000000%Z
    Retried.live Retried.instance Retried.world (worker_frame _) retried_healthy sample_valid)
    as (w' & j & Hd & _ & Hj & Hall).
  - by vm_compute.
  - cbn. lia.
  - exact retried_ok.
  - vm_compute. repeat constructor; done.
  - split; [by vm_compute|by vm_compute].
  - by vm_compute.
  - by vm_compute.
  - apply (bool_decide_unpack _). by vm_compute.
  - exact retried_resumable.
  - exists w', j. split; [exact Hd|]. split; [exact Hj|]. apply (Hall Sample.publish). right. left.
Defined.

(** ** A pass over two instances *)

Module Pass.

(** [i2], whose worker died while [fetch] was running. *)
Definition draft2 (b : event_body) : event := {|
  ev_event_id := "e"; ev_instance_id := "i2"; ev_tenant_id := "t1";
  ev_sequence := 0; ev_occurred_at := 1000000%Z; ev_body := b |}.

Definition bodies2 : list event_body :=
  [Sample.created; WorkflowBudgetAdjusted None "ops" None] ++ crashed_bodies.

Definition two : DB :=
  run (EventStore.append_new EventStore.RedisEventPublisher id "i2" "t1" (draft2 <$> bodies2)
         0 None None) (extend Retried.bodies created).

(** Its lease has run out; [i1], which waits for its retry, has none. *)
Definition row2 : InstanceLeaseRow := {|
  lr_instance_id := "i2"; lr_tenant_id := "t1"; lr_worker_id := "dead"; lr_acquired_at := 0;
  lr_heartbeat_at := 0; lr_expires_at := 2000000; lr_fence_token := 1 |}.

Definition world : DB * Env := (set_leases {[ "i2" := row2 ]} two, env_at 3000000 1).

Definition rows : list InstanceIndexRow := claim ∅ 8 (now world) (fst world).

Definition row_of (iid : string) : InstanceIndexRow :=
  default LeaseSample.row (db_index two !! iid).

Definition instance_of (iid : string) : WorkflowInstance := default (new_instance "" "" "" "")
  match fst (get_instance iid "t1" (Some Sample.defn) world) with Ok o => o | Err _ => None end.

End Pass.

Lemma pass_rows : Pass.rows = [Pass.row_of "i1"; Pass.row_of "i2"].
Proof. vm_compute. reflexivity. Qed.

Lemma two_ok : store_inv (fst Pass.world).
Proof.
  assert (forall db v, store_inv db -> store_inv (set_leases v db)) as H
    by (intros [] v; by apply store_inv_frame).
  apply H, run_append_inv; [by apply extend_inv; [apply created_inv|]|by repeat constructor].
Qed.

Lemma echo_along : wired_along aside (worker EchoRunner).
Proof. split; intros * [=]. Qed.

Lemma echo_succeeds : attempts_succeed (worker EchoRunner) Sample.defn.
Proof.
  intros i s att inputs bv replay w Hs. eexists _, _, _, _, _. cbn in Hs.
  repeat (apply elem_of_cons in Hs as [->|Hs]); [reflexivity..|]. by apply not_elem_of_nil in Hs.
Qed.

Lemma pass_resumable iid : iid ∈ ["i1"; "i2"] ->
  resumable (now Pass.world) Sample.defn (Pass.instance_of iid).
Proof.
  intros Hi. apply sample_resumable.
  - repeat (apply elem_of_cons in Hi as [->|Hi]); [by vm_compute..|by apply not_elem_of_nil in Hi].
  - repeat (apply elem_of_cons in Hi as [->|Hi]); [by vm_compute..|by apply not_elem_of_nil in Hi].
  - repeat (apply elem_of_cons in Hi as [->|Hi]); [by vm_compute..|by apply not_elem_of_nil in Hi].
Qed.

Lemma pass_completable row : row ∈ claim ∅ 8 (now Pass.world) (fst Pass.world) ->
  exists d i, completable (worker EchoRunner) row Pass.world d i.
Proof.
  fold Pass.rows. rewrite pass_rows. intros Hr.
  assert (exists iid, iid ∈ ["i1"; "i2"] /\ row = Pass.row_of iid) as (iid & Hi & ->).
  { apply elem_of_cons in Hr as [Hr|Hr%list_elem_of_singleton]; rewrite Hr; eexists;
      (split; [|reflexivity]).
    - left.
    - right. left. }
  exists Sample.defn, (Pass.instance_of iid). constructor.
  - repeat (apply elem_of_cons in Hi as [->|Hi]); [by vm_compute..|by apply not_elem_of_nil in Hi].
  - repeat (apply elem_of_cons in Hi as [->|Hi]); [by vm_compute..|by apply not_elem_of_nil in Hi].
  - repeat (apply elem_of_cons in Hi as [->|Hi]); [vm_compute; repeat constructor; done..|].
    by apply not_elem_of_nil in Hi.
  - exact sample_valid.
  - done.
  - cbn. lia.
  - by apply pass_resumable.
  - exact echo_succeeds.
Qed.

Lemma run_once_completes_witness :
  ix_instance_id <$> Pass.rows = ["i1"; "i2"] /\
  exists w', Worker.run_once (Ls := PgLeaseStore 30 ∅) (drive (worker EchoRunner)) "w" 8 Pass.world
      = (Ok [DriveResult.COMPLETED; DriveResult.COMPLETED], w') /\
    completed (Pass.row_of "i2") w' /\
    forall m t, ix_instance_id (Pass.row_of "i2") ∉ ix_instance_id <$> claim ∅ m t (fst w').
Proof.
  split; [vm_compute; reflexivity|].
  pose proof (run_once_completes (worker EchoRunner) 30 ∅ "w" 8 Pass.world echo_along two_ok
    pass_completable) as H. fold Pass.rows in H. cbv zeta in H. rewrite pass_rows in H.
  destruct H as (w' & Hrun & Hdone & _). exists w'. split; [exact Hrun|].
  destruct (Hdone (Pass.row_of "i2")) as (H1 & H2 & _); [right; left|]. exact (conj H1 H2).
Defined.
