(* ===== verification/ApiRuns.v ===== *)
(** Requests against the deployed API: two tenants with an API key each, on the
    database in which the sample instance of the first is running. *)

From stdpp Require Import base strings list gmap pretty.
From Stdlib Require Import ZArith Lia.
From S2P Require Import Prelude Exceptions Values Enums Definitions Instance Events Samples.
From S2P Require Import EventCodec ModelCodec Tables EventStore EventStoreTheory Ports Journal.
From S2P Require Import Instances World Auth Api ApiTheory Scenarios.

Import EventModels StateModels CodecSample Auth KeySample StoreSample Scenario.

Module ApiRuns.

Definition key_table : gmap string ApiKeyRecord :=
  let key id tenant scopes := {| ak_key_id := id; ak_key_hash := hash_secret "s"; ak_tenant_id := tenant;
                          ak_principal_name := "ci";
                          ak_scopes := scopes; ak_disabled := false |} in
  {[ "k1" := key "k1" "t1" ["instances:read"; "instances:write"];
     "k2" := key "k2" "t2" ["instances:read"; "instances:write"]; "k3" := key "k3" "t1" [];
     "k4" := key "k4" "t1" ["workflows:write"] ]}.

(** Keys that nobody changes; no counters; no tokens. *)
#[export] Instance keys : ApiKeyStore World := {|
  key_get k := mret (key_table !! k); key_create _ := mret tt; key_touch _ _ := mret tt |}.
#[export] Instance tokens : Jwt World := {| jwt_decode _ _ _ _ := Err "bad" |}.
#[export] Instance counters : RateRedis World := {|
  r_incr _ := mret 1%Z; r_expire _ _ := mret tt; unix_time w := now w |}.
#[export] Instance door : DoorFrame.
Proof. by split. Qed.

Definition ask (key : string) (r : route) : response * World := respond true 10 (Some key) None r started.
End ApiRuns.
Import ApiRuns.

(** The second tenant cannot pause the instance of the first: it gets 404 and the
    log is what it was. *)
Lemma tenant_write_isolation_witness :
  fst (ask "af_k2_s" (Pause "i1" {| cr_actor := "mallory" |})) = Refused 404 "not_found" "instance i1 not found" /\
  log (fst (snd (ask "af_k2_s" (Pause "i1" {| cr_actor := "mallory" |})))) "i1" = log (fst started) "i1" /\
  log (fst (snd (ask "af_k1_s" (Pause "i1" {| cr_actor := "ci" |})))) "i1" <> log (fst started) "i1".
Proof.
  split; [vm_compute; reflexivity|]. split; [|vm_compute; discriminate].
  pose proof (tenant_write_isolation true 10 (Some "af_k2_s") None (Pause "i1" {| cr_actor := "mallory" |}) started
    started_ok) as H.
  unfold ask. destruct (respond true 10 (Some "af_k2_s") None (Pause "i1" {| cr_actor := "mallory" |}) started)
    as [reply w'] eqn:E. cbn [fst snd].
  destruct (fst (admission true 10 (Some "af_k2_s") None (Pause "i1" {| cr_actor := "mallory" |}) started)) as [p|e] eqn:Ha;
    [|vm_compute in Ha; discriminate Ha].
  assert (pr_tenant_id p = "t2") as Hp by (vm_compute in Ha; injection Ha as <-; reflexivity).
  destruct H as [_ [_ Hlogs _ _]]. rewrite Hp in Hlogs. apply Hlogs; vm_compute; discriminate.
Defined.

(** The rows of the sample database are keyed: creating and extending the instance
    leaves the definition as it was registered. *)
Lemma started_keyed : definitions_keyed (fst started).
Proof.
  assert (forall iid drafts ver db, db_definitions (StoreSample.run (EventStore.append_new
            EventStore.RedisEventPublisher id iid "t1" drafts ver None None) db)
          = db_definitions db) as Hd.
  { intros. by injection (side_commit EventStore.RedisEventPublisher iid "t1"
      (sequenced ver drafts) ver None None db). }
  intros k r. change (fst started) with (extend started_bodies created). unfold extend, created.
  rewrite !Hd.
  change (db_definitions db0) with ({[ ("t1", "wf", "1.0.0") := defn_row ]}
    : gmap (string * string * string) WorkflowDefinitionRow).
  by intros [<- <-]%lookup_singleton_Some.
Qed.

(** The first tenant reads the four events of its instance; the second reads none. *)
Lemma tenant_read_isolation_witness :
  (exists l w', serve true 10 (Some "af_k1_s") None (GetEvents "i1" 0) started = (Ok (BEvents l), w') /\
     length l = 4%nat /\ Forall (fun v => exists iid e, e ∈ log (fst started) iid /\ ev_tenant_id e = "t1" /\
                          v = event_view e) l) /\
  fst (serve true 10 (Some "af_k2_s") None (GetEvents "i1" 0) started) = Ok (BEvents []).
Proof.
  split; [|vm_compute; reflexivity].
  assert (match fst (serve true 10 (Some "af_k1_s") None (GetEvents "i1" 0) started) with
          | Ok (BEvents l) => length l | _ => 0 end = 4%nat) as Hn by (vm_compute; reflexivity).
  destruct (serve true 10 (Some "af_k1_s") None (GetEvents "i1" 0) started) as [[b|e] w'] eqn:E;
    [|discriminate Hn]. cbn [fst] in Hn.
  pose proof (tenant_read_isolation true 10 _ _ _ _ _ _ started_ok started_keyed E) as (p & w1 & Ha & Ho).
  assert (pr_tenant_id p = "t1") as Hp by (vm_compute in Ha; injection Ha as <- _; reflexivity).
  rewrite Hp in Ho. destruct b as [| |l| | | | | | | |]; try discriminate Hn.
  exists l, w'. split; [reflexivity|]. split; [exact Hn|exact Ho].
Defined.

(** A key without any scope is refused the events of the instance over HTTP and is
    shown the instance over the websocket. *)
Lemma scopeless_stream :
  fst (ask "af_k3_s" (GetEvents "i1" 0))
  = Refused 403 "forbidden" "need one of: instances:read, instances:write" /\
  exists v, fst (stream true (Some "af_k3_s") None None "i1" started) = Ok (Accepted v) /\
    iv_instance_id v = "i1".
Proof. split; [vm_compute; reflexivity|]. eexists. vm_compute. done. Qed.

(** A body that is not a definition is refused inside the handler, by an exception that
    no error handler is installed for; one whose graph is refused is answered 422. *)
Definition steps_body (ids : list string) : dict :=
  list_to_map [("workflow_id", JStr "wf"); ("name", JStr "W"); ("version", JStr "1.0.0");
    ("steps", JArr ((fun i => JObj (list_to_map [("step_id", JStr i); ("name", JStr "S");
                                                 ("agent_type", JStr "agent")])) <$> ids))].

Lemma malformed_definition_is_unhandled :
  let reply := fun b => fst (respond true 10 (Some "af_k4_s") None (RegisterWorkflow b) started) in
  reply ∅ = Unhandled (ValidationError "workflow_id") /\
  reply (steps_body []) = Unhandled (ValidationError "steps") /\
  reply (steps_body ["a"; "a"]) = Refused 422 "invalid_workflow" "duplicate step ids: ['a']" /\
  match reply (steps_body ["a"; "b"]) with Success 201 _ => true | _ => false end = true.
Proof. vm_compute. done. Qed.
