(* ===== verification/Agents.v ===== *)
(** The agent runtime ([agents/]): agents as LangGraph state graphs run as step
    runners, the LLM helpers, the tools, and the four generic agents.

    An agent's coroutine is written in the monad [agent] over the requests a
    runner makes of its context.  LangGraph and orjson are third-party: running a
    compiled graph and parsing JSON are parameters, with the documented behaviour
    of the former as a law. *)

From stdpp Require Import base strings list gmap pretty.
From Stdlib Require Import ZArith Lia Ascii.
From S2P Require Import Prelude Exceptions Values Text Enums Definitions Instance Events Tables.
From S2P Require Import Outbox Ports SideEffects Cost LlmClient Runners.

Import SideEffects Cost Llm.

(** [orjson.loads]: the value, or the message of a [JSONDecodeError]. *)
Class Orjson := { loads : string -> result string json }.

(** ** Coroutines *)

Definition agent (A : Type) : Type := (A -> rprog) -> rprog.

Global Instance agent_ret : MRet agent := fun A a k => k a.
Global Instance agent_bind : MBind agent := fun A B f m k => m (fun a => f a k).

Definition throw {A} (e : exn) : agent A := fun _ => RRaise e.

Definition of_res {A} (r : res A) : agent A :=
  match r with Ok a => mret a | Err e => throw e end.

(** [await ctx.llm(...)]: an exception of the call is raised here. *)
Definition await_llm (a : LlmArgs) : agent LLMResponse := fun k =>
  RLlm a (fun reply => match reply with Ok r => k r | Err e => RRaise e end).

(** [await ctx.execute_effect(...)] *)
Definition await_effect (name : string) (params : dict) (provider : string)
    : agent EffectResult := fun k =>
  REffect name params provider
    (fun reply => match reply with Ok r => k r | Err e => RRaise e end).

Definition review (r : ReviewRequest) : agent unit := fun k => RReview r (k tt).

(** ** LLM helpers ([agents/llm_helpers.py]) *)
Module LlmHelpers.
Section helpers.
Context {Oj : Orjson}.

Definition ask_text (system user : string) (tier : CostTier) (max_tokens : Z)
    (task_type : string) : agent string :=
  resp ← await_llm {|
    la_messages := [{| msg_role := "user"; msg_content := user |}];
    la_system := Some system; la_tools := None; la_tier := CostTier.value tier;
    la_max_tokens := max_tokens; la_task_type := task_type;
    la_expected_output_tokens := None; la_reliability_floor := fzero |};
  mret (strip (lr_text resp)).

Definition _extract_json (text : string) : result string json :=
  let text := strip text in
  if String.prefix fence text then
    let text := fenced_piece text in
    let text := if String.prefix "json" text then drop_str 4 text else text in
    loads (strip (strip_with (Ascii.eqb backquote) text))
  else loads text.

Definition ask_json (system user : string) (tier : CostTier) (max_tokens : Z)
    (task_type : string) : agent json :=
  text ← ask_text (system +:+ nl +:+ nl +:+
                   "Respond with a single valid JSON value and nothing else.")
                  user tier max_tokens task_type;
  match _extract_json text with
  | Ok v => mret v
  | Err first =>
      repair ← ask_text "You fix malformed JSON. Output only the corrected JSON value."
                 ("This was supposed to be JSON but did not parse (" +:+ first +:+ "):"
                  +:+ nl +:+ nl +:+ text)
                 tier max_tokens "json_repair";
      match _extract_json repair with
      | Ok v => mret v
      | Err second =>
          throw (Exn MalformedOutputError ("model did not return parseable JSON: " +:+ second))
      end
  end.

(** A fenced text, stripped. *)
Lemma strip_fenced before inner after :
  forallb is_space (chars before) = true ->
  exists rest, strip (before +:+ fence +:+ inner +:+ fence +:+ after)
    = of_chars (chars fence ++ chars inner ++ chars fence ++ rest).
Proof.
  intros Hb. unfold strip, strip_with. rewrite !chars_app, lstrip_app by done.
  destruct (rstrip_cons is_space backquote (chars after) eq_refl) as [rest Hr]. exists rest. f_equal.
  change (lstrip is_space (chars fence ++ ?l)) with (chars fence ++ l).
  rewrite (app_assoc (chars fence)).
  change (chars fence ++ chars after) with ([backquote; backquote] ++ backquote :: chars after).
  rewrite (app_assoc _ [backquote; backquote]), rstrip_stop, Hr by done. by rewrite <- !app_assoc.
Qed.

(** Code fences are transparent.  JSON wrapped in a fence, with or without
    the language tag, with white space before the fence and any text after it, is
    read like the bare JSON, as long as it has no fence inside. *)
Theorem fenced_json_is_bare (body before after : string) (tagged : bool) :
  forallb is_space (chars before) = true -> before_fence (chars body) = chars body ->
  _extract_json (before +:+ fence +:+ ((if tagged then "json" else "") +:+ nl +:+ body +:+ nl)
                 +:+ fence +:+ after)
  = loads (strip body).
Proof.
  intros Hb Hf. unfold _extract_json.
  destruct (strip_fenced before ((if tagged then "json" else "") +:+ nl +:+ body +:+ nl) after Hb)
    as [rest ->].
  set (n := ascii_of_nat 10).
  assert (fenced_piece (of_chars (chars fence ++
            chars ((if tagged then "json" else "") +:+ nl +:+ body +:+ nl) ++ chars fence ++ rest))
          = of_chars (chars (if tagged then "json" else "") ++ n :: chars body ++ [n])) as Hp.
  { unfold fenced_piece. rewrite chars_of, !chars_app. f_equal.
    change (drop 3 (chars fence ++ ?l)) with l.
    set (tag := chars (if tagged then "json" else "")).
    transitivity (before_fence ((tag ++ n :: chars body) ++ [n] ++ chars fence ++ rest)).
    { f_equal. change (chars nl) with [n]. by rewrite <- !app_assoc. }
    rewrite before_fence_app; [by rewrite <- !app_assoc| |done]. unfold tag.
    destruct tagged; cbn [app chars]; repeat (apply before_fence_cons; [done|]); done. }
  rewrite Hp, prefix_app. cbv iota.
  set (inner := n :: chars body ++ [n]).
  assert ((if String.prefix "json" (of_chars (chars (if tagged then "json" else "") ++ inner))
           then drop_str 4 (of_chars (chars (if tagged then "json" else "") ++ inner))
           else of_chars (chars (if tagged then "json" else "") ++ inner)) = of_chars inner) as ->.
  { destruct tagged; [rewrite (prefix_app "json")|done]. unfold drop_str. by rewrite chars_of. }
  f_equal. unfold strip, strip_with. rewrite !chars_of. f_equal.
  unfold inner at 1. rewrite strip_keeps by done.
  change (n :: chars body ++ [n]) with ([n] ++ chars body ++ [n]). by apply strip_around.
Qed.
End helpers.
End LlmHelpers.

(** ** State graphs ([agents/base_agent.py]) *)

Inductive target := To (node : string) | END.

(** What [build] declares: a node updates the state by the fields it returns; a
    conditional edge names a branch, looked up in its table. *)
Record Graph (S : Type) := {
  g_nodes : list (string * (S -> agent S));
  g_entry : string;
  g_edges : list (string * target);
  g_conditional : list (string * ((S -> res string) * list (string * target)));
}.
Arguments g_nodes {S}. Arguments g_entry {S}. Arguments g_edges {S}. Arguments g_conditional {S}.

Fixpoint assoc {A} (k : string) (l : list (string * A)) : option A :=
  match l with
  | [] => None
  | (k', a) :: l => if bool_decide (k = k') then Some a else assoc k l
  end.

Definition GraphRecursionError : exn := Exn (PyExc "GraphRecursionError") "".

(** Where a graph goes after [node]. *)
Definition next_of {S} (g : Graph S) (node : string) (s : S) : res target :=
  match assoc node (g_conditional g) with
  | Some (route, table) =>
      branch ← route s;
      match assoc branch table with Some t => Ok t | None => Err (KeyError branch) end
  | None => Ok (default END (assoc node (g_edges g)))
  end.

(** The documented run of a graph whose nodes each have one successor: one node
    per superstep, at most [limit] of them. *)
Fixpoint walk {S} (g : Graph S) (limit : nat) (t : target) (s : S) : agent S :=
  match t with
  | END => mret s
  | To node =>
      match limit with
      | O => throw GraphRecursionError
      | Datatypes.S limit =>
          match assoc node (g_nodes g) with
          | None => throw (KeyError node)
          | Some f => s' ← f s; t' ← of_res (next_of g node s'); walk g limit t' s'
          end
      end
  end.

Class LangGraph := {
  ainvoke : forall {S : Type}, Graph S -> nat -> S -> agent S;
  ainvoke_walk : forall S (g : Graph S) limit s k,
    ainvoke g limit s k = walk g limit (To (g_entry g)) s k;
}.

Definition _RECURSION_LIMIT : nat := 40.

(** [BaseAgent]: the graph, the initial state and the result of a run; the
    context rides along as an argument of [build]. *)
Record BaseAgent (S : Type) := {
  build : StepContext -> Graph S;
  initial_state : StepContext -> res S;
  to_result : S -> res StepResult;
}.
Arguments build {S}. Arguments initial_state {S}. Arguments to_result {S}.

Definition run_agent {Lg : LangGraph} {S} (a : BaseAgent S) : StepRunner := fun ctx =>
  (state ← of_res (initial_state a ctx);
   final ← ainvoke (build a ctx) _RECURSION_LIMIT state;
   of_res (to_result a final)) RReturn.

(** ** Tools ([agents/tools.py]) *)

Record AgentTool := {
  tool_name : string;
  tool_description : string;
  tool_call : StepContext -> json -> agent json;
}.

Definition FunctionTool (name description : string) (fn : StepContext -> json -> agent json)
    : AgentTool := {| tool_name := name; tool_description := description; tool_call := fn |}.

(** The arguments are declared to be a dict; what the guard makes of a value that
    is not one is [untyped]. *)
Definition EffectTool (name description effect_name provider : string)
    (untyped : json -> agent json) : AgentTool := {|
  tool_name := name;
  tool_description := description;
  tool_call := fun _ args =>
    match args with
    | JObj o => result ← await_effect effect_name o provider; mret (JObj (ers_data result))
    | _ => untyped args
    end |}.

(** [ToolRegistry]: the dict of the tools, in insertion order. *)
Abbreviation ToolRegistry := (list (string * AgentTool)).

Fixpoint register_tool (reg : ToolRegistry) (t : AgentTool) : ToolRegistry :=
  match reg with
  | [] => [(tool_name t, t)]
  | (n, t') :: reg =>
      if bool_decide (n = tool_name t) then (n, t) :: reg else (n, t') :: register_tool reg t
  end.

Definition get_tool (reg : ToolRegistry) (name : string) : res AgentTool :=
  match assoc name reg with
  | Some t => Ok t
  | None => Err (Exn ConfigurationError ("no tool named " +:+ py_repr name))
  end.

Definition has_tool (reg : ToolRegistry) (name : string) : bool :=
  match assoc name reg with Some _ => true | None => false end.

Definition describe (reg : ToolRegistry) : string :=
  match reg with
  | [] => "(no tools available)"
  | _ => String.concat nl
           ((fun p => "- " +:+ tool_name p.2 +:+ ": " +:+ tool_description p.2) <$> reg)
  end.

(** ** Accounting

    [limited L E Q p]: however the calls of [p] turn out, it makes at most [L] LLM
    calls and [E] effects, a result it returns satisfies [Q], and it never runs out
    of supersteps (a call of the context does not raise LangGraph's error). *)

Definition recursion_error (e : exn) : Prop := exn_cls e = PyExc "GraphRecursionError".

Definition fair {A} (r : res A) : Prop :=
  match r with Ok _ => True | Err e => ~ recursion_error e end.

Fixpoint limited (L E : nat) (Q : StepResult -> Prop) (p : rprog) : Prop :=
  match p with
  | RReturn r => Q r
  | RRaise e => ~ recursion_error e
  | RTimeout => True
  | RCharge _ k | RReview _ k => limited L E Q k
  | REffect _ _ _ k =>
      match E with O => False | S E => forall r, fair r -> limited L E Q (k r) end
  | RLlm _ k =>
      match L with O => False | S L => forall r, fair r -> limited L E Q (k r) end
  end.

Lemma limited_weaken L E Q p : limited L E Q p -> forall L' E' (Q' : StepResult -> Prop),
  L <= L' -> E <= E' -> (forall r, Q r -> Q' r) -> limited L' E' Q' p.
Proof.
  revert L E. induction p as [r|e| |e k IH|r k IH|name params pname k IH|a k IH];
    intros L E H L' E' Q' HL HE HQ; cbn in *; eauto.
  - destruct E as [|E]; [done|]. destruct E' as [|E']; [lia|].
    intros r Hr. eapply IH; [by apply H|done|lia|done].
  - destruct L as [|L]; [done|]. destruct L' as [|L']; [lia|].
    intros r Hr. eapply IH; [by apply H|lia|done|done].
Qed.

(** The triple of a coroutine, for any continuation. *)
Definition spends {A} (L E : nat) (m : agent A) (Q : A -> Prop) : Prop :=
  forall k L' E' R, (forall a, Q a -> limited L' E' R (k a)) -> limited (L + L') (E + E') R (m k).

Lemma spends_ret {A} (a : A) (Q : A -> Prop) : Q a -> spends 0 0 (mret a) Q.
Proof. intros H k L' E' R Hk. by apply Hk. Qed.

Lemma spends_bind {A B} L1 E1 L2 E2 (m : agent A) (f : A -> agent B) (Q : A -> Prop) (R : B -> Prop) :
  spends L1 E1 m Q -> (forall a, Q a -> spends L2 E2 (f a) R) ->
  spends (L1 + L2) (E1 + E2) (mbind f m) R.
Proof.
  intros Hm Hf k L' E' P Hk. rewrite <- !Nat.add_assoc. apply Hm. intros a Ha. by apply (Hf a Ha).
Qed.

Lemma spends_weaken {A} L E L' E' (m : agent A) (Q Q' : A -> Prop) :
  spends L E m Q -> L <= L' -> E <= E' -> (forall a, Q a -> Q' a) -> spends L' E' m Q'.
Proof.
  intros Hm HL HE HQ k L1 E1 R Hk.
  apply (limited_weaken (L + L1) (E + E1) R); [|lia|lia|done]. apply Hm. auto.
Qed.

Lemma spends_free {A} L E (m : agent A) (Q : A -> Prop) : spends 0 0 m Q -> spends L E m Q.
Proof. intros H. apply (spends_weaken 0 0 L E m Q Q H); [lia|lia|done]. Qed.

Lemma spends_throw {A} e (Q : A -> Prop) : ~ recursion_error e -> spends 0 0 (throw e) Q.
Proof. by intros H k L' E' R _. Qed.

Lemma spends_of_res {A} (r : res A) (Q : A -> Prop) :
  fair r -> (forall a, r = Ok a -> Q a) -> spends 0 0 (of_res r) Q.
Proof. destruct r as [a|e]; intros Hf HQ; [by apply spends_ret, HQ|by apply spends_throw]. Qed.

Lemma spends_llm a : spends 1 0 (await_llm a) (fun _ => True).
Proof. intros k L' E' R Hk. cbn. intros [r|e] Hr; [by apply Hk|exact Hr]. Qed.

Lemma spends_effect name params provider :
  spends 0 1 (await_effect name params provider) (fun _ => True).
Proof. intros k L' E' R Hk. cbn. intros [r|e] Hr; [by apply Hk|exact Hr]. Qed.

Lemma spends_review r : spends 0 0 (review r) (fun _ => True).
Proof. intros k L' E' R Hk. cbn. by apply Hk. Qed.

Create HintDb spends.
#[export] Hint Resolve spends_ret spends_llm spends_effect spends_review : spends.

Section helpers_spend.
Context {Oj : Orjson}.

Lemma spends_ask_text system user tier n task :
  spends 1 0 (LlmHelpers.ask_text system user tier n task) (fun _ => True).
Proof. apply (spends_bind 1 0 0 0 _ _ (fun _ => True)); [apply spends_llm|intros; by apply spends_ret]. Qed.

(** A reply of [ask_json] was parsed from a model's text. *)
Lemma spends_ask_json system user tier n task :
  spends 2 0 (LlmHelpers.ask_json system user tier n task)
    (fun v => exists text, LlmHelpers._extract_json text = Ok v).
Proof.
  apply (spends_bind 1 0 1 0 _ _ (fun _ => True)); [apply spends_ask_text|]. intros text _.
  destruct (LlmHelpers._extract_json text) as [v|first] eqn:E1.
  { apply spends_free, spends_ret. by exists text. }
  apply (spends_bind 1 0 0 0 _ _ (fun _ => True)); [apply spends_ask_text|]. intros repair _.
  destruct (LlmHelpers._extract_json repair) as [v|second] eqn:E2; [apply spends_ret; by exists repair|].
  by apply spends_throw.
Qed.
End helpers_spend.

#[export] Hint Resolve spends_ask_text spends_ask_json : spends.

(** Reading Python values fails only with Python's own errors. *)
Lemma fair_bind {A B} (m : res A) (f : A -> res B) :
  fair m -> (forall a, m = Ok a -> fair (f a)) -> fair (mbind f m).
Proof. destruct m as [a|e]; intros Hm Hf; [by apply Hf|exact Hm]. Qed.

Lemma fair_get v key d : fair (py_get v key d).
Proof. by destruct v. Qed.

Lemma fair_iter v : fair (py_iter v).
Proof. by destruct v. Qed.

Lemma fair_ok {A} (a : A) : fair (Ok a : res A).
Proof. done. Qed.

Lemma fair_ret {A} (a : A) : fair (mret a : res A).
Proof. done. Qed.

#[export] Hint Resolve fair_bind fair_get fair_iter fair_ok fair_ret : spends.

(** [x == "s"] *)
Definition is_str (s : string) (v : json) : bool :=
  match v with JStr s' => bool_decide (s' = s) | _ => false end.

(** [[*v]]: the elements of an iterable. *)
Definition spread (v : json) : res (list json) :=
  match py_iter v with
  | Ok l => Ok l
  | Err _ => Err (Exn (PyExc "TypeError")
                    ("Value after * must be an iterable, not " +:+ type_name v))
  end.

Lemma fair_spread v : fair (spread v).
Proof. unfold spread. by destruct (py_iter v). Qed.
#[export] Hint Resolve fair_spread : spends.

(** [v["key"]] *)
Definition subscript (v : json) (key : string) : res json :=
  match v with
  | JObj o => item o key
  | JArr _ => Err (Exn (PyExc "TypeError") "list indices must be integers or slices, not str")
  | JStr _ => Err (Exn (PyExc "TypeError") "string indices must be integers, not 'str'")
  | _ => Err (Exn (PyExc "TypeError") (py_repr (type_name v) +:+ " object is not subscriptable"))
  end.

Lemma fair_item o key : fair (item o key).
Proof. unfold item. by destruct (o !! key). Qed.

Lemma fair_subscript v key : fair (subscript v key).
Proof. destruct v; try done. apply fair_item. Qed.

Lemma fair_get_tool reg name : fair (get_tool reg name).
Proof. unfold get_tool. by destruct (assoc name reg). Qed.

#[export] Hint Resolve fair_item fair_subscript fair_get_tool : spends.

(** One superstep. *)
Lemma walk_node {S} (g : Graph S) n node f s k : assoc node (g_nodes g) = Some f ->
  walk g (Datatypes.S n) (To node) s k
  = f s (fun s' => (t ← of_res (next_of g node s'); walk g n t s') k).
Proof. intros Hf. cbn. by rewrite Hf. Qed.

Lemma spends_walk_step {S} (g : Graph S) n node f s L1 E1 L2 E2 (Q R : S -> Prop) :
  assoc node (g_nodes g) = Some f -> spends L1 E1 (f s) Q ->
  (forall s', Q s' -> fair (next_of g node s') /\
    forall t, next_of g node s' = Ok t -> spends L2 E2 (walk g n t s') R) ->
  spends (L1 + L2) (E1 + E2) (walk g (Datatypes.S n) (To node) s) R.
Proof.
  intros Hf H1 H2. cbn. rewrite Hf. eapply spends_bind; [exact H1|]. intros s' Hs'.
  destruct (H2 s' Hs') as [Hfair Hnext]. apply (spends_bind 0 0 L2 E2 _ _ (fun t => next_of g node s' = Ok t)).
  - by apply spends_of_res.
  - exact Hnext.
Qed.

Lemma spends_walk_end {S} (g : Graph S) n s (R : S -> Prop) : R s -> spends 0 0 (walk g n END s) R.
Proof. intros H. destruct n; by apply spends_ret. Qed.

(** An edge without condition. *)
Lemma spends_walk_edge {S} (g : Graph S) n node f s t L1 E1 L2 E2 (Q R : S -> Prop) :
  assoc node (g_nodes g) = Some f -> assoc node (g_conditional g) = None ->
  default END (assoc node (g_edges g)) = t ->
  spends L1 E1 (f s) Q -> (forall s', Q s' -> spends L2 E2 (walk g n t s') R) ->
  spends (L1 + L2) (E1 + E2) (walk g (Datatypes.S n) (To node) s) R.
Proof.
  intros Hf Hc Ht H1 H2. eapply spends_walk_step; [done|exact H1|]. intros s' Hs'.
  unfold next_of. rewrite Hc, Ht. split; [done|]. intros t' [= <-]. by apply H2.
Qed.

Lemma limited_run_agent {Lg : LangGraph} {S} (a : BaseAgent S) ctx L E (Q : S -> Prop) P :
  fair (initial_state a ctx) ->
  (forall s, initial_state a ctx = Ok s ->
    spends L E (walk (build a ctx) _RECURSION_LIMIT (To (g_entry (build a ctx))) s) Q) ->
  (forall s, Q s -> fair (to_result a s) /\ forall r, to_result a s = Ok r -> P r) ->
  limited L E P (run_agent a ctx).
Proof.
  intros Hi Hw Hr. unfold run_agent, mbind, agent_bind.
  rewrite <- (Nat.add_0_l L), <- (Nat.add_0_l E).
  apply (spends_of_res (initial_state a ctx) (fun s => initial_state a ctx = Ok s)); [done..|].
  intros s Hs. rewrite ainvoke_walk, <- (Nat.add_0_r L), <- (Nat.add_0_r E).
  apply (Hw s Hs). intros s' Hs'. destruct (Hr s' Hs') as [Hf HP].
  by apply (spends_of_res (to_result a s') (fun r => to_result a s' = Ok r)).
Qed.
