(* ===== verification/Live.v ===== *)
(** Live views ([core/pubsub.py], the websocket of [api/routes/instances.py]): what an
    append publishes, what a subscription hears, and what the socket relays.

    Redis and orjson are parameters: a subscription hears a confirmation and then, in
    order, what is published on its channel from then on; [loads] reads back an
    update that [dumps] wrote. *)

From stdpp Require Import base strings list gmap.
From Stdlib Require Import ZArith Lia Ascii.
From S2P Require Import Prelude Exceptions Values Text Enums Definitions Instance Events Fold.
From S2P Require Import FoldTheory Tables EventStore EventStoreTheory Leasing Ports SideEffects Cost.
From S2P Require Import Journal Driver Escalation DeadLetter Instances World Auth Api Runners Agents.

Import EventStore.

(** [InstanceUpdate.to_json], before encoding. *)
Definition to_json (u : InstanceUpdate) : json :=
  JObj (<["instance_id" := JStr (up_instance_id u)]>
       (<["tenant_id" := JStr (up_tenant_id u)]>
       (<["version" := JInt (up_version u)]>
       {["events" := JArr (JStr <$> up_event_types u)]}))).

(** The encoder of the publisher. *)
Class OrjsonDumps := { dumps : json -> string }.

(** A message of the pub/sub client: its type, and its data, bytes or not. *)
Record message := {
  ms_type : string;
  ms_data : string + json;
}.

(** [InstanceStream.subscribe]: the updates yielded for the messages heard, up to one
    that does not parse. *)
Fixpoint subscribe `{Orjson} (heard : list message) : list json * option string :=
  match heard with
  | [] => ([], None)
  | m :: heard =>
      if bool_decide (ms_type m <> "message") then subscribe heard
      else match ms_data m with
           | inl data =>
               match loads data with
               | Ok update => let '(us, e) := subscribe heard in (update :: us, e)
               | Err e => ([], Some e)
               end
           | inr _ => subscribe heard
           end
  end.

(** The frames of an accepted socket: the view, then the updates, until the client
    hangs up after [patience] of them. *)
Inductive frame := View (v : InstanceView) | Update (j : json).

Definition relay `{Orjson} (first : InstanceView) (patience : nat) (heard : list message)
    : list frame :=
  take patience (View first :: (Update <$> fst (subscribe heard))).

(** *** The bus *)

(** What a subscription to [channel], made when the bus had carried [since] messages,
    has heard. *)
Definition heard_by `{OrjsonDumps} (listen : string -> nat -> list (string * InstanceUpdate) -> list message)
    : Prop :=
  forall channel since bus, exists confirmation,
    listen channel since bus =
      {| ms_type := "subscribe"; ms_data := inr confirmation |} ::
      ((fun p => {| ms_type := "message"; ms_data := inl (dumps (to_json p.2)) |})
         <$> filter (fun p => p.1 = channel) (drop since bus)).

Section relay.
Context {Oj : Orjson} {Od : OrjsonDumps}.
Context (Hdumps : forall u, loads (dumps (to_json u)) = Ok (to_json u)).
Context (listen : string -> nat -> list (string * InstanceUpdate) -> list message).
Context (Hlisten : heard_by listen).

Lemma subscribe_updates (us : list (string * InstanceUpdate)) :
  subscribe ((fun p => {| ms_type := "message"; ms_data := inl (dumps (to_json p.2)) |}) <$> us)
    = ((fun p => to_json p.2) <$> us, None).
Proof. induction us as [|u us IH]; [done|]. cbn. by rewrite Hdumps, IH. Qed.

(** A socket relays exactly what was published for its instance since it subscribed,
    in order: nothing twice, nothing else, nothing left out, and nothing of what was
    published between the reading of the view and the subscription. *)
Theorem relay_exact first patience iid before since_view after :
  relay first patience
    (listen (_channel iid) (length (before ++ since_view)) (before ++ since_view ++ after))
  = take patience (View first ::
      ((fun p => Update (to_json p.2)) <$> filter (fun p => p.1 = _channel iid) after)).
Proof.
  unfold relay. destruct (Hlisten (_channel iid) (length (before ++ since_view))
    (before ++ since_view ++ after)) as [c ->].
  cbn [subscribe ms_type]. rewrite bool_decide_true by done.
  rewrite app_assoc, drop_app_length, subscribe_updates. cbn [fst].
  by rewrite <- list_fmap_compose.
Qed.
End relay.

(** *** What appends publish *)

Section publishing.
Context {C : Codec}.

Lemma channel_inj i j : _channel i = _channel j -> i = j.
Proof. unfold _channel. by intros ?%(inj (String.append _)). Qed.

Lemma unwritten_bus : unwritten (fun db => (db_bus db, db_bus_up db)).
Proof. by constructor; intros ? []. Qed.

Lemma written_bus iid tid evs ver nw db r db' :
  transaction (write_events iid tid evs ver nw) db = (r, db') ->
  db_bus db' = db_bus db /\ db_bus_up db' = db_bus_up db.
Proof.
  intros H. pose proof (preserves_transaction _ _
    (write_events_unwritten _ unwritten_bus iid tid evs ver nw) db) as Hb.
  rewrite H in Hb. by injection Hb.
Qed.

(** A successful append publishes one update, with the version it reached and the
    types of its events, if the bus is up, and nothing if it is down; a failed one
    publishes nothing. *)
Theorem append_publishes iid tid drafts ver g nw db r db' :
  append_new RedisEventPublisher id iid tid drafts ver g nw db = (r, db') ->
  db_bus db' = db_bus db ++
    match r with
    | Ok (n, evs) =>
        if db_bus_up db
        then [(_channel iid, {| up_instance_id := iid; up_tenant_id := tid; up_version := n;
                                up_event_types := (fun e => event_type (ev_body e)) <$> evs |})]
        else []
    | Err _ => []
    end.
Proof.
  unfold append_new, _commit, lift, gets, modify. unfold mbind, M_bind.
  destruct (foldM _ _ _) as [[]|e]; [|intros [= <- <-]; by rewrite app_nil_r].
  destruct (run_guard g db) as [[]|e]; [|intros [= <- <-]; by rewrite app_nil_r].
  case_bool_decide; [|intros [= <- <-]; by rewrite app_nil_r]. cbn [mret M_ret id].
  destruct (transaction _ db) as [[[]|e] db1] eqn:Ht; apply written_bus in Ht as [Hb Hu];
    [|intros [= <- <-]; by rewrite Hb, app_nil_r].
  unfold publish, last_event. destruct (last _) as [lst|]; cbn.
  - rewrite Hu. destruct (db_bus_up db); cbn; intros [= <- <-]; [|by rewrite Hb, app_nil_r].
    destruct db1. cbn in *. by rewrite Hb.
  - intros [= <- <-]. by rewrite Hb, app_nil_r.
Qed.
End publishing.

(** ** From an append to the socket *)

Section live.
Context {C : Codec} {Oj : Orjson} {Od : OrjsonDumps}.
Context (Hdumps : forall u, loads (dumps (to_json u)) = Ok (to_json u)).
Context (listen : string -> nat -> list (string * InstanceUpdate) -> list message).
Context (Hlisten : heard_by listen).

(** A socket open on an instance when an append to it commits, with the bus up,
    relays the version that the append reached. *)
Theorem append_reaches_socket first iid tid drafts ver g nw db n evs db' since :
  since <= length (db_bus db) -> db_bus_up db = true ->
  append_new RedisEventPublisher id iid tid drafts ver g nw db = (Ok (n, evs), db') ->
  exists earlier update, up_version update = n /\ up_instance_id update = iid /\
    forall patience,
      relay first patience (listen (_channel iid) since (db_bus db'))
      = take patience (View first :: earlier ++ [Update (to_json update)]) /\
      relay first patience (listen (_channel iid) since (db_bus db))
      = take patience (View first :: earlier).
Proof.
  intros Hs Hu Ha. apply append_publishes in Ha. rewrite Hu in Ha.
  set (u := Build_InstanceUpdate _ _ _ _) in Ha.
  exists ((fun p => Update (to_json p.2)) <$>
    filter (fun p => p.1 = _channel iid) (drop since (db_bus db))), u.
  split; [done|]. split; [done|]. intros patience.
  assert (db_bus db = take since (db_bus db) ++ drop since (db_bus db)) as Hsplit
    by (by rewrite take_drop).
  assert (length (take since (db_bus db)) = since) as Hl by (rewrite length_take; lia).
  pose proof (relay_exact Hdumps listen Hlisten first patience iid (take since (db_bus db)) []) as Hr.
  rewrite app_nil_r, Hl in Hr. cbn [app] in Hr. rewrite Ha. split.
  - rewrite Hsplit at 1. rewrite <- app_assoc, Hr, filter_app, fmap_app. cbn.
    by rewrite decide_True.
  - rewrite Hsplit at 1. apply Hr.
Qed.

(** Appends to other instances are not relayed. *)
Theorem other_instances_are_not_heard first patience iid iid' tid drafts ver g nw db r db' since :
  iid' <> iid -> since <= length (db_bus db) ->
  append_new RedisEventPublisher id iid' tid drafts ver g nw db = (r, db') ->
  relay first patience (listen (_channel iid) since (db_bus db'))
  = relay first patience (listen (_channel iid) since (db_bus db)).
Proof.
  intros Hne Hs Ha. apply append_publishes in Ha.
  assert (exists l, db_bus db' = db_bus db ++ l /\
    filter (fun p : string * InstanceUpdate => p.1 = _channel iid) l = []) as (l & -> & Hl).
  { eexists. split; [exact Ha|]. destruct r as [[n evs]|e]; [|done]. destruct (db_bus_up db); [|done].
    cbn. rewrite decide_False; [done|]. by intros ?%channel_inj. }
  unfold relay. destruct (Hlisten (_channel iid) since (db_bus db)) as [c ->].
  destruct (Hlisten (_channel iid) since (db_bus db ++ l)) as [c' ->].
  cbn [subscribe ms_type]. rewrite !bool_decide_true by done.
  by rewrite drop_app_le, filter_app, Hl, app_nil_r.
Qed.
End live.

(** ** A concrete run *)

Module LiveSample.
#[local] Existing Instance plain_codec.

(** An encoder of updates: the bits of their number. *)
#[export] Instance update_eq_dec : EqDecision InstanceUpdate.
Proof. solve_decision. Defined.

#[export] Instance update_countable : Countable InstanceUpdate.
Proof.
  apply (inj_countable' (fun u => (up_instance_id u, up_tenant_id u, up_version u, up_event_types u))
    (fun t => Build_InstanceUpdate t.1.1.1 t.1.1.2 t.1.2 t.2)). by intros [].
Defined.

Fixpoint bits (p : BinNums.positive) : string :=
  match p with xH => "" | xO p => String (ascii_of_nat 48) (bits p) | xI p => String (ascii_of_nat 49) (bits p) end.

Fixpoint number (s : string) : BinNums.positive :=
  match s with
  | "" => xH
  | String c s => if Ascii.eqb c (ascii_of_nat 48) then xO (number s) else xI (number s)
  end.

Lemma number_bits p : number (bits p) = p.
Proof. induction p as [p IH|p IH|]; cbn; by rewrite ?IH. Qed.

Definition get_str (o : dict) (k : string) : string :=
  match o !! k with Some (JStr s) => s | _ => "" end.

Definition of_json (j : json) : InstanceUpdate :=
  match j with
  | JObj o => {|
      up_instance_id := get_str o "instance_id"; up_tenant_id := get_str o "tenant_id";
      up_version := match o !! "version" with Some (JInt n) => n | _ => 0%Z end;
      up_event_types := match o !! "events" with
        | Some (JArr l) => (fun j => match j with JStr s => s | _ => "" end) <$> l
        | _ => []
        end |}
  | _ => Build_InstanceUpdate "" "" 0 []
  end.

Lemma of_to_json u : of_json (to_json u) = u.
Proof.
  destruct u as [i t v l]. unfold to_json, of_json, get_str. cbn.
  rewrite !lookup_insert_eq.
  rewrite (lookup_insert_ne _ "instance_id" "tenant_id"), lookup_insert_eq by done.
  rewrite !(lookup_insert_ne _ _ "version"), lookup_insert_eq by done.
  rewrite !(lookup_insert_ne _ _ "events"), lookup_singleton_eq by done.
  f_equal. rewrite <- list_fmap_compose. apply list_fmap_id.
Qed.

#[export] Instance dumps_bits : OrjsonDumps := {| dumps j := bits (encode (of_json j)) |}.
#[export] Instance loads_bits : Orjson := {| loads s :=
  match decode (number s) with Some u => Ok (to_json u) | None => Err "invalid" end |}.

Lemma bits_read_back u : loads (dumps (to_json u)) = Ok (to_json u).
Proof.
  unfold loads, loads_bits, dumps, dumps_bits. by rewrite number_bits, of_to_json, decode_encode.
Qed.

Definition listen (channel : string) (since : nat) (bus : list (string * InstanceUpdate))
    : list message :=
  {| ms_type := "subscribe"; ms_data := inr (JInt 1) |} ::
  ((fun p => {| ms_type := "message"; ms_data := inl (dumps (to_json p.2)) |})
     <$> filter (fun p => p.1 = channel) (drop since bus)).

Lemma listen_heard : heard_by listen.
Proof. intros channel since bus. by exists (JInt 1). Qed.

(** The sample instance is created, and its view read; it starts; only then does the
    socket subscribe.  The client is never told of the start. *)
Definition started_db : DB := snd (append_new RedisEventPublisher id "i1" "t1"
  StoreSample.started_drafts 1 None None StoreSample.created).
End LiveSample.
Import LiveSample StoreSample.
#[local] Existing Instance plain_codec.

Lemma append_reaches_socket_witness first : exists update,
  up_version update = 2%Z /\
  relay first 2 (listen (_channel "i1") (length (db_bus created)) (db_bus started_db))
    = [View first; Update (to_json update)].
Proof.
  destruct (append_new RedisEventPublisher id "i1" "t1" started_drafts 1 None None created)
    as [[[n evs]|e] db'] eqn:E; [|vm_compute in E; discriminate E].
  assert (n = 2%Z) as Hn by (vm_compute in E; by injection E).
  destruct (append_reaches_socket bits_read_back listen listen_heard first "i1" "t1" started_drafts
    1 None None created n evs db' (length (db_bus created)) (le_n _) eq_refl E)
    as (earlier & u & Hv & _ & Hr).
  exists u. split; [by rewrite Hv|]. unfold started_db. rewrite E. cbn [snd].
  destruct (Hr 2) as [H1 H2]. rewrite H1. destruct earlier; [done|discriminate H2].
Defined.

Lemma update_in_the_gap_is_missed first :
  relay first 9 (listen (_channel "i1") (length (db_bus started_db)) (db_bus started_db))
    = [View first].
Proof. unfold listen. by rewrite drop_all. Qed.
