(* ===== verification/CoreAgents.v ===== *)
(** The four generic agents: planner, validator, reflector and executor. *)

From stdpp Require Import base strings list gmap pretty.
From Stdlib Require Import ZArith Lia Ascii.
From S2P Require Import Prelude Exceptions Values Text Enums Definitions Instance Events Tables.
From S2P Require Import Outbox Ports SideEffects Cost LlmClient Runners Agents.

Import SideEffects Cost Llm LlmHelpers.

(** [d.get(key)] of the inputs, [or] and the default of a missing key. *)
Abbreviation input ctx key := (sc_inputs ctx !! key).
Abbreviation input_or ctx key d := (default d (sc_inputs ctx !! key)).

Definition step_result (output : list (string * json)) : StepResult :=
  {| sr_output := list_to_map output; sr_model_used := None |}.

(** ** Planner ([agents/planner_agent.py]) *)
Module Planner.
Section planner.
Context {Ps : PyStr} {Oj : Orjson}.

Definition _SYSTEM : string :=
  "You are a planning agent. You break a goal into a concrete, ordered plan of " +:+
  "steps a downstream executor can follow. Be specific and avoid vague steps.".

Record state := {
  goal : json;
  constraints : json;
  analysis : option string;
  draft_plan : option json;
  critique : option string;
  plan : option json;
}.

Definition init (ctx : StepContext) : res state := Ok {|
  goal := or_else (or_else (JStr "") (input ctx "instruction")) (input ctx "goal");
  constraints := input_or ctx "constraints" (JArr []);
  analysis := None; draft_plan := None; critique := None; plan := None |}.

(** [state["k"]] *)
Definition get {A} (key : string) (o : option A) : res A :=
  match o with Some a => Ok a | None => Err (KeyError key) end.

Definition _analyze (s : state) : agent state :=
  text ← ask_text _SYSTEM
    ("Goal: " +:+ str_of (goal s) +:+ nl +:+ "Constraints: " +:+ str_of (constraints s) +:+ nl +:+ nl
     +:+ "List the key sub-problems and any unknowns. 3-6 bullet points.")
    CostTier.CHEAP 2048 "planning_analyze";
  mret {| goal := goal s; constraints := constraints s; analysis := Some text;
          draft_plan := draft_plan s; critique := critique s; plan := plan s |}.

Definition _draft (s : state) : agent state :=
  a ← of_res (get "analysis" (analysis s));
  v ← ask_json _SYSTEM
    ("Goal: " +:+ str_of (goal s) +:+ nl +:+ "Analysis:" +:+ nl +:+ a +:+ nl +:+ nl
     +:+ "Produce a JSON array of steps: "
     +:+ quoted "[{`step`: str, `rationale`: str, `depends_on`: [int]}] "
     +:+ "(depends_on is 0-based indices into this array).")
    CostTier.STANDARD 2048 "planning_draft";
  mret {| goal := goal s; constraints := constraints s; analysis := analysis s;
          draft_plan := Some v; critique := critique s; plan := plan s |}.

Definition _critique (s : state) : agent state :=
  d ← of_res (get "draft_plan" (draft_plan s));
  text ← ask_text _SYSTEM
    ("Goal: " +:+ str_of (goal s) +:+ nl +:+ "Draft plan: " +:+ str_of d +:+ nl +:+ nl
     +:+ "What is missing, risky, or out of order? Be concise.")
    CostTier.CHEAP 2048 "planning_critique";
  mret {| goal := goal s; constraints := constraints s; analysis := analysis s;
          draft_plan := draft_plan s; critique := Some text; plan := plan s |}.

Definition _finalize (s : state) : agent state :=
  d ← of_res (get "draft_plan" (draft_plan s));
  c ← of_res (get "critique" (critique s));
  v ← ask_json _SYSTEM
    ("Goal: " +:+ str_of (goal s) +:+ nl +:+ "Draft: " +:+ str_of d +:+ nl
     +:+ "Critique: " +:+ c +:+ nl +:+ nl
     +:+ "Return the improved plan in the same JSON array shape.")
    CostTier.STANDARD 2048 "planning_finalize";
  mret {| goal := goal s; constraints := constraints s; analysis := analysis s;
          draft_plan := draft_plan s; critique := critique s; plan := Some v |}.

Definition graph : Graph state := {|
  g_nodes := [("analyze", _analyze); ("draft", _draft); ("critique", _critique);
              ("finalize", _finalize)];
  g_entry := "analyze";
  g_edges := [("analyze", To "draft"); ("draft", To "critique"); ("critique", To "finalize");
              ("finalize", END)];
  g_conditional := [] |}.

Definition result (s : state) : res StepResult := Ok (step_result
  [("plan", default (default (JArr []) (draft_plan s)) (plan s));
   ("analysis", JStr (default "" (analysis s)));
   ("critique", JStr (default "" (critique s)))]).

Definition PlannerAgent : BaseAgent state :=
  {| build := fun _ => graph; initial_state := init; to_result := result |}.
End planner.
End Planner.

(** ** Validator ([agents/validator_agent.py]) *)
Module Validator.
Section validator.
Context {Ps : PyStr} {Oj : Orjson}.

Definition _SYSTEM : string :=
  "You are a validation agent. You judge whether an output meets its " +:+
  "requirements. Be strict and specific about what is wrong.".

Record state := {
  output : json;
  criteria : json;
  schema_hint : json;
  structure : option json;
  content : option json;
  verdict : option (bool * list json * float);
}.

Definition init (ctx : StepContext) : res state := Ok {|
  output := input_or ctx "output" (JObj (sc_inputs ctx));
  criteria := input_or ctx "criteria" (JStr "");
  schema_hint := input_or ctx "schema_hint" (JStr "");
  structure := None; content := None; verdict := None |}.

Definition _check_structure (s : state) : agent state :=
  v ← ask_json _SYSTEM
    ("Output: " +:+ str_of (output s) +:+ nl
     +:+ "Expected shape: " +:+ str_of (or_else (JStr "any") (Some (schema_hint s))) +:+ nl +:+ nl
     +:+ quoted "Return {`structure_ok`: bool, `structure_issues`: [str]}.")
    CostTier.CHEAP 2048 "validate_structure";
  mret {| output := output s; criteria := criteria s; schema_hint := schema_hint s;
          structure := Some v; content := content s; verdict := verdict s |}.

Definition _check_content (s : state) : agent state :=
  v ← ask_json _SYSTEM
    ("Output: " +:+ str_of (output s) +:+ nl
     +:+ "Criteria: " +:+ str_of (or_else (JStr "be correct and complete") (Some (criteria s)))
     +:+ nl +:+ nl +:+ quoted "Return {`content_ok`: bool, `content_issues`: [str]}.")
    CostTier.STANDARD 2048 "validate_content";
  mret {| output := output s; criteria := criteria s; schema_hint := schema_hint s;
          structure := structure s; content := Some v; verdict := verdict s |}.

(** The verdict on the two replies. *)
Definition verdict_of (structure content : option json) : res (bool * list json * float) :=
  let structure := or_else (JObj ∅) structure in
  let content := or_else (JObj ∅) content in
  si ← py_get structure "structure_issues" (JArr []);
  si ← spread si;
  ci ← py_get content "content_issues" (JArr []);
  ci ← spread ci;
  so ← py_get structure "structure_ok" (JBool true);
  co ← py_get content "content_ok" (JBool true);
  let issues := si ++ ci in
  let valid := truthy so && truthy co in
  Ok (valid, issues,
      if valid then fone
      else fmax fzero (fsub fone (fmul (fratio 1 4) (float_of_Z (Z.of_nat (length issues)))))).

Definition _verdict (s : state) : agent state :=
  v ← of_res (verdict_of (structure s) (content s));
  mret {| output := output s; criteria := criteria s; schema_hint := schema_hint s;
          structure := structure s; content := content s; verdict := Some v |}.

Definition graph : Graph state := {|
  g_nodes := [("check_structure", _check_structure); ("check_content", _check_content);
              ("verdict", _verdict)];
  g_entry := "check_structure";
  g_edges := [("check_structure", To "check_content"); ("check_content", To "verdict");
              ("verdict", END)];
  g_conditional := [] |}.

Definition result (s : state) : res StepResult :=
  let '(valid, issues, score) := default (false, [], fzero) (verdict s) in
  Ok (step_result [("valid", JBool valid); ("issues", JArr issues); ("score", JFloat score)]).

Definition ValidatorAgent : BaseAgent state :=
  {| build := fun _ => graph; initial_state := init; to_result := result |}.
End validator.
End Validator.

(** ** Reflector ([agents/reflector_agent.py]) *)
Module Reflector.
Section reflector.
Context {Ps : PyStr} {Oj : Orjson}.

Definition _SYSTEM : string :=
  "You are a self-correction agent. Given an output and the problems found in " +:+
  "it, you produce a corrected version that resolves every problem.".

Record state := {
  output : json;
  issues : json;
  task : json;
  diagnosis : option string;
  revised : option json;
}.

Definition init (ctx : StepContext) : res state := Ok {|
  output := input_or ctx "output" (JObj (sc_inputs ctx));
  issues := input_or ctx "issues" (JArr []);
  task := input_or ctx "task" (input_or ctx "instruction" (JStr ""));
  diagnosis := None; revised := None |}.

Definition _diagnose (s : state) : agent state :=
  text ← ask_text _SYSTEM
    ("Task: " +:+ str_of (task s) +:+ nl +:+ "Output: " +:+ str_of (output s) +:+ nl
     +:+ "Problems found: " +:+ str_of (issues s) +:+ nl +:+ nl
     +:+ "For each problem, state the root cause and the fix. Be concise.")
    CostTier.CHEAP 2048 "reflect_diagnose";
  mret {| output := output s; issues := issues s; task := task s; diagnosis := Some text;
          revised := revised s |}.

Definition _revise (s : state) : agent state :=
  d ← of_res (Planner.get "diagnosis" (diagnosis s));
  v ← ask_json _SYSTEM
    ("Task: " +:+ str_of (task s) +:+ nl +:+ "Original output: " +:+ str_of (output s) +:+ nl
     +:+ "Diagnosis: " +:+ d +:+ nl +:+ nl
     +:+ quoted "Return {`corrected_output`: <the fixed output>, `changes`: [str]}.")
    CostTier.STANDARD 2048 "reflect_revise";
  mret {| output := output s; issues := issues s; task := task s; diagnosis := diagnosis s;
          revised := Some v |}.

Definition graph : Graph state := {|
  g_nodes := [("diagnose", _diagnose); ("revise", _revise)];
  g_entry := "diagnose";
  g_edges := [("diagnose", To "revise"); ("revise", END)];
  g_conditional := [] |}.

Definition result (s : state) : res StepResult :=
  let revised := or_else (JObj ∅) (revised s) in
  corrected ← py_get revised "corrected_output" (output s);
  changes ← py_get revised "changes" (JArr []);
  Ok (step_result [("corrected_output", corrected); ("changes", changes);
                   ("diagnosis", JStr (default "" (diagnosis s)))]).

Definition ReflectorAgent : BaseAgent state :=
  {| build := fun _ => graph; initial_state := init; to_result := result |}.
End reflector.
End Reflector.

(** ** Executor ([agents/executor_agent.py]) *)
Module Executor.

Definition _MAX_TOOL_CALLS : Z := 5.

Section executor.
Context {Ps : PyStr} {Oj : Orjson} (tools : ToolRegistry).

Definition _SYSTEM : string :=
  "You are an execution agent. You carry out one instruction precisely. " +:+
  "Use a tool only when it is genuinely needed; otherwise answer directly.".

Record state := {
  instruction : json;
  tool_results : list json;
  iterations : Z;
  decision : option json;
  final : option json;
}.

Definition init (ctx : StepContext) : res state := Ok {|
  instruction := or_else (or_else (JStr (str_of (JObj (sc_inputs ctx)))) (input ctx "goal"))
                   (input ctx "instruction");
  tool_results := []; iterations := 0; decision := None; final := None |}.

Definition _decide (s : state) : agent state :=
  v ← ask_json _SYSTEM
    ("Instruction: " +:+ str_of (instruction s) +:+ nl
     +:+ "Tools:" +:+ nl +:+ describe tools +:+ nl
     +:+ "Tool results so far: " +:+ str_of (JArr (tool_results s)) +:+ nl +:+ nl
     +:+ quoted "Return {`action`: `tool`|`final`, `tool`: str|null, "
     +:+ quoted "`args`: object|null, `answer`: str|null}.")
    CostTier.STANDARD 2048 "execute_decide";
  mret {| instruction := instruction s; tool_results := tool_results s;
          iterations := iterations s + 1; decision := Some v; final := final s |}.

Definition is_known_tool (v : json) : bool :=
  match v with JStr name => has_tool tools name | _ => false end.

Definition _route (s : state) : res string :=
  let decision := or_else (JObj ∅) (decision s) in
  tool ← py_get decision "tool" JNull;
  action ← py_get decision "action" JNull;
  let wants_tool := is_str "tool" action && is_known_tool tool
                    && (iterations s <? _MAX_TOOL_CALLS)%Z in
  Ok (if wants_tool then "act" else "respond").

Definition _act (ctx : StepContext) (s : state) : agent state :=
  d ← of_res (Planner.get "decision" (decision s));
  name ← of_res (subscript d "tool");
  tool ← of_res (match name with
                 | JStr n => get_tool tools n
                 | _ => Err (Exn ConfigurationError ("no tool named " +:+ str_of name))
                 end);
  args ← of_res (py_get d "args" JNull);
  r ← tool_call tool ctx (or_else (JObj ∅) (Some args));
  mret {| instruction := instruction s;
          tool_results := tool_results s ++
            [JObj (list_to_map [("tool", JStr (tool_name tool)); ("args", args); ("result", r)])];
          iterations := iterations s; decision := decision s; final := final s |}.

Definition _respond (s : state) : agent state :=
  let set v := {| instruction := instruction s; tool_results := tool_results s;
                  iterations := iterations s; decision := decision s; final := Some v |} in
  let d := or_else (JObj ∅) (decision s) in
  action ← of_res (py_get d "action" JNull);
  answer ← of_res (py_get d "answer" JNull);
  if is_str "final" action && truthy answer then mret (set answer)
  else
    text ← ask_text _SYSTEM
      ("Instruction: " +:+ str_of (instruction s) +:+ nl
       +:+ "Tool results: " +:+ str_of (JArr (tool_results s)) +:+ nl +:+ nl
       +:+ "Give the final answer.")
      CostTier.STANDARD 2048 "execute_respond";
    mret (set (JStr text)).

Definition graph (ctx : StepContext) : Graph state := {|
  g_nodes := [("decide", _decide); ("act", _act ctx); ("respond", _respond)];
  g_entry := "decide";
  g_edges := [("act", To "decide"); ("respond", END)];
  g_conditional := [("decide", (_route, [("act", To "act"); ("respond", To "respond")]))] |}.

Definition result (s : state) : res StepResult := Ok (step_result
  [("result", default (JStr "") (final s)); ("tool_calls", JArr (tool_results s))]).

Definition ExecutorAgent : BaseAgent state :=
  {| build := graph; initial_state := init; to_result := result |}.
End executor.
End Executor.

(** ** What an agent may spend *)
Section accounting.
Context {Ps : PyStr} {Oj : Orjson} {Lg : LangGraph}.

Abbreviation anything := (fun _ => True).

Lemma fair_planner_get {A} key (o : option A) : fair (Planner.get key o).
Proof. by destruct o. Qed.

(** A node that reads its state, asks, and stores the reply. *)
Lemma spends_read {A B} L E (r : res A) (f : A -> agent B) (Q : B -> Prop) :
  fair r -> (forall a, r = Ok a -> spends L E (f a) Q) -> spends L E (x ← of_res r; f x) Q.
Proof. intros Hr Hf. by apply (spends_bind 0 0 L E _ _ (fun a => r = Ok a)); [apply spends_of_res|]. Qed.

Lemma spends_then {A B} L E (m : agent A) (f : A -> B) :
  spends L E m anything -> spends L E (x ← m; mret (f x)) anything.
Proof.
  intros Hm. rewrite <- (Nat.add_0_r L), <- (Nat.add_0_r E).
  eapply spends_bind; [exact Hm|]. intros a _. by apply spends_ret.
Qed.

Lemma spends_json system user tier n task :
  spends 2 0 (ask_json system user tier n task) anything.
Proof. eapply spends_weaken; [apply spends_ask_json|lia..|done]. Qed.

Ltac node := repeat (apply spends_read; [first [done|apply fair_planner_get]|intros ? _]);
  apply spends_then; first [apply spends_ask_text|apply spends_json].

Lemma planner_spends s : spends 6 0 (walk Planner.graph 40 (To "analyze") s) anything.
Proof.
  apply (spends_walk_edge _ _ _ Planner._analyze _ (To "draft") 1 0 5 0 anything); [done..|node|].
  intros s1 _. apply (spends_walk_edge _ _ _ Planner._draft _ (To "critique") 2 0 3 0 anything);
    [done..|node|].
  intros s2 _. apply (spends_walk_edge _ _ _ Planner._critique _ (To "finalize") 1 0 2 0 anything);
    [done..|node|].
  intros s3 _. apply (spends_walk_edge _ _ _ Planner._finalize _ END 2 0 0 0 anything); [done..|node|].
  intros s4 _. by apply spends_walk_end.
Qed.

(** The score of a verdict. *)
Definition scored (v : bool * list json * float) : Prop :=
  v.2 = if v.1.1 then fone
        else fmax fzero (fsub fone (fmul (fratio 1 4) (float_of_Z (Z.of_nat (length v.1.2))))).

Lemma verdict_scored st ct :
  fair (Validator.verdict_of st ct) /\ forall v, Validator.verdict_of st ct = Ok v -> scored v.
Proof.
  unfold Validator.verdict_of. split.
  - eauto 20 with spends.
  - intros v. rewrite !bind_Ok. intros (? & _ & H). revert H. rewrite !bind_Ok.
    intros (? & _ & H). revert H. rewrite !bind_Ok. intros (? & _ & H). revert H. rewrite !bind_Ok.
    intros (? & _ & H). revert H. rewrite !bind_Ok. intros (? & _ & H). revert H. rewrite !bind_Ok.
    intros (? & _ & [= <-]). done.
Qed.

Lemma validator_spends s : spends 4 0 (walk Validator.graph 40 (To "check_structure") s)
  (fun s' => exists v, Validator.verdict s' = Some v /\ scored v).
Proof.
  apply (spends_walk_edge _ _ _ Validator._check_structure _ (To "check_content") 2 0 2 0 anything);
    [done..|node|].
  intros s1 _. apply (spends_walk_edge _ _ _ Validator._check_content _ (To "verdict") 2 0 0 0 anything);
    [done..|node|].
  intros s2 _. apply (spends_walk_edge _ _ _ Validator._verdict _ END 0 0 0 0
    (fun s' => exists v, Validator.verdict s' = Some v /\ scored v)); [done..| |].
  - apply spends_read; [apply verdict_scored|]. intros v Hv. apply spends_ret. exists v.
    split; [done|]. by eapply verdict_scored.
  - intros s3 H. by apply spends_walk_end.
Qed.

Lemma reflector_spends s : spends 3 0 (walk Reflector.graph 40 (To "diagnose") s) anything.
Proof.
  apply (spends_walk_edge _ _ _ Reflector._diagnose _ (To "revise") 1 0 2 0 anything); [done..|node|].
  intros s1 _. apply (spends_walk_edge _ _ _ Reflector._revise _ END 2 0 0 0 anything); [done..|node|].
  intros s2 _. by apply spends_walk_end.
Qed.

(** The fixed pipelines are bounded.  Whatever the model answers, a planner
    makes at most six LLM calls, a validator four and a reflector three (each JSON
    question may be repaired once); none performs an effect or exhausts its graph,
    and a validator's score is 1 when valid and otherwise loses a quarter per
    issue, not below 0. *)
Theorem pipelines_bounded ctx :
  limited 6 0 anything (run_agent Planner.PlannerAgent ctx) /\
  limited 4 0 (fun r => exists v, scored v /\ sr_output r !! "valid" = Some (JBool v.1.1) /\
                sr_output r !! "issues" = Some (JArr v.1.2) /\
                sr_output r !! "score" = Some (JFloat v.2))
    (run_agent Validator.ValidatorAgent ctx) /\
  limited 3 0 anything (run_agent Reflector.ReflectorAgent ctx).
Proof.
  split_and!; (eapply limited_run_agent; [done|intros s _|]).
  - apply planner_spends.
  - done.
  - apply validator_spends.
  - intros s' ([[valid issues] score] & Hv & Hs). cbn. unfold Validator.result. rewrite Hv.
    split; [done|]. intros r [= <-]. by exists (valid, issues, score).
  - apply reflector_spends.
  - intros s' _. split; [|done]. cbn. unfold Reflector.result. eauto 20 with spends.
Qed.

(** *** The executor *)
Section executor.
Context (tools : ToolRegistry) (lt et : nat).
Hypothesis tools_spend : forall name t ctx args,
  assoc name tools = Some t -> spends lt et (tool_call t ctx args) anything.

Import Executor.

Lemma fair_route s : fair (_route tools s).
Proof. unfold _route. eauto 20 with spends. Qed.

(** After [decide] the graph calls a known tool, within the limit, or responds. *)
Lemma route_cases ctx s t : next_of (graph tools ctx) "decide" s = Ok t ->
  t = To "respond" \/ (t = To "act" /\ (iterations s < _MAX_TOOL_CALLS)%Z).
Proof.
  unfold next_of. cbn [assoc graph g_conditional bool_decide decide_rel].
  rewrite bool_decide_true by done. intros (branch & Hr & Hb)%bind_Ok. revert Hb. unfold _route in Hr.
  apply bind_Ok in Hr as (tool & _ & Hr). apply bind_Ok in Hr as (action & _ & [= <-]).
  destruct (_ && _) eqn:E; cbn; intros [= <-]; [|by left].
  apply andb_true_iff in E as [_ E%Z.ltb_lt]. by right.
Qed.

Lemma spends_decide s : spends 2 0 (_decide tools s)
  (fun s' => iterations s' = (iterations s + 1)%Z /\ tool_results s' = tool_results s).
Proof. apply (spends_bind 2 0 0 0 _ _ anything); [apply spends_json|]. intros v _. by apply spends_ret. Qed.

Lemma spends_act ctx s : spends lt et (_act tools ctx s)
  (fun s' => iterations s' = iterations s /\
     length (tool_results s') = Datatypes.S (length (tool_results s))).
Proof.
  unfold _act. apply spends_read; [apply fair_planner_get|intros d _].
  apply spends_read; [apply fair_subscript|intros name _].
  apply spends_read; [destruct name; first [apply fair_get_tool|done]|intros tool Ht].
  apply spends_read; [apply fair_get|intros args _].
  rewrite <- (Nat.add_0_r lt), <- (Nat.add_0_r et).
  apply (spends_bind lt et 0 0 _ _ anything).
  - destruct name as [| | | |name| |]; try discriminate Ht. unfold get_tool in Ht.
    destruct (assoc name tools) as [t'|] eqn:E; [|done]. injection Ht as <-. by eapply tools_spend.
  - intros r _. apply spends_ret. cbn. rewrite length_app. cbn. split; [done|lia].
Qed.

Lemma spends_respond s : spends 1 0 (_respond s) (fun s' => tool_results s' = tool_results s).
Proof.
  unfold _respond. apply spends_read; [apply fair_get|intros action _].
  apply spends_read; [apply fair_get|intros answer _].
  destruct (_ && _); [by apply spends_free, spends_ret|].
  apply (spends_bind 1 0 0 0 _ _ anything); [apply spends_ask_text|]. intros text _. by apply spends_ret.
Qed.

(** From [decide], with [m] tool calls left. *)
Lemma spends_loop ctx m : forall n s,
  iterations s = (4 - Z.of_nat m)%Z -> length (tool_results s) + m <= 4 -> 2 * m + 2 <= n ->
  spends (2 * m + 3 + m * lt) (m * et) (walk (graph tools ctx) n (To "decide") s)
    (fun s' => length (tool_results s') <= 4).
Proof.
  assert (forall n s1, length (tool_results s1) <= 4 -> 0 < n ->
    spends 1 0 (walk (graph tools ctx) n (To "respond") s1)
      (fun s' => length (tool_results s') <= 4)) as Hrespond.
  { intros [|n] s1 Hlen Hn; [lia|].
    eapply (spends_walk_edge _ _ _ _ _ END 1 0 0 0); [done..|apply spends_respond|].
    intros s2 Hs2. apply spends_walk_end. by rewrite Hs2. }
  induction m as [|m IH]; intros n s Hit Hlen Hn; (destruct n as [|n]; [lia|]).
  - eapply (spends_walk_step _ _ _ _ _ 2 0 1 0); [done|apply spends_decide|].
    intros s1 [Hi1 Ht1]. split; [cbn; apply fair_bind; [apply fair_route|intros b _; by destruct (assoc b _)]|].
    intros t [->|[_ Hlt]]%route_cases; [|unfold _MAX_TOOL_CALLS in Hlt; lia].
    apply Hrespond; [rewrite Ht1|]; lia.
  - replace (2 * Datatypes.S m + 3 + Datatypes.S m * lt)
      with (2 + (lt + (2 * m + 3 + m * lt))) by lia.
    eapply (spends_walk_step _ _ _ _ _ 2 0 _ _); [done|apply spends_decide|].
    intros s1 [Hi1 Ht1]. split; [cbn; apply fair_bind; [apply fair_route|intros b _; by destruct (assoc b _)]|].
    intros t [->|[-> _]]%route_cases.
    + eapply spends_weaken; [apply Hrespond; [rewrite Ht1|]; lia|lia|lia|done].
    + destruct n as [|n]; [lia|]. cbn [Nat.mul].
      eapply (spends_walk_edge _ _ _ _ _ (To "decide") lt et); [done..|apply spends_act|].
      intros s2 [Hi2 Ht2]. apply IH; [lia|rewrite Ht2, Ht1; lia|lia].
Qed.

(** The executor's loop is bounded.  Whatever the model answers, the executor
    decides at most five times, calls at most four tools and answers once: at most
    eleven LLM calls beyond those of its tools, and four times a tool's effects; it
    never reaches LangGraph's recursion limit, and its result lists the tool calls
    it made. *)
Theorem executor_bounded ctx :
  limited (11 + 4 * lt) (4 * et)
    (fun r => exists answer calls, length calls <= 4 /\
       sr_output r !! "result" = Some answer /\ sr_output r !! "tool_calls" = Some (JArr calls))
    (run_agent (ExecutorAgent tools) ctx).
Proof.
  eapply limited_run_agent.
  - done.
  - intros s [= <-]. apply (spends_loop ctx 4); cbn; unfold _RECURSION_LIMIT; lia.
  - intros s' Hs'. split; [done|]. intros r [= <-].
    exists (default (JStr "") (final s')), (tool_results s'). done.
Qed.
End executor.
End accounting.

(** ** Samples *)
Module AgentSample.

#[export] Instance pystr : PyStr := {| py_str _ := "<value>"; py_float _ := "<float>" |}.

(** A reader of two texts: a tool call and an empty object. *)
#[export] Instance reader : Orjson := {| loads s :=
  if bool_decide (s = "use echo") then
    Ok (JObj (list_to_map [("action", JStr "tool"); ("tool", JStr "echo"); ("args", JNull)]))
  else if bool_decide (s = "{}") then Ok (JObj ∅)
  else Err "unexpected character" |}.

#[export] Instance graphs : LangGraph := {|
  ainvoke S g limit s := walk g limit (To (g_entry g)) s;
  ainvoke_walk S g limit s k := eq_refl |}.

Definition echo : AgentTool :=
  FunctionTool "echo" "repeat the arguments" (fun _ args => mret args).
Definition mail : AgentTool := EffectTool "mail" "send mail" "send" "noop" (fun v => mret v).
Definition tools : ToolRegistry := register_tool (register_tool [] echo) mail.

Lemma tools_spend name t ctx args :
  assoc name tools = Some t -> spends 0 1 (tool_call t ctx args) (fun _ => True).
Proof.
  change tools with [("echo", echo); ("mail", mail)]. cbn [assoc].
  case_bool_decide; [intros <-%(inj Some); exact (spends_free _ _ _ _ (spends_ret args _ I))|].
  case_bool_decide; [intros <-%(inj Some)|done].
  destruct args as [| | | | | |o]; try exact (spends_free _ _ _ _ (spends_ret _ _ I)).
  apply (spends_bind 0 1 0 0 _ _ (fun _ => True)); [apply spends_effect|]. intros r _. by apply spends_ret.
Qed.

(** A model that answers [text] however often it is asked. *)
Definition saying (text : string) : LLMRecording := {|
  rec_request_digest := ""; rec_model := "m";
  rec_response := list_to_map [("model_id", JStr "m"); ("text", JStr text)];
  rec_tokens_input := 0; rec_tokens_output := 0; rec_cost_usd := fzero |}.

Definition ctx (texts : list string) : StepContext := {|
  sc_instance_id := "i1"; sc_tenant_id := "t1"; sc_step_id := "s1"; sc_agent_type := "executor_agent";
  sc_attempt := 1; sc_inputs := {[ "instruction" := JStr "echo" ]}; sc_instance_context := ∅;
  sc_budget := None; sc_replay_llm := saying <$> texts; sc_charges := []; sc_effects := [];
  sc_review := None; sc_llm_index := 0; sc_llm_recordings := [] |}.
End AgentSample.
Import AgentSample.

Lemma fenced_json_is_bare_witness :
  _extract_json (" ```json" +:+ nl +:+ "{}" +:+ nl +:+ "``` Hope this helps!") = Ok (JObj ∅).
Proof. exact (fenced_json_is_bare "{}" " " " Hope this helps!" true eq_refl eq_refl). Defined.

Lemma executor_bounded_witness :
  limited 11 4 (fun r => exists answer calls, length calls <= 4 /\
      sr_output r !! "result" = Some answer /\ sr_output r !! "tool_calls" = Some (JArr calls))
    (run_agent (Executor.ExecutorAgent tools) (ctx [])).
Proof. exact (executor_bounded tools 0 1 tools_spend (ctx [])). Defined.

Import LlmSample ReplaySample.

Definition calls_of (r : res StepResult) : option nat :=
  match r with
  | Ok r => match sr_output r !! "tool_calls" with Some (JArr l) => Some (length l) | _ => None end
  | Err _ => None
  end.

(** The bound is reached: a model that always asks for the tool gets it four
    times, although [_MAX_TOOL_CALLS] is five. *)
Lemma fifth_tool_call_is_refused :
  Executor._MAX_TOOL_CALLS = 5%Z /\
  calls_of (fst (run wiring (run_agent (Executor.ExecutorAgent tools)
                   (AgentSample.ctx (replicate 5 "use echo" ++ ["done"])))
              (tt, AgentSample.ctx (replicate 5 "use echo" ++ ["done"])))) = Some 4%nat.
Proof. split; [done|vm_compute; reflexivity]. Qed.
