(* ===== verification/Sales.v ===== *)
(** The reference workflow ([use_cases/sales_intelligence/]): its models, the
    action provider, the tools, the agents, the compensator and the workflow
    definition. *)

From stdpp Require Import base strings list gmap pretty.
From Corelib Require Import SpecFloat.
From Stdlib Require Import ZArith Lia Ascii.
From S2P Require Import Prelude Exceptions Values Text Enums Dag Definitions Instance Events.
From S2P Require Import Tables Outbox Ports SideEffects Cost LlmClient Runners Agents CoreAgents.

Import SideEffects Cost Llm LlmHelpers.

(** ** Models ([models.py]) *)
Module Models.

Record ICPProfile := {
  icp_name : string;
  target_industries : list string;
  min_headcount : Z;
  max_headcount : Z;
  target_titles : list string;
  required_signals : list string;
  disqualifiers : list string;
  hot_threshold : Z;
  warm_threshold : Z;
  qualify_threshold : Z;
}.

Definition default_icp : ICPProfile := {|
  icp_name := "permissive-default"; target_industries := []; min_headcount := 0;
  max_headcount := 1000000; target_titles := []; required_signals := []; disqualifiers := [];
  hot_threshold := 75; warm_threshold := 50; qualify_threshold := 25 |}.

Record LeadScore := {
  fit_score : Z;
  tier : string;
  rationale : string;
  matched_criteria : list string;
  missing_criteria : list string;
  disqualifier_hits : list string;
  recommended_action : string;
}.

Definition strs (l : list string) : json := JArr (JStr <$> l).

Definition dump_score (s : LeadScore) : dict := list_to_map
  [("fit_score", JInt (fit_score s)); ("tier", JStr (tier s)); ("rationale", JStr (rationale s));
   ("matched_criteria", strs (matched_criteria s)); ("missing_criteria", strs (missing_criteria s));
   ("disqualifier_hits", strs (disqualifier_hits s));
   ("recommended_action", JStr (recommended_action s))].

Record OutreachDraft := {
  channel : string;
  subject : string;
  body : string;
  call_to_action : string;
  personalization_notes : list string;
}.

Definition dump_draft (d : OutreachDraft) : dict := list_to_map
  [("channel", JStr (channel d)); ("subject", JStr (subject d)); ("body", JStr (body d));
   ("call_to_action", JStr (call_to_action d));
   ("personalization_notes", strs (personalization_notes d))].

Record OutreachPackage := {
  email : OutreachDraft;
  linkedin : OutreachDraft;
  revisions : Z;
  quality_issues : list string;
  send_ready : bool;
}.

Definition dump_package (p : OutreachPackage) : dict := list_to_map
  [("email", JObj (dump_draft (email p))); ("linkedin", JObj (dump_draft (linkedin p)));
   ("revisions", JInt (revisions p)); ("quality_issues", strs (quality_issues p));
   ("send_ready", JBool (send_ready p))].

Record DispatchReceipt := {
  skipped : bool;
  reason : string;
  crm_task_ref : option string;
  email_ref : option string;
}.

Definition dump_receipt (r : DispatchReceipt) : dict := list_to_map
  [("skipped", JBool (skipped r)); ("reason", JStr (reason r));
   ("crm_task_ref", opt_str (crm_task_ref r)); ("email_ref", opt_str (email_ref r))].
End Models.

(** ** The provider ([provider.py])

    The records are objects shared by the index and the two lists; they live in a
    heap, at the address their sequence number gives them. *)
Module Provider.

Definition CREATE_CRM_TASK : string := "sales.create_crm_task".
Definition SEND_EMAIL : string := "sales.send_email".
Definition _EFFECTS : list string := [CREATE_CRM_TASK; SEND_EMAIL].

Record _Record := {
  rec_ref : string;
  rec_effect_name : string;
  rec_params : dict;
  rec_status : string;
}.

Record InMemorySalesProvider := {
  sp_heap : gmap Z _Record;
  sp_by_key : gmap string Z;
  sp_crm_tasks : list Z;
  sp_emails : list Z;
  sp_seq : Z;
}.

Definition new_provider : InMemorySalesProvider :=
  {| sp_heap := ∅; sp_by_key := ∅; sp_crm_tasks := []; sp_emails := []; sp_seq := 0 |}.

Definition supports_key (effect_name : string) : bool := bool_decide (effect_name ∈ _EFFECTS).

Definition ok_result (data : list (string * json)) (ref : option string) : EffectResult :=
  {| ers_ok := true; ers_data := list_to_map data; ers_provider_ref := ref; ers_error := None |}.

Definition found (r : _Record) : EffectResult :=
  ok_result [("ref", JStr (rec_ref r))] (Some (rec_ref r)).

(** The record an index entry points to. *)
Definition lookup_key (key : string) (p : InMemorySalesProvider) : option (Z * _Record) :=
  a ← sp_by_key p !! key; r ← sp_heap p !! a; Some (a, r).

Definition new_record (prefix : string) (seq : Z) (req : EffectRequest) : _Record := {|
  rec_ref := prefix +:+ pretty seq; rec_effect_name := erq_effect_name req;
  rec_params := erq_params req; rec_status := "done" |}.

Definition execute (req : EffectRequest) (p : InMemorySalesProvider)
    : res EffectResult * InMemorySalesProvider :=
  match lookup_key (erq_idempotency_key req) p with
  | Some (_, r) => (Ok (found r), p)
  | None =>
      let seq := (sp_seq p + 1)%Z in
      if bool_decide (erq_effect_name req = CREATE_CRM_TASK) then
        let r := new_record "crm-task-" seq req in
        (Ok (found r),
         {| sp_heap := <[seq := r]> (sp_heap p);
            sp_by_key := <[erq_idempotency_key req := seq]> (sp_by_key p);
            sp_crm_tasks := sp_crm_tasks p ++ [seq]; sp_emails := sp_emails p; sp_seq := seq |})
      else if bool_decide (erq_effect_name req = SEND_EMAIL) then
        let r := new_record "email-" seq req in
        (Ok (found r),
         {| sp_heap := <[seq := r]> (sp_heap p);
            sp_by_key := <[erq_idempotency_key req := seq]> (sp_by_key p);
            sp_crm_tasks := sp_crm_tasks p; sp_emails := sp_emails p ++ [seq]; sp_seq := seq |})
      else
        (Ok {| ers_ok := false; ers_data := ∅; ers_provider_ref := None;
               ers_error := Some ("unknown effect " +:+ erq_effect_name req) |},
         {| sp_heap := sp_heap p; sp_by_key := sp_by_key p; sp_crm_tasks := sp_crm_tasks p;
            sp_emails := sp_emails p; sp_seq := seq |})
  end.

Definition reconcile (req : EffectRequest) (p : InMemorySalesProvider)
    : res (option EffectResult) * InMemorySalesProvider :=
  (Ok ((fun x => found x.2) <$> lookup_key (erq_idempotency_key req) p), p).

Definition with_status (s : string) (r : _Record) : _Record := {|
  rec_ref := rec_ref r; rec_effect_name := rec_effect_name r; rec_params := rec_params r;
  rec_status := s |}.

Definition set_heap (h : gmap Z _Record) (p : InMemorySalesProvider) : InMemorySalesProvider := {|
  sp_heap := h; sp_by_key := sp_by_key p; sp_crm_tasks := sp_crm_tasks p;
  sp_emails := sp_emails p; sp_seq := sp_seq p |}.

Definition compensate (req : EffectRequest) (executed : EffectResult) (p : InMemorySalesProvider)
    : res (option EffectResult) * InMemorySalesProvider :=
  match lookup_key (erq_idempotency_key req) p with
  | None => (Ok None, p)
  | Some (a, r) =>
      let status := if bool_decide (erq_effect_name req = CREATE_CRM_TASK)
                    then "cancelled" else "recalled" in
      (Ok (Some (ok_result [("ref", JStr (rec_ref r)); ("status", JStr status)] None)),
       set_heap (<[a := with_status status r]> (sp_heap p)) p)
  end.

(** As an action provider of a world that holds its state. *)
Definition sales_provider {W} (get : W -> InMemorySalesProvider)
    (set : InMemorySalesProvider -> W -> W) : ActionProvider W :=
  let on {A} (f : InMemorySalesProvider -> res A * InMemorySalesProvider) : M W exn A :=
    fun w => let '(r, p) := f (get w) in (r, set p w) in
  {| ap_name := "sales";
     supports_idempotency_key := supports_key;
     ap_execute req := on (execute req);
     ap_reconcile req := on (reconcile req);
     ap_compensate req r := on (compensate req r) |}.

(** *** Exactly once per key *)

Inductive op :=
| Exec (req : EffectRequest)
| Recon (req : EffectRequest)
| Comp (req : EffectRequest) (executed : EffectResult).

Definition apply (p : InMemorySalesProvider) (o : op) : InMemorySalesProvider :=
  match o with
  | Exec req => snd (execute req p)
  | Recon req => snd (reconcile req p)
  | Comp req executed => snd (compensate req executed p)
  end.

(** An execution of one of the two effects under [key]. *)
Definition executes (key : string) (o : op) : Prop :=
  exists req, o = Exec req /\ erq_idempotency_key req = key /\
    supports_key (erq_effect_name req) = true.

Definition records (p : InMemorySalesProvider) : list Z := sp_crm_tasks p ++ sp_emails p.

Record provider_inv (p : InMemorySalesProvider) : Prop := {
  pi_heap : forall key a, sp_by_key p !! key = Some a -> is_Some (sp_heap p !! a);
  pi_range : forall a, a ∈ records p -> (a <= sp_seq p)%Z;
  pi_nodup : NoDup (records p);
  pi_size : length (records p) = size (sp_by_key p);
}.

Lemma lookup_key_none p key : provider_inv p -> lookup_key key p = None -> sp_by_key p !! key = None.
Proof.
  intros Hp. unfold lookup_key. destruct (sp_by_key p !! key) as [a|] eqn:E; [|done].
  destruct (pi_heap p Hp key a E) as [r Hr]. cbn. by rewrite Hr.
Qed.

Lemma lookup_key_some p key x : lookup_key key p = Some x -> sp_by_key p !! key = Some x.1.
Proof.
  unfold lookup_key. destruct (sp_by_key p !! key) as [a|]; [|done]. cbn.
  destruct (sp_heap p !! a); [|done]. by intros [= <-].
Qed.

(** A new record keeps the invariant, whichever list it joins. *)
Lemma add_record_inv p p' key r :
  provider_inv p -> sp_by_key p !! key = None ->
  sp_heap p' = <[(sp_seq p + 1)%Z := r]> (sp_heap p) ->
  sp_by_key p' = <[key := (sp_seq p + 1)%Z]> (sp_by_key p) ->
  records p' ≡ₚ (sp_seq p + 1)%Z :: records p -> sp_seq p' = (sp_seq p + 1)%Z -> provider_inv p'.
Proof.
  intros [Hh Hr Hn Hs] Hk Hheap Hby Hrec Hseq. constructor.
  - intros key' a. rewrite Hby, Hheap. intros [[<- <-]|[Hne Ha]]%lookup_insert_Some.
    + rewrite lookup_insert_eq. by eexists.
    + destruct (Hh key' a Ha) as [r' Hr']. destruct (decide ((sp_seq p + 1)%Z = a)) as [<-|Hne'].
      * rewrite lookup_insert_eq. by eexists.
      * rewrite lookup_insert_ne by done. by eexists.
  - intros a. rewrite Hrec, Hseq. intros [->|Ha]%elem_of_cons; [lia|]. specialize (Hr a Ha). lia.
  - rewrite Hrec. apply NoDup_cons. split; [|done]. intros Ha%Hr. lia.
  - rewrite Hrec, Hby. cbn. by rewrite map_size_insert_None, Hs by done.
Qed.

Lemma execute_inv req p : provider_inv p ->
  provider_inv (snd (execute req p)) /\
  forall key, is_Some (sp_by_key (snd (execute req p)) !! key) <->
    is_Some (sp_by_key p !! key) \/ executes key (Exec req).
Proof.
  intros Hp. unfold execute. destruct (lookup_key _ p) as [[a r]|] eqn:El.
  { apply lookup_key_some in El. split; [done|]. intros key. split; [by left|]. intros [H|H]; [done|].
    destruct H as (req' & [= <-] & <- & _). by eexists. }
  pose proof (lookup_key_none p _ Hp El) as Hk.
  assert (forall key, (is_Some (<[erq_idempotency_key req := (sp_seq p + 1)%Z]> (sp_by_key p) !! key)
      <-> is_Some (sp_by_key p !! key) \/ erq_idempotency_key req = key)) as Hdom.
  { intros key. rewrite lookup_insert_is_Some. destruct (decide (erq_idempotency_key req = key)); tauto. }
  unfold executes, supports_key, _EFFECTS.
  case_bool_decide as H1; [|case_bool_decide as H2]; cbn.
  - split.
    + eapply (add_record_inv p _ _ _ Hp Hk); try done. unfold records. cbn.
      rewrite <- app_assoc. symmetry. apply Permutation_middle.
    + intros key. rewrite Hdom. apply or_iff_compat_l. split; [|by intros (? & [= <-] & ? & _)].
      intros <-. exists req. rewrite H1. done.
  - split.
    + eapply (add_record_inv p _ _ _ Hp Hk); try done. unfold records. cbn.
      rewrite app_assoc. symmetry. apply Permutation_cons_append.
    + intros key. rewrite Hdom. apply or_iff_compat_l. split; [|by intros (? & [= <-] & ? & _)].
      intros <-. exists req. rewrite H2. done.
  - split.
    + destruct Hp as [Hh Hr Hn Hs]. constructor; cbn; try done. intros a Ha%Hr. lia.
    + intros key. split; [by left|]. intros [H|(? & [= <-] & _ & Hin%bool_decide_eq_true)]; [done|].
      exfalso. rewrite !elem_of_cons in Hin. destruct Hin as [?|[?|[]%not_elem_of_nil]]; done.
Qed.

Lemma compensate_inv req e p : provider_inv p ->
  provider_inv (snd (compensate req e p)) /\ sp_by_key (snd (compensate req e p)) = sp_by_key p.
Proof.
  intros Hp. unfold compensate. destruct (lookup_key _ p) as [[a r]|] eqn:El; [|done]. cbn.
  split; [|done]. destruct Hp as [Hh Hr Hn Hs]. constructor; cbn; try done.
  intros key a' Ha'. destruct (decide (a = a')) as [->|Hne].
  - rewrite lookup_insert_eq. by eexists.
  - rewrite lookup_insert_ne by done. by eapply Hh.
Qed.

Lemma run_inv ops : provider_inv (foldl apply new_provider ops) /\
  forall key, is_Some (sp_by_key (foldl apply new_provider ops) !! key) <-> Exists (executes key) ops.
Proof.
  induction ops as [|o ops [Hp Hk]] using rev_ind; cbn.
  - split; [by constructor; cbn; [| |constructor|]; set_solver|]. intros key. rewrite lookup_empty, Exists_nil.
    split; [by intros []|done].
  - rewrite foldl_snoc. setoid_rewrite Exists_app. setoid_rewrite Exists_cons. setoid_rewrite Exists_nil.
    destruct o as [req|req|req e]; cbn.
    + destruct (execute_inv req _ Hp) as [H1 H2]. split; [done|]. intros key. rewrite H2, Hk. tauto.
    + split; [done|]. intros key. rewrite Hk. unfold executes.
      split; [by left|intros [H|[(? & [=] & _)|[]]]; done].
    + destruct (compensate_inv req e _ Hp) as [H1 H2]. split; [done|]. intros key. rewrite H2, Hk.
      unfold executes. split; [by left|intros [H|[(? & [=] & _)|[]]]; done].
Qed.

(** The sales provider acts once per key.  After any sequence of calls, the
    CRM tasks and emails it made are distinct and as many as the distinct
    idempotency keys under which one of its two effects was executed; executing
    again under such a key changes nothing and returns the reference of the first
    time, which reconciling finds too, also after the record was compensated. *)
Theorem provider_once_per_key ops :
  let p := foldl apply new_provider ops in
  NoDup (records p) /\ length (records p) = size (sp_by_key p) /\
  (forall key, is_Some (sp_by_key p !! key) <-> Exists (executes key) ops) /\
  (forall req, Exists (executes (erq_idempotency_key req)) ops -> exists r,
     execute req p = (Ok (found r), p) /\ reconcile req p = (Ok (Some (found r)), p) /\
     forall e, fst (execute req (snd (compensate req e p))) = Ok (found r)).
Proof.
  cbv zeta. destruct (run_inv ops) as [Hp Hk]. set (p := foldl apply new_provider ops) in *.
  split_and!; [apply Hp|apply Hp|exact Hk|]. intros req [a Ha]%Hk.
  destruct (pi_heap p Hp _ a Ha) as [r Hr]. exists r.
  assert (lookup_key (erq_idempotency_key req) p = Some (a, r)) as Hl
    by (unfold lookup_key; rewrite Ha; cbn; by rewrite Hr).
  unfold execute, reconcile, compensate. rewrite !Hl. split_and!; [done..|]. intros e. cbn.
  unfold lookup_key. cbn. rewrite Ha. cbn. by rewrite lookup_insert_eq.
Qed.
End Provider.
