(* ===== verification/SalesModels.v ===== *)
(** The models of the sales workflow that are read from untrusted values
    ([use_cases/sales_intelligence/models.py]): leads, dossiers, and the ideal customer
    profile, which a YAML file may hold ([config.py]). *)

From stdpp Require Import base strings list gmap.
From Corelib Require Import SpecFloat.
From Stdlib Require Import ZArith Lia.
From S2P Require Import Prelude Exceptions Values EventCodec ModelCodec Evals ModelFiles Sales.

Import EventModels StateModels Models.

Record Lead := {
  ld_company_name : string;
  ld_domain : string;
  ld_contact_name : string;
  ld_contact_title : string;
  ld_contact_email : string;
  ld_source : string;
  ld_raw : dict;
}.

Record ResearchDossier := {
  do_company_summary : string;
  do_industry : string;
  do_headcount_estimate : option Z;
  do_tech_stack : list string;
  do_buying_signals : list string;
  do_recent_news : list string;
  do_pain_hypotheses : list string;
  do_sources : list string;
  do_already_in_crm : bool;
  do_confidence : float;
}.

Section models.
Context {L : Lax}.

Definition Lead_model : ModelOf Lead := {|
  mo_fields := ["company_name"; "domain"; "contact_name"; "contact_title"; "contact_email";
                "source"; "raw"];
  mo_dump l :=
    [("company_name", ty_dump t_str (ld_company_name l)); ("domain", ty_dump t_str (ld_domain l));
     ("contact_name", ty_dump t_str (ld_contact_name l));
     ("contact_title", ty_dump t_str (ld_contact_title l));
     ("contact_email", ty_dump t_str (ld_contact_email l));
     ("source", ty_dump t_str (ld_source l)); ("raw", ty_dump t_dict (ld_raw l))];
  mo_build o :=
    company ← req t_str "company_name" o; domain ← opt t_str "" "domain" o;
    name ← opt t_str "" "contact_name" o; title ← opt t_str "" "contact_title" o;
    email ← opt t_str "" "contact_email" o; source ← opt t_str "unknown" "source" o;
    raw ← opt_dict "raw" o;
    Ok {| ld_company_name := company; ld_domain := domain; ld_contact_name := name;
          ld_contact_title := title; ld_contact_email := email; ld_source := source;
          ld_raw := raw |};
  mo_ok _ := true |}.

Definition dossier_ok (d : ResearchDossier) : bool := unit_interval (do_confidence d).

Definition ResearchDossier_model : ModelOf ResearchDossier := {|
  mo_fields := ["company_summary"; "industry"; "headcount_estimate"; "tech_stack";
                "buying_signals"; "recent_news"; "pain_hypotheses"; "sources"; "already_in_crm";
                "confidence"];
  mo_dump d :=
    [("company_summary", ty_dump t_str (do_company_summary d));
     ("industry", ty_dump t_str (do_industry d));
     ("headcount_estimate", ty_dump (t_opt t_int) (do_headcount_estimate d));
     ("tech_stack", ty_dump (t_list t_str) (do_tech_stack d));
     ("buying_signals", ty_dump (t_list t_str) (do_buying_signals d));
     ("recent_news", ty_dump (t_list t_str) (do_recent_news d));
     ("pain_hypotheses", ty_dump (t_list t_str) (do_pain_hypotheses d));
     ("sources", ty_dump (t_list t_str) (do_sources d));
     ("already_in_crm", ty_dump t_bool (do_already_in_crm d));
     ("confidence", ty_dump t_float (do_confidence d))];
  mo_build o :=
    summary ← opt t_str "" "company_summary" o; industry ← opt t_str "" "industry" o;
    headcount ← opt (t_opt t_int) None "headcount_estimate" o;
    tech ← opt (t_list t_str) [] "tech_stack" o; signals ← opt (t_list t_str) [] "buying_signals" o;
    news ← opt (t_list t_str) [] "recent_news" o;
    pains ← opt (t_list t_str) [] "pain_hypotheses" o; sources ← opt (t_list t_str) [] "sources" o;
    crm ← opt t_bool false "already_in_crm" o;
    confidence ← opt (t_where t_float unit_interval) fzero "confidence" o;
    Ok {| do_company_summary := summary; do_industry := industry;
          do_headcount_estimate := headcount; do_tech_stack := tech; do_buying_signals := signals;
          do_recent_news := news; do_pain_hypotheses := pains; do_sources := sources;
          do_already_in_crm := crm; do_confidence := confidence |};
  mo_ok := dossier_ok |}.

Definition ICPProfile_model : ModelOf ICPProfile := {|
  mo_fields := ["name"; "target_industries"; "min_headcount"; "max_headcount"; "target_titles";
                "required_signals"; "disqualifiers"; "hot_threshold"; "warm_threshold";
                "qualify_threshold"];
  mo_dump p :=
    [("name", ty_dump t_str (icp_name p));
     ("target_industries", ty_dump (t_list t_str) (target_industries p));
     ("min_headcount", ty_dump t_int (min_headcount p));
     ("max_headcount", ty_dump t_int (max_headcount p));
     ("target_titles", ty_dump (t_list t_str) (target_titles p));
     ("required_signals", ty_dump (t_list t_str) (required_signals p));
     ("disqualifiers", ty_dump (t_list t_str) (disqualifiers p));
     ("hot_threshold", ty_dump t_int (hot_threshold p));
     ("warm_threshold", ty_dump t_int (warm_threshold p));
     ("qualify_threshold", ty_dump t_int (qualify_threshold p))];
  mo_build o :=
    name ← opt t_str "default" "name" o;
    industries ← opt (t_list t_str) [] "target_industries" o;
    least ← opt t_int 0%Z "min_headcount" o; most ← opt t_int 1000000%Z "max_headcount" o;
    titles ← opt (t_list t_str) [] "target_titles" o;
    signals ← opt (t_list t_str) [] "required_signals" o;
    bad ← opt (t_list t_str) [] "disqualifiers" o;
    hot ← opt t_int 75%Z "hot_threshold" o; warm ← opt t_int 50%Z "warm_threshold" o;
    qualify ← opt t_int 25%Z "qualify_threshold" o;
    Ok {| icp_name := name; target_industries := industries; min_headcount := least;
          max_headcount := most; target_titles := titles; required_signals := signals;
          disqualifiers := bad; hot_threshold := hot; warm_threshold := warm;
          qualify_threshold := qualify |};
  mo_ok _ := true |}.

(** [Model.model_validate(known).model_dump()] *)
Definition redumped {A} (Mo : ModelOf A) (known : dict) : res dict :=
  a ← build_model Mo (JObj known); Ok (list_to_map (mo_dump Mo a)).
Definition dump_lead : dict -> res dict := redumped Lead_model.
Definition dump_dossier : dict -> res dict := redumped ResearchDossier_model.

(** ** The profile's file ([config.py]) *)

Definition DEFAULT_ICP_PATH : string := "config/sales_intelligence.yaml".

Definition load_icp `{Files} (path : string) : res ICPProfile :=
  if is_file path then
    text ← read_text path;
    raw ← safe_load text;
    build_model ICPProfile_model (json_of (or_empty raw))
  else Err (Exn ConfigurationError ("ICP profile not found: " +:+ path_str path)).
End models.

(** ** Reading and dumping again *)

Section laws.
Context {L : Lax} {Ll : LaxLaws}.

Lemma lawful_lead : lawful_model Lead_model.
Proof.
  split; [done|intros [] _|done]. unfold Lead_model; cbn [mo_build mo_dump]. unfold opt_dict.
  read_fields. reflexivity.
Qed.

Lemma lawful_dossier : lawful_model ResearchDossier_model.
Proof.
  split; [done|..].
  - intros [] H. unfold ResearchDossier_model, mo_ok, dossier_ok in H. cbn in H.
    unfold ResearchDossier_model; cbn [mo_build mo_dump]. read_fields. reflexivity.
  - intros o d H. unfold ResearchDossier_model, mo_build in H. fields_of H. fields_sound.
    unfold ResearchDossier_model, mo_ok, dossier_ok. by cbn in *.
Qed.

Lemma lawful_icp : lawful_model ICPProfile_model.
Proof.
  split; [done|intros [] _|done]. unfold ICPProfile_model; cbn [mo_build mo_dump].
  read_fields. reflexivity.
Qed.

(** What validation has let through has every field of its class, and is let through
    again, unchanged: a step may read back what an earlier one wrote. *)
Lemma redumped_stable {A} (Mo : ModelOf A) known d :
  lawful_model Mo -> redumped Mo known = Ok d ->
  dom d = list_to_set (mo_fields Mo) /\ redumped Mo d = Ok d.
Proof.
  intros HM (a & Hb & [= <-])%bind_Ok. pose proof (build_model_ok Mo _ a HM Hb) as Ha. split.
  - by rewrite dom_list_to_map_L, (lm_fields Mo HM).
  - unfold redumped. change (JObj (list_to_map (mo_dump Mo a))) with (dump_model Mo a).
    by rewrite (build_dumped_model Mo a HM Ha).
Qed.
End laws.
