(* ===== verification/SalesAgents.v ===== *)
(** The agents of the reference workflow, its compensator and its definition. *)

From stdpp Require Import base strings list gmap pretty.
From Corelib Require Import SpecFloat.
From Stdlib Require Import ZArith Lia Ascii.
From S2P Require Import Prelude Exceptions Values Text Enums Dag Definitions Instance Events.
From S2P Require Import Tables Outbox Ports SideEffects Cost LlmClient Runners Agents CoreAgents.
From S2P Require Import EventCodec ModelCodec Sales SalesModels.

Import SideEffects Cost Llm LlmHelpers Models.

(** [{k: data[k] for k in fields if k in data}] *)
Definition known_fields (fields : list string) (data : json) : res dict :=
  match data with
  | JObj o => Ok (filter (fun p => p.1 ∈ fields) o)
  | JArr l => if existsb (fun k => existsb (is_str k) l) fields
              then (_ ← subscript data ""; Ok ∅) else Ok ∅
  | JStr s => if existsb (fun k => bool_decide (is_Some (String.index 0 k s))) fields
              then (_ ← subscript data ""; Ok ∅) else Ok ∅
  | _ => Err (Exn (PyExc "TypeError")
                ("argument of type " +:+ py_repr (type_name data) +:+ " is not iterable"))
  end.

(** [research.get(key, ctx.inputs.get(key, {}))] *)
Definition from_research (ctx : StepContext) (key : string) : res json :=
  py_get (input_or ctx "research" (JObj ∅)) key (input_or ctx key (JObj ∅)).

(** [x if isinstance(x, dict) else {}] *)
Definition dict_or_empty (v : json) : dict := match v with JObj o => o | _ => ∅ end.

(** [[str(x) for x in v]] and [[str(x) for x in v if x]] *)
Definition str_list {Ps : PyStr} (v : json) : res (list string) :=
  l ← py_iter v; Ok (map str_of l).
Definition truthy_str_list {Ps : PyStr} (v : json) : res (list string) :=
  l ← py_iter v; Ok (map str_of (List.filter truthy l)).

Definition field (d : dict) (key : string) (dflt : json) : json := default dflt (d !! key).

(** ** Tools ([tools.py]) *)
Module SalesTools.

Definition CRM_LOOKUP : string := "crm_lookup".
Definition WEB_ENRICH : string := "web_enrich".

Definition LookupFn : Type := json -> agent dict.

Definition _default_crm_lookup : LookupFn := fun _ => mret (list_to_map
  [("found", JBool false); ("note", JStr "no CRM lookup configured")]).
Definition _default_web_enrich : LookupFn := fun _ => mret (list_to_map
  [("note", JStr "no enrichment source configured")]).

Definition crm_tool (crm : LookupFn) : AgentTool :=
  FunctionTool CRM_LOOKUP
    ("Look up whether a company/contact already exists in the CRM. "
     +:+ quoted "args: {`domain`: str, `company_name`: str}")
    (fun _ args => d ← crm args; mret (JObj d)).

Definition web_tool (web : LookupFn) : AgentTool :=
  FunctionTool WEB_ENRICH
    ("Fetch public firmographic data for a company (industry, headcount, "
     +:+ quoted "tech, news). args: {`domain`: str}")
    (fun _ args => d ← web args; mret (JObj d)).

Definition build_sales_tools (crm_lookup web_enrich : option LookupFn) : ToolRegistry :=
  register_tool (register_tool [] (crm_tool (default _default_crm_lookup crm_lookup)))
    (web_tool (default _default_web_enrich web_enrich)).

Definition run_tool (reg : ToolRegistry) (name : string) (ctx : StepContext) (args : json)
    : agent json :=
  t ← of_res (get_tool reg name); tool_call t ctx args.
End SalesTools.

(** ** Research ([agents/research_agent.py]) *)
Module Research.
Section research.
Context {Ps : PyStr} {Oj : Orjson} {Lx : EventModels.Lax} (tools : ToolRegistry).

Definition SYSTEM : string :=
  "You are a B2B sales research analyst. Given a lead, you assemble a concise, " +:+
  "factual dossier: what the company does, its size and industry, the tools it " +:+
  "uses, and any signals that it might be in-market. Never invent specifics — if " +:+
  "a fact is unknown, leave it out and lower your confidence. Prefer primary " +:+
  "sources and note where each claim came from.".

Definition lead_fields : list string :=
  ["company_name"; "domain"; "contact_name"; "contact_title"; "contact_email"; "source"; "raw"].
Definition dossier_fields : list string :=
  ["company_summary"; "industry"; "headcount_estimate"; "tech_stack"; "buying_signals";
   "recent_news"; "pain_hypotheses"; "sources"; "already_in_crm"; "confidence"].

Definition from_context (inputs : dict) : res dict :=
  known ← known_fields lead_fields (default (JObj inputs) (inputs !! "lead"));
  dump_lead known.

(** [ResearchDossier(already_in_crm=..., confidence=0.0).model_dump()] *)
Definition empty_dossier (already_in_crm : bool) : dict := list_to_map
  [("company_summary", JStr ""); ("industry", JStr ""); ("headcount_estimate", JNull);
   ("tech_stack", JArr []); ("buying_signals", JArr []); ("recent_news", JArr []);
   ("pain_hypotheses", JArr []); ("sources", JArr []); ("already_in_crm", JBool already_in_crm);
   ("confidence", JFloat fzero)].

Definition _coerce_dossier (raw : json) (already_in_crm : bool) : dict :=
  let known := filter (fun p => p.1 ∈ dossier_fields) (dict_or_empty raw) in
  match dump_dossier (<["already_in_crm" := JBool already_in_crm]> known) with
  | Ok d => d
  | Err _ => empty_dossier already_in_crm
  end.

Record state := {
  lead : dict;
  crm : option dict;
  enrichment : option dict;
  dossier : option dict;
}.

Definition init (ctx : StepContext) : res state :=
  lead ← from_context (sc_inputs ctx);
  Ok {| lead := lead; crm := None; enrichment := None; dossier := None |}.

(** The lookups are declared to return dicts, of which [dict] makes copies. *)
Definition _gather (ctx : StepContext) (s : state) : agent state :=
  let domain := field (lead s) "domain" (JStr "") in
  c ← SalesTools.run_tool tools SalesTools.CRM_LOOKUP ctx (JObj (list_to_map
        [("domain", domain); ("company_name", field (lead s) "company_name" (JStr ""))]));
  e ← SalesTools.run_tool tools SalesTools.WEB_ENRICH ctx (JObj {[ "domain" := domain ]});
  c ← of_res (as_obj c);
  e ← of_res (as_obj e);
  mret {| lead := lead s; crm := Some c; enrichment := Some e; dossier := dossier s |}.

Definition show (o : option dict) : string := str_of (match o with Some d => JObj d | None => JNull end).

Definition _synthesize (s : state) : agent state :=
  raw ← ask_json SYSTEM
    ("Lead: " +:+ str_of (JObj (lead s)) +:+ nl +:+ "CRM record: " +:+ show (crm s) +:+ nl
     +:+ "Enrichment data: " +:+ show (enrichment s) +:+ nl +:+ nl
     +:+ "Build the dossier. Return JSON with keys: company_summary (str), "
     +:+ "industry (str), headcount_estimate (int or null), tech_stack (list[str]), "
     +:+ "buying_signals (list[str]), recent_news (list[str]), pain_hypotheses "
     +:+ "(list[str]), sources (list[str]), confidence (0.0-1.0 float).")
    CostTier.STANDARD 2048 "sales_research";
  mret {| lead := lead s; crm := crm s; enrichment := enrichment s;
          dossier := Some (_coerce_dossier raw
                       (truthy (field (default ∅ (crm s)) "found" JNull))) |}.

Definition graph (ctx : StepContext) : Graph state := {|
  g_nodes := [("gather", _gather ctx); ("synthesize", _synthesize)];
  g_entry := "gather";
  g_edges := [("gather", To "synthesize"); ("synthesize", END)];
  g_conditional := [] |}.

Definition result (s : state) : res StepResult := Ok (step_result
  [("lead", JObj (lead s)); ("dossier", JObj (default (empty_dossier false) (dossier s)))]).

Definition ResearchAgent : BaseAgent state :=
  {| build := graph; initial_state := init; to_result := result |}.
End research.
End Research.

(** ** Scoring ([agents/scoring_agent.py]) *)
Module Scoring.
Section scoring.
Context {Ps : PyStr} {Oj : Orjson} (icp : ICPProfile) (review_margin : Z).

Definition SYSTEM : string :=
  "You are a sales qualification engine. You score a lead 0-100 against an Ideal " +:+
  "Customer Profile (ICP), citing which criteria matched and which did not. Be " +:+
  "conservative: a missing signal is not a matched signal. Flag any ICP " +:+
  "disqualifier you see. Return only the requested JSON.".

Record state := {
  dossier : json;
  lead : json;
  proposal : option dict;
  score : option LeadScore;
}.

Definition init (ctx : StepContext) : res state :=
  d ← from_research ctx "dossier";
  l ← from_research ctx "lead";
  Ok {| dossier := d; lead := l; proposal := None; score := None |}.

Definition _score (s : state) : agent state :=
  v ← ask_json SYSTEM
    ("ICP: industries=" +:+ str_of (strs (target_industries icp)) +:+ ", headcount "
     +:+ pretty (min_headcount icp) +:+ "-" +:+ pretty (max_headcount icp)
     +:+ ", titles=" +:+ str_of (strs (target_titles icp)) +:+ ", "
     +:+ "required signals=" +:+ str_of (strs (required_signals icp))
     +:+ ", disqualifiers=" +:+ str_of (strs (disqualifiers icp)) +:+ nl +:+ nl
     +:+ "Lead: " +:+ str_of (lead s) +:+ nl +:+ "Dossier: " +:+ str_of (dossier s) +:+ nl +:+ nl
     +:+ quoted "Return {`fit_score`: 0-100 int, `rationale`: str, `matched_criteria`: "
     +:+ quoted "[str], `missing_criteria`: [str], `disqualifier_hits`: [str], "
     +:+ quoted "`recommended_action`: str}.")
    CostTier.CHEAP 2048 "sales_scoring";
  mret {| dossier := dossier s; lead := lead s; proposal := Some (dict_or_empty v);
          score := score s |}.

(** [int(raw) if isinstance(raw, int | float) else 0] *)
Definition int_of (v : json) : res Z :=
  match v with
  | JBool b => Ok (if b then 1 else 0)%Z
  | JInt z => Ok z
  | JFloat S754_nan => Err (Exn (PyExc "ValueError") "cannot convert float NaN to integer")
  | JFloat (S754_infinity _) =>
      Err (Exn (PyExc "OverflowError") "cannot convert float infinity to integer")
  | JFloat f => Ok (modf f).1
  | _ => Ok 0%Z
  end.

Definition tier_of (fit : Z) (hits : list string) : string :=
  if negb (bool_decide (hits = [])) || (fit <? qualify_threshold icp)%Z then "disqualified"
  else if (hot_threshold icp <=? fit)%Z then "hot"
  else if (warm_threshold icp <=? fit)%Z then "warm"
  else "cold".

Definition review_request (fit : Z) : ReviewRequest :=
  let distance := Z.abs (fit - qualify_threshold icp) in {|
  rq_reason := "low_confidence";
  rq_confidence := round2 (fratio distance (Z.to_pos (Z.max review_margin 1)));
  rq_recommendation :=
    "fit score " +:+ pretty fit +:+ " is within " +:+ pretty review_margin
    +:+ " of the qualify line (" +:+ pretty (qualify_threshold icp)
    +:+ ") — confirm before outreach";
  rq_options := []; rq_auto_action := "abort"; rq_timeout_seconds := None |}.

(** The score of a proposal, and the review it asks for. *)
Definition calibrate (p : dict) : res (LeadScore * option ReviewRequest) :=
  raw ← int_of (field p "fit_score" (JInt 0));
  let fit := Z.max 0 (Z.min 100 raw) in
  hits ← truthy_str_list (field p "disqualifier_hits" (JArr []));
  matched ← str_list (field p "matched_criteria" (JArr []));
  missing ← str_list (field p "missing_criteria" (JArr []));
  Ok ({| fit_score := fit; tier := tier_of fit hits;
         rationale := str_of (field p "rationale" (JStr ""));
         matched_criteria := matched; missing_criteria := missing; disqualifier_hits := hits;
         recommended_action := str_of (field p "recommended_action" (JStr "")) |},
      if negb (review_margin =? 0)%Z && bool_decide (hits = [])
         && (Z.abs (fit - qualify_threshold icp) <=? review_margin)%Z
      then Some (review_request fit) else None).

Definition _calibrate (s : state) : agent state :=
  '(sc, rq) ← of_res (calibrate (default ∅ (proposal s)));
  _ ← match rq with Some r => review r | None => mret tt end;
  mret {| dossier := dossier s; lead := lead s; proposal := proposal s; score := Some sc |}.

Definition graph : Graph state := {|
  g_nodes := [("score", _score); ("calibrate", _calibrate)];
  g_entry := "score";
  g_edges := [("score", To "calibrate"); ("calibrate", END)];
  g_conditional := [] |}.

Definition result (s : state) : res StepResult := Ok {|
  sr_output := match score s with Some sc => dump_score sc | None => ∅ end;
  sr_model_used := None |}.

Definition ScoringAgent : BaseAgent state :=
  {| build := fun _ => graph; initial_state := init; to_result := result |}.
End scoring.
End Scoring.

(** ** Copywriting ([agents/copywriting_agent.py]) *)
Module Copywriting.
Section copywriting.
Context {Ps : PyStr} {Oj : Orjson}.

Definition SYSTEM : string :=
  "You are a senior SDR who writes outreach that gets replies. You write for one " +:+
  "specific person about one specific, credible reason to talk now. You never use " +:+
  "spam-trigger language, fake familiarity, or more than a few sentences." +:+ nl +:+ nl +:+
  "House style:" +:+ nl +:+
  "- Email: subject under 8 words, body 60-110 words, one clear call to action, " +:+
  "no attachments-language, no 'I hope this finds you well'." +:+ nl +:+
  "- LinkedIn: under 60 words, even more informal, no links." +:+ nl +:+
  "- Every message must reference at least one concrete detail from the dossier." +:+ nl +:+
  "- Plain sentences. No em-dash-stuffed clauses. No buzzwords ('synergy', " +:+
  "'circle back', 'touch base', 'game-changer').".

Definition REVIEW_SYSTEM : string :=
  "You are a strict outreach reviewer. You check a draft against the house style " +:+
  "and flag every violation: length, banned phrases, missing personalization, " +:+
  "weak or missing call to action, generic opener. Return only the requested JSON.".

Record state := {
  lead : json;
  dossier : json;
  score : json;
  email : option OutreachDraft;
  linkedin : option OutreachDraft;
  issues : option (list string);
  revisions : Z;
  skipped : bool;
}.

Definition init (ctx : StepContext) : res state :=
  l ← from_research ctx "lead";
  d ← from_research ctx "dossier";
  Ok {| lead := l; dossier := d; score := input_or ctx "score" (JObj ∅);
        email := None; linkedin := None; issues := None; revisions := 0; skipped := false |}.

Definition _draft_of (channel : string) (raw : json) : res OutreachDraft :=
  let data := dict_or_empty raw in
  notes ← str_list (field data "personalization_notes" (JArr []));
  Ok {| channel := channel; subject := str_of (field data "subject" (JStr ""));
        body := str_of (field data "body" (JStr ""));
        call_to_action := str_of (field data "call_to_action" (JStr ""));
        personalization_notes := notes |}.

Definition set_drafts (e l : option OutreachDraft) (s : state) : state := {|
  lead := lead s; dossier := dossier s; score := score s; email := e; linkedin := l;
  issues := issues s; revisions := revisions s; skipped := skipped s |}.
Definition set_issues (i : list string) (s : state) : state := {|
  lead := lead s; dossier := dossier s; score := score s; email := email s;
  linkedin := linkedin s; issues := Some i; revisions := revisions s; skipped := skipped s |}.
Definition set_revisions (n : Z) (s : state) : state := {|
  lead := lead s; dossier := dossier s; score := score s; email := email s;
  linkedin := linkedin s; issues := issues s; revisions := n; skipped := skipped s |}.
Definition set_skipped (s : state) : state := {|
  lead := lead s; dossier := dossier s; score := score s; email := email s;
  linkedin := linkedin s; issues := issues s; revisions := revisions s; skipped := true |}.

Definition show (o : option OutreachDraft) : string :=
  str_of (match o with Some d => JObj (dump_draft d) | None => JNull end).

Definition _draft (s : state) : agent state :=
  let sc := or_else (JObj ∅) (Some (score s)) in
  t ← of_res (py_get sc "tier" JNull);
  if is_str "disqualified" t then mret (set_skipped s)
  else
    why ← of_res (py_get sc "rationale" (JStr ""));
    drafts ← ask_json SYSTEM
      ("Lead: " +:+ str_of (lead s) +:+ nl +:+ "Dossier: " +:+ str_of (dossier s) +:+ nl
       +:+ "Why now (score rationale): " +:+ str_of why +:+ nl +:+ nl
       +:+ quoted "Return {`email`: {`subject`: str, `body`: str, `call_to_action`: str, "
       +:+ quoted "`personalization_notes`: [str]}, `linkedin`: {`body`: str, "
       +:+ quoted "`call_to_action`: str, `personalization_notes`: [str]}}.")
      CostTier.STANDARD 2048 "sales_copywriting";
    let d := dict_or_empty drafts in
    e ← of_res (_draft_of "email" (field d "email" JNull));
    l ← of_res (_draft_of "linkedin" (field d "linkedin" JNull));
    mret (set_drafts (Some e) (Some l) s).

Definition _after_draft (s : state) : res string := Ok (if skipped s then "skip" else "review").

Definition _review (s : state) : agent state :=
  verdict ← ask_json REVIEW_SYSTEM
    ("Email: " +:+ show (email s) +:+ nl +:+ "LinkedIn: " +:+ show (linkedin s) +:+ nl +:+ nl
     +:+ quoted "Return {`issues`: [str]} — every house-style violation, empty if clean.")
    CostTier.CHEAP 2048 "sales_copy_review";
  i ← of_res (truthy_str_list (field (dict_or_empty verdict) "issues" (JArr [])));
  mret (set_issues i s).

(** [if d.get(key): out[key] = _draft_of(key, d[key])] *)
Definition redraft (key : string) (d : dict) (old : option OutreachDraft) : res (option OutreachDraft) :=
  let v := field d key JNull in
  if truthy v then new ← _draft_of key v; Ok (Some new) else Ok old.

Definition _finalize (s : state) : agent state :=
  match default [] (issues s) with
  | [] => mret s
  | issues =>
      fixed ← ask_json SYSTEM
        ("Email: " +:+ show (email s) +:+ nl +:+ "LinkedIn: " +:+ show (linkedin s) +:+ nl
         +:+ "Fix these issues: " +:+ str_of (strs issues) +:+ nl +:+ nl
         +:+ "Return the corrected drafts in the same JSON shape as before.")
        CostTier.STANDARD 2048 "sales_copy_revise";
      let d := dict_or_empty fixed in
      e ← of_res (redraft "email" d (email s));
      l ← of_res (redraft "linkedin" d (linkedin s));
      mret (set_revisions (revisions s + 1) (set_drafts e l s))
  end.

Definition graph : Graph state := {|
  g_nodes := [("draft", _draft); ("review", _review); ("finalize", _finalize)];
  g_entry := "draft";
  g_edges := [("review", To "finalize"); ("finalize", END)];
  g_conditional := [("draft", (_after_draft, [("review", To "review"); ("skip", END)]))] |}.

Definition skipped_output : dict :=
  list_to_map [("skipped", JBool true); ("reason", JStr "lead disqualified")].

Definition result (s : state) : res StepResult :=
  if skipped s then Ok {| sr_output := skipped_output; sr_model_used := None |}
  else
    e ← Planner.get "email" (email s);
    l ← Planner.get "linkedin" (linkedin s);
    Ok (step_result [("skipped", JBool false);
      ("outreach", JObj (dump_package {|
         Models.email := e; Models.linkedin := l; Models.revisions := revisions s;
         quality_issues := default [] (issues s); send_ready := true |}))]).

Definition CopywritingAgent : BaseAgent state :=
  {| build := fun _ => graph; initial_state := init; to_result := result |}.
End copywriting.
End Copywriting.

(** ** Outreach ([agents/outreach_agent.py]) *)
Module Outreach.
Section outreach.
Context {Ps : PyStr} (provider : string).

Record state := {
  lead : json;
  score : json;
  outreach : json;
  skipped : bool;
  reason : json;
  receipt : option DispatchReceipt;
}.

Definition init (ctx : StepContext) : res state :=
  let copy := input_or ctx "draft_outreach" (JObj ∅) in
  sk ← py_get copy "skipped" JNull;
  l ← from_research ctx "lead";
  o ← py_get copy "outreach" (JObj ∅);
  r ← (if truthy sk then py_get copy "reason" (JStr "lead disqualified") else Ok (JStr ""));
  Ok {| lead := l; score := input_or ctx "score" (JObj ∅); outreach := o; skipped := truthy sk;
        reason := r; receipt := None |}.

Definition set_receipt (r : DispatchReceipt) (s : state) : state := {|
  lead := lead s; score := score s; outreach := outreach s; skipped := skipped s;
  reason := reason s; receipt := Some r |}.

(** [str(data.get("ref")) if data.get("ref") else None] *)
Definition ref_of (data : dict) : option string :=
  let v := field data "ref" JNull in if truthy v then Some (str_of v) else None.

(** The receipt of a skipped dispatch; the model's [reason] is a string. *)
Definition skipped_receipt (reason : json) : res DispatchReceipt :=
  match reason with
  | JStr r => Ok {| Models.skipped := true; Models.reason := r; crm_task_ref := None; email_ref := None |}
  | _ => Err (EventModels.ValidationError "Input should be a valid string")
  end.

Definition _dispatch (s : state) : agent state :=
  if skipped s || negb (truthy (outreach s)) then
    r ← of_res (skipped_receipt (reason s)); mret (set_receipt r s)
  else
    let lead := or_else (JObj ∅) (Some (lead s)) in
    let score := or_else (JObj ∅) (Some (score s)) in
    email ← of_res (py_get (outreach s) "email" (JObj ∅));
    tier ← of_res (py_get score "tier" (JStr "lead"));
    company ← of_res (py_get lead "company_name" (JStr ""));
    contact ← of_res (py_get lead "contact_name" (JStr ""));
    address ← of_res (py_get lead "contact_email" (JStr ""));
    why ← of_res (py_get score "rationale" (JStr ""));
    task ← await_effect Provider.CREATE_CRM_TASK (list_to_map
      [("company", company); ("contact", contact); ("contact_email", address); ("tier", tier);
       ("summary", JStr ("Outreach queued (" +:+ str_of tier +:+ "): " +:+ str_of why))]) provider;
    subject ← of_res (py_get email "subject" (JStr ""));
    body ← of_res (py_get email "body" (JStr ""));
    sent ← await_effect Provider.SEND_EMAIL (list_to_map
      [("to", address); ("subject", subject); ("body", body)]) provider;
    mret (set_receipt {| Models.skipped := false; Models.reason := "";
                         crm_task_ref := ref_of (ers_data task);
                         email_ref := ref_of (ers_data sent) |} s).

Definition graph : Graph state := {|
  g_nodes := [("dispatch", _dispatch)]; g_entry := "dispatch";
  g_edges := [("dispatch", END)]; g_conditional := [] |}.

Definition no_receipt : DispatchReceipt :=
  {| Models.skipped := true; Models.reason := ""; crm_task_ref := None; email_ref := None |}.

Definition result (s : state) : res StepResult := Ok {|
  sr_output := dump_receipt (default no_receipt (receipt s)); sr_model_used := None |}.

Definition OutreachAgent : BaseAgent state :=
  {| build := fun _ => graph; initial_state := init; to_result := result |}.
End outreach.

(** [OutreachCompensator.run] *)
Definition OutreachCompensator : StepRunner := fun ctx =>
  let prior := input_or ctx "output" (JObj ∅) in
  (crm ← of_res (py_get prior "crm_task_ref" JNull);
   mail ← of_res (py_get prior "email_ref" JNull);
   mret (step_result [("compensated", JBool true); ("crm_task_ref", crm); ("email_ref", mail)]))
  RReturn.
End Outreach.

(** ** The workflow ([workflow.py]) *)
Module Workflow.

Definition WORKFLOW_ID : string := "sales-intelligence".
Definition RESEARCH_AGENT : string := "sales_research_agent".
Definition SCORING_AGENT : string := "sales_scoring_agent".
Definition COPYWRITING_AGENT : string := "sales_copywriting_agent".
Definition OUTREACH_AGENT : string := "sales_outreach_agent".
Definition COMPENSATOR_TYPE : string := "sales_outreach_compensator".

(** [RetryPolicy(max_retries=2)] *)
Definition _LLM_RETRY : RetryPolicy := {|
  max_retries := 2; backoff_base_seconds := backoff_base_seconds default_retry_policy;
  backoff_multiplier := backoff_multiplier default_retry_policy;
  backoff_max_seconds := backoff_max_seconds default_retry_policy;
  jitter := jitter default_retry_policy; retry_on := retry_on default_retry_policy;
  fallback_model := None |}.

Definition llm_step (step_id name agent_type : string) (tier : CostTier) (timeout : Z)
    (dependencies : list string) : WorkflowStep := {|
  ws_step_id := step_id; ws_name := name; ws_agent_type := agent_type;
  ws_input_schema := ∅; ws_output_schema := ∅; ws_retry_policy := _LLM_RETRY;
  ws_timeout_seconds := timeout; ws_cost_tier := tier; ws_side_effects := [];
  ws_compensation_action := None; ws_requires_approval := false;
  ws_approval_timeout_seconds := None; ws_approval_auto_action := "abort";
  ws_dependencies := dependencies |}.

Definition sales_intelligence_workflow (version : string) (require_send_approval : bool)
    (approval_timeout_seconds : option Z) : WorkflowDefinition := {|
  wd_workflow_id := WORKFLOW_ID;
  wd_name := "Sales Intelligence & Outreach";
  wd_description := "Research a lead, qualify it against the ICP, and send first-touch outreach.";
  wd_version := version;
  wd_steps :=
    [llm_step "research" "Research the lead" RESEARCH_AGENT CostTier.STANDARD 180 [];
     llm_step "score" "Score against ICP" SCORING_AGENT CostTier.CHEAP 120 ["research"];
     llm_step "draft_outreach" "Draft outreach" COPYWRITING_AGENT CostTier.STANDARD 180
       ["research"; "score"];
     {| ws_step_id := "send"; ws_name := "Send outreach"; ws_agent_type := OUTREACH_AGENT;
        ws_input_schema := ∅; ws_output_schema := ∅; ws_retry_policy := default_retry_policy;
        ws_timeout_seconds := 120; ws_cost_tier := CostTier.CHEAP;
        ws_side_effects := [Provider.CREATE_CRM_TASK; Provider.SEND_EMAIL];
        ws_compensation_action := Some COMPENSATOR_TYPE;
        ws_requires_approval := require_send_approval;
        ws_approval_timeout_seconds := approval_timeout_seconds;
        ws_approval_auto_action := "skip";
        ws_dependencies := ["research"; "score"; "draft_outreach"] |}];
  wd_global_timeout_seconds := 3600;
  wd_max_concurrent_steps := 2;
  wd_on_failure := OnFailure.ROLLBACK |}.

(** The agents and the compensator, as [register_sales_intelligence] adds them. *)
Definition register_sales_intelligence {Ps : PyStr} {Oj : Orjson} {Lx : EventModels.Lax} {Lg : LangGraph}
    (tools : option ToolRegistry) (icp : option ICPProfile) (provider_name : string)
    (registry : gmap string StepRunner) : gmap string StepRunner :=
  <[COMPENSATOR_TYPE := Outreach.OutreachCompensator]>
  (<[OUTREACH_AGENT := run_agent (Outreach.OutreachAgent provider_name)]>
  (<[COPYWRITING_AGENT := run_agent Copywriting.CopywritingAgent]>
  (<[SCORING_AGENT := run_agent (Scoring.ScoringAgent (default default_icp icp) 4)]>
  (<[RESEARCH_AGENT := run_agent (Research.ResearchAgent
       (default (SalesTools.build_sales_tools None None) tools))]> registry)))).
End Workflow.

(** ** Theorems *)
Section theorems.
Context {Ps : PyStr} {Oj : Orjson} {Lg : LangGraph}.

Import Models.

(** The tier is computed, not believed.  Whatever the model proposed, a score
    that calibration accepts lies in 0..100 and is the proposed number clamped; the
    tier follows from the thresholds alone, a lead being disqualified exactly when
    a disqualifier was hit or the score is below the qualify line; and a review is
    requested exactly when no disqualifier was hit and the score is within a
    non-zero margin of that line. *)
Theorem calibrate_exact icp margin p sc rq :
  Scoring.calibrate icp margin p = Ok (sc, rq) ->
  (0 <= fit_score sc <= 100)%Z /\
  (exists raw, Scoring.int_of (field p "fit_score" (JInt 0)) = Ok raw /\
     fit_score sc = Z.max 0 (Z.min 100 raw)) /\
  (tier sc = "disqualified" <->
     disqualifier_hits sc <> [] \/ (fit_score sc < qualify_threshold icp)%Z) /\
  (tier sc <> "disqualified" ->
     (tier sc = "hot" <-> (hot_threshold icp <= fit_score sc)%Z)) /\
  (is_Some rq <-> margin <> 0%Z /\ disqualifier_hits sc = [] /\
     (Z.abs (fit_score sc - qualify_threshold icp) <= margin)%Z).
Proof.
  unfold Scoring.calibrate. rewrite bind_Ok. intros (raw & Hraw & H). revert H. rewrite bind_Ok.
  intros (hits & _ & H). revert H. rewrite bind_Ok. intros (matched & _ & H). revert H.
  rewrite bind_Ok. intros (missing & _ & [= <- <-]). cbn.
  set (fit := Z.max 0 (Z.min 100 raw)). split_and!; [lia|lia| | | |].
  - by exists raw.
  - unfold Scoring.tier_of. case_bool_decide as Hh; cbn.
    + destruct (Z.ltb_spec fit (qualify_threshold icp)); [tauto|].
      split; [|intros [?|?]; [done|lia]]. by repeat case_match.
    + tauto.
  - unfold Scoring.tier_of. destruct (negb _ || _); [done|]. intros _.
    destruct (Z.leb_spec (hot_threshold icp) fit); [tauto|]. split; [|lia]. by case_match.
  - destruct (Z.eqb_spec margin 0) as [->|Hm]; cbn; [split; [by intros []|by intros []]|].
    case_bool_decide; cbn; [|split; [by intros []|by intros (_ & ? & _)]].
    destruct (Z.leb_spec (Z.abs (fit - qualify_threshold icp)) margin).
    + split; [done|]. intros _. by eexists.
    + split; [by intros []|]. intros (_ & _ & ?). lia.
Qed.

(** A lead that scoring disqualified stops there. *)
Definition research_is_dict (ctx : StepContext) : Prop :=
  exists o, input_or ctx "research" (JObj ∅) = JObj o.

(** A disqualified lead stops the workflow's work.  Given a score whose tier is
    disqualified, drafting returns the skipped output at once; given that output,
    sending returns a skipped receipt with the reason at once.  Neither asks a
    model, performs an effect, charges anything or requests a review. *)
Theorem disqualified_lead_stops provider copy_ctx send_ctx sc :
  research_is_dict copy_ctx -> research_is_dict send_ctx ->
  sc_inputs copy_ctx !! "score" = Some (JObj sc) -> sc !! "tier" = Some (JStr "disqualified") ->
  sc_inputs send_ctx !! "draft_outreach" = Some (JObj Copywriting.skipped_output) ->
  run_agent Copywriting.CopywritingAgent copy_ctx
    = RReturn {| sr_output := Copywriting.skipped_output; sr_model_used := None |} /\
  run_agent (Outreach.OutreachAgent provider) send_ctx
    = RReturn {| sr_output := dump_receipt {| skipped := true; reason := "lead disqualified";
                                             crm_task_ref := None; email_ref := None |};
                 sr_model_used := None |}.
Proof.
  intros [o1 H1] [o2 H2] Hs Ht Hd. split.
  - unfold run_agent, Copywriting.CopywritingAgent, initial_state, Copywriting.init, from_research.
    rewrite H1, Hs. cbn [py_get mbind mret result_bind result_ret of_res to_result build].
    unfold mbind, mret, agent_bind, agent_ret. rewrite ainvoke_walk.
    assert (truthy (JObj sc) = true) as Htr.
    { cbn. destruct (map_to_list sc) eqn:E; [|done]. apply map_to_list_empty_iff in E as ->. done. }
    assert (forall s k, Copywriting.score s = JObj sc ->
      Copywriting._draft s k = k (Copywriting.set_skipped s)) as Hdraft.
    { intros s k Hsc. unfold Copywriting._draft, or_else. rewrite Hsc, Htr. cbn. by rewrite Ht. }
    unfold _RECURSION_LIMIT. cbn [g_entry Copywriting.graph].
    by rewrite (walk_node _ _ _ _ _ _ (eq_refl : assoc "draft" (g_nodes Copywriting.graph) = Some _)),
      Hdraft.
  - assert (exists s, Outreach.init send_ctx = Ok s /\ Outreach.skipped s = true /\
      Outreach.reason s = JStr "lead disqualified") as (s & Hi & Hsk & Hre).
    { unfold Outreach.init, from_research. rewrite H2, Hd. eexists. split; [reflexivity|done]. }
    unfold run_agent, Outreach.OutreachAgent, initial_state. rewrite Hi.
    cbn [of_res to_result build]. unfold mbind, mret, agent_bind, agent_ret. rewrite ainvoke_walk.
    unfold _RECURSION_LIMIT. cbn [g_entry Outreach.graph].
    rewrite (walk_node _ _ _ _ _ _ (eq_refl : assoc "dispatch" (g_nodes (Outreach.graph provider)) = Some _)).
    unfold Outreach._dispatch. by rewrite Hsk, Hre.
Qed.

(** *** What the agents may spend *)

Abbreviation anything := (fun _ => True).

Lemma fair_iter_bind {A} v (f : list json -> A) : fair (l ← py_iter v; Ok (f l)).
Proof. by destruct v. Qed.

Lemma fair_draft_of c v : fair (Copywriting._draft_of c v).
Proof. unfold Copywriting._draft_of. apply fair_bind; [apply fair_iter_bind|done]. Qed.

Lemma fair_redraft k d old : fair (Copywriting.redraft k d old).
Proof. unfold Copywriting.redraft. destruct (truthy _); [|done]. apply fair_bind; [apply fair_draft_of|done]. Qed.

Lemma fair_int_of v : fair (Scoring.int_of v).
Proof. destruct v as [| | |[|[]| |]| | |]; done. Qed.

Lemma fair_calibrate icp margin p : fair (Scoring.calibrate icp margin p).
Proof.
  unfold Scoring.calibrate. apply fair_bind; [apply fair_int_of|intros raw _].
  repeat (apply fair_bind; [apply fair_iter_bind|intros ? _]). done.
Qed.

Lemma fair_from_research ctx key : fair (from_research ctx key).
Proof. apply fair_get. Qed.

Lemma scoring_spends icp margin ctx :
  limited 2 0 (fun r => exists sc rq p, Scoring.calibrate icp margin p = Ok (sc, rq) /\
                 sr_output r = dump_score sc) (run_agent (Scoring.ScoringAgent icp margin) ctx).
Proof.
  eapply (limited_run_agent _ _ _ _ (fun s => exists sc rq p,
    Scoring.calibrate icp margin p = Ok (sc, rq) /\ Scoring.score s = Some sc)).
  - cbn. unfold Scoring.init. eauto using fair_bind, fair_from_research, fair_ok.
  - intros s _. apply (spends_walk_edge _ _ _ (Scoring._score icp) _ (To "calibrate") 2 0 0 0 anything);
      [done..| |].
    + apply spends_then, spends_json.
    + intros s1 _. eapply (spends_walk_edge _ _ _ (Scoring._calibrate icp margin) _ END 0 0 0 0);
        [done..| |intros s2 H; apply spends_walk_end; exact H].
      apply spends_read; [apply fair_calibrate|]. intros [sc rq] Hc.
      apply (spends_bind 0 0 0 0 _ _ anything).
      * destruct rq; [apply spends_review|by apply spends_ret].
      * intros _ _. apply spends_ret. by exists sc, rq, (default ∅ (Scoring.proposal s1)).
  - intros s (sc & rq & p & Hc & Hs). split; [done|]. cbn. unfold Scoring.result. rewrite Hs.
    intros r [= <-]. by exists sc, rq, p.
Qed.

(** A node that asks for JSON and turns the reply into its next state. *)
Lemma spends_parse {A B} system user tier n task (f : json -> res A) (g : A -> B) (Q : B -> Prop) :
  (forall v, fair (f v)) -> (forall a, Q (g a)) ->
  spends 2 0 (v ← ask_json system user tier n task; a ← of_res (f v); mret (g a)) Q.
Proof.
  intros Hf HQ. apply (spends_bind 2 0 0 0 _ _ anything); [apply spends_json|]. intros v _.
  apply spends_read; [apply Hf|]. intros a _. by apply spends_ret.
Qed.

(** What copywriting keeps: drafts exist, and it revised once at most. *)
Record drafted (s : Copywriting.state) : Prop := {
  dr_email : is_Some (Copywriting.email s);
  dr_linkedin : is_Some (Copywriting.linkedin s);
  dr_fresh : Copywriting.skipped s = false;
}.

Lemma spends_draft s :
  Copywriting.skipped s = false -> Copywriting.revisions s = 0%Z -> Copywriting.issues s = None ->
  spends 2 0 (Copywriting._draft s)
    (fun s' => Copywriting.skipped s' = true \/ (drafted s' /\ Copywriting.revisions s' = 0%Z)).
Proof.
  intros H1 H2 H3. unfold Copywriting._draft. apply spends_read; [apply fair_get|intros t _].
  destruct (is_str _ t); [apply spends_free, spends_ret; by left|].
  apply spends_read; [apply fair_get|intros why _].
  apply (spends_bind 2 0 0 0 _ _ anything); [apply spends_json|]. intros v _.
  apply spends_read; [apply fair_draft_of|intros e _].
  apply spends_read; [apply fair_draft_of|intros l _]. apply spends_ret. right.
  split; [|done]. split; [by eexists..|done].
Qed.

Lemma spends_finalize s :
  drafted s -> Copywriting.revisions s = 0%Z ->
  spends 2 0 (Copywriting._finalize s) (fun s' => drafted s' /\
    Copywriting.revisions s' = if bool_decide (default [] (Copywriting.issues s') = []) then 0%Z else 1%Z).
Proof.
  intros [[e He] [l Hl] Hs] Hr. unfold Copywriting._finalize.
  destruct (default [] (Copywriting.issues s)) as [|x xs] eqn:Hi.
  { apply spends_free, spends_ret. rewrite Hi. split; [|done]. split; [by exists e|by exists l|done]. }
  assert (forall key d o (x : OutreachDraft) r, o = Some x ->
    Copywriting.redraft key d o = Ok r -> is_Some r) as Hre.
  { intros key d o y r -> . unfold Copywriting.redraft. destruct (truthy _); [|by intros [= <-]].
    rewrite bind_Ok. intros (? & _ & [= <-]). by eexists. }
  apply (spends_bind 2 0 0 0 _ _ anything); [apply spends_json|]. intros v _.
  apply spends_read; [apply fair_redraft|intros e' He'].
  apply spends_read; [apply fair_redraft|intros l' Hl']. apply spends_ret.
  split; [split; cbn; [exact (Hre _ _ _ _ _ He He')|exact (Hre _ _ _ _ _ Hl Hl')|done]|]. cbn. rewrite Hi, Hr. done.
Qed.

Lemma next_after_draft s :
  next_of Copywriting.graph "draft" s = Ok (if Copywriting.skipped s then END else To "review").
Proof.
  change (next_of Copywriting.graph "draft" s) with
    (match assoc (if Copywriting.skipped s then "skip" else "review")
             [("review", To "review"); ("skip", END)]
     with Some t => Ok t | None => Err (KeyError (if Copywriting.skipped s then "skip" else "review")) end : res target).
  by destruct (Copywriting.skipped s).
Qed.

Lemma copywriting_spends ctx :
  limited 6 0 (fun r => sr_output r = Copywriting.skipped_output \/
    exists p, sr_output r !! "outreach" = Some (JObj (dump_package p)) /\
      revisions p = if bool_decide (quality_issues p = []) then 0%Z else 1%Z)
    (run_agent Copywriting.CopywritingAgent ctx).
Proof.
  set (final := fun s => Copywriting.skipped s = true \/ (drafted s /\
    Copywriting.revisions s = if bool_decide (default [] (Copywriting.issues s) = []) then 0%Z else 1%Z)).
  eapply (limited_run_agent _ _ _ _ final).
  - cbn. unfold Copywriting.init. eauto using fair_bind, fair_from_research, fair_ok.
  - intros s Hi. assert (Copywriting.skipped s = false /\ Copywriting.revisions s = 0%Z /\
      Copywriting.issues s = None) as (H1 & H2 & H3).
    { cbn in Hi. unfold Copywriting.init in Hi. apply bind_Ok in Hi as (? & _ & Hi).
      apply bind_Ok in Hi as (? & _ & [= <-]). done. }
    eapply (spends_walk_step _ _ _ _ _ 2 0 4 0); [done|by apply spends_draft|].
    intros s1 Hs1. change (g_entry _) with "draft". cbn [build Copywriting.CopywritingAgent].
    rewrite next_after_draft. split; [done|].
    destruct Hs1 as [Hsk|[Hd Hr]].
    + rewrite Hsk. intros t [= <-]. apply spends_free, spends_walk_end. by left.
    + destruct Hd as [He Hl Hsk]. rewrite Hsk. intros t [= <-].
      apply (spends_walk_edge _ _ _ Copywriting._review _ (To "finalize") 2 0 2 0
        (fun s => drafted s /\ Copywriting.revisions s = 0%Z)); [done..| |].
      * apply spends_parse; [intros v; apply fair_iter_bind|]. intros i. by split.
      * intros s2 [Hd2 Hr2]. eapply (spends_walk_edge _ _ _ Copywriting._finalize _ END 2 0 0 0);
          [done..|by apply spends_finalize|]. intros s3 Hs3. apply spends_walk_end. by right.
  - intros s [Hsk|[[[e He] [l Hl] Hsk] Hr]]; cbn; unfold Copywriting.result; rewrite Hsk.
    + split; [done|]. intros r [= <-]. by left.
    + rewrite He, Hl. split; [done|]. intros r [= <-]. right. eexists. split; [reflexivity|done].
Qed.

Lemma outreach_spends provider ctx :
  limited 0 2 anything (run_agent (Outreach.OutreachAgent provider) ctx).
Proof.
  eapply (limited_run_agent _ _ _ _ anything).
  - cbn. unfold Outreach.init. repeat (apply fair_bind; [apply fair_get|intros ? _]).
    apply fair_bind; [destruct (truthy _); [apply fair_get|done]|done].
  - intros s _. apply (spends_walk_edge _ _ _ (Outreach._dispatch provider) _ END 0 2 0 0 anything);
      [done..| |intros s' _; by apply spends_walk_end].
    unfold Outreach._dispatch. destruct (_ || _).
    { apply spends_read; [by destruct (Outreach.reason s)|]. intros r _. by apply spends_free, spends_ret. }
    repeat (apply spends_read; [apply fair_get|intros ? _]).
    apply (spends_bind 0 1 0 1 _ _ anything); [apply spends_effect|intros task _].
    repeat (apply spends_read; [apply fair_get|intros ? _]).
    apply (spends_bind 0 1 0 0 _ _ anything); [apply spends_effect|]. intros sent _. by apply spends_ret.
  - intros s _. by split.
Qed.

Section research.
Context {Lx : EventModels.Lax} (tools : ToolRegistry) (lt et : nat).
Hypothesis tools_cost : forall name t ctx args,
  assoc name tools = Some t -> spends lt et (tool_call t ctx args) anything.

Lemma spends_run_tool name ctx args : spends lt et (SalesTools.run_tool tools name ctx args) anything.
Proof.
  apply spends_read; [apply fair_get_tool|]. intros t Ht. unfold get_tool in Ht.
  destruct (assoc name tools) as [t'|] eqn:E; [|done]. assert (t' = t) as -> by congruence. by eapply tools_cost.
Qed.

Lemma fair_as_obj v : fair (as_obj v).
Proof. by destruct v. Qed.

Lemma fair_req {A} (T : EventModels.Ty A) name o : fair (EventModels.req T name o).
Proof.
  unfold EventModels.req. destruct (o !! name) as [j|]; [|done].
  by destruct (EventModels.ty_validate T j).
Qed.
Lemma fair_opt {A} (T : EventModels.Ty A) d name o : fair (EventModels.opt T d name o).
Proof. unfold EventModels.opt. destruct (o !! name); [apply fair_req|done]. Qed.

Lemma fair_dump_lead known : fair (dump_lead known).
Proof.
  unfold dump_lead, redumped. apply fair_bind; [|done]. unfold StateModels.build_model.
  case_bool_decide; [|done]. unfold Lead_model; cbn [StateModels.mo_build].
  repeat (apply fair_bind; [first [apply fair_req|apply fair_opt]|intros ? _]). done.
Qed.

Lemma fair_from_context inputs : fair (Research.from_context inputs).
Proof.
  unfold Research.from_context. apply fair_bind.
  - unfold known_fields. destruct (default _ _); try done; destruct (existsb _ _); try done;
      (apply fair_bind; [apply fair_subscript|done]).
  - intros known _. apply fair_dump_lead.
Qed.

Lemma research_spends ctx :
  limited (2 + (lt + lt)) (et + et) (fun r => exists lead dossier,
      sr_output r !! "lead" = Some (JObj lead) /\ sr_output r !! "dossier" = Some (JObj dossier))
    (run_agent (Research.ResearchAgent tools) ctx).
Proof.
  eapply (limited_run_agent _ _ _ _ anything).
  - cbn. apply fair_bind; [apply fair_from_context|done].
  - intros s _. rewrite (Nat.add_comm 2), <- (Nat.add_0_r (et + et)).
    apply (spends_walk_edge _ _ _ (Research._gather tools ctx) _ (To "synthesize") (lt + lt) (et + et) 2 0
      anything); [done..| |].
    + unfold Research._gather. apply (spends_bind lt et lt et _ _ anything); [apply spends_run_tool|].
      intros c _. rewrite <- (Nat.add_0_r lt), <- (Nat.add_0_r et).
      apply (spends_bind lt et 0 0 _ _ anything); [apply spends_run_tool|]. intros e _.
      repeat (apply spends_read; [apply fair_as_obj|intros ? _]). by apply spends_ret.
    + intros s1 _. apply (spends_walk_edge _ _ _ Research._synthesize _ END 2 0 0 0 anything); [done..| |].
      * apply spends_then, spends_json.
      * intros s2 _. by apply spends_walk_end.
  - intros s _. split; [done|]. intros r [= <-]. cbn. by eexists _, _.
Qed.

End research.
End theorems.

(** The workflow passes validation, whatever its version and approval settings,
    and runs its four steps one after the other. *)
Lemma sales_workflow_valid version approval timeout :
  let d := Workflow.sales_intelligence_workflow version approval timeout in
  _validate_graph d = Ok d /\
  execution_layers d = Ok [["research"]; ["score"]; ["draft_outreach"]; ["send"]].
Proof. split; reflexivity. Qed.

(** ** Samples *)
Module SalesSample.
Import AgentSample.

#[export] Existing Instance CodecSample.lax.

Definition proposal : dict := list_to_map
  [("fit_score", JInt 27); ("disqualifier_hits", JArr [JStr ""]); ("rationale", JStr "small")].
Definition bad_proposal : dict := list_to_map
  [("fit_score", JInt 90); ("disqualifier_hits", JArr [JStr "competitor"])].

Definition with_inputs (inputs : list (string * json)) : StepContext := {|
  sc_instance_id := "i1"; sc_tenant_id := "t1"; sc_step_id := "draft_outreach";
  sc_agent_type := "sales"; sc_attempt := 1; sc_inputs := list_to_map inputs;
  sc_instance_context := ∅; sc_budget := None; sc_replay_llm := []; sc_charges := [];
  sc_effects := []; sc_review := None; sc_llm_index := 0; sc_llm_recordings := [] |}.

Definition tools : ToolRegistry := SalesTools.build_sales_tools None None.

Lemma sales_tools_spend name t ctx args :
  assoc name tools = Some t -> spends 0 0 (tool_call t ctx args) (fun _ => True).
Proof.
  change tools with [("crm_lookup", SalesTools.crm_tool SalesTools._default_crm_lookup);
                     ("web_enrich", SalesTools.web_tool SalesTools._default_web_enrich)].
  cbn [assoc]. repeat case_bool_decide; [intros <-%(inj Some)|intros <-%(inj Some)|done];
    (apply (spends_bind 0 0 0 0 _ _ (fun _ => True));
      [by apply spends_ret|intros d _; by apply spends_ret]).
Qed.
End SalesSample.
Import AgentSample SalesSample.

Lemma calibrate_exact_witness : exists sc rq,
  Scoring.calibrate default_icp 4 proposal = Ok (sc, Some rq) /\ fit_score sc = 27%Z /\
  tier sc = "cold" /\ (0 <= fit_score sc <= 100)%Z /\ disqualifier_hits sc = [].
Proof.
  destruct (Scoring.calibrate default_icp 4 proposal) as [[sc rq]|] eqn:E; [|vm_compute in E; discriminate E].
  destruct (calibrate_exact default_icp 4 proposal sc rq E) as (H1 & _ & _ & _ & H2).
  vm_compute in E. injection E as <- <-. eexists _, _. split; [reflexivity|]. split; [reflexivity|].
  split; [reflexivity|]. split; [exact H1|]. apply H2. by eexists.
Defined.

Definition bad_score : LeadScore := {|
  fit_score := 90; tier := "disqualified"; rationale := ""; matched_criteria := [];
  missing_criteria := []; disqualifier_hits := ["competitor"]; recommended_action := "" |}.

Lemma disqualified_lead_stops_witness :
  Scoring.calibrate default_icp 4 bad_proposal = Ok (bad_score, None) /\
  run_agent Copywriting.CopywritingAgent (with_inputs [("score", JObj (dump_score bad_score))])
    = RReturn {| sr_output := Copywriting.skipped_output; sr_model_used := None |}.
Proof.
  split; [vm_compute; reflexivity|].
  refine (proj1 (disqualified_lead_stops "sales" _
    (with_inputs [("draft_outreach", JObj Copywriting.skipped_output)]) (dump_score bad_score) _ _ _ _ _));
    [exists ∅|exists ∅|..]; vm_compute; reflexivity.
Defined.

