(* ===== verification/Bootstrap.v ===== *)
(** The composition root ([bootstrap.py]): which concrete components the settings wire
    together, and that the driver they make is one the theorems on drivers apply to.

    The SDK clients made from an API key, httpx, the Redis client and the host are
    parameters; the model file is read as [ModelFiles] says. *)

From stdpp Require Import base strings list gmap relations pretty.
From Stdlib Require Import ZArith Lia.
From S2P Require Import Prelude Exceptions Values Text Definitions Tables EventStore Outbox Ports.
From S2P Require Import SideEffects Cost LlmClient LlmProviders Runners Journal Integrations.
From S2P Require Import Driver DriverTheory Leasing Worker Agents CoreAgents Sales SalesAgents.
From S2P Require Import EventCodec ModelFiles Config.

Import Config SideEffects Cost Llm Driver.

(** ** Registries of agents *)

(** [register_base_agents] ([agents/__init__.py]) *)
Definition register_base_agents {Ps : PyStr} {Oj : Orjson} {Lg : LangGraph}
    (tools : option ToolRegistry) (registry : gmap string StepRunner) : gmap string StepRunner :=
  <["reflector_agent" := run_agent Reflector.ReflectorAgent]>
  (<["validator_agent" := run_agent Validator.ValidatorAgent]>
  (<["executor_agent" := run_agent (Executor.ExecutorAgent (default [] tools))]>
  (<["planner_agent" := run_agent Planner.PlannerAgent]> registry))).

Definition build_agent_registry {Ps : PyStr} {Oj : Orjson} {Lg : LangGraph} {Lx : EventModels.Lax}
    : gmap string StepRunner :=
  Workflow.register_sales_intelligence None (Some Models.default_icp) "sales"
    (register_base_agents None default_registry).

(** ** The engine *)

(** What an API key makes of the SDKs, and whether [Redis.from_url] gives a client or
    raises. *)
Class Clients (W : Type) := {
  anthropic_client : string -> Anthropic.Sdk W;
  openai_client : string -> OpenAI.Sdk W;
  redis_from_url : string -> bool;
}.

(** The machine a worker runs on: its name, the process id, [start_http_server] of
    [prometheus_client], and whether a signal can be handled. *)
Class Host := {
  gethostname : string;
  getpid : Z;
  start_http_server : Z -> res unit;
  add_signal_handler : string -> res unit;
}.

Record Engine (W : Type) := {
  en_publisher : EventStore.EventPublisher;
  en_lease_seconds : Z;
  en_stale_after_seconds : Z;
  en_providers : ProviderRegistry W;
  en_llm : ModelRegistry * LLMProviderRegistry W;
  en_registry : gmap string StepRunner;
  en_daily_limit : option float;
  en_notifier : Notification -> M W exn unit;
  en_driver : Wired W;
}.
Arguments en_publisher {W}. Arguments en_lease_seconds {W}. Arguments en_stale_after_seconds {W}.
Arguments en_providers {W}. Arguments en_llm {W}. Arguments en_registry {W}.
Arguments en_daily_limit {W}. Arguments en_notifier {W}. Arguments en_driver {W}.

Section bootstrap.
Context {Ps : PyStr} {Oj : Orjson} {Lg : LangGraph} {Lx : EventModels.Lax} {Fs : Files}.
Context {W : Type} {Hx : Httpx W} {Nc : Noop.NoopCalls W} {Cl : Clients W}.
Context (settings : Settings).

(** [build_provider] ([integrations/llm/__init__.py]) *)
Definition build_provider (name api_key : string) : res (LLMRequest -> M W exn LLMResponse) :=
  if bool_decide (name = "anthropic")
  then Ok (Anthropic.complete (S := anthropic_client api_key))
  else if bool_decide (name = "openai") then Ok (OpenAI.complete (S := openai_client api_key))
  else Err (Exn ConfigurationError ("unknown LLM provider " +:+ py_repr name)).

(** Registering a provider when its key is configured. *)
Definition with_provider (name : string) (api_key : option string) (reg : LLMProviderRegistry W)
    : res (LLMProviderRegistry W) :=
  if truthy_str api_key
  then p ← build_provider name (default "" api_key); Ok (register_llm_provider name p reg)
  else Ok reg.

Definition _build_llm_providers : res (LLMProviderRegistry W) :=
  reg ← with_provider "anthropic" (anthropic_api_key settings) ∅;
  with_provider "openai" (openai_api_key settings) reg.

Definition channels : gmap string string :=
  if truthy_str (n8n_base_url settings)
  then {[ "escalations" := default "" (n8n_base_url settings) +:+ "/webhook/notify-escalations" ]}
  else ∅.

Definition _build_notifier : Notification -> M W exn unit :=
  if bool_decide (channels = ∅) then Notifications.LogNotifier
  else Notifications.MultiNotifier
         [Notifications.LogNotifier; Notifications.WebhookNotifier channels].

(** The registry and the client, as [build_llm] makes them. *)
Definition build_llm : res (ModelRegistry * LLMProviderRegistry W) :=
  models ← from_path (model_registry_path settings);
  providers ← _build_llm_providers;
  Ok (models, providers).

(** [set(settings.n8n_idempotent_effects) or None] *)
Definition exactly_once_effects : option (gset string) :=
  match n8n_idempotent_effects settings with [] => None | l => Some (list_to_set l) end.

Definition default_providers : ProviderRegistry W :=
  let reg := register Noop.NoopActionProvider ∅ in
  if truthy_str (n8n_base_url settings)
  then register (N8n.build_n8n_provider (default "" (n8n_base_url settings)) (n8n_api_key settings)
                   exactly_once_effects) reg
  else reg.

Definition build_engine (registry : option (gmap string StepRunner)) (providers : option (ProviderRegistry W))
    : res (Engine W) :=
  let registry := default (register_base_agents None default_registry) registry in
  let providers := default default_providers providers in
  models ← from_path (model_registry_path settings);
  llm_providers ← _build_llm_providers;
  let limit := Some (org_daily_budget_usd settings) in
  Ok {|
    en_publisher := if @redis_from_url W Cl (redis_url settings)
                    then EventStore.RedisEventPublisher else EventStore.NoopPublisher;
    en_lease_seconds := lease_seconds settings;
    en_stale_after_seconds := recovery_scan_interval_seconds settings * 4;
    en_providers := providers; en_llm := (models, llm_providers); en_registry := registry;
    en_daily_limit := limit; en_notifier := _build_notifier;
    en_driver := {|
      dr_side_effects := Some providers; dr_llm := Some (models, llm_providers);
      dr_registry := registry; dr_budget := Some limit; dr_notifier := true |} |}.

(** What a worker is given beside the leases, the driver and the escalation
    controller ([Worker.__init__] of [worker.py]). *)
Record WorkerOptions := {
  wo_worker_id : string;
  wo_concurrency : Z;
  wo_poll_interval_seconds : Z;
  wo_heartbeat_seconds : Z;
  wo_recovery_interval_seconds : Z;
  wo_escalation_sweep_seconds : Z;
}.

Definition default_worker_id `{Host} : string := gethostname +:+ ":" +:+ pretty getpid.

(** [worker_id or settings.worker_id or default_worker_id()] *)
Definition choose_worker_id `{Host} (worker_id_ : option string) : string :=
  if truthy_str worker_id_ then default "" worker_id_
  else if truthy_str (worker_id settings) then default "" (worker_id settings)
  else default_worker_id.

Definition build_worker `{Host} : WorkerOptions := {|
  wo_worker_id := choose_worker_id None;
  wo_concurrency := max_concurrent_steps_per_worker settings;
  wo_poll_interval_seconds := 1;
  wo_heartbeat_seconds := lease_heartbeat_seconds settings;
  wo_recovery_interval_seconds := recovery_scan_interval_seconds settings;
  wo_escalation_sweep_seconds := 20 |}.

(** The API degrades to no live updates and no rate limits without Redis. *)
Record ApiDeps := { ad_engine : Engine W; ad_redis : bool }.

Definition build_api_deps (engine : option (Engine W)) : res ApiDeps :=
  engine ← match engine with Some e => Ok e | None => build_engine None None end;
  Ok {| ad_engine := engine;
        ad_redis := @redis_from_url W Cl (redis_url settings) |}.
End bootstrap.

(** ** The driver of the built engine *)

Section built.
Context {Ps : PyStr} {Oj : Orjson} {Lg : LangGraph} {Lx : EventModels.Lax} {Fs : Files}.
Context {W : Type} {Ej : EventJournal W} {Jl : JournalLaws W}.
Context {Hx : Httpx W} {Nc : Noop.NoopCalls W} {Cl : Clients W}.

(** Requests over the network and the dry-run list are no part of the journal. *)
Record outside : Prop := {
  out_post url body headers : keeps (http_post (W := W) url body headers);
  out_get url params headers : keeps (http_get (W := W) url params headers);
  out_anthropic key kwargs w : same w (snd (Anthropic.messages_create (Sdk := anthropic_client key) kwargs w));
  out_openai key kwargs w : same w (snd (OpenAI.completions_create (Sdk := openai_client key) kwargs w));
  out_noop req w : same w (Noop.record_call req w);
}.
Context (Hout : outside).

Lemma keeps_post url body headers : moves same (http_post (W := W) url body headers).
Proof. apply Hout. Qed.
Lemma keeps_get url params headers : moves same (http_get (W := W) url params headers).
Proof. apply Hout. Qed.
Hint Resolve keeps_post keeps_get : moves.

Lemma keeps_n8n c : (forall r, keeps (N8n.execute (W := W) c r)) /\
  (forall r, keeps (N8n.reconcile (W := W) c r)) /\
  (forall r x, keeps (N8n.compensate (W := W) c r x)).
Proof.
  unfold keeps, N8n.execute, N8n.reconcile, N8n.compensate. split_and!; intros; walk.
Qed.

Lemma keeps_calling {A B} normalise (m : W -> result sdk_failure A * W) (k : A -> res B) :
  (forall w, same w (snd (m w))) -> keeps (calling normalise m k).
Proof.
  intros Hm w _. unfold calling. specialize (Hm w). destruct (m w) as [[a|e] w']; cbn in *;
    [|by split]. by destruct (k a).
Qed.

Lemma keeps_noop : (forall r, keeps (ap_execute (W := W) Noop.NoopActionProvider r)) /\
  (forall r, keeps (ap_reconcile (W := W) Noop.NoopActionProvider r)) /\
  (forall r x, keeps (ap_compensate (W := W) Noop.NoopActionProvider r x)).
Proof.
  unfold keeps. split_and!; intros; cbn; [|walk..]. apply moves_bind; [apply _| |intros; walk].
  intros w _. cbn. split; [by apply Hout|done].
Qed.

Lemma default_providers_keep settings name p :
  default_providers (W := W) settings !! name = Some p ->
  (forall r, keeps (ap_execute p r)) /\ (forall r, keeps (ap_reconcile p r)) /\
  (forall r x, keeps (ap_compensate p r x)).
Proof.
  unfold default_providers, register. destruct (truthy_str _).
  - intros [[_ <-]|[_ [[_ <-]|[_ Hp]]%lookup_insert_Some]]%lookup_insert_Some;
      [apply keeps_n8n|apply keeps_noop|done].
  - intros [[_ <-]|[_ Hp]]%lookup_insert_Some; [apply keeps_noop|done].
Qed.

Lemma with_provider_keeps name key reg reg' :
  (forall n p, reg !! n = Some p -> forall r, keeps (W := W) (p r)) ->
  with_provider name key reg = Ok reg' ->
  forall n p, reg' !! n = Some p -> forall r, keeps (p r).
Proof.
  intros Hreg. unfold with_provider, build_provider, register_llm_provider. destruct (truthy_str key); [|by intros [= <-]].
  assert (Hins : forall q, (forall r, keeps (q r)) -> (Ok (<[name := q]> reg) : res _) = Ok reg' ->
    forall n p, reg' !! n = Some p -> forall r, keeps (p r)).
  { intros q Hq [= <-] n p [[_ <-]|[_ Hp]]%lookup_insert_Some; [done|by eapply Hreg]. }
  destruct (bool_decide (name = "anthropic")), (bool_decide (name = "openai"));
    try (apply Hins; intros r; apply keeps_calling, Hout); done.
Qed.

(** The engine that [build_engine] wires with its default providers is one the
    theorems on drivers speak of: for every configuration with which it is built,
    with whatever agents, none of its action providers and none of its LLM
    providers touches the journal, as long as requests over the network do not.  It
    always has a guard for effects, a model registry and a daily limit; its models
    are those of the configured file; and its LLM providers are registered exactly
    for the configured keys. *)
Theorem built_engine_framed settings registry engine :
  build_engine settings registry None = Ok engine ->
  wired_frame (en_driver engine) /\
  dr_side_effects (en_driver engine) = Some (en_providers engine) /\
  dr_llm (en_driver engine) = Some (en_llm engine) /\
  Ok (en_llm engine).1 = from_path (model_registry_path settings) /\
  dr_budget (en_driver engine) = Some (Some (org_daily_budget_usd settings)) /\
  (forall name, is_Some ((en_llm engine).2 !! name) <->
     name = "anthropic" /\ truthy_str (anthropic_api_key settings) = true \/
     name = "openai" /\ truthy_str (openai_api_key settings) = true).
Proof.
  unfold build_engine. intros Hb.
  apply bind_Ok in Hb as (models & Hm & Hb). apply bind_Ok in Hb as (llms & Hl & [= <-]). cbn.
  unfold _build_llm_providers in Hl. apply bind_Ok in Hl as (reg & H1 & H2).
  split_and!; try done.
  - split; cbn.
    + intros reg0 name p [= <-]. apply default_providers_keep.
    + intros models0 llms0 name p [= <- <-] Hp.
      eapply with_provider_keeps; [|exact H2|exact Hp].
      eapply with_provider_keeps; [|exact H1]. intros n q. by rewrite lookup_empty.
  - intros name. unfold with_provider, build_provider, register_llm_provider in H1, H2.
    destruct (truthy_str (anthropic_api_key settings)), (truthy_str (openai_api_key settings));
      cbn in H1, H2; injection H1 as <-; injection H2 as <-;
      rewrite ?lookup_insert_is_Some, ?lookup_empty; unfold is_Some; naive_solver.
Qed.
End built.

(** ** The notifier of the built engine *)

(** Metadata whose keys are not the logger's own. *)
Definition loggable (note : Notification) : Prop :=
  Forall (fun k => no_metadata note !! k = None) Notifications.taken.

Section notifier.
Context {W : Type} {Hx : Httpx W}.

Lemma log_notifier_ok note (w : W) : loggable note -> Notifications.LogNotifier note w = (Ok tt, w).
Proof.
  intros Hl. unfold Notifications.LogNotifier. rewrite (filter_all_false _ Notifications.taken); [done|].
  intros k Hk. unfold loggable in Hl. rewrite Forall_forall in Hl. rewrite Hl by done. by intros [? ?].
Qed.

Lemma multi_notifier_raises ns note (w : W) e :
  fst (Notifications.MultiNotifier ns note w) = Err e -> is_Exception e = false.
Proof.
  revert w. induction ns as [|n ns IH]; intros w; [done|]. cbn [Notifications.MultiNotifier].
  unfold mbind, M_bind, try_except, try_catch. destruct (n note w) as [[[]|x] w1]; [apply IH|].
  destruct (is_Exception x) eqn:Hx'; [apply IH|]. by intros [= <-].
Qed.

(** The notifier [build_engine] wires is best effort, and reaches n8n when it is
    configured.  For a notification whose metadata uses none of the logger's own
    keywords it raises nothing but a cancellation; without an n8n base URL it does
    nothing to the world, and with one an escalation is POSTed, as JSON, to n8n's
    notification webhook, and that is all that happens. *)
Theorem built_notifier_delivers settings note (w : W) :
  loggable note ->
  (forall e, fst (_build_notifier settings note w) = Err e -> is_Exception e = false) /\
  (truthy_str (n8n_base_url settings) = false -> _build_notifier settings note w = (Ok tt, w)) /\
  (truthy_str (n8n_base_url settings) = true -> no_channel note = "escalations" ->
     snd (_build_notifier settings note w)
     = snd (http_post (default "" (n8n_base_url settings) +:+ "/webhook/notify-escalations")
              (Notifications.note_json note) ∅ w)).
Proof.
  intros Hl. unfold _build_notifier, channels. destruct (truthy_str (n8n_base_url settings)).
  - rewrite bool_decide_eq_false_2 by (by apply map_non_empty_singleton).
    split; [apply multi_notifier_raises|]. split; [done|]. intros _ Hc.
    cbn [Notifications.MultiNotifier]. unfold mbind, M_bind, try_except, try_catch.
    rewrite log_notifier_ok by done. unfold Notifications.WebhookNotifier.
    rewrite Hc, lookup_singleton_eq. unfold try_except, try_catch, mbind, M_bind, lift.
    destruct (http_post _ _ _ w) as [[r|e] w1]; cbn.
    + destruct (rs_raise_for_status r) as [[]|e]; cbn; [done|].
      destruct (is_Exception e) eqn:He; cbn; [done|by rewrite He].
    + destruct (is_Exception e) eqn:He; cbn; [done|by rewrite He].
  - rewrite bool_decide_eq_true_2 by done. rewrite log_notifier_ok by done. split_and!; done.
Qed.
End notifier.
