(* ===== verification/Runtime.v ===== *)
(** The process around the HTTP application and the worker: the lazily created
    database engine and session factory ([db.py]), the shared Redis client
    ([redis_client.py]), the application factory with its lifespan ([api/app.py]),
    and the [worker] command ([cli.py]).

    SQLAlchemy and redis-py are parameters: clients are numbers in the order they
    are made, and making or closing one may raise. *)

From stdpp Require Import base strings list gmap.
From Stdlib Require Import ZArith Lia.
From S2P Require Import Prelude Exceptions Values Tables EventStore Runners Journal Integrations.
From S2P Require Import Cost LlmClient LlmProviders Evals Agents CoreAgents Sales SalesAgents Config.
From S2P Require Import EventCodec Digests Outbox Ports ModelFiles Cli.
From S2P Require Import Observability Bootstrap.

Import Config.

(** ** Process-wide clients *)

Record Process := {
  pc_engine : option nat;
  pc_sessionmaker : option nat;
  pc_redis : option nat;
  pc_engines_made : nat;
  pc_redis_made : nat;
  pc_disposed : list nat;
  pc_closed : list nat;
  pc_observability : option (string * Logging.renderer) * Tracing.state;
}.

(** A process that has just started. *)
Definition booted : Process := {|
  pc_engine := None; pc_sessionmaker := None; pc_redis := None; pc_engines_made := 0;
  pc_redis_made := 0; pc_disposed := []; pc_closed := [];
  pc_observability := (None, Tracing.fresh) |}.

Definition set_engine (e : option nat) (p : Process) : Process := {|
  pc_engine := e; pc_sessionmaker := pc_sessionmaker p; pc_redis := pc_redis p;
  pc_engines_made := pc_engines_made p; pc_redis_made := pc_redis_made p;
  pc_disposed := pc_disposed p; pc_closed := pc_closed p;
  pc_observability := pc_observability p |}.
Definition set_sessionmaker (s : option nat) (p : Process) : Process := {|
  pc_engine := pc_engine p; pc_sessionmaker := s; pc_redis := pc_redis p;
  pc_engines_made := pc_engines_made p; pc_redis_made := pc_redis_made p;
  pc_disposed := pc_disposed p; pc_closed := pc_closed p;
  pc_observability := pc_observability p |}.
Definition set_redis (r : option nat) (p : Process) : Process := {|
  pc_engine := pc_engine p; pc_sessionmaker := pc_sessionmaker p; pc_redis := r;
  pc_engines_made := pc_engines_made p; pc_redis_made := pc_redis_made p;
  pc_disposed := pc_disposed p; pc_closed := pc_closed p;
  pc_observability := pc_observability p |}.
Definition make_engine (p : Process) : Process := {|
  pc_engine := pc_engine p; pc_sessionmaker := pc_sessionmaker p; pc_redis := pc_redis p;
  pc_engines_made := S (pc_engines_made p); pc_redis_made := pc_redis_made p;
  pc_disposed := pc_disposed p; pc_closed := pc_closed p;
  pc_observability := pc_observability p |}.
Definition make_redis (p : Process) : Process := {|
  pc_engine := pc_engine p; pc_sessionmaker := pc_sessionmaker p; pc_redis := pc_redis p;
  pc_engines_made := pc_engines_made p; pc_redis_made := S (pc_redis_made p);
  pc_disposed := pc_disposed p; pc_closed := pc_closed p;
  pc_observability := pc_observability p |}.
Definition mark_disposed (e : nat) (p : Process) : Process := {|
  pc_engine := pc_engine p; pc_sessionmaker := pc_sessionmaker p; pc_redis := pc_redis p;
  pc_engines_made := pc_engines_made p; pc_redis_made := pc_redis_made p;
  pc_disposed := e :: pc_disposed p; pc_closed := pc_closed p;
  pc_observability := pc_observability p |}.
Definition mark_closed (r : nat) (p : Process) : Process := {|
  pc_engine := pc_engine p; pc_sessionmaker := pc_sessionmaker p; pc_redis := pc_redis p;
  pc_engines_made := pc_engines_made p; pc_redis_made := pc_redis_made p;
  pc_disposed := pc_disposed p; pc_closed := r :: pc_closed p;
  pc_observability := pc_observability p |}.
Definition observe_with (settings : Settings) (p : Process) : Process := {|
  pc_engine := pc_engine p; pc_sessionmaker := pc_sessionmaker p; pc_redis := pc_redis p;
  pc_engines_made := pc_engines_made p; pc_redis_made := pc_redis_made p;
  pc_disposed := pc_disposed p; pc_closed := pc_closed p;
  pc_observability := Logging.configure_observability settings (pc_observability p) |}.

(** [create_async_engine], [AsyncEngine.dispose] and [Redis.aclose]. *)
Class Pools := {
  create_async_engine : string -> res unit;
  engine_dispose : nat -> res unit;
  redis_aclose : nat -> res unit;
}.

Section runtime.
Context {Ps : PyStr} {Oj : Orjson} {Lg : LangGraph} {Lx : EventModels.Lax} {Fs : Files}.
Context {W : Type} {Hx : Httpx W} {Nc : Noop.NoopCalls W} {Cl : Clients W} {Po : Pools}.
Context (settings : Settings).

Abbreviation D := (M Process exn).

Definition modify (f : Process -> Process) : D unit := fun p => (Ok tt, f p).

(** *** [db.py] *)

Definition get_engine : D nat :=
  cached ← gets pc_engine;
  match cached with
  | Some e => mret e
  | None =>
      _ ← lift (create_async_engine (database_url settings));
      e ← gets pc_engines_made;
      _ ← modify (fun p => set_engine (Some e) (make_engine p));
      mret e
  end.

(** A session factory is known by the engine it is bound to. *)
Definition get_sessionmaker : D nat :=
  cached ← gets pc_sessionmaker;
  match cached with
  | Some s => mret s
  | None => e ← get_engine; _ ← modify (set_sessionmaker (Some e)); mret e
  end.

(** A session on the database the factory connects to: committed on success, rolled
    back on an exception. *)
Definition session_scope `{Codec} {A} (body : M DB exn A) : M (Process * DB) exn A :=
  _ ← (on_fst get_sessionmaker : M (Process * DB) exn nat);
  (fun w => let '(r, db) := transaction body (snd w) in (r, (fst w, db))) : M (Process * DB) exn A.

Definition dispose_engine : D unit :=
  cached ← gets pc_engine;
  _ ← match cached with
      | Some e => _ ← lift (engine_dispose e); modify (mark_disposed e)
      | None => mret tt
      end;
  modify (fun p => set_sessionmaker None (set_engine None p)).

(** *** [redis_client.py] *)

Definition get_redis : D nat :=
  cached ← gets pc_redis;
  match cached with
  | Some r => mret r
  | None =>
      if @redis_from_url W Cl (redis_url settings)
      then r ← gets pc_redis_made;
           _ ← modify (fun p => set_redis (Some r) (make_redis p));
           mret r
      else raise (Exn (PyExc "ValueError") "invalid Redis URL")
  end.

Definition close_redis : D unit :=
  cached ← gets pc_redis;
  _ ← match cached with
      | Some r => _ ← lift (redis_aclose r); modify (mark_closed r)
      | None => mret tt
      end;
  modify (set_redis None).

(** *** Composition *)

(** The dependencies of the API: the session factory and the Redis client they were
    built on, and what the settings wire. *)
Record Deps := {
  de_sessionmaker : nat;
  de_redis : option nat;
  de_wiring : ApiDeps (W := W);
}.

(** [get_redis()] inside [try: ... except Exception:] *)
Definition try_redis : D (option nat) :=
  r ← observe get_redis;
  match r with
  | Ok r => mret (Some r)
  | Err e => if is_Exception e then mret None else raise e
  end.

(** The clients [build_engine] asks for, and when it may fail. *)
Definition wire_engine : D (Engine W) :=
  _ ← get_sessionmaker;
  engine ← lift (build_engine settings None None);
  _ ← try_redis;
  mret engine.

(** [build_api_deps()] *)
Definition wire_api_deps : D Deps :=
  engine ← wire_engine;
  sm ← get_sessionmaker;
  redis ← try_redis;
  mret {| de_sessionmaker := sm; de_redis := redis;
          de_wiring := {| ad_engine := engine; ad_redis := bool_decide (is_Some redis) |} |}.

(** ** The application ([api/app.py]) *)

(** [app.state] and what the factory installed. *)
Record App := {
  app_deps : option Deps;
  app_owns_deps : bool;
  app_cors : option (list string);
  app_routers : list string;
}.

Definition create_app (deps : option Deps) : App := {|
  app_deps := deps;
  app_owns_deps := false;
  app_cors := match cors_allow_origins settings with [] => None | origins => Some origins end;
  app_routers :=
    ["workflows"; "instances"; "escalations"; "dead_letters"; "webhooks"; "system"] |}.

Definition own_deps (d : Deps) (a : App) : App := {|
  app_deps := Some d; app_owns_deps := true; app_cors := app_cors a; app_routers := app_routers a |}.

(** [_lifespan] up to its [yield] ... *)
Definition startup : M (Process * App) exn unit :=
  _ ← on_fst (modify (observe_with settings));
  deps ← gets (fun w : Process * App => app_deps (snd w));
  match deps with
  | Some _ => mret tt
  | None =>
      d ← on_fst wire_api_deps;
      (fun w => (Ok tt, (fst w, own_deps d (snd w)))) : M (Process * App) exn unit
  end.

(** ... and after it. *)
Definition shutdown : M (Process * App) exn unit :=
  owns ← gets (fun w : Process * App => app_owns_deps (snd w));
  if (owns : bool) then _ ← on_fst dispose_engine; on_fst close_redis else mret tt.

Definition _lifespan (serve : M (Process * App) exn unit) : M (Process * App) exn unit :=
  _ ← startup; _ ← serve; shutdown.

(** *** The [worker] command ([cli.py], [worker.py]) *)
Section commands.
Context {Ho : Host}.

(** [OSError] and the built-in classes below it. *)
Definition OS_ERRORS : list string :=
  ["OSError"; "BlockingIOError"; "ChildProcessError"; "ConnectionError"; "BrokenPipeError";
   "ConnectionAbortedError"; "ConnectionRefusedError"; "ConnectionResetError"; "FileExistsError";
   "FileNotFoundError"; "InterruptedError"; "IsADirectoryError"; "NotADirectoryError";
   "PermissionError"; "ProcessLookupError"; "TimeoutError"].

(** A port that cannot be bound is only logged. *)
Definition _start_metrics_server : res unit :=
  let port := worker_metrics_port settings in
  if (port <=? 0)%Z then Ok tt
  else match start_http_server port with
       | Err e => if bool_decide (class_name (exn_cls e) ∈ OS_ERRORS) then Ok tt else Err e
       | Ok _ => Ok tt
       end.

(** The signals that will stop the worker. *)
Definition install_signal_handlers : res (list string) :=
  foldM (fun handled sig =>
    match add_signal_handler sig with
    | Ok _ => Ok (handled ++ [sig])
    | Err e => if bool_decide (class_name (exn_cls e) = "NotImplementedError")
               then Ok handled else Err e
    end) [] ["SIGINT"; "SIGTERM"].

(** How [Worker.run] begins: the background loops it starts. *)
Definition run_start (escalations : bool) : D (list string) :=
  _ ← modify (observe_with settings);
  _ ← lift _start_metrics_server;
  mret (["heartbeat"; "recovery"] ++ if escalations then ["escalation-sweep"] else []).

(** The engine is disposed however the worker ends. *)
Definition worker_main (run : Engine W -> WorkerOptions -> D unit) : D unit :=
  engine ← wire_engine;
  _ ← lift install_signal_handlers;
  (fun p =>
    let '(r, p1) := run engine (build_worker settings) p in
    let '(f, p2) := dispose_engine p1 in
    (match f with Err e => Err e | Ok _ => r end, p2)) : D unit.
End commands.

(** *** The [eval] command *)
Section eval.
Context {Hh : Hashing} {Et : EvalText} {Os : OutboxStore W} {Ck : Clock W} {Dk : Disk W}.

(** What has been printed, beside the world. *)
Abbreviation Out := (Process * (W * list string))%type.

Definition echo (line : string) : M (W * list string) exn unit := fun w =>
  (Ok tt, (fst w, snd w ++ [line])).
Definition on_snd {A B R} (m : M B exn R) : M (A * B) exn R := fun w =>
  let '(r, b) := m (snd w) in (r, (fst w, b)).

(** The command up to [typer.Exit], whose code it returns. *)
Definition eval_main (suite json_out : string) (threshold : float) : M Out exn Z :=
  _ ← on_fst (modify (observe_with settings));
  on_snd (
    spec ← lift (load_suite suite);
    let spec := if fleb fzero threshold then Cli.with_threshold threshold spec else spec in
    llm ← lift (build_llm settings);
    let runner := {| er_registry := build_agent_registry; er_llm := llm; er_judge := None;
                     er_judge_tier := "standard" |} in
    report ← on_fst (run_suite runner spec);
    _ ← echo (Cli.render_text report);
    _ ← (if bool_decide (json_out = "") then mret tt else on_fst (write_json report json_out));
    mret (if rp_passed report then 0 else 1)%Z).
End eval.
End runtime.

(** ** One engine, one Redis client *)

(** Every client made is the cached one or has been closed, and the session factory is
    bound to the cached engine. *)
Record accounted (p : Process) : Prop := {
  ac_made e : e < pc_engines_made p <-> e ∈ pc_disposed p \/ pc_engine p = Some e;
  ac_open e : pc_engine p = Some e -> e ∉ pc_disposed p;
  ac_bound s : pc_sessionmaker p = Some s -> pc_engine p = Some s;
  ac_redis_made r : r < pc_redis_made p <-> r ∈ pc_closed p \/ pc_redis p = Some r;
  ac_redis_open r : pc_redis p = Some r -> r ∉ pc_closed p;
}.

Lemma booted_accounted : accounted booted.
Proof.
  constructor; cbn; try done; intros e; (split; [lia|]); by intros [?%not_elem_of_nil|?].
Qed.

Section accounting.
Context {Ps : PyStr} {Oj : Orjson} {Lg : LangGraph} {Lx : EventModels.Lax} {Fs : Files}.
Context {W : Type} {Hx : Httpx W} {Nc : Noop.NoopCalls W} {Cl : Clients W} {Po : Pools}.
Context (settings : Settings).

Lemma get_engine_spec p : accounted p ->
  match get_engine settings p with
  | (Ok e, p') => accounted p' /\ pc_engine p' = Some e /\ pc_redis p' = pc_redis p /\
                  (pc_sessionmaker p' = pc_sessionmaker p)
  | (Err _, p') => p' = p
  end.
Proof.
  intros Hp. unfold get_engine, gets, lift, modify, mbind, M_bind. cbn.
  destruct (pc_engine p) as [e|] eqn:E; cbn; [done|].
  destruct (create_async_engine _) as [[]|x]; cbn; [|done]. split; [|done].
  destruct Hp as [H1 H2 H3 H4 H5]. rewrite E in H1. constructor; cbn; try done.
  - intros e. split.
    + intros He. destruct (decide (e = pc_engines_made p)) as [->|Hne]; [by right|].
      left. assert (e < pc_engines_made p) as Hlt by lia. by apply H1 in Hlt as [?|[=]].
    + intros [He|[= <-]]; [|lia]. assert (e < pc_engines_made p) by (apply H1; by left). lia.
  - intros e [= <-] He. assert (pc_engines_made p < pc_engines_made p) by (apply H1; by left). lia.
  - intros s Hs. specialize (H3 s Hs). by rewrite E in H3.
Qed.

Lemma get_sessionmaker_spec p : accounted p ->
  match get_sessionmaker settings p with
  | (Ok s, p') => accounted p' /\ pc_sessionmaker p' = Some s /\ pc_redis p' = pc_redis p
  | (Err _, p') => p' = p
  end.
Proof.
  intros Hp. unfold get_sessionmaker, gets. unfold mbind at 1, M_bind at 1.
  destruct (pc_sessionmaker p) as [s|] eqn:E; [done|]. pose proof (get_engine_spec p Hp) as He.
  unfold mbind at 1, M_bind at 1. destruct (get_engine settings p) as [[e|x] p1]; [|done].
  destruct He as ([H1 H2 H3 H4 H5] & He & Hr & _). cbn. split; [|done].
  constructor; cbn; [done..| |done|done]. by intros s [= <-].
Qed.

Lemma get_redis_spec p : accounted p ->
  match get_redis (Cl := Cl) settings p with
  | (Ok r, p') => accounted p' /\ pc_redis p' = Some r /\ pc_sessionmaker p' = pc_sessionmaker p
  | (Err e, p') => p' = p /\ is_Exception e = true /\ pc_redis p = None
  end.
Proof.
  intros Hp. unfold get_redis, gets, modify. unfold mbind at 1, M_bind at 1.
  destruct (pc_redis p) as [r|] eqn:E; [done|]. destruct (redis_from_url _); [|done]. cbn.
  split; [|done]. destruct Hp as [H1 H2 H3 H4 H5]. rewrite E in H4. constructor; cbn; try done.
  - intros r. split.
    + intros Hr. destruct (decide (r = pc_redis_made p)) as [->|Hne]; [by right|].
      left. assert (r < pc_redis_made p) as Hlt by lia. by apply H4 in Hlt as [?|[=]].
    + intros [Hr|[= <-]]; [|lia]. assert (r < pc_redis_made p) by (apply H4; by left). lia.
  - intros r [= <-] Hr. assert (pc_redis_made p < pc_redis_made p) by (apply H4; by left). lia.
Qed.

Lemma dispose_engine_spec p : accounted p ->
  match dispose_engine p with
  | (Ok _, p') => accounted p' /\ pc_engine p' = None /\ pc_sessionmaker p' = None /\
                  pc_redis p' = pc_redis p
  | (Err _, p') => p' = p
  end.
Proof.
  intros [H1 H2 H3 H4 H5]. unfold dispose_engine, gets, modify, lift, mbind, M_bind.
  destruct (pc_engine p) as [e|] eqn:E; cbn.
  - destruct (engine_dispose e) as [[]|x]; cbn; [|done]. split; [|done].
    constructor; cbn; try done. intros e'. rewrite H1, elem_of_cons. naive_solver.
  - split; [|done]. constructor; cbn; try done.
Qed.

Lemma close_redis_spec p : accounted p ->
  match close_redis p with
  | (Ok _, p') => accounted p' /\ pc_redis p' = None /\ pc_engine p' = pc_engine p
  | (Err _, p') => p' = p
  end.
Proof.
  intros [H1 H2 H3 H4 H5]. unfold close_redis, gets, modify, lift, mbind, M_bind.
  destruct (pc_redis p) as [r|] eqn:E; cbn.
  - destruct (redis_aclose r) as [[]|x]; cbn; [|done]. split; [|done].
    constructor; cbn; try done. intros r'. rewrite H4, elem_of_cons. naive_solver.
  - split; [|done]. constructor; cbn; try done.
Qed.

(** Asking for Redis where its absence is tolerated. *)
Lemma try_redis_spec p : accounted p ->
  exists r p', try_redis (Cl := Cl) settings p = (Ok r, p') /\ accounted p' /\ pc_redis p' = r /\
    pc_sessionmaker p' = pc_sessionmaker p.
Proof.
  intros Hp. pose proof (get_redis_spec p Hp) as Hr. unfold try_redis, observe.
  unfold mbind at 1, M_bind at 1. destruct (get_redis settings p) as [[r|e] p1]; cbn.
  - destruct Hr as (H1 & H2 & H3). by exists (Some r), p1.
  - destruct Hr as (-> & -> & H). by exists None, p.
Qed.

Lemma wire_engine_spec p : accounted p ->
  match wire_engine settings p with
  | (Ok _, p') => accounted p' /\ is_Some (pc_sessionmaker p')
  | (Err _, p') => accounted p'
  end.
Proof.
  intros Hp. unfold wire_engine. pose proof (get_sessionmaker_spec p Hp) as Hs.
  unfold mbind at 1, M_bind at 1. destruct (get_sessionmaker settings p) as [[s|x] p1]; [|by subst].
  destruct Hs as (H1 & H2 & _). unfold mbind at 1, M_bind at 1, lift.
  destruct (build_engine settings None None) as [en|x]; [|done].
  destruct (try_redis_spec p1 H1) as (r & p2 & E & H3 & _ & H4).
  rewrite (M_bind_step _ _ _ _ _ E). cbn. split; [done|]. rewrite H4, H2. by exists s.
Qed.

Lemma wire_api_deps_spec p : accounted p ->
  match wire_api_deps settings p with
  | (Ok d, p') => accounted p' /\ pc_sessionmaker p' = Some (de_sessionmaker d) /\
                  pc_redis p' = de_redis d
  | (Err _, p') => accounted p'
  end.
Proof.
  intros Hp. unfold wire_api_deps. pose proof (wire_engine_spec p Hp) as Hw.
  unfold mbind at 1, M_bind at 1. destruct (wire_engine settings p) as [[en|x] p1]; [|done].
  destruct Hw as [H1 _]. pose proof (get_sessionmaker_spec p1 H1) as Hs.
  unfold mbind at 1, M_bind at 1. destruct (get_sessionmaker settings p1) as [[s|x] p2]; [|by subst].
  destruct Hs as (H2 & H3 & _). destruct (try_redis_spec p2 H2) as (r & p3 & E & H4 & H5 & H6).
  rewrite (M_bind_step _ _ _ _ _ E). cbn. by rewrite H6, H3.
Qed.

(** ** Lifespans *)

(** Nothing is cached, and every client ever made has been closed. *)
Definition all_closed (p : Process) : Prop :=
  pc_engine p = None /\ pc_sessionmaker p = None /\ pc_redis p = None /\
  (forall e, e < pc_engines_made p -> e ∈ pc_disposed p) /\
  (forall r, r < pc_redis_made p -> r ∈ pc_closed p).

(** Closing works. *)
Definition closers : Prop :=
  (forall e, engine_dispose e = Ok tt) /\ (forall r, redis_aclose r = Ok tt).

Lemma shutdown_owned p (a : App (W := W)) :
  closers -> accounted p -> app_owns_deps a = true ->
  exists p', shutdown (p, a) = (Ok tt, (p', a)) /\ accounted p' /\ all_closed p' /\
    (forall e, pc_engine p = Some e -> e ∈ pc_disposed p') /\
    (forall r, pc_redis p = Some r -> r ∈ pc_closed p') /\
    (pc_engine p = None -> pc_disposed p' = pc_disposed p) /\
    (pc_redis p = None -> pc_closed p' = pc_closed p).
Proof.
  intros [Hc1 Hc2] Hp Ha. unfold shutdown, gets. unfold mbind at 1, M_bind at 1. cbn [snd].
  rewrite Ha. destruct Hp as [H1 H2 H3 H4 H5].
  unfold on_fst, dispose_engine, close_redis, gets, modify, lift, mbind, M_bind. cbn.
  destruct (pc_engine p) as [e|] eqn:Ee, (pc_redis p) as [r|] eqn:Er; cbn; rewrite ?Hc1; cbn;
    rewrite ?Er; cbn; rewrite ?Hc2; cbn; eexists; (split; [reflexivity|]);
    (split; [constructor; cbn; try done; intros x; rewrite ?H1, ?H4, ?elem_of_cons; naive_solver|]);
    cbn; (split; [unfold all_closed; cbn; split_and!; try done; intros x Hlt;
      rewrite ?elem_of_cons; first [apply H1 in Hlt|apply H4 in Hlt]; naive_solver|]);
    split_and!; try done; intros x [= <-]; left.
Qed.

Lemma observe_accounted p : accounted p -> accounted (observe_with settings p).
Proof. by intros [H1 H2 H3 H4 H5]. Qed.

(** Serving requests uses the dependencies and leaves the process and them alone. *)
Abbreviation served := (mret tt : M (Process * App (W := W)) exn unit).

Lemma startup_own p :
  accounted p ->
  match startup settings (p, create_app (W := W) settings None) with
  | (Ok _, (p', a')) => accounted p' /\ app_owns_deps a' = true /\
      exists d, app_deps a' = Some d /\ pc_engine p' = Some (de_sessionmaker d) /\
        pc_redis p' = de_redis d
  | (Err _, (p', a')) => accounted p' /\ a' = create_app settings None
  end.
Proof.
  intros Hp. unfold startup, on_fst, modify, gets. unfold mbind at 1, M_bind at 1. cbn [fst snd].
  unfold mbind at 1, M_bind at 1. cbn [snd create_app app_deps].
  pose proof (wire_api_deps_spec _ (observe_accounted p Hp)) as Hw.
  unfold mbind, M_bind. cbn [fst]. destruct (wire_api_deps settings _) as [[d|x] p1]; cbn; [|done].
  destruct Hw as (H1 & H2 & H3). split; [done|]. split; [done|]. exists d.
  split_and!; [done|by apply (ac_bound _ H1)|done].
Qed.

Lemma startup_given p (a : App (W := W)) d :
  app_deps a = Some d -> startup settings (p, a) = (Ok tt, (observe_with settings p, a)).
Proof.
  intros Ha. unfold startup, on_fst, modify, gets. unfold mbind, M_bind. cbn. by rewrite Ha.
Qed.

(** The lifespan of an application cleans up after itself.  In a process whose clients
    are accounted for, if closing works, then when the lifespan of an application
    that builds its own dependencies ends, no engine and no Redis client is cached
    and every one ever made has been closed; an application that was given its
    dependencies closes nothing. *)
Theorem lifespan_cleans_up p :
  closers -> accounted p ->
  (forall p' a', _lifespan settings served (p, create_app settings None) = (Ok tt, (p', a')) ->
     all_closed p') /\
  (forall d, _lifespan settings served (p, create_app settings (Some d))
     = (Ok tt, (observe_with settings p, create_app settings (Some d)))).
Proof.
  intros Hc Hp. split.
  - intros p' a'. unfold _lifespan. unfold mbind at 1, M_bind at 1.
    pose proof (startup_own p Hp) as Hs. destruct (startup _ _) as [[[]|x] [p1 a1]]; [|done].
    destruct Hs as (H1 & Ho & _). destruct (shutdown_owned p1 a1 Hc H1 Ho) as (p2 & E & _ & H2 & _).
    unfold mbind, M_bind. cbn. rewrite E. by intros [= <- _].
  - intros d. unfold _lifespan. by rewrite (M_bind_step _ _ _ _ _ (startup_given p (create_app settings (Some d)) d eq_refl)).
Qed.

(** A second lifespan of the same application runs on what the first one closed.  The
    first leaves its dependencies on [app.state]; the second finds them there, builds
    nothing, and serves with the session factory of a disposed engine and a closed
    Redis client, while the process has neither; and its shutdown closes nothing. *)
Theorem second_lifespan_runs_on_closed_clients p p1 a1 :
  closers -> accounted p ->
  _lifespan settings served (p, create_app settings None) = (Ok tt, (p1, a1)) ->
  exists d, app_deps a1 = Some d /\ de_sessionmaker d ∈ pc_disposed p1 /\
    (forall r, de_redis d = Some r -> r ∈ pc_closed p1) /\
    startup settings (p1, a1) = (Ok tt, (observe_with settings p1, a1)) /\
    pc_engine (observe_with settings p1) = None /\ pc_redis (observe_with settings p1) = None /\
    exists p2, _lifespan settings served (p1, a1) = (Ok tt, (p2, a1)) /\
      pc_disposed p2 = pc_disposed p1 /\ pc_closed p2 = pc_closed p1.
Proof.
  intros Hc Hp. unfold _lifespan at 1. unfold mbind at 1, M_bind at 1.
  pose proof (startup_own p Hp) as Hs. destruct (startup _ _) as [[[]|x] [p' a']]; [|done].
  destruct Hs as (H1 & Ho & d & Hd & He & Hr).
  destruct (shutdown_owned p' a' Hc H1 Ho) as (q & E & Hq & (Q1 & Q2 & Q3 & _) & Q4 & Q5 & _).
  unfold mbind at 1, M_bind at 1. cbn [mret M_ret]. rewrite E. intros [= <- <-].
  exists d. split; [done|]. split; [by apply Q4|].
  split; [intros r Hdr; apply Q5; by rewrite Hr|].
  split; [by eapply startup_given|]. split; [done|]. split; [done|].
  destruct (shutdown_owned (observe_with settings q) a' Hc (observe_accounted q Hq) Ho)
    as (p2 & E2 & _ & _ & _ & _ & S1 & S2).
  exists p2. split; [|by rewrite S1, S2].
  unfold _lifespan. rewrite (M_bind_step _ _ _ _ _ (startup_given q a' d Hd)). exact E2.
Qed.

(** The [worker] command: once the engine is wired and the signals are handled, the
    engine is disposed however the worker ends, and the command ends as the worker
    did. *)
Theorem worker_main_disposes `{Host} run p engine p1 signals :
  closers -> accounted p -> wire_engine settings p = (Ok engine, p1) ->
  install_signal_handlers = Ok signals ->
  (forall q, accounted q -> accounted (snd (run engine (build_worker settings) q))) ->
  let r := worker_main settings run p in
  fst r = fst (run engine (build_worker settings) p1) /\ pc_engine (snd r) = None /\
  forall e, e < pc_engines_made (snd r) -> e ∈ pc_disposed (snd r).
Proof.
  intros [Hc _] Hp Hw Hs Hrun. pose proof (wire_engine_spec p Hp) as H1. rewrite Hw in H1.
  destruct H1 as [H1 _]. cbv zeta. unfold worker_main. rewrite (M_bind_step _ _ _ _ _ Hw).
  rewrite Hs, (M_bind_step (lift (Ok signals)) _ p1 signals p1 eq_refl).
  specialize (Hrun p1 H1). destruct (run engine (build_worker settings) p1) as [r p2]. cbn in Hrun.
  pose proof (dispose_engine_spec p2 Hrun) as Hd.
  assert (exists p3, dispose_engine p2 = (Ok tt, p3)) as [p3 E].
  { unfold dispose_engine, gets, modify, lift, mbind, M_bind. cbn.
    destruct (pc_engine p2); cbn; rewrite ?Hc; cbn; by eexists. }
  rewrite E in Hd |- *. destruct Hd as (H3 & H4 & _). cbn. split; [done|]. split; [done|].
  intros e He. apply (ac_made _ H3) in He as [?|He]; [done|]. by rewrite H4 in He.
Qed.
End accounting.
