(* ===== verification/Deployment.v ===== *)
(** A worker against the database: the theorems about workers and the recovery
    scan, applied to complete runs. *)

From stdpp Require Import base strings list gmap relations.
From Stdlib Require Import ZArith Lia.
From S2P Require Import Prelude Exceptions Values Enums Definitions Instance Events Samples.
From S2P Require Import Tables EventStore EventStoreTheory Leasing Outbox Ports SideEffects.
From S2P Require Import Cost LlmClient Runners Journal Driver.
From S2P Require Import Escalation DeadLetter Instances World Worker Scenarios.

Import SideEffects Cost Llm Leasing Driver Recovery Worker StoreSample ReplaySample LlmSample.
Import Scenario.

Module Deployment.

#[export] Instance leases : LeaseStore World := PgLeaseStore 30 ∅.
#[export] Instance leases_laws : LeaseStoreLaws World := PgLeaseStoreLaws 30 ∅.

Definition drive_fn := drive (worker EchoRunner).

(** Worker [w] with one slot; nothing else runs. *)
Definition quiet : World -> World -> Prop := fun _ _ => False.
Definition no_sweep : M World exn (list string) := mret [].
Abbreviation wstep := (step drive_fn "w" 1 quiet no_sweep).

(** The worker claims [i1] ... *)
Definition one_claim : state * World :=
  let s1 := default init (begin_claim 1 init) in
  let '(r, w') := ls_acquire_runnable "w" 1 (now started) started in
  (end_claim r s1, w').

Lemma one_claim_reached : rtc wstep (init, started) (fst one_claim, snd one_claim).
Proof.
  rewrite <- surjective_pairing.
  eapply rtc_l; [by apply SBeginClaim|]. eapply rtc_l; [|apply rtc_refl].
  unfold one_claim. destruct (ls_acquire_runnable "w" 1 (now started) started) as [r w'] eqn:E.
  by eapply SEndClaim.
Qed.

Definition i1_lease : Lease := default lease (fst <$> ws_active (fst one_claim) !! "i1").

(** ... is told to stop, and drives it to its end. *)
Definition drained : state * World :=
  (finished "i1" (stop (fst one_claim)),
   snd (_drive_one drive_fn "w" i1_lease (snd one_claim))).

Lemma drained_reached : rtc wstep (stop (fst one_claim), snd one_claim) (fst drained, snd drained).
Proof.
  rewrite <- surjective_pairing.
  eapply rtc_l; [|apply rtc_refl]. unfold drained.
  destruct (_drive_one drive_fn "w" i1_lease (snd one_claim)) as [r w'] eqn:E.
  apply (SFinish _ _ _ _ _ _ _ "i1" i1_lease r w'); [vm_compute; reflexivity|exact E].
Qed.
End Deployment.
Import Deployment.

Lemma worker_bounded_witness :
  size (ws_active (fst one_claim)) = 1%nat /\
  le_worker_id i1_lease = "w" /\ le_instance_id i1_lease = "i1".
Proof.
  destruct (worker_bounded drive_fn "w" 1 quiet no_sweep started (fst one_claim) (snd one_claim)
    ltac:(lia) one_claim_reached) as [H1 H2].
  split; [vm_compute; reflexivity|].
  destruct (ws_active (fst one_claim) !! "i1") as [[l c]|] eqn:E; [|vm_compute in E; discriminate E].
  destruct (H2 "i1" (l, c) E) as [H3 H4]. unfold i1_lease. rewrite E. by split.
Defined.

Lemma stopping_worker_drains_witness :
  ws_active (fst drained) = ∅ /\ ws_stopping (fst drained) = true /\
  lr_expires_at <$> db_leases (fst (snd drained)) !! "i1" = Some (- seconds 1)%Z /\
  wi_status <$> instance_of (snd drained) = Some WorkflowStatus.COMPLETED.
Proof.
  split; [vm_compute; reflexivity|]. split; [|split; vm_compute; reflexivity].
  apply (stopping_worker_drains drive_fn "w" 1 quiet no_sweep (stop (fst one_claim)) (snd one_claim)
    (fst drained) (snd drained)); [reflexivity|vm_compute; reflexivity|exact drained_reached].
Defined.

(** Two minutes after it was last touched, [i1] is orphaned; a claim repairs it. *)
Definition scan_time : time := seconds 120.

Lemma recovery_converges_witness :
  rr_orphaned_instances (scan 60 scan_time (fst started)) = ["i1"] /\
  healthy (scan 60 scan_time (claimed "w" scan_time (fst started))) = true.
Proof.
  split; [vm_compute; reflexivity|].
  destruct (acquire_runnable 30 ∅ "w" 5 scan_time (fst started)) as [[acq|e] db'] eqn:E;
    [|vm_compute in E; discriminate E].
  destruct (recovery_converges 60 30 "w" 5 scan_time (fst started) acq db') as (_ & _ & H);
    [|lia|lia|vm_compute; discriminate|exact E|].
  - intros iid r Hr. assert (dom (db_index (fst started)) = {["i1"]}) as Hd by (vm_compute; reflexivity).
    assert (iid = "i1") as ->.
    { apply elem_of_dom_2 in Hr. rewrite Hd in Hr. by apply elem_of_singleton in Hr. }
    vm_compute in Hr. injection Hr as <-. reflexivity.
  - unfold claimed. rewrite E. exact H.
Defined.
