(* ===== verification/Lifecycle.v ===== *)
(** The life of a worker ([Worker.run]): its loops, the [finally] that cancels them,
    the drain, and the end. *)

From stdpp Require Import base strings list gmap relations.
From Stdlib Require Import ZArith Lia.
From S2P Require Import Prelude Exceptions Values Tables EventStore Leasing Ports Driver Worker.
From S2P Require Import World Scenarios Deployment.

Import Leasing Driver Worker Scenario.

Section lifecycle.
Context {W : Type} {Ls : LeaseStore W} {Ck : Clock W}.
Context (drive : Lease -> (W -> res unit) -> M W exn DriveReport).
Context (worker_id : string) (concurrency : Z).
Context (env : W -> W -> Prop) (expire_due : M W exn (list string)).

Inductive phase := Looping | Draining | Stopped.

(** [self._stopping.set()], and every background task cancelled: a heartbeat in
    flight gets no reply, and none is sent any more. *)
Definition leave_loops (s : state) : state := {|
  ws_active := ws_active s; ws_stopping := true; ws_wakeup := ws_wakeup s;
  ws_claiming := ws_claiming s; ws_beating := None |}.

(** [_drain] gathers the tasks that are left, with what they raise. *)
Inductive run_step : phase * state * W -> phase * state * W -> Prop :=
| RLoop s w s' w' :
    step drive worker_id concurrency env expire_due (s, w) (s', w') ->
    run_step (Looping, s, w) (Looping, s', w')
| RLeave s w : ws_stopping s = true -> ws_claiming s = None ->
    run_step (Looping, s, w) (Draining, leave_loops s, w)
| REnv s w w' : env w w' -> run_step (Draining, s, w) (Draining, s, w')
| RStop s w : run_step (Draining, s, w) (Draining, stop s, w)
| RFinish s w iid l r w' : ws_active s !! iid = Some (l, false) ->
    _drive_one drive worker_id l w = (r, w') ->
    run_step (Draining, s, w) (Draining, finished iid s, w')
| RCancelled s w iid l w' : ws_active s !! iid = Some (l, true) ->
    snd (ls_release worker_id (le_instance_id l) w) = w' ->
    run_step (Draining, s, w) (Draining, finished iid s, w')
| RDrained s w : ws_active s = ∅ -> run_step (Draining, s, w) (Stopped, s, w).

(** What holds in each phase. *)
Definition life_inv (a : phase * state * W) : Prop :=
  let '(p, s, _) := a in
  worker_inv worker_id concurrency s /\
  match p with
  | Looping => True
  | Draining => ws_stopping s = true /\ ws_claiming s = None /\ ws_beating s = None
  | Stopped => ws_active s = ∅ /\ ws_claiming s = None /\ ws_beating s = None
  end.

Context {Ll : LeaseStoreLaws W}.

Lemma finished_inv iid s l : ws_active s !! iid = Some l ->
  worker_inv worker_id concurrency s -> worker_inv worker_id concurrency (finished iid s).
Proof.
  intros Hl [Hb Hf Ho]. split; cbn; [|done|by apply map_Forall_delete].
  rewrite map_size_delete_Some by (by eexists). lia.
Qed.

Lemma life_step a b : life_inv a -> run_step a b -> life_inv b.
Proof.
  intros Ha Hs. destruct Hs; destruct Ha as [Hi Hp].
  - split; [|done]. by eapply (step_inv _ _ _ _ _ (s, w) (s', w')).
  - by destruct Hi.
  - done.
  - destruct Hp as (? & ? & ?). by destruct Hi.
  - split; [by eapply finished_inv|done].
  - split; [by eapply finished_inv|done].
  - by destruct Hp as (? & ? & ?).
Qed.
End lifecycle.

Section lifetime.
Context {W : Type} {Ls : LeaseStore W} {Ck : Clock W} {Ll : LeaseStoreLaws W}.
Context (drive : Lease -> (W -> res unit) -> M W exn DriveReport).
Context (worker_id : string) (concurrency : Z).
Context (env : W -> W -> Prop) (expire_due : M W exn (list string)).

Abbreviation rstep := (run_step drive worker_id concurrency env expire_due).

Lemma draining_keeps s w p s' w' : rtc rstep (Draining, s, w) (p, s', w') ->
  p <> Looping /\ ws_active s' ⊆ ws_active s /\ ws_claiming s' = ws_claiming s /\
  ws_beating s' = ws_beating s.
Proof.
  intros Hr. set (P := fun a : phase * state * W => let '(q, t, _) := a in
    q <> Looping /\ ws_active t ⊆ ws_active s /\ ws_claiming t = ws_claiming s /\
    ws_beating t = ws_beating s).
  change (P (p, s', w')). eapply (rtc_keeps rstep P); [|exact Hr|by split_and!].
  intros a b Ha Hs. destruct Hs; destruct Ha as (Hq & Hsub & ? & ?); try done; split_and!; try done.
  - cbn. etransitivity; [apply delete_subseteq|done].
  - cbn. etransitivity; [apply delete_subseteq|done].
Qed.

End lifetime.

(** ** A drain that outlasts the lease *)
Module LongDrain.
Import Deployment.

(** Meanwhile nobody touches the database. *)
Definition idle : World -> World -> Prop := fun w w' => fst w' = fst w.

Abbreviation life := (run_step drive_fn "w" 1 idle no_sweep).

Definition draining : state := leave_loops (stop (fst one_claim)).

Definition later : World := (fst (snd one_claim), env_at (seconds 31) 1).

Lemma loop_steps x y : rtc wstep x y -> rtc life (Looping, fst x, snd x) (Looping, fst y, snd y).
Proof.
  intros Hr. induction Hr as [x|x y z Hs _ IH]; [apply rtc_refl|].
  eapply rtc_l; [|exact IH]. destruct x as [s w], y as [s' w']. apply RLoop.
  destruct Hs; try by econstructor.
Qed.

Lemma drain_of s w e : ws_claiming s = None ->
  rtc life (Looping, s, w) (Draining, leave_loops (stop s), (fst w, e)).
Proof.
  intros Hc. eapply rtc_l; [apply RLoop, SStop|]. eapply rtc_l; [by apply RLeave|].
  apply rtc_once. by apply REnv.
Qed.

Lemma one_claim_done : ws_claiming (fst one_claim) = None.
Proof. vm_compute. reflexivity. Qed.

Lemma loops_then s w e : rtc wstep (init, started) (s, w) -> ws_claiming s = None ->
  rtc life (Looping, init, started) (Draining, leave_loops (stop s), (fst w, e)).
Proof.
  intros Hr Hc. etransitivity; [exact (loop_steps _ _ Hr)|]. by apply drain_of.
Qed.

Lemma drain_reached : rtc life (Looping, init, started) (Draining, draining, later).
Proof.
  unfold draining, later. apply loops_then; [exact one_claim_reached|exact one_claim_done].
Qed.

(** A drain outlasts its lease.  [run] cancels the heartbeat loop before it waits
    for the tasks that are left: a worker of one slot claims an instance, is told to
    stop, and thirty-one seconds later, while its task still runs and was not
    cancelled, another worker claims the same instance; the first worker's guard no
    longer passes. *)
Theorem drain_outlasts_lease :
  rtc life (Looping, init, started) (Draining, draining, later) /\
  ws_active draining !! "i1" = Some (i1_lease, false) /\
  exists L w', ls_acquire_runnable "w2" 1 (now later) later = (Ok [L], w') /\
    le_instance_id L = "i1" /\ ls_make_guard i1_lease later = Ok tt /\
    ls_make_guard i1_lease w' <> Ok tt.
Proof.
  split; [exact drain_reached|]. split; [vm_compute; reflexivity|].
  destruct (ls_acquire_runnable "w2" 1 (now later) later) as [[[|L [|]]|e] w'] eqn:E;
    try (vm_compute in E; discriminate E).
  exists L, w'. split; [done|]. vm_compute in E. injection E as <- <-. vm_compute. done.
Qed.
End LongDrain.

