(* ===== verification/SalesRuns.v ===== *)
(** Complete runs of the reference workflow: the engine on the database, a sales
    provider, and a model that answers each agent by its system prompt. *)

From stdpp Require Import base strings list gmap pretty.
From Stdlib Require Import ZArith Lia Ascii.
From S2P Require Import Prelude Exceptions Values Text Enums Definitions Instance Events Fold.
From S2P Require Import Samples Tables EventStore EventStoreTheory Leasing Outbox Ports SideEffects.
From S2P Require Import Cost LlmClient Runners Journal Driver Instances World Scenarios.
From S2P Require Import Agents CoreAgents Sales SalesAgents Digests.

Import SideEffects Cost Llm Leasing Driver StoreSample LlmSample AgentSample SalesSample.
Import Scenario Provider Outbox SideEffects.

Module SalesRun.

(** The world of the engine and the state of the provider. *)
Abbreviation SalesWorld := (World * InMemorySalesProvider)%type.

(** A digest that tells apart the effects of this workflow. *)
#[export] Instance hashing : Hashing := {| orjson_dumps v := match v with
  | JObj o => str_of (field o "step_id" JNull) +:+ "/" +:+ str_of (field o "effect_name" JNull)
              +:+ "/" +:+ str_of (field (dict_or_empty (field o "params" JNull)) "body" (JStr ""))
  | _ => "d"
  end; sha256_hexdigest s := s |}.

#[export] Instance sales_clock : Clock SalesWorld := {| now w := now (fst w) |}.
#[export] Instance sales_ids : IdGenerator SalesWorld := {|
  new_id w := let '(i, e) := new_id (fst w) in (i, (e, snd w)) |}.
#[export] Instance sales_journal : EventJournal SalesWorld := {|
  append_new iid tid drafts ver g nw := fun w =>
    on_fst (append_new iid tid drafts ver ((fun h e => h (e, snd w)) <$> g) nw) w;
  get_instance iid tid defn := on_fst (get_instance iid tid defn) |}.
#[export] Instance sales_definitions : DefinitionSource SalesWorld := {|
  get_definition wid ver tid := on_fst (get_definition wid ver tid);
  get_active name tid := on_fst (get_active name tid) |}.
#[export] Instance sales_outbox : OutboxStore SalesWorld := {|
  claim e := on_fst (claim e);
  mark key fs := on_fst (mark key fs);
  list_for_instance i t s := on_fst (list_for_instance i t s) |}.
#[export] Instance sales_ledger : BudgetLedger SalesWorld := {|
  spent_today t day w := spent_today t day (fst w);
  record_amount t day x := on_fst (record_amount t day x) |}.
#[export] Instance sales_dead_letters : DeadLetters SalesWorld := {|
  record_dead_letter i s r := on_fst (record_dead_letter i s r) |}.
#[export] Instance sales_notifier : Notifier SalesWorld := {| notify n := on_fst (notify n) |}.

Definition provider : ActionProvider SalesWorld :=
  sales_provider snd (fun p w => (fst w, p)).

(** The model: one reply per agent, the score being [fit]. *)
#[export] Instance replies : Orjson := {| loads s :=
  if bool_decide (s = "hot") then
    Ok (JObj (list_to_map [("fit_score", JInt 90); ("rationale", JStr "good fit")]))
  else if bool_decide (s = "bad") then
    Ok (JObj (list_to_map [("fit_score", JInt 10)]))
  else Ok (JObj ∅) |}.

Definition model (fit : string) (r : LLMRequest) : M SalesWorld exn LLMResponse := fun w =>
  (Ok {| lr_model_id := "m";
         lr_text := if String.prefix "You are a sales qualification" (default "" (lrq_system r))
                    then fit else "{}";
         lr_tool_calls := []; lr_tokens_input := 10; lr_tokens_output := 10;
         lr_stop_reason := None; lr_raw := ∅ |}, w).

Definition models : ModelRegistry :=
  let m := {| mc_key := "m"; mc_model_id := "m"; mc_provider := "p"; mc_input_per_mtok := fzero;
              mc_output_per_mtok := fzero; mc_context_window := 100000;
              mc_max_output_tokens := 8000; mc_avg_latency_ms := 100; mc_reliability_score := fone;
              mc_supports_tools := true; mc_supports_vision := false;
              mc_tiers := [CostTier.CHEAP; CostTier.STANDARD] |} in
  {| reg_models := [("m", m)]; reg_chains := [] |}.

Definition engine (fit : string) : Wired SalesWorld := {|
  dr_side_effects := Some (SideEffects.register provider ∅);
  dr_llm := Some (models, {[ "p" := model fit ]});
  dr_registry := Workflow.register_sales_intelligence None None "sales" ∅;
  dr_budget := None; dr_notifier := true |}.

Definition sales_defn : WorkflowDefinition :=
  Workflow.sales_intelligence_workflow "1.0.0" false None.

Definition lead : dict := list_to_map
  [("company_name", JStr "Acme"); ("contact_email", JStr "a@acme.test")].

Definition ready : list event_body :=
  InstanceStatusChanged WorkflowStatus.PENDING WorkflowStatus.RUNNING None ::
  ((fun sid => StepStatusChanged sid StepStatus.PENDING StepStatus.READY None) <$>
     ["research"; "score"; "draft_outreach"; "send"]).

Definition start : SalesWorld :=
  ((extend ready
      (extend [InstanceCreated Workflow.WORKFLOW_ID "1.0.0" {[ "lead" := JObj lead ]} None "api" ∅]
         (registered sales_defn)), env_at 0 1), new_provider).

Definition sales_lease : Lease := {|
  le_instance_id := "i1"; le_tenant_id := "t1"; le_workflow_id := Workflow.WORKFLOW_ID;
  le_workflow_version := "1.0.0"; le_worker_id := "w"; le_fence_token := 1;
  le_expires_at := 0%Z; le_last_sequence := 0 |}.

Definition driven (fit : string) (w : SalesWorld) : res DriveReport * SalesWorld :=
  drive (engine fit) sales_lease (fun _ => Ok tt) w.

Definition output_of (w : SalesWorld) (sid : string) : option dict :=
  i ← instance_of (fst w); st ← wi_step_states i !! sid; st_output st.

(** What a provider did: the effects of its records, in order. *)
Definition acts (w : SalesWorld) : list string :=
  omap (fun a => rec_effect_name <$> sp_heap (snd w) !! a) (records (snd w)).

(** A worker that dies in the sending step after [n] effects. *)
Fixpoint cut (n : nat) (p : rprog) : rprog :=
  match p with
  | RCharge e k => RCharge e (cut n k)
  | RReview r k => RReview r (cut n k)
  | REffect name params provider k =>
      match n with
      | O => RRaise (Exn (PyExc "CancelledError") "")
      | S n => REffect name params provider (fun r => cut n (k r))
      end
  | RLlm a k => RLlm a (fun r => cut n (k r))
  | RReturn _ => match n with O => RRaise (Exn (PyExc "CancelledError") "") | S _ => p end
  | _ => p
  end.

Definition engine_with (effects : ActionProvider SalesWorld) (sender : StepRunner)
    : Wired SalesWorld := {|
  dr_side_effects := Some (SideEffects.register effects ∅);
  dr_llm := dr_llm (engine "hot");
  dr_registry := <[Workflow.OUTREACH_AGENT := sender]> (dr_registry (engine "hot"));
  dr_budget := None; dr_notifier := true |}.

Definition sender : StepRunner := run_agent (Outreach.OutreachAgent "sales").

Definition died (n : nat) : res DriveReport * SalesWorld :=
  drive (engine_with provider (fun ctx => cut n (sender ctx))) sales_lease (fun _ => Ok tt) start.

(** A provider that cannot send email. *)
Definition no_smtp : ActionProvider SalesWorld := {|
  ap_name := "sales"; supports_idempotency_key := supports_idempotency_key provider;
  ap_execute := fun req =>
    if bool_decide (erq_effect_name req = SEND_EMAIL)
    then raise (Exn (PyExc "ConnectionError") "smtp") else ap_execute provider req;
  ap_reconcile := ap_reconcile provider; ap_compensate := ap_compensate provider |}.

Definition failed : res DriveReport * SalesWorld :=
  drive (engine_with no_smtp sender) sales_lease (fun _ => Ok tt) start.

Definition statuses (w : SalesWorld) : list string :=
  omap (fun a => rec_status <$> sp_heap (snd w) !! a) (records (snd w)).

Definition result_of (r : res DriveReport * SalesWorld) : option DriveResult.t :=
  match fst r with Ok rep => Some (rp_result rep) | Err _ => None end.
End SalesRun.
Import SalesRun.

(** Sample runs of the reference workflow by the engine.  With a model that scores the
    lead below the qualify line, the run completes without any effect; scored hot, the
    lead gets one CRM task and one email; a worker that dies in the sending step after no effect,
    after the task, or after both, leaves the instance running with just those, and
    the next drive completes it with still one task and one email; and when the
    email cannot be sent, the workflow is rolled back and the task cancelled. *)
Theorem reference_workflow_runs :
  result_of (driven "bad" start) = Some DriveResult.COMPLETED /\
  acts (snd (driven "bad" start)) = [] /\
  result_of (driven "hot" start) = Some DriveResult.COMPLETED /\
  acts (snd (driven "hot" start)) = [CREATE_CRM_TASK; SEND_EMAIL] /\
  Forall (fun n =>
      is_ok (fst (died n)) = false /\ acts (snd (died n)) = take n [CREATE_CRM_TASK; SEND_EMAIL] /\
      result_of (driven "hot" (snd (died n))) = Some DriveResult.COMPLETED /\
      acts (snd (driven "hot" (snd (died n)))) = [CREATE_CRM_TASK; SEND_EMAIL])
    [0; 1; 2]%nat /\
  result_of failed = Some DriveResult.ROLLED_BACK /\
  acts (snd failed) = [CREATE_CRM_TASK] /\ statuses (snd failed) = ["cancelled"].
Proof. split_and!; repeat constructor; vm_compute; reflexivity. Qed.

Definition email_with (body : string) (w : SalesWorld) : SalesWorld :=
  snd (SideEffects.execute (SideEffects.register provider ∅) "i1" "t1" "send" SEND_EMAIL
         (list_to_map [("to", JStr "a@acme.test"); ("body", JStr body)]) "sales" w).

(** An effect is deduplicated by its parameters too.  The idempotency key
    covers the parameters, so the same effect of the same step is sent once if it is
    repeated with the same text, and twice if a retry words it differently. *)
Theorem reworded_effect_fires_again :
  acts (email_with "hello" (email_with "hello" start)) = [SEND_EMAIL] /\
  acts (email_with "hello there" (email_with "hello" start)) = [SEND_EMAIL; SEND_EMAIL].
Proof. split; vm_compute; reflexivity. Qed.
