(* ===== verification/BootstrapRuns.v ===== *)
(** The composition root on the database: the built engine, and what it makes of the
    reference workflow. *)

From stdpp Require Import base strings list gmap relations.
From Stdlib Require Import ZArith Lia.
From S2P Require Import Prelude Exceptions Values Enums Definitions Instance Events Samples.
From S2P Require Import Tables EventStore EventStoreTheory Leasing Outbox Ports SideEffects Cost.
From S2P Require Import LlmClient LlmProviders Runners Journal Integrations Driver DriverTheory.
From S2P Require Import Instances World Scenarios Agents CoreAgents Sales SalesAgents SalesRuns.
From S2P Require Import EventCodec ModelFiles Config Bootstrap Runtime.

Import Config SideEffects Cost Llm Leasing Driver StoreSample LlmSample AgentSample SalesSample.
Import Scenario SalesRun.

Section reference.
Context {Hx : Httpx World} {Nc : Noop.NoopCalls World} {Cl : Clients World} {Fs : Files}.

(** The engine that [build_engine] builds has no agents for the reference workflow.
    Whatever the settings, its registry holds the echo agent and the four generic
    agents but none of the agents of [sales_intelligence_workflow], nor its
    compensator.  In the sample run, of an instance whose steps are queued, the drive
    raises [ConfigurationError] after the first step was recorded as started. *)
Theorem built_engine_lacks_reference_agents settings engine :
  build_engine (W := World) settings None None = Ok engine ->
  dom (en_registry engine)
  = {["echo_agent"; "planner_agent"; "executor_agent"; "validator_agent"; "reflector_agent"]} /\
  Forall (fun s => ws_agent_type s ∉ dom (en_registry engine)) (wd_steps sales_defn) /\
  Workflow.COMPENSATOR_TYPE ∉ dom (en_registry engine) /\
  let '(r, w) := drive (en_driver engine) sales_lease (fun _ => Ok tt) (fst start) in
  (exists msg, r = Err (Exn ConfigurationError msg)) /\
  (st_status <$> (i ← instance_of w; wi_step_states i !! "research")) = Some StepStatus.RUNNING.
Proof.
  unfold build_engine. intros Hb.
  apply bind_Ok in Hb as (models & _ & Hb). apply bind_Ok in Hb as (llms & _ & [= <-]).
  cbn [en_registry en_driver default].
  generalize (default_providers (W := World) settings) as providers. intros providers.
  split; [vm_compute; reflexivity|].
  split; [vm_compute; repeat constructor; vm_compute; set_solver|].
  split; [vm_compute; set_solver|].
  vm_compute. split; [by eexists|done].
Qed.
End reference.

(** ** A deployment with an Anthropic key and n8n *)
Module BootstrapSample.

Definition quota : sdk_failure := SdkRateLimit "429".

#[export] Instance httpx : Httpx World := {|
  http_post url body headers w := (Ok (N8nSample.response ∅), w);
  http_get url params headers w := (Ok (N8nSample.response ∅), w);
  is_HTTPError e := false |}.
#[export] Instance calls : Noop.NoopCalls World := {| Noop.record_call _ w := w |}.
#[export] Existing Instance FilesSample.files.
#[export] Instance clients : Clients World := {|
  anthropic_client _ := {| Anthropic.messages_create _ w := (Err quota, w);
                           Anthropic.messages_count_tokens _ := mret 0%Z |};
  openai_client _ := {| OpenAI.completions_create _ w := (Err quota, w);
                        OpenAI.json_loads _ := None |};
  redis_from_url _ := true |}.

Definition configured : Settings := {|
  environment := "production"; log_level := "INFO"; log_json := true;
  database_url := database_url defaults; database_pool_size := 10; database_max_overflow := 5;
  redis_url := redis_url defaults; worker_id := None; lease_seconds := 30;
  lease_heartbeat_seconds := 10; recovery_scan_interval_seconds := 15;
  max_concurrent_steps_per_worker := 8; default_workflow_budget_usd := fone;
  org_daily_budget_usd := float_of_Z 100; anthropic_api_key := Some "sk-ant";
  openai_api_key := None; model_registry_path := "config/models.yaml";
  n8n_base_url := Some "http://n8n"; n8n_api_key := None; n8n_idempotent_effects := ["send"];
  otel_exporter_otlp_endpoint := None; otel_service_name := "agentforge";
  worker_metrics_port := 9100; api_host := "0.0.0.0"; api_port := 8000; cors_allow_origins := [];
  jwt_secret := "s"; jwt_algorithm := "HS256"; api_key_pepper := "p";
  rate_limit_per_minute := 120; execute_rate_limit_per_minute := 30;
  webhook_shared_secret := None |}.

Lemma sample_outside : outside (W := World).
Proof.
  by split; intros; repeat intro.
Qed.

Definition note : Notification := {|
  no_channel := "escalations"; no_subject := "Approval needed"; no_body := "a step waits";
  no_metadata := <["instance_id" := JStr "i1"]>
    (<["tenant_id" := JStr "t1"]> {["reason" := JStr "review"]}) |}.

Lemma built : exists engine, build_engine (W := World) configured None None = Ok engine.
Proof.
  destruct (build_engine (W := World) configured None None) as [engine|e] eqn:E; [by exists engine|].
  assert (is_ok (build_engine (W := World) configured None None) = true) as H
    by (vm_compute; exact eq_refl).
  rewrite E in H. discriminate H.
Qed.
End BootstrapSample.
Import BootstrapSample.

Lemma built_engine_framed_witness :
  exists engine, build_engine configured None None = Ok engine /\
    wired_frame (en_driver engine) /\ is_Some ((en_llm engine).2 !! "anthropic") /\
    ~ is_Some ((en_llm engine).2 !! "openai").
Proof.
  destruct built as [engine E].
  destruct (built_engine_framed sample_outside configured None engine E) as (H1 & _ & _ & _ & _ & H2).
  exists engine. split; [done|]. split; [exact H1|]. rewrite !H2. split.
  - exact (or_introl (conj eq_refl eq_refl)).
  - intros [[? _]|[_ H]]; [done|vm_compute in H; discriminate H].
Defined.

Lemma built_notifier_delivers_witness :
  _build_notifier configured note (fst start) = (Ok tt, fst start).
Proof.
  destruct (built_notifier_delivers configured note (fst start)) as (_ & _ & H).
  { unfold loggable, Notifications.taken. repeat constructor; vm_compute; reflexivity. }
  specialize (H eq_refl eq_refl). rewrite (surjective_pairing (_build_notifier _ _ _)), H.
  f_equal.
Defined.

Lemma built_engine_lacks_reference_agents_witness :
  exists engine, build_engine configured None None = Ok engine /\
    Workflow.COMPENSATOR_TYPE ∉ dom (en_registry engine).
Proof.
  destruct built as [engine E].
  exists engine. split; [done|].
  destruct (built_engine_lacks_reference_agents configured engine E) as (_ & _ & Hc & _).
  exact Hc.
Defined.

(** ** The lifespan of the built application *)

Module Pooled.
#[export] Instance pools : Runtime.Pools := {|
  Runtime.create_async_engine _ := Ok tt; Runtime.engine_dispose _ := Ok tt;
  Runtime.redis_aclose _ := Ok tt |}.

Lemma pools_close : Runtime.closers.
Proof. by split. Qed.
End Pooled.
Import Pooled.

Lemma second_lifespan_runs_on_closed_clients_witness :
  exists p1 a1 d,
    Runtime._lifespan configured (mret tt) (Runtime.booted, Runtime.create_app (W := World) configured None)
      = (Ok tt, (p1, a1)) /\
    Runtime.app_deps a1 = Some d /\ Runtime.de_sessionmaker d ∈ Runtime.pc_disposed p1.
Proof.
  destruct (Runtime._lifespan configured (mret tt) (Runtime.booted, Runtime.create_app (W := World) configured None))
    as [[[]|x] [p1 a1]] eqn:E.
  2:{ assert (is_ok (fst (Runtime._lifespan configured (mret tt)
        (Runtime.booted, Runtime.create_app (W := World) configured None))) = true) as H
        by (vm_compute; exact eq_refl). rewrite E in H. discriminate H. }
  destruct (Runtime.second_lifespan_runs_on_closed_clients configured Runtime.booted p1 a1
    pools_close Runtime.booted_accounted E) as (d & H1 & H2 & _).
  exists p1, a1, d. exact (conj eq_refl (conj H1 H2)).
Defined.
